(* ===== verification/_CoqProject ===== *)
-Q . S2P
Prelude.v
Env.v
Prog.v
Instance.v
Trace.v
Threads.v
Interleaving.v
Schedules.v
Serial.v
CString.v
Decimal.v
HttpCommon.v
HttpServer.v
HttpHeader.v
HttpInv.v
HttpGet.v
HttpPost.v
HttpParse.v
HttpWork.v
HttpTask.v
HttpRequests.v
HttpSession.v
HttpIsolation.v
HttpServing.v
HttpClaims.v
HttpExamples.v
UdpClient.v
UdpClientSpec.v
UdpClientThreads.v
UdpClientConcurrent.v
UdpServer.v
UdpServerSpec.v
UdpLiveness.v
UdpServerApi.v
UdpTypes.v
UdpThreads.v
UdpHarmless.v
UdpConcurrent.v
UdpShutdown.v
UdpRaces.v
UdpExamples.v
FtpClient.v
FtpTask.v
FtpClientSpec.v
FtpReplies.v
FtpDialogue.v
FtpTransfer.v
FtpDownload.v
FtpLiveness.v
FtpExamples.v
