(* ===== verification/Prelude.v ===== *)
(** * Uni.NET: a verification library

    Uni.NET is a C library of network services on top of FreeRTOS and
    FreeRTOS+TCP.  Its sources (directory [src/src]) are four modules:

    - an HTTP server, [uni_net_http_server.c] with [uni_net_http_common.c]: a task
      that accepts clients on port 80, accumulates and parses requests, serves
      registered files and handlers on GET and passes request bodies to handlers
      on POST;
    - a UDP client, [uni_net_udp_client.c]: a socket behind a mutex, with timeouts
      and a default peer;
    - a UDP server, [uni_net_udp_server.c]: a task that receives bursts of
      zero-copy datagrams and hands them to a callback, and a synchronous API;
    - an FTP client, [uni_net_ftp_client.c]: a task that logs in, runs a startup
      dialogue and then downloads files or listings over passive connections,
      steered by requests of the application and by a callback.

    The modules do not call each other, except that the UDP server uses the
    endpoint type of the UDP client; each interacts with the network stack, the
    kernel and the callbacks of the application.

    ** The model

    Every function of the four modules is a definition with the name it has in C,
    in the file named after its source: [HttpCommon], [HttpServer], [UdpClient],
    [UdpServer], [FtpClient].  Structs are records with the fields of the source
    in the order of the source; a NULL context, buffer or output parameter is
    [None]; other pointers and handles are numbers ([ptr], with [NULL] = 0).
    Buffers are lists of bytes of the size the source gives them, and every access
    to one is checked: an access outside of the buffer stops the program with
    [UB].  A C integer is a [Z] that is wrapped ([u32], [u64], [i32], [size_t], ...)
    where the source assigns or converts it; [Overflow] is a signed operation that
    leaves its range.

    - [Prelude] (this file): record updates, machine integers, bytes;
    - [Env]: the configuration ([Platform], with the bounds that the stack's own
      headers enforce in [PlatformOk]), the pure helpers of Uni.Common and Uni.Hal
      ([UniCommon], with the laws of their documentation in [UniCommonSpec]), and
      the effectful calls: [call] with the type of each answer, [resp];
    - [Prog]: programs that make such calls.  [run] executes one against a concrete
      environment; [wp], [wlp] and [wp_gen] speak about every environment that
      honours a [contract]; [M] passes the context through;
    - [Trace]: what a trace of calls shows: open sockets, live and held mutexes,
      lent payloads, bytes sent and received;
    - [CString], [Decimal]: the parts of the C library the sources use, and decimal
      numbers written and read;
    - [Instance]: a concrete platform and environment that satisfy the classes and
      contracts; [HttpExamples], [UdpExamples] and [FtpExamples] run the model on
      them and apply each theorem with hypotheses to a concrete case.

    The network stack, the kernel, the heap and the application are not modelled
    by code: their answers are arbitrary within a contract.  The contracts state
    documented behaviour only: [tcp_ok] and [ftp_ok] (a receive returns at most the
    bytes asked for), [udp_ok] (the same for datagrams), [task_ok] (memory does not
    run out, which the server's code does not check), [draining] and [generous]
    (a send accepts what the stack said there is space for; a peer that goes on),
    [segments], [peer], [poster], [serving] and [says] (the peer sends these bytes),
    [file_server] (an FTP server that answers and delivers a file, in pieces of any size),
    [steady], [quiet], [asks] and [fresh] (what the application asks for and which sockets are new),
    [up_by] and [stops_by] (the network comes up, the stop flag is seen, by the
    [k]-th look); [any_answer] promises nothing.

    Concurrency.  A task shares its context with its callers.  In the UDP server
    the flag [stop_requested] and the handle [task], which one side reads while the
    other may write, are reads of the environment.  In the FTP client the requests
    of the application ([ftp_request]: download, list, disconnect, set_callback)
    take effect at the two points where the task lets others run: while it waits
    in [FreeRTOS_select], and inside the callback.  For the UDP modules the grain is
    finer: [UdpThreads] and [UdpClientThreads] give the functions that tasks call on a
    shared context a second time, load by load and store by store, as threads that other
    threads may interrupt anywhere; [threads_alone] and the [is_function] lemmas tie
    them to the definitions of [UdpServer] and [UdpClient].  [Threads] and [Interleaving]
    are generic in the context: threads, the steps of a pool of them over a shared
    context, mutexes and sockets, and a rely-guarantee logic; [Schedules] executes
    schedules, and [Serial] proves that threads with one critical section each run as
    if one after the other.

    Fuel.  Loops that the source bounds recurse on their bound.  Other loops carry
    fuel: the file transfer uses one more than the size of the file, the burst one
    more than its budget, the lines of a reply one more than the length of the
    text, the header lines one more than the length of the header, and the
    theorems prove that this is enough.  Only the loops that wait for another task
    or for the network ([wait_network], [wait_up], [idle_loop], [receive_loop],
    [wait_task], the FTP thread and the data of an FTP transfer) take fuel as a
    parameter; [http_server_comes_up], [udp_server_stops], [ftp_data_accounts],
    [download_completes] and [ftp_disconnect_ends] give conditions under which it is enough.

    ** What is proved

    HTTP server.  [HttpHeader]: the response header is exact and fits
    ([send_header_exact]).  [HttpInv], [HttpWork], [HttpTask]: the invariants of
    client, table and server hold in every turn and nothing is undefined, whatever
    peers and stack do ([http_thread_safe]), and the server comes up when the
    network does ([http_server_comes_up]).  [HttpGet], [HttpPost]: a file reaches
    the wire in order and completely ([file_transfer_delivers]); a request body
    reaches its handler in order, exactly up to its length, and is answered
    ([post_exchange_delivers]).  [HttpParse], [HttpRequests]: a rendered request is
    parsed back ([request_dispatched]), however it is cut into segments
    ([segments_accumulate]), and routed ([get_request_routed]); lengths wrap
    ([content_length_wraps]).  [HttpClaims], [HttpCommon]: content types,
    registration, the client table ([new_client_slot], [failed_client_released]),
    and what is not answered or cleared too early ([other_methods_unanswered],
    [init_flag_cleared]).  [HttpSession] puts parser, dispatcher and sender together:
    whole GET and POST sessions from the first segment to the last byte of the
    answer ([get_session], [post_session]).  [HttpIsolation]: serving one client
    does not touch the others ([http_client_isolated]).  [HttpServing]: in the turns of
    the whole server, whatever the other clients and new connections do, a client
    that asks for a file gets it ([every_client_served]).

    UDP.  [UdpClientSpec]: no leaks, the mutex around each use of the socket, whole
    datagrams, timeouts, inert after deinit, network byte order.  [UdpClientConcurrent]:
    the operations of tasks that share a client are serializable
    ([udp_client_serializable]), and the schedules that the mutex does not cover
    ([get_timeouts_torn], [deinit_under_callers]).  [UdpServerSpec],
    [UdpServerApi], [UdpLiveness]: from start to stop every datagram is delivered
    once and in order and every buffer, socket and mutex is given back
    ([udp_server_run_accounts]), a burst is bounded, a synchronous receive restores
    the timeout, a send is exact and does not deadlock, and a stop comes through.
    [UdpTypes]: every field and every argument of a call is in the range of its C type
    ([udp_server_well_typed]).  [UdpHarmless], [UdpConcurrent], [UdpShutdown]: in every
    interleaving of the receive loop with callers in any number of tasks the mutex
    protects socket and timeouts ([udp_server_callers_exclusive]), nobody waits
    forever ([udp_server_callers_finish]), and stop takes the server down cleanly
    ([udp_server_stop_clean]).  [UdpRaces] has the schedules in which the code is not
    protected: a receive that undoes a change of the timeouts or loses a count, and a
    stop during the set-up of the task.

    FTP client.  [FtpTask] has an abstract machine of the task, [task_step];
    [FtpClientSpec] proves that the whole thread refines it, safely and without
    closing what it does not own ([ftp_thread_refines]).  [FtpReplies]: the lines of
    the command connection and the passive reply.  [FtpDialogue]: the startup
    dialogue refines a reference dialogue.  [FtpTransfer]: data, requests, command
    lines, and the defects ([list_ends_before_data],
    [no_size_ends_after_one_segment], [disconnect_lost_in_callback],
    [error_reported_twice], [passive_twice_leaks]).  [FtpDownload] puts these parts
    together: turn by turn, a download comes to its end and the callback has the file
    ([download_completes]).  [FtpLiveness]: a disconnect ends the session.

    ** What is not modelled

    The sources of FreeRTOS+TCP and FreeRTOS (third party: the contracts above
    stand for them), Uni.Common and Uni.Hal (not in the repository: parameters with
    laws), the log output [FreeRTOS_printf] of the HTTP server and the debug macros
    of the FTP client (no effect on the state; empty in the default build), and the
    functions that a header declares and no source defines (broadcast and checksum
    settings).  Interleavings at the grain of single loads and stores are modelled for
    the two UDP modules; in the HTTP server and the FTP client a second task that changes
    a context between two statements of the first, other than at the points named
    above, is not modelled. *)

From stdpp Require Export base tactics list numbers strings gmap.
From Stdlib Require Export Ascii.
From Stdlib Require String.
#[global] Open Scope list_scope.
From coqutil Require Export Datatypes.RecordSetters.
Export TriangleBracketNotations.

#[global] Open Scope Z_scope.

(** ** Record updates

    [x <| field := v |>] comes from coqutil.  The setter of a field is built from
    the expansion of a record by its projections, so that an update reduces to
    the constructor applied to projections of [x]. *)

Class Eta (R : Type) := eta_of : R -> R.

Ltac eta_setter R E getter :=
  let inst := constr:(ltac:(typeclasses eauto) : Eta R) in
  let inst := lazymatch inst with ?i => i end in
  let h := head inst in
  exact (fun (upd : E -> E) (r : R) => ltac:(
    let b := eval cbv beta delta [h] in (inst r) in
    lazymatch b with
    | context C [getter r] => let b' := context C [upd (getter r)] in exact b'
    end)).

#[global] Hint Extern 0 (@Setter ?R ?E ?getter) => eta_setter R E getter : typeclass_instances.
#[global] Arguments constant {E} newValue _ /.

(** ** Machine integers

    A C integer is a [Z] kept in the range of its type by an explicit
    wrap-around at the places where the code assigns or converts it. *)

Definition u8 (z : Z) : Z := z mod 2 ^ 8.
Definition u16 (z : Z) : Z := z mod 2 ^ 16.
Definition u32 (z : Z) : Z := z mod 2 ^ 32.
Definition u64 (z : Z) : Z := z mod 2 ^ 64.
Definition i32 (z : Z) : Z := (z + 2 ^ 31) mod 2 ^ 32 - 2 ^ 31.

#[global] Arguments u8 : simpl never.
#[global] Arguments u16 : simpl never.
#[global] Arguments u32 : simpl never.
#[global] Arguments u64 : simpl never.
#[global] Arguments i32 : simpl never.

Lemma u32_small z : 0 <= z < 2 ^ 32 -> u32 z = z.
Proof. apply Z.mod_small. Qed.

Lemma u64_small z : 0 <= z < 2 ^ 64 -> u64 z = z.
Proof. apply Z.mod_small. Qed.

Lemma u16_small z : 0 <= z < 2 ^ 16 -> u16 z = z.
Proof. apply Z.mod_small. Qed.

Lemma u32_range z : 0 <= u32 z < 2 ^ 32.
Proof. by apply Z.mod_pos_bound. Qed.

Lemma u16_range z : 0 <= u16 z < 2 ^ 16.
Proof. by apply Z.mod_pos_bound. Qed.

Lemma i32_small z : - 2 ^ 31 <= z < 2 ^ 31 -> i32 z = z.
Proof. intros. unfold i32. rewrite Z.mod_small; lia. Qed.

Lemma i32_range z : - 2 ^ 31 <= i32 z < 2 ^ 31.
Proof. unfold i32. pose proof (Z.mod_pos_bound (z + 2 ^ 31) (2 ^ 32)). lia. Qed.

(** Bit fields that do not overlap add up. *)
Lemma lor_shift y x k : 0 <= k -> 0 <= x < 2 ^ k -> Z.lor (Z.shiftl y k) x = y * 2 ^ k + x.
Proof.
  intros Hk Hx. rewrite <- Z.shiftl_mul_pow2 by done. symmetry. apply Z.add_nocarry_lor.
  apply Z.bits_inj'. intros n Hn. rewrite Z.land_spec, Z.bits_0.
  destruct (Z.ltb_spec n k).
  - by rewrite Z.shiftl_spec_low.
  - rewrite andb_comm. by rewrite (proj1 (Z.bounded_iff_bits_nonneg' k x Hk ltac:(lia))).
Qed.

(** ** Bytes

    A [char] or [uint8_t] is an [ascii]; a buffer is a list of them. *)

Abbreviation byte := ascii.
Abbreviation bytes := (list ascii).

Definition B (s : string) : bytes := String.list_ascii_of_string s.


#[global] Arguments B : simpl never.

Lemma length_B s : length (B s) = String.length s.
Proof. induction s; simpl; [done|]. by f_equal. Qed.

Definition NUL : byte := "000"%char.
Definition HT : byte := "009"%char.
Definition LF : byte := "010"%char.
Definition CR : byte := "013"%char.
Definition SP : byte := " "%char.

(** The value of a character as the C code compares it. *)
Definition code (c : byte) : Z := Z.of_N (N_of_ascii c).

Definition beqb (a b : byte) : bool := bool_decide (a = b).

Lemma code_range c : 0 <= code c < 256.
Proof.
  unfold code. pose proof (N_ascii_bounded c). lia.
Qed.

#[global] Arguments code : simpl never.
#[global] Arguments beqb : simpl never.

Lemma beqb_refl c : beqb c c = true.
Proof. by apply bool_decide_eq_true. Qed.

Lemma beqb_neq c d : c <> d -> beqb c d = false.
Proof. intros. by apply bool_decide_eq_false. Qed.

(** The length of a buffer as a C [size_t]/[uint32_t] quantity. *)
Abbreviation len l := (Z.of_nat (length l)).
