(* ===== verification/Env.v ===== *)
(** * The environment of the program

    What the four modules of Uni.NET call and do not define: the FreeRTOS
    kernel, the FreeRTOS+TCP socket API, the helpers of Uni.Common and Uni.Hal
    and the callbacks that the application installs.

    - [Platform] holds the compile-time configuration;
    - [UniCommon] holds the pure helpers of the two libraries that are not part
      of the repository, [UniCommonSpec] what the code relies on;
    - [call] lists the effectful calls, [resp] the type of their answers;
    - [prog] is the type of programs that make such calls, [run] executes one
      against a concrete environment and [wp] is the weakest precondition over
      every environment that honours a contract. *)

From S2P Require Import Prelude.

(** ** Configuration *)

Class Platform := {
  ipconfigTCP_MSS : Z;
  ipconfigUDP_MAX_RX_PACKETS : Z;
  configMINIMAL_STACK_SIZE : Z;
  pdMS_TO_TICKS : Z -> Z;
  (** [sizeof(uni_net_http_server_client_state_t)] *)
  sizeof_http_client : Z;
  (** [sizeof(struct freertos_sockaddr)] *)
  sizeof_sockaddr : Z;
  (** width of [size_t] *)
  size_bits : Z;
  (** width of [long] *)
  long_bits : Z;
  (** error numbers of the FreeRTOS kernel *)
  pdFREERTOS_ERRNO_EWOULDBLOCK : Z;
  pdFREERTOS_ERRNO_EINVAL : Z;
  pdFREERTOS_ERRNO_EALREADY : Z;
  pdFREERTOS_ERRNO_ETIMEDOUT : Z;
  pdFREERTOS_ERRNO_ENOTCONN : Z;
  (** whether the DNS client is compiled in *)
  ipconfigUSE_DNS : bool;
}.

Definition errnos `{Platform} : list Z :=
  [pdFREERTOS_ERRNO_EWOULDBLOCK; pdFREERTOS_ERRNO_EINVAL; pdFREERTOS_ERRNO_EALREADY;
   pdFREERTOS_ERRNO_ETIMEDOUT; pdFREERTOS_ERRNO_ENOTCONN].

(** [FreeRTOSIPConfigDefaults.h] rejects a smaller [ipconfigTCP_MSS] at compile
    time, and the stack keeps a segment size in 16 bits. *)
Class PlatformOk `{Platform} : Prop := {
  MSS_min : 536 <= ipconfigTCP_MSS;
  MSS_max : ipconfigTCP_MSS < 2 ^ 16;
  size_bits_ok : size_bits = 32 \/ size_bits = 64;
  long_bits_ok : long_bits = 32 \/ long_bits = 64;
  errno_pos : Forall (fun e => 0 < e < 2 ^ 31) errnos;
}.

Definition size_t `{Platform} (z : Z) : Z := z mod 2 ^ size_bits.

#[global] Arguments size_t : simpl never.

Lemma size_bits_ge `{PlatformOk} : 2 ^ 32 <= 2 ^ size_bits.
Proof. destruct size_bits_ok as [-> | ->]; lia. Qed.

Lemma size_t_small `{PlatformOk} z : 0 <= z < 2 ^ 32 -> size_t z = z.
Proof. intros. unfold size_t. pose proof size_bits_ge. apply Z.mod_small; lia. Qed.

Lemma size_t_range `{PlatformOk} z : 0 <= size_t z < 2 ^ size_bits.
Proof. unfold size_t. pose proof size_bits_ge. apply Z.mod_pos_bound; lia. Qed.

(** ** Formatted output

    The argument list of a [printf]-like call, already split at the
    conversions of its format string. *)

Inductive fmt : Set :=
| F_lit (s : bytes)
| F_s (s : bytes)
| F_d (z : Z)
| F_u (z : Z).

Definition digit (d : Z) : byte := ascii_of_N (Z.to_N (48 + d)).

Fixpoint dec_fuel (n : nat) (z : Z) (acc : bytes) : bytes :=
  match n with
  | O => acc
  | S n' =>
      let acc' := digit (z mod 10) :: acc in
      if z <? 10 then acc' else dec_fuel n' (z / 10) acc'
  end.

(** Decimal digits of a natural number below [10^20]. *)
Definition dec (z : Z) : bytes := dec_fuel 20 z [].

#[global] Arguments digit : simpl never.
#[global] Arguments dec : simpl never.

Definition render1 (f : fmt) : bytes :=
  match f with
  | F_lit s | F_s s => s
  | F_d z => if z <? 0 then "-"%char :: dec (- z) else dec z
  | F_u z => dec z
  end.

Definition render (fs : list fmt) : bytes := flat_map render1 fs.

#[global] Arguments render1 : simpl never.
#[global] Arguments render : simpl never.

Lemma render_nil : render [] = [].
Proof. done. Qed.
Lemma render_cons f fs : render (f :: fs) = render1 f ++ render fs.
Proof. done. Qed.
Lemma render1_lit s : render1 (F_lit s) = s.
Proof. done. Qed.
Lemma render1_s s : render1 (F_s s) = s.
Proof. done. Qed.
Lemma render1_u z : render1 (F_u z) = dec z.
Proof. done. Qed.
Create Rewrite HintDb render.
Create Rewrite HintDb render_len.
#[global] Hint Rewrite render_nil render_cons render1_lit render1_s render1_u : render.
#[global] Hint Rewrite @length_app @length_cons @length_nil length_B : render_len.

(** ** Uni.Common and Uni.Hal *)

Class UniCommon := {
  uni_common_math_min : Z -> Z -> Z;
  uni_common_math_min3 : Z -> Z -> Z -> Z;
  uni_common_bytes_swap16 : Z -> Z;
  uni_common_array_t : Type -> Type;
  uni_common_array_valid : forall {A}, uni_common_array_t A -> bool;
  uni_common_array_size : forall {A}, uni_common_array_t A -> nat;
  uni_common_array_get : forall {A}, uni_common_array_t A -> nat -> option A;
  uni_common_array_push_back : forall {A}, uni_common_array_t A -> A -> bool * uni_common_array_t A;
  (** [snprintf buf n fmt]: the characters stored before the terminating NUL
      and the return value. *)
  uni_hal_io_stdio_snprintf : Z -> list fmt -> bytes * Z;
}.

(** The abstract contents of an array: what [get] returns below [size]. *)
Definition array_list `{UniCommon} {A} (a : uni_common_array_t A) : list A :=
  omap (uni_common_array_get a) (seq 0 (uni_common_array_size a)).

Class UniCommonSpec `{UniCommon} : Prop := {
  min_spec a b : uni_common_math_min a b = Z.min a b;
  min3_spec a b c : uni_common_math_min3 a b c = Z.min a (Z.min b c);
  swap16_spec z : 0 <= z < 2 ^ 16 ->
    uni_common_bytes_swap16 z = (z mod 2 ^ 8) * 2 ^ 8 + z / 2 ^ 8;
  array_get_spec {A} (a : uni_common_array_t A) i :
    (i < uni_common_array_size a)%nat -> is_Some (uni_common_array_get a i);
  array_push_ok {A} (a a' : uni_common_array_t A) x :
    uni_common_array_push_back a x = (true, a') ->
    array_list a' = array_list a ++ [x] /\ uni_common_array_valid a' = true;
  array_push_fail {A} (a a' : uni_common_array_t A) x :
    uni_common_array_push_back a x = (false, a') -> a' = a;
  (** C's [snprintf]: at most [n - 1] characters, the full length returned *)
  snprintf_spec n fs : 0 < n ->
    uni_hal_io_stdio_snprintf n fs
    = (take (Z.to_nat (n - 1)) (render fs), len (render fs));
}.

(** [FreeRTOS_htons] and [FreeRTOS_inet_addr_quick] on a little-endian target. *)
Definition htons (z : Z) : Z := u16 (Z.lor (Z.shiftl z 8) (Z.shiftr z 8)).

Definition FreeRTOS_inet_addr_quick (o0 o1 o2 o3 : Z) : Z :=
  Z.lor (Z.lor (Z.lor (Z.shiftl o3 24) (Z.shiftl o2 16)) (Z.shiftl o1 8)) o0.

#[global] Arguments htons : simpl never.
#[global] Arguments FreeRTOS_inet_addr_quick : simpl never.

(** ** Calls *)

(** A pointer to an opaque object: a socket, a socket set, a semaphore, a task,
    a payload buffer, a user datum. [0] is [NULL]. *)
Abbreviation ptr := Z (only parsing).
Definition NULL : ptr := 0.

(** [FREERTOS_INVALID_SOCKET] is [( Socket_t ) ~0U]. *)
Definition FREERTOS_INVALID_SOCKET : ptr := 2 ^ 32 - 1.

Definition FREERTOS_AF_INET := 2.
Definition FREERTOS_SOCK_STREAM := 1.
Definition FREERTOS_SOCK_DGRAM := 2.
Definition FREERTOS_IPPROTO_TCP := 6.
Definition FREERTOS_IPPROTO_UDP := 17.
Definition FREERTOS_INADDR_ANY := 0.
Definition FREERTOS_ZERO_COPY := 1.
Definition FREERTOS_MSG_DONTWAIT := 16.
Definition eSELECT_READ := 1.
Definition eSELECT_WRITE := 2.
Definition eSELECT_EXCEPT := 4.
Definition eSELECT_ALL := 15.
Definition pdTRUE := 1.
Definition pdFALSE := 0.

(** [struct freertos_sockaddr], the members that the modules set or read. *)
Record sockaddr : Set := mk_sockaddr {
  sin_family : Z;
  sin_port : Z;
  sin_addr : Z;
}.
#[global] Instance eta_sockaddr : Eta sockaddr := fun x =>
  mk_sockaddr x.(sin_family) x.(sin_port) x.(sin_addr).

(** [WinProperties_t] *)
Record WinProperties : Set := mk_WinProperties {
  lTxBufSize : Z;
  lTxWinSize : Z;
  lRxBufSize : Z;
  lRxWinSize : Z;
}.
#[global] Instance eta_WinProperties : Eta WinProperties := fun x =>
  mk_WinProperties x.(lTxBufSize) x.(lTxWinSize) x.(lRxBufSize) x.(lRxWinSize).

(** [FreeRTOS_setsockopt] option name and value. *)
Inductive sockopt : Set :=
| FREERTOS_SO_RCVTIMEO (ticks : Z)
| FREERTOS_SO_SNDTIMEO (ticks : Z)
| FREERTOS_SO_WIN_PROPERTIES (w : WinProperties)
| FREERTOS_SO_UDP_MAX_RX_PACKETS (n : Z).

(** [uni_net_udp_endpoint_t] *)
Record udp_endpoint : Set := mk_endpoint {
  ep_addr : Z;
  ep_port : Z;
}.
#[global] Instance eta_udp_endpoint : Eta udp_endpoint := fun x =>
  mk_endpoint x.(ep_addr) x.(ep_port).

(** [uni_net_ftp_client_task_t] *)
Record ftp_task : Set := mk_ftp_task {
  task_type : Z;
  task_state : Z;
  cookie_file : ptr;
  progress : Z;
  progress_total : Z;
  task_name : bytes;
}.
#[global] Instance eta_ftp_task : Eta ftp_task := fun x =>
  mk_ftp_task x.(task_type) x.(task_state) x.(cookie_file) x.(progress) x.(progress_total) x.(task_name).

(** What the application can ask of an FTP client from another task or from
    inside its callback. *)
Inductive ftp_request : Set :=
| Ftp_download (filename : bytes) (cookie : ptr) (size : Z)
| Ftp_list
| Ftp_disconnect
| Ftp_set_callback (callback cookie : ptr).

Inductive call : Set :=
(* FreeRTOS+TCP *)
| FreeRTOS_socket (domain type protocol : Z)
| FreeRTOS_closesocket (s : ptr)
| FreeRTOS_bind (s : ptr) (a : sockaddr)
| FreeRTOS_listen (s : ptr) (backlog : Z)
| FreeRTOS_accept (s : ptr)
| FreeRTOS_connect (s : ptr) (a : sockaddr)
| FreeRTOS_setsockopt (s : ptr) (o : sockopt)
| FreeRTOS_send (s : ptr) (d : bytes)
| FreeRTOS_recv (s : ptr) (n : Z)
| FreeRTOS_recv_zero_copy (s : ptr) (n : Z) (flags : Z)
| FreeRTOS_ReleaseTCPPayloadBuffer (s buf : ptr) (cnt : Z)
| FreeRTOS_recvcount (s : ptr)
| FreeRTOS_tx_space (s : ptr)
| FreeRTOS_issocketconnected (s : ptr)
| FreeRTOS_recvfrom (s : ptr) (n : Z)
| FreeRTOS_recvfrom_zero_copy (s : ptr) (flags : Z)
| FreeRTOS_ReleaseUDPPayloadBuffer (p : ptr)
| FreeRTOS_sendto (s : ptr) (d : bytes) (to : sockaddr)
| FreeRTOS_CreateSocketSet
| FreeRTOS_DeleteSocketSet (set : ptr)
| FreeRTOS_FD_SET (s set : ptr) (bits : Z)
| FreeRTOS_FD_CLR (s set : ptr) (bits : Z)
| FreeRTOS_FD_ISSET (s set : ptr)
| FreeRTOS_select (set : ptr) (ticks : Z)
| FreeRTOS_IsNetworkUp
| FreeRTOS_SignalSocket (s : ptr)
| FreeRTOS_SignalSocketFromISR (s : ptr)
(* FreeRTOS kernel *)
| xSemaphoreCreateMutex
| xSemaphoreTake (lock : ptr)
| xSemaphoreGive (lock : ptr)
| vSemaphoreDelete (lock : ptr)
| vTaskDelay (ticks : Z)
| xTaskCreate (name : string) (stack prio : Z)
| xTaskGetCurrentTaskHandle
| vTaskDelete
| pvPortCalloc (n size : Z)
| vPortFree (p : ptr)
(* application callbacks *)
| http_handler (function userdata : ptr) (buf_out_size : Z) (buf_in : option bytes)
| ftp_callback (function cookie : ptr) (task : ftp_task) (type : Z) (data : option bytes) (size : Z)
| udp_on_receive (function user : ptr) (payload : ptr) (data : bytes) (length : Z) (from : udp_endpoint)
| FreeRTOS_inet_addr (s : bytes)
| FreeRTOS_gethostbyname (s : bytes)
| uni_hal_io_stdio_printf (fs : list fmt)
(* shared data that another task writes *)
| read_stop_requested
| read_server_task
| ftp_requests.

(** The answer of each call: the return value and what it writes through its
    output parameters. *)
Definition resp (c : call) : Set :=
  match c with
  | FreeRTOS_socket _ _ _ | FreeRTOS_accept _ | FreeRTOS_CreateSocketSet
  | xSemaphoreCreateMutex | xTaskGetCurrentTaskHandle | pvPortCalloc _ _ => ptr
  | FreeRTOS_recv _ _ => Z * bytes
  | FreeRTOS_recv_zero_copy _ _ _ => Z * (ptr * bytes)
  | FreeRTOS_recvfrom _ _ => Z * bytes * sockaddr * Z
  | FreeRTOS_recvfrom_zero_copy _ _ => Z * (ptr * bytes) * sockaddr
  | xTaskCreate _ _ _ => Z * ptr
  | http_handler _ _ _ _ => Z * bytes
  | read_stop_requested => bool
  | ftp_callback _ _ _ _ _ _ | ftp_requests => list ftp_request
  | FreeRTOS_ReleaseTCPPayloadBuffer _ _ _ | FreeRTOS_ReleaseUDPPayloadBuffer _
  | FreeRTOS_DeleteSocketSet _ | FreeRTOS_FD_SET _ _ _ | FreeRTOS_FD_CLR _ _ _
  | xSemaphoreTake _ | xSemaphoreGive _ | vSemaphoreDelete _ | vTaskDelay _
  | vTaskDelete | vPortFree _ | uni_hal_io_stdio_printf _
  | udp_on_receive _ _ _ _ _ _ => unit
  | _ => Z
  end.

(** One call that was made, with its answer; a trace is in the order of time. *)
Record event : Set := Ev { ev_call : call; ev_ret : resp ev_call }.
Abbreviation trace := (list event).
