(* ===== verification/Prog.v ===== *)
(** * Programs over the environment

    [prog A] is a computation that makes calls and returns an [A], or stops:
    [UB] marks undefined behaviour of C (a NULL dereference, an access outside
    of an object), [Overflow] a signed integer that leaves the range of its type,
    [OutOfFuel] a loop whose fuel did not suffice.

    [wp ok p Q t] says that after the calls of [t], whatever the environment
    answers within the contract [ok], the program [p] neither stops nor runs
    out of fuel and ends with a result and a trace in [Q].  [wlp] is the same
    without the claim that the fuel suffices.  [run] executes a program
    against one environment; [wp_run] connects the two. *)

From S2P Require Import Prelude Env.

Inductive stop : Set := UB | Overflow | OutOfFuel.

Inductive prog (A : Type) : Type :=
| Ret (a : A)
| Vis (c : call) (k : resp c -> prog A)
| Stop (e : stop).
Arguments Ret {A} a.
Arguments Vis {A} c k.
Arguments Stop {A} e.

Fixpoint bind {A B} (p : prog A) (f : A -> prog B) : prog B :=
  match p with
  | Ret a => f a
  | Vis c k => Vis c (fun r => bind (k r) f)
  | Stop e => Stop e
  end.

(** ** Execution *)

Abbreviation environment := (trace -> forall c : call, resp c).

Fixpoint run {A} (env : environment) (p : prog A) (t : trace) : (A + stop) * trace :=
  match p with
  | Ret a => (inl a, t)
  | Vis c k => let r := env t c in run env (k r) (t ++ [Ev c r])
  | Stop e => (inr e, t)
  end.

(** ** Weakest preconditions *)

Abbreviation contract := (trace -> forall c : call, resp c -> Prop).

Fixpoint wp_gen {A} (E : stop -> Prop) (ok : contract) (p : prog A)
    (Q : A -> trace -> Prop) (t : trace) : Prop :=
  match p with
  | Ret a => Q a t
  | Vis c k => forall r, ok t c r -> wp_gen E ok (k r) Q (t ++ [Ev c r])
  | Stop e => E e
  end.

Abbreviation wp := (wp_gen (fun _ => False)).
Abbreviation wlp := (wp_gen (fun e => e = OutOfFuel)).

(** The contract that promises nothing. *)
Definition any_answer : contract := fun _ _ _ => True.

Section wp.
Context {A B : Type} (E : stop -> Prop) (ok : contract).
Implicit Types (p : prog A) (f : A -> prog B) (t : trace).

Lemma wp_bind p f (Q : B -> trace -> Prop) t :
  wp_gen E ok p (fun a t' => wp_gen E ok (f a) Q t') t ->
  wp_gen E ok (bind p f) Q t.
Proof. revert t. induction p; simpl; eauto. Qed.

Lemma wp_bind_inv p f (Q : B -> trace -> Prop) t :
  wp_gen E ok (bind p f) Q t ->
  wp_gen E ok p (fun a t' => wp_gen E ok (f a) Q t') t.
Proof. revert t. induction p; simpl; eauto. Qed.

Lemma wp_mono p (Q Q' : A -> trace -> Prop) t :
  wp_gen E ok p Q t -> (forall a t', Q a t' -> Q' a t') -> wp_gen E ok p Q' t.
Proof. intros Hp HQ. revert t Hp. induction p; simpl; eauto. Qed.

Lemma wp_seq p f (R : A -> trace -> Prop) (Q : B -> trace -> Prop) t :
  wp_gen E ok p R t ->
  (forall a t', R a t' -> wp_gen E ok (f a) Q t') ->
  wp_gen E ok (bind p f) Q t.
Proof. intros. apply wp_bind. eapply wp_mono; eauto. Qed.

Lemma wp_weaken (E' : stop -> Prop) (ok' : contract) p Q t :
  wp_gen E ok p Q t ->
  (forall e, E e -> E' e) ->
  (forall t c r, ok' t c r -> ok t c r) ->
  wp_gen E' ok' p Q t.
Proof. intros Hp HE Hok. revert t Hp. induction p; simpl; eauto. Qed.

Lemma wp_conj p (Q1 Q2 : A -> trace -> Prop) t :
  wp_gen E ok p Q1 t -> wp_gen E ok p Q2 t ->
  wp_gen E ok p (fun a t' => Q1 a t' /\ Q2 a t') t.
Proof. revert t. induction p; simpl; eauto. Qed.
End wp.

(** A property of every run, whatever the answers and however it stops, can be
    added to a postcondition. *)
Lemma wp_and_always {A} E (ok : contract) (p : prog A) Q1 Q2 t :
  wp_gen E ok p Q1 t -> wp_gen (fun _ => True) any_answer p Q2 t ->
  wp_gen E ok p (fun a t' => Q1 a t' /\ Q2 a t') t.
Proof.
  revert t. induction p as [a|c k IH|e]; cbn; [done| |done].
  intros t H1 H2 r Hr. apply IH; [by apply H1|by apply H2].
Qed.

(** Two specifications of a program hold together. *)
Lemma wp_both {A} E1 E2 (ok1 ok2 : contract) (p : prog A) Q1 Q2 t :
  wp_gen E1 ok1 p Q1 t -> wp_gen E2 ok2 p Q2 t ->
  wp_gen (fun e => E1 e /\ E2 e) (fun t c r => ok1 t c r /\ ok2 t c r) p (fun a t' => Q1 a t' /\ Q2 a t') t.
Proof.
  revert t. induction p as [a|c k IH|e]; cbn; [done| |done].
  intros t H1 H2 r [Hr1 Hr2]. apply IH; [by apply H1|by apply H2].
Qed.

(** ** Programs that do not run out of fuel

    [halts R p]: whatever the answers, the fuel of [p] is enough, and a result of
    [p] is in [R]. *)

Fixpoint halts {A} (R : A -> Prop) (p : prog A) : Prop :=
  match p with
  | Ret a => R a
  | Vis c k => forall r, halts R (k r)
  | Stop e => e <> OutOfFuel
  end.

Lemma halts_bind {A B} (R : A -> Prop) (R' : B -> Prop) (p : prog A) (f : A -> prog B) :
  halts R p -> (forall a, R a -> halts R' (f a)) -> halts R' (bind p f).
Proof. intros Hp Hf. induction p as [a|c k IH|e]; cbn in *; auto. Qed.

Lemma halts_mono {A} (R R' : A -> Prop) (p : prog A) :
  halts R p -> (forall a, R a -> R' a) -> halts R' p.
Proof. intros Hp HR. induction p as [a|c k IH|e]; cbn in *; auto. Qed.

Lemma halts_wp {A} (ok : contract) (R : A -> Prop) (p : prog A) t :
  halts R p ->
  wp_gen (fun e => e <> OutOfFuel) ok p (fun a t' => R a /\ exists t1, t' = t ++ t1) t.
Proof.
  revert t. induction p as [a|c k IH|e]; cbn; intros t Hp; [|intros r Hr|done].
  - split; [done|]. exists []. by rewrite app_nil_r.
  - eapply wp_mono; [by apply IH|]. intros a t' (Ha & t1 & ->). split; [done|].
    exists (Ev c r :: t1). by rewrite <- app_assoc.
Qed.

(** An environment that honours the contract runs the program to a result that
    satisfies the postcondition. *)
Lemma wp_run {A} (ok : contract) (env : environment) (p : prog A) Q t :
  (forall t c, ok t c (env t c)) ->
  wp ok p Q t ->
  exists a t', run env p t = (inl a, t') /\ Q a t'.
Proof. intros Hok. revert t. induction p; simpl; eauto. done. Qed.

Lemma wp_gen_run {A} E (ok : contract) (env : environment) (p : prog A) Q t :
  (forall t c, ok t c (env t c)) ->
  wp_gen E ok p Q t ->
  match run env p t with (inl a, t') => Q a t' | (inr e, _) => E e end.
Proof.
  intros Hok. revert t. induction p as [a|c k IH|e]; cbn; [done| |done].
  intros t Hp. apply IH, Hp, Hok.
Qed.

Lemma run_bind {A B} env (p : prog A) (f : A -> prog B) t :
  run env (bind p f) t =
  match run env p t with
  | (inl a, t') => run env (f a) t'
  | (inr e, t') => (inr e, t')
  end.
Proof. revert t. induction p; simpl; eauto. Qed.

(** ** Which calls a program makes *)

Fixpoint only {A} (P : call -> Prop) (p : prog A) : Prop :=
  match p with
  | Ret _ | Stop _ => True
  | Vis c k => P c /\ forall r, only P (k r)
  end.

Lemma only_bind {A B} P (p : prog A) (f : A -> prog B) :
  only P p -> (forall a, only P (f a)) -> only P (bind p f).
Proof. intros Hp Hf. induction p as [a|c k IH|e]; cbn in *; [done| |done]. destruct Hp. split; auto. Qed.

Lemma wp_only {A} E (ok : contract) P (p : prog A) Q t :
  only P p -> wp_gen E ok p Q t ->
  wp_gen E ok p (fun a t' => Q a t' /\ exists t1, t' = t ++ t1 /\ Forall (fun e => P e.(ev_call)) t1) t.
Proof.
  revert t. induction p as [a|c k IH|e]; cbn; intros t Hp HQ; [|intros r Hr|done].
  - split; [done|]. exists []. by rewrite app_nil_r.
  - destruct Hp as [Hc Hk]. eapply wp_mono; [by apply IH; [|apply HQ]|]. intros a t' (HQ' & t1 & -> & Ht1).
    split; [done|]. exists (Ev c r :: t1). rewrite <- app_assoc. split; [done|]. by constructor.
Qed.

(** A trace only grows. *)
Lemma wp_grows {A} E (ok : contract) (p : prog A) Q t :
  wp_gen E ok p Q t -> wp_gen E ok p (fun a t' => Q a t' /\ exists t1, t' = t ++ t1) t.
Proof.
  intros Hp. assert (Ho : only (fun _ => True) p) by (clear; by induction p; cbn).
  eapply wp_mono; [apply (wp_only _ _ _ _ Q _ Ho Hp)|]. intros a t' (HQ & t1 & -> & _). split; [done|by exists t1].
Qed.

(** ** State

    The C functions work on a context through a pointer: [M S A] passes it. *)

Definition M (S A : Type) : Type := S -> prog (A * S).

Definition ret {S A} (a : A) : M S A := fun s => Ret (a, s).
Definition bindM {S A B} (m : M S A) (f : A -> M S B) : M S B :=
  fun s => bind (m s) (fun '(a, s') => f a s').
Definition get {S} : M S S := fun s => Ret (s, s).
Definition put {S} (s : S) : M S unit := fun _ => Ret (tt, s).
Definition modify {S} (f : S -> S) : M S unit := fun s => Ret (tt, f s).
Definition do_call {S} (c : call) : M S (resp c) := fun s => Vis c (fun r => Ret (r, s)).
Definition halt {S A} (e : stop) : M S A := fun _ => Stop e.

(** Dereference a pointer or read inside a buffer: absent means undefined. *)
Definition deref {S A} (o : option A) : M S A :=
  fun s => match o with Some a => Ret (a, s) | None => Stop UB end.

Declare Scope prog_scope.
Delimit Scope prog_scope with prog.
Bind Scope prog_scope with M.

Notation "'let!' p ':=' m 'in' k" := (bindM m (fun p => k))
  (at level 10, p binder, m at level 200, k at level 200) : prog_scope.
Notation "m ;; k" := (bindM m (fun _ => k))
  (at level 100, k at level 200, right associativity) : prog_scope.

#[global] Arguments bindM {S A B} m f s /.
#[global] Arguments ret {S A} a s /.
#[global] Arguments get {S} s /.
#[global] Arguments put {S} s _ /.
#[global] Arguments modify {S} f s /.
#[global] Arguments do_call {S} c s /.
#[global] Arguments halt {S A} e s /.
#[global] Arguments deref {S A} o s /.

(** A function of a context that may be NULL, in which case it returns [dflt]. *)
Definition with_ctx {S A} (dflt : A) (m : M S A) : M (option S) A :=
  fun o => match o with
           | None => Ret (dflt, None)
           | Some c => bind (m c) (fun '(a, c') => Ret (a, Some c'))
           end.
#[global] Arguments with_ctx {S A} dflt m o /.

Lemma wp_assocM {S A B C} (m : M S A) (f : A -> M S B) (g : B -> M S C) s t E ok Q :
  wp_gen E ok (bindM (bindM m f) g s) Q t <-> wp_gen E ok (bindM m (fun a => bindM (f a) g) s) Q t.
Proof.
  simpl. generalize (m s). intros p. revert t. induction p as [[]|c k IH|e]; simpl; [done| |done].
  intros t. split; intros Hp r Hr; apply IH, Hp, Hr.
Qed.

(** [if (b) m] *)
Definition when {S} (b : bool) (m : M S unit) : M S unit := if b then m else ret tt.
#[global] Arguments when {S} b m : simpl never.

(** ** What a function maintains

    [maintains P C m]: whatever the answers, every call of [m] is in [C], and from
    a state in [P] it returns in a state in [P], if it returns. *)

Fixpoint stays {A} (Q : A -> Prop) (C : call -> Prop) (p : prog A) : Prop :=
  match p with
  | Ret a => Q a
  | Vis c k => C c /\ forall r, stays Q C (k r)
  | Stop _ => True
  end.

Definition maintains {S A} (P : S -> Prop) (C : call -> Prop) (m : M S A) : Prop :=
  forall s, P s -> stays (fun x => P x.2) C (m s).

Lemma stays_bind {A B} (Q : A -> Prop) (Q' : B -> Prop) C (p : prog A) (f : A -> prog B) :
  stays Q C p -> (forall a, Q a -> stays Q' C (f a)) -> stays Q' C (bind p f).
Proof.
  intros Hp Hf. induction p as [a|c k IH|e]; cbn in *; [by apply Hf| |done].
  destruct Hp as [Hc Hk]. split; [done|]. auto.
Qed.

Lemma stays_mono {A} (Q Q' : A -> Prop) C (p : prog A) : stays Q C p -> (forall a, Q a -> Q' a) -> stays Q' C p.
Proof. intros Hp HQ. induction p as [a|c k IH|e]; cbn in *; [auto| |done]. destruct Hp. auto. Qed.

Lemma stays_wp {A} (Q : A -> Prop) C (p : prog A) t :
  stays Q C p ->
  wp_gen (fun _ => True) any_answer p
    (fun a t' => Q a /\ exists t1, t' = t ++ t1 /\ Forall (fun e => C e.(ev_call)) t1) t.
Proof.
  revert t. induction p as [a|c k IH|e]; intros t Hp; cbn in *; [| |done].
  - split; [done|]. exists []. by rewrite app_nil_r.
  - destruct Hp as [Hc Hk]. intros r _. eapply wp_mono; [by apply IH|].
    intros a t' [Hs (t1 & -> & Ht1)]. split; [done|]. exists (Ev c r :: t1). rewrite <- app_assoc.
    split; [done|by constructor].
Qed.

Section Maintains.
Context {S : Type} (P : S -> Prop) (C : call -> Prop).

Lemma maintains_bind {A B} (m : M S A) (f : A -> M S B) :
  maintains P C m -> (forall a, maintains P C (f a)) -> maintains P C (bindM m f).
Proof. intros Hm Hf s Hs. eapply stays_bind; [by apply Hm|]. intros [a s'] Hs'. by apply Hf. Qed.

Lemma maintains_get {A} (f : S -> M S A) :
  (forall s, P s -> maintains P C (f s)) -> maintains P C (bindM get f).
Proof. intros Hf s Hs. by apply Hf. Qed.

Lemma maintains_ret {A} (a : A) : maintains P C (ret a).
Proof. by intros s Hs. Qed.
Lemma maintains_halt {A} e : maintains (A := A) P C (halt e).
Proof. by intros s Hs. Qed.
Lemma maintains_deref {A} (o : option A) : maintains P C (deref o).
Proof. intros s Hs. by destruct o. Qed.
Lemma maintains_call c : C c -> maintains P C (do_call c).
Proof. intros Hc s Hs. by split. Qed.
Lemma maintains_modify f : (forall s, P s -> P (f s)) -> maintains P C (modify f).
Proof. intros Hf s Hs. by apply Hf. Qed.
Lemma maintains_put s' : P s' -> maintains P C (put s').
Proof. by intros Hs s _. Qed.
End Maintains.

Create HintDb maintains.
#[export] Hint Resolve maintains_ret maintains_halt maintains_deref : maintains.

(** Follow the structure of a function; [tac] is for the calls and the updates. *)
Ltac maintain_step tac :=
  lazymatch goal with
  | |- forall _, _ => intro
  | |- maintains _ _ (bindM get _) => apply maintains_get
  | |- maintains _ _ (bindM _ _) => apply maintains_bind
  | |- maintains _ _ (modify _) => apply maintains_modify
  | |- maintains _ _ (put _) => apply maintains_put
  | |- maintains _ _ (do_call _) => apply maintains_call
  | |- maintains _ _ (let _ := _ in _) => cbn zeta
  | |- maintains _ _ (match ?x with _ => _ end) => destruct x
  | |- maintains _ _ ((fun _ => _) _) => cbn beta
  | |- maintains _ _ _ => solve [eauto 1 with maintains nocore]
  | |- _ => tac
  end.

(** Step through a program: answer the next call, or split a condition. *)
Ltac wp_call := let r := fresh "r" in let H := fresh "Hok" in intros r H; cbn in H; cbn.

(** Use a lemma about the first part of a sequence. *)
Tactic Notation "wp_use" constr(L) :=
  first [ eapply wp_seq; [ eapply L | ] | eapply wp_mono; [ eapply L | ] ].

(** The default environment: every call succeeds with a zero answer. *)
Definition zero_resp (c : call) : resp c :=
  match c return resp c with
  | FreeRTOS_socket _ _ _ => 0
  | FreeRTOS_accept _ => 0
  | FreeRTOS_CreateSocketSet => 0
  | xSemaphoreCreateMutex => 0
  | xTaskGetCurrentTaskHandle => 0
  | pvPortCalloc _ _ => 0
  | FreeRTOS_recv _ _ => (0, [])
  | FreeRTOS_recv_zero_copy _ _ _ => (0, (0, []))
  | FreeRTOS_recvfrom _ _ => (0, [], mk_sockaddr 0 0 0, 0)
  | FreeRTOS_recvfrom_zero_copy _ _ => (0, (0, []), mk_sockaddr 0 0 0)
  | xTaskCreate _ _ _ => (0, 0)
  | http_handler _ _ n _ => (0, replicate (Z.to_nat n) NUL)
  | read_stop_requested => false
  | FreeRTOS_ReleaseTCPPayloadBuffer _ _ _ => tt
  | FreeRTOS_ReleaseUDPPayloadBuffer _ => tt
  | FreeRTOS_DeleteSocketSet _ => tt
  | FreeRTOS_FD_SET _ _ _ => tt
  | FreeRTOS_FD_CLR _ _ _ => tt
  | xSemaphoreTake _ => tt
  | xSemaphoreGive _ => tt
  | vSemaphoreDelete _ => tt
  | vTaskDelay _ => tt
  | vTaskDelete => tt
  | vPortFree _ => tt
  | ftp_callback _ _ _ _ _ _ => []
  | ftp_requests => []
  | uni_hal_io_stdio_printf _ => tt
  | udp_on_receive _ _ _ _ _ _ => tt
  | _ => 0
  end.
