(* ===== verification/Instance.v ===== *)
(** * A concrete platform

    An instance of the configuration and of the helper libraries that satisfies
    the laws the theorems rely on, and concrete environments that honour their
    contracts.  The examples of the other files run the model on them. *)

From S2P Require Import Prelude Env Prog.

Module Demo.

(** A 32-bit target with the usual Ethernet segment size. *)
#[export] Instance platform : Platform := {
  ipconfigTCP_MSS := 1460;
  ipconfigUDP_MAX_RX_PACKETS := 16;
  configMINIMAL_STACK_SIZE := 128;
  pdMS_TO_TICKS := fun ms => ms;
  sizeof_http_client := 6000;
  sizeof_sockaddr := 8;
  size_bits := 32;
  long_bits := 32;
  pdFREERTOS_ERRNO_EWOULDBLOCK := 11;
  pdFREERTOS_ERRNO_EINVAL := 22;
  pdFREERTOS_ERRNO_EALREADY := 120;
  pdFREERTOS_ERRNO_ETIMEDOUT := 116;
  pdFREERTOS_ERRNO_ENOTCONN := 128;
  ipconfigUSE_DNS := true;
}.

#[export] Instance platform_ok : PlatformOk.
Proof. split; cbn; try lia. repeat constructor; lia. Qed.

(** Arrays as lists that never run out of memory. *)
#[export] Instance uni_common : UniCommon := {
  uni_common_math_min := Z.min;
  uni_common_math_min3 := fun a b c => Z.min a (Z.min b c);
  uni_common_bytes_swap16 := fun z => (z mod 2 ^ 8) * 2 ^ 8 + z / 2 ^ 8;
  uni_common_array_t := list;
  uni_common_array_valid := fun _ _ => true;
  uni_common_array_size := fun _ l => length l;
  uni_common_array_get := fun _ l i => l !! i;
  uni_common_array_push_back := fun _ l x => (true, l ++ [x]);
  uni_hal_io_stdio_snprintf := fun n fs => (take (Z.to_nat (n - 1)) (render fs), len (render fs));
}.

Lemma array_list_id {A} (l : list A) : array_list (A := A) l = l.
Proof.
  unfold array_list. cbn. induction l as [|x l IH] using rev_ind; [done|].
  rewrite length_app, seq_app, omap_app. cbn.
  rewrite lookup_app_r, Nat.sub_diag by done. cbn. f_equal. etrans; [|exact IH].
  apply list_omap_ext. apply Forall_Forall2_diag, Forall_forall. intros i Hi%elem_of_seq.
  by rewrite lookup_app_l by lia.
Qed.

#[export] Instance uni_common_spec : UniCommonSpec.
Proof.
  split; try done.
  - intros A a i Hi. cbn in *. by apply lookup_lt_is_Some_2.
  - intros A a a' x [= <-]. by rewrite !array_list_id.
Qed.

(** A stack that works: handles are distinct, everything is accepted, a peer
    sends an [x] whenever it is asked, a handler writes two characters. *)
Definition good_env : environment := fun t c =>
  match c return resp c with
  | FreeRTOS_CreateSocketSet => 4
  | FreeRTOS_socket _ _ _ => 5
  | FreeRTOS_accept _ => 6
  | xTaskCreate _ _ _ => (1, 7)
  | pvPortCalloc _ _ => 8
  | xSemaphoreCreateMutex => 9
  | FreeRTOS_send _ d => len d
  | FreeRTOS_sendto _ d _ => len d
  | FreeRTOS_tx_space _ => 1000
  | FreeRTOS_recv _ n => if 0 <? n then (1, ["x"%char]) else (0, [])
  | FreeRTOS_recvfrom _ n =>
      if 0 <? n then (1, ["x"%char], mk_sockaddr 2 (htons 53) 1, 8) else (0, [], mk_sockaddr 0 0 0, 0)
  | FreeRTOS_recvfrom_zero_copy _ _ =>
      let p := 100 + len t in (2, (p, ["o"%char; "k"%char]), mk_sockaddr 2 (htons 53) 1)
  | FreeRTOS_issocketconnected _ => 1
  | FreeRTOS_IsNetworkUp => 1
  | FreeRTOS_select _ _ => 1
  | FreeRTOS_FD_ISSET _ _ => 1
  | http_handler _ _ size _ => (Z.min 2 (Z.max 0 size), replicate (Z.to_nat size) "a"%char)
  | read_stop_requested => bool_decide (300 <= length t)%nat
  | c => zero_resp c
  end.

End Demo.
