(* ===== verification/Trace.v ===== *)
(** * Resources in a trace

    A trace shows which sockets and mutexes exist, which mutex is held and which
    payload buffers are lent: each is the number of acquiring events less the
    number of releasing events. *)

From S2P Require Import Prelude Env Prog.

Definition tsum (f : event -> Z) (t : trace) : Z := foldr (fun e n => f e + n) 0 t.

Lemma tsum_app f t1 t2 : tsum f (t1 ++ t2) = tsum f t1 + tsum f t2.
Proof. unfold tsum. induction t1 as [|e t1 IH]; cbn; [done|]. rewrite IH. lia. Qed.

Lemma tsum_cons f e t : tsum f (e :: t) = f e + tsum f t.
Proof. done. Qed.

Lemma tsum_nil f : tsum f [] = 0.
Proof. done. Qed.

Lemma tsum_nonneg f t : (forall e, 0 <= f e) -> 0 <= tsum f t.
Proof. intros Hf. induction t as [|e t IH]; rewrite ?tsum_nil, ?tsum_cons; [done|]. specialize (Hf e). lia. Qed.

#[global] Arguments tsum : simpl never.

Definition eqz (a b : Z) : Z := if a =? b then 1 else 0.

Lemma eqz_refl a : eqz a a = 1.
Proof. unfold eqz. by rewrite Z.eqb_refl. Qed.

Lemma eqz_ne a b : a <> b -> eqz a b = 0.
Proof. intros. unfold eqz. by rewrite (proj2 (Z.eqb_neq _ _)). Qed.

#[global] Arguments eqz : simpl never.

(** Sockets: created or accepted, less closed. *)
Definition socket_event (p : ptr) (e : event) : Z :=
  match e with
  | Ev c r =>
      match c return resp c -> Z with
      | FreeRTOS_socket _ _ _ => fun r => eqz r p
      | FreeRTOS_accept _ => fun r => eqz r p
      | FreeRTOS_closesocket s => fun _ => - eqz s p
      | _ => fun _ => 0
      end r
  end.
Definition open_sockets (p : ptr) (t : trace) : Z := tsum (socket_event p) t.

(** Mutexes: created less deleted. *)
Definition mutex_event (p : ptr) (e : event) : Z :=
  match e with
  | Ev c r =>
      match c return resp c -> Z with
      | xSemaphoreCreateMutex => fun r => eqz r p
      | vSemaphoreDelete s => fun _ => - eqz s p
      | _ => fun _ => 0
      end r
  end.
Definition live_mutexes (p : ptr) (t : trace) : Z := tsum (mutex_event p) t.

(** A mutex: taken less given. *)
Definition held_event (p : ptr) (e : event) : Z :=
  match e.(ev_call) with
  | xSemaphoreTake s => eqz s p
  | xSemaphoreGive s => - eqz s p
  | _ => 0
  end.
Definition held (p : ptr) (t : trace) : Z := tsum (held_event p) t.

(** Zero-copy payloads: received less released. *)
Definition payload_event (p : ptr) (e : event) : Z :=
  match e with
  | Ev c r =>
      match c return resp c -> Z with
      | FreeRTOS_recvfrom_zero_copy _ _ => fun r => eqz r.1.2.1 p
      | FreeRTOS_ReleaseUDPPayloadBuffer s => fun _ => - eqz s p
      | _ => fun _ => 0
      end r
  end.
Definition lent_payloads (p : ptr) (t : trace) : Z := tsum (payload_event p) t.

Create Rewrite HintDb trace.
#[global] Hint Rewrite tsum_app tsum_cons tsum_nil eqz_refl : trace.

(** The last value that a socket option was set to. *)
Definition rcvtimeo_event (s : ptr) (acc : option Z) (e : event) : option Z :=
  match e.(ev_call) with
  | FreeRTOS_setsockopt s' (FREERTOS_SO_RCVTIMEO n) => if s' =? s then Some n else acc
  | _ => acc
  end.
Definition rcvtimeo (s : ptr) (t : trace) : option Z := foldl (rcvtimeo_event s) None t.

Lemma rcvtimeo_snoc s t e : rcvtimeo s (t ++ [e]) = rcvtimeo_event s (rcvtimeo s t) e.
Proof. unfold rcvtimeo. by rewrite foldl_app. Qed.

(** Compute the resources of a trace with known calls. *)
Ltac resources :=
  unfold open_sockets, live_mutexes, held, lent_payloads in *;
  autorewrite with trace; cbn; autorewrite with trace; try lia.

(** ** Calls that create and delete nothing *)

Definition neutral (c : call) : Prop :=
  match c with
  | FreeRTOS_socket _ _ _ | FreeRTOS_accept _ | FreeRTOS_closesocket _
  | xSemaphoreCreateMutex | vSemaphoreDelete _ => False
  | _ => True
  end.

(** The same sockets and mutexes exist. *)
Definition same_resources (t t' : trace) : Prop :=
  (forall p, open_sockets p t' = open_sockets p t) /\ (forall p, live_mutexes p t' = live_mutexes p t).

#[global] Instance same_resources_preorder : PreOrder same_resources.
Proof.
  split; [by split|]. intros t1 t2 t3 [Hs1 Hm1] [Hs2 Hm2]. split; intros p; congruence.
Qed.

Lemma neutral_resources t t1 : Forall (fun e => neutral e.(ev_call)) t1 -> same_resources t (t ++ t1).
Proof.
  intros Ht. unfold same_resources, open_sockets, live_mutexes.
  assert (Hz : forall p, tsum (socket_event p) t1 = 0 /\ tsum (mutex_event p) t1 = 0).
  { intros p. induction Ht as [|[c r] t1 Hc _ [IH1 IH2]]; [done|]. rewrite !tsum_cons, IH1, IH2.
    cbn in Hc. by destruct c. }
  split; intros p; rewrite tsum_app; destruct (Hz p) as [Hs Hm]; lia.
Qed.

Lemma wp_neutral {A} E (ok : contract) (p : prog A) Q t :
  only neutral p -> wp_gen E ok p Q t ->
  wp_gen E ok p (fun a t' => Q a t' /\ same_resources t t') t.
Proof.
  intros Hp HQ. eapply wp_mono; [by apply wp_only|]. intros a t' (? & t1 & -> & Ht1).
  split; [done|]. by apply neutral_resources.
Qed.

(** ** Bytes on the wire *)

(** The bytes that [FreeRTOS_send] accepted on socket [s], in order. *)
Definition sent_event (s : ptr) (e : event) : bytes :=
  match e with
  | Ev c r =>
      match c return resp c -> bytes with
      | FreeRTOS_send s' d => fun r => if s' =? s then take (Z.to_nat r) d else []
      | _ => fun _ => []
      end r
  end.

Definition sent_on (s : ptr) (t : trace) : bytes := flat_map (sent_event s) t.

Lemma sent_on_app s t1 t2 : sent_on s (t1 ++ t2) = sent_on s t1 ++ sent_on s t2.
Proof. apply flat_map_app. Qed.

Lemma sent_on_snoc s t e : sent_on s (t ++ [e]) = sent_on s t ++ sent_event s e.
Proof. rewrite sent_on_app. unfold sent_on. simpl. by rewrite app_nil_r. Qed.

Lemma sent_on_send s d (r : Z) t :
  sent_on s (t ++ [Ev (FreeRTOS_send s d) r]) = sent_on s t ++ take (Z.to_nat r) d.
Proof. rewrite sent_on_snoc. simpl. by rewrite Z.eqb_refl. Qed.

(** How often the socket was asked for data. *)
Definition recv_event (sock : ptr) (e : event) : nat :=
  match e.(ev_call) with FreeRTOS_recv s _ => if s =? sock then 1%nat else 0%nat | _ => 0%nat end.

Definition recvs (sock : ptr) (t : trace) : nat := sum_list_with (recv_event sock) t.

Lemma recvs_snoc sock t e : recvs sock (t ++ [e]) = (recvs sock t + recv_event sock e)%nat.
Proof. unfold recvs. rewrite sum_list_with_app. cbn. lia. Qed.

(** How often the stack refused data for the socket. *)
Definition refusal (sock : ptr) (e : event) : nat :=
  match e with
  | Ev c r =>
      match c return resp c -> nat with
      | FreeRTOS_send s _ => fun r => if (s =? sock) && (r <? 0) then 1%nat else 0%nat
      | _ => fun _ => 0%nat
      end r
  end.

Definition refusals (sock : ptr) (t : trace) : nat := sum_list_with (refusal sock) t.

Lemma refusals_app sock t t1 : (refusals sock t <= refusals sock (t ++ t1))%nat.
Proof. unfold refusals. rewrite sum_list_with_app. lia. Qed.

Lemma refusals_snoc sock t e : refusals sock (t ++ [e]) = (refusals sock t + refusal sock e)%nat.
Proof. unfold refusals. rewrite sum_list_with_app. cbn. lia. Qed.

(** [FreeRTOS_recvfrom] writes at most the bytes it was given room for. *)
Definition udp_ok : contract := fun t c =>
  match c return resp c -> Prop with
  | FreeRTOS_recvfrom _ n => fun r => 0 <= n -> len r.1.1.2 <= n
  | _ => fun _ => True
  end.
