(* ===== verification/Threads.v ===== *)
(** * Threads over a shared context

    A [thread_over S] reads a shared context of type [S] ([Load]), writes it ([Store])
    and makes calls ([Call]), and between two of these steps any other thread may
    run.  [alone] runs a thread without interference, as a program that passes the
    context; [same] compares that with a function of the model. *)

From S2P Require Import Prelude Env Prog.

Inductive thread_over (S A : Type) : Type :=
| Done (a : A)
| Load (k : S -> thread_over S A)
| Store (f : S -> S) (k : thread_over S A)
| Call (c : call) (k : resp c -> thread_over S A)
| Halt (e : stop).
Arguments Done {S A} a.
Arguments Load {S A} k.
Arguments Store {S A} f k.
Arguments Call {S A} c k.
Arguments Halt {S A} e.

Fixpoint tbind {S A B} (m : thread_over S A) (f : A -> thread_over S B) : thread_over S B :=
  match m with
  | Done a => f a
  | Load k => Load (fun c => tbind (k c) f)
  | Store g k => Store g (tbind k f)
  | Call c k => Call c (fun r => tbind (k r) f)
  | Halt e => Halt e
  end.

Declare Scope thread_scope.
Delimit Scope thread_scope with thread.
Bind Scope thread_scope with thread_over.

Notation "'let!' p ':=' m 'in' k" := (tbind m (fun p => k))
  (at level 10, p binder, m at level 200, k at level 200) : thread_scope.
Notation "m ;; k" := (tbind m (fun _ => k))
  (at level 100, k at level 200, right associativity) : thread_scope.
Definition load {S} : thread_over S S := Load Done.
Definition store {S} (f : S -> S) : thread_over S unit := Store f (Done tt).
Definition calls {S} (c : call) : thread_over S (resp c) := Call c Done.
Definition tderef {S A} (o : option A) : thread_over S A :=
  match o with Some a => Done a | None => Halt UB end.

(** A thread without interference: a program that passes the context. *)
Fixpoint alone {S A} (m : thread_over S A) : M S A := fun s =>
  match m with
  | Done a => Ret (a, s)
  | Load k => alone (k s) s
  | Store f k => alone k (f s)
  | Call c k => Vis c (fun r => alone (k r) s)
  | Halt e => Stop e
  end.

(** ** Without interference *)

Section Same.
Context {S : Type}.

(** In every environment, a thread that runs alone makes the same calls as the
    function and ends with the same result and the same context. *)
Definition same {A} (th : thread_over S A) (m : M S A) : Prop :=
  forall c env t, run env (alone th c) t = run env (m c) t.

Lemma run_alone_bind {A B} (th : thread_over S A) (f : A -> thread_over S B) c env t :
  run env (alone (tbind th f) c) t = run env (bind (alone th c) (fun '(a, c') => alone (f a) c')) t.
Proof. revert c t. induction th; intros; cbn; eauto. Qed.

Lemma same_bind {A B} (th : thread_over S A) (f : A -> thread_over S B) m g :
  same th m -> (forall a, same (f a) (g a)) -> same (tbind th f) (bindM m g).
Proof.
  intros Hm Hf c env t. rewrite run_alone_bind. unfold bindM. rewrite !run_bind, Hm.
  destruct (run env (m c) t) as [[[a c']|e] t']; [apply Hf|done].
Qed.

Lemma same_ret {A} (a : A) : same (Done a) (ret a).
Proof. done. Qed.
Lemma same_load : same load get.
Proof. done. Qed.
Lemma same_calls c : same (calls c) (do_call c).
Proof. done. Qed.
Lemma same_halt {A} e : same (A := A) (Halt e) (halt e).
Proof. done. Qed.
Lemma same_deref {A} (o : option A) : same (tderef o) (deref o).
Proof. by destruct o. Qed.
Lemma same_store f : same (store f) (modify f).
Proof. done. Qed.
Lemma same_if {A} (b : bool) (th th' : thread_over S A) m m' :
  same th m -> same th' m' -> same (if b then th else th') (if b then m else m').
Proof. by destruct b. Qed.

(** A second load sees what the first one saw. *)
Lemma same_reload {A} (f : S -> thread_over S A) (g : S -> M S A) :
  (forall c env t, run env (alone (f c) c) t = run env (g c c) t) ->
  same (tbind load f) (bindM get g).
Proof. intros Hf c env t. apply Hf. Qed.

Lemma same_reload_bind {A B} (X : S -> thread_over S A) (Y : S -> M S A)
    (f : A -> thread_over S B) (g : A -> M S B) :
  (forall c env t, run env (alone (X c) c) t = run env (Y c c) t) -> (forall a, same (f a) (g a)) ->
  same (tbind load (fun c => tbind (X c) f)) (bindM get (fun c => bindM (Y c) g)).
Proof.
  intros HX Hf. apply same_reload. intros c env t. rewrite run_alone_bind. unfold bindM. rewrite !run_bind, HX.
  destruct (run env (Y c c) t) as [[[a c']|e] t']; [apply Hf|done].
Qed.

(** The body of a function that is given a context. *)
Lemma same_ctx {A} (d : A) th m :
  same th m -> forall o env t, run env (with_ctx d (alone th) o) t = run env (with_ctx d m o) t.
Proof.
  intros Hm [c|] env t; [|done]. unfold with_ctx. by rewrite !run_bind, Hm.
Qed.
End Same.
