(* ===== verification/Interleaving.v ===== *)
(** * Interleavings of threads

    A [world_over S] is what the threads share: the context, of type [S], the live
    mutexes with their owners, the live sockets with their timeouts and peers, and a
    log of the calls.
    [tstep] is one load, store or call of a thread, [cstep] one step of one
    thread of a pool; [answer] is what FreeRTOS does for each call: a mutex is
    taken only when it is free and given back only by its owner, and a call on a
    mutex or a socket that does not exist, or a send without a peer, has no answer.

    [safe] is a rely-guarantee logic over these steps: a thread is safe when
    every step it makes, from every state that the other threads may leave
    ([R]), is possible, keeps the invariant and respects what the other threads
    rely on.  [pool_safe_steps] is its soundness, [pool_progress] freedom from
    deadlock, [pool_terminates] that every schedule is finite. *)

From stdpp Require Import relations.
From S2P Require Import Prelude Env Prog Threads.

(** ** The shared world *)

Record world_over (S : Type) : Type := mk_world {
  shared : S;
  mutexes : gmap Z (option nat);
  sockets : gmap Z (Z * Z);
  peers : gmap Z sockaddr;
  log : list (nat * event);
}.
Arguments mk_world {S} _ _ _ _ _.
Arguments shared {S} _.
Arguments mutexes {S} _.
Arguments sockets {S} _.
Arguments peers {S} _.
Arguments log {S} _.
#[global] Instance eta_world {S} : Eta (world_over S) := fun x =>
  mk_world x.(shared) x.(mutexes) x.(sockets) x.(peers) x.(log).

(** What a call that reads a field of the context without a lock returns. *)
Class Volatile (S : Type) : Type := volatile : S -> forall c : call, option (resp c).

(** A handle that the stack gives for a new socket. *)
Definition is_socket (s : ptr) : bool := negb (s =? NULL) && negb (s =? FREERTOS_INVALID_SOCKET).

Section Interleaving.
Context {S : Type} `{!Volatile S}.
Abbreviation world := (world_over S).
Abbreviation thread := (thread_over S).

(** The handle of the task that runs thread [i]. *)
Context (handle : nat -> ptr).

Definition set_option (o : sockopt) (p : Z * Z) : Z * Z :=
  match o with
  | FREERTOS_SO_RCVTIMEO v => (v, p.2)
  | FREERTOS_SO_SNDTIMEO v => (p.1, v)
  | _ => p
  end.

(** A call that needs socket [s] and changes nothing. *)
Definition on_socket (s : ptr) (w w' : world) : Prop := is_Some (w.(sockets) !! s) /\ w' = w.

Definition answer (i : nat) (w : world) (c : call) : resp c -> world -> Prop :=
  match c return resp c -> world -> Prop with
  | xSemaphoreCreateMutex => fun r w' =>
      (r = NULL /\ w' = w)
      \/ (r <> NULL /\ w.(mutexes) !! r = None /\ w' = w <| mutexes ::= <[r := None]> |>)
  | xSemaphoreTake l => fun _ w' =>
      w.(mutexes) !! l = Some None /\ w' = w <| mutexes ::= <[l := Some i]> |>
  | xSemaphoreGive l => fun _ w' =>
      w.(mutexes) !! l = Some (Some i) /\ w' = w <| mutexes ::= <[l := None]> |>
  | vSemaphoreDelete l => fun _ w' =>
      w.(mutexes) !! l = Some None /\ w' = w <| mutexes ::= delete l |>
  | FreeRTOS_socket _ _ _ => fun r w' =>
      (is_socket r = false /\ w' = w)
      \/ (is_socket r = true /\ w.(sockets) !! r = None /\ w' = w <| sockets ::= <[r := (0, 0)]> |>)
  | FreeRTOS_closesocket s => fun _ w' =>
      is_Some (w.(sockets) !! s) /\ w' = w <| sockets ::= delete s |> <| peers ::= delete s |>
  | FreeRTOS_setsockopt s o => fun r w' =>
      exists p, w.(sockets) !! s = Some p /\ r = 0 /\ w' = w <| sockets ::= <[s := set_option o p]> |>
  | FreeRTOS_bind s _ => fun _ w' => on_socket s w w'
  | FreeRTOS_connect s a => fun r w' =>
      is_Some (w.(sockets) !! s) /\ w' = if r =? 0 then w <| peers ::= <[s := a]> |> else w
  | FreeRTOS_send s _ => fun _ w' => on_socket s w w' /\ is_Some (w.(peers) !! s)
  | FreeRTOS_sendto s _ _ => fun _ w' => on_socket s w w'
  | FreeRTOS_recvfrom s n => fun r w' => on_socket s w w' /\ (0 <= n -> len r.1.1.2 <= n)
  | FreeRTOS_recvfrom_zero_copy s _ => fun _ w' => on_socket s w w'
  | xTaskGetCurrentTaskHandle => fun r w' => r = handle i /\ w' = w
  | read_stop_requested => fun r w' => volatile w.(shared) read_stop_requested = Some r /\ w' = w
  | read_server_task => fun r w' => volatile w.(shared) read_server_task = Some r /\ w' = w
  | FreeRTOS_IsNetworkUp | FreeRTOS_ReleaseUDPPayloadBuffer _ | udp_on_receive _ _ _ _ _ _
  | vTaskDelay _ | vTaskDelete => fun _ w' => w' = w
  | _ => fun _ _ => False
  end.

Definition logged (i : nat) (c : call) (r : resp c) (w : world) : world :=
  w <| log ::= fun l => l ++ [(i, Ev c r)] |>.

(** ** Steps *)

Inductive tstep {A} (i : nat) : thread A -> world -> thread A -> world -> Prop :=
| step_load k w : tstep i (Load k) w (k w.(shared)) w
| step_store f k w : tstep i (Store f k) w k (w <| shared ::= f |>)
| step_call c k w r w' : answer i w c r w' -> tstep i (Call c k) w (k r) (logged i c r w').

Lemma tstep_inv {A} i (th : thread A) w th' w' :
  tstep i th w th' w' ->
  match th with
  | Load k => th' = k w.(shared) /\ w' = w
  | Store f k => th' = k /\ w' = w <| shared ::= f |>
  | Call c k => exists r w2, answer i w c r w2 /\ th' = k r /\ w' = logged i c r w2
  | Done _ | Halt _ => False
  end.
Proof. intros []; eauto. Qed.

Inductive cstep {A} : list (thread A) * world -> list (thread A) * world -> Prop :=
| cstep_at i th th' w w' ts :
    ts !! i = Some th -> tstep i th w th' w' -> cstep (ts, w) (<[i := th']> ts, w').

Definition owns (i : nat) (w : world) : Prop := exists l, w.(mutexes) !! l = Some (Some i).

(** A thread that owns nothing may wait for a mutex of another one. *)
Definition waits (i : nat) (w : world) (c : call) : Prop :=
  exists l j, c = xSemaphoreTake l /\ w.(mutexes) !! l = Some (Some j) /\ ~ owns i w.

Definition ready (i : nat) (w : world) (c : call) : Prop := exists r w', answer i w c r w'.

Definition finished {A} (th : thread A) : Prop :=
  match th with Done _ | Halt _ => True | _ => False end.
#[global] Instance finished_dec {A} (th : thread A) : Decision (finished th).
Proof. destruct th; cbn; apply _. Defined.

(** ** Rely and guarantee *)

Section RelyGuarantee.
Context (Inv : world -> Prop) (R : nat -> world -> world -> Prop) `{!forall i, PreOrder (R i)}.
Context (E : nat -> stop -> Prop).

Definition guarantees (i : nat) (w w' : world) : Prop := forall j, j <> i -> R j w w'.

Fixpoint safe {A} (i : nat) (Q : A -> world -> Prop) (th : thread A) (w : world) : Prop :=
  match th with
  | Done a => forall w', Inv w' -> R i w w' -> Q a w'
  | Load k => forall w', Inv w' -> R i w w' -> safe i Q (k w'.(shared)) w'
  | Store f k => forall w', Inv w' -> R i w w' ->
      let w2 := w' <| shared ::= f |> in Inv w2 /\ guarantees i w' w2 /\ safe i Q k w2
  | Call c k => forall w', Inv w' -> R i w w' ->
      (ready i w' c \/ waits i w' c)
      /\ forall r w2, answer i w' c r w2 ->
         Inv (logged i c r w2) /\ guarantees i w' (logged i c r w2) /\ safe i Q (k r) (logged i c r w2)
  | Halt e => E i e /\ forall w', Inv w' -> R i w w' -> ~ owns i w'
  end.

Lemma safe_rely {A} i (Q : A -> world -> Prop) th w w' : R i w w' -> safe i Q th w -> safe i Q th w'.
Proof.
  intros HR. destruct th; cbn; intros Hs; [..|split; [apply Hs|]];
    intros w2 Hi HR2; apply Hs; try done; by etrans.
Qed.

Lemma safe_mono {A} i (Q Q' : A -> world -> Prop) th w :
  (forall a w, Inv w -> Q a w -> Q' a w) -> safe i Q th w -> safe i Q' th w.
Proof.
  intros HQ. revert w. induction th as [a|k IH|f k IH|c k IH|e]; cbn; intros w Hs; [| | | |done];
    intros w' Hi HR; specialize (Hs w' Hi HR); [by apply HQ|by apply IH| |].
  - destruct Hs as (? & ? & Hs). split_and!; [done|done|by apply IH].
  - destruct Hs as [Hr Hs]. split; [done|]. intros r w2 Ha. destruct (Hs r w2 Ha) as (? & ? & ?).
    split_and!; [done|done|by apply IH].
Qed.

Lemma safe_tbind {A B} i (Q : B -> world -> Prop) (m : thread A) f w :
  Inv w -> safe i (fun a w' => safe i Q (f a) w') m w -> safe i Q (tbind m f) w.
Proof.
  revert w. induction m as [a|k IH|g k IH|c k IH|e]; cbn; intros w Hw Hs; [by apply Hs| | | |done];
    intros w' Hi HR; specialize (Hs w' Hi HR); [by apply IH| |].
  - destruct Hs as (? & ? & Hs). split_and!; [done|done|by apply IH].
  - destruct Hs as [Hr Hs]. split; [done|]. intros r w2 Ha. destruct (Hs r w2 Ha) as (? & ? & ?).
    split_and!; [done|done|by apply IH].
Qed.

Lemma safe_step {A} i (Q : A -> world -> Prop) th w th' w' :
  Inv w -> safe i Q th w -> tstep i th w th' w' -> Inv w' /\ guarantees i w w' /\ safe i Q th' w'.
Proof.
  intros Hi Hs Hst. destruct Hst; cbn in Hs.
  - split_and!; [done|by intros j _|by apply Hs].
  - by apply Hs.
  - by apply Hs.
Qed.

(** ** Pools of threads *)

Definition owners_in {A} (ts : list (thread A)) (w : world) : Prop :=
  forall l j, w.(mutexes) !! l = Some (Some j) -> (j < List.length ts)%nat.

Definition pool_safe {A} (Q : nat -> A -> world -> Prop) (ts : list (thread A)) (w : world) : Prop :=
  Inv w /\ owners_in ts w /\ forall i th, ts !! i = Some th -> safe i (Q i) th w.

Lemma answer_owner i w c r w' l j :
  answer i w c r w' -> w'.(mutexes) !! l = Some (Some j) -> j = i \/ w.(mutexes) !! l = Some (Some j).
Proof.
  destruct c; cbn; try done; unfold on_socket; intros Ha Hl;
    repeat match goal with
           | Hx : _ \/ _ |- _ => destruct Hx
           | Hx : _ /\ _ |- _ => destruct Hx
           | Hx : exists _, _ |- _ => destruct Hx
           | Hx : _ = (if ?b then _ else _) |- _ => destruct b
           end; simplify_eq; cbn in *; auto.
  1,2,3: rewrite lookup_insert in Hl; case_decide; simplify_eq; auto.
  apply lookup_delete_Some in Hl as [_ Hl]. auto.
Qed.

Lemma tstep_owner {A} i (th th' : thread A) w w' l j :
  tstep i th w th' w' -> w'.(mutexes) !! l = Some (Some j) -> j = i \/ w.(mutexes) !! l = Some (Some j).
Proof. intros Hst. destruct Hst; cbn; [auto..|]. by eapply answer_owner. Qed.

(** Soundness: a step of the pool keeps it safe. *)
Lemma pool_safe_step {A} (Q : nat -> A -> world -> Prop) ts w ts' w' :
  pool_safe Q ts w -> cstep (ts, w) (ts', w') -> pool_safe Q ts' w'.
Proof.
  intros (Hi & Ho & Hs) Hst. inversion Hst as [i th th' ? ? ? Hth Htst]; subst.
  destruct (safe_step i (Q i) th w th' w') as (Hi' & Hg & Hs'); [done|by apply Hs|done|].
  split_and!; [done| |].
  - intros l j Hl. rewrite length_insert. destruct (tstep_owner _ _ _ _ _ _ _ Htst Hl) as [->|Hl'].
    + by eapply lookup_lt_Some.
    + by eapply Ho.
  - intros j u Hu. destruct (decide (j = i)) as [->|Hne].
    + rewrite list_lookup_insert_eq in Hu by by eapply lookup_lt_Some. by simplify_eq.
    + rewrite list_lookup_insert_ne in Hu by done. eapply safe_rely; [by apply Hg|by apply Hs].
Qed.

Lemma pool_safe_steps {A} (Q : nat -> A -> world -> Prop) ts w ts' w' :
  pool_safe Q ts w -> rtc cstep (ts, w) (ts', w') -> pool_safe Q ts' w'.
Proof.
  intros Hp Hr. remember (ts, w) as x eqn:Ex. remember (ts', w') as y eqn:Ey.
  revert ts w Hp Ex. induction Hr as [x|x [ts1 w1] y Hst _ IH]; intros ts w Hp ->; simplify_eq; [done|].
  eapply IH; [done|by eapply pool_safe_step|done].
Qed.

(** Freedom from deadlock: as long as a thread is not finished, some thread can
    make a step. *)
Lemma pool_progress {A} (Q : nat -> A -> world -> Prop) ts w :
  pool_safe Q ts w -> (forall i a w, Q i a w -> ~ owns i w) ->
  Forall finished ts \/ exists s, cstep (ts, w) s.
Proof.
  intros (Hi & Ho & Hs) HQ.
  destruct (decide (Forall finished ts)) as [|Hn]; [by left|right].
  apply not_Forall_Exists, Exists_exists in Hn as (th & Hin & Hth); [|apply _].
  apply list_elem_of_lookup in Hin as [i Hth'].
  assert (Hgo : forall i th, ts !! i = Some th -> ~ finished th ->
     (exists s, cstep (ts, w) s) \/ exists c k, th = Call c k /\ waits i w c).
  { clear i th Hth Hth'. intros i th Hth Hnf. pose proof (Hs i th Hth) as Hsf. destruct th as [a|k|f k|c k|e]; cbn in *; try done.
    - left. eexists. by eapply cstep_at; [|constructor].
    - left. eexists. by eapply cstep_at; [|constructor].
    - destruct (Hsf w Hi) as [[(r & w' & Ha)|Hw] _]; [done| |right; eauto].
      left. eexists. by eapply cstep_at; [|constructor]. }
  destruct (Hgo i th Hth' Hth) as [|(c & k & -> & l & j & -> & Hj & _)]; [done|].
  destruct (lookup_lt_is_Some_2 ts j) as [u Hu]; [by eapply Ho|].
  assert (Hown : owns j w) by by exists l.
  destruct (decide (finished u)) as [Hf|Hf].
  - pose proof (Hs j u Hu) as Hsu. destruct u; cbn in *; try done.
    + exfalso. eapply (HQ j a w); [by apply Hsu|done].
    + exfalso. by eapply Hsu.
  - destruct (Hgo j u Hu Hf) as [|(c & k' & -> & l' & j' & -> & _ & Hno)]; [done|]. done.
Qed.
End RelyGuarantee.

Lemma csteps_length {A} (x y : list (thread A) * world) :
  rtc cstep x y -> List.length y.1 = List.length x.1.
Proof.
  induction 1 as [|x y z Hst _ IH]; [done|]. rewrite IH. destruct Hst. cbn. apply length_insert.
Qed.

(** ** Termination *)

Definition child {A} (th' th : thread A) : Prop :=
  match th with
  | Load k => exists c, th' = k c
  | Store _ k => th' = k
  | Call c k => exists r, th' = k r
  | Done _ | Halt _ => False
  end.

Lemma child_wf {A} (th : thread A) : Acc child th.
Proof.
  induction th as [a|k IH|f k IH|c k IH|e]; constructor; cbn; [done|intros ? [? ->]; auto|by intros ? ->|intros ? [? ->]; auto|done].
Qed.

Definition pool_child {A} (ts' ts : list (thread A)) : Prop :=
  exists i th th', ts !! i = Some th /\ child th' th /\ ts' = <[i := th']> ts.

Lemma pool_child_wf {A} (ts : list (thread A)) : Acc pool_child ts.
Proof.
  induction ts as [|th ts IH].
  - constructor. intros ts' (i & th & th' & Hl & _). by rewrite lookup_nil in Hl.
  - revert ts IH. induction (child_wf th) as [th _ IHth]. intros ts Hts.
    induction Hts as [ts Hts IHts]. constructor. intros ts' ([|i] & u & u' & Hl & Hc & ->); cbn in Hl; simplify_eq/=.
    + apply IHth; [done|]. by constructor.
    + apply IHts. by exists i, u, u'.
Qed.

(** Every schedule is finite. *)
Lemma pool_terminates {A} (ts : list (thread A)) w : Acc (flip cstep) (ts, w).
Proof.
  revert w. induction (pool_child_wf ts) as [ts _ IH]. intros w. constructor. intros [ts' w'] Hst. unfold flip in Hst.
  inversion Hst as [i th th' ? ? ? Hth Htst]; subst. apply IH. exists i, th, th'. split_and!; [done| |done].
  destruct Htst; cbn; eauto.
Qed.
End Interleaving.
