(* ===== verification/Schedules.v ===== *)
(** * Schedules, executed

    [sched] runs the threads of a pool in a given order against a network that
    answers from a function; [sched_sound] shows that this is an execution of
    [Interleaving]. *)

From stdpp Require Import relations.
From S2P Require Import Prelude Env Prog Threads Interleaving.

Section Sched.
Context {S : Type} `{!Volatile S}.
Abbreviation world := (world_over S).
Abbreviation thread := (thread_over S).

Context (handle : nat -> ptr) (net : forall c : call, resp c).

(** One answer that [answer] allows, [None] if there is none. *)
Definition respond (i : nat) (w : world) (c : call) : option (resp c * world) :=
  match c return option (resp c * world) with
  | xSemaphoreTake l =>
      match w.(mutexes) !! l with Some None => Some (tt, w <| mutexes ::= <[l := Some i]> |>) | _ => None end
  | xSemaphoreGive l =>
      if decide (w.(mutexes) !! l = Some (Some i)) then Some (tt, w <| mutexes ::= <[l := None]> |>) else None
  | vSemaphoreDelete l =>
      if decide (w.(mutexes) !! l = Some None) then Some (tt, w <| mutexes ::= delete l |>) else None
  | xSemaphoreCreateMutex =>
      let r := net xSemaphoreCreateMutex in
      if decide (r <> NULL /\ w.(mutexes) !! r = None) then Some (r, w <| mutexes ::= <[r := None]> |>) else None
  | FreeRTOS_socket d t p =>
      let r := net (FreeRTOS_socket d t p) in
      if decide (is_socket r = true /\ w.(sockets) !! r = None)
      then Some (r, w <| sockets ::= <[r := (0, 0)]> |>) else None
  | FreeRTOS_closesocket s =>
      match w.(sockets) !! s with Some _ => Some (0, w <| sockets ::= delete s |> <| peers ::= delete s |>) | None => None end
  | FreeRTOS_setsockopt s o =>
      match w.(sockets) !! s with
      | Some p => Some (0, w <| sockets ::= <[s := set_option o p]> |>)
      | None => None
      end
  | FreeRTOS_bind s a => match w.(sockets) !! s with Some _ => Some (net (FreeRTOS_bind s a), w) | None => None end
  | FreeRTOS_connect s a =>
      let r := net (FreeRTOS_connect s a) in
      match w.(sockets) !! s with
      | Some _ => Some (r, if r =? 0 then w <| peers ::= <[s := a]> |> else w)
      | None => None
      end
  | FreeRTOS_send s d =>
      match w.(sockets) !! s, w.(peers) !! s with
      | Some _, Some _ => Some (net (FreeRTOS_send s d), w)
      | _, _ => None
      end
  | FreeRTOS_sendto s d a => match w.(sockets) !! s with Some _ => Some (net (FreeRTOS_sendto s d a), w) | None => None end
  | FreeRTOS_recvfrom s n =>
      let r := net (FreeRTOS_recvfrom s n) in
      match w.(sockets) !! s with
      | Some _ => if decide (len r.1.1.2 <= n) then Some (r, w) else None
      | None => None
      end
  | xTaskGetCurrentTaskHandle => Some (handle i, w)
  | read_stop_requested => (fun r => (r, w)) <$> volatile w.(shared) read_stop_requested
  | read_server_task => (fun r => (r, w)) <$> volatile w.(shared) read_server_task
  | FreeRTOS_IsNetworkUp => Some (net FreeRTOS_IsNetworkUp, w)
  | vTaskDelay _ => Some (tt, w)
  | vTaskDelete => Some (tt, w)
  | _ => None
  end.

Lemma respond_answer i w c r w' : respond i w c = Some (r, w') -> answer handle i w c r w'.
Proof.
  destruct c; cbn; unfold on_socket; intros Hr; try (apply fmap_Some in Hr as (? & ? & ?)); repeat case_match;
    simplify_eq; eauto 6.
  all: first [congruence | right; destruct_and?; by split_and!].
Qed.

Definition step_thread {A} (i : nat) (th : thread A) (w : world) : option (thread A * world) :=
  match th with
  | Load k => Some (k w.(shared), w)
  | Store f k => Some (k, w <| shared ::= f |>)
  | Call c k => '(r, w') ← respond i w c; Some (k r, logged i c r w')
  | Done _ | Halt _ => None
  end.

Fixpoint sched {A} (order : list nat) (s : list (thread A) * world) : option (list (thread A) * world) :=
  match order with
  | [] => Some s
  | i :: order' =>
      th ← s.1 !! i;
      '(th', w') ← step_thread i th s.2;
      sched order' (<[i := th']> s.1, w')
  end.

Lemma sched_sound {A} order (s s' : list (thread A) * world) :
  sched order s = Some s' -> rtc (cstep handle) s s'.
Proof.
  revert s. induction order as [|i order IH]; intros [ts w] Hs; cbn in Hs; [by simplify_eq|].
  destruct (ts !! i) as [th|] eqn:Eth; [|done]. cbn in Hs.
  destruct (step_thread i th w) as [[th' w']|] eqn:Est; [|done]. cbn in Hs.
  eapply rtc_l; [|by apply IH]. eapply cstep_at; [done|].
  destruct th; cbn in Est; simplify_eq; [constructor..|].
  destruct (respond i w c) as [[r w2]|] eqn:Er; [|done]. cbn in Est. simplify_eq. constructor. by apply respond_answer.
Qed.

(** A schedule whose end passes a test. *)
Definition sched_tests {A} (order : list nat) (s : list (thread A) * world) (test : list (thread A) -> world -> bool) : bool :=
  match sched order s with Some (ts, w) => test ts w | None => false end.

Lemma sched_tests_sound {A} order (s : list (thread A) * world) test :
  sched_tests order s test = true -> exists ts w, rtc (cstep handle) s (ts, w) /\ test ts w = true.
Proof.
  unfold sched_tests. destruct (sched order s) as [[ts w]|] eqn:E; [|done]. intros Ht. exists ts, w. split; [by eapply sched_sound|done].
Qed.
End Sched.

Definition about_to_take {S A} (l : ptr) (th : thread_over S A) : bool :=
  match th with Call (xSemaphoreTake l') _ => l' =? l | _ => false end.
Definition about_to_give {S A} (l : ptr) (th : thread_over S A) : bool :=
  match th with Call (xSemaphoreGive l') _ => l' =? l | _ => false end.
