(* ===== verification/Serial.v ===== *)
(** * Serializability

    Threads that do all their work in one critical section of a mutex run as if
    one after the other.  [before] describes such a thread: it reads fields that do
    not change, may look at a flag that is only ever raised and give up if the flag
    is down, and takes the mutex; [inside] follows it to the moment at which it gives
    the mutex back.  [serializable] is the theorem: in every interleaving of any
    number of them, the log of the calls and the context are those of a serial
    execution in the order in which the critical sections end, and each thread has the
    result it has there.  [serializable_progress] is freedom from deadlock. *)

From stdpp Require Import relations.
From S2P Require Import Prelude Env Prog Threads Interleaving.

(** ** Programs and what they can do *)

(** [p] can make the calls [d], with their answers, and end with [x]. *)
Fixpoint yields {A} (p : prog A) (d : list event) (x : A) : Prop :=
  match p with
  | Ret a => d = [] /\ x = a
  | Vis c k => exists r d', d = Ev c r :: d' /\ yields (k r) d' x
  | Stop _ => False
  end.

(** Equal, answer by answer. *)
Inductive peq {A} : prog A -> prog A -> Prop :=
| peq_ret a : peq (Ret a) (Ret a)
| peq_stop e : peq (Stop e) (Stop e)
| peq_vis c k k' : (forall r, peq (k r) (k' r)) -> peq (Vis c k) (Vis c k').

Lemma yields_peq {A} (p q : prog A) d x : peq p q -> yields p d x -> yields q d x.
Proof.
  intros Hpq. revert d. induction Hpq as [a|e|c k k' _ IH]; intros d; cbn; [done|done|].
  intros (r & d' & -> & Hy). exists r, d'. split; [done|by apply IH].
Qed.

Lemma yields_bind {A B} (p : prog A) (f : A -> prog B) d1 d2 x y :
  yields p d1 x -> yields (f x) d2 y -> yields (bind p f) (d1 ++ d2) y.
Proof.
  revert d1. induction p as [a|c k IH|e]; intros d1; cbn; [by intros [-> ->]| |done].
  intros (r & d & -> & Hd) Hf. exists r, (d ++ d2). split; [done|by apply IH].
Qed.

Lemma yields_alone_bind {S A B} (m : thread_over S A) (f : A -> thread_over S B) c d y :
  yields (alone (tbind m f) c) d y ->
  exists d1 d2 a c1, d = d1 ++ d2 /\ yields (alone m c) d1 (a, c1) /\ yields (alone (f a) c1) d2 y.
Proof.
  revert c d. induction m as [a|k IH|g k IH|cl k IH|e]; intros c d; cbn; [|by apply IH|by apply IH| |done].
  - intros Hy. by exists [], d, a, c.
  - intros (r & d' & -> & Hy). apply IH in Hy as (d1 & d2 & a & c1 & -> & H1 & H2).
    exists (Ev cl r :: d1), d2, a, c1. split_and!; [done| |done]. by exists r, d1.
Qed.

(** What [run] does is one of these. *)
Lemma run_yields {A} env (p : prog A) t x t' : run env p t = (inl x, t') -> exists d, t' = t ++ d /\ yields p d x.
Proof.
  revert t. induction p as [a|c k IH|e]; intros t; cbn; [|intros Hr; apply IH in Hr as (d & -> & Hy)|done].
  - intros [= -> ->]. exists []. by rewrite app_nil_r.
  - eexists (_ :: d). rewrite <- app_assoc. split; [done|]. by eexists _, d.
Qed.

(** ** Serial executions *)

Section Serial.
Context {S : Type} `{!Volatile S} {A : Type} (handle : nat -> ptr).
Abbreviation world := (world_over S).
Abbreviation thread := (thread_over S A).

(** What thread [i] does when nobody interferes. *)
Context (perform : nat -> M S A).

Inductive serial (c0 : S) : list (nat * list event * A) -> S -> Prop :=
| serial_nil : serial c0 [] c0
| serial_snoc bs c i d a c' :
    serial c0 bs c -> yields (perform i c) d (a, c') -> serial c0 (bs ++ [(i, d, a)]) c'.

(** The log of a serial execution. *)
Definition by_thread (i : nat) (d : list event) : list (nat * event) := map (pair i) d.
Definition serial_log (bs : list (nat * list event * A)) : list (nat * event) :=
  concat (map (fun b => by_thread b.1.1 b.1.2) bs).
Definition ids (bs : list (nat * list event * A)) : list nat := map (fun b => b.1.1) bs.

Lemma serial_log_snoc bs i d a : serial_log (bs ++ [(i, d, a)]) = serial_log bs ++ by_thread i d.
Proof. unfold serial_log. rewrite map_app, concat_app. cbn. by rewrite app_nil_r. Qed.

Lemma ids_snoc bs i d a : ids (bs ++ [(i, d, a)]) = ids bs ++ [i].
Proof. unfold ids. by rewrite map_app. Qed.

(** ** Threads with one critical section *)

(** The mutex; what never changes; a flag that is only raised; and what holds of
    context, sockets and peers while the mutex is free. *)
Context (L : ptr) (steady : S -> Prop) (flag : S -> bool) (rest : S -> gmap Z (Z * Z) -> gmap Z sockaddr -> Prop).

Definition private (c : call) : bool :=
  match c with
  | xSemaphoreTake _ | xSemaphoreGive _ | xSemaphoreCreateMutex | vSemaphoreDelete _ => false
  | _ => true
  end.

Lemma private_answer i (w : world) c r w' :
  private c = true -> answer handle i w c r w' -> w'.(shared) = w.(shared) /\ w'.(mutexes) = w.(mutexes) /\ w'.(log) = w.(log).
Proof.
  destruct c; cbn; try done; unfold on_socket; intros _ Ha;
    repeat match goal with
           | Hx : _ \/ _ |- _ => destruct Hx
           | Hx : _ /\ _ |- _ => destruct Hx
           | Hx : exists _, _ |- _ => destruct Hx
           | Hx : _ = (if ?b then _ else _) |- _ => destruct b
           end; by simplify_eq.
Qed.

(** In the critical section, up to its end. *)
Fixpoint inside (i : nat) (th : thread) (w : world) : Prop :=
  match th with
  | Load k => inside i (k w.(shared)) w
  | Store f k =>
      steady (f w.(shared)) /\ (flag w.(shared) = true -> flag (f w.(shared)) = true)
      /\ inside i k (w <| shared ::= f |>)
  | Call c k =>
      match c return (resp c -> thread) -> Prop with
      | xSemaphoreGive l => fun k => l = L /\ rest w.(shared) w.(sockets) w.(peers) /\ exists a, k tt = Done a
      | c => fun k => private c = true /\ ready handle i w c
                /\ forall r w', answer handle i w c r w' -> inside i (k r) (logged i c r w')
      end k
  | Done _ | Halt _ => False
  end.

(** Before it; [b] says that the flag was seen raised. *)
Inductive before : bool -> thread -> Prop :=
| before_load b k th : (forall x, steady x -> k x = th) -> before b th -> before b (Load k)
| before_test b k th a :
    (forall x, steady x -> k x = if flag x then th else Done a) -> before true th -> before b (Load k)
| before_take b k :
    (forall i w, steady w.(shared) -> rest w.(shared) w.(sockets) w.(peers) -> (b = true -> flag w.(shared) = true) ->
       inside i (k tt) w) ->
    before b (Call (xSemaphoreTake L) k).

(** ** The invariant of a pool *)

(** A thread outside of the critical section: it has not been there and will do what
    [perform] says, or it has been there and has its result. *)
Definition outside (bs : list (nat * list event * A)) (x : S) (i : nat) (th : thread) : Prop :=
  ((i ∉ ids bs) /\ exists b, before b th /\ (b = true -> flag x = true)
     /\ forall c, steady c -> (b = true -> flag c = true) -> forall d y, yields (alone th c) d y -> yields (perform i c) d y)
  \/ exists d a, (i, d, a) ∈ bs /\ th = Done a.

(** The thread in the critical section, which began in context [c] and has made the
    calls [cur]. *)
Definition within (bs : list (nat * list event * A)) (c : S) (cur : list event) (j : nat) (th : thread) (w : world) : Prop :=
  (j ∉ ids bs) /\ inside j th w
  /\ forall d y, yields (alone th w.(shared)) d y -> yields (perform j c) (cur ++ d) y.

Record serial_inv (c0 : S) (bs : list (nat * list event * A)) (c : S) (cur : list event) (h : option nat)
    (ts : list thread) (w : world) : Prop := {
  si_serial : serial c0 bs c;
  si_nodup : NoDup (ids bs);
  si_steady : steady w.(shared);
  si_start : steady c;
  si_flag : flag c = true -> flag w.(shared) = true;
  si_mutex : w.(mutexes) = {[ L := h ]};
  si_log : w.(log) = serial_log bs ++ match h with Some j => by_thread j cur | None => [] end;
  si_state : match h with
             | None => w.(shared) = c /\ rest w.(shared) w.(sockets) w.(peers)
             | Some j => exists th, ts !! j = Some th /\ within bs c cur j th w
             end;
  si_outside : forall i th, ts !! i = Some th -> h <> Some i -> outside bs w.(shared) i th;
}.

Definition serializes (c0 : S) (ts : list thread) (w : world) : Prop :=
  exists bs c cur h, serial_inv c0 bs c cur h ts w.

Lemma outside_mono bs x x' i th : (flag x = true -> flag x' = true) -> outside bs x i th -> outside bs x' i th.
Proof. intros Hx [(Hi & b & Hb & Hf & Hy)|Hd]; [left|by right]. split; [done|]. exists b. split_and!; auto. Qed.

Lemma outside_snoc bs x i th j d a : i <> j -> outside bs x i th -> outside (bs ++ [(j, d, a)]) x i th.
Proof.
  intros Hij [(Hi & Hb)|(d' & a' & Hin & ->)]; [left|right].
  - split; [|done]. rewrite ids_snoc, elem_of_app, list_elem_of_singleton. by intros [|].
  - exists d', a'. split; [|done]. apply elem_of_app. by left.
Qed.

Lemma outside_done bs x i d a : outside (bs ++ [(i, d, a)]) x i (Done a).
Proof. right. exists d, a. split; [|done]. apply elem_of_app. right. by apply list_elem_of_singleton. Qed.

(** The threads after a step of thread [i]. *)
Lemma others_step {P : nat -> thread -> Prop} (ts : list thread) i th' h :
  P i th' \/ h = Some i -> (forall j u, ts !! j = Some u -> j <> i -> h <> Some j -> P j u) ->
  forall j u, <[i := th']> ts !! j = Some u -> h <> Some j -> P j u.
Proof.
  intros Hi Ho j u Hu Hj. destruct (decide (j = i)) as [->|Hne].
  - apply list_lookup_insert_Some in Hu as [(_ & <- & _)|[? _]]; [|done]. by destruct Hi.
  - rewrite list_lookup_insert_ne in Hu by done. by apply Ho.
Qed.

Lemma by_thread_snoc i d e : by_thread i (d ++ [e]) = by_thread i d ++ [(i, e)].
Proof. unfold by_thread. by rewrite map_app. Qed.

(** ** A step inside *)

(** The end of the critical section is the place of the thread in the serial order. *)
Lemma within_give c0 bs c cur j ts w l (k : unit -> thread) r w' :
  serial_inv c0 bs c cur (Some j) ts w -> within bs c cur j (Call (xSemaphoreGive l) k) w ->
  answer handle j w (xSemaphoreGive l) r w' ->
  serializes c0 (<[j := k r]> ts) (logged j (xSemaphoreGive l) r w').
Proof.
  intros [Hser Hnd Hst Hst0 Hfl Hm Hlog _ Hout] (Hj & Hins & Hy) [_ ->]. destruct Hins as (-> & Hrest & a & Hk).
  destruct r. rewrite Hk. set (d := cur ++ [Ev (xSemaphoreGive L) tt]).
  assert (Hd : yields (perform j c) d (a, w.(shared))).
  { apply Hy. exists tt, []. split; [done|]. by rewrite Hk. }
  exists (bs ++ [(j, d, a)]), w.(shared), [], None. split; cbn; [by eapply serial_snoc| |done|done|done| | |done|].
  - rewrite ids_snoc. apply NoDup_app. split_and!; [done| |apply NoDup_singleton].
    intros x Hx ->%list_elem_of_singleton. done.
  - by rewrite Hm, insert_singleton_eq.
  - rewrite app_nil_r, Hlog, serial_log_snoc. unfold d. by rewrite by_thread_snoc, app_assoc.
  - eapply others_step; [left; apply outside_done|]. intros i v Hv Hi _. apply outside_snoc; [done|].
    apply Hout; [done|]. by intros [= ->].
Qed.

Lemma within_step c0 bs c cur j ts w th th' w' :
  serial_inv c0 bs c cur (Some j) ts w -> ts !! j = Some th -> tstep handle j th w th' w' ->
  serializes c0 (<[j := th']> ts) w'.
Proof.
  intros Hinv Hth Hstep. pose proof Hinv as [Hser Hnd Hst Hst0 Hfl Hm Hlog Hin Hout].
  cbn in Hin. destruct Hin as (u & Hu & Hj & Hins & Hy). simplify_eq.
  assert (Hlt : (j < length ts)%nat) by by eapply lookup_lt_Some.
  assert (Hself : forall v, <[j := v]> ts !! j = Some v) by (intros; by apply list_lookup_insert_eq).
  destruct Hstep as [k w|f k w|cl k w r w' Ha].
  - exists bs, c, cur, (Some j). split; try done.
    + exists (k w.(shared)). split; [done|]. by split_and!.
    + eapply others_step; [by right|]. intros i v Hv _ Hi. by apply Hout.
  - destruct Hins as (Hs & Hf & Hins). exists bs, c, cur, (Some j). split; cbn; auto.
    + exists k. split; [done|]. by split_and!.
    + eapply others_step; [by right|]. intros i v Hv _ Hi. eapply outside_mono; [exact Hf|by apply Hout].
  - destruct (decide (private cl = true)) as [Hp|Hp].
    + assert (Hins' : inside j (k r) (logged j cl r w')) by (destruct cl; cbn in Hins, Hp; try done; by apply Hins).
      destruct (private_answer _ _ _ _ _ Hp Ha) as (Es & Em & El).
      exists bs, c, (cur ++ [Ev cl r]), (Some j). split; cbn; [done|done|by rewrite Es|done|by rewrite Es|by rewrite Em|..].
      * by rewrite El, by_thread_snoc, app_assoc, Hlog.
      * exists (k r). split; [done|]. split; [done|]. split; [done|]. cbn. rewrite Es. intros d y Hyd. rewrite <- app_assoc.
        apply Hy. cbn. by exists r, d.
      * rewrite Es. eapply others_step; [by right|]. intros i v Hv _ Hi. by apply Hout.
    + destruct cl; cbn in Hins, Hp; try done; try by destruct Hins as [? _].
      eapply within_give; [done|by split|done].
Qed.

(** ** A step outside *)

(** A step that changes the thread only. *)
Lemma quiet_step c0 bs c cur h ts w i th' :
  serial_inv c0 bs c cur h ts w -> (i < length ts)%nat -> h <> Some i -> outside bs w.(shared) i th' ->
  serializes c0 (<[i := th']> ts) w.
Proof.
  intros [Hser Hnd Hst Hst0 Hfl Hm Hlog Hin Hout] Hlt Hi Ho. exists bs, c, cur, h. split; try done.
  - destruct h as [j|]; [|done]. destruct Hin as (u & Hu & Hw). exists u. split; [|done].
    rewrite list_lookup_insert_ne by congruence. done.
  - eapply others_step; [by left|]. intros k v Hv _ Hk. by apply Hout.
Qed.

(** A thread that gives up takes its place at once. *)
Lemma give_up_step c0 bs c cur h ts w i a :
  serial_inv c0 bs c cur h ts w -> (i < length ts)%nat -> h <> Some i -> i ∉ ids bs ->
  yields (perform i c) [] (a, c) -> serializes c0 (<[i := Done a]> ts) w.
Proof.
  intros [Hser Hnd Hst Hst0 Hfl Hm Hlog Hin Hout] Hlt Hi Hni Hy. exists (bs ++ [(i, [], a)]), c, cur, h.
  split; [by eapply serial_snoc| |done|done|done|done|..].
  - rewrite ids_snoc. apply NoDup_app. split_and!; [done| |apply NoDup_singleton].
    intros x Hx ->%list_elem_of_singleton. done.
  - by rewrite serial_log_snoc, app_nil_r.
  - destruct h as [j|]; [|done]. destruct Hin as (u & Hu & Hj & Hw). exists u. split.
    + rewrite list_lookup_insert_ne by congruence. done.
    + split; [|done]. rewrite ids_snoc, elem_of_app, list_elem_of_singleton. intros [?| ->]; done.
  - eapply others_step; [left; apply outside_done|]. intros k v Hv Hk Hh. apply outside_snoc; [done|].
    by apply Hout.
Qed.

Lemma take_step c0 bs c cur h ts w i k r w' :
  serial_inv c0 bs c cur h ts w -> (i < length ts)%nat -> i ∉ ids bs ->
  (forall w', w'.(shared) = w.(shared) -> rest w'.(shared) w'.(sockets) w'.(peers) -> inside i (k tt) w') ->
  (forall d y, yields (alone (Call (xSemaphoreTake L) k) w.(shared)) d y -> yields (perform i w.(shared)) d y) ->
  answer handle i w (xSemaphoreTake L) r w' ->
  serializes c0 (<[i := k r]> ts) (logged i (xSemaphoreTake L) r w').
Proof.
  intros [Hser Hnd Hst Hst0 Hfl Hm Hlog Hin Hout] Hlt Hni Hk Hy [Hl ->]. rewrite Hm in Hl.
  apply lookup_singleton_Some in Hl as [_ ->]. destruct Hin as [<- Hrest]. destruct r.
  exists bs, w.(shared), [Ev (xSemaphoreTake L) tt], (Some i). split; cbn; try done.
  - by rewrite Hm, insert_singleton_eq.
  - by rewrite Hlog, app_nil_r.
  - exists (k tt). split; [by apply list_lookup_insert_eq|]. split; [done|]. split.
    + by apply Hk.
    + intros d y Hd. apply Hy. by exists tt, d.
  - eapply others_step; [by right|]. intros j v Hv _ Hj. by apply Hout.
Qed.

Lemma outside_step c0 bs c cur h ts w i th th' w' :
  serial_inv c0 bs c cur h ts w -> ts !! i = Some th -> h <> Some i -> tstep handle i th w th' w' ->
  serializes c0 (<[i := th']> ts) w'.
Proof.
  intros Hinv Hth Hi Hstep. assert (Hlt : (i < length ts)%nat) by by eapply lookup_lt_Some.
  pose proof (si_outside _ _ _ _ _ _ _ Hinv i th Hth Hi) as [(Hni & b & Hb & Hf & Hy)|(d & a & _ & ->)]; [|by apply tstep_inv in Hstep].
  pose proof (si_steady _ _ _ _ _ _ _ Hinv) as Hst. pose proof (si_flag _ _ _ _ _ _ _ Hinv) as Hfl.
  apply tstep_inv in Hstep. destruct Hb as [b k th2 Hk Hb|b k th2 a Hk Hb|b k Hk].
  - destruct Hstep as [-> ->]. rewrite Hk by done. eapply quiet_step; [done..|]. left. split; [done|]. exists b. split_and!; [done..|].
    intros c' Hc' Hfc d y Hd. apply Hy; [done..|]. cbn. by rewrite Hk.
  - destruct Hstep as [-> ->]. rewrite Hk by done. destruct (flag w.(shared)) eqn:Ef.
    + eapply quiet_step; [done..|]. left. split; [done|]. exists true. split_and!; [done..|].
      intros c' Hc' Hfc d y Hd. apply Hy; [auto..|]. cbn. by rewrite Hk, Hfc.
    + pose proof (si_start _ _ _ _ _ _ _ Hinv) as Hst0.
      assert (Hfc : flag c = false) by (destruct (flag c); [by discriminate Hfl|done]).
      eapply give_up_step; [done..|]. apply Hy; [done|intros ->; by discriminate Hf|]. cbn. by rewrite Hk, Hfc.
  - destruct Hstep as (r & w2 & Ha & -> & ->). eapply take_step; [done|done|done| |by apply Hy|done].
    intros w3 Es Hr. apply Hk; rewrite Es in *; done.
Qed.

(** Every execution of the pool is serializable. *)
Lemma serializable c0 ts w ts' w' :
  serializes c0 ts w -> rtc (cstep handle) (ts, w) (ts', w') -> serializes c0 ts' w'.
Proof.
  intros Hs Hr. remember (ts, w) as x eqn:Ex. remember (ts', w') as y eqn:Ey.
  revert ts w Hs Ex. induction Hr as [x|x [ts1 w1] y Hst _ IH]; intros ts w Hs ->; simplify_eq; [done|].
  eapply IH; [done| |done]. inversion Hst as [i th th' ? ? ? Hth Htst]; subst. destruct Hs as (bs & c & cur & h & Hinv).
  destruct (decide (h = Some i)) as [->|Hi]; [by eapply within_step|by eapply outside_step].
Qed.

(** Somebody can always go on. *)
Lemma serializable_progress c0 ts w :
  serializes c0 ts w -> (exists next, cstep handle (ts, w) next) \/ forall i th, ts !! i = Some th -> exists a, th = Done a.
Proof.
  intros (bs & c & cur & h & Hinv).
  assert (Hgo : forall i th th' w', ts !! i = Some th -> tstep handle i th w th' w' -> exists next, cstep handle (ts, w) next)
    by (intros; eexists; by eapply cstep_at).
  destruct h as [j|].
  - left. destruct (si_state _ _ _ _ _ _ _ Hinv) as (th & Hth & _ & Hins & _). destruct th as [a|k|f k|cl k|e]; cbn in Hins; try done.
    + eapply Hgo; [done|constructor].
    + eapply Hgo; [done|constructor].
    + enough (ready handle j w cl) as (r & w' & Ha) by (eapply Hgo; [done|by constructor]).
      destruct cl; try (by destruct Hins as (_ & ? & _)). destruct Hins as [-> _].
      exists tt. eexists. split; [|done]. rewrite (si_mutex _ _ _ _ _ _ _ Hinv). apply lookup_singleton_eq.
  - destruct (decide (Exists (fun th => ~ finished th) ts)) as [He|Hn].
    + left. apply Exists_exists in He as (th & Hin & Hth). apply list_elem_of_lookup in Hin as [i Hi].
      destruct (si_outside _ _ _ _ _ _ _ Hinv i th Hi) as [(_ & b & Hb & _)|(d & a & _ & ->)]; [done| |by destruct Hth].
      destruct Hb; [eapply Hgo; [done|constructor]..|]. eapply Hgo; [done|]. eapply step_call with (r := tt).
      split; [|done]. rewrite (si_mutex _ _ _ _ _ _ _ Hinv). apply lookup_singleton_eq.
    + right. intros i th Hi. destruct (si_outside _ _ _ _ _ _ _ Hinv i th Hi) as [(_ & b & Hb & _)|(d & a & _ & ->)]; [done| |by eauto].
      exfalso. apply Hn. apply Exists_exists. exists th. split; [by eapply list_elem_of_lookup_2|]. destruct Hb; cbn; tauto.
Qed.

(** The beginning: the mutex is free and no thread has done anything. *)
Lemma serializes_start c0 ts w :
  steady c0 -> w.(shared) = c0 -> w.(mutexes) = {[ L := None ]} -> w.(log) = [] -> rest c0 w.(sockets) w.(peers) ->
  (forall i th, ts !! i = Some th -> before false th
     /\ forall c, steady c -> forall d y, yields (alone th c) d y -> yields (perform i c) d y) ->
  serializes c0 ts w.
Proof.
  intros Hst Hs Hm Hl Hr Hts. exists [], c0, [], None. split; rewrite ?Hs; try done; [constructor|apply NoDup_nil_2|].
  intros i th Hth _. destruct (Hts i th Hth) as [Hb Hy]. left. split; [apply not_elem_of_nil|]. exists false.
  split_and!; [done|done|]. intros c Hc _. by apply Hy.
Qed.
End Serial.
