(* ===== verification/CString.v ===== *)
(** * Buffers and strings of C

    The parts of [<string.h>], [<strings.h>] and [<stdlib.h>] that the modules
    use, on buffers represented as lists of bytes.  A C string is represented
    by its characters without the terminating NUL; [cstr] reads one from a
    buffer and is [None] when the buffer ends before a NUL is found. *)

From S2P Require Import Prelude Env.

(** ** Buffers *)

(** [memcpy(&buf[off], data, n)]; [None] when the destination is too small. *)
Definition write_at (buf : bytes) (off : nat) (data : bytes) : option bytes :=
  if decide (off + length data <= length buf)%nat
  then Some (take off buf ++ data ++ drop (off + length data) buf)
  else None.

(** [memcpy(dst, &buf[off], n)]; [None] when the source is too small. *)
Definition read_at (buf : bytes) (off n : nat) : option bytes :=
  if decide (off + n <= length buf)%nat then Some (take n (drop off buf)) else None.

#[global] Arguments write_at : simpl never.
#[global] Arguments read_at : simpl never.

Lemma write_at_Some buf off data :
  (off + length data <= length buf)%nat ->
  exists buf', write_at buf off data = Some buf' /\ length buf' = length buf
    /\ take (off + length data) buf' = take off buf ++ data.
Proof.
  intros Hle. unfold write_at. rewrite decide_True by done. eexists; split; [done|].
  rewrite !length_app, length_take, length_drop. split; [lia|].
  rewrite app_assoc, take_app_le by (rewrite length_app, length_take; lia).
  apply take_ge. rewrite length_app, length_take. lia.
Qed.

Lemma write_at_None buf off data :
  (length buf < off + length data)%nat -> write_at buf off data = None.
Proof. intros. unfold write_at. by rewrite decide_False by lia. Qed.

Lemma length_write_at buf off data buf' :
  write_at buf off data = Some buf' -> length buf' = length buf.
Proof.
  unfold write_at. case_decide as Hle; [|done]. intros [= <-].
  rewrite !length_app, length_take, length_drop. lia.
Qed.

Lemma write_at_inv buf off data buf' :
  write_at buf off data = Some buf' ->
  (off + length data <= length buf)%nat
  /\ buf' = take off buf ++ data ++ drop (off + length data) buf.
Proof. unfold write_at. case_decide; [|done]. by intros [= <-]. Qed.

Lemma write_at_nil buf off : (off <= length buf)%nat -> write_at buf off [] = Some buf.
Proof.
  intros. unfold write_at. rewrite decide_True by (cbn; lia). cbn.
  rewrite Nat.add_0_r. by rewrite take_drop.
Qed.

(** Two writes that follow each other are one. *)
Lemma write_at_app buf off d1 d2 buf1 buf2 :
  write_at buf off d1 = Some buf1 -> write_at buf1 (off + length d1) d2 = Some buf2 ->
  write_at buf off (d1 ++ d2) = Some buf2.
Proof.
  intros Hw1 Hw2. pose proof (length_write_at _ _ _ _ Hw1) as Hl.
  apply write_at_inv in Hw1 as [H1 ->]. apply write_at_inv in Hw2 as [H2 ->].
  unfold write_at. rewrite length_app, decide_True by lia. f_equal.
  assert (Hlt : length (take off buf ++ d1) = (off + length d1)%nat) by (rewrite length_app, length_take; lia).
  rewrite (app_assoc (take off buf) d1), <- Hlt, take_app_length, <- !app_assoc. do 3 f_equal.
  rewrite (app_assoc (take off buf) d1), drop_app_ge by lia. rewrite drop_drop. f_equal. lia.
Qed.

Lemma take_write_at buf off data buf' :
  write_at buf off data = Some buf' -> take (off + length data) buf' = take off buf ++ data.
Proof.
  intros [Hl ->]%write_at_inv. rewrite app_assoc.
  rewrite take_app_le by (rewrite length_app, length_take; lia).
  apply take_ge. rewrite length_app, length_take. lia.
Qed.

Lemma read_at_Some buf off n :
  (off + n <= length buf)%nat -> read_at buf off n = Some (take n (drop off buf)).
Proof. intros. unfold read_at. by rewrite decide_True. Qed.

Lemma read_at_inv buf off n d :
  read_at buf off n = Some d -> (off + n <= length buf)%nat /\ take n (drop off buf) = d.
Proof. unfold read_at. case_decide; [|done]. by intros [= <-]. Qed.

(** ** Counting loops

    [for (i = start; i < start + n; ++i) if (test(i)) break;] where [test] may
    read outside of its buffer: the index of the first hit. *)
Fixpoint scan (test : nat -> option bool) (i n : nat) : option (option nat) :=
  match n with
  | O => Some None
  | S n' =>
      match test i with
      | None => None
      | Some true => Some (Some i)
      | Some false => scan test (S i) n'
      end
  end.

Lemma scan_total test i n :
  (forall j, (i <= j < i + n)%nat -> is_Some (test j)) ->
  exists r, scan test i n = Some r.
Proof.
  revert i. induction n as [|n IH]; intros i H; simpl; [eauto|].
  destruct (H i) as [b ->]; [lia|]. destruct b; [eauto|].
  apply IH. intros j Hj. apply H. lia.
Qed.

Lemma scan_hit test i n j :
  scan test i n = Some (Some j) <->
  (i <= j < i + n)%nat /\ test j = Some true /\
  (forall k, (i <= k < j)%nat -> test k = Some false).
Proof.
  revert i. induction n as [|n IH]; intros i; simpl.
  { split; [done|]. lia. }
  destruct (test i) as [[]|] eqn:Ei.
  - split.
    + intros [= <-]. split_and!; [lia|lia|done|]. lia.
    + intros ([? ?] & Ht & Hk). destruct (decide (i = j)) as [->|]; [done|].
      rewrite Hk in Ei by lia. done.
  - rewrite IH. split.
    + intros (? & ? & Hk). split_and!; [lia|lia|done|]. intros k Hle.
      destruct (decide (k = i)) as [->|]; [done|]. apply Hk. lia.
    + intros (? & Ht & Hk). assert (i <> j) by congruence.
      split_and!; [lia|lia|done|]. intros. apply Hk. lia.
  - split; [done|]. intros (? & Ht & Hk). destruct (decide (i = j)); [congruence|].
    rewrite Hk in Ei by lia. done.
Qed.

Lemma scan_miss test i n :
  scan test i n = Some None <->
  (forall k, (i <= k < i + n)%nat -> test k = Some false).
Proof.
  revert i. induction n as [|n IH]; intros i; simpl.
  { split; [|done]. intros _ k. lia. }
  destruct (test i) as [[]|] eqn:Ei.
  - split; [done|]. intros H. rewrite H in Ei by lia. done.
  - rewrite IH. split; intros H k Hk.
    + destruct (decide (k = i)) as [->|]; [done|]. apply H. lia.
    + apply H. lia.
  - split; [done|]. intros H. rewrite H in Ei by lia. done.
Qed.

(** ** Strings *)

Fixpoint cstr (l : bytes) : option bytes :=
  match l with
  | [] => None
  | c :: l' => if beqb c NUL then Some [] else cons c <$> cstr l'
  end.

Lemma cstr_app s l : NUL ∉ s -> cstr (s ++ NUL :: l) = Some s.
Proof.
  induction s as [|c s IH]; simpl; [done|]. rewrite not_elem_of_cons. intros [Hc Hs].
  unfold beqb. rewrite bool_decide_eq_false_2 by congruence. by rewrite IH.
Qed.

Lemma cstr_is_Some l : NUL ∈ l -> is_Some (cstr l).
Proof.
  induction l as [|c l IH]; simpl; [by intros ?%elem_of_nil|].
  unfold beqb. case_bool_decide as Hc; [eauto|].
  rewrite elem_of_cons. intros [?|Hin]; [congruence|].
  destruct (IH Hin) as [s ->]. eauto.
Qed.

Lemma cstr_no_NUL l s : cstr l = Some s -> NUL ∉ s.
Proof.
  revert s. induction l as [|c l IH]; simpl; [done|]. intros s.
  unfold beqb. case_bool_decide as Hc; [intros [= <-]; apply not_elem_of_nil|].
  destruct (cstr l) as [s'|] eqn:E; [|done]. intros [= <-].
  rewrite not_elem_of_cons. split; [congruence|by apply IH].
Qed.

(** [strcmp(a, b) == 0] *)
Definition strcmp_eq (a b : bytes) : bool := bool_decide (a = b).

Definition tolower (c : byte) : byte :=
  if (65 <=? code c) && (code c <=? 90) then ascii_of_N (N_of_ascii c + 32) else c.

Definition lower (s : bytes) : bytes := tolower <$> s.

(** [strcasecmp(a, b) == 0] *)
Definition strcasecmp_eq (a b : bytes) : bool := bool_decide (lower a = lower b).

(** [memcmp(name, buf, length name) == 0]; [None] if [buf] is shorter. *)
Definition memcmp_eq (name buf : bytes) : option bool :=
  if decide (length name <= length buf)%nat
  then Some (bool_decide (take (length name) buf = name)) else None.

(** [strchr(s, c)]: the rest of the string from the first [c] on. *)
Fixpoint strchr (s : bytes) (c : byte) : option bytes :=
  match s with
  | [] => None
  | x :: s' => if beqb x c then Some s else strchr s' c
  end.

(** [strstr(s, "\r\n")]: the part before the separator and the part after. *)
Fixpoint split_crlf (s : bytes) : option (bytes * bytes) :=
  match s with
  | [] => None
  | x :: s' =>
      match s' with
      | y :: s'' =>
          if beqb x CR && beqb y LF then Some ([], s'')
          else (fun '(a, b) => (x :: a, b)) <$> split_crlf s'
      | [] => None
      end
  end.

Definition isspace (c : byte) : bool := (code c =? 32) || ((9 <=? code c) && (code c <=? 13)).
Definition isdigit (c : byte) : bool := (48 <=? code c) && (code c <=? 57).
Definition digit_val (c : byte) : Z := code c - 48.

(** The digits at the start of a string: their value, how many, the rest. *)
Fixpoint digits (acc : Z) (n : nat) (s : bytes) : Z * nat * bytes :=
  match s with
  | c :: s' => if isdigit c then digits (acc * 10 + digit_val c) (S n) s' else (acc, n, s)
  | [] => (acc, n, [])
  end.

Fixpoint skip_space (s : bytes) : bytes :=
  match s with
  | c :: s' => if isspace c then skip_space s' else s
  | [] => []
  end.

Definition sign_of (s : bytes) : Z * bytes :=
  match s with
  | c :: s' => if beqb c "-"%char then (-1, s') else if beqb c "+"%char then (1, s') else (1, s)
  | [] => (1, [])
  end.

(** [strtol(s, &end, 10)]: the value, saturated to the range of [long], and the
    string at [end]; [end] is [s] itself when there is no number. *)
Definition strtol `{Platform} (s : bytes) : Z * bytes :=
  let '(sg, s1) := sign_of (skip_space s) in
  let '(v, n, rest) := digits 0 0 s1 in
  if (n =? 0)%nat then (0, s)
  else (Z.max (- 2 ^ (long_bits - 1)) (Z.min (2 ^ (long_bits - 1) - 1) (sg * v)), rest).

(** [atoi(s)] *)
Definition atoi `{Platform} (s : bytes) : Z := i32 (strtol s).1.

(** [strncpy(dst, src, n)] into a buffer: at most [n] characters, padded with
    NUL up to [n]. *)
Definition strncpy (dst src : bytes) (n : nat) : option bytes :=
  let d := take n src in
  write_at dst 0 (d ++ replicate (n - length d) NUL).
