(* ===== verification/Decimal.v ===== *)
(** * Decimal numbers

    The digits that [dec] writes and what [strtol] and the parsers read back. *)

From S2P Require Import Prelude Env CString.

Definition dec_step (v : Z) (c : byte) : Z := v * 10 + digit_val c.

Lemma digit_val_digit d : 0 <= d < 10 -> isdigit (digit d) = true /\ digit_val (digit d) = d.
Proof.
  intros Hd. unfold isdigit, digit_val, code, digit. rewrite N_ascii_embedding by lia.
  split; [|lia]. apply andb_true_iff. split; apply Z.leb_le; lia.
Qed.

Lemma dec_fuel_value n z acc :
  0 <= z < 10 ^ Z.of_nat n -> foldl dec_step 0 (dec_fuel n z acc) = foldl dec_step z acc.
Proof.
  revert z acc. induction n as [|n IH]; intros z acc Hz.
  { cbn in *. by replace z with 0 by lia. }
  rewrite Nat2Z.inj_succ, Z.pow_succ_r in Hz by lia. cbn [dec_fuel].
  pose proof (Z.mod_pos_bound z 10 ltac:(lia)) as Hm.
  destruct (Z.ltb_spec z 10).
  - cbn [foldl]. unfold dec_step at 2. rewrite (proj2 (digit_val_digit _ Hm)), Z.mod_small by lia. done.
  - rewrite IH by (split; [apply Z.div_pos; lia|apply Z.div_lt_upper_bound; lia]).
    cbn [foldl]. f_equal. unfold dec_step. rewrite (proj2 (digit_val_digit _ Hm)).
    pose proof (Z.div_mod z 10). lia.
Qed.

Lemma dec_fuel_digits n z acc :
  Forall (fun c => isdigit c = true) acc -> Forall (fun c => isdigit c = true) (dec_fuel n z acc).
Proof.
  revert z acc. induction n as [|n IH]; intros z acc Ha; [done|]. cbn [dec_fuel].
  assert (Forall (fun c => isdigit c = true) (digit (z mod 10) :: acc)).
  { constructor; [|done]. apply digit_val_digit, Z.mod_pos_bound. lia. }
  case_match; auto.
Qed.

Lemma dec_fuel_nonempty n z acc : (0 < n)%nat \/ acc <> [] -> dec_fuel n z acc <> [].
Proof.
  revert z acc. induction n as [|n IH]; intros z acc Ha; [destruct Ha; [lia|done]|].
  cbn [dec_fuel]. case_match; [done|]. apply IH. by right.
Qed.

Lemma dec_digits z : Forall (fun c => isdigit c = true) (dec z).
Proof. by apply dec_fuel_digits. Qed.

Lemma dec_nonempty z : dec z <> [].
Proof. apply dec_fuel_nonempty. left. lia. Qed.

Lemma dec_value z : 0 <= z < 10 ^ 20 -> foldl dec_step 0 (dec z) = z.
Proof. intros Hz. unfold dec. by rewrite dec_fuel_value. Qed.

(** ** [strtol] reads what [dec] wrote *)

Definition no_digit (s : bytes) : Prop :=
  match s with c :: _ => isdigit c = false | [] => True end.

Lemma digits_app acc n d rest :
  Forall (fun c => isdigit c = true) d -> no_digit rest ->
  digits acc n (d ++ rest) = (foldl dec_step acc d, (n + length d)%nat, rest).
Proof.
  intros Hd Hr. revert acc n. induction Hd as [|c d Hc _ IH]; intros acc n; cbn.
  - rewrite Nat.add_0_r. destruct rest as [|c rest]; cbn in *; [done|]. by rewrite Hr.
  - rewrite Hc, IH. by rewrite Nat.add_succ_r.
Qed.

Lemma digit_plain c : isdigit c = true -> isspace c = false /\ c <> "-"%char /\ c <> "+"%char.
Proof.
  unfold isdigit, isspace. intros Hc. split_and!; [|intros -> ; done..].
  apply andb_true_iff in Hc as [?%Z.leb_le ?%Z.leb_le]. apply orb_false_iff. split; [lia|].
  apply andb_false_iff. right. lia.
Qed.

Lemma strtol_dec `{PlatformOk} n rest :
  0 <= n < 2 ^ 31 -> no_digit rest -> strtol (dec n ++ rest) = (n, rest).
Proof.
  intros Hn Hr. unfold strtol. pose proof (dec_digits n) as Hd. pose proof (dec_nonempty n) as Hne.
  assert (Hv : foldl dec_step 0 (dec n) = n) by (apply dec_value; lia).
  destruct (dec n) as [|c d]; [done|]. assert (Hc : isdigit c = true) by by inversion Hd.
  destruct (digit_plain c Hc) as (Hsp & Hm & Hp).
  replace (sign_of (skip_space ((c :: d) ++ rest))) with (1, (c :: d) ++ rest)
    by (cbn; by rewrite Hsp; cbn; rewrite (beqb_neq _ _ Hm), (beqb_neq _ _ Hp)).
  rewrite digits_app, Hv by done. cbn [length Nat.add Nat.eqb]. f_equal.
  destruct long_bits_ok as [-> | ->]; lia.
Qed.
