(* ===== verification/HttpCommon.v ===== *)
(** * HTTP common: commands, statuses, MIME types

    [uni_net_http_common.h] and [uni_net_http_common.c]. *)

From S2P Require Import Prelude Env CString.

(** [uni_net_http_command_type_e] *)
Inductive http_command : Set :=
| UNI_NET_HTTP_COMMAND_UNKNOWN
| UNI_NET_HTTP_COMMAND_GET
| UNI_NET_HTTP_COMMAND_POST
| UNI_NET_HTTP_COMMAND_HEAD
| UNI_NET_HTTP_COMMAND_PUT
| UNI_NET_HTTP_COMMAND_DELETE
| UNI_NET_HTTP_COMMAND_TRACE
| UNI_NET_HTTP_COMMAND_OPTIONS
| UNI_NET_HTTP_COMMAND_CONNECT
| UNI_NET_HTTP_COMMAND_PATCH.

#[global] Instance http_command_eq_dec : EqDecision http_command.
Proof. solve_decision. Defined.

(** [uni_net_http_status_e]: a C enumeration, so any [int] may reach a switch. *)
Definition UNI_NET_HTTP_STATUS_OK := 200.
Definition UNI_NET_HTTP_STATUS_NOCONTENT := 204.
Definition UNI_NET_HTTP_STATUS_BADREQUEST := 400.
Definition UNI_NET_HTTP_STATUS_UNAUTHORIZED := 401.
Definition UNI_NET_HTTP_STATUS_NOTFOUND := 404.
Definition UNI_NET_HTTP_STATUS_GONE := 410.
Definition UNI_NET_HTTP_STATUS_PRECONDFAILED := 412.
Definition UNI_NET_HTTP_STATUS_INTERNALSERVERR := 500.

(** [uni_net_http_file_t]: [file_data] is the object that [data] points to. *)
Record http_file : Set := mk_http_file {
  file_path : bytes;
  file_data : bytes;
  file_size : Z;
}.
#[global] Instance eta_http_file : Eta http_file := fun x =>
  mk_http_file x.(file_path) x.(file_data) x.(file_size).

(** [uni_net_http_handler_t] *)
Record http_handler_t : Set := mk_http_handler {
  handler_path : bytes;
  handler_command : http_command;
  handler_function : ptr;
  handler_userdata : ptr;
}.
#[global] Instance eta_http_handler_t : Eta http_handler_t := fun x =>
  mk_http_handler x.(handler_path) x.(handler_command) x.(handler_function) x.(handler_userdata).

(** The extension and the type of a row. *)
Definition uni_net_http_type_couple_t : Set := bytes * bytes.

(** [g_uni_net_http_types] *)
Definition g_uni_net_http_types : list uni_net_http_type_couple_t :=
  [ (B "html", B "text/html");
    (B "json", B "application/json");
    (B "css", B "text/css");
    (B "js", B "text/javascript");
    (B "png", B "image/png");
    (B "jpg", B "image/jpeg");
    (B "gif", B "image/gif");
    (B "txt", B "text/plain");
    (B "mp3", B "audio/mpeg3");
    (B "wav", B "audio/wav");
    (B "flac", B "audio/ogg");
    (B "pdf", B "application/pdf");
    (B "ttf", B "application/x-font-ttf");
    (B "ttc", B "application/x-font-ttf") ].

(** The loop over the table. *)
Fixpoint mime_lookup (extension : bytes) (types : list uni_net_http_type_couple_t) : option bytes :=
  match types with
  | [] => None
  | (ext, ty) :: types' =>
      if strcasecmp_eq extension ext then Some ty else mime_lookup extension types'
  end.

(** [uni_net_http_get_mime_type] *)
Definition uni_net_http_get_mime_type (extension : option bytes) : bytes :=
  match extension with
  | None => B "application/octet-stream"
  | Some e => default (B "application/octet-stream") (mime_lookup e g_uni_net_http_types)
  end.

(** ** Properties *)

Lemma mime_lookup_unique (types : list (bytes * bytes)) (e k ty : bytes) :
  NoDup ((fun p : bytes * bytes => lower p.1) <$> types) ->
  (k, ty) ∈ types -> strcasecmp_eq e k = true -> mime_lookup e types = Some ty.
Proof.
  induction types as [|[k' ty'] types IH]; simpl; [by intros _ ?%elem_of_nil|].
  rewrite NoDup_cons, elem_of_cons. intros [Hk Hnd] [[= <- <-]|Hin] He; [by rewrite He|].
  destruct (strcasecmp_eq e k') eqn:E; [|by apply IH].
  exfalso. apply Hk. apply list_elem_of_fmap. exists (k, ty). split; [|done].
  unfold strcasecmp_eq in *. apply bool_decide_eq_true_1 in He, E. simpl. congruence.
Qed.

Lemma mime_lookup_None (types : list (bytes * bytes)) (e : bytes) :
  (forall k ty, (k, ty) ∈ types -> strcasecmp_eq e k = false) -> mime_lookup e types = None.
Proof.
  induction types as [|[k ty] types IH]; simpl; [done|]. intros H.
  rewrite (H k ty) by (apply elem_of_cons; by left). apply IH.
  intros k' ty' Hin. apply (H k' ty'). apply elem_of_cons. by right.
Qed.

Lemma http_types_NoDup : NoDup ((fun p : bytes * bytes => lower p.1) <$> g_uni_net_http_types).
Proof. by apply (bool_decide_unpack _). Qed.

(** The table maps each extension to one type whatever the case of the request
    and whatever the order of the rows; anything else is an octet stream. *)
Theorem mime_type_table (e : bytes) :
  (forall k ty, (k, ty) ∈ g_uni_net_http_types -> lower e = lower k ->
     uni_net_http_get_mime_type (Some e) = ty)
  /\ ((forall k ty, (k, ty) ∈ g_uni_net_http_types -> lower e <> lower k) ->
     uni_net_http_get_mime_type (Some e) = B "application/octet-stream").
Proof.
  unfold uni_net_http_get_mime_type. split.
  - intros k ty Hin He. rewrite (mime_lookup_unique _ e k ty http_types_NoDup Hin); [done|].
    by apply bool_decide_eq_true_2.
  - intros H. rewrite mime_lookup_None; [done|]. intros k ty Hin.
    apply bool_decide_eq_false_2. by eapply H.
Qed.
