(* ===== verification/HttpServer.v ===== *)
(** * HTTP server: state and operations

    [uni_net_http_server.h] and [uni_net_http_server.c], function by function.
    A function that works on one client has type [M hstate _] over the pair of
    the server context and that client; the functions of the server task have
    type [M http_server _].  A pointer into [client->buf_rx] (the URL, the first
    body bytes) is its offset in that buffer. *)

From S2P Require Import Prelude Env Prog CString HttpCommon.
#[local] Open Scope prog_scope.

Section HttpServer.
Context `{Platform} `{UniCommon}.

Definition UNI_NET_HTTP_SERVER_IFACE_TIME := 250.
Definition UNI_NET_HTTP_SERVER_BLOCKING_TIME := 50.
Definition UNI_NET_HTTP_SERVER_PORT := 80.
Definition UNI_NET_HTTP_SERVER_RX_WIN := 2.
Definition UNI_NET_HTTP_SERVER_TX_WIN := 2.
Definition UNI_NET_HTTP_SERVER_TASK_PRIORITY := 2.
Definition UNI_NET_HTTP_SERVER_RX_BUF : Z := 2 * ipconfigTCP_MSS.
Definition UNI_NET_HTTP_SERVER_TX_BUF : Z := 6 * ipconfigTCP_MSS.

(** ** State *)

(** [uni_net_http_server_client_state_t] *)
Record client_state : Set := mk_client {
  socket : ptr;
  command_type : http_command;
  file : option http_file;
  handler : option http_handler_t;
  file_offset : Z;
  content_length : Z;
  header_sent : bool;
  content_type : option bytes;
  rx_len : Z;
  headers_done : bool;
  buf_rx : bytes;
  buf_tx : bytes;
}.
#[global] Instance eta_client_state : Eta client_state := fun x =>
  mk_client x.(socket) x.(command_type) x.(file) x.(handler) x.(file_offset) x.(content_length) x.(header_sent) x.(content_type) x.(rx_len) x.(headers_done) x.(buf_rx) x.(buf_tx).

(** [uni_net_http_server_state_t]; [clients] is [None] for a NULL pointer and a
    slot holds the address of a client with the object stored there. *)
Record server_state : Set := mk_server_state {
  initialized : bool;
  handle : ptr;
  socket_set : ptr;
  listen_socket : ptr;
  clients : option (list (option (ptr * client_state)));
  buf_tx_hdr : bytes;
}.
#[global] Instance eta_server_state : Eta server_state := fun x =>
  mk_server_state x.(initialized) x.(handle) x.(socket_set) x.(listen_socket) x.(clients) x.(buf_tx_hdr).

(** [uni_net_http_server_config_t] *)
Record server_config : Type := mk_server_config {
  handlers : uni_common_array_t http_handler_t;
  files : uni_common_array_t http_file;
  max_clients : nat;
}.
#[global] Instance eta_server_config : Eta server_config := fun x =>
  mk_server_config x.(handlers) x.(files) x.(max_clients).

(** [uni_net_http_server_context_t] *)
Record http_server : Type := mk_http_server {
  config : server_config;
  state : server_state;
}.
#[global] Instance eta_http_server : Eta http_server := fun x =>
  mk_http_server x.(config) x.(state).

(** What a function with the parameters [ctx] and [client] works on. *)
Record hstate : Type := mk_hstate {
  ctx : http_server;
  client : client_state;
}.
#[global] Instance eta_hstate : Eta hstate := fun x =>
  mk_hstate x.(ctx) x.(client).

Definition upd_client (f : client_state -> client_state) : M hstate unit :=
  modify (fun s => s <| client ::= f |>).

(** ** Tables *)

(** The length, the name and the type of a command. *)
Definition uni_net_http_command_t : Set := nat * bytes * http_command.

(** [g_UNI_NET_http_cmd] *)
Definition g_UNI_NET_http_cmd : list uni_net_http_command_t :=
  [ (3%nat, B "GET", UNI_NET_HTTP_COMMAND_GET);
    (4%nat, B "HEAD", UNI_NET_HTTP_COMMAND_HEAD);
    (4%nat, B "POST", UNI_NET_HTTP_COMMAND_POST);
    (3%nat, B "PUT", UNI_NET_HTTP_COMMAND_PUT);
    (6%nat, B "DELETE", UNI_NET_HTTP_COMMAND_DELETE);
    (5%nat, B "TRACE", UNI_NET_HTTP_COMMAND_TRACE);
    (7%nat, B "OPTIONS", UNI_NET_HTTP_COMMAND_OPTIONS);
    (7%nat, B "CONNECT", UNI_NET_HTTP_COMMAND_CONNECT);
    (5%nat, B "PATCH", UNI_NET_HTTP_COMMAND_PATCH);
    (4%nat, B "UNKN", UNI_NET_HTTP_COMMAND_UNKNOWN) ].

(** [_uni_net_http_server_status_name] *)
Definition _uni_net_http_server_status_name (aCode : Z) : bytes :=
  if aCode =? UNI_NET_HTTP_STATUS_OK then B "OK"
  else if aCode =? UNI_NET_HTTP_STATUS_NOCONTENT then B "No content"
  else if aCode =? UNI_NET_HTTP_STATUS_BADREQUEST then B "Bad request"
  else if aCode =? UNI_NET_HTTP_STATUS_UNAUTHORIZED then B "Authorization Required"
  else if aCode =? UNI_NET_HTTP_STATUS_NOTFOUND then B "Not Found"
  else if aCode =? UNI_NET_HTTP_STATUS_GONE then B "Done"
  else if aCode =? UNI_NET_HTTP_STATUS_PRECONDFAILED then B "Precondition Failed"
  else if aCode =? UNI_NET_HTTP_STATUS_INTERNALSERVERR then B "Internal Server Error"
  else B "Unknown".

(** ** Content type *)

(** The last position of a character at or after index [i], [acc] if none. *)
Fixpoint last_pos (c : byte) (i : nat) (s : bytes) (acc : option nat) : option nat :=
  match s with
  | [] => acc
  | x :: s' => last_pos c (S i) s' (if beqb x c then Some i else acc)
  end.

(** Comparison of two pointers into one string, either of which may be NULL. *)
Definition ptr_gt (a b : option nat) : bool :=
  match a, b with
  | Some i, Some j => (j <? i)%nat
  | Some _, None => true
  | None, _ => false
  end.

(** [_uni_net_http_server_content_type] *)
Definition _uni_net_http_server_content_type (filename : option bytes) : bytes :=
  match filename with
  | None => B "text/html"
  | Some name =>
      let dot := last_pos "."%char 0 name None in
      let slash := last_pos "/"%char 0 name None in
      match dot with
      | Some d =>
          if ptr_gt dot slash then uni_net_http_get_mime_type (Some (drop (S d) name))
          else B "text/html"
      | None => B "text/html"
      end
  end.

(** ** Response header *)

Definition CRLF : bytes := [CR; LF].

(** [idx += snprintf(&buf_tx_hdr[idx], sizeof(buf_tx_hdr) - idx - 1, ...)] *)
Definition hdr_printf (fs : list fmt) (idx : Z) : M hstate Z :=
  let! s := get in
  let n := size_t (ipconfigTCP_MSS - idx - 1) in
  let '(w, r) := uni_hal_io_stdio_snprintf n fs in
  let! buf := deref (if n =? 0 then Some s.(ctx).(state).(buf_tx_hdr)
                     else write_at s.(ctx).(state).(buf_tx_hdr) (Z.to_nat idx) (w ++ [NUL])) in
  modify (fun s => s <| ctx ::= fun c => c <| state ::= fun st => st <| buf_tx_hdr := buf |> |> |>) ;;
  ret (size_t (idx + r)).

(** The [snprintf] calls of [_uni_net_http_server_send_header]: the final [idx]. *)
Definition header_text (status : Z) : M hstate Z :=
  let! idx := hdr_printf [F_lit (B "HTTP/1.1 "); F_d status; F_lit (B " ");
                          F_s (_uni_net_http_server_status_name status); F_lit CRLF] 0 in
  let! s := get in
  let! idx := hdr_printf [F_lit (B "Content-Type: ");
                          F_s (default (B "text/html") s.(client).(content_type)); F_lit CRLF] idx in
  let! idx := hdr_printf [F_lit (B "Cache-Control: no-store, no-cache, must-revalidate, max-age=0");
                          F_lit CRLF] idx in
  let! idx := hdr_printf [F_lit (B "Pragma: no-cache"); F_lit CRLF] idx in
  let! idx := hdr_printf [F_lit (B "Expires: 0"); F_lit CRLF] idx in
  let! idx := hdr_printf [F_lit (B "Connection: keep-alive"); F_lit CRLF] idx in
  hdr_printf [F_lit (B "Content-Length: "); F_u s.(client).(content_length); F_lit CRLF; F_lit CRLF] idx.

(** [_uni_net_http_server_send_header] *)
Definition _uni_net_http_server_send_header (status : Z) : M hstate Z :=
  let! s := get in
  let! buf := deref (write_at s.(ctx).(state).(buf_tx_hdr) 0 [NUL]) in
  modify (fun s => s <| ctx ::= fun c => c <| state ::= fun st => st <| buf_tx_hdr := buf |> |> |>) ;;
  (if status =? UNI_NET_HTTP_STATUS_OK then ret tt
   else upd_client (fun c => c <| content_type := None |> <| content_length := 0 |>)) ;;
  let! idx := header_text status in
  let! s := get in
  let! hdr := deref (read_at s.(ctx).(state).(buf_tx_hdr) 0 (Z.to_nat idx)) in
  let! result := do_call (FreeRTOS_send s.(client).(socket) hdr) in
  upd_client (fun c => c <| header_sent := true |>) ;;
  ret (i32 result).

(** [_uni_net_http_server_client_clear] *)
Definition client_clear (c : client_state) : client_state :=
  c <| command_type := UNI_NET_HTTP_COMMAND_UNKNOWN |> <| file := None |> <| handler := None |>
    <| file_offset := 0 |> <| content_length := 0 |> <| header_sent := false |>
    <| content_type := None |> <| rx_len := 0 |> <| headers_done := false |>.

Definition _uni_net_http_server_client_clear : M hstate unit := upd_client client_clear.

Definition fd_set (bits : Z) : M hstate unit :=
  let! s := get in
  do_call (FreeRTOS_FD_SET s.(client).(socket) s.(ctx).(state).(socket_set) bits).

Definition fd_clr (bits : Z) : M hstate unit :=
  let! s := get in
  do_call (FreeRTOS_FD_CLR s.(client).(socket) s.(ctx).(state).(socket_set) bits).

(** The string at a pointer into [client->buf_rx], or NULL. *)
Definition url_string (url : option nat) : M hstate (option bytes) :=
  match url with
  | None => ret None
  | Some off =>
      let! s := get in
      let! u := deref (cstr (drop off s.(client).(buf_rx))) in
      ret (Some u)
  end.

(** ** GET *)

(** The [do ... while] loop of [_uni_net_http_server_cmd_get_sendfile]. *)
Fixpoint sendfile_loop (fuel : nat) (result : Z) : M hstate Z :=
  match fuel with
  | O => halt OutOfFuel
  | S fuel' =>
      let! s := get in
      let! f := deref s.(client).(file) in
      let! space := do_call (FreeRTOS_tx_space s.(client).(socket)) in
      let uxSpace := size_t space in
      let uxCount := uni_common_math_min3 uxSpace (u32 (f.(file_size) - s.(client).(file_offset)))
                       UNI_NET_HTTP_SERVER_TX_BUF in
      if 0 <? uxCount then
        let! chunk := deref (read_at f.(file_data) (Z.to_nat s.(client).(file_offset)) (Z.to_nat uxCount)) in
        let! tx := deref (write_at s.(client).(buf_tx) 0 chunk) in
        upd_client (fun c => c <| buf_tx := tx |> <| file_offset := u32 (c.(file_offset) + uxCount) |>) ;;
        let! out := deref (read_at tx 0 (Z.to_nat uxCount)) in
        let! result := do_call (FreeRTOS_send s.(client).(socket) out) in
        if i32 result <? 0 then ret (i32 result) else sendfile_loop fuel' (i32 result)
      else ret result
  end.

(** [_uni_net_http_server_cmd_get_sendfile]; every turn of the loop but the last
    advances [file_offset], so the size of the file bounds the turns. *)
Definition _uni_net_http_server_cmd_get_sendfile (url : option nat) : M hstate Z :=
  let! s := get in
  let! result :=
    (if s.(client).(header_sent) then ret 0
     else
       let! u := url_string url in
       let! f := deref s.(client).(file) in
       upd_client (fun c => c <| content_type := Some (_uni_net_http_server_content_type u) |>
                              <| content_length := f.(file_size) |>) ;;
       _uni_net_http_server_send_header UNI_NET_HTTP_STATUS_OK) in
  let! f := deref s.(client).(file) in
  let! result := (if 0 <=? result then sendfile_loop (S (Z.to_nat f.(file_size))) result
                  else ret result) in
  let! s := get in
  let! f := deref s.(client).(file) in
  (if f.(file_size) <=? s.(client).(file_offset) then
     fd_clr eSELECT_WRITE ;;
     _uni_net_http_server_client_clear
   else fd_set eSELECT_WRITE) ;;
  ret result.

(** [client->handler->function(userdata, buf_out, size, buf_in, len)] with
    [client->buf_tx] as the output buffer; a NULL function pointer or a handler
    that changes the size of the buffer is undefined behaviour. *)
Definition handler_call (h : http_handler_t) (size : Z) (buf_in : option bytes) : M hstate Z :=
  if handler_function h =? NULL then halt UB
  else
    let! r := do_call (http_handler h.(handler_function) h.(handler_userdata) size buf_in) in
    let! s := get in
    let! tx := deref (if size =? 0 then Some s.(client).(buf_tx)
                      else if decide (length r.2 = length s.(client).(buf_tx)) then Some r.2 else None) in
    upd_client (fun c => c <| buf_tx := tx |>) ;;
    ret r.1.

(** Send the first [content_length] bytes of [client->buf_tx]. *)
Definition send_buf_tx : M hstate Z :=
  let! s := get in
  let! out := deref (read_at s.(client).(buf_tx) 0 (Z.to_nat s.(client).(content_length))) in
  let! r := do_call (FreeRTOS_send s.(client).(socket) out) in
  ret (i32 r).

(** [client->content_length = FreeRTOS_tx_space(...)], cut to [result]. *)
Definition set_response_length (result : Z) : M hstate unit :=
  let! s := get in
  let! space := do_call (FreeRTOS_tx_space s.(client).(socket)) in
  upd_client (fun c => c <| content_length := u32 space |>) ;;
  upd_client (fun c => c <| content_length := uni_common_math_min c.(content_length) (u32 result) |>).

(** [_uni_net_http_server_cmd_get_sendresponse] *)
Definition _uni_net_http_server_cmd_get_sendresponse (url : option nat) : M hstate Z :=
  let! s := get in
  let! h := deref s.(client).(handler) in
  let! result :=
    (if bool_decide (h.(handler_command) = UNI_NET_HTTP_COMMAND_GET) && negb (h.(handler_function) =? NULL) then
       let! r := handler_call h UNI_NET_HTTP_SERVER_TX_BUF (Some s.(client).(buf_rx)) in
       let result := i32 r in
       set_response_length result ;;
       let! u := url_string url in
       upd_client (fun c => c <| content_type := Some (_uni_net_http_server_content_type u) |>) ;;
       let! sent := _uni_net_http_server_send_header UNI_NET_HTTP_STATUS_OK in
       if (0 <=? sent) && (0 <=? result) then send_buf_tx else ret result
     else _uni_net_http_server_send_header UNI_NET_HTTP_STATUS_INTERNALSERVERR) in
  fd_clr eSELECT_WRITE ;;
  _uni_net_http_server_client_clear ;;
  ret result.

(** The loop [for (i = 0; i < uni_common_array_size(a); ++i)] that stops at the
    first element with a property; [None] when a NULL element is dereferenced. *)
Fixpoint array_find {A} (a : uni_common_array_t A) (p : A -> bool) (i n : nat) : option (option A) :=
  match n with
  | O => Some None
  | S n' =>
      match uni_common_array_get a i with
      | None => None
      | Some x => if p x then Some (Some x) else array_find a p (S i) n'
      end
  end.

Definition array_search {A} (a : uni_common_array_t A) (p : A -> bool) : option (option A) :=
  if uni_common_array_valid a then array_find a p 0 (uni_common_array_size a) else Some None.

(** The handler of a command and path; [None] leaves [client->handler] alone. *)
Definition find_handler (cmd : http_command) (url : nat) : M hstate unit :=
  let! s := get in
  let! u := url_string (Some url) in
  let! h := deref (array_search s.(ctx).(config).(handlers)
                     (fun h => bool_decide (h.(handler_command) = cmd)
                               && strcmp_eq (default [] u) h.(handler_path))) in
  match h with
  | Some h => upd_client (fun c => c <| handler := Some h |>)
  | None => ret tt
  end.

Definition find_file (url : nat) : M hstate unit :=
  let! s := get in
  let! u := url_string (Some url) in
  let! f := deref (array_search s.(ctx).(config).(files) (fun f => strcmp_eq (default [] u) f.(file_path))) in
  match f with
  | Some f => upd_client (fun c => c <| file := Some f |>)
  | None => ret tt
  end.

(** [_uni_net_http_server_cmd_get_start] *)
Definition _uni_net_http_server_cmd_get_start (url : nat) (data : nat) (data_len : Z) : M hstate Z :=
  upd_client (fun c => c <| command_type := UNI_NET_HTTP_COMMAND_GET |>) ;;
  find_handler UNI_NET_HTTP_COMMAND_GET url ;;
  let! s := get in
  if s.(client).(handler) is Some _ then _uni_net_http_server_cmd_get_sendresponse (Some url)
  else
    find_file url ;;
    let! s := get in
    if s.(client).(file) is Some _ then _uni_net_http_server_cmd_get_sendfile (Some url)
    else
      let! result := _uni_net_http_server_send_header UNI_NET_HTTP_STATUS_NOTFOUND in
      _uni_net_http_server_client_clear ;;
      ret result.

(** [_uni_net_http_server_cmd_get_next] *)
Definition _uni_net_http_server_cmd_get_next : M hstate Z :=
  let! s := get in
  if s.(client).(file) is Some _ then _uni_net_http_server_cmd_get_sendfile None else ret 0.

(** ** POST *)

(** [FreeRTOS_recv(client->socket, client->buf_rx + off, n, 0)] *)
Definition recv_into (off : nat) (n : Z) : M hstate Z :=
  let! s := get in
  let! r := do_call (FreeRTOS_recv s.(client).(socket) n) in
  if 0 <? r.1 then
    let! buf := deref (write_at s.(client).(buf_rx) off r.2) in
    upd_client (fun c => c <| buf_rx := buf |>) ;;
    ret (i32 r.1)
  else ret (i32 r.1).

(** [_uni_net_http_server_cmd_post_next] *)
Definition _uni_net_http_server_cmd_post_next : M hstate Z :=
  let! s := get in
  match s.(client).(handler) with
  | None => ret 0
  | Some h =>
      let remaining := u32 (s.(client).(content_length) - s.(client).(file_offset)) in
      if 0 <? remaining then
        let to_recv := uni_common_math_min remaining UNI_NET_HTTP_SERVER_RX_BUF in
        let! result := recv_into 0 to_recv in
        if 0 <? result then
          let deliver := uni_common_math_min (size_t result) remaining in
          let! s := get in
          let! d := deref (read_at s.(client).(buf_rx) 0 (Z.to_nat deliver)) in
          let! _ := handler_call h 0 (Some d) in
          upd_client (fun c => c <| file_offset := u32 (c.(file_offset) + deliver) |>) ;;
          ret result
        else ret result
      else
        let! r := handler_call h UNI_NET_HTTP_SERVER_TX_BUF None in
        let result := i32 r in
        set_response_length result ;;
        upd_client (fun c => c <| content_type := Some (B "text/plain") |>) ;;
        let! sent := _uni_net_http_server_send_header UNI_NET_HTTP_STATUS_OK in
        let! result := (if (0 <=? sent) && (0 <=? result) then send_buf_tx else ret result) in
        _uni_net_http_server_client_clear ;;
        fd_clr (Z.lor eSELECT_READ eSELECT_WRITE) ;;
        ret result
  end.

(** [_uni_net_http_server_cmd_post_start]; [data] is an offset in [buf_rx]. *)
Definition _uni_net_http_server_cmd_post_start (url : nat) (data : nat) (data_len : Z) : M hstate Z :=
  upd_client (fun c => c <| command_type := UNI_NET_HTTP_COMMAND_POST |>) ;;
  find_handler UNI_NET_HTTP_COMMAND_POST url ;;
  let! s := get in
  match s.(client).(handler) with
  | Some h =>
      (if (0 <? data_len) && (s.(client).(file_offset) <=? s.(client).(content_length)) then
         let remaining := u32 (s.(client).(content_length) - s.(client).(file_offset)) in
         let chunk := uni_common_math_min remaining data_len in
         if 0 <? chunk then
           let! d := deref (read_at s.(client).(buf_rx) data (Z.to_nat chunk)) in
           let! _ := handler_call h 0 (Some d) in
           upd_client (fun c => c <| file_offset := u32 (c.(file_offset) + chunk) |>)
         else ret tt
       else ret tt) ;;
      let! s := get in
      if s.(client).(content_length) <=? s.(client).(file_offset) then _uni_net_http_server_cmd_post_next
      else fd_set eSELECT_READ ;; ret 0
  | None =>
      let! result := _uni_net_http_server_send_header UNI_NET_HTTP_STATUS_NOTFOUND in
      _uni_net_http_server_client_clear ;;
      ret result
  end.

(** ** Dispatch *)

(** The handlers of a command: the first gets the positions of the URL and of the
    data in the receive buffer and the length of the data. *)
Definition uni_net_http_server_cmd_start_handler_t : Type := nat -> nat -> Z -> M hstate Z.
Definition uni_net_http_server_cmd_next_handler_t : Type := M hstate Z.
Definition uni_net_http_server_cmd_map_t : Type :=
  http_command * uni_net_http_server_cmd_start_handler_t * uni_net_http_server_cmd_next_handler_t.

(** [g_http_cmd_map] *)
Definition g_http_cmd_map : list uni_net_http_server_cmd_map_t :=
  [ (UNI_NET_HTTP_COMMAND_GET, _uni_net_http_server_cmd_get_start, _uni_net_http_server_cmd_get_next);
    (UNI_NET_HTTP_COMMAND_POST, _uni_net_http_server_cmd_post_start, _uni_net_http_server_cmd_post_next) ].

Definition cmd_map_find (cmd : http_command) :=
  snd <$> list_find (fun e => e.1.1 = cmd) g_http_cmd_map.

(** [_uni_net_http_server_cmd_process_start] *)
Definition _uni_net_http_server_cmd_process_start (cmd : http_command) (url data : nat) (data_len : Z) : M hstate Z :=
  match cmd_map_find cmd with
  | Some (_, start_handler, _) => start_handler url data data_len
  | None => ret 0
  end.

(** [_uni_net_http_server_cmd_process_next] *)
Definition _uni_net_http_server_cmd_process_next : M hstate Z :=
  let! s := get in
  match cmd_map_find s.(client).(command_type) with
  | Some (_, _, next_handler) => next_handler
  | None => ret 0
  end.

(** ** Request parsing

    The parsing code of [_uni_net_http_server_client_work], on the receive
    buffer.  [None] as the outer result is a read outside of the buffer. *)

Definition char_is (buf : bytes) (i : nat) (c : byte) : option bool :=
  (fun x => beqb x c) <$> buf !! i.

(** [buf[i] == '\r' && buf[i + 1] == '\n'] *)
Definition crlf_at (buf : bytes) (i : nat) : option bool :=
  match char_is buf i CR with
  | Some true => char_is buf (S i) LF
  | r => r
  end.

(** The four bytes that end the headers. *)
Definition hdr_end_at (buf : bytes) (i : nat) : option bool :=
  match crlf_at buf i with
  | Some true => crlf_at buf (S (S i))
  | r => r
  end.

(** The loop that finds the end of the headers: [hdr_end] or nothing. *)
Definition find_hdr_end (buf : bytes) (rx_len : nat) : option (option nat) :=
  match scan (hdr_end_at buf) 0 (rx_len - 3) with
  | Some (Some i) => Some (Some (i + 4)%nat)
  | r => r
  end.

(** The loop over [g_UNI_NET_http_cmd], without its last row. *)
Fixpoint find_command (buf : bytes) (rx_len : nat) (cmds : list uni_net_http_command_t) :
    option (option (nat * http_command)) :=
  match cmds with
  | [] => Some None
  | (cmd_len, cmd_name, cmd_type) :: cmds' =>
      if (cmd_len <=? rx_len)%nat then
        match memcmp_eq (take cmd_len cmd_name) buf with
        | None => None
        | Some true => Some (Some (cmd_len, cmd_type))
        | Some false => find_command buf rx_len cmds'
        end
      else find_command buf rx_len cmds'
  end.

Definition is_url_end (c : byte) : bool := beqb c CR || beqb c LF || beqb c SP || beqb c HT.

(** The loop that finds the end of the URL before [hdr_end]. *)
Definition find_url_end (buf : bytes) (url hdr_end : nat) : option (option nat) :=
  scan (fun i => is_url_end <$> buf !! i) url (hdr_end - url).

Definition is_blank (c : byte) : bool := beqb c SP || beqb c HT.

Fixpoint skip_blank (s : bytes) : bytes :=
  match s with
  | c :: s' => if is_blank c then skip_blank s' else s
  | [] => []
  end.

(** [val = val * 10U + (p[j] - '0')] over the digits: the value and whether there
    was any. *)
Fixpoint parse_u32 (val : Z) (any : bool) (s : bytes) : Z * bool :=
  match s with
  | c :: s' => if isdigit c then parse_u32 (u32 (val * 10 + digit_val c)) true s' else (val, any)
  | [] => (val, any)
  end.

Definition cl_name : bytes := B "Content-Length:".

(** The value of one header line, when it is a Content-Length with digits. *)
Definition content_length_line (line : bytes) : option Z :=
  if (length cl_name <=? length line)%nat && bool_decide (lower (take (length cl_name) line) = lower cl_name)
  then let '(val, any) := parse_u32 0 false (skip_blank (drop (length cl_name) line)) in
       if any then Some val else None
  else None.

(** The end of the line that starts at [p]. *)
Definition line_end (buf : bytes) (p hdr_end : nat) : option nat :=
  match scan (crlf_at buf) p (hdr_end - 1 - p) with
  | Some (Some e) => Some e
  | Some None => Some (hdr_end - 1)%nat
  | None => None
  end.

(** The loop over the header lines: [content_length] and [cl_found]. *)
Fixpoint header_lines (fuel : nat) (buf : bytes) (hdr_end p : nat) (acc : Z * bool) : option (Z * bool) :=
  match fuel with
  | O => None
  | S fuel' =>
      if (p + 1 <? hdr_end)%nat then
        match crlf_at buf p with
        | None => None
        | Some true => Some acc
        | Some false =>
            match line_end buf p hdr_end with
            | None => None
            | Some e =>
                let acc' := match content_length_line (take (e - p) (drop p buf)) with
                            | Some val => (val, true)
                            | None => acc
                            end in
                header_lines fuel' buf hdr_end (e + 2)%nat acc'
            end
        end
      else Some acc
  end.

(** [content_length] and [cl_found] for the headers before [hdr_end]. *)
Definition parse_content_length (buf : bytes) (hdr_end : nat) : option (Z * bool) :=
  match scan (crlf_at buf) 0 (hdr_end - 1) with
  | None => None
  | Some r =>
      let p := match r with Some j => (j + 2)%nat | None => (hdr_end - 1)%nat end in
      header_lines (S hdr_end) buf hdr_end p (0, false)
  end.

(** ** Client *)

(** Reject the request: status 400, clear, stop selecting on the socket. *)
Definition bad_request : M hstate unit :=
  let! _ := _uni_net_http_server_send_header UNI_NET_HTTP_STATUS_BADREQUEST in
  _uni_net_http_server_client_clear ;;
  fd_clr (Z.lor eSELECT_READ eSELECT_WRITE).

(** From [headers_done = true] on: parse the request and start its command. *)
Definition client_request (hdr_end : nat) : M hstate Z :=
  upd_client (fun c => c <| headers_done := true |>) ;;
  let! s := get in
  let! cmd := deref (find_command s.(client).(buf_rx) (Z.to_nat s.(client).(rx_len))
                       (take 9 g_UNI_NET_http_cmd)) in
  match cmd with
  | None => bad_request ;; ret (-1)
  | Some (cmd_len, cmd_type) =>
      let url := (cmd_len + 1)%nat in
      let! url_end := deref (find_url_end s.(client).(buf_rx) url hdr_end) in
      match url_end with
      | None => bad_request ;; ret (-1)
      | Some e =>
          upd_client (fun c => c <| buf_rx := <[e := NUL]> c.(buf_rx) |>) ;;
          let! s := get in
          let! cl := deref (parse_content_length s.(client).(buf_rx) hdr_end) in
          let body_avail := size_t (s.(client).(rx_len) - Z.of_nat hdr_end) in
          if bool_decide (cmd_type = UNI_NET_HTTP_COMMAND_POST) && negb cl.2 then
            bad_request ;; ret (-1)
          else
            (if bool_decide (cmd_type = UNI_NET_HTTP_COMMAND_POST)
             then upd_client (fun c => c <| content_length := cl.1 |>) else ret tt) ;;
            let! result := _uni_net_http_server_cmd_process_start cmd_type url hdr_end body_avail in
            upd_client (fun c => c <| rx_len := 0 |>) ;;
            ret result
      end
  end.

(** [_uni_net_http_server_client_work] *)
Definition _uni_net_http_server_client_work : M hstate Z :=
  let! s := get in
  let! connected := do_call (FreeRTOS_issocketconnected s.(client).(socket)) in
  if connected =? 0 then ret (-1)
  else if bool_decide (s.(client).(command_type) = UNI_NET_HTTP_COMMAND_UNKNOWN) then
    let! recv_cnt := recv_into (Z.to_nat s.(client).(rx_len))
                       (size_t (UNI_NET_HTTP_SERVER_RX_BUF - s.(client).(rx_len))) in
    if 0 <? recv_cnt then
      upd_client (fun c => c <| rx_len := u32 (c.(rx_len) + recv_cnt) |>) ;;
      upd_client (fun c => if UNI_NET_HTTP_SERVER_RX_BUF <? c.(rx_len)
                           then c <| rx_len := UNI_NET_HTTP_SERVER_RX_BUF |> else c) ;;
      let! s := get in
      let! hdr_end := deref (find_hdr_end s.(client).(buf_rx) (Z.to_nat s.(client).(rx_len))) in
      match hdr_end with
      | None =>
          (if s.(client).(rx_len) =? UNI_NET_HTTP_SERVER_RX_BUF then bad_request else ret tt) ;;
          ret recv_cnt
      | Some hdr_end => client_request hdr_end
      end
    else ret 0
  else _uni_net_http_server_cmd_process_next.

(** ** Server *)

(** [_uni_net_http_server_client_new]: the fresh object of [pvPortCalloc] is
    dereferenced without a check. *)
Definition fresh_client (s : ptr) : client_state :=
  mk_client s UNI_NET_HTTP_COMMAND_UNKNOWN None None 0 0 false None 0 false
    (replicate (Z.to_nat UNI_NET_HTTP_SERVER_RX_BUF) NUL)
    (replicate (Z.to_nat UNI_NET_HTTP_SERVER_TX_BUF) NUL).

(** The first free slot below [max_clients]; [None] for a read outside of the
    array of slots. *)
Definition free_slot (slots : list (option (ptr * client_state))) (max : nat) : option (option nat) :=
  scan (fun i => match slots !! i with
                 | Some None => Some true
                 | Some (Some _) => Some false
                 | None => None
                 end) 0 max.

Definition upd_state (f : server_state -> server_state) : M http_server unit :=
  modify (fun c => c <| state ::= f |>).

Definition _uni_net_http_server_client_new (sock : ptr) : M http_server unit :=
  if sock =? NULL then ret tt
  else
    let! p := do_call (pvPortCalloc sizeof_http_client 1) in
    if p =? NULL then halt UB
    else
      let cl := fresh_client sock in
      let! c := get in
      do_call (FreeRTOS_FD_SET sock c.(state).(socket_set) (Z.lor eSELECT_READ eSELECT_EXCEPT)) ;;
      let! slots := deref (if (c.(config).(max_clients) =? 0)%nat then Some [] else c.(state).(clients)) in
      let! slot := deref (free_slot slots c.(config).(max_clients)) in
      match slot with
      | Some idx => upd_state (fun st => st <| clients := Some (<[idx := Some (p, cl)]> slots) |>)
      | None => ret tt
      end.

(** [_uni_net_http_server_client_delete]; clearing the object just before it is
    freed has no further effect. *)
Definition _uni_net_http_server_client_delete (p : ptr) (cl : client_state) : M http_server unit :=
  let! c := get in
  (if cl.(socket) =? NULL then ret tt
   else
     do_call (FreeRTOS_FD_CLR cl.(socket) c.(state).(socket_set) eSELECT_ALL) ;;
     let! _ := do_call (FreeRTOS_closesocket cl.(socket)) in
     ret tt) ;;
  do_call (vPortFree p).

(** Run a client function on the object that a slot points to. *)
Definition with_client {A} (cl : client_state) (m : M hstate A) : M http_server (A * client_state) :=
  fun c => bind (m (mk_hstate c cl)) (fun '(a, s) => Ret ((a, s.(client)), s.(ctx))).

Definition set_slot (idx : nat) (v : option (ptr * client_state)) : M http_server unit :=
  upd_state (fun st => st <| clients := (fun l => <[idx := v]> l) <$> st.(clients) |>).

(** The loop over the clients. *)
Fixpoint clients_loop (idx n : nat) : M http_server unit :=
  match n with
  | O => ret tt
  | S n' =>
      let! c := get in
      let! slots := deref c.(state).(clients) in
      let! slot := deref (slots !! idx) in
      match slot with
      | None => ret tt
      | Some (p, cl) =>
          let! r := with_client cl _uni_net_http_server_client_work in
          set_slot idx (Some (p, r.2)) ;;
          if r.1 <? 0 then
            _uni_net_http_server_client_delete p r.2 ;;
            set_slot idx None
          else ret tt
      end ;;
      clients_loop (S idx) n'
  end.

(** [_uni_net_http_server_work] *)
Definition _uni_net_http_server_work : M http_server bool :=
  let! c := get in
  let! flags := do_call (FreeRTOS_select c.(state).(socket_set)
                           (pdMS_TO_TICKS UNI_NET_HTTP_SERVER_BLOCKING_TIME)) in
  (if u32 flags =? 0 then ret tt
   else
     let! sock := do_call (FreeRTOS_accept c.(state).(listen_socket)) in
     if negb (sock =? NULL) && negb (sock =? FREERTOS_INVALID_SOCKET)
     then _uni_net_http_server_client_new sock else ret tt) ;;
  clients_loop 0 c.(config).(max_clients) ;;
  ret true.

(** The loop that waits for the network. *)
Fixpoint wait_network {S} (fuel : nat) (ms : Z) : M S unit :=
  match fuel with
  | O => halt OutOfFuel
  | S fuel' =>
      let! up := do_call FreeRTOS_IsNetworkUp in
      if up =? pdFALSE then do_call (vTaskDelay (pdMS_TO_TICKS ms)) ;; wait_network fuel' ms
      else ret tt
  end.

Definition zero_state : server_state :=
  mk_server_state false NULL NULL NULL None (replicate (Z.to_nat ipconfigTCP_MSS) NUL).

Definition size_of_ptr : Z := size_bits / 8.

(** [_uni_net_http_server_init] for a non-NULL [ctx]. *)
Definition _uni_net_http_server_init (fuel : nat) : M http_server bool :=
  upd_state (fun _ => zero_state) ;;
  wait_network fuel UNI_NET_HTTP_SERVER_IFACE_TIME ;;
  let! c := get in
  let! mem := do_call (pvPortCalloc (Z.of_nat c.(config).(max_clients)) size_of_ptr) in
  upd_state (fun st => st <| clients := if mem =? NULL then None
                                        else Some (replicate c.(config).(max_clients) None) |>) ;;
  let! set := do_call FreeRTOS_CreateSocketSet in
  upd_state (fun st => st <| socket_set := set |>) ;;
  let! sock := do_call (FreeRTOS_socket FREERTOS_AF_INET FREERTOS_SOCK_STREAM FREERTOS_IPPROTO_TCP) in
  upd_state (fun st => st <| listen_socket := sock |>) ;;
  let! _ := do_call (FreeRTOS_bind sock (mk_sockaddr FREERTOS_AF_INET (htons UNI_NET_HTTP_SERVER_PORT) 0)) in
  let! _ := do_call (FreeRTOS_listen sock (Z.of_nat c.(config).(max_clients))) in
  let! _ := do_call (FreeRTOS_setsockopt sock (FREERTOS_SO_RCVTIMEO 0)) in
  let! _ := do_call (FreeRTOS_setsockopt sock (FREERTOS_SO_SNDTIMEO 0)) in
  let! _ := do_call (FreeRTOS_setsockopt sock (FREERTOS_SO_WIN_PROPERTIES
              (mk_WinProperties UNI_NET_HTTP_SERVER_TX_BUF UNI_NET_HTTP_SERVER_TX_WIN
                                UNI_NET_HTTP_SERVER_RX_BUF UNI_NET_HTTP_SERVER_RX_WIN))) in
  do_call (FreeRTOS_FD_SET sock set (Z.lor eSELECT_READ eSELECT_EXCEPT)) ;;
  ret true.

(** [_uni_net_http_thread]: the loop of the server task, [n] turns of it. *)
Fixpoint http_turns (n : nat) : M http_server unit :=
  match n with
  | O => ret tt
  | S n' => let! _ := _uni_net_http_server_work in http_turns n'
  end.

Definition _uni_net_http_thread (fuel n : nat) : M http_server unit :=
  let! _ := _uni_net_http_server_init fuel in
  http_turns n.

(** ** Public functions

    [None] is a NULL [ctx]. *)

(** [uni_net_http_server_is_inited] *)
Definition uni_net_http_server_is_inited (c : option http_server) : bool :=
  match c with
  | Some c => c.(state).(initialized)
  | None => false
  end.

(** [uni_net_http_server_init] *)
Definition uni_net_http_server_init : M (option http_server) bool :=
  with_ctx false (
    let! c := get in
    if c.(state).(initialized) then ret false
    else
      let! r := do_call (xTaskCreate "UNI_NET_HTTP_SERVER" (configMINIMAL_STACK_SIZE * 4)
                           UNI_NET_HTTP_SERVER_TASK_PRIORITY) in
      let result := r.1 =? pdTRUE in
      upd_state (fun st => st <| handle := if result then r.2 else st.(handle) |> <| initialized := result |>) ;;
      ret result).

(** [uni_net_http_server_signal] *)
Definition uni_net_http_server_signal : M (option http_server) bool :=
  with_ctx false (
    let! c := get in
    let! _ := do_call (FreeRTOS_SignalSocket c.(state).(listen_socket)) in
    ret true).

(** [uni_net_http_server_signal_from_isr] *)
Definition uni_net_http_server_signal_from_isr : M (option http_server) bool :=
  with_ctx false (
    let! c := get in
    let! _ := do_call (FreeRTOS_SignalSocketFromISR c.(state).(listen_socket)) in
    ret true).

(** [uni_net_http_server_register_file] *)
Definition uni_net_http_server_register_file (c : option http_server) (f : option http_file) :
    bool * option http_server :=
  match c, f with
  | Some c, Some f =>
      let '(r, a) := uni_common_array_push_back c.(config).(files) f in
      (r, Some (c <| config ::= fun g => g <| files := a |> |>))
  | _, _ => (false, c)
  end.

(** [uni_net_http_server_register_handler] *)
Definition uni_net_http_server_register_handler (c : option http_server) (h : option http_handler_t) :
    bool * option http_server :=
  match c, h with
  | Some c, Some h =>
      let '(r, a) := uni_common_array_push_back c.(config).(handlers) h in
      (r, Some (c <| config ::= fun g => g <| handlers := a |> |>))
  | _, _ => (false, c)
  end.

(** [uni_net_http_server_register_handler_ex] *)
Definition uni_net_http_server_register_handler_ex (c : option http_server) (command : http_command)
    (path : option bytes) (function userdata : ptr) : bool * option http_server :=
  match c, path with
  | Some _, Some path =>
      if function =? NULL then (false, c)
      else uni_net_http_server_register_handler c (Some (mk_http_handler path command function userdata))
  | _, _ => (false, c)
  end.

(** [uni_net_http_server_register_file_ex] *)
Definition uni_net_http_server_register_file_ex (c : option http_server) (path data : option bytes) (size : Z) :
    bool * option http_server :=
  match c, path, data with
  | Some _, Some path, Some data =>
      uni_net_http_server_register_file c (Some (mk_http_file path data size))
  | _, _, _ => (false, c)
  end.

End HttpServer.

#[global] Arguments _uni_net_http_server_status_name : simpl never.
#[global] Arguments _uni_net_http_server_content_type : simpl never.
#[global] Arguments hdr_printf : simpl never.
#[global] Arguments header_text : simpl never.
#[global] Arguments _uni_net_http_server_send_header : simpl never.
#[global] Arguments url_string : simpl never.
#[global] Arguments sendfile_loop : simpl never.
#[global] Arguments clients_loop : simpl never.
#[global] Arguments _uni_net_http_server_cmd_get_sendfile : simpl never.
#[global] Arguments handler_call : simpl never.
#[global] Arguments send_buf_tx : simpl never.
#[global] Arguments set_response_length : simpl never.
#[global] Arguments _uni_net_http_server_cmd_get_sendresponse : simpl never.
#[global] Arguments array_search : simpl never.
#[global] Arguments find_handler : simpl never.
#[global] Arguments find_file : simpl never.
#[global] Arguments _uni_net_http_server_cmd_get_start : simpl never.
#[global] Arguments _uni_net_http_server_cmd_get_next : simpl never.
#[global] Arguments recv_into : simpl never.
#[global] Arguments _uni_net_http_server_cmd_post_next : simpl never.
#[global] Arguments _uni_net_http_server_cmd_post_start : simpl never.
#[global] Arguments _uni_net_http_server_cmd_process_start : simpl never.
#[global] Arguments _uni_net_http_server_cmd_process_next : simpl never.
#[global] Arguments crlf_at : simpl never.
#[global] Arguments hdr_end_at : simpl never.
#[global] Arguments find_hdr_end : simpl never.
#[global] Arguments find_url_end : simpl never.
#[global] Arguments content_length_line : simpl never.
#[global] Arguments line_end : simpl never.
#[global] Arguments parse_content_length : simpl never.
#[global] Arguments bad_request : simpl never.
#[global] Arguments client_request : simpl never.
#[global] Arguments _uni_net_http_server_client_work : simpl never.
#[global] Arguments fresh_client : simpl never.
#[global] Arguments free_slot : simpl never.
#[global] Arguments _uni_net_http_server_client_new : simpl never.
#[global] Arguments _uni_net_http_server_client_delete : simpl never.
#[global] Arguments _uni_net_http_server_work : simpl never.
#[global] Arguments _uni_net_http_server_init : simpl never.
#[global] Arguments UNI_NET_HTTP_SERVER_RX_BUF : simpl never.
#[global] Arguments UNI_NET_HTTP_SERVER_TX_BUF : simpl never.
