(* ===== verification/HttpHeader.v ===== *)
(** * The response header

    What [_uni_net_http_server_send_header] puts on the wire: the sequence of
    [snprintf] calls into [buf_tx_hdr] never truncates, never leaves the buffer
    and hands exactly [response_header] to [FreeRTOS_send]. *)

From S2P Require Import Prelude Env Prog CString HttpCommon HttpServer.

Lemma length_dec_fuel n z acc : (length (dec_fuel n z acc) <= n + length acc)%nat.
Proof.
  revert z acc. induction n as [|n IH]; intros z acc; simpl; [lia|].
  case_match; simpl; [lia|]. etrans; [apply IH|]. simpl. lia.
Qed.

Lemma length_dec z : (length (dec z) <= 20)%nat.
Proof. etrans; [apply length_dec_fuel|]. simpl. lia. Qed.

Lemma length_render_d z : (length (render1 (F_d z)) <= 21)%nat.
Proof. unfold render1. case_match; simpl; [pose proof (length_dec (- z))|pose proof (length_dec z)]; lia. Qed.

Section Header.
Context `{PlatformOk} `{UniCommonSpec}.

(** The header as the protocol wants it. *)
Definition response_header (status : Z) (ctype : bytes) (clen : Z) : bytes :=
  B "HTTP/1.1 " ++ render1 (F_d status) ++ B " " ++ _uni_net_http_server_status_name status ++ CRLF
  ++ B "Content-Type: " ++ ctype ++ CRLF
  ++ B "Cache-Control: no-store, no-cache, must-revalidate, max-age=0" ++ CRLF
  ++ B "Pragma: no-cache" ++ CRLF
  ++ B "Expires: 0" ++ CRLF
  ++ B "Connection: keep-alive" ++ CRLF
  ++ B "Content-Length: " ++ dec clen ++ CRLF ++ CRLF.

#[global] Arguments response_header : simpl never.

(** What the function does to the fields of the client. *)
Definition header_fields (status : Z) (c : client_state) : client_state :=
  if status =? UNI_NET_HTTP_STATUS_OK then c
  else c <| content_type := None |> <| content_length := 0 |>.

Definition set_hdr (buf : bytes) (s : hstate) : hstate :=
  s <| ctx ::= fun c => c <| state ::= fun st => st <| buf_tx_hdr := buf |> |> |>.

(** The header buffer is the only part of the server that serving a client changes. *)
Definition same_server (c c' : http_server) : Prop :=
  exists buf, c' = c <| state ::= fun st => st <| buf_tx_hdr := buf |> |>.

#[global] Instance same_server_preorder : PreOrder same_server.
Proof.
  split.
  - intros c. exists c.(state).(buf_tx_hdr). by destruct c as [? []].
  - intros c1 c2 c3 [b2 ->] [b3 ->]. by exists b3.
Qed.

Lemma same_server_set_hdr buf s : same_server s.(ctx) (set_hdr buf s).(ctx).
Proof. by exists buf. Qed.

Lemma same_server_config c c' : same_server c c' -> c'.(config) = c.(config).
Proof. by intros [? ->]. Qed.

Lemma same_server_clients c c' : same_server c c' -> c'.(state).(clients) = c.(state).(clients).
Proof. by intros [? ->]. Qed.

(** The header buffer has its declared size. *)
Definition hdr_ok (c : http_server) : Prop := len c.(state).(buf_tx_hdr) = ipconfigTCP_MSS.

Lemma hdr_printf_eq fs idx acc (s : hstate) :
  hdr_ok s.(ctx) -> idx = len acc ->
  take (length acc) s.(ctx).(state).(buf_tx_hdr) = acc ->
  idx + len (render fs) + 2 <= ipconfigTCP_MSS ->
  exists buf, hdr_printf fs idx s = Ret (idx + len (render fs), set_hdr buf s)
    /\ len buf = ipconfigTCP_MSS
    /\ take (length (acc ++ render fs)) buf = acc ++ render fs.
Proof.
  intros Hlen -> Hacc Hfit. unfold hdr_ok in Hlen.
  pose proof MSS_max as HM. unfold hdr_printf. cbn.
  rewrite size_t_small by lia. rewrite snprintf_spec by lia.
  rewrite (proj2 (Z.eqb_neq _ _)) by lia.
  rewrite take_ge by lia. cbn.
  destruct (write_at_Some s.(ctx).(state).(buf_tx_hdr) (length acc) (render fs ++ [NUL]))
    as (buf & Hw & Hl & Ht); [rewrite length_app; simpl; lia|].
  rewrite Nat2Z.id, Hw. cbn. rewrite size_t_small by lia.
  exists buf. split_and!; [done|lia|].
  rewrite length_app in Ht. simpl in Ht. rewrite Hacc in Ht.
  apply (f_equal (take (length (acc ++ render fs)))) in Ht.
  rewrite take_take in Ht. rewrite app_assoc in Ht.
  rewrite (take_app_le (acc ++ render fs)) in Ht by lia.
  rewrite Nat.min_l in Ht by (rewrite length_app; lia).
  rewrite Ht. by apply take_ge.
Qed.

Lemma length_status_name status : (length (_uni_net_http_server_status_name status) <= 22)%nat.
Proof. unfold _uni_net_http_server_status_name. repeat case_match; simpl; lia. Qed.

(** Bound the length of a rendered piece. *)
Ltac header_len :=
  autorewrite with render; autorewrite with render_len; cbn; lia.

(** Append one more formatted piece to the header under construction. *)
Ltac header_piece Hl Ht :=
  match goal with
  | |- context [hdr_printf ?fs ?idx ?s] =>
      let buf := fresh "buf" in let Hp := fresh "Hp" in
      let Hl' := fresh "Hl'" in let Ht' := fresh "Ht'" in
      match type of Ht with
      | take _ _ = ?acc =>
          destruct (hdr_printf_eq fs idx acc s) as (buf & Hp & Hl' & Ht');
          [ exact Hl | header_len | exact Ht | header_len | ];
          rewrite Hp; clear Hp Hl Ht; rename Hl' into Hl; rename Ht' into Ht; cbn [bind]
      end
  end.

(** The whole function is one call to [FreeRTOS_send] with the header. *)
(** The content type that the header shows. *)
Definition header_type (c : client_state) : bytes := default (B "text/html") c.(content_type).

(** The calls to [snprintf] leave the header in the buffer. *)
Lemma header_text_eq status (s : hstate) :
  hdr_ok s.(ctx) -> (length (header_type s.(client)) <= 64)%nat ->
  let hdr := response_header status (header_type s.(client)) s.(client).(content_length) in
  exists buf, header_text status s = Ret (len hdr, set_hdr buf s)
    /\ len buf = ipconfigTCP_MSS /\ take (length hdr) buf = hdr.
Proof.
  intros Hl Hct. pose proof MSS_min as HM. cbn zeta.
  pose proof (length_render_d status) as Hd. pose proof (length_status_name status) as Hn.
  pose proof (length_dec s.(client).(content_length)) as Hc.
  assert (Ht : take (length (@nil byte)) (buf_tx_hdr (state (ctx s))) = []) by done.
  unfold header_text, header_type in *. cbn.
  do 7 header_piece Hl Ht.
  match type of Ht with _ = ?l =>
    assert (Heq : l = response_header status (default (B "text/html") s.(client).(content_type))
                        s.(client).(content_length))
  end.
  { unfold response_header. autorewrite with render. cbn [client set_hdr app].
    repeat rewrite <- app_assoc. by rewrite ?app_nil_r. }
  exists buf5. rewrite <- Heq. split_and!; [|done|exact Ht].
  unfold set_hdr. cbn. f_equal. f_equal. rewrite !length_app. lia.
Qed.

Lemma header_fields_step status (s : hstate) :
  (if status =? UNI_NET_HTTP_STATUS_OK then ret tt
   else upd_client (fun c => c <| content_type := None |> <| content_length := 0 |>)) s
  = Ret (tt, mk_hstate s.(ctx) (header_fields status s.(client))).
Proof. destruct s. unfold header_fields. by case_match. Qed.

Lemma length_header_type status c :
  (length (default [] c.(content_type)) <= 64)%nat ->
  (length (header_type (header_fields status c)) <= 64)%nat.
Proof.
  intros Hc. unfold header_type, header_fields. case_match; simpl; [|lia].
  destruct (content_type c); simpl in *; lia.
Qed.

(** The whole function is one call to [FreeRTOS_send] with the header. *)
Lemma send_header_eq status (s : hstate) :
  hdr_ok s.(ctx) ->
  (length (default [] s.(client).(content_type)) <= 64)%nat ->
  let c := header_fields status s.(client) in
  exists buf, len buf = ipconfigTCP_MSS /\
    _uni_net_http_server_send_header status s
    = Vis (FreeRTOS_send c.(socket) (response_header status (header_type c) c.(content_length)))
          (fun r => Ret (i32 r, mk_hstate (set_hdr buf s).(ctx) (c <| header_sent := true |>))).
Proof.
  intros Hl Hct c.
  unfold _uni_net_http_server_send_header. cbn.
  destruct (write_at_Some s.(ctx).(state).(buf_tx_hdr) 0 [NUL]) as (buf0 & Hw & Hlw & _).
  { unfold hdr_ok in Hl. pose proof MSS_min. simpl. lia. }
  rewrite Hw. cbn. rewrite header_fields_step. cbn. fold c.
  destruct (header_text_eq status (mk_hstate (set_hdr buf0 s).(ctx) c)) as (buf & Heq & Hlb & Ht).
  { unfold hdr_ok in *. simpl. lia. }
  { by apply length_header_type. }
  cbn in Heq. rewrite Heq. cbn in *. exists buf. split; [done|].
  rewrite read_at_Some; cbn.
  2: { apply (f_equal length) in Ht. rewrite length_take in Ht. lia. }
  rewrite Nat2Z.id, drop_0, Ht. done.
Qed.

(** The same as a rule for weakest preconditions. *)
Lemma wp_send_header E (ok : contract) status (s : hstate) Q t :
  hdr_ok s.(ctx) ->
  (length (default [] s.(client).(content_type)) <= 64)%nat ->
  let c := header_fields status s.(client) in
  let cl := FreeRTOS_send c.(socket) (response_header status (header_type c) c.(content_length)) in
  (forall buf (r : Z), len buf = ipconfigTCP_MSS -> ok t cl r ->
     Q (i32 r, mk_hstate (set_hdr buf s).(ctx) (c <| header_sent := true |>)) (t ++ [Ev cl r])) ->
  wp_gen E ok (_uni_net_http_server_send_header status s) Q t.
Proof.
  intros Hl Hct c cl HQ. destruct (send_header_eq status s Hl Hct) as (buf & Hb & ->).
  intros r Hr. by apply HQ.
Qed.

(** A header is shorter than the buffer that it is built in. *)
Lemma response_header_fits status ct cl :
  (length ct <= 64)%nat -> len (response_header status ct cl) + 2 <= ipconfigTCP_MSS.
Proof.
  intros Hct. pose proof MSS_min. pose proof (length_render_d status).
  pose proof (length_status_name status). pose proof (length_dec cl).
  unfold response_header. autorewrite with render_len. cbn. lia.
Qed.

End Header.
