(* ===== verification/HttpInv.v ===== *)
(** * What the HTTP server relies on and what it maintains

    [tcp_ok] is the part of the documented behaviour of the FreeRTOS+TCP calls
    (and of the handlers that the application registers) that the server needs;
    [client_inv] and [server_inv] are its invariants. *)

From S2P Require Import Prelude Env Prog Trace CString HttpCommon HttpServer HttpHeader.

(** ** The stream of one socket *)

(** The free space in the transmit buffer of [s] that is known from the trace:
    the last answer of [FreeRTOS_tx_space] less what was queued since. *)
Definition room_event (s : ptr) (acc : option Z) (e : event) : option Z :=
  match e with
  | Ev c r =>
      match c return resp c -> option Z with
      | FreeRTOS_tx_space s' => fun r => if s' =? s then Some r else acc
      | FreeRTOS_send s' _ => fun r => if s' =? s then (fun n => n - Z.max 0 r) <$> acc else acc
      | _ => fun _ => acc
      end r
  end.

Definition room (s : ptr) (t : trace) : option Z := foldl (room_event s) None t.

Lemma room_snoc s t e : room s (t ++ [e]) = room_event s (room s t) e.
Proof. unfold room. by rewrite foldl_app. Qed.

(** ** Contract

    - [FreeRTOS_send] queues a prefix of its data or fails, and queues all of it
      when the room known for the socket suffices;
    - [FreeRTOS_recv] returns at most what was asked for, and that many bytes;
    - a handler stays inside its output buffer and returns how much it wrote. *)
Definition tcp_ok : contract := fun t c =>
  match c return resp c -> Prop with
  | FreeRTOS_send s d => fun r =>
      - 2 ^ 31 <= r <= len d
      /\ (forall n, room s t = Some n -> len d <= n -> r = len d \/ r < 0)
  | FreeRTOS_tx_space s => fun r => 0 <= r < 2 ^ 31
  | FreeRTOS_recv s n => fun r => 0 <= n -> - 2 ^ 31 <= r.1 <= n /\ (0 < r.1 -> len r.2 = r.1)
  | http_handler _ _ size _ => fun r => 0 <= size -> len r.2 = size /\ 0 <= r.1 <= size
  | _ => fun _ => True
  end.

Section Inv.
Context `{PlatformOk} `{UniCommonSpec}.

(** ** Invariants *)

(** The declared size of a file is within the object that holds its bytes. *)
Definition file_ok (f : http_file) : Prop :=
  0 <= f.(file_size) < 2 ^ 32 /\ f.(file_size) <= len f.(file_data).

Definition handler_ok (h : http_handler_t) : Prop := h.(handler_function) <> NULL.

Definition buffers_ok (c : client_state) : Prop :=
  len c.(buf_rx) = UNI_NET_HTTP_SERVER_RX_BUF /\ len c.(buf_tx) = UNI_NET_HTTP_SERVER_TX_BUF
  /\ (length (default [] c.(content_type)) <= 64)%nat.

(** A client between requests, as [_uni_net_http_server_client_clear] leaves it
    but for the request bytes received so far. *)
Definition idle_client (c : client_state) : Prop :=
  c.(command_type) = UNI_NET_HTTP_COMMAND_UNKNOWN /\ c.(file) = None /\ c.(handler) = None
  /\ c.(file_offset) = 0 /\ c.(content_length) = 0 /\ c.(header_sent) = false
  /\ c.(content_type) = None /\ 0 <= c.(rx_len) < UNI_NET_HTTP_SERVER_RX_BUF.

(** A client to which a file is being sent. *)
Definition get_client (c : client_state) : Prop :=
  c.(command_type) = UNI_NET_HTTP_COMMAND_GET /\ c.(header_sent) = true /\ c.(rx_len) = 0
  /\ exists f, c.(file) = Some f /\ file_ok f /\ 0 <= c.(file_offset) <= f.(file_size).

(** A client from which a body is being received. *)
Definition post_client (c : client_state) : Prop :=
  c.(command_type) = UNI_NET_HTTP_COMMAND_POST /\ c.(rx_len) = 0
  /\ 0 <= c.(file_offset) <= c.(content_length) /\ c.(content_length) < 2 ^ 32
  /\ exists h, c.(handler) = Some h /\ handler_ok h.

Definition client_inv (c : client_state) : Prop :=
  buffers_ok c /\ (idle_client c \/ get_client c \/ post_client c).

(** The registered handlers and files can be used. *)
Definition config_ok (g : server_config) : Prop :=
  Forall handler_ok (array_list g.(handlers)) /\ Forall file_ok (array_list g.(files)).

Definition server_inv (c : http_server) : Prop := hdr_ok c /\ config_ok c.(config).

(** ** Bounds *)

Lemma RX_BUF_bounds : 1072 <= UNI_NET_HTTP_SERVER_RX_BUF < 2 ^ 31.
Proof. unfold UNI_NET_HTTP_SERVER_RX_BUF. pose proof MSS_min. pose proof MSS_max. lia. Qed.

Lemma TX_BUF_bounds : 3216 <= UNI_NET_HTTP_SERVER_TX_BUF < 2 ^ 31.
Proof. unfold UNI_NET_HTTP_SERVER_TX_BUF. pose proof MSS_min. pose proof MSS_max. lia. Qed.

(** Content types come from a table of short strings. *)
Lemma length_content_type u : (length (_uni_net_http_server_content_type u) <= 64)%nat.
Proof.
  assert (Hm : forall e, (length (uni_net_http_get_mime_type (Some e)) <= 64)%nat).
  { intros e. unfold uni_net_http_get_mime_type. simpl.
    repeat (case_match; simpl; [lia|]). simpl. lia. }
  unfold _uni_net_http_server_content_type. repeat case_match; try apply Hm; simpl; lia.
Qed.

(** The answer to sending a header fits an [int32_t]. *)
Lemma header_i32 t sock status ct cl (r : Z) :
  tcp_ok t (FreeRTOS_send sock (response_header status ct cl)) r ->
  (length ct <= 64)%nat -> i32 r = r.
Proof.
  intros [Hr _] Hct. pose proof (response_header_fits status ct cl Hct).
  pose proof MSS_max. cbn in Hr. apply i32_small. lia.
Qed.

Lemma cleared_inv (c : client_state) : buffers_ok c -> client_inv (client_clear c).
Proof.
  intros (? & ? & ?). pose proof RX_BUF_bounds.
  split; [by split_and!; try (simpl; lia)|left]. split_and!; simpl; done || lia.
Qed.

(** ** Searching the registered handlers and files *)

Lemma array_find_Some {A} (a : uni_common_array_t A) p i n x :
  array_find a p i n = Some (Some x) ->
  p x = true /\ exists j, (i <= j < i + n)%nat /\ uni_common_array_get a j = Some x.
Proof.
  revert i. induction n as [|n IH]; intros i; simpl; [done|].
  destruct (uni_common_array_get a i) as [y|] eqn:Ey; [|done].
  destruct (p y) eqn:Ep.
  - intros [= ->]. split; [done|]. exists i. split; [lia|done].
  - intros (? & j & ? & ?)%IH. split; [done|]. exists j. split; [lia|done].
Qed.

Lemma array_find_total {A} (a : uni_common_array_t A) p i n :
  (i + n <= uni_common_array_size a)%nat -> is_Some (array_find a p i n).
Proof.
  revert i. induction n as [|n IH]; intros i Hi; simpl; [eauto|].
  destruct (array_get_spec a i) as [x ->]; [lia|]. case_match; [eauto|]. apply IH. lia.
Qed.

Lemma array_search_total {A} (a : uni_common_array_t A) p : is_Some (array_search a p).
Proof. unfold array_search. case_match; [|eauto]. apply array_find_total. lia. Qed.

Lemma array_search_Some {A} (a : uni_common_array_t A) p x :
  array_search a p = Some (Some x) -> p x = true /\ x ∈ array_list a.
Proof.
  unfold array_search. case_match; [|done]. intros (? & j & ? & Hj)%array_find_Some.
  split; [done|]. unfold array_list. apply list_elem_of_omap. exists j. split; [|done].
  apply elem_of_seq. lia.
Qed.

End Inv.

Create HintDb http.
#[export] Hint Resolve length_content_type : http.

(** Prove that buffers keep their sizes, and other simple facts on fields. *)
Ltac fields :=
  unfold buffers_ok in *; destruct_and?; split_and!; cbn in *;
  try first [ done | lia | solve [auto with http] ].
