(* ===== verification/HttpGet.v ===== *)
(** * GET: streaming a file

    [sendfile_loop] and [_uni_net_http_server_cmd_get_sendfile] put the bytes of
    the file on the wire in order, each byte once, and stop only when the file
    is done, the transmit buffer is full or the socket failed. *)

From S2P Require Import Prelude Env Prog Trace CString HttpCommon HttpServer HttpHeader HttpInv.

Section Get.
Context `{PlatformOk} `{UniCommonSpec}.

(** The part of a file between two offsets. *)
Definition file_part (f : http_file) (a b : Z) : bytes :=
  take (Z.to_nat (b - a)) (drop (Z.to_nat a) f.(file_data)).

Lemma file_part_nil f a : file_part f a a = [].
Proof. unfold file_part. by rewrite Z.sub_diag. Qed.

Lemma file_part_app f a b c :
  0 <= a <= b -> b <= c -> file_part f a b ++ file_part f b c = file_part f a c.
Proof.
  intros. unfold file_part.
  replace (drop (Z.to_nat b) (file_data f))
    with (drop (Z.to_nat (b - a)) (drop (Z.to_nat a) (file_data f)))
    by (rewrite drop_drop; f_equal; lia).
  rewrite take_take_drop. f_equal. lia.
Qed.

(** The fields of the client that the loop changes. *)
Definition set_tx (buf : bytes) (off : Z) (s : hstate) : hstate :=
  s <| client ::= fun c => c <| buf_tx := buf |> <| file_offset := off |> |>.

Lemma set_tx_id s : set_tx s.(client).(buf_tx) s.(client).(file_offset) s = s.
Proof. by destruct s as [? []]. Qed.

Definition stronger (ok ok' : contract) : Prop := forall t c r, ok t c r -> ok' t c r.

#[global] Instance stronger_refl : Reflexive stronger.
Proof. by intros ok t c r. Qed.

(** After the trace [t] the socket reports free space. *)
Definition has_room (ok : contract) (t : trace) (sock : ptr) : Prop :=
  forall sp : Z, ok t (FreeRTOS_tx_space sock) sp -> 0 < sp.

(** What one run of the loop achieves, from offset [off] on. *)
Definition loop_post (ok : contract) (f : http_file) (s : hstate) (t : trace) (r : Z) (s' : hstate) (t' : trace) : Prop :=
  let sock := s.(client).(socket) in
  let off := s.(client).(file_offset) in
  exists buf off' k,
    s' = set_tx buf off' s /\ len buf = UNI_NET_HTTP_SERVER_TX_BUF
    /\ off <= k <= off' /\ off' <= f.(file_size)
    /\ sent_on sock t' = sent_on sock t ++ file_part f off k
    /\ (0 <= r -> k = off' /\ (off' = f.(file_size) \/ room sock t' = Some 0))
    /\ (has_room ok t sock -> 0 <= r -> off < f.(file_size) -> off < off').

Definition refused (s : hstate) (t t' : trace) : Prop :=
  (refusals s.(client).(socket) t < refusals s.(client).(socket) t')%nat.

Lemma sendfile_loop_spec ok f fuel result s t :
  stronger ok tcp_ok -> 0 <= result ->
  s.(client).(file) = Some f -> file_ok f ->
  0 <= s.(client).(file_offset) <= f.(file_size) ->
  len s.(client).(buf_tx) = UNI_NET_HTTP_SERVER_TX_BUF ->
  (Z.to_nat (f.(file_size) - s.(client).(file_offset)) < fuel)%nat ->
  wp ok (sendfile_loop fuel result s) (fun '(r, s') t' => loop_post ok f s t r s' t' /\ (r < 0 -> refused s t t')) t.
Proof.
  intros Hst. pose proof TX_BUF_bounds as HTX.
  revert result s t. induction fuel as [|fuel IH]; intros result s t Hres Hf Hfok Hoff Htx Hfuel; [lia|].
  destruct Hfok as [Hsz Hdata]. unfold sendfile_loop; fold sendfile_loop. cbn. rewrite Hf. cbn. intros space Hsp0. pose proof (Hst _ _ _ Hsp0) as Hsp. cbn in Hsp.
  rewrite size_t_small by lia. rewrite min3_spec.
  remember (file_offset (client s)) as off eqn:Eoff.
  rewrite u32_small by lia.
  set (n := Z.min space _).
  destruct (Z.ltb_spec 0 n) as [Hn|Hn].
  - assert (Hn' : n <= space /\ n <= f.(file_size) - off /\ n <= UNI_NET_HTTP_SERVER_TX_BUF) by lia.
    cbn. rewrite read_at_Some by lia. cbn.
    set (chunk := take (Z.to_nat n) (drop (Z.to_nat off) (file_data f))).
    assert (Hc : length chunk = Z.to_nat n) by (unfold chunk; rewrite length_take, length_drop; lia).
    destruct (write_at_Some (buf_tx (client s)) 0 chunk) as (tx & Hw & Hltx & Htk); [simpl; lia|].
    rewrite Hw. cbn. rewrite read_at_Some by (simpl; lia). cbn.
    rewrite drop_0. rewrite Hc in Htk. simpl in Htk. rewrite Htk.
    intros r Hok. destruct (Hst _ _ _ Hok) as [Hr Hroom]. rewrite u32_small by lia. rewrite i32_small by lia.
    set (t1 := (t ++ [Ev (FreeRTOS_tx_space (socket (client s))) space])) in *.
    destruct (Z.ltb_spec r 0) as [Hneg|Hpos].
    + cbn. split.
      { exists tx, (off + n), off. unfold set_tx. cbn. rewrite <- Eoff. split_and!; [done|lia|lia|lia|lia| |lia|lia].
        rewrite sent_on_send, file_part_nil. unfold t1. rewrite sent_on_snoc. simpl.
        replace (Z.to_nat r) with 0%nat by lia. by rewrite take_0, !app_nil_r. }
      intros _. unfold refused, t1. rewrite !refusals_snoc. cbn. rewrite Z.eqb_refl, (proj2 (Z.ltb_lt _ _)) by done. cbn. lia.
    + destruct (Hroom space) as [->|]; [by unfold t1; rewrite room_snoc; simpl; rewrite Z.eqb_refl|lia| |lia].
      eapply wp_mono; [apply IH; cbn; done || lia|].
      intros [r s'] t' [(buf & off' & k & -> & Hb & Hk & Hle & Hs & Hr' & _) Href]. cbn in *. rewrite <- Eoff in Hs, Hk.
      split.
      { exists buf, off', k. unfold set_tx. cbn. rewrite <- Eoff.
        split_and!; [done|done|lia|lia|lia| |done|lia].
        rewrite Hs, sent_on_send. unfold t1. rewrite sent_on_snoc. simpl.
        rewrite app_nil_r, Nat2Z.id, firstn_all, <- app_assoc. f_equal.
        rewrite <- (file_part_app f off (off + n) k) by lia. f_equal.
        unfold chunk, file_part. do 2 f_equal. lia. }
      intros Hneg. specialize (Href Hneg). unfold refused, t1 in *. cbn in Href. rewrite !refusals_snoc in Href. lia.
  - cbn. split; [|lia]. exists s.(client).(buf_tx), off, off. rewrite Eoff at 1. rewrite set_tx_id, <- Eoff.
    split_and!; [done|done|lia|lia|lia| | |].
    + by rewrite sent_on_snoc, file_part_nil.
    + intros _. split; [done|]. destruct (decide (off = file_size f)) as [|Hne]; [by left|right].
      rewrite room_snoc. simpl. rewrite Z.eqb_refl. f_equal. lia.
    + intros Hr. specialize (Hr _ Hsp0). lia.
Qed.

(** ** One call of the sender

    [u] is the URL (absent when a transfer continues), [ok] any contract that
    is at least as strong as [tcp_ok]. *)

Definition file_header (u : option bytes) (f : http_file) : bytes :=
  response_header UNI_NET_HTTP_STATUS_OK (_uni_net_http_server_content_type u) f.(file_size).

(** The client while a transfer is at offset [off], or when it is over. *)
Definition transfer_client (f : http_file) (off : Z) (c c' : client_state) : Prop :=
  c'.(socket) = c.(socket) /\ buffers_ok c' /\
  if decide (off = f.(file_size)) then c' = client_clear c'
  else c'.(file) = Some f /\ c'.(file_offset) = off /\ c'.(header_sent) = true
       /\ c'.(command_type) = c.(command_type) /\ c'.(rx_len) = c.(rx_len).

(** What is known of the header: it was sent before, or this call offered it. *)
Definition header_part (ok : contract) (t : trace) (u : option bytes) (f : http_file)
    (c : client_state) (r : Z) (h : bytes) : Prop :=
  if c.(header_sent) then h = []
  else exists hr : Z, ok t (FreeRTOS_send c.(socket) (file_header u f)) hr
         /\ h = take (Z.to_nat hr) (file_header u f) /\ (hr < 0 -> r < 0).

(** The server asked to be woken up when the socket can be written and has not
    sent on it since. *)
Definition waiting_event (sock : ptr) (w : bool) (e : event) : bool :=
  match e.(ev_call) with
  | FreeRTOS_FD_SET s _ bits => if s =? sock then bits =? eSELECT_WRITE else w
  | FreeRTOS_send s _ => if s =? sock then false else w
  | _ => w
  end.

Definition waiting (sock : ptr) (t : trace) : bool := foldl (waiting_event sock) false t.

Lemma waiting_FD_SET sock set t :
  waiting sock (t ++ [Ev (FreeRTOS_FD_SET sock set eSELECT_WRITE) tt]) = true.
Proof. unfold waiting, waiting_event. rewrite foldl_app. cbn. by destruct (Z.eqb_spec sock sock). Qed.

Definition sending_post (ok : contract) (u : option bytes) (f : http_file)
    (s : hstate) (t : trace) (r : Z) (s' : hstate) (t' : trace) : Prop :=
  let sock := s.(client).(socket) in
  let off := s.(client).(file_offset) in
  exists h off' k,
    off <= k <= off' /\ off' <= f.(file_size)
    /\ sent_on sock t' = sent_on sock t ++ h ++ file_part f off k
    /\ header_part ok t u f s.(client) r h
    /\ (0 <= r -> k = off' /\ (off' = f.(file_size) \/ room sock t' = Some 0))
    /\ (s.(client).(header_sent) = true -> has_room ok t sock -> 0 <= r -> off < f.(file_size) -> off < off')
    /\ hdr_ok s'.(ctx) /\ same_server s.(ctx) s'.(ctx)
    /\ transfer_client f off' s.(client) s'.(client)
    /\ (off' < f.(file_size) -> waiting sock t' = true).

(** A negative result means that the stack refused data. *)
Definition sendfile_post (ok : contract) (u : option bytes) (f : http_file)
    (s : hstate) (t : trace) (r : Z) (s' : hstate) (t' : trace) : Prop :=
  sending_post ok u f s t r s' t'
  /\ (r < 0 -> refused s t t').

(** The end of the function: the select bits and, when the file is done, the
    reset of the client. *)
Lemma sendfile_tail E ok f result (s : hstate) Q t :
  s.(client).(file) = Some f ->
  (f.(file_size) <= s.(client).(file_offset) ->
     Q (result, s <| client ::= client_clear |>)
       (t ++ [Ev (FreeRTOS_FD_CLR s.(client).(socket) s.(ctx).(state).(socket_set) eSELECT_WRITE) tt])) ->
  (s.(client).(file_offset) < f.(file_size) ->
     Q (result, s) (t ++ [Ev (FreeRTOS_FD_SET s.(client).(socket) s.(ctx).(state).(socket_set) eSELECT_WRITE) tt])) ->
  wp_gen E ok
    (((let! s := get in
       let! f := deref s.(client).(file) in
       (if f.(file_size) <=? s.(client).(file_offset) then
          fd_clr eSELECT_WRITE ;; _uni_net_http_server_client_clear
        else fd_set eSELECT_WRITE) ;;
       ret result)%prog : M hstate Z) s) Q t.
Proof.
  intros Hf HQ1 HQ2. cbn. rewrite Hf. cbn.
  destruct (Z.leb_spec f.(file_size) s.(client).(file_offset)); cbn; intros [] _; auto.
Qed.

(** [u] is the string that the pointer [url] into the receive buffer denotes. *)
Definition url_reads (c : client_state) (url : option nat) (u : option bytes) : Prop :=
  match url with
  | None => u = None
  | Some o => exists x, cstr (drop o c.(buf_rx)) = Some x /\ u = Some x
  end.

Lemma url_string_eq url u s : url_reads s.(client) url u -> url_string url s = Ret (u, s).
Proof.
  unfold url_string. destruct url; cbn; [|by intros ->].
  intros (x & Hx & ->). by rewrite Hx.
Qed.

(** The loop and the end of the function, from a client whose header is out. *)
Lemma sendfile_rest ok f result (s : hstate) t :
  stronger ok tcp_ok -> hdr_ok s.(ctx) -> buffers_ok s.(client) ->
  s.(client).(file) = Some f -> file_ok f ->
  0 <= s.(client).(file_offset) <= f.(file_size) -> s.(client).(header_sent) = true ->
  wp ok
    (((let! result := (if 0 <=? result then sendfile_loop (S (Z.to_nat f.(file_size))) result
                       else ret result) in
       let! s := get in
       let! f := deref s.(client).(file) in
       (if f.(file_size) <=? s.(client).(file_offset) then
          fd_clr eSELECT_WRITE ;; _uni_net_http_server_client_clear
        else fd_set eSELECT_WRITE) ;;
       ret result)%prog : M hstate Z) s)
    (fun '(r, s') t' => sending_post ok None f s t r s' t' /\ (result < 0 -> r < 0)
       /\ (r < 0 -> result < 0 \/ refused s t t')) t.
Proof.
  intros Hst Hh Hb Hf Hfok Hoff Hsent.
  eapply (wp_seq _ _ _ _ (fun '(r, s') t' => loop_post ok f s t r s' t' /\ (result < 0 -> r < 0)
    /\ (r < 0 -> result < 0 \/ refused s t t'))).
  - destruct (Z.leb_spec 0 result).
    + eapply wp_mono; [apply sendfile_loop_spec; try done; [apply Hb|lia]|].
      intros [r s'] t' [? ?]. split_and!; [done|lia|auto].
    + cbn. split_and!; [|done|by left]. exists s.(client).(buf_tx), s.(client).(file_offset), s.(client).(file_offset).
      rewrite set_tx_id, file_part_nil, app_nil_r. split_and!; try first [done | lia | apply Hb].
  - intros [r s'] t' [(buf & off' & k & -> & Htx & Hk & Hle & Hs & Hr & Hp) [Hneg Href]].
    destruct Hb as (? & ? & ?).
    apply (sendfile_tail _ ok f r (set_tx buf off' s)); [exact Hf| |]; cbn; intros Hcmp;
      (split_and!; [|exact Hneg|unfold refused in *; rewrite refusals_snoc, Nat.add_0_r; exact Href]);
      exists [], off', k; rewrite sent_on_snoc, room_snoc;
      unfold header_part, transfer_client; rewrite Hsent.
    + rewrite decide_True by lia. rewrite app_nil_r. fields.
    + rewrite decide_False by lia. rewrite app_nil_r. fields. intros _. apply waiting_FD_SET.
Qed.

Lemma sendfile_spec ok url u f (s : hstate) t :
  stronger ok tcp_ok -> hdr_ok s.(ctx) -> buffers_ok s.(client) ->
  s.(client).(file) = Some f -> file_ok f ->
  0 <= s.(client).(file_offset) <= f.(file_size) -> url_reads s.(client) url u ->
  wp ok (_uni_net_http_server_cmd_get_sendfile url s)
    (fun '(r, s') t' => sendfile_post ok u f s t r s' t') t.
Proof.
  intros Hst Hh Hb Hf Hfok Hoff Hurl. unfold _uni_net_http_server_cmd_get_sendfile. cbn [bindM get bind].
  destruct (header_sent (client s)) eqn:Hsent.
  - cbn. rewrite Hf.
    apply (wp_mono _ _ _ _ _ _ (sendfile_rest ok f 0 s t Hst Hh Hb Hf Hfok Hoff Hsent)).
    intros [r s'] t' [(h & off' & k & ? & ? & ? & Hh' & ?) [_ Href]]. split; [|intros Hr; destruct (Href Hr); [lia|done]].
    exists h, off', k. unfold header_part in *. rewrite Hsent in *. done.
  - cbn [bindM bind]. rewrite (url_string_eq url u) by done. cbn. rewrite Hf. cbn [bind].
    apply wp_bind, wp_send_header; [done|apply length_content_type|].
    cbn. intros buf hr Hbuf Hhr.
    rewrite (header_i32 _ _ _ _ _ _ (Hst _ _ _ Hhr) (length_content_type u)).
    match goal with |- wp_gen _ _ (bind (_ ?s1) _) _ ?t1 =>
      apply (wp_mono _ _ _ _ _ _ (wp_grows _ _ _ _ _ (sendfile_rest ok f hr s1 t1 Hst Hbuf ltac:(fields) Hf Hfok Hoff eq_refl)))
    end.
    intros [r s'] t' [[(h & off' & k & ? & ? & Hs & -> & ? & ? & ? & ? & Htr & ?) [Hneg Href]] [t2 Ht2]]. cbn in *. split.
    + exists (take (Z.to_nat hr) (file_header u f)), off', k. split_and!; try first [done | lia].
      * by rewrite Hs, sent_on_send, app_assoc.
      * unfold header_part. rewrite Hsent. by exists hr.
      * by rewrite Hsent.
    + intros Hr. unfold refused in *. cbn in Href.
      match type of Ht2 with _ = ?t1 ++ _ => pose proof (refusals_app s.(client).(socket) t1 t2) as Hge end.
      rewrite <- Ht2 in Hge. rewrite refusals_snoc in Hge, Href. cbn in Hge, Href. rewrite Z.eqb_refl in Hge, Href.
      destruct (Href Hr) as [Hlt|]; [|lia]. rewrite (proj2 (Z.ltb_lt _ _)) in Hge by done. cbn in Hge. lia.
Qed.

(** ** A whole transfer *)

(** Further turns of the server task for a client with a file: stop at the first
    error, as [_uni_net_http_server_work] deletes the client then. *)
Fixpoint next_calls (n : nat) (result : Z) : M hstate Z :=
  match n with
  | O => ret result
  | S n' => bindM _uni_net_http_server_cmd_get_next
              (fun r => if r <? 0 then ret r else next_calls n' r)
  end.

(** The request for a file and [n] further turns. *)
Definition file_transfer (url : nat) (n : nat) : M hstate Z :=
  bindM (_uni_net_http_server_cmd_get_sendfile (Some url))
    (fun r => if r <? 0 then ret r else next_calls n r).

(** A send is accepted in full or fails; after a turn the stack drains the
    socket, so that the first question for space in the next turn finds some. *)
Definition draining (sock : ptr) : contract := fun t c r =>
  tcp_ok t c r
  /\ match c return resp c -> Prop with
     | FreeRTOS_send s d => fun r => s = sock -> r = len d \/ r < 0
     | FreeRTOS_tx_space s => fun r =>
         s = sock -> waiting sock t = true -> 0 < r
     | _ => fun _ => True
     end r.

(** Where a transfer stands after some turns. *)
Definition transfer_at (f : http_file) (h : bytes) (s : hstate) (t0 t : trace) (off : Z) (s' : hstate) : Prop :=
  0 <= off <= f.(file_size)
  /\ sent_on s.(client).(socket) t = sent_on s.(client).(socket) t0 ++ h ++ file_part f 0 off
  /\ hdr_ok s'.(ctx) /\ transfer_client f off s.(client) s'.(client).

Lemma transfer_client_trans f off off' c c1 c2 :
  off <> f.(file_size) ->
  transfer_client f off c c1 -> transfer_client f off' c1 c2 -> transfer_client f off' c c2.
Proof.
  intros Hne (Hs1 & _ & H1') (Hs2 & Hb2 & H2'). rewrite decide_False in H1' by done.
  destruct H1' as (? & ? & ? & Hc & Hr). split; [congruence|]. split; [done|].
  case_decide; [done|]. destruct_and!. split_and!; congruence.
Qed.

Lemma next_call_spec f h s t0 off s1 t1 :
  let sock := s.(client).(socket) in
  file_ok f -> transfer_at f h s t0 t1 off s1 ->
  (off < f.(file_size) -> waiting sock t1 = true) ->
  wp (draining sock) (_uni_net_http_server_cmd_get_next s1)
    (fun '(r, s2) t2 => (r < 0 -> refused s t1 t2) /\ (0 <= r -> exists off',
       transfer_at f h s t0 t2 off' s2
       /\ (off' < f.(file_size) -> waiting sock t2 = true)
       /\ (off' = f.(file_size) \/ off + 1 <= off'))) t1.
Proof.
  cbn zeta. intros Hfok (Hoff & Hs & Hh & Htr) Hwait. unfold _uni_net_http_server_cmd_get_next. cbn.
  pose proof Htr as (Hsock & Hb & Hcl). case_decide as Hd.
  - rewrite Hcl. cbn. split; [lia|]. intros _. exists off. split_and!; try done. by left.
  - destruct Hcl as (Hf & Ho & Hsent & _). rewrite Hf.
    eapply wp_mono; [apply (sendfile_spec _ None None f); try done; [by intros ??? []|lia]|].
    intros [r s2] t2 [(x & off' & k & Hk & Hle & Hs2 & Hx & Hr & Hp & Hh2 & _ & Htr2 & Hw2) Href].
    split; [unfold refused in *; by rewrite Hsock in Href|]. intros Hpos.
    unfold header_part in Hx. rewrite Hsent in Hx. subst x. rewrite Hsock, Ho in *.
    destruct (Hr Hpos) as [-> _]. exists off'. unfold transfer_at. split_and!; try first [done | lia].
    + rewrite Hs2, Hs. cbn. rewrite <- !app_assoc. do 2 f_equal. apply file_part_app; lia.
    + by apply (transfer_client_trans f off off' _ (client s1)).
    + right. enough (off < off') by lia. apply Hp; [done| |done|lia].
      intros sp [_ Hsp]. apply Hsp; [done|]. apply Hwait. lia.
Qed.

(** A refusal after more of the trace is a refusal. *)
Lemma refused_later s t t1 t2 : refused s (t ++ t1) t2 -> refused s t t2.
Proof. unfold refused. pose proof (refusals_app s.(client).(socket) t t1). lia. Qed.

Lemma next_calls_spec f h s t0 n result off s1 t1 :
  let sock := s.(client).(socket) in
  0 <= result -> file_ok f -> transfer_at f h s t0 t1 off s1 ->
  (off < f.(file_size) -> waiting sock t1 = true) ->
  wp (draining sock) (next_calls n result s1)
    (fun '(r, s2) t2 => (r < 0 -> refused s t1 t2) /\ (0 <= r -> exists off',
       transfer_at f h s t0 t2 off' s2 /\ (off' = f.(file_size) \/ off + Z.of_nat n <= off'))) t1.
Proof.
  cbn zeta. intros Hres Hfok. revert result Hres off s1 t1.
  induction n as [|n IH]; intros result Hres off s1 t1 Hat Hw; cbn.
  { split; [lia|]. intros _. exists off. split; [done|lia]. }
  eapply wp_seq; [by apply wp_grows; eapply next_call_spec|]. intros [r s2] t2 [[Href Hr] [t3 ->]]. cbn beta iota.
  destruct (Z.ltb_spec r 0); [cbn; split; [auto|lia]|].
  destruct (Hr ltac:(lia)) as (off' & Hat' & Hw' & Hprog).
  eapply wp_mono; [by apply (IH r ltac:(lia) off')|]. intros [r' s3] t4 [Href' Hr'].
  split; [intros Hneg; by eapply refused_later, Href'|]. intros Hpos.
  destruct (Hr' Hpos) as (off'' & Hat'' & Hp''). exists off''. split; [done|].
  destruct Hat'' as [? _]. lia.
Qed.


End Get.
