(* ===== verification/HttpPost.v ===== *)
(** * POST and generated responses

    The bytes of a request body reach the registered handler in order, each
    once and never more than the announced Content-Length; then the handler is
    asked for the response, and the response goes out under a header that
    announces its length. *)

From S2P Require Import Prelude Env Prog Trace CString HttpCommon HttpServer HttpHeader HttpInv HttpGet.

(** ** What went through a socket and to a handler *)

(** The bytes that [FreeRTOS_recv] returned on socket [s]. *)
Definition received_event (s : ptr) (e : event) : bytes :=
  match e with
  | Ev c r =>
      match c return resp c -> bytes with
      | FreeRTOS_recv s' _ => fun r => if s' =? s then take (Z.to_nat r.1) r.2 else []
      | _ => fun _ => []
      end r
  end.

Definition received_on (s : ptr) (t : trace) : bytes := flat_map (received_event s) t.

(** The body bytes that a handler got: the calls without an output buffer. *)
Definition delivered_event (h : http_handler_t) (e : event) : bytes :=
  match e.(ev_call) with
  | http_handler f u n (Some d) =>
      if (f =? h.(handler_function)) && (u =? h.(handler_userdata)) && (n =? 0) then d else []
  | _ => []
  end.

Definition delivered_to (h : http_handler_t) (t : trace) : bytes := flat_map (delivered_event h) t.

Lemma received_on_snoc s t e : received_on s (t ++ [e]) = received_on s t ++ received_event s e.
Proof. unfold received_on. rewrite flat_map_app. simpl. by rewrite app_nil_r. Qed.

Lemma delivered_to_snoc h t e : delivered_to h (t ++ [e]) = delivered_to h t ++ delivered_event h e.
Proof. unfold delivered_to. rewrite flat_map_app. simpl. by rewrite app_nil_r. Qed.

Lemma delivered_event_handler h d r :
  delivered_event h (Ev (http_handler h.(handler_function) h.(handler_userdata) 0 (Some d)) r) = d.
Proof. unfold delivered_event. simpl. by rewrite !Z.eqb_refl. Qed.

Section Post.
Context `{PlatformOk} `{UniCommonSpec}.

(** ** The handler *)

(** A handler with a function gives back its result and an output buffer. *)
Lemma wp_handler_call_out E (ok : contract) h buf_in (s : hstate) Q t :
  stronger ok tcp_ok -> handler_ok h -> buffers_ok s.(client) ->
  let cl := http_handler h.(handler_function) h.(handler_userdata) UNI_NET_HTTP_SERVER_TX_BUF buf_in in
  (forall (r : Z) out, ok t cl (r, out) -> len out = UNI_NET_HTTP_SERVER_TX_BUF ->
     0 <= r <= UNI_NET_HTTP_SERVER_TX_BUF ->
     Q (r, s <| client ::= fun c => c <| buf_tx := out |> |>) (t ++ [Ev cl (r, out)])) ->
  wp_gen E ok (handler_call h UNI_NET_HTTP_SERVER_TX_BUF buf_in s) Q t.
Proof.
  intros Hst Hh (_ & Htx & _) cl HQ. pose proof TX_BUF_bounds. unfold handler_call.
  rewrite (proj2 (Z.eqb_neq _ _)) by exact Hh. cbn. intros [r out] Hok.
  destruct (Hst _ _ _ Hok ltac:(lia)) as [Hl Hr]. cbn in Hl, Hr.
  rewrite (proj2 (Z.eqb_neq _ _)) by lia. cbn. rewrite decide_True by lia. cbn. by apply HQ.
Qed.

(** A handler that is only handed data leaves the client alone. *)
Lemma wp_handler_call_in E (ok : contract) h d (s : hstate) Q t :
  handler_ok h ->
  let cl := http_handler h.(handler_function) h.(handler_userdata) 0 (Some d) in
  (forall r, ok t cl r -> Q (r.1, s) (t ++ [Ev cl r])) ->
  wp_gen E ok (handler_call h 0 (Some d) s) Q t.
Proof.
  intros Hh cl HQ. unfold handler_call. rewrite (proj2 (Z.eqb_neq _ _)) by exact Hh.
  cbn. intros r Hok. specialize (HQ r Hok). destruct s as [? []]. exact HQ.
Qed.

(** ** A generated response *)

(** The response that a handler left in [out]: [n] bytes of it. *)
Definition response (ct out : bytes) (n : Z) : bytes :=
  response_header UNI_NET_HTTP_STATUS_OK ct n ++ take (Z.to_nat n) out.

(** The header and the body are sent with two calls; the second is left out
    when the first fails. *)
Definition response_calls (ok : contract) (ct out : bytes) (n result : Z) (sock : ptr)
    (t : trace) (r : Z) (t' : trace) : Prop :=
  let hdr := FreeRTOS_send sock (response_header UNI_NET_HTTP_STATUS_OK ct n) in
  let body := FreeRTOS_send sock (take (Z.to_nat n) out) in
  exists hr : Z, ok t hdr hr
    /\ ((hr < 0 /\ r = result /\ t' = t ++ [Ev hdr hr])
        \/ (0 <= hr /\ ok (t ++ [Ev hdr hr]) body r /\ t' = (t ++ [Ev hdr hr]) ++ [Ev body r])).

Lemma wp_send_response (ok : contract) ct n result (s : hstate) Q t :
  stronger ok tcp_ok -> hdr_ok s.(ctx) -> buffers_ok s.(client) ->
  s.(client).(content_type) = Some ct -> s.(client).(content_length) = n ->
  0 <= n <= UNI_NET_HTTP_SERVER_TX_BUF -> 0 <= result ->
  (forall buf r t', len buf = ipconfigTCP_MSS ->
     response_calls ok ct s.(client).(buf_tx) n result s.(client).(socket) t r t' ->
     Q (r, mk_hstate (set_hdr buf s).(ctx) (s.(client) <| header_sent := true |>)) t') ->
  wp ok (bindM (_uni_net_http_server_send_header UNI_NET_HTTP_STATUS_OK)
           (fun sent => if (0 <=? sent) && (0 <=? result) then send_buf_tx else ret result) s) Q t.
Proof.
  intros Hst Hh (? & Htx & Hlct) Hct <- Hn Hres HQ. rewrite Hct in Hlct. cbn in Hlct.
  pose proof TX_BUF_bounds. apply wp_bind, wp_send_header; [done|by rewrite Hct|].
  unfold header_type. cbn. rewrite Hct. cbn. intros buf hr Hbuf Hhr.
  rewrite (header_i32 _ _ _ _ _ _ (Hst _ _ _ Hhr) Hlct).
  rewrite (proj2 (Z.leb_le 0 result)) by done. rewrite andb_true_r, Z.leb_antisym.
  destruct (Z.ltb_spec hr 0) as [Hneg|Hpos]; cbn.
  - rewrite <- Hct. apply (HQ buf); [done|]. exists hr. split; [done|]. by left.
  - unfold send_buf_tx. cbn. rewrite read_at_Some by lia. cbn. rewrite drop_0. intros br Hbr.
    destruct (Hst _ _ _ Hbr) as [Hb _]. cbn in Hb. rewrite length_take in Hb.
    rewrite i32_small, <- Hct by lia. apply (HQ buf); [done|]. exists hr. split; [done|]. by right.
Qed.

(** What a handler's response stage does, from the call of the handler on: [sp]
    is the free space that the socket reports before anything is sent. *)
Definition respond_post (ok : contract) (h : http_handler_t) (buf_in : option bytes) (ct : bytes)
    (s : hstate) (t : trace) (r : Z) (s' : hstate) (t' : trace) : Prop :=
  let sock := s.(client).(socket) in
  let call_h := http_handler h.(handler_function) h.(handler_userdata) UNI_NET_HTTP_SERVER_TX_BUF buf_in in
  exists (res : Z) (out : bytes) (sp : Z) (t2 : trace) (bits : Z),
    ok t call_h (res, out) /\ 0 <= res <= len out
    /\ ok (t ++ [Ev call_h (res, out)]) (FreeRTOS_tx_space sock) sp
    /\ response_calls ok ct out (Z.min sp res) res sock
         ((t ++ [Ev call_h (res, out)]) ++ [Ev (FreeRTOS_tx_space sock) sp]) r t2
    /\ t' = t2 ++ [Ev (FreeRTOS_FD_CLR sock s.(ctx).(state).(socket_set) bits) tt]
    /\ hdr_ok s'.(ctx) /\ same_server s.(ctx) s'.(ctx)
    /\ s'.(client).(socket) = sock /\ buffers_ok s'.(client)
    /\ s'.(client) = client_clear s'.(client).

Lemma wp_set_response_length (ok : contract) res (s : hstate) Q t :
  stronger ok tcp_ok -> 0 <= res < 2 ^ 31 ->
  (forall sp : Z, ok t (FreeRTOS_tx_space s.(client).(socket)) sp -> 0 <= sp ->
     Q (tt, s <| client ::= fun c => c <| content_length := Z.min sp res |> |>)
       (t ++ [Ev (FreeRTOS_tx_space s.(client).(socket)) sp])) ->
  wp ok (set_response_length (i32 res) s) Q t.
Proof.
  intros Hst Hres HQ. unfold set_response_length. cbn. intros sp Hsp.
  destruct (Hst _ _ _ Hsp) as [? ?]. cbn in *. specialize (HQ sp Hsp).
  rewrite min_spec, i32_small, !u32_small by lia. by apply HQ.
Qed.

(** The response stage of POST: all of the body has arrived. *)
Lemma post_respond_spec ok h (s : hstate) t :
  stronger ok tcp_ok -> hdr_ok s.(ctx) -> buffers_ok s.(client) ->
  s.(client).(handler) = Some h -> handler_ok h ->
  s.(client).(content_length) = s.(client).(file_offset) ->
  wp ok (_uni_net_http_server_cmd_post_next s)
    (fun '(r, s') t' => respond_post ok h None (B "text/plain") s t r s' t') t.
Proof.
  intros Hst Hh Hb Hhd Hhok Hoff. pose proof TX_BUF_bounds.
  unfold _uni_net_http_server_cmd_post_next. cbn [bindM get bind]. rewrite Hhd, Hoff, Z.sub_diag.
  cbn [Z.ltb Z.compare u32 Z.modulo].
  eapply wp_bind, wp_handler_call_out; try done. intros res out Hres Hlo Hr.
  eapply wp_bind, wp_set_response_length; [done|lia|]. cbn [client socket]. intros sp Hsp Hsp0.
  cbn [upd_client modify bindM bind].
  apply (wp_assocM (_uni_net_http_server_send_header UNI_NET_HTTP_STATUS_OK)
           (fun sent => if (0 <=? sent) && (0 <=? i32 res) then send_buf_tx else ret (i32 res))).
  apply wp_bind, wp_send_response with (ct := B "text/plain") (n := Z.min sp res); try done; try (cbn; lia).
  { fields. cbv; lia. }
  { rewrite i32_small by lia. lia. }
  cbn. intros buf r t' Hbuf Hcalls [] _. exists res, out, sp, t'. eexists.
  rewrite i32_small in Hcalls by lia. split_and!; try done; try lia; [by exists buf|fields].
Qed.

(** The response of a GET handler. *)
Lemma get_respond_spec (ok : contract) h url u (s : hstate) t :
  stronger ok tcp_ok -> hdr_ok s.(ctx) -> buffers_ok s.(client) ->
  s.(client).(handler) = Some h -> handler_ok h -> h.(handler_command) = UNI_NET_HTTP_COMMAND_GET ->
  url_reads s.(client) url u ->
  wp ok (_uni_net_http_server_cmd_get_sendresponse url s)
    (fun '(r, s') t' =>
       respond_post ok h (Some s.(client).(buf_rx)) (_uni_net_http_server_content_type u) s t r s' t') t.
Proof.
  intros Hst Hh Hb Hhd Hhok Hcmd Hurl. pose proof TX_BUF_bounds.
  unfold _uni_net_http_server_cmd_get_sendresponse. cbn [bindM get bind]. rewrite Hhd. cbn [deref bind].
  rewrite bool_decide_eq_true_2 by done. rewrite (proj2 (Z.eqb_neq _ _)) by exact Hhok. cbn [andb negb].
  apply wp_bind. eapply wp_bind, wp_handler_call_out; try done. intros res out Hres Hlo Hr.
  eapply wp_bind, wp_set_response_length; [done|lia|]. cbn [client socket]. intros sp Hsp Hsp0.
  cbn [bindM]. rewrite (url_string_eq url u) by done. cbn [upd_client modify bindM bind].
  apply wp_send_response with (ct := _uni_net_http_server_content_type u) (n := Z.min sp res);
    try done; try (cbn; lia).
  { fields. }
  { rewrite i32_small by lia. lia. }
  cbn. intros buf r t' Hbuf Hcalls [] _. exists res, out, sp, t'. eexists.
  rewrite i32_small in Hcalls by lia. split_and!; try done; try lia; [by exists buf|fields].
Qed.

(** ** Receiving the body *)

Definition set_rx (buf : bytes) (off : Z) (s : hstate) : hstate :=
  s <| client ::= fun c => c <| buf_rx := buf |> <| file_offset := off |> |>.

(** One call while a part of the body is missing: what was received, if
    anything, is what the handler gets. *)
Definition receive_post (ok : contract) (h : http_handler_t) (s : hstate) (t : trace)
    (r : Z) (s' : hstate) (t' : trace) : Prop :=
  let c := s.(client) in
  let recv := FreeRTOS_recv c.(socket)
                (Z.min (c.(content_length) - c.(file_offset)) UNI_NET_HTTP_SERVER_RX_BUF) in
  exists d, ok t recv (r, d) /\
    ((r <= 0 /\ s' = s /\ t' = t ++ [Ev recv (r, d)])
     \/ (0 < r /\ len d = r /\ r <= c.(content_length) - c.(file_offset)
         /\ (exists buf, len buf = UNI_NET_HTTP_SERVER_RX_BUF /\ s' = set_rx buf (c.(file_offset) + r) s)
         /\ exists hr, t' = (t ++ [Ev recv (r, d)])
              ++ [Ev (http_handler h.(handler_function) h.(handler_userdata) 0 (Some d)) hr])).

Lemma post_receive_spec (ok : contract) h (s : hstate) t :
  stronger ok tcp_ok -> buffers_ok s.(client) ->
  s.(client).(handler) = Some h -> handler_ok h ->
  0 <= s.(client).(file_offset) < s.(client).(content_length) -> s.(client).(content_length) < 2 ^ 32 ->
  wp ok (_uni_net_http_server_cmd_post_next s)
    (fun '(r, s') t' => receive_post ok h s t r s' t') t.
Proof.
  intros Hst (Hrx & _ & _) Hhd Hhok Hoff Hcl. pose proof RX_BUF_bounds.
  unfold _uni_net_http_server_cmd_post_next. cbn [bindM get bind]. rewrite Hhd.
  rewrite u32_small by lia. rewrite (proj2 (Z.ltb_lt 0 _)) by lia. rewrite !min_spec.
  unfold recv_into. cbn. intros [r d] Hok. destruct (Hst _ _ _ Hok ltac:(lia)) as [Hr Hd]. cbn in Hr, Hd |- *.
  destruct (Z.ltb_spec 0 r) as [Hpos|Hneg]; cbn.
  - specialize (Hd Hpos).
    destruct (write_at_Some s.(client).(buf_rx) 0 d) as (buf & Hw & Hl & Ht); [simpl; lia|].
    rewrite Hw. cbn. rewrite i32_small by lia. rewrite (proj2 (Z.ltb_lt 0 r)) by done. cbn.
    rewrite min_spec, size_t_small, Z.min_l by lia.
    rewrite read_at_Some by (simpl; lia). cbn. rewrite drop_0.
    replace (Z.to_nat r) with (0 + length d)%nat by lia. rewrite Ht. cbn.
    eapply wp_bind, wp_handler_call_in; [done|]. intros hr _. cbn.
    exists d. split; [done|]. right. split_and!; try done; try lia; [|by exists hr].
    exists buf. split; [lia|]. unfold set_rx. cbn. by rewrite u32_small by lia.
  - rewrite i32_small by lia. rewrite (proj2 (Z.ltb_ge 0 r)) by done. cbn. exists d. split; [done|]. left. by destruct s.
Qed.

(** ** A whole exchange *)

(** Further turns of the server task for a client whose request is not finished:
    stop at the first error, as [_uni_net_http_server_work] deletes the client
    then. *)
Fixpoint request_turns (n : nat) (result : Z) : M hstate Z :=
  match n with
  | O => ret result
  | S n' =>
      bindM get (fun s =>
        if bool_decide (s.(client).(command_type) = UNI_NET_HTTP_COMMAND_UNKNOWN) then ret result
        else bindM _uni_net_http_server_client_work
               (fun r => if r <? 0 then ret r else request_turns n' r))
  end.

Lemma wp_client_busy E (ok : contract) (s : hstate) Q t :
  s.(client).(command_type) <> UNI_NET_HTTP_COMMAND_UNKNOWN ->
  (forall r : Z, ok t (FreeRTOS_issocketconnected s.(client).(socket)) r ->
     wp_gen E ok (if r =? 0 then Ret (-1, s) else _uni_net_http_server_cmd_process_next s) Q
       (t ++ [Ev (FreeRTOS_issocketconnected s.(client).(socket)) r])) ->
  wp_gen E ok (_uni_net_http_server_client_work s) Q t.
Proof.
  intros Hcmd HQ. unfold _uni_net_http_server_client_work. cbn. intros r Hr. specialize (HQ r Hr).
  rewrite bool_decide_eq_false_2 by done. by destruct (r =? 0).
Qed.

Lemma process_next_post (s : hstate) :
  s.(client).(command_type) = UNI_NET_HTTP_COMMAND_POST ->
  _uni_net_http_server_cmd_process_next s = _uni_net_http_server_cmd_post_next s.
Proof. intros Hc. unfold _uni_net_http_server_cmd_process_next. cbn. by rewrite Hc. Qed.

Lemma process_next_get (s : hstate) :
  s.(client).(command_type) = UNI_NET_HTTP_COMMAND_GET ->
  _uni_net_http_server_cmd_process_next s = _uni_net_http_server_cmd_get_next s.
Proof. intros Hc. unfold _uni_net_http_server_cmd_process_next. cbn. by rewrite Hc. Qed.

(** A POST request whose headers are parsed, and [n] further turns. *)
Definition post_exchange (url data : nat) (data_len : Z) (n : nat) : M hstate Z :=
  bindM (_uni_net_http_server_cmd_post_start url data data_len)
    (fun r => if r <? 0 then ret r else request_turns n r).

(** The peer stays connected, keeps sending and takes what it is sent. *)
Definition generous (sock : ptr) : contract := fun t c r =>
  tcp_ok t c r
  /\ match c return resp c -> Prop with
     | FreeRTOS_send s d => fun r => s = sock -> r = len d
     | FreeRTOS_recv s n => fun r => s = sock -> 0 < n -> 0 < r.1
     | FreeRTOS_issocketconnected s => fun r => s = sock -> r = pdTRUE
     | _ => fun _ => True
     end r.

(** What the trace [t] has in addition to [t0]: [got] is what came in on the
    socket, [body] what the handler got and [out] what was sent. *)
Definition exchanged (h : http_handler_t) (sock : ptr) (t0 t : trace) (got body out : bytes) : Prop :=
  received_on sock t = received_on sock t0 ++ got
  /\ delivered_to h t = delivered_to h t0 ++ body
  /\ sent_on sock t = sent_on sock t0 ++ out.

(** The body is still coming in: [pre] came with the headers. *)
Definition post_pending (h : http_handler_t) (sock : ptr) (cl : Z) (pre : bytes)
    (t0 t : trace) (got : bytes) (s : hstate) : Prop :=
  exchanged h sock t0 t got (pre ++ got) []
  /\ hdr_ok s.(ctx) /\ buffers_ok s.(client) /\ s.(client).(socket) = sock
  /\ s.(client).(command_type) = UNI_NET_HTTP_COMMAND_POST /\ s.(client).(handler) = Some h
  /\ s.(client).(content_length) = cl /\ s.(client).(file_offset) = len (pre ++ got)
  /\ len (pre ++ got) <= cl.

(** The handler got the whole body, was asked for a response and answered [res]
    and [out]; the first [n] bytes of it are on the wire. *)
Definition post_finished (h : http_handler_t) (sock : ptr) (cl : Z) (pre : bytes)
    (t0 t : trace) (got : bytes) (s : hstate) : Prop :=
  len (pre ++ got) = cl
  /\ (exists (res : Z) (out : bytes) (n : Z),
        Ev (http_handler h.(handler_function) h.(handler_userdata) UNI_NET_HTTP_SERVER_TX_BUF None) (res, out) ∈ t
        /\ 0 <= n <= res
        /\ exchanged h sock t0 t got (pre ++ got) (response (B "text/plain") out n))
  /\ s.(client) = client_clear s.(client) /\ s.(client).(socket) = sock.

Lemma exchanged_respond h sock cl t0 t pre got (s : hstate) r s' t' :
  post_pending h sock cl pre t0 t got s -> len (pre ++ got) = cl ->
  respond_post (generous sock) h None (B "text/plain") s t r s' t' ->
  post_finished h sock cl pre t0 t' got s' /\ 0 <= r.
Proof.
  intros ((Hrec & Hdel & Hsent) & _ & _ & Hsock & _) Hlen.
  intros (res & out & sp & t2 & bits & _ & Hres & [Hsp _] & Hcalls & -> & _ & _ & Hs' & _ & Hclr).
  rewrite Hsock in *. cbn in Hsp.
  destruct Hcalls as (hr & [_ Hhr] & [(? & _)|(_ & [_ Hbr] & ->)]); cbn in *.
  { specialize (Hhr eq_refl). lia. }
  specialize (Hhr eq_refl). specialize (Hbr eq_refl). subst hr r. split; [|lia].
  split; [done|]. split; [|done]. exists res, out, (Z.min sp res). split_and!; [|lia|lia|split_and!].
  - rewrite !elem_of_app, !list_elem_of_singleton. tauto.
  - rewrite !received_on_snoc. cbn. by rewrite !app_nil_r.
  - rewrite !delivered_to_snoc. cbn. by rewrite !app_nil_r.
  - rewrite sent_on_snoc, !sent_on_send, !sent_on_snoc, Hsent. cbn.
    rewrite !app_nil_r, !Nat2Z.id, !firstn_all, <- app_assoc. done.
Qed.

Lemma post_turn h cl pre t0 t got (s : hstate) :
  let sock := s.(client).(socket) in
  handler_ok h -> cl < 2 ^ 32 -> post_pending h sock cl pre t0 t got s ->
  wp (generous sock) (_uni_net_http_server_cmd_post_next s)
    (fun '(r, s') t' => 0 <= r /\
       (post_finished h sock cl pre t0 t' got s'
        \/ exists d, 0 < len d /\ post_pending h sock cl pre t0 t' (got ++ d) s')) t.
Proof.
  cbn zeta. intros Hhok Hcl Hp. pose proof Hp as ((Hrec & Hdel & Hsent) & Hh & Hb & _ & Hcmd & Hhd & Hc & Ho & Hle).
  assert (Hst : stronger (generous s.(client).(socket)) tcp_ok) by (by intros ??? []).
  destruct (decide (len (pre ++ got) = cl)) as [Heq|Hne].
  - eapply wp_mono; [apply post_respond_spec with (h := h); try done; congruence|].
    intros [r s'] t' Hr. destruct (exchanged_respond _ _ _ _ _ _ _ _ _ _ _ Hp Heq Hr) as [? ?].
    split; [done|by left].
  - eapply wp_mono; [apply post_receive_spec with (h := h); try done; lia|].
    intros [r s'] t' (d & [Hok Hpos] & [(? & _)|(Hr & Hd & Hrle & (buf & Hbuf & ->) & hr & ->)]).
    { specialize (Hpos eq_refl). cbn in Hpos. pose proof RX_BUF_bounds. lia. }
    split; [lia|]. right. exists d. split; [lia|]. destruct Hb as (? & ? & ?).
    split; [split_and!|cbn; rewrite ?length_app in *; fields].
    + rewrite !received_on_snoc, Hrec. cbn. rewrite Z.eqb_refl, app_nil_r, <- app_assoc.
      do 2 f_equal. rewrite <- Hd, Nat2Z.id. by rewrite firstn_all.
    + rewrite !delivered_to_snoc, delivered_event_handler, Hdel. cbn.
      by rewrite app_nil_r, <- !app_assoc.
    + rewrite !sent_on_snoc, Hsent. cbn. by rewrite !app_nil_r.
Qed.

(** The route of a request: the first registered handler of its command and path. *)
Definition handler_for (c : http_server) (cmd : http_command) (u : bytes) : option (option http_handler_t) :=
  array_search c.(config).(handlers)
    (fun h => bool_decide (h.(handler_command) = cmd) && strcmp_eq u h.(handler_path)).

Lemma find_handler_eq cmd url u (s : hstate) r :
  cstr (drop url s.(client).(buf_rx)) = Some u -> handler_for s.(ctx) cmd u = Some r ->
  find_handler cmd url s
  = Ret (tt, if r is Some h then s <| client ::= fun c => c <| handler := Some h |> |> else s).
Proof.
  intros Hu Hr. unfold find_handler, handler_for in *. cbn.
  rewrite (url_string_eq (Some url) (Some u)) by (by exists u). cbn.
  rewrite Hr. cbn. destruct r; cbn; [done|]. by destruct s.
Qed.

(** The client as it is when a POST request is dispatched. *)
Definition post_ready (s : hstate) (h : http_handler_t) (url data : nat) (data_len : Z) : Prop :=
  hdr_ok s.(ctx) /\ buffers_ok s.(client) /\ s.(client).(file_offset) = 0
  /\ 0 <= s.(client).(content_length) < 2 ^ 32 /\ 0 <= data_len
  /\ Z.of_nat data + data_len <= len s.(client).(buf_rx) /\ handler_ok h
  /\ exists u, cstr (drop url s.(client).(buf_rx)) = Some u
       /\ handler_for s.(ctx) UNI_NET_HTTP_COMMAND_POST u = Some (Some h).

(** The body bytes that arrived together with the headers. *)
Definition early_body (s : hstate) (data : nat) (data_len : Z) : bytes :=
  take (Z.to_nat (Z.min s.(client).(content_length) data_len)) (drop data s.(client).(buf_rx)).

Lemma length_early_body s h url data data_len :
  post_ready s h url data data_len ->
  len (early_body s data data_len) = Z.min s.(client).(content_length) data_len.
Proof. intros (_ & _ & _ & ? & ? & ? & _). unfold early_body. rewrite length_take, length_drop. lia. Qed.

(** [_uni_net_http_server_cmd_post_start] after the route is found: the early
    body bytes go to the handler. *)
Lemma post_start_spec h url data data_len (s : hstate) t :
  let sock := s.(client).(socket) in
  let cl := s.(client).(content_length) in
  let pre := early_body s data data_len in
  post_ready s h url data data_len ->
  wp (generous sock) (_uni_net_http_server_cmd_post_start url data data_len s)
    (fun '(r, s') t' => 0 <= r /\ exists got,
       post_finished h sock cl pre t t' got s' \/ post_pending h sock cl pre t t' got s') t.
Proof.
  cbn zeta. intros Hr. pose proof (length_early_body _ _ _ _ _ Hr) as Hpre.
  destruct Hr as (Hh & Hb & Ho & Hcl & Hdl & Hdata & Hhok & u & Hu & Hf).
  unfold _uni_net_http_server_cmd_post_start. cbn [bindM upd_client modify bind].
  rewrite (find_handler_eq _ _ u _ (Some h)) by done. cbn [bind get bindM client handler]. cbn. rewrite Ho.
  rewrite (proj2 (Z.leb_le 0 _)) by lia. rewrite andb_true_r, Z.sub_0_r, u32_small, min_spec by lia.
  eapply (wp_seq _ _ _ _ (fun '(_, s') t' =>
    post_pending h (socket (client s)) (content_length (client s)) (early_body s data data_len) t t' [] s')).
  - destruct (Z.ltb_spec 0 data_len); [destruct (Z.ltb_spec 0 (Z.min s.(client).(content_length) data_len))|].
    2,3: assert (Hnil : early_body s data data_len = []) by (apply length_zero_iff_nil; lia);
         unfold post_pending, exchanged; cbn; rewrite Hnil; cbn; rewrite ?app_nil_r; fields.
    cbn. rewrite read_at_Some by lia. cbn. apply wp_bind, wp_handler_call_in; [done|]. intros hr _.
    unfold post_pending, exchanged. cbn.
    rewrite u32_small, received_on_snoc, delivered_to_snoc, delivered_event_handler, sent_on_snoc, !app_nil_r, Hpre by lia.
    cbn. rewrite ?app_nil_r. fields.
  - intros [_ s1] t1 Hp. pose proof Hp as ((? & ? & ?) & _ & _ & Hs & _ & _ & _ & Hc).
    case_match.
    + rewrite <- Hs. eapply wp_mono; [apply (post_turn h s.(client).(content_length)); [done|lia|by rewrite Hs]|].
      intros [r s'] t' [? [?|(d & ? & ?)]]; (split; [done|]); eauto.
    + cbn. intros [] _. split; [lia|]. exists []. right. destruct Hp as ((? & ? & ?) & ?). split; [split_and!|done].
      * rewrite received_on_snoc. cbn. by rewrite app_nil_r.
      * rewrite delivered_to_snoc. cbn. by rewrite app_nil_r.
      * rewrite sent_on_snoc. cbn. by rewrite app_nil_r.
Qed.

Lemma request_turns_idle n r (s : hstate) :
  s.(client) = client_clear s.(client) -> request_turns n r s = Ret (r, s).
Proof. intros Hc. destruct n; [done|]. cbn. by rewrite Hc. Qed.

Lemma request_turns_spec h cl pre t0 n result t got (s : hstate) :
  let sock := s.(client).(socket) in
  handler_ok h -> cl < 2 ^ 32 -> 0 <= result ->
  post_finished h sock cl pre t0 t got s \/ post_pending h sock cl pre t0 t got s ->
  wp (generous sock) (request_turns n result s)
    (fun '(r, s') t' => 0 <= r /\ exists got',
       post_finished h sock cl pre t0 t' got' s'
       \/ post_pending h sock cl pre t0 t' got' s' /\ len got + Z.of_nat n <= len got') t.
Proof.
  cbn zeta. intros Hhok Hcl. revert result t got s.
  induction n as [|n IH]; intros result t got s Hres [Hf|Hp].
  - split; [done|]. exists got. by left.
  - split; [done|]. exists got. right. split; [done|lia].
  - rewrite (request_turns_idle (S n)) by apply Hf. split; [done|]. exists got. by left.
  - pose proof Hp as (Hex & _ & _ & _ & Hcmd & _). cbn. rewrite Hcmd. cbn.
    apply wp_bind. apply wp_client_busy; [by rewrite Hcmd|]. intros cn [_ Hcn].
    rewrite (Hcn eq_refl). cbn. rewrite process_next_post by done.
    eapply wp_mono; [apply (post_turn h cl pre t0 _ got s Hhok Hcl)|].
    { destruct Hp as ((? & ? & ?) & ?). split; [split_and!|done];
        rewrite ?received_on_snoc, ?delivered_to_snoc, ?sent_on_snoc; cbn; by rewrite app_nil_r. }
    intros [r s1] t1 [Hr Hnext]. cbn. rewrite (proj2 (Z.ltb_ge _ _)) by done.
    assert (Hs : s1.(client).(socket) = s.(client).(socket)).
    { destruct Hnext as [(_ & _ & _ & ?)|(d & _ & _ & _ & _ & ? & _)]; done. }
    destruct Hnext as [Hf|(d & Hd & Hp1)]; rewrite <- Hs in *.
    + rewrite request_turns_idle by apply Hf. cbn. split; [done|]. exists got. by left.
    + eapply wp_mono; [apply (IH r t1 (got ++ d)); [done|by right]|]. intros [r' s'] t' [? (got' & Hg)].
      split; [done|]. exists got'. destruct Hg as [?|[? Hl]]; [by left|right].
      rewrite length_app in Hl. split; [done|lia].
Qed.


End Post.
