(* ===== verification/HttpParse.v ===== *)
(** * Request parsing

    The parser of [_uni_net_http_server_client_work] reads the receive buffer in
    place.  It never reads outside of the received bytes, and it recovers the
    method, the URL and the Content-Length of a request that is written the way
    [render_request] writes it. *)

From S2P Require Import Prelude Env Prog Trace CString Decimal HttpCommon HttpServer HttpHeader HttpInv.

(** ** Reads stay inside *)

Lemma char_is_Some buf i c : (i < length buf)%nat -> exists b, char_is buf i c = Some b.
Proof. intros Hi. unfold char_is. destruct (lookup_lt_is_Some_2 buf i Hi) as [x ->]. cbn. eauto. Qed.

Lemma crlf_at_Some buf i : (S i < length buf)%nat -> exists b, crlf_at buf i = Some b.
Proof.
  intros Hi. unfold crlf_at. destruct (char_is_Some buf i CR) as [[] ->]; [lia| |eauto].
  apply char_is_Some. lia.
Qed.

Lemma hdr_end_at_Some buf i : (i + 3 < length buf)%nat -> exists b, hdr_end_at buf i = Some b.
Proof.
  intros Hi. unfold hdr_end_at. destruct (crlf_at_Some buf i) as [[] ->]; [lia| |eauto].
  apply crlf_at_Some. lia.
Qed.

Lemma crlf_at_true buf i :
  crlf_at buf i = Some true -> buf !! i = Some CR /\ buf !! S i = Some LF.
Proof.
  unfold crlf_at, char_is, beqb. destruct (buf !! i) as [c|] eqn:Ec; [|done]. cbn.
  case_bool_decide as Hc; [|done]. destruct (buf !! S i) as [d|]; [|done]. cbn.
  intros [= Hd]. apply bool_decide_eq_true in Hd. by subst.
Qed.

(** The end of the headers, when it is found: behind the first blank line. *)
Lemma find_hdr_end_spec buf n :
  (n <= length buf)%nat ->
  exists r, find_hdr_end buf n = Some r
    /\ forall e, r = Some e -> (4 <= e <= n)%nat /\ hdr_end_at buf (e - 4) = Some true.
Proof.
  intros Hn. unfold find_hdr_end.
  destruct (scan_total (hdr_end_at buf) 0 (n - 3)) as [[i|] Hs].
  - intros j Hj. destruct (hdr_end_at_Some buf j) as [b ->]; [lia|eauto].
  - rewrite Hs. apply scan_hit in Hs as (Hi & Ht & _). eexists. split; [done|].
    intros e [= <-]. split; [lia|]. by replace (i + 4 - 4)%nat with i by lia.
  - rewrite Hs. by eexists.
Qed.

(** A prefix of an input without a blank line has none either. *)
Lemma find_hdr_end_prefix (buf1 buf2 : bytes) m n :
  take m buf1 = take m buf2 -> (m <= n)%nat ->
  find_hdr_end buf2 n = Some None -> find_hdr_end buf1 m = Some None.
Proof.
  intros Htake Hmn Hnone. unfold find_hdr_end in *.
  destruct (scan (hdr_end_at buf2) 0 (n - 3)) as [[?|]|] eqn:Hs; [done| |done].
  assert (Hs1 : scan (hdr_end_at buf1) 0 (m - 3) = Some None); [|by rewrite Hs1].
  rewrite scan_miss in *. intros k Hk. rewrite <- (Hs k) by lia.
  assert (Heq : forall i, (i < m)%nat -> buf1 !! i = buf2 !! i).
  { intros i Hi. rewrite <- (lookup_take_lt buf1 m), <- (lookup_take_lt buf2 m) by done. by rewrite Htake. }
  unfold hdr_end_at, crlf_at, char_is. by rewrite !Heq by lia.
Qed.

Lemma find_command_total buf n cmds : (n <= length buf)%nat -> is_Some (find_command buf n cmds).
Proof.
  intros Hn. induction cmds as [|[[l name] ty] cmds IH]; cbn; [eauto|].
  destruct (Nat.leb_spec l n); [|done]. unfold memcmp_eq. rewrite length_take.
  rewrite decide_True by lia. case_bool_decide; eauto.
Qed.

Lemma find_command_len buf n cmds l ty :
  find_command buf n cmds = Some (Some (l, ty)) ->
  exists name, (l, name, ty) ∈ cmds /\ (l <= n)%nat /\ take (length (take l name)) buf = take l name.
Proof.
  induction cmds as [|[[l' name] ty'] cmds IH]; cbn; [done|].
  assert (Hrec : find_command buf n cmds = Some (Some (l, ty)) ->
    exists name0, (l, name0, ty) ∈ (l', name, ty') :: cmds /\ (l <= n)%nat
      /\ take (length (take l name0)) buf = take l name0).
  { intros (nm & ? & ?)%IH. exists nm. split; [by right|done]. }
  destruct (Nat.leb_spec l' n); [|done]. unfold memcmp_eq. case_decide; [|done].
  case_bool_decide; [|done]. intros [= -> ->]. exists name. split_and!; [by left|done|done].
Qed.

Lemma find_url_end_spec buf url he :
  (he <= length buf)%nat ->
  exists r, find_url_end buf url he = Some r
    /\ forall e, r = Some e -> (url <= e < he)%nat.
Proof.
  intros Hn. unfold find_url_end.
  destruct (scan_total (fun i => is_url_end <$> buf !! i) url (he - url)) as [[i|] Hs].
  - intros j Hj. destruct (lookup_lt_is_Some_2 buf j) as [x ->]; [lia|]. cbn. eauto.
  - rewrite Hs. apply scan_hit in Hs as (Hi & _). eexists. split; [done|]. intros e [= <-]. lia.
  - rewrite Hs. by eexists.
Qed.

Lemma line_end_spec buf p he :
  (he <= length buf)%nat -> (p + 1 < he)%nat ->
  exists e, line_end buf p he = Some e /\ (p <= e < he)%nat.
Proof.
  intros Hn Hp. unfold line_end.
  destruct (scan_total (crlf_at buf) p (he - 1 - p)) as [[i|] Hs].
  - intros j Hj. destruct (crlf_at_Some buf j) as [b ->]; [lia|eauto].
  - rewrite Hs. apply scan_hit in Hs as (Hi & _). eexists. split; [done|]. lia.
  - rewrite Hs. eexists. split; [done|]. lia.
Qed.

(** The loop over the header lines advances by at least two bytes a turn. *)
Lemma header_lines_total fuel buf he p acc :
  (he <= length buf)%nat -> (he - p < fuel)%nat -> is_Some (header_lines fuel buf he p acc).
Proof.
  intros Hn. revert p acc. induction fuel as [|fuel IH]; intros p acc Hf; [lia|].
  unfold header_lines; fold header_lines.
  destruct (Nat.ltb_spec (p + 1) he) as [Hp|Hp]; [|eauto].
  destruct (crlf_at_Some buf p) as [[] ->]; [lia|eauto|].
  destruct (line_end_spec buf p he) as (e & -> & He); [done|done|]. apply IH. lia.
Qed.

Lemma parse_content_length_total buf he :
  (he <= length buf)%nat -> is_Some (parse_content_length buf he).
Proof.
  intros Hn. unfold parse_content_length.
  destruct (scan_total (crlf_at buf) 0 (he - 1)) as [r ->].
  - intros j Hj. destruct (crlf_at_Some buf j) as [b ->]; [lia|eauto].
  - apply header_lines_total; [done|]. destruct r; lia.
Qed.

(** The value of a Content-Length line is a 32-bit number. *)
Lemma parse_u32_range v any s : 0 <= v < 2 ^ 32 -> 0 <= (parse_u32 v any s).1 < 2 ^ 32.
Proof.
  revert v any. induction s as [|c s IH]; intros v any Hv; cbn; [done|].
  case_match; [|done]. apply IH, u32_range.
Qed.

Lemma content_length_line_range line v : content_length_line line = Some v -> 0 <= v < 2 ^ 32.
Proof.
  unfold content_length_line. case_match; [|done].
  pose proof (parse_u32_range 0 false (skip_blank (drop (length cl_name) line)) ltac:(lia)) as Hr.
  destruct (parse_u32 _ _ _) as [w []]; [|done]. intros [= <-]. done.
Qed.

Lemma header_lines_range fuel buf he p acc r :
  0 <= acc.1 < 2 ^ 32 -> header_lines fuel buf he p acc = Some r -> 0 <= r.1 < 2 ^ 32.
Proof.
  revert p acc. induction fuel as [|fuel IH]; intros p acc Ha; cbn; [done|].
  case_match; [|by intros [= <-]]. destruct (crlf_at buf p) as [[]|]; [by intros [= <-]| |done].
  destruct (line_end buf p he); [|done]. apply IH.
  destruct (content_length_line _) as [v|] eqn:Ev; [|done]. by apply content_length_line_range in Ev.
Qed.

Lemma parse_content_length_range buf he r :
  parse_content_length buf he = Some r -> 0 <= r.1 < 2 ^ 32.
Proof.
  unfold parse_content_length. case_match; [|done]. apply header_lines_range. cbn. lia.
Qed.

(** ** Lines

    A line without CR between [pre] and a CRLF. *)

Lemma char_is_lookup buf i x c : buf !! i = Some x -> char_is buf i c = Some (beqb x c).
Proof. intros Hx. unfold char_is. by rewrite Hx. Qed.

Lemma crlf_at_not_CR buf i x : buf !! i = Some x -> x <> CR -> crlf_at buf i = Some false.
Proof. intros Hx Hc. unfold crlf_at. by rewrite (char_is_lookup _ _ _ _ Hx), (beqb_neq _ _ Hc). Qed.

Lemma lookup_mid (pre l rest : bytes) k :
  (length pre <= k < length pre + length l)%nat ->
  exists x, (pre ++ l ++ rest) !! k = Some x /\ x ∈ l.
Proof.
  intros Hk. destruct (lookup_lt_is_Some_2 l (k - length pre)) as [x Hx]; [lia|].
  exists x. split; [|by eapply list_elem_of_lookup_2].
  rewrite lookup_app_r by lia. by apply lookup_app_l_Some.
Qed.

Lemma crlf_at_line pre l rest k :
  CR ∉ l -> (length pre <= k < length pre + length l)%nat -> crlf_at (pre ++ l ++ rest) k = Some false.
Proof.
  intros Hl Hk. destruct (lookup_mid pre l rest k Hk) as (x & Hx & Hin).
  apply (crlf_at_not_CR _ _ x Hx). by intros ->.
Qed.

Lemma lookup_after (pre rest : bytes) i : (pre ++ rest) !! (length pre + i)%nat = rest !! i.
Proof. rewrite lookup_app_r by lia. f_equal. lia. Qed.

Lemma crlf_at_eol pre l rest :
  crlf_at (pre ++ l ++ CR :: LF :: rest) (length pre + length l) = Some true
  /\ crlf_at (pre ++ l ++ CR :: LF :: rest) (S (length pre + length l)) = Some false.
Proof.
  rewrite app_assoc, <- length_app. set (q := pre ++ l). split.
  - unfold crlf_at. rewrite (char_is_lookup _ _ CR), beqb_refl.
    + by rewrite (char_is_lookup _ _ LF), beqb_refl by (rewrite <- Nat.add_1_r, lookup_after; done).
    + by rewrite <- (Nat.add_0_r (length q)), lookup_after.
  - apply (crlf_at_not_CR _ _ LF); [|done]. by rewrite <- Nat.add_1_r, lookup_after.
Qed.

(** ** Requests as they are written *)

Definition eol (l : bytes) : bytes := l ++ CRLF.

(** A header block: the request line and header lines, then a blank line. *)
Definition header_block (l : bytes) (ls : list bytes) : bytes := eol l ++ concat (map eol ls) ++ CRLF.

Definition header_line_ok (l : bytes) : Prop := l <> [] /\ CR ∉ l.

Lemma length_eol l : length (eol l) = (length l + 2)%nat.
Proof. unfold eol. rewrite length_app. done. Qed.

Lemma eol_app l rest : eol l ++ rest = l ++ CR :: LF :: rest.
Proof. unfold eol. rewrite <- app_assoc. done. Qed.

Lemma length_header_block l ls :
  length (header_block l ls) = (length l + length (concat (map eol ls)) + 4)%nat.
Proof. unfold header_block. rewrite !length_app, length_eol. cbn. lia. Qed.

(** No blank line before the end of a header block. *)
Lemma header_block_scan pre l ls rest k :
  CR ∉ l -> Forall header_line_ok ls ->
  (length pre <= k < length pre + length l + length (concat (map eol ls)))%nat ->
  hdr_end_at (pre ++ header_block l ls ++ rest) k = Some false.
Proof.
  intros Hl Hls. revert pre l Hl. induction Hls as [|l1 ls [Hne H1] Hls IH]; intros pre l Hl Hk.
  - cbn in Hk. unfold hdr_end_at, header_block, eol. rewrite <- !app_assoc.
    by rewrite crlf_at_line by (done || lia).
  - cbn in Hk. rewrite length_app, length_eol in Hk.
    replace (pre ++ header_block l (l1 :: ls) ++ rest)
      with ((pre ++ eol l) ++ header_block l1 ls ++ rest)
      by (unfold header_block; cbn; by rewrite <- !app_assoc).
    destruct (decide (length pre + length l + 2 <= k)%nat).
    { apply IH; [done|]. rewrite length_app, length_eol. lia. }
    unfold hdr_end_at. rewrite <- (app_assoc pre), eol_app.
    destruct (decide (k < length pre + length l)%nat).
    { by rewrite crlf_at_line by (done || lia). }
    destruct (crlf_at_eol pre l (header_block l1 ls ++ rest)) as [H0 H1'].
    destruct (decide (k = S (length pre + length l))) as [->|]; [by rewrite H1'|].
    replace k with (length pre + length l)%nat by lia. rewrite H0.
    replace (pre ++ l ++ CR :: LF :: header_block l1 ls ++ rest)
      with ((pre ++ eol l) ++ l1 ++ CRLF ++ concat (map eol ls) ++ CRLF ++ rest)
      by (unfold header_block, eol; by rewrite <- !app_assoc).
    apply crlf_at_line; [done|]. rewrite length_app, length_eol. destruct l1; [done|]. cbn. lia.
Qed.

Lemma header_block_ends l ls :
  exists q, header_block l ls = q ++ CRLF ++ CRLF.
Proof.
  unfold header_block. revert l. induction ls as [|l1 ls IH]; intros l; cbn.
  - exists l. unfold eol. by rewrite <- app_assoc.
  - destruct (IH l1) as [q Hq]. exists (eol l ++ q). rewrite <- !app_assoc. by rewrite Hq.
Qed.

(** The end of the headers is the end of the block. *)
Lemma find_hdr_end_block l ls rest n :
  CR ∉ l -> Forall header_line_ok ls -> (length (header_block l ls) <= n)%nat ->
  find_hdr_end (header_block l ls ++ rest) n = Some (Some (length (header_block l ls))).
Proof.
  intros Hl Hls Hn. pose proof (length_header_block l ls) as Hlen.
  destruct (header_block_ends l ls) as [q Hq].
  assert (Hql : length (header_block l ls) = (length q + 4)%nat) by (rewrite Hq, !length_app; done).
  unfold find_hdr_end.
  assert (Hs : scan (hdr_end_at (header_block l ls ++ rest)) 0 (n - 3) = Some (Some (length q))).
  { apply scan_hit. split_and!; [lia|lia| |].
    - unfold hdr_end_at. rewrite Hq, <- !app_assoc.
      pose proof (proj1 (crlf_at_eol [] q (CRLF ++ rest))) as H1. cbn in H1.
      pose proof (proj1 (crlf_at_eol (q ++ CRLF) [] rest)) as H2.
      rewrite length_app, <- !app_assoc in H2. cbn in H2.
      cbn. rewrite H1. rewrite <- H2. f_equal. lia.
    - intros k Hk. apply (header_block_scan []); [done|done|]. cbn. lia. }
  rewrite Hs. f_equal. f_equal. lia.
Qed.

(** ** Content-Length *)

(** What the header lines say: the last Content-Length with digits counts. *)
Definition lines_length (ls : list bytes) (acc : Z * bool) : Z * bool :=
  foldl (fun acc l => match content_length_line l with Some v => (v, true) | None => acc end) acc ls.

Lemma lines_length_range ls acc : 0 <= acc.1 < 2 ^ 32 -> 0 <= (lines_length ls acc).1 < 2 ^ 32.
Proof.
  unfold lines_length. revert acc. induction ls as [|l ls IH]; intros acc Ha; cbn; [done|]. apply IH.
  destruct (content_length_line l) as [v|] eqn:Ev; [|done]. by apply content_length_line_range in Ev.
Qed.

Lemma line_end_block pre l rest he :
  CR ∉ l -> (length pre + length l + 1 < he)%nat ->
  line_end (pre ++ eol l ++ rest) (length pre) he = Some (length pre + length l)%nat.
Proof.
  intros Hl Hhe. unfold line_end. rewrite eol_app.
  assert (Hs : scan (crlf_at (pre ++ l ++ CR :: LF :: rest)) (length pre) (he - 1 - length pre)
               = Some (Some (length pre + length l)%nat)).
  { apply scan_hit. split_and!; [lia|lia|apply crlf_at_eol|].
    intros k Hk. by apply crlf_at_line. }
  by rewrite Hs.
Qed.

Lemma header_lines_block fuel pre ls rest acc :
  Forall header_line_ok ls ->
  let he := (length pre + length (concat (map eol ls)) + 2)%nat in
  (length ls < fuel)%nat ->
  header_lines fuel (pre ++ concat (map eol ls) ++ CRLF ++ rest) he (length pre) acc
  = Some (lines_length ls acc).
Proof.
  cbn zeta. intros Hls. revert fuel pre acc.
  induction Hls as [|l ls [Hne Hl] Hls IH]; intros fuel pre acc Hf; (destruct fuel as [|fuel]; [cbn in Hf; lia|]);
    unfold header_lines; fold header_lines.
  - cbn [map concat length]. rewrite (proj2 (Nat.ltb_lt _ _)) by lia.
    pose proof (proj1 (crlf_at_eol pre [] rest)) as H1. cbn in H1. rewrite Nat.add_0_r in H1.
    cbn. by rewrite H1.
  - cbn [map concat]. rewrite length_app, length_eol, (proj2 (Nat.ltb_lt _ _)) by lia.
    assert (Hlen : (0 < length l)%nat) by (destruct l; [done|cbn; lia]).
    rewrite <- !app_assoc.
    assert (Hc : crlf_at (pre ++ eol l ++ concat (map eol ls) ++ CRLF ++ rest) (length pre) = Some false).
    { rewrite eol_app. apply crlf_at_line; [done|lia]. }
    rewrite Hc, line_end_block by (done || lia).
    replace (take (length pre + length l - length pre) (drop (length pre) (pre ++ eol l ++ concat (map eol ls) ++ CRLF ++ rest)))
      with l by (rewrite drop_app_length, eol_app, take_app_le by lia; symmetry; apply take_ge; lia).
    specialize (IH fuel (pre ++ eol l)). rewrite length_app, length_eol, <- !app_assoc in IH.
    replace (length pre + length l + 2)%nat with (length pre + (length l + 2))%nat by lia.
    replace (length pre + (length l + 2 + length (concat (map eol ls))) + 2)%nat
      with (length pre + (length l + 2) + length (concat (map eol ls)) + 2)%nat by lia.
    rewrite IH by (cbn in Hf; lia). done.
Qed.

Lemma parse_content_length_block l ls rest :
  CR ∉ l -> Forall header_line_ok ls ->
  parse_content_length (header_block l ls ++ rest) (length (header_block l ls))
  = Some (lines_length ls (0, false)).
Proof.
  intros Hl Hls. unfold parse_content_length.
  pose proof (length_header_block l ls) as Hlen.
  assert (Hcat : (length ls <= length (concat (map eol ls)))%nat).
  { clear. induction ls as [|x ls IH]; cbn; [lia|]. rewrite length_app, length_eol. lia. }
  assert (Hs : scan (crlf_at (header_block l ls ++ rest)) 0 (length (header_block l ls) - 1)
               = Some (Some (length l))).
  { unfold header_block at 1. rewrite <- !app_assoc, eol_app. apply scan_hit.
    pose proof (proj1 (crlf_at_eol [] l (concat (map eol ls) ++ CRLF ++ rest))) as H1. cbn in H1.
    split_and!; [lia|lia|done|]. intros k Hk. apply (crlf_at_line []); [done|cbn; lia]. }
  rewrite Hs.
  pose proof (header_lines_block (S (length (header_block l ls))) (eol l) ls rest (0, false) Hls) as Hh.
  cbn zeta in Hh. rewrite length_eol in Hh. unfold header_block at 2. rewrite <- !app_assoc.
  rewrite <- Hh by lia. f_equal. lia.
Qed.

(** ** Decimal numbers *)

(** The 32-bit accumulator of the parser holds the value modulo [2^32]. *)
Lemma parse_u32_value v any s :
  Forall (fun c => isdigit c = true) s ->
  parse_u32 (u32 v) any s = (u32 (foldl dec_step v s), match s with [] => any | _ => true end).
Proof.
  intros Hs. revert v any. induction Hs as [|c s Hc Hs IH]; intros v any; cbn; [done|].
  rewrite Hc. replace (u32 (u32 v * 10 + digit_val c)) with (u32 (dec_step v c)).
  - rewrite IH. by destruct s.
  - unfold dec_step, u32. rewrite (Z.add_mod (v mod 2 ^ 32 * 10)), Z.mul_mod_idemp_l by lia.
    by rewrite <- Z.add_mod by lia.
Qed.

Lemma skip_blank_app s d :
  Forall (fun c => is_blank c = true) s -> Forall (fun c => isdigit c = true) d -> skip_blank (s ++ d) = d.
Proof.
  intros Hs Hd. induction Hs as [|c s Hc Hs IH]; cbn; [|by rewrite Hc].
  destruct Hd as [|c d Hc _]; [done|]. cbn.
  destruct (is_blank c) eqn:Eb; [|done]. unfold is_blank, beqb in Eb.
  apply orb_true_iff in Eb as [Eb|Eb]; apply bool_decide_eq_true in Eb; by subst c.
Qed.

(** A Content-Length line, in any letter case and with any blanks. *)
Lemma content_length_line_dec name blanks n :
  lower name = lower cl_name -> Forall (fun c => is_blank c = true) blanks -> 0 <= n < 10 ^ 20 ->
  content_length_line (name ++ blanks ++ dec n) = Some (u32 n).
Proof.
  intros Hname Hb Hn.
  assert (Hl : length name = length cl_name).
  { apply (f_equal length) in Hname. unfold lower in Hname. by rewrite !length_fmap in Hname. }
  unfold content_length_line. rewrite <- Hl, take_app_length, drop_app_length, Hname.
  rewrite (proj2 (Nat.leb_le _ _)) by (rewrite length_app; lia). rewrite bool_decide_eq_true_2 by done.
  cbn [andb]. rewrite skip_blank_app by (done || apply dec_digits).
  pose proof (parse_u32_value 0 false (dec n) (dec_digits n)) as Hp. change (u32 0) with 0 in Hp.
  rewrite Hp, dec_value by done. pose proof (dec_nonempty n). by destruct (dec n).
Qed.

(** ** Round trip *)

Definition request_line (name url : bytes) : bytes := name ++ SP :: url ++ B " HTTP/1.1".

(** A request as a client writes it: method, URL, header lines. *)
Definition render_request (name url : bytes) (ls : list bytes) : bytes :=
  header_block (request_line name url) ls.

(** The methods of the server: all rows of its table but the last. *)
Definition methods : list (nat * bytes * http_command) := take 9 g_UNI_NET_http_cmd.

Definition url_ok (url : bytes) : Prop := Forall (fun c => is_url_end c = false /\ c <> NUL) url.

Lemma find_command_hit l name ty buf n cmds :
  (l <= n <= length buf)%nat -> length name = l -> take l buf = name ->
  find_command buf n ((l, name, ty) :: cmds) = Some (Some (l, ty)).
Proof.
  intros Hn <- Hb. cbn. rewrite (proj2 (Nat.leb_le _ _)) by lia. rewrite firstn_all. unfold memcmp_eq.
  rewrite decide_True by lia. by rewrite bool_decide_eq_true_2.
Qed.

Lemma find_command_skip l name ty buf n cmds :
  (l <= n <= length buf)%nat -> length name = l -> take l buf <> name ->
  find_command buf n ((l, name, ty) :: cmds) = find_command buf n cmds.
Proof.
  intros Hn <- Hb. cbn. rewrite (proj2 (Nat.leb_le _ _)) by lia. rewrite firstn_all. unfold memcmp_eq.
  rewrite decide_True by lia. by rewrite bool_decide_eq_false_2.
Qed.

Lemma find_command_row l name ty rest n :
  (l, name, ty) ∈ methods -> (7 <= n <= length (name ++ SP :: rest))%nat ->
  find_command (name ++ SP :: rest) n methods = Some (Some (l, ty)).
Proof.
  unfold methods. cbn [take g_UNI_NET_http_cmd]. intros Hin Hn.
  repeat (apply elem_of_cons in Hin as [Hin|Hin]; [injection Hin as -> -> ->|]);
    [..|by apply elem_of_nil in Hin];
    repeat first [rewrite find_command_hit by (done || lia); done
                 |rewrite find_command_skip; [|lia|done|unfold B; cbn; congruence]].
Qed.

Lemma method_facts l name ty :
  (l, name, ty) ∈ methods -> length name = l /\ (3 <= l <= 7)%nat /\ CR ∉ name.
Proof.
  unfold methods. cbn [take g_UNI_NET_http_cmd]. intros Hin.
  repeat (apply elem_of_cons in Hin as [Hin|Hin]; [injection Hin as -> -> ->|]);
    [..|by apply elem_of_nil in Hin]; (split_and!; [done|lia|lia|]); by apply (bool_decide_unpack _).
Qed.

Lemma url_ok_no_CR url : url_ok url -> CR ∉ url.
Proof.
  intros Hu Hin. apply (proj1 (Forall_forall _ _) Hu) in Hin as [Hc _]. by vm_compute in Hc.
Qed.

Lemma request_line_no_CR l name ty url : (l, name, ty) ∈ methods -> url_ok url -> CR ∉ request_line name url.
Proof.
  intros (_ & _ & Hn)%method_facts Hu%url_ok_no_CR. unfold request_line.
  rewrite elem_of_app, elem_of_cons, elem_of_app. intros [?|[?|[?|Hc]]]; [done|done|done|].
  revert Hc. by apply (bool_decide_unpack _).
Qed.

(** Every step of the parser on a written request that is followed by [rest]. *)
Lemma parse_request l name ty url ls rest n :
  let buf := render_request name url ls ++ rest in
  let he := length (render_request name url ls) in
  let e := (l + 1 + length url)%nat in
  (l, name, ty) ∈ methods -> url_ok url -> Forall header_line_ok ls -> (he <= n <= length buf)%nat ->
  find_hdr_end buf n = Some (Some he)
  /\ find_command buf n methods = Some (Some (l, ty))
  /\ find_url_end buf (l + 1) he = Some (Some e)
  /\ cstr (drop (l + 1) (<[e := NUL]> buf)) = Some url
  /\ parse_content_length (<[e := NUL]> buf) he = Some (lines_length ls (0, false)).
Proof.
  cbn zeta. intros Hm Hu Hls Hn. pose proof (method_facts _ _ _ Hm) as (<- & Hl & Hcr).
  assert (He : length (render_request name url ls)
               = (length name + length url + 14 + length (concat (map eol ls)))%nat).
  { unfold render_request. rewrite length_header_block. unfold request_line.
    rewrite length_app, length_cons, length_app, length_B. cbn. lia. }
  assert (Hbuf : render_request name url ls ++ rest
     = (name ++ [SP]) ++ url ++ SP :: B "HTTP/1.1" ++ CRLF ++ concat (map eol ls) ++ CRLF ++ rest).
  { unfold render_request, header_block, eol, request_line. rewrite <- !app_assoc. cbn. by rewrite <- app_assoc. }
  split_and!.
  - apply find_hdr_end_block; [by eapply request_line_no_CR|done|apply Hn].
  - rewrite Hbuf, <- app_assoc in Hn |- *. apply find_command_row; [done|]. cbn in Hn |- *. lia.
  - unfold find_url_end. apply scan_hit. rewrite Hbuf.
    replace (length name + 1)%nat with (length (name ++ [SP])) by (rewrite length_app; done). split_and!; [lia| | |].
    + rewrite He, length_app. cbn. lia.
    + rewrite app_assoc, <- length_app. rewrite <- (Nat.add_0_r (length _)), lookup_after. done.
    + intros k Hk. destruct (lookup_mid (name ++ [SP]) url (SP :: B "HTTP/1.1" ++ CRLF ++ concat (map eol ls) ++ CRLF ++ rest) k Hk)
        as (x & -> & Hx). apply (proj1 (Forall_forall _ _) Hu) in Hx as [Hx _]. cbn. by rewrite Hx.
  - rewrite Hbuf. replace (length name + 1)%nat with (length (name ++ [SP])) by (rewrite length_app; done).
    rewrite app_assoc, <- length_app, insert_app_r_alt, Nat.sub_diag by lia. cbn [insert list_insert].
    rewrite <- app_assoc, drop_app_length. apply cstr_app.
    intros Hin. by apply (proj1 (Forall_forall _ _) Hu) in Hin as [_ ?].
  - set (line' := name ++ SP :: url ++ NUL :: B "HTTP/1.1").
    assert (Hins : <[(length name + 1 + length url)%nat := NUL]> (render_request name url ls ++ rest)
                   = header_block line' ls ++ rest).
    { rewrite Hbuf, app_assoc, insert_app_r_alt by (rewrite !length_app; cbn; lia).
      replace (_ - _)%nat with 0%nat by (rewrite !length_app; cbn; lia). cbn [insert list_insert].
      unfold header_block, eol, line'. rewrite <- !app_assoc. cbn. by rewrite <- !app_assoc. }
    rewrite Hins. replace (length (render_request name url ls)) with (length (header_block line' ls)).
    + apply parse_content_length_block; [|done]. unfold line'.
      pose proof (url_ok_no_CR _ Hu) as Hu'. rewrite elem_of_app, elem_of_cons, elem_of_app, elem_of_cons.
      intros [?|[?|[?|[?|Hc]]]]; try done. revert Hc. by apply (bool_decide_unpack _).
    + rewrite He, length_header_block. unfold line'.
      rewrite length_app, length_cons, length_app, length_cons, length_B. cbn. lia.
Qed.
