(* ===== verification/HttpWork.v ===== *)
(** * The server task

    One turn of the task serves every client once.  Whatever the peers send and
    the stack answers within its contract, the code neither reads nor writes
    outside of its buffers, keeps the invariants of the server and of each
    client, and closes the clients that failed. *)

From S2P Require Import Prelude Env Prog Trace CString HttpCommon HttpServer HttpHeader HttpInv HttpGet HttpPost HttpParse.

#[local] Arguments find_command : simpl never.

Section Work.
Context `{PlatformOk} `{UniCommonSpec}.

(** ** One client *)

(** What serving a client leaves. *)
Definition served (s s' : hstate) : Prop :=
  hdr_ok s'.(ctx) /\ same_server s.(ctx) s'.(ctx) /\ client_inv s'.(client)
  /\ s'.(client).(socket) = s.(client).(socket).

(** The same before [rx_len] is reset at the end of a request. *)
Definition started (s s' : hstate) : Prop :=
  hdr_ok s'.(ctx) /\ same_server s.(ctx) s'.(ctx) /\ client_inv (s'.(client) <| rx_len := 0 |>)
  /\ s'.(client).(socket) = s.(client).(socket)
  /\ (s.(client).(rx_len) = 0 -> s'.(client).(rx_len) = 0).

Lemma started_served (s s' : hstate) : started s s' -> s.(client).(rx_len) = 0 -> served s s'.
Proof.
  intros (Hh & Hs & Hi & Hsock & Hrx) H0'. specialize (Hrx H0'). split_and!; try done.
  destruct s' as [? []]. cbn in *. by subst.
Qed.

Lemma started_done (s s' : hstate) :
  started s s' -> served s (s' <| client ::= fun c => c <| rx_len := 0 |> |>).
Proof. by intros (? & ? & ? & ? & _). Qed.

Lemma cleared_started (s : hstate) (c : client_state) :
  buffers_ok c -> c = client_clear c -> client_inv (c <| rx_len := 0 |>).
Proof. intros Hb ->. cbn. by apply (cleared_inv c). Qed.

Lemma bad_request_safe (s : hstate) t :
  hdr_ok s.(ctx) -> buffers_ok s.(client) ->
  wp tcp_ok (bad_request s) (fun '(_, s') _ => served s s') t.
Proof.
  intros Hh Hb. pose proof Hb as (? & ? & ?). unfold bad_request.
  apply wp_bind, wp_send_header; [done..|].
  cbn. intros buf r Hbuf _ [] _. split_and!; [done|by exists buf| |done].
  apply (cleared_inv (header_fields UNI_NET_HTTP_STATUS_BADREQUEST s.(client))). fields.
Qed.

Lemma respond_started ok h bi ct (s : hstate) t r s' t' :
  respond_post ok h bi ct s t r s' t' -> started s s'.
Proof.
  intros (res & out & sp & t2 & bits & _ & _ & _ & _ & _ & Hh & Hs & Hsock & Hb & Hclr).
  split_and!; [done|done|by apply (cleared_started s')|done|by rewrite Hclr].
Qed.

(** A file transfer is under way or over. *)
Lemma sendfile_started ok u f (s : hstate) t r s' t' :
  sendfile_post ok u f s t r s' t' -> file_ok f -> 0 <= s.(client).(file_offset) ->
  s.(client).(command_type) = UNI_NET_HTTP_COMMAND_GET -> started s s'.
Proof.
  intros [(h & off & k & Hk & Hle & _ & _ & _ & _ & Hh & Hs & (Hsock & Hb & Hcl) & _) _] Hf Ho Hcmd.
  case_decide as Hd; [split_and!; [done|done|by apply (cleared_started s')|done|by rewrite Hcl]|].
  destruct Hcl as (Hfile & Hoff & Hsent & Hc & Hrx). split_and!; [done|done| |done|congruence]. split; [fields|]. right. left.
  split_and!; cbn; [congruence|done|done|]. exists f. rewrite Hoff. split_and!; [done|done..|lia|lia].
Qed.
Lemma post_next_started (s : hstate) t :
  hdr_ok s.(ctx) -> buffers_ok s.(client) -> post_client (s.(client) <| rx_len := 0 |>) ->
  wp tcp_ok (_uni_net_http_server_cmd_post_next s) (fun '(_, s') _ => started s s') t.
Proof.
  intros Hh Hb (Hcmd & _ & Hoff & Hcl & h & Hhd & Hok). cbn in *.
  destruct (decide (s.(client).(content_length) = s.(client).(file_offset))) as [Heq|Hne].
  - eapply wp_mono; [by apply (post_respond_spec tcp_ok h)|]. intros [r s'] t'. apply respond_started.
  - eapply wp_mono; [apply (post_receive_spec tcp_ok h); try done; lia|].
    intros [r s'] t' (d & _ & [(_ & -> & _)|(Hr & Hd & Hle & (buf & Hbuf & ->) & _)]).
    + split_and!; [done|done| |done|done]. split; [fields|]. right. right. split_and!; cbn; try (done || lia).
      by exists h.
    + split_and!; [done|done| |done|done]. split; [fields|]. right. right. split_and!; cbn; try (done || lia).
      by exists h.
Qed.

(** ** Starting a request *)

(** The client once its headers are parsed: no command yet, the URL ends with
    a NUL inside of the receive buffer. *)
Definition request_client (c : client_state) (url : nat) (u : bytes) : Prop :=
  buffers_ok c /\ c.(file) = None /\ c.(handler) = None /\ c.(file_offset) = 0
  /\ c.(header_sent) = false /\ c.(content_type) = None /\ 0 <= c.(content_length) < 2 ^ 32
  /\ cstr (drop url c.(buf_rx)) = Some u.

Lemma handler_for_ok (c : http_server) cmd u h :
  config_ok c.(config) -> handler_for c cmd u = Some (Some h) ->
  handler_ok h /\ h.(handler_command) = cmd.
Proof.
  intros [Hc _] Hf. unfold handler_for in Hf. apply array_search_Some in Hf as [Hp Hin].
  split; [by apply (proj1 (Forall_forall _ _) Hc)|].
  apply andb_true_iff in Hp as [Hp _]. by apply bool_decide_eq_true in Hp.
Qed.

(** The first registered file of a path. *)
Definition file_for (c : http_server) (u : bytes) : option (option http_file) :=
  array_search c.(config).(files) (fun f => strcmp_eq u f.(file_path)).

Lemma file_for_ok (c : http_server) u f :
  config_ok c.(config) -> file_for c u = Some (Some f) -> file_ok f.
Proof.
  intros [_ Hc] Hf. apply array_search_Some in Hf as [_ Hin]. by apply (proj1 (Forall_forall _ _) Hc).
Qed.

Lemma find_file_eq url u (s : hstate) r :
  cstr (drop url s.(client).(buf_rx)) = Some u -> file_for s.(ctx) u = Some r ->
  find_file url s
  = Ret (tt, if r is Some f then s <| client ::= fun c => c <| file := Some f |> |> else s).
Proof.
  intros Hu Hr. unfold find_file, file_for in *. cbn.
  rewrite (url_string_eq (Some url) (Some u)) by (by exists u). cbn.
  rewrite Hr. cbn. destruct r; cbn; [done|]. by destruct s.
Qed.

(** An error answer: the status line, then a reset of the client. *)
Definition status_post (ok : contract) (status : Z) (s : hstate) (t : trace) (r : Z) (s' : hstate) (t' : trace) : Prop :=
  let c := FreeRTOS_send s.(client).(socket) (response_header status (B "text/html") 0) in
  ok t c r /\ t' = t ++ [Ev c r] /\ started s s'.

Definition with_command (cmd : http_command) (s : hstate) : hstate :=
  s <| client ::= fun c => c <| command_type := cmd |> |>.

(** What a GET request leads to: the registered handler answers, else the
    registered file is sent, else the answer is 404. *)
Definition get_post (ok : contract) (u : bytes) (s : hstate) (t : trace) (r : Z) (s' : hstate) (t' : trace) : Prop :=
  match handler_for s.(ctx) UNI_NET_HTTP_COMMAND_GET u, file_for s.(ctx) u with
  | Some (Some h), _ =>
      respond_post ok h (Some s.(client).(buf_rx)) (_uni_net_http_server_content_type (Some u)) s t r s' t'
  | _, Some (Some f) =>
      sendfile_post ok (Some u) f (with_command UNI_NET_HTTP_COMMAND_GET s) t r s' t' /\ started s s'
  | _, _ => status_post ok UNI_NET_HTTP_STATUS_NOTFOUND s t r s' t'
  end.

Lemma length_html : (length (B "text/html") <= 64)%nat.
Proof. cbv. lia. Qed.

Lemma status_spec ok (s : hstate) status t :
  stronger ok tcp_ok -> hdr_ok s.(ctx) -> buffers_ok s.(client) -> status <> UNI_NET_HTTP_STATUS_OK ->
  wp ok (bindM (_uni_net_http_server_send_header status)
           (fun r => bindM _uni_net_http_server_client_clear (fun _ => ret r)) s)
    (fun '(r, s') t' => status_post ok status s t r s' t') t.
Proof.
  intros Hst Hh Hb Hne. pose proof Hb as (? & ? & ?). apply wp_bind, wp_send_header; [done..|].
  unfold header_fields. rewrite (proj2 (Z.eqb_neq _ _)) by done.
  cbn. intros buf r Hbuf Hok. rewrite (header_i32 _ _ _ _ _ _ (Hst _ _ _ Hok)) by apply length_html.
  split; [done|]. split; [done|]. split_and!; [done|by exists buf| |done|done].
  apply (cleared_inv s.(client)). fields.
Qed.

Lemma get_start_spec ok (s : hstate) url u data data_len t :
  stronger ok tcp_ok -> server_inv s.(ctx) -> request_client s.(client) url u ->
  wp ok (_uni_net_http_server_cmd_get_start url data data_len s)
    (fun '(r, s') t' => get_post ok u s t r s' t') t.
Proof.
  intros Hst [Hh Hc] (Hb & Hf & Hhd & Ho & Hs & Hct & _ & Hu).
  unfold _uni_net_http_server_cmd_get_start, get_post. cbn [bindM upd_client modify bind].
  destruct (handler_for s.(ctx) UNI_NET_HTTP_COMMAND_GET u) as [r|] eqn:Hr.
  2: { unfold handler_for in Hr. destruct (array_search_total s.(ctx).(config).(handlers) (fun h => bool_decide (h.(handler_command) = UNI_NET_HTTP_COMMAND_GET) && strcmp_eq u h.(handler_path))); congruence. }
  rewrite (find_handler_eq _ _ u _ r) by done. cbn [bind get bindM].
  destruct r as [h|].
  - destruct (handler_for_ok _ _ _ _ Hc Hr) as [? ?]. cbn [client handler].
    eapply wp_mono; [apply (get_respond_spec ok h (Some url) (Some u)); try done; by exists u|]. done.
  - cbn. rewrite Hhd.
    destruct (file_for s.(ctx) u) as [r|] eqn:Hr2.
    2: { destruct (array_search_total s.(ctx).(config).(files) (fun f => strcmp_eq u f.(file_path))); unfold file_for in *; congruence. }
    cbn [bindM]. rewrite (find_file_eq _ u _ r) by done. cbn [bind get bindM]. destruct r as [f|].
    + pose proof (file_for_ok _ _ _ Hc Hr2) as Hfok. cbn [client file].
      eapply wp_mono; [apply (sendfile_spec ok (Some url) (Some u) f); try done|].
      * pose proof (proj1 Hfok). cbn. lia.
      * by exists u.
      * intros [r s'] t' Hp. split; [exact Hp|]. apply (sendfile_started _ _ _ _ _ _ _ _ Hp Hfok); cbn; [lia|done].
    + cbn. rewrite Hf. eapply wp_mono; [by apply (status_spec ok)|]. done.
Qed.

Lemma get_post_started ok u (s : hstate) t r s' t' : get_post ok u s t r s' t' -> started s s'.
Proof.
  unfold get_post. repeat case_match; try apply respond_started; (by intros [_ ?]) || by intros (_ & _ & ?).
Qed.

Lemma post_start_started (s : hstate) url u data data_len t :
  server_inv s.(ctx) -> request_client s.(client) url u ->
  0 <= data_len -> Z.of_nat data + data_len <= len s.(client).(buf_rx) ->
  wp tcp_ok (_uni_net_http_server_cmd_post_start url data data_len s) (fun '(_, s') _ => started s s') t.
Proof.
  intros [Hh Hc] (Hb & Hf & Hhd & Ho & Hs & Hct & Hcl & Hu) Hdl Hdata. pose proof Hb as (? & ? & ?).
  unfold _uni_net_http_server_cmd_post_start. cbn [bindM upd_client modify bind].
  destruct (array_search_total s.(ctx).(config).(handlers) (fun h => bool_decide (h.(handler_command) = UNI_NET_HTTP_COMMAND_POST) && strcmp_eq u h.(handler_path))) as [r Hr].
  rewrite (find_handler_eq _ _ u _ r) by done. cbn [bind get bindM].
  destruct r as [h|].
  2: { cbn. rewrite Hhd. eapply wp_mono; [by apply (status_spec tcp_ok)|]. by intros [r s'] t' (_ & _ & ?). }
  destruct (handler_for_ok _ _ _ _ Hc Hr) as [Hhok _]. cbn. rewrite Ho.
  rewrite (proj2 (Z.leb_le 0 _)) by lia. rewrite andb_true_r, Z.sub_0_r, u32_small, min_spec by lia.
  eapply (wp_seq _ _ _ _ (fun '(_, s') t' => same_server s.(ctx) s'.(ctx) /\ hdr_ok s'.(ctx)
    /\ s'.(client).(socket) = s.(client).(socket) /\ s'.(client).(rx_len) = s.(client).(rx_len)
    /\ buffers_ok s'.(client) /\ post_client (s'.(client) <| rx_len := 0 |>))).
  - destruct (Z.ltb_spec 0 data_len); [destruct (Z.ltb_spec 0 (Z.min s.(client).(content_length) data_len))|].
    2,3: unfold post_client; cbn; split_and!; first [done | lia | by exists h].
    cbn. rewrite read_at_Some by lia. cbn. apply wp_bind, wp_handler_call_in; [done|]. intros hr _.
    unfold post_client. cbn. rewrite u32_small by lia. split_and!; first [done | lia | by exists h].
  - intros [_ s1] t1 (Hs1 & Hh1 & Hsock & Hrx1 & Hb1 & Hp1). case_match.
    + eapply wp_mono; [by apply post_next_started|]. intros [r s'] t' (? & Hs' & ? & ? & Hrx').
      split_and!; [done|by transitivity (ctx s1)|done|congruence|rewrite Hrx1 in Hrx'; done].
    + cbn. intros [] _. split_and!; [done|done| |done|congruence]. split; [fields|]. by right; right.
Qed.

(** The request functions of the commands without an entry in the map do nothing. *)
Lemma process_start_started (s : hstate) cmd url u data data_len t :
  server_inv s.(ctx) -> request_client s.(client) url u ->
  (cmd <> UNI_NET_HTTP_COMMAND_POST -> s.(client).(content_length) = 0) ->
  s.(client).(command_type) = UNI_NET_HTTP_COMMAND_UNKNOWN ->
  0 <= data_len -> Z.of_nat data + data_len <= len s.(client).(buf_rx) ->
  wp tcp_ok (_uni_net_http_server_cmd_process_start cmd url data data_len s) (fun '(_, s') _ => started s s') t.
Proof.
  intros Hi Hr Hpost Hcmd Hdl Hdata. unfold _uni_net_http_server_cmd_process_start.
  destruct cmd; cbn;
    try (destruct Hr as (Hb & ? & ? & ? & ? & ? & ? & _); destruct Hi as [? _]; pose proof RX_BUF_bounds;
         split_and!; [done|done| |done|done]; split; [fields|]; left; split_and!; cbn; try first [done|lia|by auto]).
  - eapply wp_mono; [by apply (get_start_spec tcp_ok s url u)|]. intros [r s'] t'. apply get_post_started.
  - by apply (post_start_started s url u).
Qed.

(** ** Dispatch of a complete request *)

(** A client that has received [n] bytes and no command yet. *)
Definition receiving (c : client_state) : Prop :=
  buffers_ok c /\ c.(command_type) = UNI_NET_HTTP_COMMAND_UNKNOWN /\ c.(file) = None
  /\ c.(handler) = None /\ c.(file_offset) = 0 /\ c.(content_length) = 0 /\ c.(header_sent) = false
  /\ c.(content_type) = None /\ 0 <= c.(rx_len) <= UNI_NET_HTTP_SERVER_RX_BUF.

Lemma cut_url_reads (buf : bytes) url e :
  (url <= e < length buf)%nat -> exists u, cstr (drop url (<[e := NUL]> buf)) = Some u.
Proof.
  intros He. apply cstr_is_Some. apply list_elem_of_lookup. exists (e - url)%nat.
  rewrite lookup_drop. replace (url + (e - url))%nat with e by lia.
  rewrite list_lookup_insert_eq by lia. done.
Qed.

Lemma reject_safe (s s1 : hstate) t :
  hdr_ok s1.(ctx) -> buffers_ok s1.(client) -> s1.(ctx) = s.(ctx) -> s1.(client).(socket) = s.(client).(socket) ->
  wp tcp_ok (bindM bad_request (fun _ => ret (-1)) s1) (fun '(_, s') _ => served s s') t.
Proof.
  intros Hh Hb Hc Hs. cbn. eapply wp_seq; [by apply bad_request_safe|].
  intros [_ s'] t' (? & ? & ? & ?). cbn. split_and!; [done|by rewrite <- Hc|done|congruence].
Qed.

(** The state in which the command of a request is started. *)
Definition request_state (s : hstate) (e : nat) (cl : Z) (ty : http_command) : hstate :=
  s <| client ::= fun c => c <| headers_done := true |> <| buf_rx := <[e := NUL]> c.(buf_rx) |>
         <| content_length := if decide (ty = UNI_NET_HTTP_COMMAND_POST) then cl else c.(content_length) |> |>.

Lemma client_request_eq (s : hstate) he l ty e cl found :
  find_command s.(client).(buf_rx) (Z.to_nat s.(client).(rx_len)) methods = Some (Some (l, ty)) ->
  find_url_end s.(client).(buf_rx) (l + 1) he = Some (Some e) ->
  parse_content_length (<[e := NUL]> s.(client).(buf_rx)) he = Some (cl, found) ->
  (ty = UNI_NET_HTTP_COMMAND_POST -> found = true) ->
  client_request he s
  = bind (_uni_net_http_server_cmd_process_start ty (l + 1) he (size_t (s.(client).(rx_len) - Z.of_nat he))
            (request_state s e cl ty))
      (fun '(r, s') => Ret (r, s' <| client ::= fun c => c <| rx_len := 0 |> |>)).
Proof.
  intros Hcmd Hue Hcl Hf. unfold client_request. cbn. cbn in Hcmd. rewrite Hcmd. cbn. rewrite Hue. cbn.
  rewrite Hcl. cbn. unfold request_state. case_bool_decide as Hty; cbn.
  - rewrite Hf by done. cbn. by rewrite decide_True.
  - by rewrite decide_False.
Qed.

(** The request that is started has its URL cut out and its length set. *)
Lemma request_state_client (s : hstate) url e u cl ty :
  receiving s.(client) -> cstr (drop url (<[e := NUL]> s.(client).(buf_rx))) = Some u -> 0 <= cl < 2 ^ 32 ->
  request_client (request_state s e cl ty).(client) url u.
Proof.
  intros (Hb & ? & ? & ? & ? & ? & ? & ? & ?) Hu Hcl. destruct Hb as (? & ? & ?).
  split; [|split_and!; cbn; try case_decide; first [done|lia]].
  split_and!; cbn; try done. by rewrite length_insert.
Qed.

Lemma client_request_safe (s : hstate) he t :
  server_inv s.(ctx) -> receiving s.(client) -> (he <= Z.to_nat s.(client).(rx_len))%nat ->
  wp tcp_ok (client_request he s) (fun '(_, s') _ => served s s') t.
Proof.
  intros [Hh Hc] Hrecv Hhe. pose proof Hrecv as ((Hrx & Htx & Hct) & Hcmd & _ & _ & _ & Hcl0 & _ & _ & Hlen).
  pose proof RX_BUF_bounds.
  destruct (find_command_total s.(client).(buf_rx) (Z.to_nat s.(client).(rx_len)) methods)
    as [[[l ty]|] Hcmd']; [lia| |].
  2: { unfold client_request. cbn. cbn in Hcmd'. rewrite Hcmd'. by apply reject_safe. }
  destruct (find_url_end_spec s.(client).(buf_rx) (l + 1) he) as ([e|] & Hue & He); [lia| |].
  2: { unfold client_request. cbn. cbn in Hcmd'. rewrite Hcmd'. cbn. rewrite Hue. by apply reject_safe. }
  specialize (He e eq_refl).
  destruct (parse_content_length_total (<[e := NUL]> s.(client).(buf_rx)) he) as [[cl found] Hpl];
    [rewrite length_insert; lia|].
  destruct (decide (ty = UNI_NET_HTTP_COMMAND_POST /\ found = false)) as [[-> ->]|Hnp].
  { unfold client_request. cbn. cbn in Hcmd'. rewrite Hcmd'. cbn. rewrite Hue. cbn. rewrite Hpl. cbn.
    apply reject_safe; try done. fields. by rewrite length_insert. }
  rewrite (client_request_eq s he l ty e cl found) by (done || intros ->; destruct found; tauto).
  destruct (cut_url_reads s.(client).(buf_rx) (l + 1) e) as [u Hu]; [lia|].
  eapply wp_seq.
  { apply (process_start_started (request_state s e cl ty) ty (l + 1) u).
    - by split.
    - apply request_state_client; [done|done|by eapply (parse_content_length_range _ _ (cl, found))].
    - intros. cbn. by rewrite decide_False.
    - done.
    - rewrite size_t_small; lia.
    - rewrite size_t_small by lia. cbn. rewrite length_insert. lia. }
  intros [r s'] t' Hs. by apply started_done.
Qed.

(** ** Receiving a request *)

(** More bytes were received behind the ones that are already there. *)
Definition received_more (d : bytes) (s s1 : hstate) : Prop :=
  exists buf, write_at s.(client).(buf_rx) (Z.to_nat s.(client).(rx_len)) d = Some buf
    /\ s1 = s <| client ::= fun c => c <| buf_rx := buf |> <| rx_len := c.(rx_len) + len d |> |>.

(** The rest of the function, once the end of the headers was searched for. *)
Definition after_recv (hdr_end : option nat) (recv_cnt : Z) : M hstate Z :=
  match hdr_end with
  | None => bindM get (fun s =>
      bindM (if s.(client).(rx_len) =? UNI_NET_HTTP_SERVER_RX_BUF then bad_request else ret tt)
        (fun _ => ret recv_cnt))
  | Some he => client_request he
  end.

Lemma received_more_receiving d (s s1 : hstate) :
  buffers_ok s.(client) -> idle_client s.(client) -> received_more d s s1 -> receiving s1.(client).
Proof.
  intros (? & ? & ?) (? & ? & ? & ? & ? & ? & ? & Hr) (buf & Hw & ->).
  assert (Hl : length buf = length s.(client).(buf_rx)) by by eapply length_write_at.
  unfold write_at in Hw. case_decide; [|done].
  split; [fields|]. split_and!; cbn; first [done|lia].
Qed.

Lemma wp_client_idle ok (s : hstate) Q t :
  stronger ok tcp_ok -> buffers_ok s.(client) -> idle_client s.(client) ->
  let sock := s.(client).(socket) in
  let recv := FreeRTOS_recv sock (UNI_NET_HTTP_SERVER_RX_BUF - s.(client).(rx_len)) in
  (forall cn : Z, ok t (FreeRTOS_issocketconnected sock) cn ->
     let t1 := t ++ [Ev (FreeRTOS_issocketconnected sock) cn] in
     if cn =? 0 then Q (-1, s) t1
     else forall r d, ok t1 recv (r, d) ->
       (r <= 0 -> Q (0, s) (t1 ++ [Ev recv (r, d)]))
       /\ (forall s1 he, 0 < r -> len d = r -> received_more d s s1 ->
             find_hdr_end s1.(client).(buf_rx) (Z.to_nat s1.(client).(rx_len)) = Some he ->
             wp ok (after_recv he r s1) Q (t1 ++ [Ev recv (r, d)]))) ->
  wp ok (_uni_net_http_server_client_work s) Q t.
Proof.
  intros Hst Hb Hi sock recv HQ. pose proof Hb as (Hrx & _). pose proof RX_BUF_bounds.
  pose proof Hi as (Hcmd & _ & _ & _ & _ & _ & _ & Hlen).
  unfold _uni_net_http_server_client_work. cbn. intros cn Hcn. specialize (HQ cn Hcn). cbn zeta in HQ.
  destruct (cn =? 0); [done|]. rewrite bool_decide_eq_true_2 by done.
  rewrite size_t_small by lia. unfold recv_into. cbn. intros [r d] Hok. destruct (Hst _ _ _ Hok ltac:(lia)) as [Hr Hd].
  destruct (HQ r d Hok) as [Hneg Hpos]. cbn in Hr, Hd |- *.
  destruct (Z.ltb_spec 0 r) as [Hr0|Hr0]; cbn.
  2: { rewrite i32_small by lia. rewrite (proj2 (Z.ltb_ge 0 r)) by done. cbn. by apply Hneg. }
  specialize (Hd Hr0). destruct (write_at_Some s.(client).(buf_rx) (Z.to_nat s.(client).(rx_len)) d)
    as (buf & Hw & Hl & _); [lia|].
  rewrite Hw. cbn. rewrite i32_small by lia. rewrite (proj2 (Z.ltb_lt 0 r)) by done. cbn.
  rewrite u32_small by lia. rewrite (proj2 (Z.ltb_ge _ _)) by lia. cbn.
  destruct (find_hdr_end_spec buf (Z.to_nat (s.(client).(rx_len) + r))) as (he & Hhe & _); [lia|].
  rewrite Hhe. cbn.
  assert (Hmore : received_more d s (s <| client ::= fun c => c <| buf_rx := buf |> <| rx_len := c.(rx_len) + r |> |>)).
  { exists buf. by rewrite Hd. }
  specialize (Hpos _ he Hr0 Hd Hmore Hhe). by destruct he.
Qed.

Lemma idle_work_safe (s : hstate) t :
  server_inv s.(ctx) -> buffers_ok s.(client) -> idle_client s.(client) ->
  wp tcp_ok (_uni_net_http_server_client_work s) (fun '(_, s') _ => served s s') t.
Proof.
  intros [Hh Hc] Hb Hi.
  assert (Hsame : served s s) by (split_and!; try done; by split; [|left]).
  apply wp_client_idle; [done..|]. cbn zeta. intros cn _. case_match; [done|].
  intros r d _. split; [done|]. intros s1 he Hr Hd Hmore Hhe.
  pose proof (received_more_receiving _ _ _ Hb Hi Hmore) as Hrecv.
  assert (Hctx : s1.(ctx) = s.(ctx) /\ s1.(client).(socket) = s.(client).(socket)) by by destruct Hmore as (? & _ & ->).
  destruct Hctx as [Hctx Hsock]. pose proof Hrecv as (Hb1 & Hrest).
  assert (Htrans : forall s', served s1 s' -> served s s').
  { intros s' (? & ? & ? & ?). split_and!; [done|by rewrite <- Hctx|done|congruence]. }
  destruct he as [he|]; cbn.
  - destruct (find_hdr_end_spec s1.(client).(buf_rx) (Z.to_nat s1.(client).(rx_len))) as (x & Hx & Hle).
    { destruct Hb1 as (? & _). destruct_and!. lia. }
    assert (x = Some he) by congruence. specialize (Hle he ltac:(done)).
    eapply wp_mono; [apply client_request_safe; [by rewrite Hctx; split|done|lia]|].
    intros [r' s'] t'. apply Htrans.
  - case_match eqn:Efull.
    + eapply wp_seq; [apply bad_request_safe; [by rewrite Hctx|done]|]. intros [? s'] t'. apply Htrans.
    + cbn. split_and!; [by rewrite Hctx|by rewrite Hctx| |done]. split; [done|]. left.
      unfold idle_client. destruct_and!. split_and!; first [done|lia].
Qed.

Lemma get_work_safe (s : hstate) t :
  server_inv s.(ctx) -> buffers_ok s.(client) -> get_client s.(client) ->
  wp tcp_ok (_uni_net_http_server_client_work s) (fun '(_, s') _ => served s s') t.
Proof.
  intros [Hh Hc] Hb Hg. pose proof Hg as (Hcmd & Hsent & Hrx & f & Hf & Hfok & Hoff).
  apply wp_client_busy; [by rewrite Hcmd|]. intros cn _.
  case_match; [split_and!; try done; split; auto|]. rewrite process_next_get by done.
  unfold _uni_net_http_server_cmd_get_next. cbn. rewrite Hf.
  eapply wp_mono; [by apply (sendfile_spec tcp_ok None None f)|]. intros [r s'] t' Hp.
  apply started_served; [|done]. by apply (sendfile_started _ _ _ _ _ _ _ _ Hp Hfok ltac:(lia) Hcmd).
Qed.

Lemma post_work_safe (s : hstate) t :
  server_inv s.(ctx) -> buffers_ok s.(client) -> post_client s.(client) ->
  wp tcp_ok (_uni_net_http_server_client_work s) (fun '(_, s') _ => served s s') t.
Proof.
  intros [Hh Hc] Hb Hp. pose proof Hp as (Hcmd & Hrx & Hoff & Hcl & Hhd).
  apply wp_client_busy; [by rewrite Hcmd|]. intros cn _.
  case_match; [split_and!; try done; split; auto|]. rewrite process_next_post by done.
  eapply wp_mono; [by apply post_next_started|]. intros [r s'] t' Hs. by apply started_served.
Qed.

(** Serving a client is safe: no undefined behaviour, no endless loop, and the
    invariants of the server and the client hold afterwards. *)
Lemma client_work_spec (s : hstate) t :
  server_inv s.(ctx) -> client_inv s.(client) ->
  wp tcp_ok (_uni_net_http_server_client_work s) (fun '(_, s') _ => served s s') t.
Proof.
  intros Hi [Hb [?|[?|?]]]; [by apply idle_work_safe|by apply get_work_safe|by apply post_work_safe].
Qed.

End Work.
