(* ===== verification/HttpTask.v ===== *)
(** * The life of the server

    From [uni_net_http_server_init] over the start of the task to any number of
    its turns: the table of clients, the accepted sockets and the registered
    handlers and files. *)

From S2P Require Import Prelude Env Prog Trace CString HttpCommon HttpServer HttpHeader HttpInv HttpGet HttpPost HttpParse HttpWork.

Section Task.
Context `{PlatformOk} `{UniCommonSpec}.

(** The stack's contract, and memory that does not run out: the code uses the
    result of [pvPortCalloc] without a check. *)
Definition task_ok : contract := fun t c r =>
  tcp_ok t c r
  /\ match c return resp c -> Prop with
     | pvPortCalloc _ _ => fun r => r <> NULL
     | _ => fun _ => True
     end r.

(** ** The table of clients *)

Definition slot_ok (o : option (ptr * client_state)) : Prop :=
  match o with
  | Some (p, cl) => p <> NULL /\ client_inv cl
  | None => True
  end.

Definition table_ok (c : http_server) : Prop :=
  exists slots, c.(state).(clients) = Some slots /\ length slots = c.(config).(max_clients)
    /\ Forall slot_ok slots.

Definition server_ok (c : http_server) : Prop := server_inv c /\ table_ok c.

Definition set_clients (slots : list (option (ptr * client_state))) (c : http_server) : http_server :=
  c <| state ::= fun st => st <| clients := Some slots |> |>.

Lemma set_clients_ok slots (c : http_server) :
  server_inv c -> length slots = c.(config).(max_clients) -> Forall slot_ok slots ->
  server_ok (set_clients slots c).
Proof. intros Hi Hl Hs. split; [done|]. by exists slots. Qed.

Lemma fresh_client_inv sock : client_inv (fresh_client sock).
Proof.
  pose proof RX_BUF_bounds. pose proof TX_BUF_bounds. split.
  - unfold fresh_client. split_and!; cbn; rewrite ?length_replicate; lia.
  - left. unfold idle_client, fresh_client. split_and!; cbn; first [done|lia].
Qed.

(** The first slot without a client. *)
Lemma free_slot_spec slots n :
  length slots = n ->
  exists r, free_slot slots n = Some r /\
    match r with
    | Some i => slots !! i = Some None /\ (forall j, (j < i)%nat -> exists x, slots !! j = Some (Some x))
    | None => forall j, (j < n)%nat -> exists x, slots !! j = Some (Some x)
    end.
Proof.
  intros Hn. unfold free_slot.
  set (test := fun i => match slots !! i with Some None => Some true | Some (Some _) => Some false | None => None end).
  assert (Hfalse : forall k, test k = Some false -> exists x, slots !! k = Some (Some x)).
  { intros k Hk. unfold test in Hk. destruct (slots !! k) as [[x|]|]; [eauto|done|done]. }
  destruct (scan_total test 0 n) as [[i|] Hs].
  { intros j Hj. unfold test. destruct (lookup_lt_is_Some_2 slots j) as [[x|] ->]; [lia|eauto|eauto]. }
  - exists (Some i). split; [exact Hs|]. apply scan_hit in Hs as (Hi & Ht & Hlt). split.
    + unfold test in Ht. by destruct (slots !! i) as [[x|]|].
    + intros j Hj. apply Hfalse, Hlt. lia.
  - exists None. split; [exact Hs|]. intros j Hj. apply Hfalse. apply scan_miss with (k := j) in Hs; [done|lia].
Qed.

(** A new connection: memory for a client, the socket in the select set, and the
    first free slot of the table.  When the table is full the client is in no
    slot, and neither its memory nor its socket is given back. *)
Definition new_client_post (sock : ptr) (slots : list (option (ptr * client_state)))
    (c : http_server) (t : trace) (c' : http_server) (t' : trace) : Prop :=
  exists p, p <> NULL
    /\ t' = (t ++ [Ev (pvPortCalloc sizeof_http_client 1) p])
              ++ [Ev (FreeRTOS_FD_SET sock c.(state).(socket_set) (Z.lor eSELECT_READ eSELECT_EXCEPT)) tt]
    /\ ((exists i, slots !! i = Some None
           /\ (forall j, (j < i)%nat -> exists x, slots !! j = Some (Some x))
           /\ c' = set_clients (<[i := Some (p, fresh_client sock)]> slots) c)
        \/ ((forall j, (j < length slots)%nat -> exists x, slots !! j = Some (Some x)) /\ c' = c)).

Lemma client_new_spec sock slots (c : http_server) t :
  sock <> NULL -> c.(state).(clients) = Some slots -> length slots = c.(config).(max_clients) ->
  wp task_ok (_uni_net_http_server_client_new sock c) (fun '(_, c') t' => new_client_post sock slots c t c' t') t.
Proof.
  intros Hsock Hcl Hlen. unfold _uni_net_http_server_client_new.
  rewrite (proj2 (Z.eqb_neq _ _)) by exact Hsock. cbn. intros p [_ Hp]. cbn in Hp.
  rewrite (proj2 (Z.eqb_neq _ _)) by exact Hp. cbn. intros [] _.
  destruct (free_slot_spec slots _ Hlen) as (r & Hr & Hspec).
  assert (Hslots : (if (max_clients (config c) =? 0)%nat then Some [] else clients (state c)) = Some slots).
  { destruct (Nat.eqb_spec (max_clients (config c)) 0); [|done]. destruct slots; [done|cbn in *; lia]. }
  rewrite Hslots. cbn. rewrite Hr. cbn. destruct r as [i|]; cbn; exists p; (split; [done|]); (split; [done|]).
  - left. exists i. by destruct Hspec.
  - right. split; [|done]. by rewrite Hlen.
Qed.

Lemma new_client_ok sock slots (c : http_server) t c' t' :
  new_client_post sock slots c t c' t' -> server_ok c -> c.(state).(clients) = Some slots ->
  server_ok c' /\ c'.(config) = c.(config).
Proof.
  intros (p & Hp & _ & Hc) [Hi (sl & Hsl & Hlen & Hall)] Hcl. assert (sl = slots) as -> by congruence.
  destruct Hc as [(i & Hin & _ & ->)|[_ ->]]; [|by split; [split; [|exists slots]|]].
  split; [|done]. apply set_clients_ok; [done|by rewrite length_insert|].
  apply Forall_insert; [done|]. split; [done|apply fresh_client_inv].
Qed.

(** ** A turn of the task *)

(** The body of the loop over the clients. *)
Definition serve_slot (idx : nat) : M http_server unit :=
  bindM get (fun c =>
  bindM (deref c.(state).(clients)) (fun slots =>
  bindM (deref (slots !! idx)) (fun slot =>
    match slot with
    | None => ret tt
    | Some (p, cl) =>
        bindM (with_client cl _uni_net_http_server_client_work) (fun r =>
        bindM (set_slot idx (Some (p, r.2))) (fun _ =>
          if r.1 <? 0 then
            bindM (_uni_net_http_server_client_delete p r.2) (fun _ => set_slot idx None)
          else ret tt))
    end))).

Lemma clients_loop_S idx n (c : http_server) E ok Q t :
  wp_gen E ok (bindM (serve_slot idx) (fun _ => clients_loop (S idx) n) c) Q t ->
  wp_gen E ok (clients_loop idx (S n) c) Q t.
Proof.
  unfold clients_loop; fold (clients_loop (S idx) n). unfold serve_slot. cbn.
  destruct (clients (state c)) as [slots|]; [|done]. cbn.
  destruct (slots !! idx) as [[[p cl]|]|]; done.
Qed.

(** The calls that release a client. *)
Definition release (c : http_server) (p : ptr) (cl : client_state) (cr : Z) : trace :=
  (if cl.(socket) =? NULL then []
   else [Ev (FreeRTOS_FD_CLR cl.(socket) c.(state).(socket_set) eSELECT_ALL) tt;
         Ev (FreeRTOS_closesocket cl.(socket)) cr]) ++ [Ev (vPortFree p) tt].

(** Serving a slot: the client works; it stays when the result is not negative,
    else its socket is closed, its memory freed and its slot emptied. *)
Definition slot_served (Q : Z -> hstate -> trace -> Prop) (idx : nat) (p : ptr)
    (slots : list (option (ptr * client_state))) (c' : http_server) (t' : trace) : Prop :=
  exists (r : Z) s1 t1, Q r s1 t1 /\
    ((0 <= r /\ c' = set_clients (<[idx := Some (p, s1.(client))]> slots) s1.(ctx) /\ t' = t1)
     \/ (r < 0 /\ c' = set_clients (<[idx := None]> slots) s1.(ctx)
         /\ exists cr, t' = t1 ++ release s1.(ctx) p s1.(client) cr)).

Lemma serve_slot_wp E ok (Q : Z -> hstate -> trace -> Prop) idx p cl slots (c : http_server) t :
  c.(state).(clients) = Some slots -> slots !! idx = Some (Some (p, cl)) ->
  wp_gen E ok (_uni_net_http_server_client_work (mk_hstate c cl))
    (fun '(r, s1) t1 => s1.(ctx).(state).(clients) = Some slots /\ Q r s1 t1) t ->
  wp_gen E ok (serve_slot idx c) (fun '(_, c') t' => slot_served Q idx p slots c' t') t.
Proof.
  intros Hslots Hidx Hw. unfold serve_slot. cbn. rewrite Hslots. cbn. rewrite Hidx. cbn.
  unfold with_client. apply wp_bind, wp_bind. eapply wp_mono; [exact Hw|].
  intros [r s1] t1 [Hcl1 Hs]. cbn. rewrite Hcl1. cbn.
  destruct (Z.ltb_spec r 0) as [Hneg|Hpos].
  - cbn. unfold _uni_net_http_server_client_delete. cbn.
    destruct (Z.eqb_spec s1.(client).(socket) NULL) as [Hz|Hz]; cbn.
    + intros [] _. exists r, s1, t1. split; [done|]. right. split; [done|].
      unfold release. rewrite Hz. cbn. rewrite list_insert_insert_eq. split; [done|]. by exists 0.
    + intros [] _ cr _ [] _. exists r, s1, t1. split; [done|]. right. split; [done|].
      unfold release. rewrite (proj2 (Z.eqb_neq _ _)) by done. cbn. rewrite list_insert_insert_eq.
      split; [done|]. exists cr. by rewrite <- !app_assoc.
  - cbn. exists r, s1, t1. split; [done|]. by left.
Qed.

Definition slot_post (idx : nat) (p : ptr) (cl : client_state) (slots : list (option (ptr * client_state)))
    (c : http_server) (c' : http_server) (t' : trace) : Prop :=
  slot_served (fun _ s1 _ => served (mk_hstate c cl) s1) idx p slots c' t'.

Lemma serve_slot_spec idx p cl slots (c : http_server) t :
  server_inv c -> client_inv cl -> c.(state).(clients) = Some slots -> slots !! idx = Some (Some (p, cl)) ->
  wp task_ok (serve_slot idx c) (fun '(_, c') t' => slot_post idx p cl slots c c' t') t.
Proof.
  intros Hi Hcl Hslots Hidx. apply (serve_slot_wp _ _ (fun _ s1 _ => served (mk_hstate c cl) s1) _ _ cl); [done..|].
  eapply wp_mono.
  { eapply wp_weaken; [apply (client_work_spec (mk_hstate c cl) t Hi Hcl)|done|]. by intros ??? []. }
  intros [r s1] t1 Hs. split; [|exact Hs]. destruct Hs as (_ & Hsame & _).
  by rewrite (same_server_clients _ _ Hsame).
Qed.

Lemma slot_post_ok idx p cl slots (c c' : http_server) t' :
  slot_post idx p cl slots c c' t' -> server_ok c -> c.(state).(clients) = Some slots -> p <> NULL ->
  server_ok c' /\ c'.(config) = c.(config).
Proof.
  intros (r & s1 & t1 & (Hh & Hsame & Hinv & _) & Hc) [[_ Hcfg] (sl & Hsl & Hlen & Hall)] Hcl Hp.
  assert (sl = slots) as -> by congruence. pose proof (same_server_config _ _ Hsame) as Hconf. cbn in Hconf.
  assert (Hinv1 : server_inv s1.(ctx)) by (split; [done|by rewrite Hconf]).
  destruct Hc as [(_ & -> & _)|(_ & -> & _)]; (split; [|done]);
    (apply set_clients_ok; [done|by rewrite length_insert, Hconf|by apply Forall_insert]).
Qed.

Lemma serve_slot_ok idx (c : http_server) t :
  server_ok c -> (idx < c.(config).(max_clients))%nat ->
  wp task_ok (serve_slot idx c) (fun '(_, c') _ => server_ok c' /\ c'.(config) = c.(config)) t.
Proof.
  intros Hok Hidx. pose proof Hok as [Hi (slots & Hsl & Hlen & Hall)].
  destruct (lookup_lt_is_Some_2 slots idx) as [[[p cl]|] Hs]; [lia| |].
  - pose proof (Forall_lookup_1 _ _ _ _ Hall Hs) as [Hp Hcl].
    eapply wp_mono; [by apply serve_slot_spec|]. intros [_ c'] t' Hpost. by eapply slot_post_ok.
  - unfold serve_slot. cbn. rewrite Hsl. cbn. by rewrite Hs.
Qed.

Lemma clients_loop_ok n idx (c : http_server) t :
  server_ok c -> (idx + n <= c.(config).(max_clients))%nat ->
  wp task_ok (clients_loop idx n c) (fun '(_, c') _ => server_ok c' /\ c'.(config) = c.(config)) t.
Proof.
  revert idx c t. induction n as [|n IH]; intros idx c t Hok Hle; [done|].
  apply clients_loop_S. cbn. eapply wp_seq; [apply serve_slot_ok; [done|lia]|].
  intros [_ c1] t1 [Hok1 Hc1]. eapply wp_mono; [apply IH; [done|rewrite Hc1; lia]|].
  intros [_ c2] t2 [Hok2 Hc2]. split; [done|congruence].
Qed.

Lemma work_ok (c : http_server) t :
  server_ok c ->
  wp task_ok (_uni_net_http_server_work c) (fun '(_, c') _ => server_ok c' /\ c'.(config) = c.(config)) t.
Proof.
  intros Hok. unfold _uni_net_http_server_work. cbn. intros flags _.
  apply (wp_seq _ _ _ _ (fun '(_, c') _ => server_ok c' /\ c'.(config) = c.(config))).
  - case_match; [done|]. cbn. intros sock _. destruct (Z.eqb_spec sock NULL) as [|Hne]; [done|]. cbn.
    case_match; [|done]. pose proof Hok as [_ (slots & Hsl & Hlen & _)].
    eapply wp_mono; [by apply (client_new_spec sock slots)|]. intros [_ c'] t' Hp. by eapply new_client_ok.
  - intros [_ c1] t1 [Hok1 Hc1]. cbn. eapply wp_seq; [apply clients_loop_ok; [done|]; rewrite Hc1; lia|].
    intros [_ c2] t2 [Hok2 Hc2]. cbn. split; [done|congruence].
Qed.

(** ** Start of the task *)

(** How often the network has been looked at. *)
Definition poll_event (e : event) : Z := match e.(ev_call) with FreeRTOS_IsNetworkUp => 1 | _ => 0 end.
Definition polls (t : trace) : Z := tsum poll_event t.

(** The network is up at the [k]-th look at it. *)
Definition up_by (k : Z) : contract := fun t c =>
  match c return resp c -> Prop with
  | FreeRTOS_IsNetworkUp => fun r => k <= polls t -> r <> pdFALSE
  | _ => fun _ => True
  end.

(** The wait for the network may run out of fuel, or there is enough of it. *)
Definition may_wait (E : stop -> Prop) (ok : contract) (fuel : nat) (t : trace) : Prop :=
  E OutOfFuel
  \/ exists k, (forall t c r, ok t c r -> up_by k t c r) /\ (0 < fuel)%nat /\ k < Z.of_nat fuel + polls t.

Lemma wait_network_spec {S} E (ok : contract) fuel ms (s : S) Q t :
  may_wait E ok fuel t -> (forall t', Q (tt, s) t') -> wp_gen E ok (wait_network fuel ms s) Q t.
Proof.
  intros Hw HQ. revert t Hw. induction fuel as [|fuel IH]; intros t Hw.
  { by destruct Hw as [HE|(k & _ & ? & _)]; [|lia]. }
  cbn. intros up Hup. case_match eqn:Hz; cbn; [|done]. intros [] _. apply IH.
  destruct Hw as [HE|(k & Hk & _ & Hlt)]; [by left|]. right. exists k. split; [done|]. apply Hk in Hup. cbn in Hup.
  apply Z.eqb_eq in Hz. destruct (Z.le_gt_cases k (polls t)); [by apply Hup in Hz|].
  unfold polls in *. autorewrite with trace. cbn. lia.
Qed.

(** The server as the start of the task leaves it. *)
Definition started_server (g : server_config) (set sock : ptr) : http_server :=
  mk_http_server g (mk_server_state false NULL set sock (Some (replicate g.(max_clients) None))
                      (replicate (Z.to_nat ipconfigTCP_MSS) NUL)).

Lemma started_server_ok g set sock : config_ok g -> server_ok (started_server g set sock).
Proof.
  intros Hg. split; [split; [|done]|].
  - unfold hdr_ok, started_server. cbn. rewrite length_replicate. pose proof MSS_min. lia.
  - eexists. split; [done|]. split; [apply length_replicate|]. by apply Forall_replicate.
Qed.

(** The calls of the start, once the network is up. *)
Definition start_calls (g : server_config) (mem set sock r1 r2 r3 r4 r5 : Z) : trace :=
  [Ev (pvPortCalloc (Z.of_nat g.(max_clients)) size_of_ptr) mem;
   Ev FreeRTOS_CreateSocketSet set;
   Ev (FreeRTOS_socket FREERTOS_AF_INET FREERTOS_SOCK_STREAM FREERTOS_IPPROTO_TCP) sock;
   Ev (FreeRTOS_bind sock (mk_sockaddr FREERTOS_AF_INET (80 * 256) 0)) r1;
   Ev (FreeRTOS_listen sock (Z.of_nat g.(max_clients))) r2;
   Ev (FreeRTOS_setsockopt sock (FREERTOS_SO_RCVTIMEO 0)) r3;
   Ev (FreeRTOS_setsockopt sock (FREERTOS_SO_SNDTIMEO 0)) r4;
   Ev (FreeRTOS_setsockopt sock (FREERTOS_SO_WIN_PROPERTIES
         (mk_WinProperties UNI_NET_HTTP_SERVER_TX_BUF 2 UNI_NET_HTTP_SERVER_RX_BUF 2))) r5;
   Ev (FreeRTOS_FD_SET sock set (Z.lor eSELECT_READ eSELECT_EXCEPT)) tt].

Lemma init_spec E (ok : contract) fuel (c : http_server) t :
  (forall t c r, ok t c r -> task_ok t c r) -> may_wait E ok fuel t ->
  wp_gen E ok (_uni_net_http_server_init fuel c)
    (fun '(r, c') t' => r = true /\ exists mem set sock r1 r2 r3 r4 r5 t1,
       c' = started_server c.(config) set sock
       /\ t' = t1 ++ start_calls c.(config) mem set sock r1 r2 r3 r4 r5) t.
Proof.
  intros Hok Hw. unfold _uni_net_http_server_init. cbn. apply wp_bind, wait_network_spec; [exact Hw|]. intros t1. cbn.
  intros mem [_ Hmem]%Hok set _ sock _ r1 _ r2 _ r3 _ r4 _ r5 _ [] _. cbn in Hmem.
  rewrite (proj2 (Z.eqb_neq _ _)) by exact Hmem.
  split; [done|]. exists mem, set, sock, r1, r2, r3, r4, r5, t1. split; [done|].
  unfold start_calls. by rewrite <- !app_assoc.
Qed.

Lemma http_turns_ok n (c : http_server) t :
  server_ok c ->
  wp task_ok (http_turns n c) (fun '(_, c') _ => server_ok c' /\ c'.(config) = c.(config)) t.
Proof.
  revert c t. induction n as [|n IH]; intros c t Hok; cbn; [done|].
  eapply wp_seq; [by apply work_ok|]. intros [_ c1] t1 [Hok1 Hc1].
  eapply wp_mono; [by apply IH|]. intros [_ c2] t2 [Hok2 Hc2]. split; [done|congruence].
Qed.

Lemma thread_spec E (ok : contract) fuel n (c : http_server) t :
  (forall t c r, ok t c r -> task_ok t c r) -> may_wait E ok fuel t -> config_ok c.(config) ->
  wp_gen E ok (_uni_net_http_thread fuel n c)
    (fun '(_, c') t' => server_ok c' /\ c'.(config) = c.(config)
       /\ exists mem set sock r1 r2 r3 r4 r5 t1 t2,
            t' = t1 ++ start_calls c.(config) mem set sock r1 r2 r3 r4 r5 ++ t2) t.
Proof.
  intros Hok Hw Hg. unfold _uni_net_http_thread. cbn. eapply wp_seq; [by apply init_spec|].
  intros [_ c1] t1 (_ & mem & set & sock & r1 & r2 & r3 & r4 & r5 & t0 & -> & ->).
  eapply wp_mono; [eapply wp_weaken; [apply (wp_grows), http_turns_ok, started_server_ok, Hg|done|exact Hok]|].
  intros [_ c'] t' [[? ?] [t2 ->]]. split_and!; [done|done|].
  exists mem, set, sock, r1, r2, r3, r4, r5, t0, t2. by rewrite <- app_assoc.
Qed.


(** C20: The server comes up: when the network is there after at most [k] looks, the
    wait ends, the socket of port 80 is bound, listens with room for the clients
    and is selected, and every number of turns after that is completed. *)
Theorem http_server_comes_up k fuel n (c : http_server) t :
  config_ok c.(config) -> 0 <= k < Z.of_nat fuel ->
  wp (fun t c r => task_ok t c r /\ up_by k t c r) (_uni_net_http_thread fuel n c)
    (fun '(_, c') t' => server_ok c'
       /\ exists mem set sock r1 r2 r3 r4 r5 t1 t2,
            t' = t1 ++ start_calls c.(config) mem set sock r1 r2 r3 r4 r5 ++ t2) t.
Proof.
  intros Hg Hk. eapply wp_mono; [apply thread_spec; [by intros ??? []| |done]|].
  - right. exists k. split; [by intros ??? []|]. split; [lia|]. enough (0 <= polls t) by lia.
    apply tsum_nonneg. intros e. unfold poll_event. by case_match.
  - by intros [_ c'] t' (? & _ & ?).
Qed.

End Task.
