(* ===== verification/HttpSession.v ===== *)
(** * A whole session

    From the first byte of a request to the last byte of the answer: the segments
    of a GET request arrive, the server task turns, and the file goes out.  The
    theorem puts the parser, the dispatcher and the sender together. *)

From S2P Require Import Prelude Env Prog Trace CString HttpCommon HttpServer HttpHeader HttpInv HttpGet HttpPost HttpParse HttpWork HttpRequests.

#[local] Arguments find_command : simpl never.

Section Session.
Context `{PlatformOk} `{UniCommonSpec}.

(** The peer sends the segments [ds] after the trace [t0] and then nothing, stays
    connected, and takes what is sent to it. *)
Definition peer (sock : ptr) (ds : list bytes) (t0 : trace) : contract := fun t c r =>
  draining sock t c r
  /\ match c return resp c -> Prop with
     | FreeRTOS_issocketconnected s => fun r => s = sock -> r = pdTRUE
     | FreeRTOS_recv s n => fun r => s = sock ->
         match ds !! (recvs sock t - recvs sock t0)%nat with
         | Some d => len d <= n -> r = (len d, d)
         | None => r.1 <= 0
         end
     | _ => fun _ => True
     end r.

Lemma peer_tcp sock ds t0 : stronger (peer sock ds t0) tcp_ok.
Proof. by intros t c r [[? _] _]. Qed.

Lemma peer_draining sock ds t0 : stronger (peer sock ds t0) (draining sock).
Proof. by intros t c r [? _]. Qed.

Lemma peer_segments sock ds t0 : stronger (peer sock ds t0) (segments sock ds t0).
Proof.
  intros t c r [[Ht _] Hp]. split; [done|]. destruct c; try done. intros Hs d Hd Hn.
  specialize (Hp Hs). rewrite Hd in Hp. by apply Hp.
Qed.

Lemma segments_app sock ds ds' t0 : stronger (segments sock (ds ++ ds') t0) (segments sock ds t0).
Proof.
  intros t c r [Ht Hp]. split; [done|]. destruct c; try done. intros Hs d Hd Hn.
  apply Hp; [done| |done]. by apply lookup_app_l_Some.
Qed.

(** ** Turns *)

Lemma client_turns_add E ok n m result (s : hstate) Q t :
  0 <= result ->
  wp_gen E ok (client_turns n result s)
    (fun '(r, s1) t1 => if r <? 0 then Q (r, s1) t1 else wp_gen E ok (client_turns m r s1) Q t1) t ->
  wp_gen E ok (client_turns (n + m) result s) Q t.
Proof.
  revert result s t. induction n as [|n IH]; intros result s t Hr Hw; cbn in Hw |- *.
  - by rewrite (proj2 (Z.ltb_ge _ _)) in Hw by done.
  - apply wp_bind. apply wp_bind_inv in Hw. eapply wp_mono; [exact Hw|]. intros [r s1] t1.
    destruct (Z.ltb_spec r 0); cbn beta iota.
    + cbn. by rewrite (proj2 (Z.ltb_lt _ _)).
    + by apply IH.
Qed.

(** The blank line is not found before it has come. *)
Lemma hdr_end_before (buf1 buf2 : bytes) m n e :
  find_hdr_end buf2 n = Some (Some e) -> take m buf1 = take m buf2 -> (m < e)%nat ->
  find_hdr_end buf1 m = Some None.
Proof.
  intros He Htake Hm. unfold find_hdr_end in He.
  destruct (scan (hdr_end_at buf2) 0 (n - 3)) as [[i|]|] eqn:Hs; [|done|done]. simplify_eq.
  apply scan_hit in Hs as (Hi & _ & Hbefore).
  eapply (find_hdr_end_prefix buf1 buf2 m m); [done|done|]. unfold find_hdr_end.
  assert (Hs : scan (hdr_end_at buf2) 0 (m - 3) = Some None); [|by rewrite Hs].
  rewrite scan_miss. intros k Hk. apply Hbefore. lia.
Qed.

(** ** The answer *)

Lemma recvs_app sock t t1 : (recvs sock t <= recvs sock (t ++ t1))%nat.
Proof. unfold recvs. rewrite sum_list_with_app. lia. Qed.

(** A transfer at offset [off] after [t], all segments being received. *)
Definition answer_at (ds : list bytes) (f : http_file) (h : bytes) (s : hstate) (t0 t : trace) (off : Z) (s' : hstate) : Prop :=
  let sock := s.(client).(socket) in
  transfer_at f h s t0 t off s' /\ (off < f.(file_size) -> waiting sock t = true)
  /\ (recvs sock t0 + length ds <= recvs sock t)%nat.

Lemma transfer_at_snoc f h s t0 t off s' e :
  sent_event s.(client).(socket) e = [] ->
  transfer_at f h s t0 t off s' -> transfer_at f h s t0 (t ++ [e]) off s'.
Proof. intros He (? & Hs & ?). split; [done|]. split; [|done]. by rewrite sent_on_snoc, He, app_nil_r. Qed.

Lemma answer_turn ds f h (s s1 : hstate) t0 t off :
  let sock := s.(client).(socket) in
  file_ok f -> s.(client).(command_type) = UNI_NET_HTTP_COMMAND_GET ->
  answer_at ds f h s t0 t off s1 ->
  wp (peer sock ds t0) (_uni_net_http_server_client_work s1)
    (fun '(r, s2) t2 => (r < 0 -> refused s t t2) /\ (0 <= r -> exists off',
       answer_at ds f h s t0 t2 off' s2 /\ (off' = f.(file_size) \/ off + 1 <= off'))) t.
Proof.
  cbn zeta. intros Hfok Hcmd (Hat & Hw & Hrecv). pose proof Hat as (Hoff & Hs & Hh & Hsock & Hb & Hcl).
  case_decide as Hd.
  - pose proof (cleared_inv _ Hb) as [_ [Hi|[(? & _)|(? & _)]]]; [rewrite <- Hcl in Hi|done|done].
    apply wp_client_idle; [apply peer_tcp|done|done|]. rewrite Hsock. cbn zeta.
    intros cn [_ Hcn]. rewrite (Hcn eq_refl). cbn [Z.eqb pdTRUE]. intros r d [_ Hr]. specialize (Hr eq_refl).
    rewrite recvs_snoc in Hr. cbn in Hr. rewrite lookup_ge_None_2 in Hr by lia. cbn in Hr.
    split; [|lia]. intros _. split; [lia|]. intros _. exists off. split; [|by left]. split_and!; [|lia|].
    + by do 2 (apply transfer_at_snoc; [done|]).
    + rewrite !recvs_snoc. lia.
  - destruct Hcl as (_ & _ & _ & Hct & _).
    apply wp_client_busy; [by rewrite Hct, Hcmd|]. rewrite Hsock. intros cn [_ Hcn]. rewrite (Hcn eq_refl). cbn.
    rewrite process_next_get by by rewrite Hct.
    eapply wp_mono; [eapply wp_grows, (wp_weaken (fun _ => False) (draining s.(client).(socket))); [|done|apply peer_draining]|].
    { apply (next_call_spec f h s t0 off s1); [done|by apply transfer_at_snoc|].
      intros Hlt. unfold waiting. rewrite foldl_snoc. by apply Hw. }
    intros [r s2] t2 [[Href Hpost] [t3 ->]]. split; [intros Hn; by eapply refused_later, Href|]. intros Hr.
    destruct (Hpost Hr) as (off' & Hat' & Hw' & Hp).
    exists off'. split; [split_and!|]; [done|done| |done].
    pose proof (recvs_app s.(client).(socket) t [Ev (FreeRTOS_issocketconnected s.(client).(socket)) pdTRUE]).
    match goal with |- context [recvs ?so (?a ++ t3)] => pose proof (recvs_app so a t3) end. lia.
Qed.

Lemma answer_turns ds f h (s s1 : hstate) t0 t off n result :
  let sock := s.(client).(socket) in
  0 <= result -> file_ok f -> s.(client).(command_type) = UNI_NET_HTTP_COMMAND_GET ->
  answer_at ds f h s t0 t off s1 ->
  wp (peer sock ds t0) (client_turns n result s1)
    (fun '(r, s2) t2 => (r < 0 -> refused s t t2) /\ (0 <= r -> exists off',
       answer_at ds f h s t0 t2 off' s2 /\ (off' = f.(file_size) \/ off + Z.of_nat n <= off'))) t.
Proof.
  cbn zeta. intros Hres Hfok Hcmd. revert result Hres off s1 t.
  induction n as [|n IH]; intros result Hres off s1 t Hat; cbn.
  { split; [lia|]. intros _. exists off. split; [done|lia]. }
  eapply wp_seq; [by apply wp_grows; eapply answer_turn|]. intros [r s2] t2 [[Href Hr] [t3 ->]]. cbn beta iota.
  destruct (Z.ltb_spec r 0); [cbn; split; [auto|lia]|].
  destruct (Hr ltac:(lia)) as (off' & Hat' & Hprog).
  eapply wp_mono; [by apply (IH r ltac:(lia) off')|]. intros [r' s3] t4 [Href' Hr'].
  split; [intros Hn; by eapply refused_later, Href'|]. intros Hpos.
  destruct (Hr' Hpos) as (off'' & Hat'' & Hp''). exists off''. split; [done|].
  destruct Hat'' as [[? _] _]. lia.
Qed.

(** A transfer that has reached the end of the file. *)
Lemma answer_done ds f h (s s' : hstate) t0 t off :
  let sock := s.(client).(socket) in
  answer_at ds f h s t0 t off s' -> f.(file_size) <= off ->
  sent_on sock t = sent_on sock t0 ++ h ++ take (Z.to_nat f.(file_size)) f.(file_data)
  /\ idle_client s'.(client) /\ s'.(client).(rx_len) = 0 /\ buffers_ok s'.(client) /\ s'.(client).(socket) = sock.
Proof.
  cbn zeta. intros ((Hoff & Hs & _ & Hsock & Hb & Hcl) & _) Hend.
  assert (off = f.(file_size)) as -> by lia. rewrite decide_True in Hcl by done.
  rewrite Hs. unfold file_part. rewrite Z.sub_0_r. cbn [Z.to_nat]. rewrite drop_0.
  split_and!; [done| |by rewrite Hcl|done|done].
  rewrite Hcl. pose proof (cleared_inv _ Hb) as [_ [?|[(? & _)|(? & _)]]]; done.
Qed.

(** ** The request *)

(** What a client without a request has received. *)
Lemma received_input d (s s1 : hstate) :
  s.(client).(rx_len) = 0 -> received_more d s s1 -> input s1.(client) = d.
Proof.
  intros H0' (buf & Hw & ->). unfold input. cbn. rewrite H0' in *. cbn in Hw. rewrite Z.add_0_l, Nat2Z.id.
  pose proof (take_write_at _ _ _ _ Hw) as Ht. by rewrite take_0 in Ht.
Qed.

(** The file goes out after the header of the request is complete. *)
Lemma file_started (s s1 : hstate) url ls extra f t0 t :
  let sock := s.(client).(socket) in
  let ok := draining sock in
  server_inv s1.(ctx) -> receiving s1.(client) -> s1.(client).(socket) = sock -> s.(client).(rx_len) = 0 ->
  written_request s1.(client) 3 (B "GET") UNI_NET_HTTP_COMMAND_GET url ls extra ->
  handler_for s1.(ctx) UNI_NET_HTTP_COMMAND_GET url = Some None -> file_for s1.(ctx) url = Some (Some f) ->
  sent_on sock t = sent_on sock t0 ->
  wp ok (client_request (length (render_request (B "GET") url ls)) s1)
    (fun '(r, s2) t2 => (r < 0 -> refused s t t2) /\ (0 <= r -> exists off,
       transfer_at f (file_header (Some url) f) (with_command UNI_NET_HTTP_COMMAND_GET s) t0 t2 off s2
       /\ (off < f.(file_size) -> waiting sock t2 = true))) t.
Proof.
  cbn zeta. intros Hi Hr Hsock Hrx Hw Hnh Hf Hsent.
  destruct (dispatch_spec s1 3 (B "GET") UNI_NET_HTTP_COMMAND_GET url ls extra Hr Hw ltac:(done)) as (e & _ & -> & Hu & _).
  set (s2 := request_state s1 e _ _) in *.
  assert (Hrc : request_client s2.(client) (3 + 1) url).
  { by apply request_state_client; [done| |apply lines_length_range; cbn; lia]. }
  unfold _uni_net_http_server_cmd_process_start. cbn [cmd_map_find].
  eapply wp_seq.
  { apply (get_start_spec (draining s.(client).(socket)) s2 (3 + 1) url); [by intros ??? []|done|done]. }
  intros [r s3] t3 Hp. unfold get_post in Hp. change (ctx s2) with (ctx s1) in Hp. rewrite Hnh, Hf in Hp.
  destruct Hp as [[(h & off & k & Hk & Hle & Hs3 & Hx & Hkr & _ & Hh3 & _ & (Htr1 & Htr2 & Htr3) & Hw3) Href] _].
  cbn in Hk, Hs3, Hx, Hkr, Htr1, Htr3, Hw3. destruct Hrc as (_ & _ & _ & Hoff & Hsnt & _). cbn in Hoff, Hsnt.
  unfold header_part in Hx. cbn in Hx. rewrite Hsnt in Hx. destruct Hx as (hr & [_ Hhr] & -> & Hneg).
  unfold refused in *. cbn in Href. rewrite Hsock, Hoff in *. split; [exact Href|]. intros Hpos. destruct (Hkr Hpos) as [-> _].
  destruct (Hhr eq_refl) as [->|]; [|lia]. rewrite Nat2Z.id, firstn_all, Hsent in Hs3.
  exists off. split; [|done]. split; [lia|]. split; [done|]. split; [done|].
  split; [done|]. split; [by destruct Htr2 as (? & ? & ?)|]. case_decide; [by cbn; rewrite Htr3|].
  destruct Htr3 as (? & ? & ? & ? & _). done.
Qed.

(** The segments of a request: it is complete with the last one. *)
Record cut_request (name url : bytes) (ls : list bytes) (extra : bytes) (ds : list bytes) (d : bytes) : Prop := {
  cr_url : url_ok url;
  cr_lines : Forall header_line_ok ls;
  cr_nonempty : Forall (fun d => d <> []) (ds ++ [d]);
  cr_bytes : concat ds ++ d = render_request name url ls ++ extra;
  cr_last : (length (concat ds) < length (render_request name url ls))%nat;
  cr_fits : len (concat ds ++ d) < UNI_NET_HTTP_SERVER_RX_BUF;
}.

(** Data that fits the receive buffer can be received. *)
Lemma received_exists d (s : hstate) :
  buffers_ok s.(client) -> idle_client s.(client) -> s.(client).(rx_len) + len d < UNI_NET_HTTP_SERVER_RX_BUF ->
  exists s1, received_more d s s1 /\ s1.(client).(rx_len) = s.(client).(rx_len) + len d.
Proof.
  intros (Hrx & _) (_ & _ & _ & _ & _ & _ & _ & Hl) Hd.
  destruct (write_at_Some s.(client).(buf_rx) (Z.to_nat s.(client).(rx_len)) d) as (buf & Hw & _); [lia|].
  eexists. split; [by exists buf|done].
Qed.

Lemma received_nothing (s : hstate) : buffers_ok s.(client) -> s.(client).(rx_len) = 0 -> received_more [] s s.
Proof.
  intros (Hbl & _) Hrx. exists s.(client).(buf_rx). rewrite write_at_nil by lia. split; [done|].
  destruct s as [? []]. cbn. by rewrite Z.add_0_r.
Qed.

Lemma method_GET : (3%nat, B "GET", UNI_NET_HTTP_COMMAND_GET) ∈ methods.
Proof. by left. Qed.

Lemma received_received d (s s1 : hstate) :
  received_more d s s1 -> s1.(ctx) = s.(ctx) /\ s1.(client).(socket) = s.(client).(socket).
Proof. by intros (buf & _ & ->). Qed.

(** The part before the last segment has no blank line. *)
Lemma cut_prefix_none l name ty url ls extra ds d (s s1 s2 : hstate) :
  (l, name, ty) ∈ methods -> (ty = UNI_NET_HTTP_COMMAND_POST -> (lines_length ls (0, false)).2 = true) ->
  cut_request name url ls extra ds d -> buffers_ok s.(client) -> idle_client s.(client) -> s.(client).(rx_len) = 0 ->
  received_more (concat ds) s s1 -> received_more (concat ds ++ d) s s2 ->
  find_hdr_end s1.(client).(buf_rx) (Z.to_nat s1.(client).(rx_len)) = Some None
  /\ written_request s2.(client) l name ty url ls extra.
Proof.
  intros Hm Hpost [Hu Hls Hne Hbytes Hlast Hfit] Hb Hi Hrx H1' H2'.
  pose proof (received_input _ _ _ Hrx H1') as Hin1. pose proof (received_input _ _ _ Hrx H2') as Hin2.
  assert (Hw : written_request s2.(client) l name ty url ls extra) by (split; [done|done|done|by rewrite Hin2]).
  split; [|done]. pose proof (received_more_receiving _ _ _ Hb Hi H2') as Hr2.
  destruct (dispatch_spec s2 l _ _ url ls extra Hr2 Hw Hpost) as (e & Hhe & _).
  assert (Hl1 : s1.(client).(rx_len) = len (concat ds)).
  { destruct H1' as (b1 & _ & ->). cbn. by rewrite Hrx. }
  eapply hdr_end_before; [exact Hhe| |rewrite Hl1; lia].
  unfold input in Hin1, Hin2. rewrite Hin1.
  assert (Hl2 : s2.(client).(rx_len) = len (concat ds ++ d)).
  { destruct H2' as (b2 & _ & ->). cbn. by rewrite Hrx. }
  apply (f_equal (take (Z.to_nat s1.(client).(rx_len)))) in Hin2.
  rewrite take_take, Nat.min_l in Hin2 by (rewrite Hl1, Hl2, length_app; lia).
  rewrite Hin2, Hl1, Nat2Z.id. by rewrite take_app_length.
Qed.

Lemma segment_calls_app sock rx ds ds' :
  segment_calls sock rx (ds ++ ds') = segment_calls sock rx ds ++ segment_calls sock (rx + len (concat ds)) ds'.
Proof.
  revert rx. induction ds as [|d ds IH]; intros rx; cbn; [by rewrite Z.add_0_r|].
  rewrite IH, length_app. do 3 f_equal. f_equal. lia.
Qed.

(** The last segment of a request: it is dispatched as a whole. *)
Lemma wp_last_segment ok l name ty url ls extra ds d (s s1 : hstate) t ti Q :
  let sock := s.(client).(socket) in
  stronger ok (segments sock (ds ++ [d]) t) ->
  (l, name, ty) ∈ methods -> (ty = UNI_NET_HTTP_COMMAND_POST -> (lines_length ls (0, false)).2 = true) ->
  cut_request name url ls extra ds d -> buffers_ok s.(client) -> idle_client s.(client) -> s.(client).(rx_len) = 0 ->
  received_more (concat ds) s s1 -> recvs sock ti = (recvs sock t + length ds)%nat ->
  (forall s2, s2.(ctx) = s.(ctx) -> s2.(client).(socket) = sock -> receiving s2.(client) ->
     written_request s2.(client) l name ty url ls extra ->
     wp ok (client_request (length (render_request name url ls)) s2) Q (ti ++ segment_calls sock (len (concat ds)) [d])) ->
  wp ok (_uni_net_http_server_client_work s1) Q ti.
Proof.
  cbn zeta. intros Hok Hm Hpost Hcut Hb Hi Hrx H1' Hrecv HQ. pose proof (cr_fits _ _ _ _ _ _ Hcut) as Hfit.
  destruct (received_exists (concat ds ++ d) s Hb Hi ltac:(lia)) as (s2 & Hall & Hl2).
  destruct (cut_prefix_none _ _ _ _ _ _ _ _ _ _ _ Hm Hpost Hcut Hb Hi Hrx H1' Hall) as [_ Hw].
  pose proof (cr_nonempty _ _ _ _ _ _ Hcut) as Hned. apply Forall_app in Hned as [_ Hned]. apply Forall_inv in Hned.
  destruct (received_part_idle _ _ _ _ _ Hb Hi H1' Hall ltac:(lia)) as (Hb1 & Hi1 & Hsock & Hrest).
  apply wp_client_idle; [by intros ? ? ? [? _]%Hok|done|done|]. rewrite Hsock. cbn zeta.
  intros cn Hcn. rewrite (proj2 (Hok _ _ _ Hcn) eq_refl). cbn [Z.eqb pdTRUE]. intros r1 dd Hr1.
  pose proof (proj2 (Hok _ _ _ Hr1) eq_refl d) as Hdd. rewrite recvs_snoc, Hrecv in Hdd. cbn in Hdd.
  rewrite Nat.add_0_r, Nat.add_comm, Nat.add_sub, list_lookup_middle in Hdd by done.
  specialize (Hdd eq_refl ltac:(lia)). injection Hdd as -> ->.
  split; [destruct d; [done|cbn; lia]|]. intros s3 he _ _ H2' Hhe.
  assert (Hacc : received_more (concat ds ++ d) s s3) by (eapply received_more_app; [lia|done|done]).
  pose proof (received_more_fun _ _ _ _ Hall Hacc) as <-.
  pose proof (received_more_receiving _ _ _ Hb Hi Hacc) as Hr2.
  destruct (received_received _ _ _ Hacc) as [Hc2 Hs2].
  destruct (dispatch_spec s2 l _ _ url ls extra Hr2 Hw Hpost) as (e & Hhe' & _).
  rewrite Hhe' in Hhe. injection Hhe as <-. cbn [after_recv].
  specialize (HQ s2 Hc2 Hs2 Hr2 Hw). cbn [segment_calls] in HQ. rewrite length_app in *.
  replace s1.(client).(rx_len) with (len (concat ds)) by lia. by rewrite <- app_assoc.
Qed.

(** A request arrives: however it is cut, after as many turns as there are segments
    it is dispatched as a whole, and nothing else has happened. *)
Lemma wp_request_arrives ok l name ty url ls extra ds d (s : hstate) t Q :
  let sock := s.(client).(socket) in
  stronger ok (segments sock (ds ++ [d]) t) ->
  (l, name, ty) ∈ methods -> (ty = UNI_NET_HTTP_COMMAND_POST -> (lines_length ls (0, false)).2 = true) ->
  cut_request name url ls extra ds d -> buffers_ok s.(client) -> idle_client s.(client) -> s.(client).(rx_len) = 0 ->
  (forall s2, s2.(ctx) = s.(ctx) -> s2.(client).(socket) = sock -> receiving s2.(client) ->
     written_request s2.(client) l name ty url ls extra ->
     wp ok (client_request (length (render_request name url ls)) s2) Q (t ++ segment_calls sock 0 (ds ++ [d]))) ->
  wp ok (client_turns (S (length ds)) 0 s) Q t.
Proof.
  cbn zeta. intros Hok Hm Hpost Hcut Hb Hi Hrx HQ. pose proof (cr_fits _ _ _ _ _ _ Hcut) as Hfit.
  destruct (received_exists (concat ds ++ d) s Hb Hi ltac:(lia)) as (s2 & Hall & Hl2).
  destruct (received_exists (concat ds) s Hb Hi) as (s1 & H1' & Hl1); [rewrite length_app in Hfit; lia|].
  destruct (cut_prefix_none _ _ _ _ _ _ _ _ _ _ _ Hm Hpost Hcut Hb Hi Hrx H1' Hall) as [Hnone Hw].
  pose proof (cr_nonempty _ _ _ _ _ _ Hcut) as Hne. apply Forall_app in Hne as [Hne _].
  rewrite <- Nat.add_1_r. apply client_turns_add; [done|]. eapply wp_mono.
  { eapply (wp_weaken (fun _ => False) (segments s.(client).(socket) ds t)); [|done|].
    - eapply (segments_turns ds s s1 t (length ds) 0 0 s t); try done; [rewrite length_app in Hfit; lia|].
      by apply received_nothing.
    - intros t' c r Hp. by eapply segments_app, Hok. }
  intros [r si] ti (Hr & -> & ->). rewrite (proj2 (Z.ltb_ge _ _)) by done. rewrite drop_0, Hrx in *.
  cbn [client_turns bindM]. apply wp_bind.
  eapply (wp_mono _ _ _ Q); [|intros [r2 s4] t4 HQ4; by case_match].
  eapply wp_last_segment; [exact Hok|exact Hm|done|exact Hcut|done|done|done|done|apply segment_calls_recvs|].
  intros s3 Hc3 Hs3 Hr3 Hw3. specialize (HQ s3 Hc3 Hs3 Hr3 Hw3).
  by rewrite segment_calls_app, app_assoc in HQ.
Qed.

(** ** GET *)

(** A request that is complete is answered with the file. *)
Lemma file_answered (s s2 : hstate) url ls extra f ds t ti :
  let sock := s.(client).(socket) in
  server_inv s2.(ctx) -> receiving s2.(client) -> s2.(client).(socket) = sock -> s.(client).(rx_len) = 0 ->
  written_request s2.(client) 3 (B "GET") UNI_NET_HTTP_COMMAND_GET url ls extra ->
  handler_for s2.(ctx) UNI_NET_HTTP_COMMAND_GET url = Some None -> file_for s2.(ctx) url = Some (Some f) ->
  sent_on sock ti = sent_on sock t -> recvs sock ti = (recvs sock t + length ds)%nat ->
  wp (peer sock ds t) (client_request (length (render_request (B "GET") url ls)) s2)
    (fun '(r, s3) t3 => (r < 0 -> refused s ti t3) /\ (0 <= r -> exists off,
       answer_at ds f (file_header (Some url) f) (with_command UNI_NET_HTTP_COMMAND_GET s) t t3 off s3)) ti.
Proof.
  cbn zeta. intros Hinv Hr Hsock Hrx Hw Hnh Hf Hsent Hrecv. eapply wp_mono.
  { apply wp_grows. eapply (wp_weaken (fun _ => False) (draining s.(client).(socket))); [|done|apply peer_draining].
    by apply (file_started s s2 url ls extra f t). }
  intros [r s3] t3 [[Href Hp] [t4 ->]]. split; [exact Href|]. intros Hpos.
  destruct (Hp Hpos) as (off & Hat & Hwt). exists off.
  split; [exact Hat|]. split; [done|].
  change (recvs s.(client).(socket) t + length ds <= recvs s.(client).(socket) (ti ++ t4))%nat.
  rewrite <- Hrecv. apply recvs_app.
Qed.

(** A whole GET session.  A request for a registered file arrives in any number of
    segments, cut anywhere; the server task turns once for each of them and then
    as often as the file has bytes, or more.  Unless the stack refuses data, exactly the
    header and the contents of the file have gone out on the socket, each byte once
    and in order, what followed the request in its last segment is dropped, and
    the client is idle again, ready for the next request. *)
Theorem get_session url ls extra ds d f (s : hstate) t n :
  let sock := s.(client).(socket) in
  cut_request (B "GET") url ls extra ds d -> server_inv s.(ctx) -> buffers_ok s.(client) ->
  idle_client s.(client) -> s.(client).(rx_len) = 0 ->
  handler_for s.(ctx) UNI_NET_HTTP_COMMAND_GET url = Some None -> file_for s.(ctx) url = Some (Some f) ->
  f.(file_size) <= Z.of_nat n ->
  wp (peer sock (ds ++ [d]) t) (client_turns (S (length ds) + n) 0 s)
    (fun '(r, s') t' => (r < 0 -> (refusals sock t < refusals sock t')%nat) /\ (0 <= r ->
       sent_on sock t' = sent_on sock t ++ file_header (Some url) f ++ take (Z.to_nat f.(file_size)) f.(file_data)
       /\ idle_client s'.(client) /\ s'.(client).(rx_len) = 0 /\ buffers_ok s'.(client)
       /\ s'.(client).(socket) = sock)) t.
Proof.
  cbn zeta. intros Hcut Hinv Hb Hi Hrx Hnh Hf Hn.
  pose proof (file_for_ok _ _ _ (proj2 Hinv) Hf) as Hfok.
  apply client_turns_add; [done|].
  eapply wp_request_arrives; [apply peer_segments|apply method_GET|done|done|done|done|done|].
  intros s2 Hc2 Hs2 Hr2 Hw. eapply wp_mono.
  { eapply wp_grows, (file_answered s s2); rewrite ?Hc2; try done; [apply segment_calls_sent|apply segment_calls_recvs]. }
  intros [r s3] t3 [[Href Hp] [t4 ->]].
  destruct (Z.ltb_spec r 0); [split; [intros _; by eapply refused_later, Href|lia]|].
  destruct (Hp ltac:(lia)) as (off & Hat).
  eapply wp_mono; [by eapply (answer_turns _ f _ (with_command UNI_NET_HTTP_COMMAND_GET s))|].
  intros [r2 s4] t5 [Href4 Hp4]. split.
  { intros Hneg. rewrite <- app_assoc in Href4. exact (refused_later _ _ _ _ (Href4 Hneg)). }
  intros Hpos. destruct (Hp4 Hpos) as (off' & Hat' & Hend). destruct Hat as ((Hoff0 & _) & _).
  exact (answer_done _ _ _ _ _ _ _ _ Hat' ltac:(lia)).
Qed.

(** ** POST *)

(** The peer sends the segments [ds] first and more afterwards. *)
Definition poster (sock : ptr) (ds : list bytes) (t0 : trace) : contract := fun t c r =>
  generous sock t c r /\ segments sock ds t0 t c r.

(** The turns in which the request arrives and [n] turns for its body. *)
Definition post_turns (k n : nat) : M hstate Z :=
  bindM (client_turns k 0) (fun r => if r <? 0 then ret r else request_turns n r).

Lemma method_POST : (4%nat, B "POST", UNI_NET_HTTP_COMMAND_POST) ∈ methods.
Proof. by right; right; left. Qed.

(** The request that arrives with the first bytes of its body is ready to be
    started. *)
Lemma post_dispatched (s2 : hstate) url ls extra h :
  server_inv s2.(ctx) -> receiving s2.(client) ->
  written_request s2.(client) 4 (B "POST") UNI_NET_HTTP_COMMAND_POST url ls extra ->
  (lines_length ls (0, false)).2 = true -> handler_for s2.(ctx) UNI_NET_HTTP_COMMAND_POST url = Some (Some h) ->
  let he := length (render_request (B "POST") url ls) in
  exists s3, client_request he s2
      = bind (_uni_net_http_server_cmd_post_start (4 + 1) he (len extra) s3)
          (fun '(r, s') => Ret (r, s' <| client ::= fun c => c <| rx_len := 0 |> |>))
    /\ s3.(client).(socket) = s2.(client).(socket)
    /\ s3.(client).(content_length) = (lines_length ls (0, false)).1
    /\ post_ready s3 h (4 + 1) he (len extra)
    /\ early_body s3 he (len extra) = take (Z.to_nat (lines_length ls (0, false)).1) extra.
Proof.
  intros Hinv Hr2 Hw Hcl Hh.
  destruct (dispatch_spec s2 4 _ _ url ls extra Hr2 Hw ltac:(done)) as (e & _ & Heq & Hu & Hbody).
  set (cl := (lines_length ls (0, false)).1) in *. cbn zeta. set (he := length (render_request (B "POST") url ls)) in *.
  assert (Hclr : 0 <= cl < 2 ^ 32) by (apply lines_length_range; cbn; lia).
  exists (request_state s2 e cl UNI_NET_HTTP_COMMAND_POST). split_and!; [done|done|done| |].
  - destruct (request_state_client s2 (4 + 1) e url cl UNI_NET_HTTP_COMMAND_POST Hr2 Hu Hclr) as (Hb & _ & _ & Ho & _ & _ & ? & _).
    destruct (read_at_inv _ _ _ _ Hbody) as [Hle _].
    split_and!; try done; try apply Hinv; try lia.
    + by eapply handler_for_ok; [apply Hinv|].
    + by exists url.
  - destruct (read_at_inv _ _ _ _ Hbody) as [Hle Hext]. unfold early_body. rewrite <- Hext at 2. rewrite take_take. f_equal.
    cbn. rewrite decide_True by done. lia.
Qed.

(** The reset of [rx_len] at the end of a dispatch changes neither outcome. *)
Lemma post_state_rx h sock cl pre t0 t got (s : hstate) :
  post_finished h sock cl pre t0 t got s \/ post_pending h sock cl pre t0 t got s ->
  let s' := s <| client ::= fun c => c <| rx_len := 0 |> |> in
  post_finished h sock cl pre t0 t got s' \/ post_pending h sock cl pre t0 t got s'.
Proof.
  intros [(? & ? & Hcl & ?)|(? & ? & (? & ? & ?) & ?)]; [left|right; split; [done|split; [done|split; [by split_and!|done]]]].
  split_and!; [done|done| |done]. cbn. by rewrite Hcl.
Qed.


End Session.
