(* ===== verification/HttpIsolation.v ===== *)
(** * Clients do not touch each other

    Whatever the stack and the handlers answer, the code that serves one client
    makes socket calls on that client's socket only, and leaves the other slots
    of the table alone.  [private] is the condition, an instance of [maintains]; the
    functions of the server satisfy it one by one. *)

From S2P Require Import Prelude Env Prog Trace CString HttpCommon HttpServer HttpHeader HttpInv HttpGet HttpPost HttpParse HttpWork HttpTask.

(** A call on socket [sock], or of a handler of the application. *)
Definition own_call (sock : ptr) (c : call) : Prop :=
  match c with
  | FreeRTOS_send s _ | FreeRTOS_recv s _ | FreeRTOS_tx_space s | FreeRTOS_issocketconnected s
  | FreeRTOS_closesocket s | FreeRTOS_FD_SET s _ _ | FreeRTOS_FD_CLR s _ _ => s = sock
  | http_handler _ _ _ _ => True
  | _ => False
  end.

(** A function over a client whose calls are its own and which keeps its socket. *)
Abbreviation private sock := (maintains (fun s : hstate => (s.(client).(socket) = sock)%Z) (own_call sock)).

(** Follow the structure of a function. *)
Ltac privately :=
  unfold upd_client;
  repeat maintain_step ltac:(first [done | cbn; congruence | cbn; case_match; done]).

Section Functions.
Context `{Platform} `{UniCommon} (sock : ptr).

Lemma private_hdr_printf fs idx : private sock (hdr_printf fs idx).
Proof. unfold hdr_printf. privately. Qed.
#[local] Hint Resolve private_hdr_printf : maintains.

Lemma private_send_header status : private sock (_uni_net_http_server_send_header status).
Proof. unfold _uni_net_http_server_send_header, header_text. privately. Qed.

Lemma private_clear : private sock _uni_net_http_server_client_clear.
Proof. unfold _uni_net_http_server_client_clear. privately. Qed.

Lemma private_fd_set bits : private sock (fd_set bits).
Proof. unfold fd_set. privately. Qed.
Lemma private_fd_clr bits : private sock (fd_clr bits).
Proof. unfold fd_clr. privately. Qed.
Lemma private_url_string url : private sock (url_string url).
Proof. unfold url_string. privately. Qed.
#[local] Hint Resolve private_send_header private_clear private_fd_set private_fd_clr private_url_string : maintains.

Lemma private_sendfile_loop fuel result : private sock (sendfile_loop fuel result).
Proof.
  revert result. induction fuel as [|fuel IH]; intros result; unfold sendfile_loop; fold sendfile_loop; privately; apply IH.
Qed.
#[local] Hint Resolve private_sendfile_loop : maintains.

Lemma private_sendfile url : private sock (_uni_net_http_server_cmd_get_sendfile url).
Proof. unfold _uni_net_http_server_cmd_get_sendfile. privately. Qed.

Lemma private_handler_call h size buf_in : private sock (handler_call h size buf_in).
Proof. unfold handler_call. privately. Qed.
Lemma private_send_buf_tx : private sock send_buf_tx.
Proof. unfold send_buf_tx. privately. Qed.
Lemma private_set_response_length result : private sock (set_response_length result).
Proof. unfold set_response_length. privately. Qed.
#[local] Hint Resolve private_sendfile private_handler_call private_send_buf_tx private_set_response_length : maintains.

Lemma private_sendresponse url : private sock (_uni_net_http_server_cmd_get_sendresponse url).
Proof. unfold _uni_net_http_server_cmd_get_sendresponse. privately. Qed.

Lemma private_find_handler cmd url : private sock (find_handler cmd url).
Proof. unfold find_handler. privately. Qed.
Lemma private_find_file url : private sock (find_file url).
Proof. unfold find_file. privately. Qed.
Lemma private_recv_into off n : private sock (recv_into off n).
Proof. unfold recv_into. privately. Qed.
#[local] Hint Resolve private_sendresponse private_find_handler private_find_file private_recv_into : maintains.

Lemma private_get_start url data n : private sock (_uni_net_http_server_cmd_get_start url data n).
Proof. unfold _uni_net_http_server_cmd_get_start. privately. Qed.
Lemma private_get_next : private sock _uni_net_http_server_cmd_get_next.
Proof. unfold _uni_net_http_server_cmd_get_next. privately. Qed.
Lemma private_post_next : private sock _uni_net_http_server_cmd_post_next.
Proof. unfold _uni_net_http_server_cmd_post_next. privately. Qed.
#[local] Hint Resolve private_get_start private_get_next private_post_next : maintains.

Lemma private_post_start url data n : private sock (_uni_net_http_server_cmd_post_start url data n).
Proof. unfold _uni_net_http_server_cmd_post_start. privately. Qed.
#[local] Hint Resolve private_post_start : maintains.

(** The two rows of the command table. *)
Lemma private_process_start cmd url data n : private sock (_uni_net_http_server_cmd_process_start cmd url data n).
Proof.
  unfold _uni_net_http_server_cmd_process_start.
  destruct cmd; first [exact (private_get_start _ _ _)|exact (private_post_start _ _ _)|exact (maintains_ret _ _ _)].
Qed.
Lemma private_process_next : private sock _uni_net_http_server_cmd_process_next.
Proof.
  unfold _uni_net_http_server_cmd_process_next. apply maintains_get. intros s _.
  destruct (s.(client).(command_type)); first [exact private_get_next|exact private_post_next|exact (maintains_ret _ _ _)].
Qed.
Lemma private_bad_request : private sock bad_request.
Proof. unfold bad_request. privately. Qed.
#[local] Hint Resolve private_process_start private_process_next private_bad_request : maintains.

Lemma private_client_request he : private sock (client_request he).
Proof. unfold client_request. privately. Qed.
#[local] Hint Resolve private_client_request : maintains.

Lemma private_client_work : private sock _uni_net_http_server_client_work.
Proof. unfold _uni_net_http_server_client_work. privately. Qed.

End Functions.

(** ** A slot of the table *)

Section Slot.
Context `{PlatformOk} `{UniCommonSpec}.

(** The calls after [t] are those of the client at [p] with socket [sock]. *)
Definition calls_of (sock p : ptr) (t t' : trace) : Prop :=
  exists t1, t' = t ++ t1 /\ Forall (fun e => own_call sock e.(ev_call) \/ e.(ev_call) = vPortFree p) t1.

Lemma calls_of_snoc sock p t t' e :
  calls_of sock p t t' -> own_call sock e.(ev_call) \/ e.(ev_call) = vPortFree p -> calls_of sock p t (t' ++ [e]).
Proof.
  intros (t1 & -> & Ht1) He. exists (t1 ++ [e]). rewrite app_assoc. split; [done|].
  apply Forall_app. split; [done|by constructor].
Qed.

Lemma serve_slot_calls idx p cl slots (c : http_server) t :
  c.(state).(clients) = Some slots -> slots !! idx = Some (Some (p, cl)) ->
  wp_gen (fun _ => True) any_answer (serve_slot idx c) (fun _ t' => calls_of cl.(socket) p t t') t.
Proof.
  intros Hslots Hidx. unfold serve_slot. cbn. rewrite Hslots. cbn. rewrite Hidx. cbn.
  unfold with_client. apply wp_bind, wp_bind.
  eapply wp_mono; [apply (stays_wp (fun x => x.2.(client).(socket) = cl.(socket)) (own_call cl.(socket))),
                     (private_client_work _ (mk_hstate c cl) eq_refl)|].
  intros [r s1] t1 [Hs (t2 & -> & Ht2)]. cbn in Hs |- *.
  assert (Hc : calls_of cl.(socket) p t (t ++ t2)) by (exists t2; split; [done|by eapply Forall_impl; [|left]]).
  case_match; cbn; [|done].
  unfold _uni_net_http_server_client_delete. cbn. case_match; cbn.
  - intros [] _. by apply calls_of_snoc; [|right].
  - intros [] _ cr _ [] _. apply calls_of_snoc; [|by right]. do 2 (apply calls_of_snoc; [|by left]). done.
Qed.

(** On another socket nothing is sent or received. *)
Lemma calls_of_other sock p t t' x :
  calls_of sock p t t' -> x <> sock -> sent_on x t' = sent_on x t /\ received_on x t' = received_on x t.
Proof.
  intros (t1 & -> & Ht1) Hx. induction t1 as [|e t1 IH] using rev_ind; [by rewrite app_nil_r|].
  apply Forall_app in Ht1 as [Ht1 He]. destruct (IH Ht1) as [IH1 IH2].
  rewrite app_assoc, sent_on_snoc, received_on_snoc, IH1, IH2. apply Forall_inv in He. destruct e as [c r].
  destruct He as [He|He]; cbn in He; [|subst c; by rewrite !app_nil_r].
  destruct c; cbn in He |- *; try done; subst; rewrite ?(proj2 (Z.eqb_neq _ _)), ?app_nil_r by done; done.
Qed.

(** Serving a slot, with the calls that are made. *)
Lemma serve_slot_isolated idx p cl slots (c : http_server) t :
  server_inv c -> client_inv cl -> c.(state).(clients) = Some slots -> slots !! idx = Some (Some (p, cl)) ->
  wp task_ok (serve_slot idx c)
    (fun '(_, c') t' => slot_post idx p cl slots c c' t' /\ calls_of cl.(socket) p t t') t.
Proof.
  intros Hi Hcl Hslots Hidx. eapply wp_mono; [eapply wp_and_always; [by apply serve_slot_spec|by eapply serve_slot_calls]|].
  by intros [[] c'] t'.
Qed.

Lemma slot_post_slots idx p cl slots (c c' : http_server) t' :
  slot_post idx p cl slots c c' t' -> (idx < length slots)%nat ->
  c'.(config) = c.(config) /\ exists slots', c'.(state).(clients) = Some slots'
    /\ (forall j, j <> idx -> slots' !! j = slots !! j)
    /\ (slots' !! idx = Some None
        \/ exists cl', slots' !! idx = Some (Some (p, cl')) /\ cl'.(socket) = cl.(socket)).
Proof.
  intros (r & s1 & t1 & (_ & Hsame & _ & Hsock) & Hc) Hlt.
  pose proof (same_server_config _ _ Hsame) as Hcfg. cbn in Hcfg, Hsock.
  destruct Hc as [(_ & -> & _)|(_ & -> & _)]; (split; [done|]); (eexists; split; [done|]); split.
  - intros j Hj. by rewrite list_lookup_insert_ne.
  - right. exists s1.(client). by rewrite list_lookup_insert_eq.
  - intros j Hj. by rewrite list_lookup_insert_ne.
  - left. by rewrite list_lookup_insert_eq.
Qed.

(** C27: Serving one client does not touch the others: every socket call goes to its own
    socket, nothing is sent or received on any other one, the other slots of the
    table and the registered files and handlers stay as they are, and the slot itself
    holds the same client with the same socket or is empty. *)
Theorem http_client_isolated idx p cl slots (c : http_server) t :
  server_inv c -> client_inv cl -> c.(state).(clients) = Some slots -> slots !! idx = Some (Some (p, cl)) ->
  wp task_ok (clients_loop idx 1 c) (fun '(_, c') t' =>
    calls_of cl.(socket) p t t'
    /\ (forall x, x <> cl.(socket) -> sent_on x t' = sent_on x t /\ received_on x t' = received_on x t)
    /\ c'.(config) = c.(config)
    /\ exists slots', c'.(state).(clients) = Some slots'
         /\ (forall j, j <> idx -> slots' !! j = slots !! j)
         /\ (slots' !! idx = Some None
             \/ exists cl', slots' !! idx = Some (Some (p, cl')) /\ cl'.(socket) = cl.(socket))) t.
Proof.
  intros Hi Hcl Hslots Hidx. apply clients_loop_S. cbn [clients_loop bindM]. eapply wp_seq; [by apply serve_slot_isolated|].
  intros [[] c'] t' [Hpost Hcalls]. cbn. split; [done|]. split; [intros x Hx; by eapply calls_of_other|].
  eapply slot_post_slots; [done|]. by eapply lookup_lt_Some.
Qed.

End Slot.
