(* ===== verification/HttpServing.v ===== *)
(** * Every client is served

    The server turns for all its clients, one after the other, and takes new
    connections in between.  This file follows one of them through the turns of the
    whole server: whatever the other clients and their peers do, a client that
    asks for a file gets it, as if it were alone.  [session] is the state of the
    client after [k] turns; it depends on the calls on the client's own socket only
    ([session_foreign]), so that the turns of the others leave it as it is. *)

From S2P Require Import Prelude Env Prog Trace CString HttpCommon HttpServer HttpHeader HttpInv HttpGet HttpPost HttpParse HttpWork HttpTask HttpRequests HttpSession HttpIsolation.

(** ** Calls on other sockets *)

Definition foreign_call (sock : ptr) (c : call) : Prop :=
  match c with
  | FreeRTOS_send s _ | FreeRTOS_recv s _ | FreeRTOS_FD_SET s _ _ => s <> sock
  | _ => True
  end.

Definition foreign (sock : ptr) (t t' : trace) : Prop :=
  exists t1, t' = t ++ t1 /\ Forall (fun e => foreign_call sock e.(ev_call)) t1.

Lemma foreign_refl sock t : foreign sock t t.
Proof. exists []. by rewrite app_nil_r. Qed.

Lemma foreign_snoc sock t t' e : foreign sock t t' -> foreign_call sock e.(ev_call) -> foreign sock t (t' ++ [e]).
Proof.
  intros (t1 & -> & Ht1) He. exists (t1 ++ [e]). rewrite app_assoc. split; [done|].
  apply Forall_app. split; [done|by constructor].
Qed.

(** Such calls change nothing that is recorded of the socket. *)
Lemma foreign_same sock t t' :
  foreign sock t t' ->
  sent_on sock t' = sent_on sock t /\ recvs sock t' = recvs sock t /\ waiting sock t' = waiting sock t
  /\ refusals sock t' = refusals sock t.
Proof.
  intros (t1 & -> & Ht1). induction t1 as [|e t1 IH] using rev_ind; [by rewrite app_nil_r|].
  apply Forall_app in Ht1 as [Ht1 He]. destruct (IH Ht1) as (IH1 & IH2 & IH3 & IH4). apply Forall_inv in He.
  rewrite app_assoc, sent_on_snoc, recvs_snoc, refusals_snoc, IH1, IH2, IH4. unfold waiting in *.
  rewrite foldl_snoc, IH3. unfold recv_event, waiting_event. destruct e as [c r].
  destruct c; cbn in He |- *; rewrite ?(proj2 (Z.eqb_neq _ _)), ?app_nil_r, ?Nat.add_0_r by done; done.
Qed.

Lemma calls_of_foreign sock sock' p t t' : calls_of sock' p t t' -> sock' <> sock -> foreign sock t t'.
Proof.
  intros (t1 & -> & Ht1) Hne. exists t1. split; [done|]. eapply Forall_impl; [exact Ht1|].
  intros [c r] He. cbn in He |- *. destruct He as [He| ->]; [|done]. destruct c; cbn in He |- *; first [done|congruence].
Qed.

Section Serving.
Context `{PlatformOk} `{UniCommonSpec}.

(** ** The session of one client

    [cl0] is the client before its request, which comes in the segments [ds] and
    [d]; [t0] is the trace so far. *)
Context (cl0 : client_state) (url extra d : bytes) (ls ds : list bytes) (f : http_file) (t0 : trace).
Context (Hcut : cut_request (B "GET") url ls extra ds d).
Context (Hbuf : buffers_ok cl0) (Hidle : idle_client cl0) (Hrx : cl0.(rx_len) = 0).

Abbreviation sock := cl0.(socket).

(** The file is registered. *)
Definition serves (c : http_server) : Prop :=
  handler_for c UNI_NET_HTTP_COMMAND_GET url = Some None /\ file_for c url = Some (Some f).

(** Its request has come in part. *)
Definition asking (k : nat) (c : http_server) (cl : client_state) (t : trace) : Prop :=
  (k <= length ds)%nat /\ received_more (concat (take k ds)) (mk_hstate c cl0) (mk_hstate c cl)
  /\ recvs sock t = (recvs sock t0 + k)%nat /\ sent_on sock t = sent_on sock t0.

(** Its request is being answered, with at least one byte in each turn. *)
Definition answering (k : nat) (c : http_server) (cl : client_state) (t : trace) : Prop :=
  (length ds < k)%nat /\ exists off,
    answer_at (ds ++ [d]) f (file_header (Some url) f)
      (with_command UNI_NET_HTTP_COMMAND_GET (mk_hstate c cl0)) t0 t off (mk_hstate c cl)
    /\ (off = f.(file_size) \/ Z.of_nat k - Z.of_nat (S (length ds)) <= off).

Definition session (k : nat) (c : http_server) (cl : client_state) (t : trace) : Prop :=
  asking k c cl t \/ answering k c cl t.

Lemma session_foreign k c c' cl t t' :
  session k c cl t -> server_inv c' -> foreign sock t t' -> session k c' cl t'.
Proof.
  intros Hs [Hh _] Hf. destruct (foreign_same _ _ _ Hf) as (E1 & E2 & E3 & _).
  destruct Hs as [(Hk & (buf & Hw & E) & Hr & Hsent)|(Hk & off & (Hat & Hwait & Hrecv) & Hoff)]; [left|right].
  - split_and!; [done| |congruence|congruence]. exists buf. split; [exact Hw|]. by injection E as ->.
  - split; [done|]. exists off. split; [|done]. destruct Hat as (? & Hs & _ & Htr).
    change (recvs sock t0 + length (ds ++ [d]) <= recvs sock t)%nat in Hrecv.
    split; [split; [done|split; [|split; [done|exact Htr]]]|split].
    + cbn in Hs |- *. by rewrite E1.
    + intros Hlt. cbn in Hwait |- *. rewrite E3. by apply Hwait.
    + cbn. by rewrite E2.
Qed.

(** One turn of the client. *)
Lemma session_turn k c cl t :
  server_inv c -> serves c -> session k c cl t ->
  wp (peer sock (ds ++ [d]) t0) (_uni_net_http_server_client_work (mk_hstate c cl))
    (fun '(r, s') t' => (r < 0 -> (refusals sock t < refusals sock t')%nat)
       /\ (0 <= r -> session (S k) s'.(ctx) s'.(client) t')) t.
Proof.
  intros Hinv [Hnh Hf] [(Hk & Hrec & Hr & Hsent)|(Hk & off & Hat & Hoff)].
  - destruct (decide (k = length ds)) as [->|Hne].
    + rewrite take_ge in Hrec by lia.
      eapply (wp_last_segment _ _ _ _ _ _ _ _ _ (mk_hstate c cl0));
        [apply peer_segments|apply method_GET|done|exact Hcut|done|done|done|exact Hrec|done|].
      intros s2 Hc2 Hs2 Hr2 Hw. eapply wp_mono.
      { eapply wp_grows, (file_answered (mk_hstate c cl0) s2); rewrite ?Hc2; try done.
        - by rewrite segment_calls_sent.
        - rewrite segment_calls_recvs, length_app. cbn. lia. }
      intros [r s3] t3 [[Href Hp] [t4 ->]]. split; [intros Hn; exact (refused_later _ _ _ _ (Href Hn))|].
      intros Hpos. destruct (Hp Hpos) as (off & Hat). right. split; [lia|]. exists off.
      split; [by destruct s3|]. destruct Hat as ((? & _) & _). lia.
    + destruct (lookup_lt_is_Some_2 ds k) as [dk Hdk]; [lia|].
      pose proof (cr_fits _ _ _ _ _ _ Hcut) as Hfit. rewrite length_app in Hfit.
      destruct (received_exists (concat ds) (mk_hstate c cl0)) as (s1 & Hall & Hl1); [done|done|cbn; lia|].
      destruct (received_exists (concat ds ++ d) (mk_hstate c cl0)) as (s2 & Hall2 & _);
        [done|done|cbn; rewrite length_app; lia|].
      destruct (cut_prefix_none _ _ _ _ _ _ _ _ (mk_hstate c cl0) _ _ method_GET (fun E => ltac:(done)) Hcut Hbuf Hidle Hrx Hall Hall2) as [Hnone _].
      pose proof (cr_nonempty _ _ _ _ _ _ Hcut) as Hnn. apply Forall_app in Hnn as [Hnn _].
      eapply (segment_turn _ ds (mk_hstate c cl0) s1 t0 k dk); try done.
      * intros t' c' r' Hp. by eapply segments_app, peer_segments.
      * by eapply Forall_lookup_1 in Hnn.
      * cbn in Hl1. lia.
      * intros s3 Hl3 Hs3. split; [lia|]. intros _. left. destruct (received_received _ _ _ Hs3) as [Hc3 _].
        cbn in Hc3. split_and!; [lia| |rewrite segment_calls_recvs; cbn; rewrite Hr; lia|by rewrite segment_calls_sent].
        rewrite Hc3. destruct s3 as [c3 cl3]. cbn in *. by subst c3.
  - pose proof (file_for_ok _ _ _ (proj2 Hinv) Hf) as Hfok.
    eapply wp_mono; [exact (answer_turn _ f _ (with_command UNI_NET_HTTP_COMMAND_GET (mk_hstate c cl0)) _ t0 t off Hfok eq_refl Hat)|].
    intros [r s'] t' [Href Hp]. split; [exact Href|]. intros Hpos. destruct (Hp Hpos) as (off' & Hat' & Hp').
    right. split; [lia|]. exists off'. split; [by destruct s'|]. destruct Hat' as ((? & _) & _). lia.
Qed.

(** ** The client among the others *)

(** The stack: memory does not run out, the client's peer sends its request and
    takes the answer, and a new connection has a socket of its own.  Nothing is
    said about the peers of the other clients. *)
Definition serving : contract := fun t c r =>
  task_ok t c r /\ peer sock (ds ++ [d]) t0 t c r
  /\ match c return resp c -> Prop with
     | FreeRTOS_accept _ => fun r => r <> sock
     | _ => fun _ => True
     end r.

Context (j : nat) (p : ptr).

(** No other slot has the socket; slot [j] has the client after [k] turns, or the
    stack has refused its data and the client is gone. *)
Definition elsewhere (slots : list (option (ptr * client_state))) (i : nat) : Prop :=
  forall q cl, slots !! i = Some (Some (q, cl)) -> cl.(socket) <> sock.

Definition followed (k : nat) (c : http_server) (t : trace) : Prop :=
  server_ok c /\ serves c /\ (refusals sock t0 <= refusals sock t)%nat
  /\ exists slots, c.(state).(clients) = Some slots /\ (forall i, i <> j -> elsewhere slots i)
  /\ ((exists cl, slots !! j = Some (Some (p, cl)) /\ session k c cl t)
      \/ elsewhere slots j /\ (refusals sock t0 < refusals sock t)%nat).

Lemma session_socket k c cl t : session k c cl t -> cl.(socket) = sock.
Proof.
  intros [(_ & Hr & _)|(_ & off & ((_ & _ & _ & Hs & _) & _) & _)]; [|exact Hs].
  exact (proj2 (received_received _ _ _ Hr)).
Qed.

Lemma serves_config c c' : c'.(config) = c.(config) -> serves c -> serves c'.
Proof. unfold serves, handler_for, file_for. by intros ->. Qed.

(** What happens on other sockets, and in slots without this client. *)
Lemma followed_foreign k c c' t t' slots slots' :
  followed k c t -> c.(state).(clients) = Some slots ->
  server_ok c' -> c'.(config) = c.(config) -> foreign sock t t' -> c'.(state).(clients) = Some slots' ->
  (forall i, slots' !! i = slots !! i \/ elsewhere slots i /\ elsewhere slots' i) ->
  followed k c' t'.
Proof.
  intros (Hok & Hsv & Hle & sl & Hsl & Hother & Hj) Hslots Hok' Hcfg Hf Hslots' Hch. assert (sl = slots) as -> by congruence.
  destruct (foreign_same _ _ _ Hf) as (_ & _ & _ & Hrf).
  split_and!; [done|by eapply serves_config|by rewrite Hrf|]. exists slots'. split_and!; [done| |].
  - intros i Hi. destruct (Hch i) as [E|[_ ?]]; [|done]. intros q cl. rewrite E. by apply Hother.
  - destruct Hj as [(cl & Hcl & Hs)|[He Hlt]].
    + left. exists cl. split; [|eapply session_foreign; [done|apply Hok'|done]].
      destruct (Hch j) as [->|[He _]]; [done|]. by apply session_socket in Hs; apply He in Hcl.
    + right. split; [|by rewrite Hrf]. destruct (Hch j) as [E|[_ ?]]; [|done]. intros q cl. rewrite E. by apply He.
Qed.

(** Serving a slot without the client. *)
Lemma serve_foreign k c t i slots :
  followed k c t -> c.(state).(clients) = Some slots -> (i < length slots)%nat -> elsewhere slots i ->
  wp serving (serve_slot i c) (fun '(_, c') t' => followed k c' t' /\ c'.(config) = c.(config)) t.
Proof.
  intros Hfo Hslots Hi He. pose proof Hfo as ([Hinv (sl & Hsl & Hlen & Hall)] & _).
  assert (sl = slots) as -> by congruence.
  destruct (lookup_lt_is_Some_2 slots i Hi) as [[[q cl]|] Hs].
  2: { unfold serve_slot. cbn. rewrite Hslots. cbn. by rewrite Hs. }
  pose proof (Forall_lookup_1 _ _ _ _ Hall Hs) as [Hq Hcl].
  eapply wp_mono; [eapply (wp_weaken (fun _ => False) task_ok); [by apply serve_slot_isolated|done|by intros ??? []]|].
  intros [[] c'] t' [Hpost Hcalls]. pose proof (He _ _ Hs) as Hne.
  destruct (slot_post_slots _ _ _ _ _ _ _ Hpost Hi) as (Hcfg & slots' & Hslots' & Hkeep & Hi').
  split; [|done]. eapply followed_foreign; [done|done| |done|by eapply calls_of_foreign|done|].
  - eapply slot_post_ok; [done|by split; [|exists slots]|done|done].
  - intros x. destruct (decide (x = i)) as [->|Hx]; [right|left; by apply Hkeep]. split; [done|]. intros q' cl' Hx.
    destruct Hi' as [E|(cl1 & E & Hso)]; [congruence|]. rewrite E in Hx. injection Hx as <- <-. congruence.
Qed.

(** Serving the client. *)
Lemma serve_own k c t slots cl :
  followed k c t -> c.(state).(clients) = Some slots -> slots !! j = Some (Some (p, cl)) -> session k c cl t ->
  wp serving (serve_slot j c) (fun '(_, c') t' => followed (S k) c' t' /\ c'.(config) = c.(config)) t.
Proof.
  intros Hfo Hslots Hj Hs. pose proof Hfo as ([Hinv (sl & Hsl & Hlen & Hall)] & Hsv & Hle & sl' & Hsl' & Hother & _).
  assert (sl = slots) as -> by congruence. assert (sl' = slots) as -> by congruence.
  pose proof (Forall_lookup_1 _ _ _ _ Hall Hj) as [Hp Hcl]. pose proof (lookup_lt_Some _ _ _ Hj) as Hlt.
  eapply wp_mono.
  { eapply (serve_slot_wp _ _ (fun r s1 t1 => served (mk_hstate c cl) s1 /\ ((r < 0 -> (refusals sock t < refusals sock t1)%nat)
       /\ (0 <= r -> session (S k) s1.(ctx) s1.(client) t1)) /\ (refusals sock t <= refusals sock t1)%nat)); [done|done|].
    eapply wp_mono; [eapply wp_grows, wp_conj|].
    - eapply wp_weaken; [apply (client_work_spec (mk_hstate c cl) t Hinv Hcl)|done|by intros ??? [[]]].
    - eapply wp_weaken; [by apply (session_turn k)|done|by intros ??? (_ & ? & _)].
    - intros [r s1] t1 [[Hsd Hst] [t2 ->]]. split; [|split; [exact Hsd|split; [exact Hst|apply refusals_app]]].
      by rewrite (same_server_clients _ _ (proj1 (proj2 Hsd))). }
  intros [[] c'] t' (r & s1 & t1 & (Hsd & [Href Hst] & Hge) & Hc).
  assert (Hpost : slot_post j p cl slots c c' t') by (by exists r, s1, t1).
  destruct (slot_post_ok _ _ _ _ _ _ _ Hpost (proj1 Hfo) Hslots Hp) as [Hok' Hcfg].
  split; [|done]. destruct Hc as [(Hr & -> & ->)|(Hr & -> & cr & ->)].
  - split_and!; [done|by eapply serves_config|lia|]. eexists. split_and!; [done| |].
    + intros i Hi q cl'. rewrite list_lookup_insert_ne by done. by apply Hother.
    + left. exists s1.(client). rewrite list_lookup_insert_eq by done. split; [done|].
      eapply session_foreign; [by apply Hst|apply Hok'|apply foreign_refl].
  - specialize (Href Hr). pose proof (refusals_app sock t1 (release s1.(ctx) p s1.(client) cr)).
    split_and!; [done|by eapply serves_config|lia|]. eexists. split_and!; [done| |].
    + intros i Hi q cl'. rewrite list_lookup_insert_ne by done. by apply Hother.
    + right. split; [|lia]. intros q cl'. by rewrite list_lookup_insert_eq.
Qed.

Lemma serve_followed k c t i :
  followed k c t -> (i < c.(config).(max_clients))%nat ->
  wp serving (serve_slot i c)
    (fun '(_, c') t' => followed (if decide (i = j) then S k else k) c' t' /\ c'.(config) = c.(config)) t.
Proof.
  intros Hfo Hi. pose proof Hfo as ([_ (sl & Hsl & Hlen & _)] & _ & _ & slots & Hslots & Hother & Hj).
  assert (sl = slots) as -> by congruence. rewrite <- Hlen in Hi. case_decide as Hd; [subst i|].
  - destruct Hj as [(cl & Hcl & Hs)|[He Hlt]]; [by eapply serve_own|].
    eapply serve_foreign; [|done|done|done]. destruct Hfo as (? & ? & ? & _). split_and!; [done..|]. exists slots. auto.
  - by eapply serve_foreign; [| | |apply Hother].
Qed.

Lemma loop_followed n i k c t :
  followed (if decide (j < i)%nat then S k else k) c t -> (i + n = c.(config).(max_clients))%nat ->
  (j < c.(config).(max_clients))%nat ->
  wp serving (clients_loop i n c) (fun '(_, c') t' => followed (S k) c' t' /\ c'.(config) = c.(config)) t.
Proof.
  revert i c t. induction n as [|n IH]; intros i c t Hfo Hn Hj.
  { rewrite decide_True in Hfo by lia. done. }
  apply clients_loop_S. cbn [bindM]. eapply wp_seq; [apply serve_followed; [exact Hfo|lia]|].
  intros [[] c1] t1 [Hfo1 Hc1]. eapply wp_mono; [apply (IH (S i)); [|rewrite Hc1; lia|by rewrite Hc1]|].
  - repeat case_decide; try lia; exact Hfo1.
  - intros [[] c2] t2 [? ?]. split; [done|congruence].
Qed.

(** A new connection. *)
Lemma accept_followed k c t x :
  followed k c t -> x <> NULL -> x <> sock ->
  wp serving (_uni_net_http_server_client_new x c)
    (fun '(_, c') t' => followed k c' t' /\ c'.(config) = c.(config)) t.
Proof.
  intros Hfo Hx Hne. pose proof Hfo as (Hok & _). pose proof Hok as [Hinv (slots & Hslots & Hlen & Hall)].
  eapply wp_mono; [eapply (wp_weaken (fun _ => False) task_ok); [by apply (client_new_spec x slots)|done|by intros ??? []]|].
  intros [[] c'] t' Hpost. destruct (new_client_ok _ _ _ _ _ _ Hpost Hok Hslots) as [Hok' Hcfg]. split; [|done].
  destruct Hpost as (q & Hq & Ht & Hc).
  assert (Hf : foreign sock t t') by (rewrite Ht; do 2 (apply foreign_snoc; [|done]); apply foreign_refl).
  destruct Hc as [(i & Hi & _ & ->)|[_ ->]].
  - eapply followed_foreign; [exact Hfo|done|done|done|done|done|]. intros y.
    destruct (decide (y = i)) as [->|Hy]; [right|left; by rewrite list_lookup_insert_ne].
    split; intros q' cl' Hy; [congruence|]. rewrite list_lookup_insert_eq in Hy by by eapply lookup_lt_Some.
    by injection Hy as <- <-.
  - eapply followed_foreign; [exact Hfo|done|done|done|done|done|]. by left.
Qed.

(** A turn of the server. *)
Lemma turn_followed k c t :
  followed k c t -> (j < c.(config).(max_clients))%nat ->
  wp serving (_uni_net_http_server_work c) (fun '(_, c') t' => followed (S k) c' t' /\ c'.(config) = c.(config)) t.
Proof.
  intros Hfo Hj. unfold _uni_net_http_server_work. cbn. intros flags _.
  assert (Hstep : forall e, foreign_call sock e.(ev_call) -> forall t1, followed k c t1 -> followed k c (t1 ++ [e])).
  { intros e He t1 Hf1. pose proof Hf1 as (Hok & _ & _ & slots & Hslots & _).
    eapply followed_foreign; [done|done|done|done|by apply foreign_snoc; [apply foreign_refl|]|done|by left]. }
  apply (wp_seq _ _ _ _ (fun '(_, c') t' => followed k c' t' /\ c'.(config) = c.(config))).
  - case_match; [split; [by apply Hstep|done]|]. cbn. intros x (_ & _ & Hx). cbn in Hx.
    destruct (Z.eqb_spec x NULL) as [|Hne]; [split; [by do 2 (apply Hstep; [done|])|done]|]. cbn.
    case_match; [|split; [by do 2 (apply Hstep; [done|])|done]].
    apply accept_followed; [by do 2 (apply Hstep; [done|])|done|done].
  - intros [[] c1] t1 [Hfo1 Hc1]. cbn. eapply wp_seq; [apply (loop_followed _ 0 k); [|by rewrite Hc1|by rewrite Hc1]|].
    { by rewrite decide_False by lia. }
    intros [[] c2] t2 [Hfo2 Hc2]. cbn. split; [done|congruence].
Qed.

Lemma turns_followed n k c t :
  followed k c t -> (j < c.(config).(max_clients))%nat ->
  wp serving (http_turns n c) (fun '(_, c') t' => followed (k + n) c' t') t.
Proof.
  revert k c t. induction n as [|n IH]; intros k c t Hfo Hj; cbn; [by rewrite Nat.add_0_r|].
  eapply wp_seq; [by apply (turn_followed k)|]. intros [b c1] t1 [Hfo1 Hc1].
  eapply wp_mono; [apply (IH (S k)); [done|by rewrite Hc1]|]. intros [[] c2] t2. by rewrite Nat.add_succ_comm.
Qed.

End Serving.

Section Everyone.
Context `{PlatformOk} `{UniCommonSpec}.


End Everyone.
