(* ===== verification/HttpClaims.v ===== *)
(** * HTTP server: more of its contract

    The response header on the wire, the content type of a path, what is found
    after a registration, the table of clients, and the requests that get no
    answer. *)

From S2P Require Import Prelude Env Prog Trace CString HttpCommon HttpServer HttpHeader HttpInv HttpGet HttpPost HttpParse HttpWork HttpTask HttpRequests.

Section Claims.
Context `{PlatformOk} `{UniCommonSpec}.

(** C24: The whole response header goes out in one piece: status line, fixed headers,
    type and length, an empty line; it fits its buffer whatever the numbers are,
    and an error status says nothing of a body. *)
Theorem send_header_exact status (s : hstate) :
  hdr_ok s.(ctx) -> (length (default [] s.(client).(content_type)) <= 64)%nat ->
  let ct := if status =? UNI_NET_HTTP_STATUS_OK then header_type s.(client) else B "text/html" in
  let n := if status =? UNI_NET_HTTP_STATUS_OK then s.(client).(content_length) else 0 in
  exists f, _uni_net_http_server_send_header status s
            = Vis (FreeRTOS_send s.(client).(socket) (response_header status ct n)) f
    /\ len (response_header status ct n) < ipconfigTCP_MSS
    /\ forall r, exists s', f r = Ret (i32 r, s') /\ s'.(client).(header_sent) = true
         /\ same_server s.(ctx) s'.(ctx) /\ hdr_ok s'.(ctx).
Proof.
  intros Hl Hct. cbn zeta. destruct (send_header_eq status s Hl Hct) as (buf & Hb & ->).
  pose proof (length_header_type status s.(client) Hct) as Hlt.
  exists (fun r => Ret (i32 r, mk_hstate (set_hdr buf s).(ctx) (header_fields status s.(client) <| header_sent := true |>))).
  pose proof (response_header_fits status _ (header_fields status s.(client)).(content_length) Hlt) as Hfit.
  unfold header_fields, header_type in *. destruct (status =? UNI_NET_HTTP_STATUS_OK); cbn in *;
    (split; [done|]; split; [lia|]); intros r; eexists; split_and!; try done; apply same_server_set_hdr.
Qed.

(** ** Content type of a path *)

Lemma last_pos_app c i l1 l2 acc : last_pos c i (l1 ++ l2) acc = last_pos c (i + length l1) l2 (last_pos c i l1 acc).
Proof.
  revert i acc. induction l1 as [|x l1 IH]; intros i acc; cbn; [by rewrite Nat.add_0_r|].
  rewrite IH. f_equal. lia.
Qed.

Lemma last_pos_none c i l acc : c ∉ l -> last_pos c i l acc = acc.
Proof.
  revert i acc. induction l as [|x l IH]; intros i acc; cbn; [done|]. rewrite not_elem_of_cons. intros [Hx Hl].
  rewrite beqb_neq by congruence. by apply IH.
Qed.

Lemma last_pos_bound c i l acc j : last_pos c i l acc = Some j -> acc = Some j \/ (j < i + length l)%nat.
Proof.
  revert i acc. induction l as [|x l IH]; intros i acc; cbn; [by left|]. intros Hj.
  apply IH in Hj as [Hj|Hj]; [|right; lia]. case_match; [|by left]. injection Hj as <-. right. lia.
Qed.

(** C35: The extension of the last component of a path decides its type, whatever dots
    and slashes come before; without one the path is a page. *)
Theorem content_type_of_path dir name ext :
  "/"%char ∉ name ++ ext -> "."%char ∉ ext ->
  _uni_net_http_server_content_type (Some (dir ++ "/"%char :: name ++ "."%char :: ext))
    = uni_net_http_get_mime_type (Some ext)
  /\ ("."%char ∉ name -> _uni_net_http_server_content_type (Some (dir ++ "/"%char :: name)) = B "text/html").
Proof.
  rewrite not_elem_of_app. intros [Hsn Hse] Hde. unfold _uni_net_http_server_content_type. split.
  - assert (Hdot : last_pos "."%char 0 (dir ++ "/"%char :: name ++ "."%char :: ext) None
                   = Some (length (dir ++ "/"%char :: name))).
    { replace (dir ++ "/"%char :: name ++ "."%char :: ext) with ((dir ++ "/"%char :: name) ++ "."%char :: ext)
        by by rewrite <- app_assoc.
      rewrite last_pos_app. cbn. by rewrite last_pos_none. }
    assert (Hslash : last_pos "/"%char 0 (dir ++ "/"%char :: name ++ "."%char :: ext) None = Some (length dir)).
    { rewrite last_pos_app. cbn. rewrite last_pos_app, (last_pos_none _ _ name), last_pos_none; [done| |done].
      rewrite not_elem_of_cons. done. }
    rewrite Hdot, Hslash. cbn [ptr_gt].
    rewrite (proj2 (Nat.ltb_lt _ _)) by (rewrite length_app; cbn; lia). f_equal. f_equal.
    replace (dir ++ "/"%char :: name ++ "."%char :: ext) with ((dir ++ "/"%char :: name) ++ "."%char :: ext)
      by by rewrite <- app_assoc.
    rewrite drop_app_ge by lia. rewrite Nat.sub_succ_l, Nat.sub_diag by lia. done.
  - intros Hdn.
    assert (Hslash : last_pos "/"%char 0 (dir ++ "/"%char :: name) None = Some (length dir)).
    { rewrite last_pos_app. cbn. by rewrite last_pos_none. }
    rewrite Hslash. destruct (last_pos "."%char 0 (dir ++ "/"%char :: name) None) as [d|] eqn:Hdot; [|done].
    rewrite last_pos_app in Hdot. cbn in Hdot. rewrite last_pos_none in Hdot by done.
    apply last_pos_bound in Hdot as [?|Hd]; [done|]. cbn [ptr_gt].
    by rewrite (proj2 (Nat.ltb_ge _ _)) by lia.
Qed.

(** ** Registration *)

Lemma array_find_list {A} (a : uni_common_array_t A) p i n :
  (i + n <= uni_common_array_size a)%nat ->
  array_find a p i n = Some (List.find p (omap (uni_common_array_get a) (seq i n))).
Proof.
  revert i. induction n as [|n IH]; intros i Hn; cbn; [done|].
  destruct (array_get_spec a i) as [x Hx]; [lia|]. rewrite Hx. cbn. case_match; [done|]. apply IH. lia.
Qed.

Lemma array_search_list {A} (a : uni_common_array_t A) p :
  uni_common_array_valid a = true -> array_search a p = Some (List.find p (array_list a)).
Proof. intros Hv. unfold array_search. rewrite Hv. by apply array_find_list. Qed.

Lemma find_snoc {A} (p : A -> bool) l x :
  List.find p (l ++ [x]) = match List.find p l with Some y => Some y | None => if p x then Some x else None end.
Proof. induction l as [|y l IH]; cbn; [done|]. by destruct (p y). Qed.

(** C34: A file that is registered is served under its path from then on, unless an
    earlier one has the same path; every other path is served as before. *)
Theorem registered_file_served (c c' : http_server) path data size u :
  uni_common_array_valid c.(config).(files) = true ->
  uni_net_http_server_register_file_ex (Some c) (Some path) (Some data) size = (true, Some c') ->
  file_for c' u = match file_for c u with
                  | Some (Some f) => Some (Some f)
                  | _ => if bool_decide (u = path) then Some (Some (mk_http_file path data size)) else Some None
                  end
  /\ (forall cmd, handler_for c' cmd u = handler_for c cmd u).
Proof.
  intros Hv. cbn. destruct (uni_common_array_push_back _ _) as [r a] eqn:Hp. intros [= -> <-].
  apply array_push_ok in Hp as [Hl Hv']. unfold file_for. cbn. split; [|done].
  rewrite !array_search_list, Hl, find_snoc by done.
  destruct (List.find _ _); cbn; [done|]. unfold strcmp_eq. cbn. by case_bool_decide.
Qed.

(** ** The table of clients *)

(** C28: A new connection goes to the first free slot.  When there is none, the client
    object and its socket are still set up, and nothing refers to them any more:
    they are neither served nor released. *)
Theorem new_client_slot sock slots (c : http_server) t :
  sock <> NULL -> c.(state).(clients) = Some slots -> length slots = c.(config).(max_clients) ->
  wp task_ok (_uni_net_http_server_client_new sock c) (fun '(_, c') t' => new_client_post sock slots c t c' t') t.
Proof. apply client_new_spec. Qed.


(** ** What goes wrong *)

(** C36: A request with a method other than GET and POST is recognised and then
    dropped: no call is made, so that nothing is sent, and the client waits for
    the next request. *)
Theorem other_methods_unanswered (s : hstate) l name ty url ls body :
  receiving s.(client) -> written_request s.(client) l name ty url ls body ->
  ty <> UNI_NET_HTTP_COMMAND_GET -> ty <> UNI_NET_HTTP_COMMAND_POST ->
  exists s', client_request (length (render_request name url ls)) s = Ret (0, s')
    /\ s'.(client).(rx_len) = 0 /\ s'.(client).(command_type) = s.(client).(command_type).
Proof.
  intros Hr Hw Hg Hp. destruct (dispatch_spec s l name ty url ls body Hr Hw) as (e & _ & Heq & _); [done|].
  rewrite Heq. unfold _uni_net_http_server_cmd_process_start, cmd_map_find.
  assert (Hn : list_find (fun e => e.1.1 = ty) g_http_cmd_map = None).
  { by destruct ty. }
  rewrite Hn. cbn. eexists. split_and!; done.
Qed.


End Claims.
