(* ===== verification/HttpExamples.v ===== *)
(** * HTTP: concrete runs

    The theorems about the HTTP server at concrete inputs. *)

From S2P Require Import Prelude Env Prog Trace Instance CString HttpCommon HttpServer HttpHeader HttpInv HttpGet HttpPost HttpParse HttpWork HttpTask HttpRequests HttpSession HttpIsolation HttpServing HttpClaims.
Import Demo.

Lemma good_tcp t c : tcp_ok t c (good_env t c).
Proof.
  destruct c; cbn; try done.
  - split; [lia|]. intros n _ _. by left.
  - intros Hn. destruct (Z.ltb_spec 0 n); cbn; lia.
  - intros Hn. rewrite length_replicate. lia.
Qed.

Lemma good_draining s t c : draining s t c (good_env t c).
Proof. split; [apply good_tcp|]. destruct c; cbn; try done. by left. Qed.

Lemma good_generous s t c : generous s t c (good_env t c).
Proof. split; [apply good_tcp|]. destruct c; cbn; try done. intros _ Hn. by rewrite (proj2 (Z.ltb_lt 0 _)). Qed.

Lemma good_task t c : task_ok t c (good_env t c).
Proof. split; [apply good_tcp|]. by destruct c. Qed.

(** A server with one page, and a handler for each method. *)
Definition page : http_file := mk_http_file (B "/index.html") (B "<html>hello</html>") 18.
Definition form : http_handler_t := mk_http_handler (B "/form") UNI_NET_HTTP_COMMAND_POST 50 51.
Definition api : http_handler_t := mk_http_handler (B "/api") UNI_NET_HTTP_COMMAND_GET 52 53.

Definition demo_config : server_config := mk_server_config [form; api] [page] 2.

Definition demo_server : http_server :=
  mk_http_server demo_config
    (mk_server_state true 7 4 5 (Some [Some (8, fresh_client 6); None])
       (replicate (Z.to_nat ipconfigTCP_MSS) NUL)).

Lemma demo_config_ok : config_ok demo_config.
Proof.
  split; rewrite array_list_id; repeat constructor; try done;
    cbn; unfold page, file_size, file_data; rewrite ?length_B; cbn; lia.
Qed.

Lemma demo_hdr_ok : hdr_ok demo_server.
Proof. unfold hdr_ok. cbn [demo_server state buf_tx_hdr]. rewrite length_replicate. cbn. lia. Qed.

Lemma demo_server_inv : server_inv demo_server.
Proof. split; [apply demo_hdr_ok|apply demo_config_ok]. Qed.

(** A receive buffer that holds [d]. *)
Definition holding (d : bytes) (c : client_state) : client_state :=
  c <| buf_rx := d ++ replicate (2920 - length d) NUL |> <| rx_len := len d |>.

Lemma holding_buffers d : (length d <= 2920)%nat -> buffers_ok (holding d (fresh_client 6)).
Proof.
  intros Hd. split_and!.
  - transitivity (len (d ++ replicate (2920 - length d) NUL)); [reflexivity|].
    rewrite length_app, length_replicate. change UNI_NET_HTTP_SERVER_RX_BUF with 2920. lia.
  - transitivity (len (replicate (Z.to_nat UNI_NET_HTTP_SERVER_TX_BUF) NUL)); [reflexivity|].
    rewrite length_replicate. change UNI_NET_HTTP_SERVER_TX_BUF with 8760. lia.
  - change (0 <= 64)%nat. lia.
Qed.

Definition with_page : hstate :=
  mk_hstate demo_server (holding (B "/index.html" ++ [NUL]) (fresh_client 6) <| file := Some page |>).

Lemma page_ok : file_ok page.
Proof. destruct demo_config_ok as [_ Hf]. rewrite array_list_id in Hf. by inversion Hf. Qed.


(** A POST request with a body of five bytes, two of which came with the headers. *)
Definition with_post : hstate :=
  mk_hstate demo_server (holding (B "/form" ++ [NUL] ++ B "ab") (fresh_client 6) <| content_length := 5 |>).

Lemma with_post_ready : post_ready with_post form 0 6 2.
Proof.
  split; [apply demo_hdr_ok|]. split.
  { exact (holding_buffers (B "/form" ++ [NUL] ++ B "ab") ltac:(rewrite !length_app, !length_B; cbn; lia)). }
  split; [done|]. split; [cbn; lia|]. split; [lia|]. split.
  { change (Z.of_nat 6 + 2 <= 2920). lia. }
  split; [done|]. exists (B "/form"). split; vm_compute; reflexivity.
Qed.



Lemma good_up t c : task_ok t c (good_env t c) /\ up_by 0 t c (good_env t c).
Proof. split; [apply good_task|]. by destruct c. Qed.

Lemma http_server_comes_up_witness : exists c' t',
  run good_env (_uni_net_http_thread 1 3 demo_server) [] = (inl (tt, c'), t') /\ server_ok c'.
Proof.
  destruct (wp_run _ good_env (_uni_net_http_thread 1 3 demo_server) _ [] good_up
    (http_server_comes_up 0 1 3 demo_server [] demo_config_ok ltac:(lia))) as ([[] c'] & t' & Hr & HQ & _).
  exists c', t'. split; [exact Hr|exact HQ].
Defined.

(** Requests as a browser writes them. *)
Definition lines : list bytes := [B "Host: a"; B "content-length:  4"].
Definition request_of (name url body : bytes) : hstate :=
  mk_hstate demo_server (holding (render_request name url lines ++ body) (fresh_client 6)).

Lemma request_of_receiving name url body :
  (length (render_request name url lines ++ body) <= 2920)%nat -> receiving (request_of name url body).(client).
Proof.
  intros Hl. split; [by apply holding_buffers|]. do 7 (split; [done|]). cbn.
  change UNI_NET_HTTP_SERVER_RX_BUF with 2920. lia.
Qed.

Lemma request_of_written l name ty url body :
  (l, name, ty) ∈ methods -> url_ok url ->
  written_request (request_of name url body).(client) l name ty url lines body.
Proof.
  intros Hm Hu. split; [done|done| |].
  - repeat constructor; by apply (bool_decide_unpack _).
  - unfold input, request_of, holding. cbn [client rx_len buf_rx fresh_client].
    change (take (Z.to_nat (len (render_request name url lines ++ body)))
      ((render_request name url lines ++ body) ++ replicate (2920 - length (render_request name url lines ++ body)) NUL)
      = render_request name url lines ++ body).
    by rewrite Nat2Z.id, take_app_length.
Qed.

Lemma is_method l name ty : bool_decide ((l, name, ty) ∈ methods) = true -> (l, name, ty) ∈ methods.
Proof. apply bool_decide_eq_true. Qed.

Lemma form_url : url_ok (B "/form").
Proof. repeat constructor; done. Qed.

Lemma request_dispatched_witness : exists e,
  let s := request_of (B "POST") (B "/form") (B "body") in
  let s1 := request_state s e 4 UNI_NET_HTTP_COMMAND_POST in
  client_request 52 s
  = bind (_uni_net_http_server_cmd_process_start UNI_NET_HTTP_COMMAND_POST 5 52 4 s1)
      (fun '(r, s') => Ret (r, s' <| client ::= fun c => c <| rx_len := 0 |> |>)).
Proof.
  destruct (request_dispatched (request_of (B "POST") (B "/form") (B "body")) 4 (B "POST") UNI_NET_HTTP_COMMAND_POST
    (B "/form") lines (B "body")) as (e & _ & Heq & _).
  - apply request_of_receiving. apply Nat.leb_le. vm_compute. reflexivity.
  - apply request_of_written; [apply is_method; vm_compute; reflexivity|apply form_url].
  - intros _. vm_compute. reflexivity.
  - exists e. cbn zeta. etransitivity; [|etransitivity; [exact Heq|]].
    + f_equal; vm_compute; reflexivity.
    + f_equal.
Defined.

Lemma content_length_wraps_witness :
  lines_length [B "CONTENT-length: 4294967301"] (0, false) = (5, true).
Proof.
  exact (content_length_wraps (B "CONTENT-length:") [SP] (2 ^ 32 + 5) [] eq_refl
           ltac:(by repeat constructor) ltac:(lia)).
Defined.


(** A peer whose request comes in pieces. *)
Definition seg_env (ds : list bytes) : environment := fun t c =>
  match c return resp c with
  | FreeRTOS_recv s n =>
      match ds !! recvs 6 t with
      | Some d => if len d <=? n then (len d, d) else (0, [])
      | None => (0, [])
      end
  | c => good_env t c
  end.

Lemma seg_env_ok ds t c : segments 6 ds [] t c (seg_env ds t c).
Proof.
  split.
  - pose proof (good_tcp t c) as Hg. destruct c; try exact Hg. cbn. intros Hn.
    destruct (ds !! recvs 6 t) as [d|]; [destruct (Z.leb_spec (len d) n)|]; cbn; lia.
  - destruct c; cbn; try done. intros -> d Hd Hn. rewrite Nat.sub_0_r in Hd.
    by rewrite Hd, (proj2 (Z.leb_le _ _)).
Qed.

Definition pieces : list bytes := [B "GET /in"; B "dex.html HT"; B "TP/1.1" ++ CRLF].
Definition empty_handed : hstate := mk_hstate demo_server (fresh_client 6).

Lemma write_fresh d : (length d <= 2920)%nat ->
  write_at (replicate (Z.to_nat UNI_NET_HTTP_SERVER_RX_BUF) NUL) 0 d = Some (d ++ replicate (2920 - length d) NUL).
Proof.
  intros Hd. unfold write_at. change (Z.to_nat UNI_NET_HTTP_SERVER_RX_BUF) with (Z.to_nat 2920).
  rewrite length_replicate, decide_True by lia. rewrite drop_replicate. do 2 f_equal.
Qed.

Lemma segments_accumulate_witness : exists r t',
  run (seg_env pieces) (client_turns 3 0 empty_handed) [] =
    (inl (r, mk_hstate demo_server (holding (concat pieces) (fresh_client 6))), t') /\ sent_on 6 t' = [].
Proof.
  assert (Hlen : (length (concat pieces) <= 2920)%nat) by (apply Nat.leb_le; vm_compute; reflexivity).
  destruct (wp_run (segments 6 pieces []) (seg_env pieces) (client_turns 3 0 empty_handed) _ [] (seg_env_ok pieces)
    (segments_accumulate pieces empty_handed (mk_hstate demo_server (holding (concat pieces) (fresh_client 6))) []
       (holding_buffers [] ltac:(cbn; lia))
       ltac:(do 7 (split; [done|]); change (0 <= 0 < 2920); lia)
       ltac:(repeat constructor; done)
       (ex_intro _ _ (conj (write_fresh (concat pieces) Hlen) eq_refl))
       ltac:(vm_compute; reflexivity) ltac:(vm_compute; reflexivity)))
    as ([r s'] & t' & Hr & Hpos & -> & Hs).
  exists r, t'. split; [exact Hr|exact Hs].
Defined.

Definition answering : hstate :=
  mk_hstate demo_server ((fresh_client 6) <| content_type := Some (B "text/css") |> <| content_length := 7 |>).

Lemma send_header_exact_witness : exists f,
  _uni_net_http_server_send_header 404 answering
  = Vis (FreeRTOS_send 6 (response_header 404 (B "text/html") 0)) f
  /\ len (response_header 404 (B "text/html") 0) < 1460.
Proof.
  destruct (send_header_exact 404 answering demo_hdr_ok ltac:(cbn; rewrite length_B; cbn; lia)) as (f & Hf & Hl & _).
  exists f. split; [exact Hf|exact Hl].
Defined.

Lemma content_type_of_path_witness :
  _uni_net_http_server_content_type (Some (B "/v1.2/app.min.js")) = uni_net_http_get_mime_type (Some (B "js")).
Proof.
  apply (content_type_of_path (B "/v1.2") (B "app.min") (B "js")); by apply (bool_decide_unpack _).
Defined.

Lemma registered_file_served_witness : exists c',
  uni_net_http_server_register_file_ex (Some demo_server) (Some (B "/b")) (Some (B "data")) 4 = (true, Some c')
  /\ file_for c' (B "/b") = Some (Some (mk_http_file (B "/b") (B "data") 4)).
Proof.
  eexists. split; [reflexivity|].
  rewrite (proj1 (registered_file_served demo_server _ (B "/b") (B "data") 4 (B "/b") eq_refl eq_refl)).
  vm_compute. reflexivity.
Defined.

(** The second slot is free; then there is none. *)
Lemma new_client_slot_witness : exists c' t',
  run good_env (_uni_net_http_server_client_new 6 demo_server) [] = (inl (tt, c'), t')
  /\ new_client_post 6 [Some (8, fresh_client 6); None] demo_server [] c' t'.
Proof.
  destruct (wp_run task_ok good_env _ _ [] good_task
    (new_client_slot 6 [Some (8, fresh_client 6); None] demo_server [] ltac:(done) eq_refl eq_refl))
    as ([[] c'] & t' & Hr & HQ).
  exists c', t'. split; [exact Hr|exact HQ].
Defined.

Lemma fresh_inv : client_inv (fresh_client 6).
Proof. exact (fresh_client_inv 6). Qed.


Lemma http_client_isolated_witness : exists c' t',
  run good_env (clients_loop 0 1 demo_server) [] = (inl (tt, c'), t')
  /\ calls_of (fresh_client 6).(socket) 8 [] t'
  /\ forall x, x <> (fresh_client 6).(socket) -> sent_on x t' = [] /\ received_on x t' = [].
Proof.
  destruct (wp_run task_ok good_env _ _ [] good_task
    (http_client_isolated 0 8 (fresh_client 6) [Some (8, fresh_client 6); None] demo_server []
       demo_server_inv fresh_inv eq_refl eq_refl)) as ([[] c'] & t' & Hr & Hc & Hx & _).
  exists c', t'. split; [exact Hr|]. split; [exact Hc|exact Hx].
Defined.

Lemma other_methods_unanswered_witness : exists s',
  client_request (length (render_request (B "HEAD") (B "/form") lines)) (request_of (B "HEAD") (B "/form") []) = Ret (0, s').
Proof.
  destruct (other_methods_unanswered (request_of (B "HEAD") (B "/form") []) 4 (B "HEAD") UNI_NET_HTTP_COMMAND_HEAD
    (B "/form") lines []) as (s' & Hs & _); [..|by exists s'].
  - apply request_of_receiving. apply Nat.leb_le. vm_compute. reflexivity.
  - apply request_of_written; [apply is_method; vm_compute; reflexivity|apply form_url].
  - done.
  - done.
Defined.

(** ** Sessions *)

Lemma seg_env_peer ds t c : peer 6 ds [] t c (seg_env ds t c).
Proof.
  pose proof (seg_env_ok ds t c) as [Ht Hc]. split.
  - split; [exact Ht|]. destruct c; cbn; try done. by left.
  - destruct c; cbn in *; try done. intros ->. rewrite Nat.sub_0_r in *.
    destruct (ds !! recvs 6 t) as [d|]; [|cbn; lia]. intros Hn. by rewrite (proj2 (Z.leb_le _ _)).
Qed.

(** A request for the page in two segments, with the first bytes of another one
    behind it. *)
Definition get_pieces : list bytes := [B "GET /index.ht"].
Definition get_last : bytes := B "ml HTTP/1.1" ++ CRLF ++ B "Host: a" ++ CRLF ++ CRLF ++ B "GET /".

Lemma lines_ok (ls : list bytes) :
  bool_decide (Forall (fun l => l <> [] /\ CR ∉ l) ls) = true -> Forall header_line_ok ls.
Proof. intros Hl. by apply bool_decide_eq_true in Hl. Qed.

Lemma get_cut : cut_request (B "GET") (B "/index.html") [B "Host: a"] (B "GET /") get_pieces get_last.
Proof.
  split.
  - repeat constructor; done.
  - apply lines_ok. vm_compute. reflexivity.
  - repeat constructor; done.
  - vm_compute. reflexivity.
  - apply Nat.ltb_lt. vm_compute. reflexivity.
  - vm_compute. reflexivity.
Qed.

Lemma fresh_idle : idle_client (fresh_client 6).
Proof. do 7 (split; [done|]). change (0 <= 0 < 2920). lia. Qed.

Lemma get_session_witness : exists r s' t',
  run (seg_env (get_pieces ++ [get_last])) (client_turns 20 0 empty_handed) [] = (inl (r, s'), t')
  /\ 0 <= r /\ sent_on 6 t' = file_header (Some (B "/index.html")) page ++ B "<html>hello</html>"
  /\ idle_client s'.(client).
Proof.
  destruct (wp_run (peer 6 (get_pieces ++ [get_last]) []) (seg_env (get_pieces ++ [get_last])) (client_turns 20 0 empty_handed) _ []
    (seg_env_peer _)
    (get_session (B "/index.html") [B "Host: a"] (B "GET /") get_pieces get_last page empty_handed [] 18
       get_cut demo_server_inv (holding_buffers [] ltac:(cbn; lia)) fresh_idle eq_refl
       ltac:(vm_compute; reflexivity) ltac:(vm_compute; reflexivity) ltac:(cbn; lia)))
    as ([r s'] & t' & Hr & HQ).
  assert (Hpos : 0 <= r).
  { replace r with (match (run (seg_env (get_pieces ++ [get_last])) (client_turns 20 0 empty_handed) []).1 with inl (r, _) => r | inr _ => -1 end)
      by by rewrite Hr. vm_compute. congruence. }
  destruct (proj2 HQ Hpos) as (Hs & Hi & _). exists r, s', t'. split; [exact Hr|]. split; [done|].
  split; [exact Hs|exact Hi].
Defined.

(** A peer that sends the pieces and then an [x] whenever it is asked. *)
Definition post_env (ds : list bytes) : environment := fun t c =>
  match c return resp c with
  | FreeRTOS_recv s n =>
      match ds !! recvs 6 t with
      | Some d => if (len d <=? n) && (0 <? len d) then (len d, d) else good_env t (FreeRTOS_recv s n)
      | None => good_env t (FreeRTOS_recv s n)
      end
  | c => good_env t c
  end.

Lemma post_env_poster ds t c : Forall (fun d => d <> []) ds -> poster 6 ds [] t c (post_env ds t c).
Proof.
  intros Hne. pose proof (good_generous 6 t c) as Hg.
  destruct c; try (split; [exact Hg|split; [apply Hg|try done; apply Hg]]).
  assert (Hcase : forall x, (x = good_env t (FreeRTOS_recv s n)
     \/ exists d, ds !! recvs 6 t = Some d /\ len d <= n /\ 0 < len d /\ x = (len d, d)) ->
     generous 6 t (FreeRTOS_recv s n) x).
  { intros x [->|(d & Hd & Hl & Hp & ->)]; [done|]. split; [cbn; lia|]. cbn. lia. }
  assert (Hx : let x := post_env ds t (FreeRTOS_recv s n) in
     x = good_env t (FreeRTOS_recv s n)
     \/ exists d, ds !! recvs 6 t = Some d /\ len d <= n /\ 0 < len d /\ x = (len d, d)).
  { cbn. destruct (ds !! recvs 6 t) as [d|]; [|by left].
    destruct (Z.leb_spec (len d) n); cbn; [|by left]. destruct (Z.ltb_spec 0 (len d)); cbn; [|by left].
    right. by exists d. }
  split; [by apply Hcase|]. split; [by apply Hcase|]. intros -> d Hd Hn. rewrite Nat.sub_0_r in Hd. cbn. rewrite Hd.
  rewrite (proj2 (Z.leb_le _ _)) by done.
  assert (d <> []) by by eapply (Forall_lookup_1 (fun d => d <> [])). by destruct d.
Qed.

Definition post_pieces : list bytes := [B "POST /fo"; B "rm HTTP/1.1" ++ CRLF ++ B "Content-"].
Definition post_last : bytes := B "Length: 5" ++ CRLF ++ CRLF ++ B "ab".

Lemma post_cut : cut_request (B "POST") (B "/form") [B "Content-Length: 5"] (B "ab") post_pieces post_last.
Proof.
  split.
  - apply form_url.
  - apply lines_ok. vm_compute. reflexivity.
  - repeat constructor; done.
  - vm_compute. reflexivity.
  - apply Nat.ltb_lt. vm_compute. reflexivity.
  - vm_compute. reflexivity.
Qed.


(** ** Clients side by side *)

(** A second client, whose peer sends the same bytes over and over, and a new
    connection in each turn. *)
Definition busy_server : http_server := set_clients [Some (8, fresh_client 6); Some (9, fresh_client 7)] demo_server.

Definition busy_env : environment := fun t c =>
  match c return resp c with
  | FreeRTOS_accept _ => 100 + len t
  | c => seg_env (get_pieces ++ [get_last]) t c
  end.

Lemma busy_env_serving t c : serving (fresh_client 6) get_last get_pieces [] t c (busy_env t c).
Proof.
  pose proof (seg_env_peer (get_pieces ++ [get_last]) t c) as Hp. split_and!.
  - split; [|by destruct c]. destruct Hp as [[Ht _] _]. by destruct c.
  - by destruct c.
  - destruct c; try done. change (100 + len t <> 6). lia.
Qed.

Lemma busy_server_ok : server_ok busy_server.
Proof. apply set_clients_ok; [apply demo_server_inv|done|]. repeat constructor; try done; apply fresh_client_inv. Qed.

