(* ===== verification/UdpClient.v ===== *)
(** * UDP client

    [uni_net_udp_client.h] and [uni_net_udp_client.c], function by function, over
    the context of one client.  A NULL context is [None]; a NULL buffer, endpoint
    or output pointer is [None] too. *)

From S2P Require Import Prelude Env Prog CString.
#[local] Open Scope prog_scope.

Definition UNI_NET_UDP_DEFAULT_RX_TIMEOUT_MS := 1000.
Definition UNI_NET_UDP_DEFAULT_TX_TIMEOUT_MS := 1000.
Definition UNI_NET_UDP_RET_TIMEOUT := 0.

(** ** State *)

(** [uni_net_udp_client_config_t] *)
Record udp_client_config : Set := mk_udp_client_config {
  rx_timeout_ms : Z;
  tx_timeout_ms : Z;
}.
#[global] Instance eta_udp_client_config : Eta udp_client_config := fun x =>
  mk_udp_client_config x.(rx_timeout_ms) x.(tx_timeout_ms).

(** [uni_net_udp_client_state_t] *)
Record udp_client_state : Set := mk_udp_client_state {
  initialized : bool;
  socket : ptr;
  connected : bool;
  stack_connected : bool;
  default_remote : sockaddr;
  lock : ptr;
}.
#[global] Instance eta_udp_client_state : Eta udp_client_state := fun x =>
  mk_udp_client_state x.(initialized) x.(socket) x.(connected) x.(stack_connected) x.(default_remote) x.(lock).

(** [uni_net_udp_client_context_t] *)
Record udp_client : Set := mk_udp_client {
  config : udp_client_config;
  state : udp_client_state;
}.
#[global] Instance eta_udp_client : Eta udp_client := fun x => mk_udp_client x.(config) x.(state).

(** A context that [memset] cleared. *)
Definition zero_addr : sockaddr := mk_sockaddr 0 0 0.
Definition zero_client : udp_client :=
  mk_udp_client (mk_udp_client_config 0 0) (mk_udp_client_state false NULL false false zero_addr NULL).

(** ** Endpoints *)

Section UdpClient.
Context `{Platform}.

(** [uni_net_udp_ipv4_from_octets] *)
Definition uni_net_udp_ipv4_from_octets (a b c d : Z) : Z := FreeRTOS_inet_addr_quick a b c d.

(** [uni_net_udp_ipv4_from_string] *)
Definition uni_net_udp_ipv4_from_string {S} (dotted_or_host : option bytes) : M S Z :=
  match dotted_or_host with
  | None => ret 0
  | Some name =>
      let! ip := do_call (FreeRTOS_inet_addr name) in
      if ipconfigUSE_DNS then
        if ip =? 0 then
          let! ip := do_call (FreeRTOS_gethostbyname name) in
          ret ip
        else ret ip
      else ret ip
  end.

(** [uni_net_udp_endpoint_init] *)
Definition uni_net_udp_endpoint_init (ep : option udp_endpoint) (addr_nbo port_hbo : Z) : option udp_endpoint :=
  match ep with
  | Some ep => Some (ep <| ep_addr := addr_nbo |> <| ep_port := htons port_hbo |>)
  | None => None
  end.

(** [uni_net_udp_endpoint_init_quick] *)
Definition uni_net_udp_endpoint_init_quick (ep : option udp_endpoint) (a b c d port_hbo : Z) : option udp_endpoint :=
  match ep with
  | Some ep => Some (ep <| ep_addr := FreeRTOS_inet_addr_quick a b c d |> <| ep_port := htons port_hbo |>)
  | None => None
  end.

(** ** Helpers *)

Definition upd_state (f : udp_client_state -> udp_client_state) : M udp_client unit :=
  modify (fun c => c <| state ::= f |>).

(** [_lock] *)
Definition _lock : M udp_client unit :=
  let! c := get in
  if negb (c.(state).(lock) =? NULL) then do_call (xSemaphoreTake c.(state).(lock)) else ret tt.

(** [_unlock] *)
Definition _unlock : M udp_client unit :=
  let! c := get in
  if negb (c.(state).(lock) =? NULL) then do_call (xSemaphoreGive c.(state).(lock)) else ret tt.

(** [_apply_timeouts] *)
Definition _apply_timeouts {S} (s : ptr) (rx_ms tx_ms : Z) : M S Z :=
  let rx_ticks := pdMS_TO_TICKS rx_ms in
  let tx_ticks := pdMS_TO_TICKS tx_ms in
  let! r1 := do_call (FreeRTOS_setsockopt s (FREERTOS_SO_RCVTIMEO rx_ticks)) in
  let! r2 := do_call (FreeRTOS_setsockopt s (FREERTOS_SO_SNDTIMEO tx_ticks)) in
  ret (if (r1 =? 0) && (r2 =? 0) then 0 else -1).

(** [_map_timeout_to_wouldblock] *)
Definition _map_timeout_to_wouldblock (rv : Z) : Z :=
  if (rv =? - pdFREERTOS_ERRNO_EWOULDBLOCK) || (rv =? - pdFREERTOS_ERRNO_ETIMEDOUT)
  then UNI_NET_UDP_RET_TIMEOUT else rv.

(** [_socket_valid] *)
Definition _socket_valid (s : ptr) : bool := negb (s =? NULL) && negb (s =? FREERTOS_INVALID_SOCKET).

(** The address of an endpoint. *)
Definition sockaddr_of (ep : udp_endpoint) : sockaddr :=
  zero_addr <| sin_family := FREERTOS_AF_INET |> <| sin_port := ep.(ep_port) |> <| sin_addr := ep.(ep_addr) |>.

(** ** Public functions *)

(** [uni_net_udp_client_init] *)
Definition uni_net_udp_client_init (cfg : option udp_client_config) : M (option udp_client) bool :=
  with_ctx false (
    put zero_client ;;
    modify (fun c => c <| config := mk_udp_client_config UNI_NET_UDP_DEFAULT_RX_TIMEOUT_MS
                                      UNI_NET_UDP_DEFAULT_TX_TIMEOUT_MS |>) ;;
    (match cfg with
     | Some cfg => modify (fun c => c <| config ::= fun g => g <| rx_timeout_ms := cfg.(rx_timeout_ms) |>
                                                        <| tx_timeout_ms := cfg.(tx_timeout_ms) |> |>)
     | None => ret tt
     end) ;;
    let! lk := do_call xSemaphoreCreateMutex in
    upd_state (fun st => st <| lock := lk |>) ;;
    if negb (lk =? NULL) then
      let! s := do_call (FreeRTOS_socket FREERTOS_AF_INET FREERTOS_SOCK_DGRAM FREERTOS_IPPROTO_UDP) in
      upd_state (fun st => st <| socket := s |>) ;;
      if _socket_valid s then
        let! c := get in
        let! rc := _apply_timeouts s c.(config).(rx_timeout_ms) c.(config).(tx_timeout_ms) in
        if rc =? 0 then
          upd_state (fun st => st <| initialized := true |>) ;;
          ret true
        else
          let! _ := do_call (FreeRTOS_closesocket s) in
          do_call (vSemaphoreDelete lk) ;;
          put zero_client ;;
          ret false
      else
        do_call (vSemaphoreDelete lk) ;;
        put zero_client ;;
        ret false
    else ret false).

(** [uni_net_udp_client_is_inited] *)
Definition uni_net_udp_client_is_inited (c : option udp_client) : bool :=
  match c with Some c => c.(state).(initialized) | None => false end.

(** [uni_net_udp_client_deinit] *)
Definition uni_net_udp_client_deinit : M (option udp_client) bool :=
  with_ctx false (
    _lock ;;
    let! c := get in
    (if _socket_valid c.(state).(socket) then
       let! _ := do_call (FreeRTOS_closesocket c.(state).(socket)) in
       upd_state (fun st => st <| socket := FREERTOS_INVALID_SOCKET |>)
     else ret tt) ;;
    upd_state (fun st => st <| connected := false |>) ;;
    _unlock ;;
    (if negb (c.(state).(lock) =? NULL) then do_call (vSemaphoreDelete c.(state).(lock)) else ret tt) ;;
    put zero_client ;;
    ret true).

(** [uni_net_udp_client_connect] *)
Definition uni_net_udp_client_connect (remote : option udp_endpoint) : M (option udp_client) bool :=
  with_ctx false (
    let! c := get in
    match remote with
    | None => ret false
    | Some ep =>
        if negb c.(state).(initialized) then ret false
        else
          let addr := sockaddr_of ep in
          _lock ;;
          let! rc := do_call (FreeRTOS_connect c.(state).(socket) addr) in
          (if rc =? 0 then upd_state (fun st => st <| connected := true |> <| default_remote := addr |>)
           else ret tt) ;;
          _unlock ;;
          ret (rc =? 0)
    end).

(** [uni_net_udp_client_is_connected] *)
Definition uni_net_udp_client_is_connected (c : option udp_client) : bool :=
  match c with Some c => c.(state).(connected) | None => false end.

(** The bytes that the stack takes from a buffer: [(int32_t) len] of them, as the
    [size_t] parameter of the stack's function sees it. *)
Definition take_bytes {S} (buf : bytes) (len : Z) : M S bytes :=
  deref (read_at buf 0 (Z.to_nat (size_t (i32 len)))).

(** A positive result other than [len] is an error. *)
Definition whole_datagram (rv len : Z) : Z :=
  if (0 <? rv) && negb (size_t rv =? len) then - pdFREERTOS_ERRNO_EINVAL else rv.

(** [uni_net_udp_client_send] *)
Definition uni_net_udp_client_send (buf : option bytes) (len : Z) : M (option udp_client) Z :=
  with_ctx (- pdFREERTOS_ERRNO_EINVAL) (
    let! c := get in
    match buf with
    | None => ret (- pdFREERTOS_ERRNO_EINVAL)
    | Some buf =>
        if (len =? 0) || negb c.(state).(initialized) then ret (- pdFREERTOS_ERRNO_EINVAL)
        else if negb c.(state).(connected) then ret (- pdFREERTOS_ERRNO_ENOTCONN)
        else
          _lock ;;
          let! d := take_bytes buf len in
          let! rv := do_call (FreeRTOS_send c.(state).(socket) d) in
          _unlock ;;
          ret (whole_datagram (_map_timeout_to_wouldblock (i32 rv)) len)
    end).

(** [uni_net_udp_client_sendto] *)
Definition uni_net_udp_client_sendto (buf : option bytes) (len : Z) (remote : option udp_endpoint) :
    M (option udp_client) Z :=
  with_ctx (- pdFREERTOS_ERRNO_EINVAL) (
    let! c := get in
    match buf, remote with
    | Some buf, Some ep =>
        if (len =? 0) || negb c.(state).(initialized) then ret (- pdFREERTOS_ERRNO_EINVAL)
        else
          let dst := sockaddr_of ep in
          _lock ;;
          let! d := take_bytes buf len in
          let! rv := do_call (FreeRTOS_sendto c.(state).(socket) d dst) in
          _unlock ;;
          ret (whole_datagram (_map_timeout_to_wouldblock (i32 rv)) len)
    | _, _ => ret (- pdFREERTOS_ERRNO_EINVAL)
    end).

(** [uni_net_udp_client_recvfrom]: [buf] and [out_src] are the objects that the
    output parameters point to; the result has their new contents. *)
Definition uni_net_udp_client_recvfrom (buf : option bytes) (buf_size : Z) (out_src : option udp_endpoint) :
    M (option udp_client) (Z * option bytes * option udp_endpoint) :=
  with_ctx (- pdFREERTOS_ERRNO_EINVAL, buf, out_src) (
    let! c := get in
    match buf with
    | None => ret (- pdFREERTOS_ERRNO_EINVAL, buf, out_src)
    | Some b =>
        if (buf_size =? 0) || negb c.(state).(initialized) then ret (- pdFREERTOS_ERRNO_EINVAL, buf, out_src)
        else
          _lock ;;
          let! r := do_call (FreeRTOS_recvfrom c.(state).(socket) (size_t (i32 buf_size))) in
          let '(rv, d, from, from_len) := r in
          let! b' := deref (write_at b 0 d) in
          _unlock ;;
          let rv := _map_timeout_to_wouldblock (i32 rv) in
          ret (rv, Some b',
               match out_src with
               | Some ep => if (0 <=? rv) && (sizeof_sockaddr <=? from_len)
                            then Some (mk_endpoint from.(sin_addr) from.(sin_port)) else Some ep
               | None => None
               end)
    end).

(** [uni_net_udp_client_set_timeouts] *)
Definition uni_net_udp_client_set_timeouts (rx_ms tx_ms : Z) : M (option udp_client) bool :=
  with_ctx false (
    let! c := get in
    if negb c.(state).(initialized) then ret false
    else
      _lock ;;
      let! rc := _apply_timeouts c.(state).(socket) rx_ms tx_ms in
      (if rc =? 0
       then modify (fun c => c <| config ::= fun g => g <| rx_timeout_ms := rx_ms |> <| tx_timeout_ms := tx_ms |> |>)
       else ret tt) ;;
      _unlock ;;
      ret (rc =? 0)).

(** [uni_net_udp_client_get_timeouts]: the result and the new contents of the two
    output parameters. *)
Definition uni_net_udp_client_get_timeouts (c : option udp_client) (rx_ms tx_ms : option Z) :
    bool * option Z * option Z :=
  match c with
  | None => (false, rx_ms, tx_ms)
  | Some c => (true, (fun _ => c.(config).(rx_timeout_ms)) <$> rx_ms,
                     (fun _ => c.(config).(tx_timeout_ms)) <$> tx_ms)
  end.

End UdpClient.
