(* ===== verification/UdpClientSpec.v ===== *)
(** * UDP client: properties

    Resources are acquired by [init] and released by [deinit] or by a failing
    [init]; every use of the socket happens with the mutex held; a send is one
    whole datagram or an error; the invariant of the context is kept by every
    sequence of operations. *)

From S2P Require Import Prelude Env Prog Trace CString UdpClient.

Section UdpClientSpec.
Context `{PlatformOk}.

(** An initialised client has a socket and a mutex; only an initialised client
    is connected. *)
Definition client_ok (c : udp_client) : Prop :=
  (c.(state).(initialized) = true -> _socket_valid c.(state).(socket) = true /\ c.(state).(lock) <> NULL)
  /\ (c.(state).(connected) = true -> c.(state).(initialized) = true).

Lemma socket_valid_ne s : _socket_valid s = true -> s <> NULL /\ s <> FREERTOS_INVALID_SOCKET.
Proof. unfold _socket_valid. intros [H1 H2]%andb_true_iff. by split; intros ->. Qed.

Lemma socket_invalid_eqz s p : _socket_valid s = false -> _socket_valid p = true -> eqz s p = 0.
Proof. intros Hs Hp. apply eqz_ne. congruence. Qed.

Definition requested_config (cfg : option udp_client_config) : udp_client_config :=
  default (mk_udp_client_config UNI_NET_UDP_DEFAULT_RX_TIMEOUT_MS UNI_NET_UDP_DEFAULT_TX_TIMEOUT_MS) cfg.

(** What [init] leaves: a ready client that owns one socket and one mutex, or
    nothing. *)
Definition init_post (cfg : option udp_client_config) (t : trace) (r : bool) (c : udp_client) (t' : trace) : Prop :=
  if r then
    client_ok c /\ c.(state).(initialized) = true /\ c.(state).(connected) = false
    /\ c.(config) = requested_config cfg
    /\ (forall p, open_sockets p t' = open_sockets p t + eqz c.(state).(socket) p)
    /\ (forall p, live_mutexes p t' = live_mutexes p t + eqz c.(state).(lock) p)
  else
    c.(state).(initialized) = false /\ c.(state).(lock) = NULL /\ _socket_valid c.(state).(socket) = false
    /\ (forall p, _socket_valid p = true -> open_sockets p t' = open_sockets p t)
    /\ (forall p, p <> NULL -> live_mutexes p t' = live_mutexes p t).

Lemma client_init_spec cfg (c : udp_client) t :
  wp any_answer (uni_net_udp_client_init cfg (Some c))
    (fun '(r, o) t' => exists c', o = Some c' /\ init_post cfg t r c' t') t.
Proof.
  destruct cfg as [[rx tx]|]; cbn; intros lk _;
    (destruct (Z.eqb_spec lk NULL) as [->|Hlk]; cbn;
     [|intros s _; destruct (_socket_valid s) eqn:Hs; cbn;
       [intros r1 _ r2 _; destruct ((r1 =? 0) && (r2 =? 0)); cbn; [|intros r3 _ [] _]|intros [] _]]);
    (eexists; split; [done|]); unfold init_post;
    (split_and!; try done; intros; resources;
     first [rewrite (eqz_ne NULL) by congruence; lia | rewrite socket_invalid_eqz by done; lia]).
Qed.

(** What [deinit] releases: the socket and the mutex that the context has. *)
Definition deinit_post (c : udp_client) (t t' : trace) : Prop :=
  (forall p, _socket_valid p = true ->
     open_sockets p t' = open_sockets p t - (if _socket_valid c.(state).(socket) then eqz c.(state).(socket) p else 0))
  /\ (forall p, p <> NULL -> live_mutexes p t' = live_mutexes p t - eqz c.(state).(lock) p)
  /\ (forall p, held p t' = held p t).

Lemma deinit_spec (c : udp_client) t :
  wp any_answer (uni_net_udp_client_deinit (Some c))
    (fun '(r, o) t' => r = true /\ o = Some zero_client /\ deinit_post c t t') t.
Proof.
  cbn. unfold _lock, _unlock. cbn. unfold deinit_post.
  destruct (Z.eqb_spec c.(state).(lock) NULL) as [Hl|Hl]; cbn.
  - destruct (_socket_valid c.(state).(socket)) eqn:Hs; cbn; [intros r _|]; rewrite Hl; cbn;
      (split_and!; [done|done|..]); intros; resources; rewrite (eqz_ne NULL) by congruence; lia.
  - intros [] _. destruct (_socket_valid c.(state).(socket)) eqn:Hs; cbn; [intros r _|];
      rewrite (proj2 (Z.eqb_neq _ _)) by exact Hl; cbn; intros [] _ [] _;
      (split_and!; [done|done|..]); intros; resources.
Qed.

(** C25: A client that is set up and torn down leaves nothing behind, whether or not
    the setup succeeded. *)
Theorem udp_client_no_leak cfg (c : udp_client) t :
  wp any_answer (bindM (uni_net_udp_client_init cfg) (fun _ => uni_net_udp_client_deinit) (Some c))
    (fun '(_, o) t' => o = Some zero_client
       /\ (forall p, _socket_valid p = true -> open_sockets p t' = open_sockets p t)
       /\ (forall p, p <> NULL -> live_mutexes p t' = live_mutexes p t)) t.
Proof.
  cbn [bindM]. eapply wp_seq; [apply client_init_spec|]. intros [r o] t1 (c1 & -> & Hi).
  eapply wp_mono; [apply deinit_spec|]. intros [r2 o2] t2 (_ & -> & Hs & Hm & _).
  split; [done|]. destruct r.
  - destruct Hi as ([Hok _] & Hin & _ & _ & Hs1 & Hm1). destruct (Hok Hin) as [Hv _].
    split; intros p Hp; [rewrite Hs, Hs1, Hv by done|rewrite Hm, Hm1 by done]; lia.
  - destruct Hi as (_ & Hl & Hv & Hs1 & Hm1).
    split; intros p Hp; [rewrite Hs, Hs1, Hv by done|rewrite Hm, Hm1, Hl, (eqz_ne NULL) by done]; lia.
Qed.

(** ** The mutex *)

(** The calls of a trace that use the socket [s] are made while the mutex [lk] is
    held, it is taken only when free, and it is free at the end. *)
Fixpoint guarded (lk s : ptr) (taken : bool) (t : trace) : Prop :=
  match t with
  | [] => taken = false
  | e :: t' =>
      match e.(ev_call) with
      | xSemaphoreTake l => if l =? lk then taken = false /\ guarded lk s true t' else guarded lk s taken t'
      | xSemaphoreGive l => if l =? lk then taken = true /\ guarded lk s false t' else guarded lk s taken t'
      | FreeRTOS_send s' _ | FreeRTOS_sendto s' _ _ | FreeRTOS_recvfrom s' _ | FreeRTOS_connect s' _
      | FreeRTOS_setsockopt s' _ => (s' = s -> taken = true) /\ guarded lk s taken t'
      | _ => guarded lk s taken t'
      end
  end.

(** The operations on an initialised client. *)
Inductive udp_op : Set :=
| Op_connect (remote : option udp_endpoint)
| Op_send (buf : option bytes) (len : Z)
| Op_sendto (buf : option bytes) (len : Z) (remote : option udp_endpoint)
| Op_recvfrom (buf : option bytes) (buf_size : Z) (out_src : option udp_endpoint)
| Op_set_timeouts (rx_ms tx_ms : Z).

Definition exec (op : udp_op) : M (option udp_client) unit :=
  match op with
  | Op_connect remote => bindM (uni_net_udp_client_connect remote) (fun _ => ret tt)
  | Op_send buf len => bindM (uni_net_udp_client_send buf len) (fun _ => ret tt)
  | Op_sendto buf len remote => bindM (uni_net_udp_client_sendto buf len remote) (fun _ => ret tt)
  | Op_recvfrom buf n out => bindM (uni_net_udp_client_recvfrom buf n out) (fun _ => ret tt)
  | Op_set_timeouts rx tx => bindM (uni_net_udp_client_set_timeouts rx tx) (fun _ => ret tt)
  end.

Fixpoint exec_all (ops : list udp_op) : M (option udp_client) unit :=
  match ops with
  | [] => ret tt
  | op :: ops' => bindM (exec op) (fun _ => exec_all ops')
  end.

(** The lengths that a caller passes are those of its buffers. *)
Definition op_ok (op : udp_op) : Prop :=
  match op with
  | Op_send (Some buf) n | Op_sendto (Some buf) n _ | Op_recvfrom (Some buf) n _ =>
      0 <= n <= len buf /\ n < 2 ^ 31
  | _ => True
  end.

(** What an operation leaves: the same socket and mutex, and a guarded trace. *)
Definition op_post (c : udp_client) (t : trace) (o : option udp_client) (t' : trace) : Prop :=
  exists c' t1, o = Some c' /\ t' = t ++ t1 /\ client_ok c'
    /\ c'.(state).(initialized) = c.(state).(initialized)
    /\ c'.(state).(socket) = c.(state).(socket) /\ c'.(state).(lock) = c.(state).(lock)
    /\ guarded c.(state).(lock) c.(state).(socket) false t1.

Lemma take_bytes_eq {S} (buf : bytes) n (s : S) :
  0 <= n <= len buf -> n < 2 ^ 31 -> take_bytes buf n s = Ret (take (Z.to_nat n) buf, s).
Proof.
  intros Hn Hlt. unfold take_bytes. rewrite i32_small, size_t_small by lia.
  rewrite read_at_Some by lia. cbn. by rewrite drop_0.
Qed.

Lemma op_post_refl (c : udp_client) t : client_ok c -> op_post c t (Some c) t.
Proof. intros Hc. exists c, []. rewrite app_nil_r. by split_and!. Qed.

(** Close a goal [op_post] after the calls of an operation. *)
Ltac op_done :=
  eexists; eexists; (split; [reflexivity|]); (split; [by rewrite <- !app_assoc|]);
  unfold client_ok; cbn; rewrite ?Z.eqb_refl; split_and!; cbn; tauto || (intros; congruence) || done.

Lemma exec_spec op (c : udp_client) t :
  op_ok op -> client_ok c ->
  wp udp_ok (exec op (Some c)) (fun '(_, o) t' => op_post c t o t') t.
Proof.
  intros Hop Hc. pose proof Hc as [Hin Hcon].
  destruct (initialized (state c)) eqn:Ei.
  2: { destruct op as [[ep|]|[buf|] n|[buf|] n [ep|]|[buf|] n out|rx tx]; cbn; rewrite ?Ei, ?orb_true_r; cbn;
         by apply op_post_refl. }
  destruct (Hin eq_refl) as [Hs Hl].
  assert (Hlb : (lock (state c) =? NULL) = false) by by apply Z.eqb_neq.
  destruct op as [[ep|]|[buf|] n|[buf|] n [ep|]|[buf|] n out|rx tx]; cbn; rewrite ?Ei, ?orb_false_r; cbn;
    try by apply op_post_refl.
  - rewrite Hlb. cbn. intros [] _ rc _. case_match; cbn; rewrite Hlb; cbn; intros [] _; op_done.
  - case_match; [by apply op_post_refl|]. cbn. case_match; [by apply op_post_refl|]. cbn. rewrite Hlb. cbn.
    intros [] _. rewrite (take_bytes_eq buf n) by apply Hop. cbn. intros rv _. rewrite Hlb. cbn. intros [] _. op_done.
  - case_match; [by apply op_post_refl|]. cbn. rewrite Hlb. cbn.
    intros [] _. rewrite (take_bytes_eq buf n) by apply Hop. cbn. intros rv _. rewrite Hlb. cbn. intros [] _. op_done.
  - case_match; [by apply op_post_refl|]. cbn. rewrite Hlb. cbn. destruct Hop as [Hn Hlt].
    rewrite i32_small, size_t_small by lia.
    intros [] _ [[[rv d] from] fl] Hd. cbn in Hd.
    destruct (write_at_Some buf 0 d) as (b' & Hw & _); [cbn; lia|]. cbn. rewrite Hw. cbn. rewrite Hlb. cbn.
    intros [] _. op_done.
  - rewrite Hlb. cbn. intros [] _ r1 _ r2 _. case_match; cbn; rewrite Hlb; cbn; intros [] _; op_done.
Qed.

Lemma guarded_app lk s t1 t2 : guarded lk s false t1 -> guarded lk s false t2 -> guarded lk s false (t1 ++ t2).
Proof.
  generalize false at 1 3. intros b. revert b. induction t1 as [|e t1 IH]; intros b; [by intros ->|].
  cbn. destruct (ev_call e); try case_match; intuition eauto.
Qed.

(** C16: Whatever sequence of operations is run on a client, whatever the stack
    answers: the context stays consistent, no buffer is overrun, and the mutex is
    held at each use of the socket and free in between. *)
Theorem udp_client_ops_guarded ops (c : udp_client) t :
  Forall op_ok ops -> client_ok c ->
  wp udp_ok (exec_all ops (Some c)) (fun '(_, o) t' => op_post c t o t') t.
Proof.
  intros Hops. revert c t. induction Hops as [|op ops Hop Hops IH]; intros c t Hc; [by apply op_post_refl|].
  cbn [exec_all bindM]. eapply wp_seq; [by apply exec_spec|].
  intros [_ o] t1 (c1 & d1 & -> & -> & Hc1 & Hi1 & Hs1 & Hl1 & Hg1).
  eapply wp_mono; [by apply IH|].
  intros [_ o] t2 (c2 & d2 & -> & -> & Hc2 & Hi2 & Hs2 & Hl2 & Hg2).
  exists c2, (d1 ++ d2). rewrite <- app_assoc. rewrite Hs1, Hl1 in Hg2.
  split_and!; try congruence. by apply guarded_app.
Qed.

(** ** Results *)

Lemma errno_bounds e : e ∈ errnos -> 0 < e < 2 ^ 31.
Proof. apply (proj1 (Forall_forall _ _) errno_pos). Qed.

Lemma whole_datagram_result rv n :
  - 2 ^ 31 <= rv < 2 ^ 31 -> whole_datagram rv n = n \/ whole_datagram rv n <= 0.
Proof.
  intros Hr. unfold whole_datagram. destruct (Z.ltb_spec 0 rv); cbn; [|by right].
  destruct (Z.eqb_spec (size_t rv) n) as [<-|]; cbn; [left|right].
  - rewrite size_t_small; lia.
  - pose proof (errno_bounds pdFREERTOS_ERRNO_EINVAL ltac:(unfold errnos; rewrite !elem_of_cons; tauto)). lia.
Qed.

Lemma map_timeout_range rv : - 2 ^ 31 <= rv < 2 ^ 31 -> - 2 ^ 31 <= _map_timeout_to_wouldblock rv < 2 ^ 31.
Proof. intros. unfold _map_timeout_to_wouldblock. case_match; [|done]. unfold UNI_NET_UDP_RET_TIMEOUT. lia. Qed.

(** A send has the whole datagram on its way or reports that it has not: the
    result is the length, zero or negative, whatever the stack answers. *)
Theorem udp_client_send_result buf n (o : option udp_client) t :
  match buf with Some b => 0 <= n <= len b /\ n < 2 ^ 31 | None => True end ->
  wp any_answer (uni_net_udp_client_send buf n o) (fun '(r, _) _ => r = n \/ r <= 0) t.
Proof.
  intros Hn.
  assert (Hneg : forall e, e ∈ errnos -> - e = n \/ - e <= 0).
  { intros e He. pose proof (errno_bounds e He). lia. }
  destruct o as [c|], buf as [buf|]; cbn; try (apply Hneg; unfold errnos; rewrite !elem_of_cons; tauto).
  case_match; [cbn; apply Hneg; unfold errnos; rewrite !elem_of_cons; tauto|]. cbn. case_match; [cbn; apply Hneg; unfold errnos; rewrite !elem_of_cons; tauto|]. cbn.
  assert (Hend : forall rv, whole_datagram (_map_timeout_to_wouldblock (i32 rv)) n = n
                   \/ whole_datagram (_map_timeout_to_wouldblock (i32 rv)) n <= 0).
  { intros rv. apply whole_datagram_result, map_timeout_range, i32_range. }
  case_match; cbn; [intros [] _|]; rewrite (take_bytes_eq buf n) by apply Hn; cbn; intros rv _;
    case_match; cbn; [intros [] _|..]; auto.
Qed.

(** The timeouts that the context reports are the ones that were last set with
    success; [init] starts with the requested ones. *)
Theorem udp_client_timeouts_roundtrip rx tx (c : udp_client) x y t :
  wp any_answer (uni_net_udp_client_set_timeouts rx tx (Some c))
    (fun '(r, o) _ => uni_net_udp_client_get_timeouts o (Some x) (Some y)
       = (true, Some (if r then rx else c.(config).(rx_timeout_ms)),
                Some (if r then tx else c.(config).(tx_timeout_ms)))) t.
Proof.
  cbn. unfold _lock, _unlock. destruct (initialized (state c)); cbn; [|done].
  destruct (lock (state c) =? NULL) eqn:El; cbn; [|intros [] _]; intros r1 _ r2 _;
    destruct ((r1 =? 0) && (r2 =? 0)); cbn; rewrite El; cbn; try intros [] _; done.
Qed.

(** After [deinit] the context is inert: every operation is refused without a
    call, and a second [deinit] does nothing. *)
Theorem udp_client_deinit_inert op :
  exec op (Some zero_client) = Ret (tt, Some zero_client)
  /\ uni_net_udp_client_deinit (Some zero_client) = Ret (true, Some zero_client).
Proof.
  split; [|done].
  by destruct op as [[ep|]|[buf|] n|[buf|] n [ep|]|[buf|] n out|rx tx]; cbn; rewrite ?orb_true_r.
Qed.

(** ** Endpoints *)

Lemma htons_arith z : 0 <= z < 2 ^ 16 -> htons z = z mod 2 ^ 8 * 2 ^ 8 + z / 2 ^ 8.
Proof.
  intros Hz. unfold htons, u16. rewrite Z.shiftr_div_pow2 by lia.
  rewrite lor_shift by (Z.div_mod_to_equations; lia). Z.div_mod_to_equations. lia.
Qed.

Lemma inet_addr_quick_arith a b c d :
  0 <= a < 256 -> 0 <= b < 256 -> 0 <= c < 256 ->
  FreeRTOS_inet_addr_quick a b c d = a + b * 2 ^ 8 + c * 2 ^ 16 + d * 2 ^ 24.
Proof.
  intros. unfold FreeRTOS_inet_addr_quick.
  rewrite <- !Z.lor_assoc. rewrite (lor_shift b a 8) by lia.
  rewrite (lor_shift c) by lia. rewrite lor_shift by lia. lia.
Qed.

(** An endpoint holds the octets of its address and its port in network order:
    byte [i] of the address in memory is octet [i], and reading the port back
    with the same macro gives the port. *)
Theorem udp_endpoint_network_order ep a b c d port :
  0 <= a < 256 -> 0 <= b < 256 -> 0 <= c < 256 -> 0 <= d < 256 -> 0 <= port < 2 ^ 16 ->
  exists e, uni_net_udp_endpoint_init_quick (Some ep) a b c d port = Some e
    /\ uni_net_udp_endpoint_init (Some ep) (uni_net_udp_ipv4_from_octets a b c d) port = Some e
    /\ [e.(ep_addr) mod 256; e.(ep_addr) / 2 ^ 8 mod 256; e.(ep_addr) / 2 ^ 16 mod 256; e.(ep_addr) / 2 ^ 24]
       = [a; b; c; d]
    /\ e.(ep_port) = port mod 256 * 256 + port / 256 /\ htons e.(ep_port) = port.
Proof.
  intros Ha Hb Hc Hd Hp. eexists. split; [done|]. split; [done|]. cbn.
  rewrite inet_addr_quick_arith, (htons_arith port) by done. split_and!; [|done|].
  - repeat f_equal; Z.div_mod_to_equations; lia.
  - rewrite htons_arith by (Z.div_mod_to_equations; lia). Z.div_mod_to_equations. lia.
Qed.

End UdpClientSpec.
