(* ===== verification/UdpClientThreads.v ===== *)
(** * UDP client: its functions as threads over a shared context

    The functions of [uni_net_udp_client.c] that a client offers once it is
    initialised, load by load and store by store; [is_function] ties each of them to
    its definition in [UdpClient]. *)

From S2P Require Import Prelude Env Prog Threads Interleaving Serial CString UdpClient.

Abbreviation thread := (thread_over udp_client).
Abbreviation world := (world_over udp_client).
#[local] Open Scope thread_scope.

(** No field is read without the lock by a call of its own. *)
#[export] Instance udp_client_volatile : Volatile udp_client := fun _ _ => None.

Section UdpClientThreads.
Context `{Platform}.

Definition store_state (f : udp_client_state -> udp_client_state) : thread unit :=
  store (fun c => c <| state ::= f |>).

(** [_lock] *)
Definition client_lock_thread : thread unit :=
  let! c := load in
  if negb (c.(state).(lock) =? NULL) then
    let! c := load in
    calls (xSemaphoreTake c.(state).(lock))
  else Done tt.

(** [_unlock] *)
Definition client_unlock_thread : thread unit :=
  let! c := load in
  if negb (c.(state).(lock) =? NULL) then
    let! c := load in
    calls (xSemaphoreGive c.(state).(lock))
  else Done tt.

(** [_apply_timeouts] *)
Definition client_apply_timeouts_thread (s : ptr) (rx_ms tx_ms : Z) : thread Z :=
  let rx_ticks := pdMS_TO_TICKS rx_ms in
  let tx_ticks := pdMS_TO_TICKS tx_ms in
  let! r1 := calls (FreeRTOS_setsockopt s (FREERTOS_SO_RCVTIMEO rx_ticks)) in
  let! r2 := calls (FreeRTOS_setsockopt s (FREERTOS_SO_SNDTIMEO tx_ticks)) in
  Done (if (r1 =? 0) && (r2 =? 0) then 0 else -1).

(** [uni_net_udp_client_connect] *)
Definition client_connect_thread (remote : option udp_endpoint) : thread bool :=
  match remote with
  | None => Done false
  | Some ep =>
      let! c := load in
      if negb c.(state).(initialized) then Done false
      else
        let addr := sockaddr_of ep in
        client_lock_thread ;;
        let! c := load in
        let! rc := calls (FreeRTOS_connect c.(state).(socket) addr) in
        (if rc =? 0 then
           store_state (fun st => st <| connected := true |>) ;;
           store_state (fun st => st <| default_remote := addr |>)
         else Done tt) ;;
        client_unlock_thread ;;
        Done (rc =? 0)
  end.

(** [uni_net_udp_client_send] *)
Definition client_send_thread (buf : option bytes) (len : Z) : thread Z :=
  match buf with
  | None => Done (- pdFREERTOS_ERRNO_EINVAL)
  | Some buf =>
      let! c := load in
      if (len =? 0) || negb c.(state).(initialized) then Done (- pdFREERTOS_ERRNO_EINVAL)
      else
        let! c := load in
        if negb c.(state).(connected) then Done (- pdFREERTOS_ERRNO_ENOTCONN)
        else
          client_lock_thread ;;
          let! c := load in
          let! d := tderef (read_at buf 0 (Z.to_nat (size_t (i32 len)))) in
          let! rv := calls (FreeRTOS_send c.(state).(socket) d) in
          client_unlock_thread ;;
          Done (whole_datagram (_map_timeout_to_wouldblock (i32 rv)) len)
  end.

(** [uni_net_udp_client_sendto] *)
Definition client_sendto_thread (buf : option bytes) (len : Z) (remote : option udp_endpoint) : thread Z :=
  match buf, remote with
  | Some buf, Some ep =>
      let! c := load in
      if (len =? 0) || negb c.(state).(initialized) then Done (- pdFREERTOS_ERRNO_EINVAL)
      else
        let dst := sockaddr_of ep in
        client_lock_thread ;;
        let! c := load in
        let! d := tderef (read_at buf 0 (Z.to_nat (size_t (i32 len)))) in
        let! rv := calls (FreeRTOS_sendto c.(state).(socket) d dst) in
        client_unlock_thread ;;
        Done (whole_datagram (_map_timeout_to_wouldblock (i32 rv)) len)
  | _, _ => Done (- pdFREERTOS_ERRNO_EINVAL)
  end.

(** [uni_net_udp_client_recvfrom]; the buffer belongs to the caller alone, so that it
    makes no difference when its new contents are computed. *)
Definition client_recvfrom_thread (buf : option bytes) (buf_size : Z) (out_src : option udp_endpoint) :
    thread (Z * option bytes * option udp_endpoint) :=
  match buf with
  | None => Done (- pdFREERTOS_ERRNO_EINVAL, buf, out_src)
  | Some b =>
      let! c := load in
      if (buf_size =? 0) || negb c.(state).(initialized) then Done (- pdFREERTOS_ERRNO_EINVAL, buf, out_src)
      else
        client_lock_thread ;;
        let! c := load in
        let! r := calls (FreeRTOS_recvfrom c.(state).(socket) (size_t (i32 buf_size))) in
        let '(rv, d, from, from_len) := r in
        let! b' := tderef (write_at b 0 d) in
        client_unlock_thread ;;
        let rv := _map_timeout_to_wouldblock (i32 rv) in
        Done (rv, Some b',
              match out_src with
              | Some ep => if (0 <=? rv) && (sizeof_sockaddr <=? from_len)
                           then Some (mk_endpoint from.(sin_addr) from.(sin_port)) else Some ep
              | None => None
              end)
  end.

(** [uni_net_udp_client_set_timeouts] *)
Definition client_set_timeouts_thread (rx_ms tx_ms : Z) : thread bool :=
  let! c := load in
  if negb c.(state).(initialized) then Done false
  else
    client_lock_thread ;;
    let! c := load in
    let! rc := client_apply_timeouts_thread c.(state).(socket) rx_ms tx_ms in
    (if rc =? 0 then
       store (fun c => c <| config ::= fun g => g <| rx_timeout_ms := rx_ms |> |>) ;;
       store (fun c => c <| config ::= fun g => g <| tx_timeout_ms := tx_ms |> |>)
     else Done tt) ;;
    client_unlock_thread ;;
    Done (rc =? 0).

(** [uni_net_udp_client_get_timeouts] with both output parameters. *)
Definition client_get_timeouts_thread : thread (Z * Z) :=
  let! c := load in
  let rx := c.(config).(rx_timeout_ms) in
  let! c := load in
  let tx := c.(config).(tx_timeout_ms) in
  Done (rx, tx).

(** [uni_net_udp_client_deinit] *)
Definition client_deinit_thread : thread bool :=
  client_lock_thread ;;
  let! c := load in
  (if _socket_valid c.(state).(socket) then
     let! c := load in
     let! _ := calls (FreeRTOS_closesocket c.(state).(socket)) in
     store_state (fun st => st <| socket := FREERTOS_INVALID_SOCKET |>)
   else Done tt) ;;
  store_state (fun st => st <| connected := false |>) ;;
  client_unlock_thread ;;
  let! c := load in
  (if negb (c.(state).(lock) =? NULL) then let! c := load in calls (vSemaphoreDelete c.(state).(lock))
   else Done tt) ;;
  store (fun _ => zero_client) ;;
  Done true.

(** ** Without interference *)

(** A thread that is the function it stands for, answer by answer. *)
Definition is_function {A} (th : thread A) (f : M (option udp_client) A) : Prop :=
  forall c, peq (bind (alone th c) (fun '(a, c') => Ret (a, Some c'))) (f (Some c)).

Ltac peq_steps :=
  intros ?; cbn; unfold client_lock_thread, client_unlock_thread, _lock, _unlock, take_bytes; cbn;
  repeat first [ apply peq_ret | apply peq_stop | apply peq_vis; intros ?; cbn | case_match; cbn | progress simplify_eq ].

Lemma connect_is_function ep : is_function (client_connect_thread ep) (uni_net_udp_client_connect ep).
Proof. destruct ep; peq_steps. Qed.
Lemma send_is_function b n : is_function (client_send_thread b n) (uni_net_udp_client_send b n).
Proof. destruct b; peq_steps. Qed.
Lemma sendto_is_function b n ep : is_function (client_sendto_thread b n ep) (uni_net_udp_client_sendto b n ep).
Proof. destruct b, ep; peq_steps. Qed.
Lemma recvfrom_is_function b n ep : is_function (client_recvfrom_thread b n ep) (uni_net_udp_client_recvfrom b n ep).
Proof. destruct b; peq_steps. Qed.
Lemma set_timeouts_is_function rx tx : is_function (client_set_timeouts_thread rx tx) (uni_net_udp_client_set_timeouts rx tx).
Proof. peq_steps. Qed.
Lemma deinit_is_function : is_function client_deinit_thread uni_net_udp_client_deinit.
Proof. peq_steps. Qed.
Lemma get_timeouts_is_function c x y :
  alone client_get_timeouts_thread c
  = let '(_, rx, tx) := uni_net_udp_client_get_timeouts (Some c) (Some x) (Some y) in
    Ret (default 0 rx, default 0 tx, c).
Proof. done. Qed.

End UdpClientThreads.
