(* ===== verification/UdpClientConcurrent.v ===== *)
(** * UDP client: callers from many tasks

    The header promises that the mutex of a client serialises configuration and
    input and output.  This is the theorem: any number of tasks that connect, send,
    receive and set timeouts at the same time run as if one after the other
    ([udp_client_serializable]).  It does not extend to what works without the mutex:
    [get_timeouts_torn] and [deinit_under_callers] are schedules in which
    [uni_net_udp_client_get_timeouts] reports a pair that was never configured and
    [uni_net_udp_client_deinit] deletes the mutex that another task is about to take. *)

From stdpp Require Import relations.
From S2P Require Import Prelude Env Prog Trace Threads Interleaving Schedules Serial Instance CString UdpClient UdpClientSpec UdpClientThreads.
#[local] Open Scope thread_scope.

(** ** Operations *)

Inductive outcome : Set :=
| Bool (b : bool)
| Int (rv : Z)
| Received (rv : Z) (buf : option bytes) (src : option udp_endpoint).

Section Callers.
Context `{PlatformOk}.
Context (handle : nat -> ptr).

Definition serve (q : udp_op) : thread outcome :=
  match q with
  | Op_connect ep => let! b := client_connect_thread ep in Done (Bool b)
  | Op_send b n => let! r := client_send_thread b n in Done (Int r)
  | Op_sendto b n ep => let! r := client_sendto_thread b n ep in Done (Int r)
  | Op_recvfrom b n ep => let! r := client_recvfrom_thread b n ep in Done (Received r.1.1 r.1.2 r.2)
  | Op_set_timeouts rx tx => let! b := client_set_timeouts_thread rx tx in Done (Bool b)
  end.

(** The same operation as a function call. *)
Definition call_op (q : udp_op) : M (option udp_client) outcome :=
  match q with
  | Op_connect ep => bindM (uni_net_udp_client_connect ep) (fun b => ret (Bool b))
  | Op_send b n => bindM (uni_net_udp_client_send b n) (fun r => ret (Int r))
  | Op_sendto b n ep => bindM (uni_net_udp_client_sendto b n ep) (fun r => ret (Int r))
  | Op_recvfrom b n ep => bindM (uni_net_udp_client_recvfrom b n ep) (fun r => ret (Received r.1.1 r.1.2 r.2))
  | Op_set_timeouts rx tx => bindM (uni_net_udp_client_set_timeouts rx tx) (fun b => ret (Bool b))
  end.

(** On a client that is there. *)
Definition perform (q : udp_op) : M udp_client outcome := fun c =>
  bind (call_op q (Some c)) (fun '(a, o) => match o with Some c' => Ret (a, c') | None => Stop UB end).

(** ** The client *)

Context (L s : ptr) (HL : L <> NULL).

Definition steady (c : udp_client) : Prop :=
  c.(state).(initialized) = true /\ c.(state).(lock) = L /\ c.(state).(socket) = s.

Definition ticks_of (c : udp_client) : Z * Z :=
  (pdMS_TO_TICKS c.(config).(rx_timeout_ms), pdMS_TO_TICKS c.(config).(tx_timeout_ms)).

(** The socket has the timeouts of the configuration, and the peer of the context. *)
Definition in_step (c : udp_client) (k : gmap Z (Z * Z)) (p : gmap Z sockaddr) : Prop :=
  k = {[ s := ticks_of c ]}
  /\ p = if c.(state).(connected) then {[ s := c.(state).(default_remote) ]} else ∅.

Abbreviation flag := (fun c : udp_client => c.(state).(connected)).
Abbreviation inside := (inside handle L steady flag in_step).
Abbreviation before := (before handle L steady flag in_step).

(** The lock and the unlock, in an operation whose result is wrapped by [g]. *)
Lemma before_lock {A} b (f : unit -> thread A) (g : A -> thread outcome) :
  (forall i w, steady w.(shared) -> in_step w.(shared) w.(sockets) w.(peers) ->
     (b = true -> flag w.(shared) = true) -> inside i (tbind (f tt) g) w) ->
  before b (tbind (tbind client_lock_thread f) g).
Proof.
  intros Hf. cbn.
  apply before_load with (th := Load (fun c => Call (xSemaphoreTake c.(state).(lock)) (fun r => tbind (f r) g))).
  { intros x (_ & Hx & _). rewrite Hx, (proj2 (Z.eqb_neq _ _) HL). done. }
  apply before_load with (th := Call (xSemaphoreTake L) (fun r => tbind (f r) g)).
  { by intros x (_ & -> & _). }
  by apply before_take.
Qed.

Lemma inside_unlock {A} i (f : unit -> thread A) (g : A -> thread outcome) w a :
  steady w.(shared) -> in_step w.(shared) w.(sockets) w.(peers) -> tbind (f tt) g = Done a ->
  inside i (tbind (tbind client_unlock_thread f) g) w.
Proof.
  intros (_ & Hl & _) Hr Hf. cbn. rewrite Hl, (proj2 (Z.eqb_neq _ _) HL). cbn. rewrite Hl. eauto.
Qed.

(** The operation has what it needs: buffers, endpoints and lengths. *)
Definition complete (q : udp_op) : Prop :=
  match q with
  | Op_connect ep => is_Some ep
  | Op_send (Some b) n => 0 < n <= len b /\ n < 2 ^ 31
  | Op_sendto (Some b) n (Some _) => 0 < n <= len b /\ n < 2 ^ 31
  | Op_recvfrom (Some b) n _ => 0 < n <= len b /\ n < 2 ^ 31
  | Op_set_timeouts _ _ => True
  | _ => False
  end.

Lemma socket_there (w : world) : in_step w.(shared) w.(sockets) w.(peers) -> w.(sockets) !! s = Some (ticks_of w.(shared)).
Proof. intros [-> _]. apply lookup_singleton_eq. Qed.

Lemma sent_bytes b n : 0 < n <= len b -> n < 2 ^ 31 -> read_at b 0 (Z.to_nat (size_t (i32 n))) = Some (take (Z.to_nat n) b).
Proof. intros Hn Hlt. rewrite i32_small, size_t_small by lia. rewrite read_at_Some by lia. by rewrite drop_0. Qed.

(** The first look at the context. *)
Lemma before_inited b (k : udp_client -> thread outcome) th :
  (forall x, x.(state).(initialized) = true -> k x = th) -> before b th -> before b (Load k).
Proof. intros Hk. apply before_load. intros x (Hx & _). by apply Hk. Qed.

Ltac inside_step := cbn [tbind load calls store store_state tderef client_apply_timeouts_thread Serial.inside private].

Lemma before_connect ep : before false (serve (Op_connect (Some ep))).
Proof.
  cbn [serve]. unfold client_connect_thread. cbn [tbind load].
  eapply before_inited; [intros x ->; cbn [negb tbind]; reflexivity|]. apply before_lock.
  intros i w Hst Hr _. inside_step. rewrite (proj2 (proj2 Hst)). split; [done|]. split.
  { exists 1, w. split; [|done]. rewrite (socket_there _ Hr). by eexists. }
  intros rc w' [_ ->]. destruct (Z.eqb_spec rc 0) as [->|Hrc]; inside_step.
  - split_and!; [done|done|done|done|]. eapply inside_unlock; [done| |done]. destruct Hr as [Hk Hp].
    split; [done|]. cbn. rewrite Hp. case_match; [apply insert_singleton_eq|done].
  - by eapply inside_unlock.
Qed.

Lemma before_send b n : 0 < n <= len b -> n < 2 ^ 31 -> before false (serve (Op_send (Some b) n)).
Proof.
  intros Hn Hlt. cbn [serve]. unfold client_send_thread. cbn [tbind load].
  eapply before_inited; [intros x ->; rewrite (proj2 (Z.eqb_neq n 0)) by lia; cbn [negb orb tbind load]; reflexivity|].
  eapply before_test; [intros x _; rewrite sent_bytes by done; destruct x.(state).(connected); cbn [negb tbind]; reflexivity|].
  apply before_lock. intros i w Hst Hr Hc. inside_step. rewrite (proj2 (proj2 Hst)). specialize (Hc eq_refl).
  split; [done|]. split.
  { exists 0, w. destruct Hr as [Hk Hp]. rewrite Hc in Hp. split; [split; [|done]|rewrite Hp]; [rewrite Hk|]; rewrite lookup_singleton_eq; by eexists. }
  intros rv w' [[_ ->] _]. by eapply inside_unlock.
Qed.

Lemma before_sendto b n ep : 0 < n <= len b -> n < 2 ^ 31 -> before false (serve (Op_sendto (Some b) n (Some ep))).
Proof.
  intros Hn Hlt. cbn [serve]. unfold client_sendto_thread. cbn [tbind load].
  eapply before_inited; [intros x ->; rewrite (proj2 (Z.eqb_neq n 0)), sent_bytes by (lia || done); cbn [negb orb tbind load]; reflexivity|].
  apply before_lock. intros i w Hst Hr _. inside_step. rewrite (proj2 (proj2 Hst)). split; [done|]. split.
  { exists 0, w. split; [|done]. rewrite (socket_there _ Hr). by eexists. }
  intros rv w' [_ ->]. by eapply inside_unlock.
Qed.

Lemma before_recvfrom b n out : 0 < n <= len b -> n < 2 ^ 31 -> before false (serve (Op_recvfrom (Some b) n out)).
Proof.
  intros Hn Hlt. cbn [serve]. unfold client_recvfrom_thread. cbn [tbind load].
  eapply before_inited; [intros x ->; rewrite (proj2 (Z.eqb_neq n 0)) by lia; cbn [negb orb tbind load]; reflexivity|].
  apply before_lock. intros i w Hst Hr _. inside_step. rewrite (proj2 (proj2 Hst)), i32_small, size_t_small by lia.
  split; [done|]. split.
  { exists (zero_resp (FreeRTOS_recvfrom s n)), w. split; [split; [|done]|cbn; lia]. rewrite (socket_there _ Hr). by eexists. }
  intros [[[rv d] from] from_len] w' [[_ ->] Hd]. cbn in Hd. destruct (write_at_Some b 0 d) as (b' & Hb & _); [lia|].
  cbn beta iota. rewrite Hb. inside_step. by eapply inside_unlock.
Qed.

Lemma before_set_timeouts rx tx : before false (serve (Op_set_timeouts rx tx)).
Proof.
  cbn [serve]. unfold client_set_timeouts_thread. cbn [tbind load].
  eapply before_inited; [intros x ->; cbn [negb tbind load]; reflexivity|].
  apply before_lock. intros i w Hst Hr _. inside_step. rewrite (proj2 (proj2 Hst)).
  pose proof (socket_there _ Hr) as Hsk. destruct Hr as [Hk Hp]. split; [done|]. split; [by exists 0; eexists; eexists|].
  intros r1 w1 (p & Hp1 & -> & ->). simplify_eq. split; [done|]. split.
  { exists 0. eexists. eexists. split; [cbn; apply lookup_insert_eq|done]. }
  intros r2 w2 (p & Hp2 & -> & ->). cbn in Hp2. rewrite lookup_insert_eq in Hp2. injection Hp2 as <-.
  cbn [andb Z.eqb]. inside_step. split_and!; [done..|].
  eapply inside_unlock; [done| |done]. cbn. split; [|done]. rewrite insert_insert_eq, Hk, insert_singleton_eq. done.
Qed.

Lemma serve_before q : complete q -> before false (serve q).
Proof.
  destruct q as [[ep|]|[b|] n|[b|] n [ep|]|[b|] n out|rx tx]; cbn; try done; try by intros [].
  - intros _. apply before_connect.
  - intros []. by apply before_send.
  - intros []. by apply before_sendto.
  - intros []. by apply before_recvfrom.
  - intros _. apply before_set_timeouts.
Qed.
End Callers.

(** ** Operations and functions *)

Section Functions.
Context `{Platform}.

Lemma function_yields {A} (th : thread A) (f : M (option udp_client) A) (g : A -> outcome) c d a c' :
  is_function th f -> yields (alone (tbind th (fun x => Done (g x))) c) d (a, c') ->
  yields (bindM f (fun x => ret (g x)) (Some c)) d (a, Some c').
Proof.
  intros Hf Hy. apply yields_alone_bind in Hy as (d1 & d2 & x & c1 & -> & Hx & -> & Hd). injection Hd as -> ->.
  unfold bindM. apply (yields_bind _ _ _ _ (x, Some c1)); [|done]. eapply yields_peq; [apply Hf|].
  rewrite <- (app_nil_r d1). by eapply yields_bind.
Qed.

Lemma serve_performs q c d y : yields (alone (serve q) c) d y -> yields (perform q c) d y.
Proof.
  destruct y as [a c']. intros Hy. unfold perform. rewrite <- (app_nil_r d).
  apply (yields_bind _ _ _ _ (a, Some c')); [|done]. destruct q; cbn [serve call_op] in *;
    (eapply function_yields; [|exact Hy]).
  - apply connect_is_function.
  - apply send_is_function.
  - apply sendto_is_function.
  - apply recvfrom_is_function.
  - apply set_timeouts_is_function.
Qed.
End Functions.

(** ** The theorem *)

(** An initialised client: its mutex is free, and its socket has the configured
    timeouts and peer. *)
Definition client_ready (c : udp_client) : Prop :=
  c.(state).(initialized) = true /\ c.(state).(lock) <> NULL.

Definition client_world `{Platform} (c : udp_client) : world :=
  mk_world c {[ c.(state).(lock) := None ]} {[ c.(state).(socket) := ticks_of c ]}
    (if c.(state).(connected) then {[ c.(state).(socket) := c.(state).(default_remote) ]} else ∅) [].

(** The operation of task [i]. *)
Definition nth_op `{Platform} (ops : list udp_op) (i : nat) : M udp_client outcome := fun c =>
  match ops !! i with Some q => perform q c | None => Stop UB end.

(** C6: Any number of tasks may use an initialised UDP client at the same time: however
    their loads, stores and calls are interleaved, the client behaves as if the
    operations were function calls, one after the other.  There is an order [bs] of
    the operations that are over, each with its calls and its result, which is a
    serial execution of the functions from the first context on; the calls that
    were made are those of this order, followed by those of the task that has the
    mutex; and when nobody has it, the context is the one the serial execution ends
    with, and the socket has its timeouts and its peer.  Nobody waits forever: as long
    as an operation is not over some task can go on, and every schedule ends. *)
Theorem udp_client_serializable `{PlatformOk} handle (c : udp_client) ops ts w :
  client_ready c -> Forall complete ops ->
  rtc (cstep handle) (serve <$> ops, client_world c) (ts, w) ->
  (exists bs c' cur h,
     serial (nth_op ops) c bs c' /\ NoDup (ids bs)
     /\ w.(mutexes) = {[ c.(state).(lock) := h ]}
     /\ w.(log) = serial_log bs ++ match h with Some j => by_thread j cur | None => [] end
     /\ (h = None -> w.(shared) = c' /\ in_step c.(state).(socket) c' w.(sockets) w.(peers))
     /\ (forall i a, ts !! i = Some (Done a) -> exists d, (i, d, a) ∈ bs))
  /\ ((exists next, cstep handle (ts, w) next) \/ forall i th, ts !! i = Some th -> exists a, th = Done a)
  /\ Acc (flip (cstep handle)) (ts, w).
Proof.
  intros [Hinit HL] Hops Hsteps.
  assert (Hs : serializes handle (nth_op ops) c.(state).(lock) (steady c.(state).(lock) c.(state).(socket))
                 (fun c => c.(state).(connected)) (in_step c.(state).(socket)) c ts w).
  { eapply serializable; [|done]. apply serializes_start; try done.
    intros i th Hth. rewrite list_lookup_fmap in Hth. destruct (ops !! i) as [q|] eqn:Eq; [|done]. cbn in Hth. simplify_eq. split.
    - apply serve_before; [done|]. by eapply Forall_lookup_1.
    - intros c1 _ d y Hy. unfold nth_op. rewrite Eq. by apply serve_performs. }
  split; [|split; [by eapply serializable_progress|apply pool_terminates]].
  destruct Hs as (bs & c' & cur & h & Hinv). exists bs, c', cur, h. pose proof Hinv as [Hser Hnd _ _ _ Hm Hlog Hst Hout].
  split_and!; [done..| |].
  - intros ->. by destruct Hst as [<- ?].
  - intros i a Hi. destruct (decide (h = Some i)) as [->|Hne].
    + destruct Hst as (th & Hth & _ & Hins & _). by simplify_eq.
    + destruct (Hout i _ Hi Hne) as [(_ & b & Hb & _)|(d & a' & Hin & Ha)]; [by inversion Hb|]. simplify_eq. by exists d.
Qed.

(** ** What the mutex does not protect *)

Module Races.
Import Demo.

(** Mutex 7, socket 9. *)
Definition ctx (rx tx : Z) : udp_client :=
  mk_udp_client (mk_udp_client_config rx tx) (mk_udp_client_state true 9 false false zero_addr 7).

Definition net (c : call) : resp c := zero_resp c.

(** [uni_net_udp_client_get_timeouts] reads the two timeouts without the mutex: if
    another task sets both in between, the pair it reports was never configured. *)
Theorem get_timeouts_torn rx0 tx0 rx1 tx1 :
  exists w, rtc (cstep (fun _ => 1))
    ([let! p := client_get_timeouts_thread in Done (inl p); let! b := client_set_timeouts_thread rx1 tx1 in Done (inr b)],
     client_world (ctx rx0 tx0)) ([Done (inl (rx0, tx1)); Done (inr true)], w).
Proof.
  eexists. apply (sched_sound _ net ([0%nat] ++ replicate 12 1%nat ++ [0%nat])). vm_compute. reflexivity.
Qed.

(** [uni_net_udp_client_deinit] deletes the mutex although another task may be waiting
    for it or about to take it. *)
Theorem deinit_under_callers rx tx ep :
  exists ts w th, rtc (cstep (fun _ => 1))
    ([let! b := client_deinit_thread in Done (inl b); let! r := client_sendto_thread (Some [NUL]) 1 (Some ep) in Done (inr r)],
     client_world (ctx rx tx)) (ts, w)
    /\ ts !! 0%nat = Some (Done (inl true)) /\ ts !! 1%nat = Some th /\ about_to_take 7 th = true /\ w.(mutexes) = ∅.
Proof.
  destruct (sched_tests_sound (fun _ => 1) net (replicate 3 1%nat ++ replicate 15 0%nat)
    ([let! b := client_deinit_thread in Done (inl b); let! r := client_sendto_thread (Some [NUL]) 1 (Some ep) in Done (inr r)],
     client_world (ctx rx tx))
    (fun ts w => match ts with
                 | [Done (inl true); th] => about_to_take 7 th && bool_decide (w.(mutexes) = ∅)
                 | _ => false
                 end)) as (ts & w & Hr & Ht); [vm_compute; reflexivity|].
  exists ts, w. repeat case_match; try done. subst. apply andb_true_iff in Ht as [Ht Hm%bool_decide_eq_true]. by eexists.
Qed.
End Races.

(** ** A concrete run *)

Module Together.
Import Demo.

(** One task connects, one sends (after the connection is there) and one sets the
    timeouts. *)
Definition ops : list udp_op :=
  [Op_connect (Some (mk_endpoint 1 2)); Op_send (Some [NUL]) 1; Op_set_timeouts 5 6].
Definition order : list nat :=
  [1%nat] ++ replicate 4 0%nat ++ replicate 3 2%nat ++ replicate 7 0%nat ++ replicate 9 1%nat ++ replicate 9 2%nat.

Definition all_done (ts : list (thread outcome)) (w : world) : bool :=
  match ts with
  | [Done (Bool true); Done (Int 0); Done (Bool true)] => bool_decide (w.(mutexes) = {[ 7 := None ]})
  | _ => false
  end.

Lemma udp_client_serializable_witness : exists w bs c',
  rtc (cstep (fun _ => 1)) (serve <$> ops, client_world (Races.ctx 100 200))
    ([Done (Bool true); Done (Int 0); Done (Bool true)], w)
  /\ serial (nth_op ops) (Races.ctx 100 200) bs c' /\ w.(shared) = c' /\ w.(log) = serial_log bs
  /\ (exists d, (0%nat, d, Bool true) ∈ bs) /\ (exists d, (1%nat, d, Int 0) ∈ bs) /\ exists d, (2%nat, d, Bool true) ∈ bs.
Proof.
  destruct (sched_tests_sound (fun _ => 1) Races.net order
    (serve <$> ops, client_world (Races.ctx 100 200)) all_done) as (ts & w & Hr & Ht); [vm_compute; reflexivity|].
  unfold all_done in Ht. repeat case_match; try done. subst. apply bool_decide_eq_true in Ht.
  destruct (udp_client_serializable (fun _ => 1) (Races.ctx 100 200) ops
    [Done (Bool true); Done (Int 0); Done (Bool true)] w) as
    ((bs & c' & cur & h & Hser & _ & Hm & Hlog & Hfree & Hdone) & _); [by split| |exact Hr|].
  { repeat constructor; cbn; lia || by eexists. }
  assert (h = None) as ->.
  { rewrite Ht in Hm. apply (f_equal (fun m => m !! 7)) in Hm. cbn in Hm. rewrite !lookup_singleton_eq in Hm. by injection Hm. }
  destruct (Hfree eq_refl) as [Hs _]. exists w, bs, c'. split; [exact Hr|]. split; [exact Hser|]. split; [exact Hs|].
  split; [by rewrite app_nil_r in Hlog|].
  split; [exact (Hdone 0%nat _ eq_refl)|]. split; [exact (Hdone 1%nat _ eq_refl)|exact (Hdone 2%nat _ eq_refl)].
Defined.
End Together.
