(* ===== verification/UdpServer.v ===== *)
(** * UDP server

    [uni_net_udp_server.h] and [uni_net_udp_server.c], function by function.  The
    server task and its callers share the context: what the task reads while
    another task may write it, [stop_requested], and what a caller reads while
    the task may write it, the handle [task], are reads of the environment
    ([read_stop_requested], [read_server_task]). *)

From S2P Require Import Prelude Env Prog CString UdpClient.
#[local] Open Scope prog_scope.

Definition UNI_NET_UDP_SERVER_RX_BATCH_DEPTH := 8.
Definition UNI_NET_UDP_SERVER_RX_BURST_BUDGET := 32.
Definition UNI_NET_UDP_SERVER_RX_QUEUE_PACKETS := 64.
Definition UNI_NET_UDP_SERVER_DEFAULT_RX_TIMEOUT_MS := 1000.
Definition UNI_NET_UDP_SERVER_DEFAULT_TX_TIMEOUT_MS := 1000.
Definition UNI_NET_UDP_SERVER_TASK_PRIORITY := 2.
Definition UNI_NET_UDP_SERVER_IFACE_TIME_MS := 250.

(** ** State *)

(** [uni_net_udp_server_config_t]; [on_receive] and [user] are addresses. *)
Record udp_server_config : Set := mk_udp_server_config {
  bind_addr : Z;
  bind_port : Z;
  rx_timeout_ms : Z;
  tx_timeout_ms : Z;
  on_receive : ptr;
  user : ptr;
  task_priority : Z;
  task_stack_words : Z;
}.
#[global] Instance eta_udp_server_config : Eta udp_server_config := fun x =>
  mk_udp_server_config x.(bind_addr) x.(bind_port) x.(rx_timeout_ms) x.(tx_timeout_ms)
    x.(on_receive) x.(user) x.(task_priority) x.(task_stack_words).

(** [uni_net_udp_server_state_t] *)
Record udp_server_state : Set := mk_udp_server_state {
  initialized : bool;
  socket : ptr;
  lock : ptr;
  task : ptr;
  stop_requested : bool;
  rx_packets_total : Z;
  rx_drop_total : Z;
  rx_queue_packets : Z;
}.
#[global] Instance eta_udp_server_state : Eta udp_server_state := fun x =>
  mk_udp_server_state x.(initialized) x.(socket) x.(lock) x.(task) x.(stop_requested)
    x.(rx_packets_total) x.(rx_drop_total) x.(rx_queue_packets).

(** [uni_net_udp_server_context_t] *)
Record udp_server : Set := mk_udp_server {
  config : udp_server_config;
  state : udp_server_state;
}.
#[global] Instance eta_udp_server : Eta udp_server := fun x => mk_udp_server x.(config) x.(state).

Definition zero_server : udp_server :=
  mk_udp_server (mk_udp_server_config 0 0 0 0 NULL NULL 0 0)
    (mk_udp_server_state false NULL NULL NULL false 0 0 0).

(** [_uni_net_udp_server_rx_item_t], with the bytes that [payload] points to. *)
Record rx_item : Set := mk_rx_item {
  payload : ptr;
  payload_data : bytes;
  length : Z;
  from : udp_endpoint;
  release_with_stack : bool;
}.

Definition zero_item : rx_item := mk_rx_item NULL [] 0 (mk_endpoint 0 0) false.

Section UdpServer.
Context `{Platform} `{UniCommon}.

Definition UNI_NET_UDP_SERVER_TASK_STACK_WORDS : Z := configMINIMAL_STACK_SIZE * 2.

(** ** Helpers *)

Definition upd_state (f : udp_server_state -> udp_server_state) : M udp_server unit :=
  modify (fun c => c <| state ::= f |>).

(** [_lock] *)
Definition _lock : M udp_server unit :=
  let! c := get in
  if negb (c.(state).(lock) =? NULL) then do_call (xSemaphoreTake c.(state).(lock)) else ret tt.

(** [_unlock] *)
Definition _unlock : M udp_server unit :=
  let! c := get in
  if negb (c.(state).(lock) =? NULL) then do_call (xSemaphoreGive c.(state).(lock)) else ret tt.

(** [_socket_valid] *)
Definition _socket_valid (s : ptr) : bool := negb (s =? NULL) && negb (s =? FREERTOS_INVALID_SOCKET).

(** [_apply_timeouts] *)
Definition _apply_timeouts {S} (s : ptr) (rx_ms tx_ms : Z) : M S Z :=
  let rx_ticks := pdMS_TO_TICKS rx_ms in
  let tx_ticks := pdMS_TO_TICKS tx_ms in
  let! r1 := do_call (FreeRTOS_setsockopt s (FREERTOS_SO_RCVTIMEO rx_ticks)) in
  let! r2 := do_call (FreeRTOS_setsockopt s (FREERTOS_SO_SNDTIMEO tx_ticks)) in
  ret (if (r1 =? 0) && (r2 =? 0) then 0 else -1).

(** [_map_timeout_to_wouldblock] *)
Definition _map_timeout_to_wouldblock (rv : Z) : Z :=
  if (rv =? - pdFREERTOS_ERRNO_EWOULDBLOCK) || (rv =? - pdFREERTOS_ERRNO_ETIMEDOUT)
  then UNI_NET_UDP_RET_TIMEOUT else rv.

(** [_stats_reset_for_ctx] *)
Definition _stats_reset_for_ctx : M udp_server unit :=
  upd_state (fun st => st <| rx_packets_total := 0 |> <| rx_drop_total := 0 |>).

(** [_stats_add_packets] *)
Definition _stats_add_packets (amount : Z) : M udp_server unit :=
  upd_state (fun st => st <| rx_packets_total := u64 (st.(rx_packets_total) + amount) |>).

(** [_stats_add_drops] *)
Definition _stats_add_drops (amount : Z) : M udp_server unit :=
  upd_state (fun st => st <| rx_drop_total := u64 (st.(rx_drop_total) + amount) |>).

(** [_stats_get_drop_count] *)
Definition _stats_get_drop_count (c : udp_server) : Z := c.(state).(rx_drop_total).

(** [_endpoint_from_sockaddr] *)
Definition _endpoint_from_sockaddr (a : sockaddr) : udp_endpoint := mk_endpoint a.(sin_addr) a.(sin_port).

(** [_udp_rx_queue_packets_value] *)
Definition _udp_rx_queue_packets_value : Z :=
  if 0 <? ipconfigUDP_MAX_RX_PACKETS then
    if ipconfigUDP_MAX_RX_PACKETS <? UNI_NET_UDP_SERVER_RX_QUEUE_PACKETS then ipconfigUDP_MAX_RX_PACKETS
    else UNI_NET_UDP_SERVER_RX_QUEUE_PACKETS
  else 0.

(** [_apply_udp_rx_queue_tuning] *)
Definition _apply_udp_rx_queue_tuning (s : ptr) : M udp_server unit :=
  if 0 <? ipconfigUDP_MAX_RX_PACKETS then
    let rxq_packets := if ipconfigUDP_MAX_RX_PACKETS <? UNI_NET_UDP_SERVER_RX_QUEUE_PACKETS
                       then ipconfigUDP_MAX_RX_PACKETS else UNI_NET_UDP_SERVER_RX_QUEUE_PACKETS in
    let! _ := do_call (FreeRTOS_setsockopt s (FREERTOS_SO_UDP_MAX_RX_PACKETS rxq_packets)) in
    ret tt
  else ret tt.

(** ** Receiving *)

(** The loop of [_recv_batch]: [n] iterations are left, [count] items stored. *)
Fixpoint recv_loop (n : nat) (s : ptr) (items : list rx_item) (count : nat) (wait_for_first : bool) :
    M udp_server (nat * list rx_item) :=
  match n with
  | O => ret (count, items)
  | S n' =>
      let flags := if (count =? 0)%nat && wait_for_first then 0 else FREERTOS_MSG_DONTWAIT in
      let! r := do_call (FreeRTOS_recvfrom_zero_copy s (Z.lor flags FREERTOS_ZERO_COPY)) in
      let '(rv, (p, d), a) := r in
      let rv := _map_timeout_to_wouldblock (i32 rv) in
      if rv <=? 0 then
        (if negb (p =? NULL) then do_call (FreeRTOS_ReleaseUDPPayloadBuffer p) else ret tt) ;;
        (if rv <? 0 then _stats_add_drops 1 else ret tt) ;;
        ret (count, items)
      else
        let! items := deref (if decide (count < List.length items)%nat
                             then Some (<[count := mk_rx_item p d rv (_endpoint_from_sockaddr a) true]> items)
                             else None) in
        recv_loop n' s items (S count) wait_for_first
  end.

(** [_recv_batch] *)
Definition _recv_batch (s : ptr) (items : list rx_item) (capacity : nat) (wait_for_first : bool) :
    M udp_server (nat * list rx_item) :=
  if negb (_socket_valid s) || (capacity =? 0)%nat then ret (0%nat, items)
  else recv_loop capacity s items 0 wait_for_first.

(** One turn of the loop of [_dispatch_batch]. *)
Definition dispatch_item (it : rx_item) : M udp_server unit :=
  let! c := get in
  (if negb (c.(config).(on_receive) =? NULL) && negb (it.(payload) =? NULL) && (0 <? it.(length)) then
     do_call (udp_on_receive c.(config).(on_receive) c.(config).(user) it.(payload) it.(payload_data)
                it.(length) it.(from))
   else _stats_add_drops 1) ;;
  (if it.(release_with_stack) && negb (it.(payload) =? NULL)
   then do_call (FreeRTOS_ReleaseUDPPayloadBuffer it.(payload)) else ret tt).

Fixpoint dispatch_loop (items : list rx_item) (i n : nat) : M udp_server unit :=
  match n with
  | O => ret tt
  | S n' =>
      let! it := deref (items !! i) in
      dispatch_item it ;;
      dispatch_loop items (S i) n'
  end.

(** [_dispatch_batch] *)
Definition _dispatch_batch (items : list rx_item) (count : nat) : M udp_server unit :=
  if (count =? 0)%nat then ret tt
  else
    dispatch_loop items 0 count ;;
    _stats_add_packets (Z.of_nat count).

(** The inner loop of the task: one burst. *)
Fixpoint burst_loop (fuel : nat) (s : ptr) (batch : list rx_item) (budget : Z) (wait_for_first : bool) :
    M udp_server unit :=
  match fuel with
  | O => halt OutOfFuel
  | S fuel' =>
      let! stop := do_call read_stop_requested in
      if negb stop && (0 <? budget) then
        let cap := if UNI_NET_UDP_SERVER_RX_BATCH_DEPTH <? budget
                   then UNI_NET_UDP_SERVER_RX_BATCH_DEPTH else budget in
        let! r := _recv_batch s batch (Z.to_nat cap) wait_for_first in
        let '(received, batch) := r in
        if (received =? 0)%nat then ret tt
        else
          _dispatch_batch batch received ;;
          burst_loop fuel' s batch (size_t (budget - Z.of_nat received)) false
      else ret tt
  end.

(** The event-driven receive loop, at most [n] turns. *)
Fixpoint receive_loop (n : nat) : M udp_server unit :=
  let! stop := do_call read_stop_requested in
  let! c := get in
  if negb stop && negb (c.(config).(on_receive) =? NULL) then
    match n with
    | O => halt OutOfFuel
    | S n' =>
        _lock ;;
        let! c := get in
        let s := c.(state).(socket) in
        _unlock ;;
        (if negb (_socket_valid s) then do_call (vTaskDelay (pdMS_TO_TICKS 10))
         else burst_loop (S (Z.to_nat UNI_NET_UDP_SERVER_RX_BURST_BUDGET)) s
                (replicate (Z.to_nat UNI_NET_UDP_SERVER_RX_BATCH_DEPTH) zero_item)
                UNI_NET_UDP_SERVER_RX_BURST_BUDGET true) ;;
        receive_loop n'
    end
  else ret tt.

(** ** The task *)

(** The loop that waits for the network or for the stop request. *)
Fixpoint wait_up (fuel : nat) : M udp_server unit :=
  match fuel with
  | O => halt OutOfFuel
  | S fuel' =>
      let! up := do_call FreeRTOS_IsNetworkUp in
      if up =? pdFALSE then
        let! stop := do_call read_stop_requested in
        if stop then ret tt
        else do_call (vTaskDelay (pdMS_TO_TICKS UNI_NET_UDP_SERVER_IFACE_TIME_MS)) ;; wait_up fuel'
      else ret tt
  end.

Definition close_socket (s : ptr) : M udp_server unit :=
  let! _ := do_call (FreeRTOS_closesocket s) in
  upd_state (fun st => st <| socket := FREERTOS_INVALID_SOCKET |>).

(** The mutex, the socket, its options and its address. *)
Definition task_setup : M udp_server unit :=
  let! lk := do_call xSemaphoreCreateMutex in
  upd_state (fun st => st <| lock := lk |>) ;;
  if negb (lk =? NULL) then
    let! s := do_call (FreeRTOS_socket FREERTOS_AF_INET FREERTOS_SOCK_DGRAM FREERTOS_IPPROTO_UDP) in
    upd_state (fun st => st <| socket := s |>) ;;
    (if _socket_valid s then
       let! c := get in
       let! rc := _apply_timeouts s c.(config).(rx_timeout_ms) c.(config).(tx_timeout_ms) in
       if rc =? 0 then
         _apply_udp_rx_queue_tuning s ;;
         upd_state (fun st => st <| rx_queue_packets := _udp_rx_queue_packets_value |>) ;;
         let local := mk_sockaddr FREERTOS_AF_INET (uni_common_bytes_swap16 c.(config).(bind_port))
                        c.(config).(bind_addr) in
         let! rb := do_call (FreeRTOS_bind s local) in
         if rb =? 0 then upd_state (fun st => st <| initialized := true |>)
         else close_socket s
       else close_socket s
     else ret tt) ;;
    let! c := get in
    if negb c.(state).(initialized) then
      do_call (vSemaphoreDelete lk) ;;
      upd_state (fun st => st <| lock := NULL |>)
    else ret tt
  else ret tt.

(** The loop without an event-driven receive. *)
Fixpoint idle_loop (fuel : nat) : M udp_server unit :=
  match fuel with
  | O => halt OutOfFuel
  | S fuel' =>
      let! stop := do_call read_stop_requested in
      if stop then ret tt else do_call (vTaskDelay (pdMS_TO_TICKS 10)) ;; idle_loop fuel'
  end.

(** [_uni_net_udp_server_task], with at most [fuel] turns of each of its loops. *)
Definition _uni_net_udp_server_task (fuel : nat) : M udp_server unit :=
  wait_up fuel ;;
  let! stop := do_call read_stop_requested in
  (if negb stop then task_setup else ret tt) ;;
  let! stop := do_call read_stop_requested in
  let! c := get in
  (if negb stop && (c.(config).(on_receive) =? NULL) then idle_loop fuel else ret tt) ;;
  receive_loop fuel ;;
  upd_state (fun st => st <| task := NULL |>) ;;
  do_call vTaskDelete.

(** ** Public functions *)

(** [uni_net_udp_server_start] *)
Definition uni_net_udp_server_start (cfg : option udp_server_config) : M (option udp_server) bool :=
  with_ctx false (
    put zero_server ;;
    _stats_reset_for_ctx ;;
    modify (fun c => c <| config := mk_udp_server_config FREERTOS_INADDR_ANY 0
        UNI_NET_UDP_SERVER_DEFAULT_RX_TIMEOUT_MS UNI_NET_UDP_SERVER_DEFAULT_TX_TIMEOUT_MS
        NULL NULL UNI_NET_UDP_SERVER_TASK_PRIORITY UNI_NET_UDP_SERVER_TASK_STACK_WORDS |>) ;;
    (match cfg with
     | Some cfg => modify (fun c => c <| config := cfg |>)
     | None => ret tt
     end) ;;
    upd_state (fun st => st <| initialized := false |> <| stop_requested := false |>) ;;
    let! c := get in
    let! r := do_call (xTaskCreate "UNI_NET_UDP_SERVER" c.(config).(task_stack_words) c.(config).(task_priority)) in
    if r.1 =? pdTRUE then
      upd_state (fun st => st <| task := r.2 |>) ;;
      ret true
    else
      put zero_server ;;
      ret false).

(** [uni_net_udp_server_is_inited] *)
Definition uni_net_udp_server_is_inited (c : option udp_server) : bool :=
  match c with Some c => c.(state).(initialized) | None => false end.

(** The loop that waits for the end of the task. *)
Fixpoint wait_task (fuel : nat) : M udp_server unit :=
  match fuel with
  | O => halt OutOfFuel
  | S fuel' =>
      let! tk := do_call read_server_task in
      if negb (tk =? NULL) then do_call (vTaskDelay (pdMS_TO_TICKS 10)) ;; wait_task fuel' else ret tt
  end.

(** [uni_net_udp_server_stop] *)
Definition uni_net_udp_server_stop (fuel : nat) : M (option udp_server) bool :=
  with_ctx false (
    upd_state (fun st => st <| stop_requested := true |>) ;;
    _lock ;;
    let! c := get in
    (if _socket_valid c.(state).(socket) then
       let! _ := do_call (FreeRTOS_setsockopt c.(state).(socket) (FREERTOS_SO_RCVTIMEO (pdMS_TO_TICKS 50))) in
       ret tt
     else ret tt) ;;
    _unlock ;;
    wait_task fuel ;;
    _lock ;;
    let! c := get in
    (if _socket_valid c.(state).(socket) then close_socket c.(state).(socket) else ret tt) ;;
    _unlock ;;
    let! c := get in
    (if negb (c.(state).(lock) =? NULL) then do_call (vSemaphoreDelete c.(state).(lock)) else ret tt) ;;
    put zero_server ;;
    ret true).

(** [uni_net_udp_server_recvfrom]: the result and the new contents of the output
    parameters [buf] and [out_from]. *)
Definition uni_net_udp_server_recvfrom (buf : option bytes) (buf_size : Z) (out_from : option udp_endpoint)
    (timeout_ms : Z) : M (option udp_server) (Z * option bytes * option udp_endpoint) :=
  with_ctx (- pdFREERTOS_ERRNO_EINVAL, buf, out_from) (
    let! c := get in
    match buf with
    | None => ret (- pdFREERTOS_ERRNO_EINVAL, buf, out_from)
    | Some b =>
        if (buf_size =? 0) || negb c.(state).(initialized) then ret (- pdFREERTOS_ERRNO_EINVAL, buf, out_from)
        else if negb (c.(config).(on_receive) =? NULL) && negb (c.(state).(task) =? NULL)
        then ret (- pdFREERTOS_ERRNO_EALREADY, buf, out_from)
        else
          _lock ;;
          let! c := get in
          let s := c.(state).(socket) in
          let orig_ticks := pdMS_TO_TICKS c.(config).(rx_timeout_ms) in
          let temp_ticks := pdMS_TO_TICKS timeout_ms in
          let! _ := do_call (FreeRTOS_setsockopt s (FREERTOS_SO_RCVTIMEO temp_ticks)) in
          _unlock ;;
          let! r := do_call (FreeRTOS_recvfrom s (size_t (i32 buf_size))) in
          let '(rv, d, a, from_len) := r in
          let! b' := deref (write_at b 0 d) in
          let rv := _map_timeout_to_wouldblock (i32 rv) in
          (if 0 <? rv then _stats_add_packets 1
           else if rv <? 0 then _stats_add_drops 1 else ret tt) ;;
          _lock ;;
          let! _ := do_call (FreeRTOS_setsockopt s (FREERTOS_SO_RCVTIMEO orig_ticks)) in
          _unlock ;;
          ret (rv, Some b',
               match out_from with
               | Some ep => if (0 <=? rv) && (sizeof_sockaddr <=? from_len)
                            then Some (mk_endpoint a.(sin_addr) a.(sin_port)) else Some ep
               | None => None
               end)
    end).

(** [uni_net_udp_server_sendto] *)
Definition uni_net_udp_server_sendto (buf : option bytes) (len : Z) (to : option udp_endpoint) :
    M (option udp_server) Z :=
  with_ctx (- pdFREERTOS_ERRNO_EINVAL) (
    let! c := get in
    match buf, to with
    | Some buf, Some ep =>
        if (len =? 0) || negb c.(state).(initialized) then ret (- pdFREERTOS_ERRNO_EINVAL)
        else
          let dst := sockaddr_of ep in
          let! self := do_call xTaskGetCurrentTaskHandle in
          let take_lock := (c.(state).(task) =? NULL) || negb (self =? c.(state).(task)) in
          (if take_lock then _lock else ret tt) ;;
          let! c := get in
          let! d := take_bytes buf len in
          let! rv := do_call (FreeRTOS_sendto c.(state).(socket) d dst) in
          (if take_lock then _unlock else ret tt) ;;
          ret (whole_datagram (_map_timeout_to_wouldblock (i32 rv)) len)
    | _, _ => ret (- pdFREERTOS_ERRNO_EINVAL)
    end).

(** [uni_net_udp_server_set_timeouts] *)
Definition uni_net_udp_server_set_timeouts (rx_ms tx_ms : Z) : M (option udp_server) bool :=
  with_ctx false (
    let! c := get in
    if negb c.(state).(initialized) then ret false
    else
      _lock ;;
      let! rc := _apply_timeouts c.(state).(socket) rx_ms tx_ms in
      (if rc =? 0
       then modify (fun c => c <| config ::= fun g => g <| rx_timeout_ms := rx_ms |> <| tx_timeout_ms := tx_ms |> |>)
       else ret tt) ;;
      _unlock ;;
      ret (rc =? 0)).

(** [uni_net_udp_server_get_timeouts] *)
Definition uni_net_udp_server_get_timeouts (c : option udp_server) (rx_ms tx_ms : option Z) :
    bool * option Z * option Z :=
  match c with
  | None => (false, rx_ms, tx_ms)
  | Some c => (true, (fun _ => c.(config).(rx_timeout_ms)) <$> rx_ms,
                     (fun _ => c.(config).(tx_timeout_ms)) <$> tx_ms)
  end.

(** [uni_net_udp_server_get_rx_drop_count] *)
Definition uni_net_udp_server_get_rx_drop_count (c : option udp_server) : Z :=
  match c with Some c => _stats_get_drop_count c | None => 0 end.

(** [uni_net_udp_server_get_rx_queue_packets] *)
Definition uni_net_udp_server_get_rx_queue_packets (c : option udp_server) : Z :=
  match c with Some c => c.(state).(rx_queue_packets) | None => 0 end.

End UdpServer.
