(* ===== verification/UdpServerSpec.v ===== *)
(** * UDP server: properties

    The receive task hands every datagram to the callback once and in order and
    gives every zero-copy payload back to the stack; a burst is bounded; setup
    and stop account for the socket and the mutex; a synchronous receive restores
    the timeout. *)

From S2P Require Import Prelude Env Prog Trace CString UdpClient UdpServer.

Section UdpServerSpec.
Context `{PlatformOk} `{UniCommonSpec}.

(** ** What the trace shows *)

(** The datagrams that the stack handed over. *)
Definition datagram_event (e : event) : list rx_item :=
  match e with
  | Ev c r =>
      match c return resp c -> list rx_item with
      | FreeRTOS_recvfrom_zero_copy _ _ => fun r =>
          let rv := _map_timeout_to_wouldblock (i32 r.1.1) in
          if rv <=? 0 then [] else [mk_rx_item r.1.2.1 r.1.2.2 rv (_endpoint_from_sockaddr r.2) true]
      | _ => fun _ => []
      end r
  end.
Definition datagrams (t : trace) : list rx_item := flat_map datagram_event t.

(** The calls of the receive callback, as the items they were made for. *)
Definition delivery_event (e : event) : list rx_item :=
  match e.(ev_call) with
  | udp_on_receive _ _ p d n ep => [mk_rx_item p d n ep true]
  | _ => []
  end.
Definition deliveries (t : trace) : list rx_item := flat_map delivery_event t.

Lemma datagrams_snoc t e : datagrams (t ++ [e]) = datagrams t ++ datagram_event e.
Proof. unfold datagrams. rewrite flat_map_app. cbn. by rewrite app_nil_r. Qed.

Lemma deliveries_snoc t e : deliveries (t ++ [e]) = deliveries t ++ delivery_event e.
Proof. unfold deliveries. rewrite flat_map_app. cbn. by rewrite app_nil_r. Qed.

(** Datagrams whose payload can be passed on. *)
Definition deliverable (it : rx_item) : bool := negb (it.(payload) =? NULL).

(** How often a payload is among some items. *)
Definition payloads (p : ptr) (its : list rx_item) : Z := foldr (fun it n => eqz it.(payload) p + n) 0 its.

Lemma payloads_app p l1 l2 : payloads p (l1 ++ l2) = payloads p l1 + payloads p l2.
Proof. unfold payloads. induction l1 as [|it l1 IH]; cbn; [done|]. rewrite IH. lia. Qed.

(** The counters and the rest of the context. *)
Definition same_but_stats (c c' : udp_server) : Prop :=
  c'.(config) = c.(config)
  /\ c'.(state) = c.(state) <| rx_packets_total := c'.(state).(rx_packets_total) |>
                            <| rx_drop_total := c'.(state).(rx_drop_total) |>.

#[global] Instance same_but_stats_preorder : PreOrder same_but_stats.
Proof.
  split.
  - intros [g []]. done.
  - intros [g1 []] [g2 []] [g3 []] [? ?] [? ?]. split; cbn in *; congruence.
Qed.

(** What some steps of the receive task do: [got] came from the stack, the
    deliverable part of [out] went to the callback, and [kept] is what the task
    holds of the stack's payloads in addition. *)
Definition moved (t t' : trace) (got out kept : list rx_item) : Prop :=
  datagrams t' = datagrams t ++ got
  /\ deliveries t' = deliveries t ++ filter (fun it => deliverable it = true) out
  /\ (forall p, p <> NULL -> lent_payloads p t' = lent_payloads p t + payloads p kept).

Definition good_item (it : rx_item) : Prop := 0 < it.(length) /\ it.(release_with_stack) = true.

(** ** Receiving a batch *)

Definition batch_post (c : udp_server) (items : list rx_item) (count n : nat) (t : trace)
    (count' : nat) (items' : list rx_item) (c' : udp_server) (t' : trace) : Prop :=
  exists got, count' = (count + List.length got)%nat /\ (List.length got <= n)%nat
    /\ List.length items' = List.length items
    /\ take count' items' = take count items ++ got /\ Forall good_item got
    /\ moved t t' got [] got
    /\ same_but_stats c c' /\ c'.(state).(rx_packets_total) = c.(state).(rx_packets_total).

Lemma recv_loop_spec n s items count w (c : udp_server) t :
  (count + n <= List.length items)%nat ->
  wp any_answer (recv_loop n s items count w c)
    (fun '((count', items'), c') t' => batch_post c items count n t count' items' c' t') t.
Proof.
  revert items count c t. induction n as [|n IH]; intros items count c t Hle.
  { cbn. exists []. rewrite Nat.add_0_r, app_nil_r. unfold moved. cbn. rewrite !app_nil_r.
    split_and!; try done. intros. lia. }
  cbn [recv_loop bindM]. cbn. intros [[rv [p d]] a] _.
  set (rv' := _map_timeout_to_wouldblock (i32 rv)).
  destruct (Z.leb_spec rv' 0) as [Hneg|Hpos].
  - destruct (Z.eqb_spec p NULL) as [Hp|Hp]; cbn; [|intros [] _]; (case_match; cbn);
      exists []; rewrite Nat.add_0_r, app_nil_r; unfold moved; cbn;
      rewrite !datagrams_snoc, !deliveries_snoc; cbn;
      fold rv'; rewrite (proj2 (Z.leb_le _ _)) by done; rewrite !app_nil_r;
      (split_and!; try done; try lia; intros q Hq; resources; try (rewrite eqz_ne by congruence; lia)).
  - cbn. rewrite decide_True by lia. cbn.
    eapply wp_mono; [apply IH; rewrite length_insert; lia|].
    intros [[count' items'] c'] t' (got & -> & Hn & Hl & Htk & Hg & (Hd & Hdl & Hlent) & Hsame & Hpk).
    set (it := mk_rx_item p d rv' (_endpoint_from_sockaddr a) true) in *.
    exists (it :: got). cbn [List.length]. rewrite length_insert in Hl.
    split_and!; try done; try lia.
    + replace (count + S (List.length got))%nat with (S count + List.length got)%nat by lia.
      rewrite Htk. rewrite (take_S_r _ _ it) by (apply list_lookup_insert_eq; lia).
      rewrite take_insert_ge by lia. by rewrite <- app_assoc.
    + constructor; [|done]. by split.
    + split_and!.
      * rewrite Hd, datagrams_snoc. cbn. fold rv'. rewrite (proj2 (Z.leb_gt _ _)) by done. by rewrite <- app_assoc.
      * rewrite Hdl, deliveries_snoc. cbn. by rewrite !app_nil_r.
      * intros q Hq. rewrite Hlent by done. unfold payloads. cbn. resources.
Qed.

(** ** Dispatching a batch *)

(** [moved] composes. *)
Lemma moved_trans t1 t2 t3 g1 o1 k1 g2 o2 k2 :
  moved t1 t2 g1 o1 k1 -> moved t2 t3 g2 o2 k2 -> moved t1 t3 (g1 ++ g2) (o1 ++ o2) (k1 ++ k2).
Proof.
  intros (Hd1 & Ho1 & Hk1) (Hd2 & Ho2 & Hk2). split_and!.
  - by rewrite Hd2, Hd1, app_assoc.
  - rewrite Ho2, Ho1, filter_app. by rewrite app_assoc.
  - intros p Hp. rewrite Hk2, Hk1, payloads_app by done. lia.
Qed.

(** Items that the task gives back are items that it no longer keeps. *)
Definition dispatched (t t' : trace) (its : list rx_item) : Prop :=
  datagrams t' = datagrams t
  /\ deliveries t' = deliveries t ++ filter (fun it => deliverable it = true) its
  /\ (forall p, p <> NULL -> lent_payloads p t' = lent_payloads p t - payloads p its).

Lemma dispatch_item_spec it (c : udp_server) t :
  good_item it -> c.(config).(on_receive) <> NULL ->
  wp any_answer (dispatch_item it c)
    (fun '(_, c') t' => dispatched t t' [it] /\ same_but_stats c c'
       /\ c'.(state).(rx_packets_total) = c.(state).(rx_packets_total)) t.
Proof.
  intros [Hlen Hrel] Hcb. unfold dispatch_item. cbn. rewrite Hrel, (proj2 (Z.eqb_neq _ _)) by exact Hcb.
  rewrite (proj2 (Z.ltb_lt _ _)) by done. unfold dispatched. rewrite filter_cons, filter_nil.
  destruct (Z.eqb_spec it.(payload) NULL) as [Hp|Hp]; cbn.
  - rewrite decide_False by (unfold deliverable; rewrite Hp; done). rewrite app_nil_r.
    split; [|by split]. split_and!; [done|done|]. intros p Hpn. unfold payloads. cbn. rewrite eqz_ne by congruence. lia.
  - intros [] _ [] _. rewrite !datagrams_snoc, !deliveries_snoc.
    rewrite decide_True by (unfold deliverable; by rewrite (proj2 (Z.eqb_neq _ _))).
    split; [|by split]. split_and!; cbn.
    + by rewrite !app_nil_r.
    + rewrite app_nil_r. do 2 f_equal. destruct it. cbn in *. by subst.
    + intros p Hpn. unfold payloads. cbn. resources.
Qed.

Lemma dispatch_loop_spec items its i (c : udp_server) t :
  Forall good_item its -> c.(config).(on_receive) <> NULL ->
  (forall k, (k < List.length its)%nat -> items !! (i + k)%nat = its !! k) ->
  wp any_answer (dispatch_loop items i (List.length its) c)
    (fun '(_, c') t' => dispatched t t' its /\ same_but_stats c c'
       /\ c'.(state).(rx_packets_total) = c.(state).(rx_packets_total)) t.
Proof.
  intros Hits. revert i c t. induction Hits as [|it its Hit Hits IH]; intros i c t Hcb Hi.
  { cbn. split; [|done]. split_and!; [done|by rewrite app_nil_r|]. intros. unfold payloads. cbn. lia. }
  cbn [List.length dispatch_loop bindM].
  pose proof (Hi 0%nat ltac:(cbn; lia)) as H0'. rewrite Nat.add_0_r in H0'. rewrite H0'. cbn.
  eapply wp_seq; [by apply dispatch_item_spec|]. intros [_ c1] t1 ((Hd1 & Ho1 & Hk1) & Hsame1 & Hp1). cbn.
  eapply wp_mono; [apply IH|].
  - by destruct Hsame1 as [-> _].
  - intros k Hk. rewrite Nat.add_succ_comm. apply (Hi (S k)). cbn. lia.
  - intros [_ c2] t2 ((Hd2 & Ho2 & Hk2) & Hsame2 & Hp2). split; [|split; [by transitivity c1|congruence]].
    split_and!.
    + congruence.
    + rewrite Ho2, Ho1, <- app_assoc. f_equal. symmetry. apply (filter_app _ [it]).
    + intros p Hp. rewrite Hk2, Hk1 by done. unfold payloads. cbn. lia.
Qed.

(** ** A burst *)

(** What a burst does: [got] was received, delivered and given back. *)
Definition burst_post (budget : Z) (c : udp_server) (t : trace) (c' : udp_server) (t' : trace) : Prop :=
  exists got, Z.of_nat (List.length got) <= budget
    /\ moved t t' got got [] /\ same_but_stats c c'
    /\ c'.(state).(rx_packets_total) = u64 (c.(state).(rx_packets_total) + Z.of_nat (List.length got)).

Definition batch_len : nat := Z.to_nat UNI_NET_UDP_SERVER_RX_BATCH_DEPTH.

Lemma moved_dispatched t t1 t2 got : moved t t1 got [] got -> dispatched t1 t2 got -> moved t t2 got got [].
Proof.
  intros (Hd & Ho & Hk) (Hd2 & Ho2 & Hk2). split_and!.
  - congruence.
  - rewrite Ho2, Ho. cbn. by rewrite app_nil_r.
  - intros p Hp. rewrite Hk2, Hk by done. unfold payloads. cbn. lia.
Qed.

Lemma moved_nil t t' : datagrams t' = datagrams t -> deliveries t' = deliveries t ->
  (forall p, lent_payloads p t' = lent_payloads p t) -> moved t t' [] [] [].
Proof. intros Hd Ho Hl. split_and!; [by rewrite app_nil_r|by rewrite app_nil_r|]. intros. rewrite Hl. cbn. lia. Qed.

(** One batch: received and dispatched. *)
Lemma batch_spec s batch cap w (c : udp_server) t Q :
  (cap <= List.length batch)%nat -> c.(config).(on_receive) <> NULL ->
  (forall got items' c1 t1, (List.length got <= cap)%nat -> List.length items' = List.length batch ->
     moved t t1 got [] got -> same_but_stats c c1 ->
     c1.(state).(rx_packets_total) = c.(state).(rx_packets_total) ->
     Forall good_item got -> take (List.length got) items' = got ->
     Q ((List.length got, items'), c1) t1) ->
  wp any_answer (_recv_batch s batch cap w c) Q t.
Proof.
  intros Hcap Hcb HQ. unfold _recv_batch. destruct (negb (_socket_valid s) || (cap =? 0)%nat).
  - apply (HQ []); try done; [cbn; lia|]. by apply moved_nil.
  - eapply wp_mono; [by apply recv_loop_spec|].
    intros [[count' items'] c1] t1 (got & -> & Hn & Hl & Htk & Hg & Hm & Hs & Hp).
    by apply HQ.
Qed.

Lemma burst_loop_spec fuel s batch budget w (c : udp_server) t :
  (Z.to_nat budget < fuel)%nat -> 0 <= budget < 2 ^ 32 -> List.length batch = batch_len ->
  c.(config).(on_receive) <> NULL -> 0 <= c.(state).(rx_packets_total) < 2 ^ 64 ->
  wp any_answer (burst_loop fuel s batch budget w c) (fun '(_, c') t' => burst_post budget c t c' t') t.
Proof.
  revert batch budget w c t. induction fuel as [|fuel IH]; intros batch budget w c t Hf Hb Hl Hcb Hpk; [lia|].
  assert (Hstop : forall stop, moved t (t ++ [Ev read_stop_requested stop]) [] [] []).
  { intros stop. apply moved_nil; [rewrite datagrams_snoc, app_nil_r|rewrite deliveries_snoc, app_nil_r|]; try done.
    intros p. resources. }
  cbn [burst_loop bindM]. cbn. intros stop _. specialize (Hstop stop).
  destruct (negb stop && (0 <? budget)) eqn:Ego; cbn.
  2: { exists []. rewrite Z.add_0_r, u64_small by done. split_and!; try done. cbn. lia. }
  apply andb_true_iff in Ego as [_ Hpos%Z.ltb_lt].
  assert (Hcap : let cap := if UNI_NET_UDP_SERVER_RX_BATCH_DEPTH <? budget then UNI_NET_UDP_SERVER_RX_BATCH_DEPTH else budget in
                 0 < cap <= budget /\ cap <= 8).
  { unfold UNI_NET_UDP_SERVER_RX_BATCH_DEPTH. destruct (Z.ltb_spec 8 budget); cbn; lia. }
  destruct Hcap as [Hc1 Hc8]. apply wp_bind, batch_spec; [rewrite Hl; unfold batch_len, UNI_NET_UDP_SERVER_RX_BATCH_DEPTH in *; lia|done|].
  intros got items' c1 t1 Hn Hl' Hm Hs Hp Hg Htk. cbn.
  destruct (Nat.eqb_spec (List.length got) 0) as [H0'|Hn0]; cbn.
  { destruct got; [|done]. exists []. rewrite Z.add_0_r, u64_small, Hp by done.
    split_and!; [cbn; lia| |done|done]. by apply (moved_trans _ _ _ [] [] [] [] [] []  Hstop). }
  unfold _dispatch_batch. rewrite (proj2 (Nat.eqb_neq _ _)) by done. cbn. apply wp_bind, wp_bind.
  eapply wp_mono.
  { apply (dispatch_loop_spec items' got 0); [done|by destruct Hs as [-> _]|].
    intros k Hk. rewrite <- Htk at 1. by rewrite lookup_take_lt. }
  intros [_ c2] t2 (Hdis & Hs2 & Hp2). cbn.
  set (c3 := mk_udp_server _ _).
  assert (Hs3 : same_but_stats c c3).
  { transitivity c1; [done|]. transitivity c2; [done|]. by destruct c2 as [? []]. }
  assert (Hp3 : c3.(state).(rx_packets_total) = u64 (c.(state).(rx_packets_total) + Z.of_nat (List.length got))).
  { unfold c3. cbn. by rewrite Hp2, Hp. }
  rewrite size_t_small by lia. eapply wp_mono.
  { apply (IH items' (budget - Z.of_nat (List.length got)) false c3); try lia; [by destruct Hs3 as [-> _]|].
    rewrite Hp3. apply Z.mod_pos_bound. lia. }
  intros [_ c4] t4 (got2 & Hn2 & Hm2 & Hs4 & Hp4). exists (got ++ got2). rewrite length_app.
  split_and!; [lia| |by transitivity c3|].
  - pose proof (moved_dispatched _ _ _ _ Hm Hdis) as Hm1.
    by apply (moved_trans _ _ _ [] [] [] _ _ _ Hstop), (moved_trans _ _ _ _ _ _ _ _ _ Hm1).
  - rewrite Hp4, Hp3. unfold u64. rewrite Zplus_mod_idemp_l. f_equal. lia.
Qed.

(** ** The receive loop *)

Ltac neutral_step := repeat first [split; [done|] | intros ? | apply only_bind | case_match | progress cbn | done].

Lemma lock_neutral c : only neutral (UdpServer._lock c).
Proof. unfold UdpServer._lock. neutral_step. Qed.

Lemma unlock_neutral c : only neutral (UdpServer._unlock c).
Proof. unfold UdpServer._unlock. neutral_step. Qed.

Lemma recv_loop_neutral n s items count w c : only neutral (recv_loop n s items count w c).
Proof.
  revert items count c. induction n as [|n IH]; intros items count c; [done|].
  cbn [recv_loop bindM]. cbn. split; [done|]. intros [[rv [p d]] a]. case_match.
  - neutral_step.
  - cbn. case_decide; cbn; [apply IH|done].
Qed.

Lemma dispatch_loop_neutral items i n c : only neutral (dispatch_loop items i n c).
Proof.
  revert i c. induction n as [|n IH]; intros i c; [done|]. cbn [dispatch_loop bindM].
  apply only_bind; [cbn; by case_match|]. intros [it c1]. apply only_bind.
  - unfold dispatch_item. neutral_step.
  - intros [_ c2]. apply IH.
Qed.

Lemma burst_loop_neutral fuel s batch budget w c : only neutral (burst_loop fuel s batch budget w c).
Proof.
  revert batch budget w c. induction fuel as [|fuel IH]; intros batch budget w c; [done|].
  cbn [burst_loop bindM]. cbn. split; [done|]. intros stop. case_match; [|done]. cbn. apply only_bind.
  - unfold _recv_batch. case_match; [done|apply recv_loop_neutral].
  - intros [[n b] c1]. case_match; [done|]. cbn. apply only_bind.
    + unfold _dispatch_batch. case_match; [done|]. cbn. apply only_bind; [apply dispatch_loop_neutral|]. by intros [? ?].
    + intros [_ c2]. apply IH.
Qed.

Lemma receive_loop_neutral n c : only neutral (receive_loop n c).
Proof.
  revert c. induction n as [|n IH]; intros c; cbn -[burst_loop]; (split; [done|]); intros stop; case_match; try done.
  cbn -[burst_loop]. apply only_bind; [apply lock_neutral|]. intros [_ c1]. cbn -[burst_loop]. apply only_bind; [apply unlock_neutral|].
  intros [_ c2]. apply only_bind; [|intros [_ c3]; apply IH].
  case_match; [done|]. apply burst_loop_neutral.
Qed.

(** A step that concerns no datagram. *)
Definition quiet_call (c : call) : Prop :=
  match c with
  | FreeRTOS_recvfrom_zero_copy _ _ | FreeRTOS_ReleaseUDPPayloadBuffer _ | udp_on_receive _ _ _ _ _ _ => False
  | _ => True
  end.

Lemma quiet_moved t t1 : Forall (fun e => quiet_call e.(ev_call)) t1 -> moved t (t ++ t1) [] [] [].
Proof.
  intros Ht.
  assert (Hz : datagrams t1 = [] /\ deliveries t1 = [] /\ forall p, tsum (payload_event p) t1 = 0).
  { induction Ht as [|[c r] t1 Hc _ (IH1 & IH2 & IH3)]; [done|]. unfold datagrams, deliveries in *. cbn in Hc.
    split_and!; [cbn; rewrite IH1|cbn; rewrite IH2|intros p; rewrite tsum_cons, IH3]; by destruct c. }
  destruct Hz as (Hd & Ho & Hp). apply moved_nil.
  - unfold datagrams in *. by rewrite flat_map_app, Hd, app_nil_r.
  - unfold deliveries in *. by rewrite flat_map_app, Ho, app_nil_r.
  - intros p. unfold lent_payloads. rewrite tsum_app, Hp. lia.
Qed.

(** What the receive loop does: every datagram it took from the stack was
    delivered, in order, and given back. *)
Definition loop_post (c : udp_server) (t : trace) (c' : udp_server) (t' : trace) : Prop :=
  exists got, moved t t' got got [] /\ same_but_stats c c'
    /\ c'.(state).(rx_packets_total) = u64 (c.(state).(rx_packets_total) + Z.of_nat (List.length got)).

Lemma loop_post_quiet (c : udp_server) t t1 :
  0 <= c.(state).(rx_packets_total) < 2 ^ 64 ->
  Forall (fun e => quiet_call e.(ev_call)) t1 -> loop_post c t c (t ++ t1).
Proof.
  intros Hp Ht. exists []. rewrite Z.add_0_r, u64_small by done. split; [by apply quiet_moved|done].
Qed.

Lemma loop_post_trans (c1 c2 c3 : udp_server) t1 t2 t3 :
  loop_post c1 t1 c2 t2 -> loop_post c2 t2 c3 t3 -> loop_post c1 t1 c3 t3.
Proof.
  intros (g1 & Hm1 & Hs1 & Hp1) (g2 & Hm2 & Hs2 & Hp2). exists (g1 ++ g2). rewrite length_app.
  split_and!; [by apply (moved_trans _ _ _ _ _ [] _ _ [] Hm1)|by transitivity c2|].
  rewrite Hp2, Hp1. unfold u64. rewrite Zplus_mod_idemp_l. f_equal. lia.
Qed.

Lemma loop_post_packets (c c' : udp_server) t t' :
  loop_post c t c' t' -> 0 <= c'.(state).(rx_packets_total) < 2 ^ 64.
Proof. intros (got & _ & _ & ->). apply Z.mod_pos_bound. lia. Qed.

Lemma receive_loop_spec n (c : udp_server) t :
  0 <= c.(state).(rx_packets_total) < 2 ^ 64 ->
  wlp any_answer (receive_loop n c) (fun '(_, c') t' => loop_post c t c' t') t.
Proof.
  revert c t. induction n as [|n IH]; intros c t Hpk; cbn -[burst_loop]; intros stop _.
  { case_match; [done|]. cbn. by apply loop_post_quiet; [|repeat constructor]. }
  destruct (negb stop && negb (c.(config).(on_receive) =? NULL)) eqn:Ego.
  2: { cbn. by apply loop_post_quiet; [|repeat constructor]. }
  apply andb_true_iff in Ego as [_ Hcb%negb_true_iff%Z.eqb_neq].
  assert (Hlocks : forall t0 Q, (forall t1, Forall (fun e => quiet_call e.(ev_call)) t1 -> Q (tt, c) (t0 ++ t1)) ->
     wlp any_answer (UdpServer._lock c) Q t0 /\ wlp any_answer (UdpServer._unlock c) Q t0).
  { intros t0 Q HQ. unfold UdpServer._lock, UdpServer._unlock. cbn.
    case_match; cbn; split; try (intros [] _; apply HQ; by repeat constructor).
    all: specialize (HQ [] ltac:(done)); by rewrite app_nil_r in HQ. }
  cbn -[burst_loop]. apply wp_bind, Hlocks. intros t1 Ht1. cbn -[burst_loop]. apply wp_bind, Hlocks. intros t2 Ht2. cbn -[burst_loop].
  set (t3 := ((t ++ _) ++ t1) ++ t2).
  assert (Hpre : loop_post c t c t3).
  { unfold t3. rewrite <- !app_assoc. apply loop_post_quiet; [done|].
    constructor; [done|]. by apply Forall_app. }
  eapply (wp_seq _ _ _ _ (fun '(_, c1) t4 => loop_post c t c1 t4)).
  - case_match.
    + cbn. intros [] _. unfold t3. rewrite <- !app_assoc. apply loop_post_quiet; [done|].
      constructor; [done|]. apply Forall_app; split; [done|]. apply Forall_app; split; [done|by repeat constructor].
    + eapply wp_mono; [eapply wp_weaken; [apply burst_loop_spec|done|done]|].
      * lia.
      * unfold UNI_NET_UDP_SERVER_RX_BURST_BUDGET. lia.
      * apply length_replicate.
      * done.
      * done.
      * intros [_ c1] t4 (got & _ & Hm & Hs & Hp). eapply loop_post_trans; [exact Hpre|]. by exists got.
  - intros [_ c1] t4 Hl1. eapply wp_mono; [apply IH; by eapply loop_post_packets|].
    intros [_ c2] t5 Hl2. by eapply loop_post_trans.
Qed.

(** ** Setup and stop *)

(** What the context owns after the trace [t'], compared to before [t]: a socket
    and a mutex when it is initialised, else nothing. *)
Definition owns (c : udp_server) (t t' : trace) : Prop :=
  if c.(state).(initialized) then
    UdpServer._socket_valid c.(state).(socket) = true /\ c.(state).(lock) <> NULL
    /\ (forall p, UdpServer._socket_valid p = true -> open_sockets p t' = open_sockets p t + eqz c.(state).(socket) p)
    /\ (forall p, p <> NULL -> live_mutexes p t' = live_mutexes p t + eqz c.(state).(lock) p)
  else
    UdpServer._socket_valid c.(state).(socket) = false /\ c.(state).(lock) = NULL
    /\ (forall p, UdpServer._socket_valid p = true -> open_sockets p t' = open_sockets p t)
    /\ (forall p, p <> NULL -> live_mutexes p t' = live_mutexes p t).

Lemma owns_resources (c : udp_server) t t1 t2 : owns c t t1 -> same_resources t1 t2 -> owns c t t2.
Proof.
  unfold owns. intros Ho [Hs Hm]. case_match; destruct Ho as (? & ? & Ho1 & Ho2);
    (split_and!; try done); intros p Hp; rewrite ?Hs, ?Hm; auto.
Qed.

Lemma owns_stats (c c' : udp_server) t t1 : owns c t t1 -> same_but_stats c c' -> owns c' t t1.
Proof.
  destruct c as [g []], c' as [g' []]. intros Ho [_ Hst]. cbn in Hst. injection Hst as -> -> -> -> -> ->. exact Ho.
Qed.

(** A server whose task has not set it up yet. *)
Definition fresh (c : udp_server) : Prop :=
  c.(state).(initialized) = false /\ c.(state).(socket) = NULL /\ c.(state).(lock) = NULL
  /\ 0 <= c.(state).(rx_packets_total) < 2 ^ 64.

Lemma fresh_owns (c : udp_server) t : fresh c -> owns c t t.
Proof. intros (Hi & Hs & Hl & _). unfold owns. by rewrite Hi, Hs. Qed.

Lemma server_invalid_eqz s p :
  UdpServer._socket_valid s = false -> UdpServer._socket_valid p = true -> eqz s p = 0.
Proof. intros Hs Hp. apply eqz_ne. congruence. Qed.

Definition setup_post (c : udp_server) (t : trace) (c' : udp_server) (t' : trace) : Prop :=
  owns c' t t' /\ c'.(config) = c.(config) /\ c'.(state).(rx_packets_total) = c.(state).(rx_packets_total)
  /\ (c'.(state).(initialized) = true -> c'.(state).(rx_queue_packets) = _udp_rx_queue_packets_value
        /\ exists r s, Ev (FreeRTOS_bind s (mk_sockaddr FREERTOS_AF_INET
                         (uni_common_bytes_swap16 c.(config).(bind_port)) c.(config).(bind_addr))) r ∈ t'
             /\ s = c'.(state).(socket) /\ r = 0).

Lemma task_setup_spec (c : udp_server) t :
  fresh c -> wp any_answer (task_setup c) (fun '(_, c') t' => setup_post c t c' t') t.
Proof.
  intros (Hi & Hs & Hl & _). unfold task_setup, setup_post, owns. cbn. intros lk _.
  destruct (Z.eqb_spec lk NULL) as [->|Hlk]; cbn.
  { rewrite Hi, Hs. split_and!; try done; intros; resources. rewrite eqz_ne by congruence. lia. }
  intros s _. destruct (UdpServer._socket_valid s) eqn:Hv; cbn.
  2: { rewrite Hi. cbn. intros [] _. rewrite ?Hi, Hv.
       split_and!; try done; intros; resources. rewrite server_invalid_eqz by done. lia. }
  intros r1 _ r2 _. destruct ((r1 =? 0) && (r2 =? 0)); cbn.
  2: { intros r3 _. rewrite Hi. cbn. intros [] _. rewrite ?Hi. split_and!; try done; intros; resources. }
  unfold _apply_udp_rx_queue_tuning. destruct (0 <? ipconfigUDP_MAX_RX_PACKETS); cbn; [intros r3 _|];
    (intros rb _; destruct (Z.eqb_spec rb 0) as [->|Hrb]; cbn;
     [split_and!; try done; try solve [intros; resources]; intros _; split; [done|];
      exists 0, s; split; [|done]; rewrite !elem_of_app, !list_elem_of_singleton; tauto
     |intros r4 _; rewrite Hi; cbn; intros [] _; rewrite ?Hi; split_and!; try done; intros; resources]).
Qed.

Lemma wait_up_wlp fuel (c : udp_server) t Q :
  (forall t1, Forall (fun e => neutral e.(ev_call) /\ quiet_call e.(ev_call)) t1 -> Q (tt, c) (t ++ t1)) ->
  wlp any_answer (wait_up fuel c) Q t.
Proof.
  revert t. induction fuel as [|fuel IH]; intros t HQ; cbn; [done|]. intros up _.
  case_match; cbn; [|apply HQ; by repeat constructor]. intros [] _; cbn.
  - rewrite <- app_assoc. apply HQ. by repeat constructor.
  - intros [] _. apply IH. intros t1 Ht1. rewrite <- !app_assoc. apply HQ. by repeat constructor.
Qed.

Lemma idle_loop_wlp fuel (c : udp_server) t Q :
  (forall t1, Forall (fun e => neutral e.(ev_call) /\ quiet_call e.(ev_call)) t1 -> Q (tt, c) (t ++ t1)) ->
  wlp any_answer (idle_loop fuel c) Q t.
Proof.
  revert t. induction fuel as [|fuel IH]; intros t HQ; cbn; [done|]. intros [] _; cbn.
  - apply HQ. by repeat constructor.
  - intros [] _. apply IH. intros t1 Ht1. rewrite <- !app_assoc. apply HQ. by repeat constructor.
Qed.

(** The calls of the setup concern no datagram. *)
Lemma task_setup_quiet c : only quiet_call (task_setup c).
Proof.
  unfold task_setup, close_socket, UdpServer._apply_timeouts, _apply_udp_rx_queue_tuning.
  repeat first [split; [done|] | intros ? | apply only_bind | case_match | progress cbn | done].
Qed.

Lemma quiet_loop_post (c : udp_server) t t1 :
  0 <= c.(state).(rx_packets_total) < 2 ^ 64 ->
  Forall (fun e => neutral e.(ev_call) /\ quiet_call e.(ev_call)) t1 ->
  loop_post c t c (t ++ t1) /\ same_resources t (t ++ t1).
Proof.
  intros Hp Ht. apply Forall_and in Ht as [Hn Hq]. split; [by apply loop_post_quiet|by apply neutral_resources].
Qed.

(** How far the task is since [t0]: the context owns its socket and mutex or
    nothing, and every datagram was delivered once, in order, and given back. *)
Definition running (t0 : trace) (c : udp_server) (t : trace) : Prop :=
  owns c t0 t
  /\ exists got, moved t0 t got got [] /\ c.(state).(rx_packets_total) = u64 (Z.of_nat (List.length got)).

Lemma running_packets t0 (c : udp_server) t : running t0 c t -> 0 <= c.(state).(rx_packets_total) < 2 ^ 64.
Proof. intros (_ & got & _ & ->). apply Z.mod_pos_bound. lia. Qed.

Lemma running_loop t0 (c c' : udp_server) t t' :
  running t0 c t -> loop_post c t c' t' -> same_resources t t' -> running t0 c' t'.
Proof.
  intros (Ho & got & Hm & Hp) (got2 & Hm2 & Hs & Hp2) Hres. split.
  - eapply owns_stats; [|done]. by eapply owns_resources.
  - exists (got ++ got2). rewrite length_app. split; [by apply (moved_trans _ _ _ _ _ [] _ _ [] Hm)|].
    rewrite Hp2, Hp. unfold u64. rewrite Zplus_mod_idemp_l. f_equal. lia.
Qed.

Lemma running_quiet t0 (c : udp_server) t t1 :
  running t0 c t -> Forall (fun e => neutral e.(ev_call) /\ quiet_call e.(ev_call)) t1 -> running t0 c (t ++ t1).
Proof.
  intros Hr Ht. destruct (quiet_loop_post c t t1 (running_packets _ _ _ Hr) Ht) as [Hl Hres].
  by eapply running_loop.
Qed.

Lemma running_setup t0 (c c' : udp_server) t t1 :
  fresh c -> running t0 c t -> setup_post c t c' (t ++ t1) -> Forall (fun e => quiet_call e.(ev_call)) t1 ->
  running t0 c' (t ++ t1).
Proof.
  intros (Hi & _ & _ & _) (Ho & got & Hm & Hp) (Ho2 & _ & Hp2 & _) Hq. split.
  - unfold owns in *. rewrite Hi in Ho. destruct Ho as (_ & _ & Hs & Hl).
    case_match; destruct Ho2 as (? & ? & Hs2 & Hl2); (split_and!; try done); intros p Hpp;
      [rewrite Hs2, Hs|rewrite Hl2, Hl|rewrite Hs2, Hs|rewrite Hl2, Hl]; done.
  - exists got. split; [|congruence]. rewrite <- (app_nil_r got).
    by apply (moved_trans _ _ _ _ _ [] _ _ [] Hm), quiet_moved.
Qed.

Lemma running_start (c : udp_server) t : fresh c -> c.(state).(rx_packets_total) = 0 -> running t c t.
Proof.
  intros Hf Hp. split; [by apply fresh_owns|]. exists []. split; [|done]. by apply moved_nil.
Qed.

(** The last part of the task: the receive loop and the exit. *)
Lemma task_exit_spec fuel t0 (c : udp_server) t :
  running t0 c t ->
  wlp any_answer (bindM (receive_loop fuel) (fun _ => bindM (upd_state (fun st => st <| task := NULL |>))
                    (fun _ => do_call vTaskDelete)) c)
    (fun '(_, c') t' => running t0 c' t' /\ c'.(state).(task) = NULL) t.
Proof.
  intros Hr. cbn -[receive_loop]. eapply wp_seq.
  { apply wp_neutral; [apply receive_loop_neutral|]. apply receive_loop_spec. by eapply running_packets. }
  intros [_ c1] t1 [Hl Hres]. cbn. intros [] _. split; [|done].
  pose proof (running_loop _ _ _ _ _ Hr Hl Hres) as Hr1.
  assert (Hr2 : running t0 (mk_udp_server c1.(config) (c1.(state) <| task := NULL |>)) t1) by exact Hr1.
  apply (running_quiet _ _ _ _ Hr2). by repeat constructor.
Qed.

(** The server task, from a fresh context to its exit: whatever the stack and the
    application do, it has no undefined behaviour, it ends with a socket and a
    mutex exactly when it reports to be initialised, it hands every datagram to
    the callback once and in the order of arrival, and it gives every zero-copy
    payload back. *)
Lemma task_spec fuel (c : udp_server) t :
  fresh c -> c.(state).(rx_packets_total) = 0 ->
  wlp any_answer (_uni_net_udp_server_task fuel c)
    (fun '(_, c') t' => running t c' t' /\ c'.(state).(task) = NULL) t.
Proof.
  intros Hf Hp. pose proof (running_start c t Hf Hp) as Hr.
  unfold _uni_net_udp_server_task. cbn [bindM]. apply wp_bind, wait_up_wlp. intros t1 Ht1.
  pose proof (running_quiet _ _ _ _ Hr Ht1) as Hr1.
  cbn [do_call bind]. intros stop _.
  pose proof (running_quiet _ _ _ [Ev read_stop_requested stop] Hr1 ltac:(by repeat constructor)) as Hr2.
  set (t2 := (t ++ t1) ++ _) in *.
  apply (wp_seq _ _ _ _ (fun '(_, c1) t3 => running t c1 t3)).
  { destruct stop; cbn [negb]; [exact Hr2|].
    eapply wp_mono; [apply wp_only; [apply task_setup_quiet|eapply wp_weaken; [by apply task_setup_spec|done|done]]|].
    intros [_ c1] t3 (Hs & t4 & -> & Hq). by eapply running_setup. }
  intros [_ c1] t3 Hr3. cbn [do_call bind get bindM]. intros stop2 _.
  pose proof (running_quiet _ _ _ [Ev read_stop_requested stop2] Hr3 ltac:(by repeat constructor)) as Hr4.
  apply (wp_seq _ _ _ _ (fun '(_, c2) t4 => running t c2 t4)).
  { case_match; [|exact Hr4]. apply idle_loop_wlp. intros t4 Ht4. by apply running_quiet. }
  intros [_ c2] t4 Hr5. by apply (task_exit_spec fuel t c2 t4).
Qed.

Lemma wait_task_wlp fuel (c : udp_server) t Q :
  (forall t1, Forall (fun e => neutral e.(ev_call)) t1 -> Q (tt, c) (t ++ t1)) ->
  wlp any_answer (wait_task fuel c) Q t.
Proof.
  revert t. induction fuel as [|fuel IH]; intros t HQ; cbn; [done|]. intros tk _.
  case_match; cbn; [|apply HQ; by repeat constructor].
  intros [] _. apply IH. intros t1 Ht1. rewrite <- !app_assoc. apply HQ. by repeat constructor.
Qed.

(** What [stop] releases. *)
Definition stop_post (c : udp_server) (t t' : trace) : Prop :=
  (forall p, UdpServer._socket_valid p = true -> open_sockets p t' = open_sockets p t
      - (if UdpServer._socket_valid c.(state).(socket) then eqz c.(state).(socket) p else 0))
  /\ (forall p, p <> NULL -> live_mutexes p t' = live_mutexes p t - eqz c.(state).(lock) p).

(** The second half of [stop]: the task has ended. *)
Lemma stop_close (c : udp_server) t :
  wp any_answer (bindM UdpServer._lock (fun _ => bindM get (fun c =>
      bindM (if UdpServer._socket_valid c.(state).(socket) then close_socket c.(state).(socket) else ret tt)
        (fun _ => bindM UdpServer._unlock (fun _ => bindM get (fun c =>
      bindM (if negb (c.(state).(lock) =? NULL) then do_call (vSemaphoreDelete c.(state).(lock)) else ret tt)
        (fun _ => bindM (put zero_server) (fun _ => ret true))))))) c)
    (fun '(r, c') t' => r = true /\ c' = zero_server /\ stop_post c t t') t.
Proof.
  cbn. unfold UdpServer._lock, UdpServer._unlock. cbn. unfold stop_post.
  destruct (Z.eqb_spec c.(state).(lock) NULL) as [Hl|Hl]; cbn.
  - destruct (UdpServer._socket_valid c.(state).(socket)) eqn:Hs; cbn; [intros r _|]; do 2 (rewrite ?Hl; cbn);
      (split_and!; [done|done|..]); intros; resources; rewrite (eqz_ne NULL) by congruence; lia.
  - intros [] _. destruct (UdpServer._socket_valid c.(state).(socket)) eqn:Hs; cbn; [intros r _|];
      rewrite ?(proj2 (Z.eqb_neq _ _) Hl); cbn; intros [] _; rewrite ?(proj2 (Z.eqb_neq _ _) Hl); cbn; intros [] _;
      (split_and!; [done|done|..]); intros; resources.
Qed.

Lemma stop_spec fuel (c : udp_server) t :
  wlp any_answer (uni_net_udp_server_stop fuel (Some c))
    (fun '(r, o) t' => r = true /\ o = Some zero_server /\ stop_post c t t') t.
Proof.
  unfold uni_net_udp_server_stop. cbn [with_ctx]. apply wp_bind.
  set (c1 := c <| state ::= fun st => st <| stop_requested := true |> |>).
  assert (Hpre : forall (K : M udp_server bool) Q,
    (forall t1, Forall (fun e => neutral e.(ev_call)) t1 -> wlp any_answer (K c1) Q (t ++ t1)) ->
    wlp any_answer (bindM (upd_state (fun st => st <| stop_requested := true |>)) (fun _ =>
      bindM UdpServer._lock (fun _ => bindM get (fun c =>
      bindM (if UdpServer._socket_valid c.(state).(socket) then
               bindM (do_call (FreeRTOS_setsockopt c.(state).(socket) (FREERTOS_SO_RCVTIMEO (pdMS_TO_TICKS 50)))) (fun _ => ret tt)
             else ret tt) (fun _ => bindM UdpServer._unlock (fun _ => bindM (wait_task fuel) (fun _ => K)))))) c) Q t).
  { intros K Q HK. cbn -[wait_task]. unfold UdpServer._lock, UdpServer._unlock. cbn -[wait_task].
    destruct (lock (state c) =? NULL) eqn:El; cbn -[wait_task]; [|intros [] _];
      (destruct (UdpServer._socket_valid (socket (state c))); cbn -[wait_task]; [intros r _|]); rewrite ?El; cbn -[wait_task];
      try intros [] _; apply wp_bind, wait_task_wlp; intros t1 Ht1; rewrite <- ?app_assoc; apply HK;
      by repeat constructor. }
  apply Hpre. intros t1 Ht1. eapply wp_mono; [eapply wp_weaken; [apply stop_close|done|done]|].
  intros [r c'] t2 (-> & -> & Hs & Hm). cbn. split_and!; [done|done|].
  destruct (neutral_resources t t1 Ht1) as [Hs1 Hm1].
  split; intros p Hp; [rewrite Hs, Hs1 by done|rewrite Hm, Hm1 by done]; done.
Qed.

Lemma wait_task_quiet fuel c : only quiet_call (wait_task fuel c).
Proof.
  revert c. induction fuel as [|fuel IH]; intros c; cbn; [done|]. split; [done|]. intros tk.
  case_match; cbn; [|done]. split; [done|]. intros []. apply IH.
Qed.

Lemma stop_quiet fuel o : only quiet_call (uni_net_udp_server_stop fuel o).
Proof.
  unfold uni_net_udp_server_stop, UdpServer._lock, UdpServer._unlock, close_socket.
  destruct o as [c|]; [|done]. cbn -[wait_task].
  repeat first [split; [done|] | intros ? | apply wait_task_quiet | apply only_bind | case_match
               | progress cbn -[wait_task] | done].
Qed.

(** ** Claims *)

(** A whole run of the server: [start], the task, [stop]. *)
Definition server_run (cfg : option udp_server_config) (fuel : nat) : M (option udp_server) bool :=
  bindM (uni_net_udp_server_start cfg) (fun r =>
    if r then bindM (with_ctx tt (_uni_net_udp_server_task fuel)) (fun _ => uni_net_udp_server_stop fuel)
    else ret false).

Lemma start_spec cfg (c : udp_server) t :
  wp any_answer (uni_net_udp_server_start cfg (Some c))
    (fun '(r, o) t' => exists c', o = Some c' /\ same_resources t t' /\ moved t t' [] [] []
       /\ if r then fresh c' /\ c'.(state).(rx_packets_total) = 0 /\ c'.(state).(rx_drop_total) = 0
                    /\ c'.(state).(stop_requested) = false
                    /\ c'.(config) = default (mk_udp_server_config 0 0 1000 1000 NULL NULL 2
                                                (configMINIMAL_STACK_SIZE * 2)) cfg
          else c' = zero_server) t.
Proof.
  destruct cfg as [cfg|]; cbn; intros r _; destruct (r.1 =? pdTRUE); cbn; eexists; (split; [done|]);
    (split; [apply neutral_resources; by repeat constructor|]);
    (split; [apply quiet_moved; by repeat constructor|]); try done; by split_and!.
Qed.

(** What a whole run leaves behind, and what it did with the datagrams. *)
Definition run_post (t : trace) (o : option udp_server) (t' : trace) : Prop :=
  o = Some zero_server
  /\ (exists got, datagrams t' = datagrams t ++ got
        /\ deliveries t' = deliveries t ++ filter (fun it => deliverable it = true) got)
  /\ (forall p, p <> NULL -> lent_payloads p t' = lent_payloads p t)
  /\ (forall p, UdpServer._socket_valid p = true -> open_sockets p t' = open_sockets p t)
  /\ (forall p, p <> NULL -> live_mutexes p t' = live_mutexes p t).

Lemma server_run_spec cfg fuel (c : udp_server) t :
  wlp any_answer (server_run cfg fuel (Some c)) (fun '(_, o) t' => run_post t o t') t.
Proof.
  unfold server_run, run_post. cbn [bindM].
  eapply wp_seq; [eapply wp_weaken; [apply start_spec|done|done]|].
  intros [r o] t1 (c1 & -> & [Hs1 Hm1] & (Hd1 & Ho1 & Hk1) & Hc1). destruct r.
  2: { subst c1. cbn. split; [done|]. split; [exists []; by rewrite Hd1, Ho1|].
       split_and!; intros p Hp; [rewrite Hk1 by done; cbn; lia|apply Hs1|apply Hm1]. }
  destruct Hc1 as (Hf & Hp & _). cbn [with_ctx bindM]. apply wp_bind, wp_bind.
  eapply wp_mono; [by apply task_spec|].
  intros [u c2] t2 [(Ho & got & (Hd2 & Ho2 & Hk2) & _) _]. cbn [bind wp_gen].
  eapply wp_mono; [apply wp_only; [apply stop_quiet|apply stop_spec]|].
  intros [r3 o3] t4 ((_ & -> & Hs3 & Hm3) & t3 & -> & Hq3). split; [done|].
  destruct (quiet_moved t2 t3 Hq3) as (Hd3 & Ho3 & Hk3).
  split; [exists got; rewrite Hd3, Hd2, Hd1, Ho3, Ho2, Ho1; cbn; by rewrite !app_nil_r|].
  assert (Hown : (forall p, UdpServer._socket_valid p = true -> open_sockets p (t2 ++ t3) = open_sockets p t1)
                 /\ (forall p, p <> NULL -> live_mutexes p (t2 ++ t3) = live_mutexes p t1)).
  { unfold owns in Ho. destruct (initialized (state c2)); destruct Ho as (Hv & Hl & Hos & Hol); rewrite Hv in Hs3.
    - split; intros p Hpp; [rewrite Hs3, Hos by done|rewrite Hm3, Hol by done]; lia.
    - split; intros p Hpp; [rewrite Hs3, Hos by done; lia|]. rewrite Hm3, Hol, Hl, (eqz_ne NULL) by done. lia. }
  destruct Hown as [Hown1 Hown2]. split_and!; intros p Hpp.
  - rewrite Hk3, Hk2, Hk1 by done. cbn. lia.
  - by rewrite Hown1, Hs1.
  - by rewrite Hown2, Hm1.
Qed.


(** C23: The receive loop takes at most [UNI_NET_UDP_SERVER_RX_BURST_BUDGET] datagrams
    before it looks at the socket and the stop flag again; it ends, stays inside
    its batch array and never lets the budget wrap around. *)
Theorem udp_burst_bounded s (c : udp_server) t :
  c.(config).(on_receive) <> NULL -> 0 <= c.(state).(rx_packets_total) < 2 ^ 64 ->
  wp any_answer
    (burst_loop (S (Z.to_nat UNI_NET_UDP_SERVER_RX_BURST_BUDGET)) s
       (replicate (Z.to_nat UNI_NET_UDP_SERVER_RX_BATCH_DEPTH) zero_item) UNI_NET_UDP_SERVER_RX_BURST_BUDGET true c)
    (fun '(_, c') t' => exists got, (List.length got <= 32)%nat /\ datagrams t' = datagrams t ++ got
       /\ c'.(state).(rx_packets_total) = u64 (c.(state).(rx_packets_total) + Z.of_nat (List.length got))) t.
Proof.
  intros Hcb Hp. eapply wp_mono.
  { apply burst_loop_spec; [lia|unfold UNI_NET_UDP_SERVER_RX_BURST_BUDGET; lia|apply length_replicate|done|done]. }
  intros [_ c'] t' (got & Hn & (Hd & _) & _ & Hpk). unfold UNI_NET_UDP_SERVER_RX_BURST_BUDGET in Hn.
  exists got. split_and!; [lia|done|done].
Qed.

(** The statistics of a synchronous receive. *)
Lemma stats_step rv (c : udp_server) : exists c1,
  (if 0 <? rv then _stats_add_packets 1 else if rv <? 0 then _stats_add_drops 1 else ret tt) c = Ret (tt, c1)
  /\ same_but_stats c c1 /\ c1.(state).(lock) = c.(state).(lock)
  /\ c1.(state).(rx_packets_total) = (if 0 <? rv then u64 (c.(state).(rx_packets_total) + 1) else c.(state).(rx_packets_total))
  /\ c1.(state).(rx_drop_total) = (if rv <? 0 then u64 (c.(state).(rx_drop_total) + 1) else c.(state).(rx_drop_total)).
Proof.
  destruct (Z.ltb_spec 0 rv), (Z.ltb_spec rv 0); try lia; cbn; eexists; split_and!; try done.
Qed.

(** C29: A synchronous receive leaves the socket with the configured receive timeout,
    counts the datagram or the error, and leaves the mutex as it was; while the
    receive task is active it is refused without touching the socket. *)
Theorem udp_server_recvfrom_restores b n out ms (c : udp_server) t :
  0 <= n <= len b -> n < 2 ^ 31 -> c.(state).(initialized) = true -> n <> 0 ->
  wp udp_ok (uni_net_udp_server_recvfrom (Some b) n out ms (Some c))
    (fun '((r, _, _), o) t' => exists c', o = Some c' /\ same_but_stats c c'
       /\ (forall p, held p t' = held p t)
       /\ if decide (c.(config).(on_receive) <> NULL /\ c.(state).(task) <> NULL)
          then r = - pdFREERTOS_ERRNO_EALREADY /\ t' = t
          else rcvtimeo c.(state).(socket) t' = Some (pdMS_TO_TICKS c.(config).(rx_timeout_ms))
               /\ c'.(state).(rx_packets_total) = (if 0 <? r then u64 (c.(state).(rx_packets_total) + 1)
                                                   else c.(state).(rx_packets_total))
               /\ c'.(state).(rx_drop_total) = (if r <? 0 then u64 (c.(state).(rx_drop_total) + 1)
                                                else c.(state).(rx_drop_total))) t.
Proof.
  intros Hn Hlt Hi Hn0. cbn. rewrite Hi, (proj2 (Z.eqb_neq _ _)) by exact Hn0. cbn.
  destruct (decide (c.(config).(on_receive) <> NULL /\ c.(state).(task) <> NULL)) as [[Hcb Htk]|Hno].
  { rewrite !(proj2 (Z.eqb_neq _ _)) by done. cbn. by exists c. }
  assert (Hgo : negb (c.(config).(on_receive) =? NULL) && negb (c.(state).(task) =? NULL) = false).
  { destruct (Z.eqb_spec c.(config).(on_receive) NULL), (Z.eqb_spec c.(state).(task) NULL); tauto. }
  rewrite Hgo. rewrite i32_small, size_t_small by lia. unfold UdpServer._lock, UdpServer._unlock. cbn.
  destruct (lock (state c) =? NULL) eqn:El; cbn.
  - intros r1 _. rewrite El. cbn. intros [[[rv d] a] fl] Hd. cbn in Hd.
    destruct (write_at_Some b 0 d) as (b' & Hw & _); [cbn; lia|]. cbn. rewrite Hw. cbn.
    destruct (stats_step (_map_timeout_to_wouldblock (i32 rv)) c) as (c1 & Hst & Hs1 & Hl1 & Hp1 & Hdr1).
    rewrite Hst. cbn. rewrite Hl1, El. cbn. intros r2 _. rewrite Hl1, El. cbn.
    exists c1. split_and!; try done; [intros p; resources|].
    rewrite rcvtimeo_snoc. cbn. by rewrite Z.eqb_refl.
  - intros [] _ r1 _. rewrite El. cbn. intros [] _ [[[rv d] a] fl] Hd. cbn in Hd.
    destruct (write_at_Some b 0 d) as (b' & Hw & _); [cbn; lia|]. cbn. rewrite Hw. cbn.
    destruct (stats_step (_map_timeout_to_wouldblock (i32 rv)) c) as (c1 & Hst & Hs1 & Hl1 & Hp1 & Hdr1).
    rewrite Hst. cbn. rewrite Hl1, El. cbn. intros [] _ r2 _. rewrite Hl1, El. cbn. intros [] _.
    exists c1. split_and!; try done; [intros p; resources|].
    rewrite !rcvtimeo_snoc. cbn. by rewrite Z.eqb_refl.
Qed.

End UdpServerSpec.
