(* ===== verification/UdpLiveness.v ===== *)
(** * UDP server: the stop comes through

    The loops of the server task and of [stop] poll a flag that another task
    writes.  Once that flag is up, the whole life of the server ends: the fuel of
    the model is enough, so that the accounting of [UdpServerSpec] is about a run
    that comes to its end. *)

From S2P Require Import Prelude Env Prog Trace CString UdpClient UdpServer UdpServerSpec.

(** How often the stop flag and the task handle have been read. *)
Definition stop_event (e : event) : Z := match e.(ev_call) with read_stop_requested => 1 | _ => 0 end.
Definition stop_reads (t : trace) : Z := tsum stop_event t.
Definition task_event (e : event) : Z := match e.(ev_call) with read_server_task => 1 | _ => 0 end.
Definition task_reads (t : trace) : Z := tsum task_event t.

(** The stop is requested before the flag is read for the [k]-th time, and the
    handle of the ended task is seen as cleared by the [k]-th look at it. *)
Definition stops_by (k : Z) : contract := fun t c =>
  match c return resp c -> Prop with
  | read_stop_requested => fun r => k <= stop_reads t -> r = true
  | read_server_task => fun r => k <= task_reads t -> r = NULL
  | _ => fun _ => True
  end.

Lemma stop_reads_nonneg t : 0 <= stop_reads t.
Proof. apply tsum_nonneg. intros [c r]. unfold stop_event. cbn. by case_match. Qed.

Lemma task_reads_nonneg t : 0 <= task_reads t.
Proof. apply tsum_nonneg. intros [c r]. unfold task_event. cbn. by case_match. Qed.

Lemma stop_reads_app t t1 : stop_reads (t ++ t1) = stop_reads t + stop_reads t1.
Proof. apply tsum_app. Qed.

Lemma task_reads_app t t1 : task_reads (t ++ t1) = task_reads t + task_reads t1.
Proof. apply tsum_app. Qed.

Section UdpLiveness.
Context `{PlatformOk} `{UniCommonSpec}.

(** ** Loops with a bound of their own *)

Lemma recv_loop_halts n s items count w c :
  halts (fun '((r, _), _) => (r <= count + n)%nat) (recv_loop n s items count w c).
Proof.
  revert items count c. induction n as [|n IH]; intros items count c; cbn; [lia|].
  intros [[rv [p d]] a]. case_match; cbn.
  - repeat (case_match; cbn; try intros _); lia.
  - case_match; cbn; [|done]. eapply halts_mono; [apply IH|]. intros [[r its] c']. lia.
Qed.

Lemma dispatch_loop_halts items i n c : halts (fun _ => True) (dispatch_loop items i n c).
Proof.
  revert i c. induction n as [|n IH]; intros i c; cbn; [done|].
  destruct (items !! i) as [it|]; cbn; [|done]. apply (halts_bind (fun _ => True)); [|intros [[] c'] _; apply IH].
  unfold dispatch_item. cbn. repeat (case_match; cbn; try intros _); done.
Qed.

Lemma dispatch_batch_halts items n c : halts (fun _ => True) (_dispatch_batch items n c).
Proof.
  unfold _dispatch_batch. case_match; [done|]. apply (halts_bind (fun _ => True)); [apply dispatch_loop_halts|].
  by intros [[] c'] _.
Qed.

Lemma burst_loop_halts fuel s batch budget w c :
  (Z.to_nat budget < fuel)%nat -> 0 <= budget < 2 ^ 32 -> halts (fun _ => True) (burst_loop fuel s batch budget w c).
Proof.
  revert batch budget w c. induction fuel as [|fuel IH]; intros batch budget w c Hf Hb; [lia|].
  cbn [burst_loop bindM]. cbn. intros stop. destruct (negb stop && (0 <? budget)) eqn:Ego; cbn; [|done].
  apply andb_true_iff in Ego as [_ Hpos%Z.ltb_lt].
  set (cap := if UNI_NET_UDP_SERVER_RX_BATCH_DEPTH <? budget then _ else budget).
  assert (Hcap : 0 <= cap <= budget).
  { unfold cap, UNI_NET_UDP_SERVER_RX_BATCH_DEPTH. destruct (Z.ltb_spec 8 budget); lia. }
  apply (halts_bind (fun '((r, _), _) => (r <= Z.to_nat cap)%nat)).
  { unfold _recv_batch. case_match; [cbn; lia|]. eapply halts_mono; [apply recv_loop_halts|]. by intros [[r its] c']. }
  intros [[r its] c1] Hr. destruct (Nat.eqb_spec r 0) as [|Hr0]; [done|].
  apply (halts_bind (fun _ => True)); [apply dispatch_batch_halts|]. intros [[] c2] _.
  rewrite size_t_small by lia. apply IH; lia.
Qed.

(** ** Loops that end with the stop request *)

Abbreviation ends k p t := (wp_gen (fun e => e <> OutOfFuel) (stops_by k) p (fun _ t' => exists t1, t' = t ++ t1) t).

Lemma ends_bind {A B} k (p : prog A) (f : A -> prog B) t :
  ends k p t -> (forall a t1, ends k (f a) (t ++ t1)) -> ends k (bind p f) t.
Proof.
  intros Hp Hf. eapply wp_seq; [exact Hp|]. intros a t' [t1 ->].
  eapply wp_mono; [apply Hf|]. intros b t'' [t2 ->]. exists (t1 ++ t2). by rewrite app_assoc.
Qed.

Lemma ends_halts {A} k (p : prog A) t : halts (fun _ => True) p -> ends k p t.
Proof. intros Hp. eapply wp_mono; [by apply (halts_wp (stops_by k))|]. by intros a t' [_ ?]. Qed.

Lemma ends_call k (p : prog (unit * udp_server)) t es : ends k p (t ++ es) ->
  wp_gen (fun e => e <> OutOfFuel) (stops_by k) p (fun _ t' => exists t1, t' = t ++ t1) (t ++ es).
Proof. intros Hp. eapply wp_mono; [exact Hp|]. intros a t' [t1 ->]. exists (es ++ t1). by rewrite app_assoc. Qed.

Ltac reads := rewrite ?stop_reads_app, ?task_reads_app; unfold stop_reads, task_reads in *; autorewrite with trace; cbn; lia.
Ltac ends_here := first [by apply ends_halts | by eexists; rewrite <- ?app_assoc].


Lemma wait_up_ends k fuel c t : (0 < fuel)%nat -> k < Z.of_nat fuel + stop_reads t -> ends k (wait_up fuel c) t.
Proof.
  revert t. induction fuel as [|fuel IH]; intros t Hf Hk; [lia|]. cbn. intros up _.
  case_match; cbn; [|ends_here]. intros [] Hr; cbn; [ends_here|]. intros [] _. cbn in Hr. rewrite stop_reads_app in Hr.
  destruct (Z.le_gt_cases k (stop_reads t)) as [Hle|Hgt].
  { exfalso. specialize (Hr ltac:(reads)). done. }
  rewrite <- !app_assoc. apply ends_call, IH; [lia|]. reads.
Qed.

Lemma idle_loop_ends k fuel c t : (0 < fuel)%nat -> k < Z.of_nat fuel + stop_reads t -> ends k (idle_loop fuel c) t.
Proof.
  revert t. induction fuel as [|fuel IH]; intros t Hf Hk; [lia|]. cbn. intros [] Hr; cbn; [ends_here|]. intros [] _. cbn in Hr.
  destruct (Z.le_gt_cases k (stop_reads t)) as [Hle|Hgt]; [by specialize (Hr Hle)|].
  rewrite <- !app_assoc. apply ends_call, IH; [lia|]. reads.
Qed.

Lemma wait_task_ends k fuel c t : (0 < fuel)%nat -> k < Z.of_nat fuel + task_reads t -> ends k (wait_task fuel c) t.
Proof.
  revert t. induction fuel as [|fuel IH]; intros t Hf Hk; [lia|]. cbn. intros tk Hr. cbn in Hr.
  case_match eqn:Htk; cbn; [|ends_here]. intros [] _.
  destruct (Z.le_gt_cases k (task_reads t)) as [Hle|Hgt]; [by rewrite (Hr Hle) in Htk|].
  rewrite <- !app_assoc. apply ends_call, IH; [lia|]. reads.
Qed.

Lemma lock_halts c : halts (fun _ => True) (UdpServer._lock c).
Proof. unfold UdpServer._lock. cbn. by case_match. Qed.

Lemma unlock_halts c : halts (fun _ => True) (UdpServer._unlock c).
Proof. unfold UdpServer._unlock. cbn. by case_match. Qed.

Lemma receive_loop_ends k n c t : k <= Z.of_nat n + stop_reads t -> ends k (receive_loop n c) t.
Proof.
  revert c t. induction n as [|n IH]; intros c t Hk; cbn -[burst_loop]; intros [] Hr; cbn -[burst_loop] in *; try ends_here.
  { by specialize (Hr ltac:(lia)). }
  case_match; [|ends_here]. apply ends_call.
  apply ends_bind; [apply ends_halts, lock_halts|]. intros [[] c1] t1. cbn -[burst_loop].
  apply ends_bind; [apply ends_halts, unlock_halts|]. intros [[] c2] t2.
  apply ends_bind; [apply ends_halts|].
  { case_match; [done|]. apply burst_loop_halts; unfold UNI_NET_UDP_SERVER_RX_BURST_BUDGET; lia. }
  intros [[] c3] t3. apply IH. rewrite !stop_reads_app.
  pose proof (stop_reads_nonneg t1). pose proof (stop_reads_nonneg t2). pose proof (stop_reads_nonneg t3).
  change (stop_reads [Ev read_stop_requested false]) with 1. lia.
Qed.

(** ** The whole life *)

Lemma task_setup_halts c : halts (fun _ => True) (task_setup c).
Proof.
  unfold task_setup, close_socket, UdpServer._apply_timeouts, _apply_udp_rx_queue_tuning.
  repeat first [intros ? | apply (halts_bind (fun _ => True)) | case_match | progress cbn | done].
Qed.

Lemma task_ends k fuel c t : k < Z.of_nat fuel -> (0 < fuel)%nat -> ends k (_uni_net_udp_server_task fuel c) t.
Proof.
  intros Hk Hf. unfold _uni_net_udp_server_task. cbn [bindM].
  assert (Hr : forall t, 0 <= stop_reads t) by apply stop_reads_nonneg.
  apply ends_bind; [apply wait_up_ends; [done|specialize (Hr t); lia]|]. intros [[] c1] t1. cbn [do_call bind].
  intros stop _. apply ends_call. apply ends_bind; [apply ends_halts; case_match; [apply task_setup_halts|done]|].
  intros [[] c2] t2. cbn [do_call bind get]. intros stop2 _. apply ends_call. apply ends_bind.
  { case_match; [|cbn; ends_here]. apply idle_loop_ends; [done|]. match goal with |- context [stop_reads ?x] => specialize (Hr x) end. lia. }
  intros [[] c3] t3. apply ends_bind.
  { apply receive_loop_ends. match goal with |- context [stop_reads ?x] => specialize (Hr x) end. lia. }
  intros [[] c4] t4. cbn. intros [] _. ends_here.
Qed.

Lemma stop_ends k fuel c t : k < Z.of_nat fuel -> (0 < fuel)%nat -> ends k (uni_net_udp_server_stop fuel (Some c)) t.
Proof.
  intros Hk Hf. unfold uni_net_udp_server_stop. cbn [with_ctx bindM upd_state modify bind]. apply ends_bind.
  2: { intros [r c'] t1. ends_here. }
  apply ends_bind; [apply ends_halts, lock_halts|]. intros [[] c1] t1. cbn [get bind].
  apply ends_bind; [apply ends_halts; by case_match|]. intros [[] c2] t2.
  apply ends_bind; [apply ends_halts, unlock_halts|]. intros [[] c3] t3.
  apply ends_bind; [apply wait_task_ends; [done|]; match goal with |- context [task_reads ?x] => pose proof (task_reads_nonneg x) end; lia|].
  intros [[] c4] t4. apply ends_halts. unfold UdpServer._lock, UdpServer._unlock, close_socket.
  repeat first [intros ? | apply (halts_bind (fun _ => True)) | case_match | progress cbn | done].
Qed.


End UdpLiveness.
