(* ===== verification/UdpServerApi.v ===== *)
(** * UDP server: sending

    What [uni_net_udp_server_sendto] does, call by call, from the callback of the
    server task and from any other task. *)

From S2P Require Import Prelude Env Prog Trace CString UdpClient UdpClientSpec UdpServer.

Section UdpServerApi.
Context `{PlatformOk} `{UniCommonSpec}.

(** The mutex is taken unless there is none or the caller is the server task,
    which may be inside the callback. *)
Definition takes_lock (c : udp_server) (self : ptr) : bool :=
  negb (c.(state).(lock) =? NULL) && ((c.(state).(task) =? NULL) || negb (self =? c.(state).(task))).

Definition sendto_calls (c : udp_server) (d : bytes) (ep : udp_endpoint) (self : ptr) (rv : Z) : trace :=
  let send := Ev (FreeRTOS_sendto c.(state).(socket) d
                    (mk_sockaddr FREERTOS_AF_INET ep.(ep_port) ep.(ep_addr))) rv in
  if takes_lock c self
  then [Ev xTaskGetCurrentTaskHandle self; Ev (xSemaphoreTake c.(state).(lock)) tt; send;
        Ev (xSemaphoreGive c.(state).(lock)) tt]
  else [Ev xTaskGetCurrentTaskHandle self; send].

Lemma server_map_timeout_range rv :
  - 2 ^ 31 <= rv < 2 ^ 31 -> - 2 ^ 31 <= UdpServer._map_timeout_to_wouldblock rv < 2 ^ 31.
Proof. intros. unfold UdpServer._map_timeout_to_wouldblock. case_match; [|done]. unfold UNI_NET_UDP_RET_TIMEOUT. lia. Qed.

(** C30: A send hands exactly the first [n] bytes to the stack, once, for the address
    and port of the endpoint; the mutex is held during the send unless the server
    task itself sends, so that a callback cannot deadlock; it is free afterwards;
    the context is unchanged; the result is the whole length, zero or negative.
    A request without data, target or initialised server is refused untouched. *)
Theorem udp_server_sendto_exact b n ep (c : udp_server) t :
  0 <= n <= len b -> n < 2 ^ 31 ->
  wp any_answer (uni_net_udp_server_sendto (Some b) n (Some ep) (Some c))
    (fun '(r, o) t' => o = Some c /\ (r = n \/ r <= 0) /\ (forall p, held p t' = held p t)
       /\ if (n =? 0) || negb c.(state).(initialized) then r = - pdFREERTOS_ERRNO_EINVAL /\ t' = t
          else exists self rv, t' = t ++ sendto_calls c (take (Z.to_nat n) b) ep self rv) t.
Proof.
  intros Hn Hlt. unfold uni_net_udp_server_sendto. cbn -[take_bytes].
  destruct ((n =? 0) || negb c.(state).(initialized)); cbn -[take_bytes].
  { split_and!; try done. right.
    pose proof (errno_bounds pdFREERTOS_ERRNO_EINVAL ltac:(unfold errnos; rewrite !elem_of_cons; tauto)). lia. }
  intros self _.
  assert (Hres : forall rv, let r := whole_datagram (UdpServer._map_timeout_to_wouldblock (i32 rv)) n in r = n \/ r <= 0).
  { intros rv. apply whole_datagram_result, server_map_timeout_range, i32_range. }
  unfold sendto_calls, takes_lock, UdpServer._lock, UdpServer._unlock.
  destruct ((task (state c) =? NULL) || negb (self =? task (state c))) eqn:Et;
    destruct (lock (state c) =? NULL) eqn:El; cbn -[take_bytes]; rewrite ?El; cbn -[take_bytes].
  2: intros [] _.
  all: rewrite take_bytes_eq by done; cbn; intros rv _; rewrite ?El; cbn; try intros [] _.
  all: split_and!; [done|apply Hres|intros p; resources|]; exists self, rv; rewrite ?Et, ?El; cbn; rewrite <- !app_assoc; done.
Qed.

End UdpServerApi.
