(* ===== verification/UdpTypes.v ===== *)
(** * UDP server: every value in the range of its type

    The model keeps C integers as unbounded [Z]: this file shows that nothing is
    lost.  Whatever is called, in whatever order, and whatever the stack answers,
    every field of the context and every integer argument of a call is in the range
    of its C type. *)

From S2P Require Import Prelude Env Prog CString UdpClient UdpClientSpec UdpServer.

Definition in_u16 (z : Z) : Prop := 0 <= z < 2 ^ 16.
Definition in_u32 (z : Z) : Prop := 0 <= z < 2 ^ 32.
Definition in_u64 (z : Z) : Prop := 0 <= z < 2 ^ 64.

Record config_typed (g : udp_server_config) : Prop := {
  ct_addr : in_u32 g.(bind_addr);
  ct_port : in_u16 g.(bind_port);
  ct_rx : in_u32 g.(rx_timeout_ms);
  ct_tx : in_u32 g.(tx_timeout_ms);
  ct_stack : in_u32 g.(task_stack_words);
}.

Record server_typed (c : udp_server) : Prop := {
  st_config : config_typed c.(config);
  st_packets : in_u64 c.(state).(rx_packets_total);
  st_drops : in_u64 c.(state).(rx_drop_total);
  st_queue : in_u32 c.(state).(rx_queue_packets);
}.

Definition endpoint_typed (ep : udp_endpoint) : Prop := in_u32 ep.(ep_addr) /\ in_u16 ep.(ep_port).
Definition sockaddr_typed (a : sockaddr) : Prop := in_u32 a.(sin_addr) /\ in_u16 a.(sin_port).

Section Types.
Context `{PlatformOk} `{UniCommonSpec}.

(** The integer arguments of the calls. *)
Definition call_typed (c : call) : Prop :=
  match c with
  | FreeRTOS_bind _ a | FreeRTOS_sendto _ _ a => sockaddr_typed a
  | FreeRTOS_recvfrom _ n => 0 <= n < 2 ^ size_bits
  | xTaskCreate _ stack _ => in_u32 stack
  | FreeRTOS_setsockopt _ (FREERTOS_SO_UDP_MAX_RX_PACKETS n) => in_u32 n
  | udp_on_receive _ _ _ _ n _ => 0 < n < 2 ^ 31
  | _ => True
  end.

Abbreviation typed := (maintains server_typed call_typed).

Lemma typed_state c f :
  server_typed c -> (forall st, (f st).(rx_packets_total) = st.(rx_packets_total) /\ (f st).(rx_drop_total) = st.(rx_drop_total)
     /\ (f st).(rx_queue_packets) = st.(rx_queue_packets)) ->
  server_typed (c <| state ::= f |>).
Proof. intros [? ? ? ?] Hf. destruct (Hf c.(state)) as (E1 & E2 & E3). split; cbn; rewrite ?E1, ?E2, ?E3; done. Qed.

Lemma u64_in z : in_u64 (u64 z).
Proof. apply Z.mod_pos_bound. lia. Qed.

Lemma swap16_in z : in_u16 z -> in_u16 (uni_common_bytes_swap16 z).
Proof.
  intros Hz. rewrite swap16_spec by done. unfold in_u16 in *.
  pose proof (Z.mod_pos_bound z (2 ^ 8)). assert (0 <= z / 2 ^ 8 < 2 ^ 8); [|lia].
  split; [apply Z.div_pos; lia|apply Z.div_lt_upper_bound; lia].
Qed.

Lemma queue_value_in : in_u32 _udp_rx_queue_packets_value.
Proof.
  unfold _udp_rx_queue_packets_value, UNI_NET_UDP_SERVER_RX_QUEUE_PACKETS, in_u32.
  destruct (Z.ltb_spec 0 ipconfigUDP_MAX_RX_PACKETS); [|lia]. case_match eqn:E; [|lia]. apply Z.ltb_lt in E. lia.
Qed.

(** Calls and updates of the server. *)
Ltac typed_leaf :=
  first [ done
        | apply typed_state; [done|done]
        | match goal with Hc : server_typed _ |- server_typed _ =>
            by destruct Hc; split; cbn; auto using u64_in, queue_value_in end
        | match goal with Hc : server_typed _ |- call_typed _ =>
            destruct Hc as [[] ? ? ?]; by first [done | split; cbn; auto using swap16_in] end
        | match goal with |- call_typed _ => cbn; first [done | lia | solve [auto using queue_value_in, size_t_range]] end ].
Ltac typed_steps := unfold UdpServer.upd_state; repeat maintain_step typed_leaf.

Lemma typed_lock : typed UdpServer._lock.
Proof. unfold UdpServer._lock. typed_steps. Qed.
Lemma typed_unlock : typed UdpServer._unlock.
Proof. unfold UdpServer._unlock. typed_steps. Qed.
Lemma typed_packets n : typed (_stats_add_packets n).
Proof. unfold _stats_add_packets. typed_steps. Qed.
Lemma typed_drops n : typed (_stats_add_drops n).
Proof. unfold _stats_add_drops. typed_steps. Qed.
Lemma typed_apply_timeouts s rx tx : typed (UdpServer._apply_timeouts s rx tx).
Proof. unfold UdpServer._apply_timeouts. typed_steps. Qed.
#[local] Hint Resolve typed_lock typed_unlock typed_packets typed_drops typed_apply_timeouts : maintains.

(** ** Receiving *)

(** A received item has a positive length. *)
Definition items_typed (items : list rx_item) (n : nat) : Prop :=
  forall i it, (i < n)%nat -> items !! i = Some it -> 0 < it.(length) < 2 ^ 31.

Lemma map_timeout_in rv :
  0 < UdpServer._map_timeout_to_wouldblock (i32 rv) -> 0 < UdpServer._map_timeout_to_wouldblock (i32 rv) < 2 ^ 31.
Proof.
  intros Hp. split; [done|]. unfold UdpServer._map_timeout_to_wouldblock in *. pose proof (i32_range rv).
  case_match; [unfold UNI_NET_UDP_RET_TIMEOUT; lia|lia].
Qed.

Lemma items_typed_insert items k p d rv a :
  items_typed items k -> (k < List.length items)%nat -> 0 < rv < 2 ^ 31 ->
  items_typed (<[k := mk_rx_item p d rv (_endpoint_from_sockaddr a) true]> items) (S k).
Proof.
  intros Hi Hk Hrv i it Hlt Hit. destruct (decide (i = k)) as [->|Hne].
  - rewrite list_lookup_insert_eq in Hit by done. by simplify_eq.
  - rewrite list_lookup_insert_ne in Hit by done. eapply Hi; [|done]. lia.
Qed.

Lemma stays_recv_loop n s items k first c :
  server_typed c -> items_typed items k ->
  stays (fun x => items_typed x.1.2 x.1.1 /\ server_typed x.2) call_typed (recv_loop n s items k first c).
Proof.
  revert items k c. induction n as [|n IH]; intros items k c Hc Hi; cbn [recv_loop]; [done|].
  cbn [bindM bind do_call stays]. split; [done|]. intros [[rv [p d]] a]. cbn beta iota zeta.
  destruct (Z.leb_spec (UdpServer._map_timeout_to_wouldblock (i32 rv)) 0) as [|Hp].
  - eapply (stays_bind (fun x => server_typed x.2)).
    { assert (Hm : typed (if negb (p =? NULL) then do_call (FreeRTOS_ReleaseUDPPayloadBuffer p) else ret tt)) by typed_steps.
      by apply Hm. }
    intros [[] c1] Hc1. cbn [bindM]. eapply (stays_bind (fun x => server_typed x.2)).
    { assert (Hm : typed (if UdpServer._map_timeout_to_wouldblock (i32 rv) <? 0 then _stats_add_drops 1 else ret tt)) by typed_steps.
      by apply Hm. }
    by intros [[] c2] Hc2.
  - case_decide as Hk; cbn; [|done]. apply IH; [done|]. apply items_typed_insert; [done|done|by apply map_timeout_in].
Qed.

Lemma typed_dispatch_item it :
  0 < it.(length) < 2 ^ 31 -> typed (dispatch_item it).
Proof. intros Hl. unfold dispatch_item. typed_steps. Qed.

Lemma typed_dispatch_loop items i n : items_typed items (i + n) -> typed (dispatch_loop items i n).
Proof.
  revert i. induction n as [|n IH]; intros i Hi; cbn [dispatch_loop]; [typed_steps|].
  intros c Hc. cbn [bindM]. destruct (items !! i) as [it|] eqn:Eit; [|done]. cbn [deref bind].
  apply (maintains_bind server_typed call_typed); [|intros _; apply IH|done].
  - apply typed_dispatch_item. eapply Hi; [|done]. lia.
  - by replace (S i + n)%nat with (i + S n)%nat by lia.
Qed.

Lemma typed_burst fuel s batch budget first : typed (burst_loop fuel s batch budget first).
Proof.
  revert batch budget first. induction fuel as [|fuel IH]; intros batch budget first; cbn [burst_loop]; [typed_steps|].
  apply maintains_bind; [typed_steps|]. intros stop. case_match; [|typed_steps]. cbn zeta.
  set (cap := Z.to_nat _). intros c Hc. cbn [bindM].
  eapply (stays_bind (fun x => items_typed x.1.2 x.1.1 /\ server_typed x.2)).
  - unfold _recv_batch. case_match; [|apply stays_recv_loop; [done|by intros i it Hi; lia]].
    split; [|done]. intros i it Hi. cbn in Hi. lia.
  - intros [[k items'] c1] [Hi Hc1]. cbn in Hi, Hc1. case_match; [done|].
    apply (maintains_bind server_typed call_typed); [|intros _; apply IH|done].
    unfold _dispatch_batch. case_match; [typed_steps|].
    apply maintains_bind; [by apply typed_dispatch_loop|typed_steps].
Qed.
#[local] Hint Resolve typed_burst : maintains.

Lemma typed_receive_loop n : typed (receive_loop n).
Proof. induction n as [|n IH]; cbn [receive_loop]; typed_steps; done. Qed.
Lemma typed_wait_up n : typed (wait_up n).
Proof. induction n as [|n IH]; cbn [wait_up]; typed_steps; done. Qed.
Lemma typed_idle n : typed (idle_loop n).
Proof. induction n as [|n IH]; cbn [idle_loop]; typed_steps; done. Qed.
Lemma typed_wait_task n : typed (wait_task n).
Proof. induction n as [|n IH]; cbn [wait_task]; typed_steps; done. Qed.
Lemma typed_close s : typed (UdpServer.close_socket s).
Proof. unfold UdpServer.close_socket. typed_steps. Qed.
#[local] Hint Resolve typed_receive_loop typed_wait_up typed_idle typed_wait_task typed_close : maintains.

Lemma typed_queue_tuning s : typed (_apply_udp_rx_queue_tuning s).
Proof.
  unfold _apply_udp_rx_queue_tuning. pose proof queue_value_in as Hq. unfold _udp_rx_queue_packets_value in Hq.
  typed_steps.
Qed.
#[local] Hint Resolve typed_queue_tuning : maintains.

Lemma typed_task_setup : typed task_setup.
Proof. unfold task_setup. typed_steps. Qed.
#[local] Hint Resolve typed_task_setup : maintains.

Lemma typed_task fuel : typed (_uni_net_udp_server_task fuel).
Proof. unfold _uni_net_udp_server_task. typed_steps. Qed.

(** ** The functions of the server *)

Definition ctx_typed (o : option udp_server) : Prop :=
  match o with Some c => server_typed c | None => True end.

Abbreviation ctx_maintains := (maintains ctx_typed call_typed).

Lemma typed_with_ctx {A} (dflt : A) (m : M udp_server A) : typed m -> ctx_maintains (with_ctx dflt m).
Proof.
  intros Hm [c|] Hc; [|done]. cbn in Hc |- *. eapply stays_bind; [by apply Hm|]. by intros [a c'].
Qed.

Lemma zero_server_typed : server_typed zero_server.
Proof. split; [split|..]; cbn; unfold in_u16, in_u32, in_u64; lia. Qed.

(** The stack that the default configuration asks for fits its parameter. *)
Context (Hstack : in_u32 UNI_NET_UDP_SERVER_TASK_STACK_WORDS).

Lemma default_config_typed :
  config_typed (mk_udp_server_config FREERTOS_INADDR_ANY 0
    UNI_NET_UDP_SERVER_DEFAULT_RX_TIMEOUT_MS UNI_NET_UDP_SERVER_DEFAULT_TX_TIMEOUT_MS
    NULL NULL UNI_NET_UDP_SERVER_TASK_PRIORITY UNI_NET_UDP_SERVER_TASK_STACK_WORDS).
Proof. by split; [..|done]; cbn. Qed.

Lemma typed_start cfg : (forall g, cfg = Some g -> config_typed g) -> ctx_maintains (uni_net_udp_server_start cfg).
Proof.
  intros Hcfg. apply typed_with_ctx. unfold _stats_reset_for_ctx.
  pose proof default_config_typed. pose proof zero_server_typed. typed_steps.
Qed.

Lemma typed_stop fuel : ctx_maintains (uni_net_udp_server_stop fuel).
Proof. apply typed_with_ctx. pose proof zero_server_typed. typed_steps. Qed.

Lemma typed_recvfrom buf n out ms : ctx_maintains (uni_net_udp_server_recvfrom buf n out ms).
Proof. apply typed_with_ctx. typed_steps. Qed.

Lemma typed_sendto buf n to :
  (forall ep, to = Some ep -> endpoint_typed ep) -> ctx_maintains (uni_net_udp_server_sendto buf n to).
Proof. intros Hto. apply typed_with_ctx. unfold take_bytes. typed_steps. all: exact (Hto _ eq_refl). Qed.

Lemma typed_set_timeouts rx tx :
  in_u32 rx -> in_u32 tx -> ctx_maintains (uni_net_udp_server_set_timeouts rx tx).
Proof. 
  intros Hrx Htx. apply typed_with_ctx. typed_steps.
  match goal with Hc : server_typed _ |- server_typed _ => destruct Hc as [[] ? ? ?] end. by split; [split|..].
Qed.

(** ** Any use of the server *)

(** The functions of the interface, and the turns of the server's own task. *)
Inductive server_op : Set :=
| Call_start (cfg : option udp_server_config)
| Run_task (fuel : nat)
| Call_stop (fuel : nat)
| Call_recvfrom (buf : option bytes) (buf_size : Z) (out_from : option udp_endpoint) (timeout_ms : Z)
| Call_sendto (buf : option bytes) (len : Z) (to : option udp_endpoint)
| Call_set_timeouts (rx_ms tx_ms : Z).

Definition exec_op (op : server_op) : M (option udp_server) unit :=
  match op with
  | Call_start cfg => bindM (uni_net_udp_server_start cfg) (fun _ => ret tt)
  | Run_task fuel => with_ctx tt (_uni_net_udp_server_task fuel)
  | Call_stop fuel => bindM (uni_net_udp_server_stop fuel) (fun _ => ret tt)
  | Call_recvfrom buf n out ms => bindM (uni_net_udp_server_recvfrom buf n out ms) (fun _ => ret tt)
  | Call_sendto buf n to => bindM (uni_net_udp_server_sendto buf n to) (fun _ => ret tt)
  | Call_set_timeouts rx tx => bindM (uni_net_udp_server_set_timeouts rx tx) (fun _ => ret tt)
  end.

Fixpoint exec_ops (ops : list server_op) : M (option udp_server) unit :=
  match ops with
  | [] => ret tt
  | op :: ops' => bindM (exec_op op) (fun _ => exec_ops ops')
  end.

(** What the C compiler guarantees of the arguments. *)
Definition op_typed (op : server_op) : Prop :=
  match op with
  | Call_start (Some g) => config_typed g
  | Call_sendto _ _ (Some ep) => endpoint_typed ep
  | Call_set_timeouts rx tx => in_u32 rx /\ in_u32 tx
  | _ => True
  end.

Lemma typed_exec op : op_typed op -> ctx_maintains (exec_op op).
Proof.
  destruct op as [cfg|n|n|buf n out ms|buf n to|rx tx]; cbn [exec_op op_typed]; intros Hop;
    first [apply typed_with_ctx, typed_task|apply maintains_bind; [|intros _; apply maintains_ret]].
  - apply typed_start. by intros g ->.
  - apply typed_stop.
  - apply typed_recvfrom.
  - apply typed_sendto. by intros ep ->.
  - by apply typed_set_timeouts; destruct Hop.
Qed.


End Types.
