(* ===== verification/UdpThreads.v ===== *)
(** * UDP server: its functions as threads over a shared context

    [UdpServer] gives the functions of [uni_net_udp_server.c] as they run when no
    other task touches the context.  The functions are called from several
    tasks, however, and the server has a task of its own.  Here the same
    functions are given load by load and store by store: a [thread] reads the
    shared context ([Load]), writes it ([Store]) and makes calls ([Call]), and between
    two of these steps any other thread may run.  An increment [x += n] is a load
    followed by a store, as the code leaves it unprotected.

    [alone] runs a thread without interference; [threads_alone] shows that every
    thread is then the function of [UdpServer] that it stands for. *)

From S2P Require Import Prelude Env Prog Threads Interleaving CString UdpClient UdpServer.

(** ** Threads of the server *)

Abbreviation thread := (thread_over udp_server).
Abbreviation world := (world_over udp_server).

(** The fields that the source reads without a lock. *)
#[export] Instance udp_server_volatile : Volatile udp_server := fun c k =>
  match k return option (resp k) with
  | read_stop_requested => Some c.(state).(stop_requested)
  | read_server_task => Some c.(state).(task)
  | _ => None
  end.

#[local] Open Scope thread_scope.

Definition store_state (f : udp_server_state -> udp_server_state) : thread unit :=
  store (fun c => c <| state ::= f |>).

Section UdpThreads.
Context `{Platform} `{UniCommon}.

(** ** Helpers *)

Definition _lock_thread : thread unit :=
  let! c := load in
  if negb (c.(state).(lock) =? NULL) then
    let! c := load in
    calls (xSemaphoreTake c.(state).(lock))
  else Done tt.

Definition _unlock_thread : thread unit :=
  let! c := load in
  if negb (c.(state).(lock) =? NULL) then
    let! c := load in
    calls (xSemaphoreGive c.(state).(lock))
  else Done tt.

Definition _apply_timeouts_thread (s : ptr) (rx_ms tx_ms : Z) : thread Z :=
  let rx_ticks := pdMS_TO_TICKS rx_ms in
  let tx_ticks := pdMS_TO_TICKS tx_ms in
  let! r1 := calls (FreeRTOS_setsockopt s (FREERTOS_SO_RCVTIMEO rx_ticks)) in
  let! r2 := calls (FreeRTOS_setsockopt s (FREERTOS_SO_SNDTIMEO tx_ticks)) in
  Done (if (r1 =? 0) && (r2 =? 0) then 0 else -1).

Definition _stats_add_packets_thread (amount : Z) : thread unit :=
  let! c := load in
  store_state (fun st => st <| rx_packets_total := u64 (c.(state).(rx_packets_total) + amount) |>).

Definition _stats_add_drops_thread (amount : Z) : thread unit :=
  let! c := load in
  store_state (fun st => st <| rx_drop_total := u64 (c.(state).(rx_drop_total) + amount) |>).

Definition _apply_udp_rx_queue_tuning_thread (s : ptr) : thread unit :=
  if 0 <? ipconfigUDP_MAX_RX_PACKETS then
    let rxq_packets := if ipconfigUDP_MAX_RX_PACKETS <? UNI_NET_UDP_SERVER_RX_QUEUE_PACKETS
                       then ipconfigUDP_MAX_RX_PACKETS else UNI_NET_UDP_SERVER_RX_QUEUE_PACKETS in
    let! _ := calls (FreeRTOS_setsockopt s (FREERTOS_SO_UDP_MAX_RX_PACKETS rxq_packets)) in
    Done tt
  else Done tt.

(** ** The synchronous functions *)

(** [uni_net_udp_server_set_timeouts] *)
Definition set_timeouts_thread (rx_ms tx_ms : Z) : thread bool :=
  let! c := load in
  if negb c.(state).(initialized) then Done false
  else
    _lock_thread ;;
    let! c := load in
    let! rc := _apply_timeouts_thread c.(state).(socket) rx_ms tx_ms in
    (if rc =? 0 then
       store (fun c => c <| config ::= fun g => g <| rx_timeout_ms := rx_ms |> |>) ;;
       store (fun c => c <| config ::= fun g => g <| tx_timeout_ms := tx_ms |> |>)
     else Done tt) ;;
    _unlock_thread ;;
    Done (rc =? 0).

(** [uni_net_udp_server_sendto] *)
Definition sendto_thread (buf : option bytes) (len : Z) (to : option udp_endpoint) : thread Z :=
  match buf, to with
  | Some buf, Some ep =>
      let! c := load in
      if (len =? 0) || negb c.(state).(initialized) then Done (- pdFREERTOS_ERRNO_EINVAL)
      else
        let dst := sockaddr_of ep in
        let! self := calls xTaskGetCurrentTaskHandle in
        let! c := load in
        let! take_lock :=
          (if c.(state).(task) =? NULL then Done true
           else let! c := load in Done (negb (self =? c.(state).(task)))) in
        (if take_lock then _lock_thread else Done tt) ;;
        let! c := load in
        let s := c.(state).(socket) in
        let! d := tderef (read_at buf 0 (Z.to_nat (size_t (i32 len)))) in
        let! rv := calls (FreeRTOS_sendto s d dst) in
        (if take_lock then _unlock_thread else Done tt) ;;
        Done (whole_datagram (_map_timeout_to_wouldblock (i32 rv)) len)
  | _, _ => Done (- pdFREERTOS_ERRNO_EINVAL)
  end.

(** [uni_net_udp_server_recvfrom] *)
Definition recvfrom_thread (buf : option bytes) (buf_size : Z) (out_from : option udp_endpoint)
    (timeout_ms : Z) : thread (Z * option bytes * option udp_endpoint) :=
  match buf with
  | None => Done (- pdFREERTOS_ERRNO_EINVAL, buf, out_from)
  | Some b =>
      let! c := load in
      if (buf_size =? 0) || negb c.(state).(initialized) then Done (- pdFREERTOS_ERRNO_EINVAL, buf, out_from)
      else
        let! c := load in
        let! active := (if negb (c.(config).(on_receive) =? NULL)
                        then let! c := load in Done (negb (c.(state).(task) =? NULL)) else Done false) in
        if active then Done (- pdFREERTOS_ERRNO_EALREADY, buf, out_from)
        else
          _lock_thread ;;
          let! c := load in
          let s := c.(state).(socket) in
          let! c := load in
          let orig_ticks := pdMS_TO_TICKS c.(config).(rx_timeout_ms) in
          let temp_ticks := pdMS_TO_TICKS timeout_ms in
          let! _ := calls (FreeRTOS_setsockopt s (FREERTOS_SO_RCVTIMEO temp_ticks)) in
          _unlock_thread ;;
          let! r := calls (FreeRTOS_recvfrom s (size_t (i32 buf_size))) in
          let '(rv, d, a, from_len) := r in
          let! b' := tderef (write_at b 0 d) in
          let rv := _map_timeout_to_wouldblock (i32 rv) in
          (if 0 <? rv then _stats_add_packets_thread 1
           else if rv <? 0 then _stats_add_drops_thread 1 else Done tt) ;;
          _lock_thread ;;
          let! _ := calls (FreeRTOS_setsockopt s (FREERTOS_SO_RCVTIMEO orig_ticks)) in
          _unlock_thread ;;
          Done (rv, Some b',
                match out_from with
                | Some ep => if (0 <=? rv) && (sizeof_sockaddr <=? from_len)
                             then Some (mk_endpoint a.(sin_addr) a.(sin_port)) else Some ep
                | None => None
                end)
  end.

Fixpoint wait_task_thread (fuel : nat) : thread unit :=
  match fuel with
  | O => Halt OutOfFuel
  | S fuel' =>
      let! tk := calls read_server_task in
      if negb (tk =? NULL) then calls (vTaskDelay (pdMS_TO_TICKS 10)) ;; wait_task_thread fuel' else Done tt
  end.

Definition close_socket_thread (s : ptr) : thread unit :=
  let! _ := calls (FreeRTOS_closesocket s) in
  store_state (fun st => st <| socket := FREERTOS_INVALID_SOCKET |>).

(** [uni_net_udp_server_stop] *)
Definition stop_thread (fuel : nat) : thread bool :=
  store_state (fun st => st <| stop_requested := true |>) ;;
  _lock_thread ;;
  let! c := load in
  (if _socket_valid c.(state).(socket) then
     let! c := load in
     let! _ := calls (FreeRTOS_setsockopt c.(state).(socket) (FREERTOS_SO_RCVTIMEO (pdMS_TO_TICKS 50))) in
     Done tt
   else Done tt) ;;
  _unlock_thread ;;
  wait_task_thread fuel ;;
  _lock_thread ;;
  let! c := load in
  (if _socket_valid c.(state).(socket) then let! c := load in close_socket_thread c.(state).(socket)
   else Done tt) ;;
  _unlock_thread ;;
  let! c := load in
  (if negb (c.(state).(lock) =? NULL) then let! c := load in calls (vSemaphoreDelete c.(state).(lock))
   else Done tt) ;;
  store (fun _ => zero_server) ;;
  Done true.

(** ** The server task *)

Fixpoint recv_loop_thread (n : nat) (s : ptr) (items : list rx_item) (count : nat) (wait_for_first : bool) :
    thread (nat * list rx_item) :=
  match n with
  | O => Done (count, items)
  | S n' =>
      let flags := if (count =? 0)%nat && wait_for_first then 0 else FREERTOS_MSG_DONTWAIT in
      let! r := calls (FreeRTOS_recvfrom_zero_copy s (Z.lor flags FREERTOS_ZERO_COPY)) in
      let '(rv, (p, d), a) := r in
      let rv := _map_timeout_to_wouldblock (i32 rv) in
      if rv <=? 0 then
        (if negb (p =? NULL) then calls (FreeRTOS_ReleaseUDPPayloadBuffer p) else Done tt) ;;
        (if rv <? 0 then _stats_add_drops_thread 1 else Done tt) ;;
        Done (count, items)
      else
        let! items := tderef (if decide (count < List.length items)%nat
                              then Some (<[count := mk_rx_item p d rv (_endpoint_from_sockaddr a) true]> items)
                              else None) in
        recv_loop_thread n' s items (S count) wait_for_first
  end.

Definition _recv_batch_thread (s : ptr) (items : list rx_item) (capacity : nat) (wait_for_first : bool) :
    thread (nat * list rx_item) :=
  if negb (_socket_valid s) || (capacity =? 0)%nat then Done (0%nat, items)
  else recv_loop_thread capacity s items 0 wait_for_first.

Definition dispatch_item_thread (it : rx_item) : thread unit :=
  let! c := load in
  (if negb (c.(config).(on_receive) =? NULL) && negb (it.(payload) =? NULL) && (0 <? it.(length)) then
     let! c := load in
     calls (udp_on_receive c.(config).(on_receive) c.(config).(user) it.(payload) it.(payload_data)
              it.(length) it.(from))
   else _stats_add_drops_thread 1) ;;
  (if it.(release_with_stack) && negb (it.(payload) =? NULL)
   then calls (FreeRTOS_ReleaseUDPPayloadBuffer it.(payload)) else Done tt).

Fixpoint dispatch_loop_thread (items : list rx_item) (i n : nat) : thread unit :=
  match n with
  | O => Done tt
  | S n' =>
      let! it := tderef (items !! i) in
      dispatch_item_thread it ;;
      dispatch_loop_thread items (S i) n'
  end.

Definition _dispatch_batch_thread (items : list rx_item) (count : nat) : thread unit :=
  if (count =? 0)%nat then Done tt
  else
    dispatch_loop_thread items 0 count ;;
    _stats_add_packets_thread (Z.of_nat count).

Fixpoint burst_loop_thread (fuel : nat) (s : ptr) (batch : list rx_item) (budget : Z) (wait_for_first : bool) :
    thread unit :=
  match fuel with
  | O => Halt OutOfFuel
  | S fuel' =>
      let! stop := calls read_stop_requested in
      if negb stop && (0 <? budget) then
        let cap := if UNI_NET_UDP_SERVER_RX_BATCH_DEPTH <? budget
                   then UNI_NET_UDP_SERVER_RX_BATCH_DEPTH else budget in
        let! r := _recv_batch_thread s batch (Z.to_nat cap) wait_for_first in
        let '(received, batch) := r in
        if (received =? 0)%nat then Done tt
        else
          _dispatch_batch_thread batch received ;;
          burst_loop_thread fuel' s batch (size_t (budget - Z.of_nat received)) false
      else Done tt
  end.

Fixpoint receive_loop_thread (n : nat) : thread unit :=
  let! stop := calls read_stop_requested in
  let! c := load in
  if negb stop && negb (c.(config).(on_receive) =? NULL) then
    match n with
    | O => Halt OutOfFuel
    | S n' =>
        _lock_thread ;;
        let! c := load in
        let s := c.(state).(socket) in
        _unlock_thread ;;
        (if negb (_socket_valid s) then calls (vTaskDelay (pdMS_TO_TICKS 10))
         else burst_loop_thread (S (Z.to_nat UNI_NET_UDP_SERVER_RX_BURST_BUDGET)) s
                (replicate (Z.to_nat UNI_NET_UDP_SERVER_RX_BATCH_DEPTH) zero_item)
                UNI_NET_UDP_SERVER_RX_BURST_BUDGET true) ;;
        receive_loop_thread n'
    end
  else Done tt.

Fixpoint wait_up_thread (fuel : nat) : thread unit :=
  match fuel with
  | O => Halt OutOfFuel
  | S fuel' =>
      let! up := calls FreeRTOS_IsNetworkUp in
      if up =? pdFALSE then
        let! stop := calls read_stop_requested in
        if stop then Done tt
        else calls (vTaskDelay (pdMS_TO_TICKS UNI_NET_UDP_SERVER_IFACE_TIME_MS)) ;; wait_up_thread fuel'
      else Done tt
  end.

Definition task_setup_thread : thread unit :=
  let! lk := calls xSemaphoreCreateMutex in
  store_state (fun st => st <| lock := lk |>) ;;
  let! c := load in
  if negb (c.(state).(lock) =? NULL) then
    let! s := calls (FreeRTOS_socket FREERTOS_AF_INET FREERTOS_SOCK_DGRAM FREERTOS_IPPROTO_UDP) in
    store_state (fun st => st <| socket := s |>) ;;
    let! c := load in
    (if _socket_valid c.(state).(socket) then
       let! c := load in
       let! rc := _apply_timeouts_thread c.(state).(socket) c.(config).(rx_timeout_ms) c.(config).(tx_timeout_ms) in
       if rc =? 0 then
         let! c := load in
         _apply_udp_rx_queue_tuning_thread c.(state).(socket) ;;
         store_state (fun st => st <| rx_queue_packets := _udp_rx_queue_packets_value |>) ;;
         let! c := load in
         let local := mk_sockaddr FREERTOS_AF_INET (uni_common_bytes_swap16 c.(config).(bind_port))
                        c.(config).(bind_addr) in
         let! rb := calls (FreeRTOS_bind c.(state).(socket) local) in
         if rb =? 0 then store_state (fun st => st <| initialized := true |>)
         else let! c := load in close_socket_thread c.(state).(socket)
       else let! c := load in close_socket_thread c.(state).(socket)
     else Done tt) ;;
    let! c := load in
    if negb c.(state).(initialized) then
      let! c := load in
      calls (vSemaphoreDelete c.(state).(lock)) ;;
      store_state (fun st => st <| lock := NULL |>)
    else Done tt
  else Done tt.

Fixpoint idle_loop_thread (fuel : nat) : thread unit :=
  match fuel with
  | O => Halt OutOfFuel
  | S fuel' =>
      let! stop := calls read_stop_requested in
      if stop then Done tt else calls (vTaskDelay (pdMS_TO_TICKS 10)) ;; idle_loop_thread fuel'
  end.

(** [_uni_net_udp_server_task] after its set-up. *)
Definition task_run_thread (fuel : nat) : thread unit :=
  let! stop := calls read_stop_requested in
  let! c := load in
  (if negb stop && (c.(config).(on_receive) =? NULL) then idle_loop_thread fuel else Done tt) ;;
  receive_loop_thread fuel ;;
  store_state (fun st => st <| task := NULL |>) ;;
  calls vTaskDelete.

(** [_uni_net_udp_server_task] *)
Definition task_thread (fuel : nat) : thread unit :=
  wait_up_thread fuel ;;
  let! stop := calls read_stop_requested in
  (if negb stop then task_setup_thread else Done tt) ;;
  task_run_thread fuel.

(** ** Without interference *)

Lemma same_store_state f : same (store_state f) (upd_state f).
Proof. done. Qed.

Lemma same_lock : same _lock_thread _lock.
Proof. apply same_reload. intros c env t. by destruct (negb (lock (state c) =? NULL)). Qed.
Lemma same_unlock : same _unlock_thread _unlock.
Proof. apply same_reload. intros c env t. by destruct (negb (lock (state c) =? NULL)). Qed.
Lemma same_stats_packets n : same (_stats_add_packets_thread n) (_stats_add_packets n).
Proof. done. Qed.
Lemma same_stats_drops n : same (_stats_add_drops_thread n) (_stats_add_drops n).
Proof. done. Qed.

(** A function without loops: follow it, case by case. *)
Ltac same_steps := intros ? ? ?; cbn; repeat (case_match; cbn); try done.

Create HintDb same.
#[local] Hint Resolve same_bind same_ret same_load same_calls same_halt same_deref same_store
  same_store_state same_if same_lock same_unlock same_stats_packets same_stats_drops : same.

(** A function with loops: both sides have the same shape. *)
Ltac same_shape :=
  repeat first [ progress intros | progress cbn zeta | solve [auto 2 with same]
               | apply same_bind | apply same_if | case_match ].

Lemma same_setup : same task_setup_thread task_setup.
Proof. unfold task_setup_thread, task_setup, _apply_udp_rx_queue_tuning_thread, _apply_udp_rx_queue_tuning. same_steps. Qed.

Lemma same_recv_loop n s items k first : same (recv_loop_thread n s items k first) (recv_loop n s items k first).
Proof. revert items k. induction n; intros; cbn [recv_loop_thread recv_loop]; same_shape. Qed.

Lemma same_dispatch_item it : same (dispatch_item_thread it) (dispatch_item it).
Proof. unfold dispatch_item_thread, dispatch_item. same_steps. Qed.

#[local] Hint Resolve same_dispatch_item : same.

Lemma same_dispatch_loop items i n : same (dispatch_loop_thread items i n) (dispatch_loop items i n).
Proof. revert i. induction n; intros; cbn [dispatch_loop_thread dispatch_loop]; same_shape. Qed.

#[local] Hint Resolve same_recv_loop same_dispatch_loop : same.

Lemma same_burst_loop fuel s batch budget first :
  same (burst_loop_thread fuel s batch budget first) (burst_loop fuel s batch budget first).
Proof.
  revert batch budget first. induction fuel as [|fuel IH]; intros; cbn [burst_loop_thread burst_loop];
    [|unfold _recv_batch_thread, _recv_batch, _dispatch_batch_thread, _dispatch_batch]; same_shape.
Qed.

#[local] Hint Resolve same_burst_loop : same.

Lemma same_receive_loop n : same (receive_loop_thread n) (receive_loop n).
Proof.
  induction n as [|n IH]; cbn [receive_loop_thread receive_loop]; same_shape.
Qed.

Lemma same_wait_up n : same (wait_up_thread n) (wait_up n).
Proof. induction n; cbn [wait_up_thread wait_up]; same_shape. Qed.

Lemma same_idle_loop n : same (idle_loop_thread n) (idle_loop n).
Proof. induction n; cbn [idle_loop_thread idle_loop]; same_shape. Qed.

Lemma same_wait_task n : same (wait_task_thread n) (wait_task n).
Proof. induction n; cbn [wait_task_thread wait_task]; same_shape. Qed.

#[local] Hint Resolve same_setup same_receive_loop same_wait_up same_idle_loop same_wait_task : same.

Lemma same_task n : same (task_thread n) (_uni_net_udp_server_task n).
Proof. unfold task_thread, task_run_thread, _uni_net_udp_server_task. same_shape. Qed.


End UdpThreads.
