(* ===== verification/UdpHarmless.v ===== *)
(** * Threads that need no mutex

    The receive loop of the server works outside of the mutex except for the
    moment at which it reads the socket.  [harmless] is the syntactic condition
    for that: calls that change nothing, stores to the counters only.  The section
    [Sound] proves such a thread safe for every invariant and rely that
    tolerate this, and the receive loop with it. *)

From S2P Require Import Prelude Env Prog UdpServer Threads Interleaving UdpThreads.
#[local] Open Scope thread_scope.

(** A store that touches the two counters only. *)
Definition counters_only (f : udp_server -> udp_server) : Prop :=
  forall c, exists a b, f c = c <| state ::= fun st => st <| rx_packets_total := a |> <| rx_drop_total := b |> |>.

Section Harmless.
Context `{Platform} `{UniCommon} (s : ptr).

(** A call that changes nothing. *)
Definition inert (c : call) : Prop :=
  match c with
  | FreeRTOS_sendto s' _ _ | FreeRTOS_recvfrom s' _ | FreeRTOS_recvfrom_zero_copy s' _ => s' = s
  | xTaskGetCurrentTaskHandle | read_stop_requested | read_server_task | FreeRTOS_ReleaseUDPPayloadBuffer _
  | udp_on_receive _ _ _ _ _ _ | vTaskDelay _ | vTaskDelete => True
  | _ => False
  end.

(** The calls that need the mutex: socket options and sends. *)
Definition needs_mutex (c : call) : bool :=
  match c with
  | FreeRTOS_setsockopt s' _ | FreeRTOS_sendto s' _ _ => s' =? s
  | _ => false
  end.

Lemma inert_answer handle i c r w w' : inert c -> answer handle i w c r w' -> w' = w.
Proof. destruct c; cbn; try done; unfold on_socket; intros _ Ha; by destruct_and?. Qed.

Lemma inert_ready handle i c w : is_Some (w.(sockets) !! s) -> inert c -> ready handle i w c.
Proof.
  intros [p Hp] Hc.
  assert (Hex : exists r, answer handle i w c r w).
  { destruct c; cbn in *; try done; unfold on_socket; subst; first
      [ exists tt; done | by exists 0 | by eexists
      | by exists (zero_resp (FreeRTOS_recvfrom 0 0)) | by exists (zero_resp (FreeRTOS_recvfrom_zero_copy 0 0)) ]. }
  destruct Hex as [r Hr]. by exists r, w.
Qed.

Fixpoint harmless {A} (P : A -> Prop) (th : thread A) : Prop :=
  match th with
  | Done a => P a
  | Load k => forall c, harmless P (k c)
  | Store f k => counters_only f /\ harmless P k
  | Call c k => inert c /\ needs_mutex c = false /\ forall r, harmless P (k r)
  | Halt e => e = OutOfFuel
  end.

Lemma harmless_bind {A B} (P : A -> Prop) (P' : B -> Prop) m f :
  harmless P m -> (forall a, P a -> harmless P' (f a)) -> harmless P' (tbind m f).
Proof.
  intros Hm Hf. induction m as [a|k IH|g k IH|c k IH|e]; cbn in *; auto.
  - destruct Hm as (? & ?). auto.
  - destruct Hm as (? & ? & ?). auto.
Qed.

Lemma harmless_seq {A B} (P : A -> Prop) (m : thread B) (k : thread A) :
  harmless (fun _ => True) m -> harmless P k -> harmless P (m ;; k).
Proof. intros Hm Hk. by eapply harmless_bind. Qed.

Lemma harmless_drops n : harmless (fun _ => True) (_stats_add_drops_thread n).
Proof. cbn. intros c. split; [|done]. intros c'. by eexists _, _. Qed.
Lemma harmless_packets n : harmless (fun _ => True) (_stats_add_packets_thread n).
Proof. cbn. intros c. split; [|done]. intros c'. by eexists _, _. Qed.

(** ** The receive loop, without its critical section *)

Lemma harmless_recv_loop n items k first :
  (k + n <= List.length items)%nat ->
  harmless (fun '(k', items') => List.length items' = List.length items /\ (k' <= List.length items)%nat)
    (recv_loop_thread n s items k first).
Proof.
  revert items k. induction n as [|n IH]; intros items k Hk; cbn [recv_loop_thread]; [cbn; lia|].
  cbn [tbind calls harmless]. split_and!; [done|done|]. intros [[rv [q d]] a].
  case_match.
  - apply harmless_seq; [by case_match|]. apply harmless_seq; [case_match; [apply harmless_drops|done]|]. cbn. lia.
  - rewrite decide_True by lia. cbn [tderef tbind].
    match goal with |- harmless _ (recv_loop_thread _ _ ?its _ _) => set (items' := its) end.
    assert (Hl : List.length items' = List.length items) by apply length_insert.
    rewrite <- Hl. apply IH. lia.
Qed.

Lemma harmless_dispatch_item it : harmless (fun _ => True) (dispatch_item_thread it).
Proof.
  unfold dispatch_item_thread. cbn [tbind load]. intros c.
  apply harmless_seq; [case_match; [done|apply harmless_drops]|by case_match].
Qed.

Lemma harmless_dispatch_loop items j n :
  (j + n <= List.length items)%nat -> harmless (fun _ => True) (dispatch_loop_thread items j n).
Proof.
  revert j. induction n as [|n IH]; intros j Hj; cbn [dispatch_loop_thread]; [done|].
  destruct (lookup_lt_is_Some_2 items j) as [it ->]; [lia|]. cbn [tderef tbind].
  apply harmless_seq; [apply harmless_dispatch_item|]. apply IH. lia.
Qed.

Lemma harmless_burst fuel batch budget first :
  List.length batch = Z.to_nat UNI_NET_UDP_SERVER_RX_BATCH_DEPTH ->
  harmless (fun _ => True) (burst_loop_thread fuel s batch budget first).
Proof.
  revert batch budget first. induction fuel as [|fuel IH]; intros batch budget first Hb; cbn [burst_loop_thread]; [done|].
  cbn [tbind calls harmless]. split_and!; [done|done|]. intros stop. case_match; [|done]. cbn zeta.
  set (cap := if UNI_NET_UDP_SERVER_RX_BATCH_DEPTH <? budget then _ else _).
  eapply (harmless_bind (fun '(k, items') => List.length items' = List.length batch /\ (k <= List.length batch)%nat)).
  - unfold _recv_batch_thread. case_match; [cbn; lia|]. apply harmless_recv_loop. rewrite Hb.
    subst cap. destruct (Z.ltb_spec UNI_NET_UDP_SERVER_RX_BATCH_DEPTH budget); lia.
  - intros [k items'] [Hl Hk]. case_match; [done|]. apply harmless_seq; [|apply IH; congruence].
    unfold _dispatch_batch_thread. case_match; [done|].
    apply harmless_seq; [apply harmless_dispatch_loop; lia|apply harmless_packets].
Qed.

Lemma harmless_idle fuel : harmless (fun _ => True) (idle_loop_thread fuel).
Proof.
  induction fuel as [|fuel IH]; cbn [idle_loop_thread]; [done|]. cbn [tbind calls harmless].
  split_and!; [done|done|]. intros stop. case_match; [done|]. by split_and!.
Qed.

(** ** Soundness *)

Section Sound.
Context (handle : nat -> ptr) (Inv : world -> Prop) (R : nat -> world -> world -> Prop) (E : nat -> stop -> Prop).
Context `{!forall i, PreOrder (R i)} (i : nat).
Abbreviation safe := (safe handle Inv R E i).

(** What the thread knows while it is outside of the mutex, and that the
    invariant and the other threads tolerate what it does there. *)
Record tolerates (K : world -> Prop) : Prop := {
  K_stable w w' : K w -> R i w w' -> Inv w' -> K w';
  K_socket w : Inv w -> K w -> is_Some (w.(sockets) !! s);
  K_free w : Inv w -> K w -> ~ owns i w;
  K_store w f : Inv w -> K w -> counters_only f ->
    let w' := w <| shared ::= f |> in Inv w' /\ guarantees R i w w' /\ K w';
  K_call w c r : Inv w -> K w -> inert c -> needs_mutex c = false ->
    let w' := logged i c r w in Inv w' /\ guarantees R i w w' /\ K w';
}.

Context (K : world -> Prop) (HK : tolerates K) (E_fuel : E i OutOfFuel).

Lemma safe_harmless {A} (P : A -> Prop) th w :
  K w -> harmless P th -> safe (fun a w' => P a /\ K w') th w.
Proof.
  revert w. induction th as [a|k IH|f k IH|c k IH|e]; intros w Hk Hp; cbn in Hp.
  - intros w' Hi Hr. split; [done|by eapply K_stable].
  - intros w' Hi Hr. apply IH; [by eapply K_stable|by apply Hp].
  - destruct Hp as [Hc Hp]. intros w' Hi Hr. destruct (K_store K HK w' f) as (? & ? & ?); [done|by eapply K_stable|done|].
    split_and!; [done|done|by apply IH].
  - destruct Hp as (Hc & Hn & Hp). intros w' Hi Hr. assert (Hk' : K w') by by eapply K_stable.
    split; [left; apply inert_ready; [by apply HK|done]|]. intros r w2 Ha. pose proof (inert_answer _ _ _ _ _ _ Hc Ha) as ->.
    destruct (K_call K HK w' c r) as (? & ? & ?); [done..|]. split_and!; [done|done|by apply IH].
  - subst. split; [done|]. intros w' Hi Hr. apply HK; [done|by eapply K_stable].
Qed.

Lemma safe_harmless_bind {A B} (P : A -> Prop) (m : thread A) (f : A -> thread B) Q w :
  Inv w -> K w -> harmless P m -> (forall a w', Inv w' -> K w' -> P a -> safe Q (f a) w') -> safe Q (tbind m f) w.
Proof.
  intros Hi Hk Hm Hf. apply safe_tbind; [done|done|]. eapply safe_mono; [|by apply safe_harmless].
  cbn. intros a w' Hi' [Ha Hk']. by apply Hf.
Qed.

(** The critical section in which the loop reads the socket. *)
Context (K_section : forall {A} (Q : A -> world -> Prop) (f : ptr -> thread A) w,
  Inv w -> K w -> (forall w', Inv w' -> K w' -> safe Q (f s) w') ->
  safe Q (_lock_thread ;; Load (fun c => _unlock_thread ;; f c.(state).(socket))) w).
Context (Hs : _socket_valid s = true).

Lemma safe_receive_loop {A} (Q : A -> world -> Prop) n (k : thread A) w :
  Inv w -> K w -> (forall w', Inv w' -> K w' -> safe Q k w') -> safe Q (receive_loop_thread n ;; k) w.
Proof.
  intros Hi Hk Hend. apply safe_tbind; [done|done|].
  assert (Hend' : forall w', Inv w' -> K w' -> forall w'', Inv w'' -> R i w' w'' -> safe Q k w'').
  { intros w' _ Hk' w'' Hi'' Hr. apply Hend; [done|by eapply K_stable]. }
  clear Hend. revert w Hi Hk. induction n as [|n IH]; intros w Hi Hk; cbn [receive_loop_thread];
    (eapply (safe_harmless_bind (fun _ => True)); [done|done|by cbn|]); intros stop w1 Hi1 Hk1 _;
    cbn [tbind load]; intros w2 Hi2 Hr2; assert (Hk2 : K w2) by (by eapply K_stable);
    (case_match; [|by cbn; intros w3 Hi3 Hr3; apply (Hend' w2)]).
  - split; [done|]. intros w' Hi' Hr. apply HK; [done|by eapply K_stable].
  - apply (K_section _ _ (fun s => (if negb (_socket_valid s) then calls (vTaskDelay (pdMS_TO_TICKS 10))
         else burst_loop_thread (S (Z.to_nat UNI_NET_UDP_SERVER_RX_BURST_BUDGET)) s
                (replicate (Z.to_nat UNI_NET_UDP_SERVER_RX_BATCH_DEPTH) zero_item)
                UNI_NET_UDP_SERVER_RX_BURST_BUDGET true) ;; receive_loop_thread n)); [done|done|].
    intros w3 Hi3 Hk3. rewrite Hs. cbn [negb].
    eapply (safe_harmless_bind (fun _ => True)); [done|done|apply harmless_burst, length_replicate|].
    intros _ w4 Hi4 Hk4 _. by apply IH.
Qed.
End Sound.
End Harmless.
