(* ===== verification/UdpConcurrent.v ===== *)
(** * UDP server: callers from many tasks

    A running server, its receive loop and any number of tasks that call
    [uni_net_udp_server_set_timeouts] and [uni_net_udp_server_sendto] (and
    [uni_net_udp_server_recvfrom], which is refused while the receive loop runs),
    interleaved step by step.  The invariant of the mutex: whenever it is free,
    the socket has the timeouts of the configuration, and these are the two
    arguments of one call. *)

From stdpp Require Import relations.
From S2P Require Import Prelude Env Prog CString UdpClient UdpClientSpec UdpServer UdpServerApi Threads Interleaving UdpThreads UdpHarmless.
#[local] Open Scope thread_scope.

(** ** Reading the log *)

(** Who holds mutex [L] after the calls of a log. *)
Definition hold (L : ptr) (o : option nat) (x : nat * event) : option nat :=
  match x.2.(ev_call) with
  | xSemaphoreTake l => if l =? L then Some x.1 else o
  | xSemaphoreGive l => if l =? L then None else o
  | _ => o
  end.
Definition holder (L : ptr) (l : list (nat * event)) : option nat := foldl (hold L) None l.
#[global] Arguments holder : simpl never.

(** Every call that needs the mutex was made by its holder. *)
Definition log_guarded (L s : ptr) (l : list (nat * event)) : Prop :=
  forall l1 i e l2, l = l1 ++ (i, e) :: l2 -> needs_mutex s e.(ev_call) = true -> holder L l1 = Some i.

Lemma log_guarded_snoc L s l i e :
  log_guarded L s l -> (needs_mutex s e.(ev_call) = true -> holder L l = Some i) -> log_guarded L s (l ++ [(i, e)]).
Proof.
  intros Hl He l1 j e' l2 Heq Hn. destruct l2 as [|x l2 _] using rev_ind.
  - apply app_inj_tail in Heq as [-> ?]. simplify_eq. by apply He.
  - rewrite app_comm_cons, app_assoc in Heq. apply app_inj_tail in Heq as [-> _]. by eapply Hl.
Qed.

(** ** Requests *)

Inductive request : Set :=
| Set_timeouts (rx_ms tx_ms : Z)
| Send_to (buf : bytes) (n : Z) (to : udp_endpoint)
| Receive_from (buf : bytes) (n : Z) (timeout_ms : Z)
| Receiver (turns : nat).

Inductive outcome : Set := Bool (b : bool) | Int (rv : Z) | Ended.

Section Running.
Context `{PlatformOk} `{UniCommonSpec}.
Context (handle : nat -> ptr).

Definition serve (q : request) : thread outcome :=
  match q with
  | Set_timeouts rx tx => let! b := set_timeouts_thread rx tx in Done (Bool b)
  | Send_to b n to => let! r := sendto_thread (Some b) n (Some to) in Done (Int r)
  | Receive_from b n ms => let! r := recvfrom_thread (Some b) n None ms in Done (Int r.1.1)
  | Receiver turns => receive_loop_thread turns ;; Done Ended
  end.

(** The mutex [L], the socket [s], the task [T] and the callback [cb] of the
    server, and the pairs of timeouts that may be configured. *)
Context (L s T cb : ptr) (allowed : list (Z * Z)).
Context (HL : L <> NULL) (Hs : _socket_valid s = true).

Definition steady (c : udp_server) : Prop :=
  c.(state).(initialized) = true /\ c.(state).(lock) = L /\ c.(state).(socket) = s
  /\ c.(state).(task) = T /\ c.(config).(on_receive) = cb.

Definition ticks_of (c : udp_server) : Z * Z :=
  (pdMS_TO_TICKS c.(config).(rx_timeout_ms), pdMS_TO_TICKS c.(config).(tx_timeout_ms)).

Definition synced (c : udp_server) (p : Z * Z) : Prop :=
  p = ticks_of c /\ (c.(config).(rx_timeout_ms), c.(config).(tx_timeout_ms)) ∈ allowed.

Definition server_inv (w : world) : Prop :=
  steady w.(shared) /\ log_guarded L s w.(log)
  /\ w.(mutexes) = {[ L := holder L w.(log) ]}
  /\ exists p, w.(sockets) = {[ s := p ]} /\ (holder L w.(log) = None -> synced w.(shared) p).

(** What a caller relies on: nobody else takes or gives the mutex for it, and
    while it holds the mutex nobody changes the configuration or the options. *)
Definition server_rely (i : nat) (w w' : world) : Prop :=
  (holder L w.(log) = Some i <-> holder L w'.(log) = Some i)
  /\ (holder L w.(log) = Some i ->
      w'.(shared).(config) = w.(shared).(config) /\ w'.(sockets) = w.(sockets)).

#[global] Instance server_rely_preorder i : PreOrder (server_rely i).
Proof.
  split; [done|]. intros w1 w2 w3 [Ha Hb] [Hc Hd]. split; [by rewrite Ha|].
  intros Hh. destruct (Hb Hh) as [E1 E2]. destruct (Hd (proj1 Ha Hh)) as [E3 E4]. split; congruence.
Qed.

Context (E : nat -> stop -> Prop).
Abbreviation safe := (safe handle server_inv server_rely E).
Abbreviation held w := (holder L w.(log)).

(** ** Rules of the mutex *)

Lemma owns_holder i w : server_inv w -> owns i w -> held w = Some i.
Proof.
  intros (_ & _ & Hm & _) [l Hl]. rewrite Hm in Hl. apply lookup_singleton_Some in Hl as [_ Hl]. done.
Qed.

Lemma holder_snoc l x : holder L (l ++ [x]) = hold L (holder L l) x.
Proof. apply foldl_snoc. Qed.

Lemma hold_other o i c r : (forall l, c <> xSemaphoreTake l) -> (forall l, c <> xSemaphoreGive l) -> hold L o (i, Ev c r) = o.
Proof. intros Ht Hg. destruct c; cbn; try done; [by destruct (Ht lock)|by destruct (Hg lock)]. Qed.

(** A step of the holder is invisible to what the others rely on. *)
Lemma guarantees_held i w w' :
  (held w = Some i \/ held w = None) -> (held w' = Some i \/ held w' = None) -> guarantees server_rely i w w'.
Proof.
  intros Hw Hw' j Hj. unfold server_rely. split; [split|]; intros Hh; exfalso;
    destruct Hw as [Hw|Hw], Hw' as [Hw'|Hw']; congruence.
Qed.

(** So is a step that leaves mutex, configuration and options alone. *)
Lemma guarantees_frame i w w' :
  held w' = held w -> w'.(shared).(config) = w.(shared).(config) -> w'.(sockets) = w.(sockets) ->
  guarantees server_rely i w w'.
Proof. intros Hh Hc Hsk j _. split; [by rewrite Hh|done]. Qed.

Lemma inv_socket w : server_inv w -> exists p, w.(sockets) !! s = Some p.
Proof. intros (_ & _ & _ & p & -> & _). exists p. apply lookup_singleton_eq. Qed.

Lemma safe_take i {A} (Q : A -> world -> Prop) f w :
  server_inv w -> held w <> Some i ->
  (forall w', server_inv w' -> held w' = Some i -> (exists p, w'.(sockets) = {[ s := p ]} /\ synced w'.(shared) p) ->
     safe i Q (f tt) w') ->
  safe i Q (tbind _lock_thread f) w.
Proof.
  intros Hi Hh Hf. cbn. intros w1 Hi1 Hr1. destruct (proj1 Hi1) as (_ & -> & _).
  rewrite (proj2 (Z.eqb_neq _ _) HL). cbn. intros w2 Hi2 Hr2. destruct (proj1 Hi2) as (_ & -> & _).
  intros w3 Hi3 Hr3.
  assert (Hno : held w3 <> Some i).
  { intros E3. by apply Hh, (proj1 Hr1), (proj1 Hr2), (proj1 Hr3). }
  pose proof Hi3 as (Hst & Hg & Hm & p & Hp & Hsy). split.
  - destruct (held w3) as [j|] eqn:Ej.
    + right. exists L, j. split_and!; [done|by rewrite Hm, ?Ej; apply lookup_singleton_eq|].
      intros Ho. apply owns_holder in Ho; [|done]. congruence.
    + left. exists tt. eexists. cbn. split; [|done]. rewrite Hm, ?Ej. apply lookup_singleton_eq.
  - intros [] w4 [Hl ->]. rewrite Hm in Hl. apply lookup_singleton_Some in Hl as [_ Hl].
    assert (Hh' : holder L (w3.(log) ++ [(i, Ev (xSemaphoreTake L) tt)]) = Some i).
    { rewrite holder_snoc. cbn. by rewrite Z.eqb_refl. }
    assert (Hi' : server_inv (logged i (xSemaphoreTake L) tt (w3 <| mutexes ::= <[L := Some i]> |>))).
    { split_and!; [done|by apply log_guarded_snoc| |exists p; split; [done|]]; cbn.
      - by rewrite Hm, insert_singleton_eq, Hh'.
      - by rewrite Hh'. }
    split_and!; [done| |].
    + apply guarantees_held; cbn; [by right|by left].
    + apply Hf; cbn; [done..|]. exists p. by auto.
Qed.

Lemma safe_give i {A} (Q : A -> world -> Prop) f w p :
  server_inv w -> held w = Some i -> w.(sockets) = {[ s := p ]} -> synced w.(shared) p ->
  (forall w', server_inv w' -> held w' <> Some i -> safe i Q (f tt) w') ->
  safe i Q (tbind _unlock_thread f) w.
Proof.
  intros Hi Hh Hp Hsy Hf. cbn. intros w1 Hi1 Hr1. destruct (proj1 Hi1) as (_ & -> & _).
  rewrite (proj2 (Z.eqb_neq _ _) HL). cbn. intros w2 Hi2 Hr2. destruct (proj1 Hi2) as (_ & -> & _).
  intros w3 Hi3 Hr3. assert (Hr : server_rely i w w3) by (etrans; [done|by etrans]).
  destruct (proj2 Hr Hh) as [Hc Hsk]. apply (proj1 Hr) in Hh. clear w1 w2 Hi1 Hi2 Hr1 Hr2 Hr3.
  pose proof Hi3 as (Hst & Hg & Hm & _).
  assert (Hl : w3.(mutexes) !! L = Some (Some i)) by (rewrite Hm, Hh; apply lookup_singleton_eq).
  split; [left; by exists tt; eexists|].
  intros [] w4 [_ ->].
  assert (Hh' : holder L (w3.(log) ++ [(i, Ev (xSemaphoreGive L) tt)]) = None).
  { rewrite holder_snoc. cbn. by rewrite Z.eqb_refl. }
  assert (Hi' : server_inv (logged i (xSemaphoreGive L) tt (w3 <| mutexes ::= <[L := None]> |>))).
  { split_and!; [done|by apply log_guarded_snoc| |exists p; split; [by cbn; rewrite Hsk|]]; cbn.
    - by rewrite Hm, insert_singleton_eq, Hh'.
    - intros _. unfold synced, ticks_of. by rewrite Hc. }
  split_and!; [done| |].
  - apply guarantees_held; cbn; [by left|by right].
  - apply Hf; cbn; [done|]. by rewrite Hh'.
Qed.

(** ** Rules of the holder *)

(** After a call other than on a mutex the holder is the same. *)
Lemma held_call i c r (w : world) :
  (forall l, c <> xSemaphoreTake l) -> (forall l, c <> xSemaphoreGive l) -> held (logged i c r w) = held w.
Proof. intros. cbn. rewrite holder_snoc. by apply hold_other. Qed.

Lemma safe_option i {A} (Q : A -> world -> Prop) o k w p :
  held w = Some i -> w.(sockets) = {[ s := p ]} ->
  (forall w', server_inv w' -> held w' = Some i -> w'.(shared).(config) = w.(shared).(config) ->
     w'.(sockets) = {[ s := set_option o p ]} -> safe i Q (k 0) w') ->
  safe i Q (Call (FreeRTOS_setsockopt s o) k) w.
Proof.
  intros Hh Hp Hk w1 Hi1 Hr. destruct (proj2 Hr Hh) as [Hc Hsk]. apply (proj1 Hr) in Hh.
  assert (Hl : w1.(sockets) !! s = Some p) by (rewrite Hsk, Hp; apply lookup_singleton_eq).
  split; [left; by exists 0; eexists; exists p|].
  intros r w2 (p' & Hl' & -> & ->). simplify_eq. pose proof Hi1 as (Hst & Hg & Hm & _).
  assert (Hh' : held (logged i (FreeRTOS_setsockopt s o) 0 (w1 <| sockets ::= <[s := set_option o p]> |>)) = Some i)
    by by rewrite held_call.
  assert (Hsk' : <[s := set_option o p]> w1.(sockets) = {[ s := set_option o p ]}).
  { by rewrite Hsk, Hp, insert_singleton_eq. }
  assert (Hi' : server_inv (logged i (FreeRTOS_setsockopt s o) 0 (w1 <| sockets ::= <[s := set_option o p]> |>))).
  { split_and!; [done|by apply log_guarded_snoc| |exists (set_option o p); split; [done|by rewrite Hh']].
    cbn in *. by rewrite Hm, Hh', Hh. }
  split_and!; [done|apply guarantees_held; by left|]. by apply Hk.
Qed.

Lemma safe_store i {A} (Q : A -> world -> Prop) f k w :
  held w = Some i -> (forall c, steady c -> steady (f c)) ->
  (forall w' c, server_inv w' -> held w' = Some i -> c.(config) = w.(shared).(config) -> w'.(shared) = f c ->
     w'.(sockets) = w.(sockets) -> safe i Q k w') ->
  safe i Q (Store f k) w.
Proof.
  intros Hh Hf Hk w1 Hi1 Hr. destruct (proj2 Hr Hh) as [Hc Hsk]. apply (proj1 Hr) in Hh.
  pose proof Hi1 as (Hst & Hg & Hm & p & Hp & _).
  assert (Hi' : server_inv (w1 <| shared ::= f |>)).
  { split_and!; [by apply Hf|done|done|exists p; split; [done|]]. cbn. by rewrite Hh. }
  split_and!; [done|apply guarantees_held; by left|]. by eapply Hk.
Qed.

(** ** Steps that need no mutex *)

Lemma safe_inert i {A} (Q : A -> world -> Prop) c k w :
  inert s c -> (needs_mutex s c = true -> held w = Some i) ->
  (forall r w', server_inv (logged i c r w') -> server_rely i w w' -> answer handle i w' c r w' ->
     safe i Q (k r) (logged i c r w')) ->
  safe i Q (Call c k) w.
Proof.
  intros Hc Hn Hk w1 Hi1 Hr. split; [left; eapply inert_ready; [by apply inv_socket|done]|].
  intros r w2 Ha. pose proof (inert_answer _ _ _ _ _ _ _ Hc Ha) as ->.
  assert (Hh : held (logged i c r w1) = held w1) by (apply held_call; by intros ? ->).
  pose proof Hi1 as (Hst & Hg & Hm & p & Hp & Hsy).
  assert (Hi' : server_inv (logged i c r w1)).
  { split_and!; [done| |by rewrite Hh|exists p; split; [done|by rewrite Hh]].
    apply log_guarded_snoc; [done|]. intros Hx. by apply (proj1 Hr), Hn. }
  split_and!; [done|by apply guarantees_frame|]. by apply Hk.
Qed.

(** ** The callers *)

Ltac thread_step := cbn [tbind load calls store store_state _apply_timeouts_thread].

(** The context that a load sees is steady. *)
Ltac loads w Hr :=
  let Hi := fresh "Hi" in
  intros w Hi Hr; destruct (proj1 Hi) as (Einit & Elock & Esock & Etask & Ecb);
  rewrite ?Einit, ?Esock, ?Etask, ?Ecb; clear Einit Elock Esock Etask Ecb; thread_step.

Lemma safe_done i {A} (a : A) (P : A -> Prop) w :
  P a -> held w <> Some i -> safe i (fun a w' => P a /\ held w' <> Some i) (Done a) w.
Proof. intros Ha Hh w' _ Hr. split; [done|]. by rewrite <- (proj1 Hr). Qed.

Lemma safe_set_timeouts i rx tx w :
  (rx, tx) ∈ allowed -> server_inv w -> held w <> Some i ->
  safe i (fun b w' => b = true /\ held w' <> Some i) (set_timeouts_thread rx tx) w.
Proof.
  intros Hin Hi Hh. unfold set_timeouts_thread. thread_step. loads w1 Hr1. cbn [negb].
  apply safe_take; [done|by rewrite <- (proj1 Hr1)|]. intros w2 Hi2 Hh2 (p & Hp & _).
  thread_step. loads w3 Hr3. destruct (proj2 Hr3 Hh2) as [Hc3 Hp3]. apply (proj1 Hr3) in Hh2.
  rewrite Hp in Hp3. eapply safe_option; [done|done|]. intros w4 Hi4 Hh4 Hc4 Hp4.
  eapply safe_option; [done|done|]. intros w5 Hi5 Hh5 Hc5 Hp5. cbn [andb Z.eqb]. thread_step.
  apply safe_store; [done|done|]. intros w6 c6 Hi6 Hh6 Hc6 Hw6 Hp6.
  apply safe_store; [done|done|]. intros w7 c7 Hi7 Hh7 Hc7 Hw7 Hp7.
  rewrite Hp6, Hp5 in Hp7. eapply safe_give; [done|done|done| |].
  - rewrite Hw7. unfold synced, ticks_of. cbn. by rewrite Hc7, Hw6.
  - intros w8 Hi8 Hh8. thread_step. apply (safe_done i true (fun b => b = true)); done.
Qed.

(** The send of [uni_net_udp_server_sendto], from the lock to the result. *)
Lemma safe_send_locked i b n to w :
  0 < n <= len b -> n < 2 ^ 31 -> server_inv w -> held w <> Some i ->
  safe i (fun r w' => (r = n \/ r <= 0) /\ held w' <> Some i)
    (_lock_thread ;;
     Load (fun c =>
       let! d := tderef (read_at b 0 (Z.to_nat (size_t (i32 n)))) in
       Call (FreeRTOS_sendto c.(state).(socket) d (sockaddr_of to)) (fun r =>
         _unlock_thread ;; Done (whole_datagram (UdpServer._map_timeout_to_wouldblock (i32 r)) n)))) w.
Proof.
  intros Hn Hlt Hi Hh. apply safe_take; [done|done|].
  intros w1 Hi1 Hh1 (p & Hp & Hsy). loads w2 Hr2.
  destruct (proj2 Hr2 Hh1) as [Hc2 Hp2]. apply (proj1 Hr2) in Hh1.
  rewrite i32_small, size_t_small by lia. rewrite read_at_Some by lia. cbn [tderef]. thread_step.
  apply safe_inert; [done|done|]. intros rv w3 Hi3 Hr3 _.
  destruct (proj2 Hr3 Hh1) as [Hc3 Hp3]. apply (proj1 Hr3) in Hh1. eapply (safe_give _ _ _ _ p).
  - done.
  - by rewrite held_call.
  - cbn. by rewrite Hp3, Hp2.
  - unfold synced, ticks_of. cbn. by rewrite Hc3, Hc2.
  - intros w4 Hi4 Hh4. thread_step. apply (safe_done i _ (fun r => r = n \/ r <= 0)); [|done].
    apply whole_datagram_result, server_map_timeout_range, i32_range.
Qed.

Lemma safe_sendto i b n to w :
  0 < n <= len b -> n < 2 ^ 31 -> handle i <> T -> server_inv w -> held w <> Some i ->
  safe i (fun r w' => (r = n \/ r <= 0) /\ held w' <> Some i) (sendto_thread (Some b) n (Some to)) w.
Proof.
  intros Hn Hlt Ht Hi Hh. unfold sendto_thread. thread_step. loads w1 Hr1.
  rewrite (proj2 (Z.eqb_neq n 0)) by lia. cbn [orb negb]. thread_step.
  apply safe_inert; [done|done|]. intros self w2 Hi2 Hr2 [-> _]. loads w3 Hr3.
  assert (Hh3 : held w3 <> Some i).
  { rewrite <- (proj1 Hr3), held_call by done. by rewrite <- (proj1 Hr2), <- (proj1 Hr1). }
  set (rest := fun take_lock : bool => _).
  assert (Hrest : forall w, server_inv w -> held w <> Some i ->
     safe i (fun r w' => (r = n \/ r <= 0) /\ held w' <> Some i) (rest true) w).
  { clear w Hi Hh w1 Hi0 Hr1 w2 Hi2 Hr2 w3 Hi1 Hr3 Hh3. intros w Hi Hh. subst rest. cbn beta iota. by apply safe_send_locked. }
  destruct (T =? NULL); thread_step; [by apply Hrest|].
  loads w4 Hr4. rewrite (proj2 (Z.eqb_neq _ _) Ht). apply Hrest; [done|by rewrite <- (proj1 Hr4)].
Qed.

(** ** The receive loop *)

Lemma unheld_store i w f :
  server_inv w -> held w <> Some i -> counters_only f ->
  let w' := w <| shared ::= f |> in server_inv w' /\ guarantees server_rely i w w' /\ held w' <> Some i.
Proof.
  intros (Hst & Hg & Hm & p & Hp & Hsy) Hh Hf. cbn zeta. destruct (Hf w.(shared)) as (a & b & Hc).
  split_and!; [|by apply guarantees_frame; cbn; rewrite ?Hc|done].
  split_and!; [by cbn; rewrite Hc|done|done|]. exists p. split; [done|]. cbn. by rewrite Hc.
Qed.

Lemma unheld_call i w c r :
  server_inv w -> held w <> Some i -> inert s c -> needs_mutex s c = false ->
  let w' := logged i c r w in server_inv w' /\ guarantees server_rely i w w' /\ held w' <> Some i.
Proof.
  intros (Hst & Hg & Hm & p & Hp & Hsy) Hh Hc Hn. cbn zeta.
  assert (Hh' : held (logged i c r w) = held w) by (apply held_call; by intros ? ->).
  split_and!; [|by apply guarantees_frame|by rewrite Hh'].
  split_and!; [done|by apply log_guarded_snoc; [|cbn; rewrite Hn]|by rewrite Hh'|]. exists p. by rewrite Hh'.
Qed.

(** The critical section of the receive loop. *)
Lemma unheld_section i {A} (Q : A -> world -> Prop) (f : ptr -> thread A) w :
  server_inv w -> held w <> Some i ->
  (forall w', server_inv w' -> held w' <> Some i -> safe i Q (f s) w') ->
  safe i Q (_lock_thread ;; Load (fun c => _unlock_thread ;; f c.(state).(socket))) w.
Proof.
  intros Hi Hh Hf. apply safe_take; [done|done|]. intros w3 Hi3 Hh3 (p & Hp & Hsy). loads w4 Hr4.
  destruct (proj2 Hr4 Hh3) as [Hc4 Hp4]. apply (proj1 Hr4) in Hh3.
  eapply (safe_give _ _ _ _ p); [done|done|by rewrite Hp4|unfold synced, ticks_of; by rewrite Hc4|].
  intros w5 Hi5 Hh5. by apply Hf.
Qed.

Lemma safe_receiver i n w :
  E i OutOfFuel -> server_inv w -> held w <> Some i ->
  safe i (fun o w' => o = Ended /\ held w' <> Some i) (receive_loop_thread n ;; Done Ended) w.
Proof.
  intros HE Hi Hh. apply (safe_receive_loop s _ _ _ _ _ (fun w => held w <> Some i)); try done.
  - split; [|by intros; apply inv_socket|by intros w1 Hi1 Hk1 Ho; apply Hk1, owns_holder
            |apply unheld_store|apply unheld_call].
    intros w1 w2 Hk1 Hr _. by rewrite <- (proj1 Hr).
  - apply @unheld_section.
  - intros w' _ Hh'. by apply (safe_done i Ended (fun o => o = Ended)).
Qed.

Lemma safe_recvfrom_refused i b n ms w :
  n <> 0 -> cb <> NULL -> T <> NULL -> server_inv w -> held w <> Some i ->
  safe i (fun r w' => r = (- pdFREERTOS_ERRNO_EALREADY, Some b, None) /\ held w' <> Some i)
    (recvfrom_thread (Some b) n None ms) w.
Proof.
  intros Hn Hcb HT Hi Hh. unfold recvfrom_thread. thread_step. loads w1 Hr1.
  rewrite (proj2 (Z.eqb_neq n 0) Hn). cbn [orb negb]. thread_step. loads w2 Hr2.
  rewrite (proj2 (Z.eqb_neq cb NULL) Hcb). cbn [negb]. thread_step. loads w3 Hr3.
  rewrite (proj2 (Z.eqb_neq T NULL) HT). cbn [negb].
  apply (safe_done i _ (fun r => r = (- pdFREERTOS_ERRNO_EALREADY, Some b, None))); [done|].
  by rewrite <- (proj1 Hr3), <- (proj1 Hr2), <- (proj1 Hr1).
Qed.

(** ** Any number of requests *)

Definition acceptable (i : nat) (q : request) : Prop :=
  match q with
  | Set_timeouts rx tx => (rx, tx) ∈ allowed
  | Send_to b n _ => 0 < n <= len b /\ n < 2 ^ 31 /\ handle i <> T
  | Receive_from _ n _ => n <> 0 /\ cb <> NULL /\ T <> NULL
  | Receiver _ => E i OutOfFuel
  end.

Definition served (q : request) (a : outcome) : Prop :=
  match q with
  | Set_timeouts _ _ => a = Bool true
  | Send_to _ n _ => exists r, a = Int r /\ (r = n \/ r <= 0)
  | Receive_from _ _ _ => a = Int (- pdFREERTOS_ERRNO_EALREADY)
  | Receiver _ => a = Ended
  end.

Lemma safe_then i {A} (P : A -> Prop) (P' : outcome -> Prop) th (f : A -> outcome) w :
  server_inv w -> (forall a, P a -> P' (f a)) ->
  safe i (fun a w' => P a /\ held w' <> Some i) th w ->
  safe i (fun o w' => P' o /\ held w' <> Some i) (let! a := th in Done (f a)) w.
Proof.
  intros Hi HP Hth. apply safe_tbind; [apply _|done|]. eapply safe_mono; [|done].
  cbn. intros a w1 _ [Ha Hh] w2 _ Hr. split; [auto|]. by rewrite <- (proj1 Hr).
Qed.

Lemma safe_serve i q w :
  acceptable i q -> server_inv w -> held w <> Some i ->
  safe i (fun a w' => served q a /\ held w' <> Some i) (serve q) w.
Proof.
  intros Hq Hi Hh. destruct q as [rx tx|b n to|b n ms|turns]; cbn [serve].
  - eapply safe_then; [done| |by apply safe_set_timeouts]. cbn. by intros a ->.
  - destruct Hq as (? & ? & ?). eapply safe_then; [done| |by apply safe_sendto]. cbn. eauto.
  - destruct Hq as (? & ? & ?). eapply safe_then; [done| |by apply safe_recvfrom_refused]. cbn. by intros a ->.
  - by apply safe_receiver.
Qed.

End Running.

(** ** The server and its callers *)

Section Callers.
Context `{PlatformOk} `{UniCommonSpec}.
Context (handle : nat -> ptr) (c : udp_server) (reqs : list request).

Definition is_running (c : udp_server) : Prop :=
  c.(state).(initialized) = true /\ c.(state).(lock) <> NULL /\ _socket_valid c.(state).(socket) = true.

(** The mutex is free and the socket has the configured timeouts. *)
Definition running_world (c : udp_server) : world :=
  mk_world c {[ c.(state).(lock) := None ]} {[ c.(state).(socket) := ticks_of c ]} ∅ [].

(** The timeouts of the configuration and of every call of the list. *)
Definition requested_timeouts : list (Z * Z) :=
  (c.(config).(rx_timeout_ms), c.(config).(tx_timeout_ms))
  :: omap (fun q => match q with Set_timeouts rx tx => Some (rx, tx) | _ => None end) reqs.

(** A send has a buffer and does not come from the server task; a receive comes
    while the receive loop runs. *)
Definition well_formed_request (i : nat) (q : request) : Prop :=
  match q with
  | Send_to b n _ => 0 < n <= len b /\ n < 2 ^ 31 /\ handle i <> c.(state).(task)
  | Receive_from _ n _ => n <> 0 /\ c.(config).(on_receive) <> NULL /\ c.(state).(task) <> NULL
  | _ => True
  end.

Definition fuelled (i : nat) (e : stop) : Prop := e = OutOfFuel /\ exists n, reqs !! i = Some (Receiver n).

Abbreviation inv := (server_inv c.(state).(lock) c.(state).(socket) c.(state).(task)
                      c.(config).(on_receive) requested_timeouts).

Lemma callers_safe ts w :
  is_running c -> (forall i q, reqs !! i = Some q -> well_formed_request i q) ->
  rtc (cstep handle) (serve <$> reqs, running_world c) (ts, w) ->
  pool_safe handle inv (server_rely c.(state).(lock)) fuelled
    (fun i a w' => (exists q, reqs !! i = Some q /\ served q a) /\ inv w' /\ holder c.(state).(lock) w'.(log) <> Some i) ts w.
Proof.
  intros (Hinit & HL & Hs) Hq Hsteps. eapply pool_safe_steps; [apply _| |done].
  assert (Hinv : inv (running_world c)).
  { split_and!; [done| |done|].
    - intros l1 i e l2 Hl. by destruct l1.
    - eexists. split; [done|]. intros _. split; [done|]. by apply list_elem_of_here. }
  split_and!; [done| |].
  - intros l j Hl. cbn in Hl. apply lookup_singleton_Some in Hl as [_ Hl]. done.
  - intros i th Hth. rewrite list_lookup_fmap in Hth. destruct (reqs !! i) as [q|] eqn:Eq; [|done]. cbn in Hth. simplify_eq.
    eapply safe_mono; [|apply safe_serve; [done|done| |done|done]].
    + cbn. intros a w' Hi' [Ha Hh]. eauto.
    + specialize (Hq i q Eq). destruct q; cbn in *; auto.
      * apply list_elem_of_further, list_elem_of_omap. exists (Set_timeouts rx_ms tx_ms). split; [|done]. by eapply list_elem_of_lookup_2.
      * split; [done|]. eauto.
Qed.


(** The outcome of a request whose thread cannot move any more. *)
Definition completed (q : request) (th : thread outcome) : Prop :=
  match q with
  | Receiver _ => th = Done Ended \/ th = Halt OutOfFuel
  | _ => exists a, th = Done a /\ served q a
  end.

(** C9: The same callers cannot deadlock: from every reachable state some thread can go on
    until all are done, every schedule is finite, and at its end the mutex is free,
    every call of [uni_net_udp_server_set_timeouts] has returned true, every send its
    length, zero or an error, and every receive -EALREADY. *)
Theorem udp_server_callers_finish ts w :
  is_running c -> (forall i q, reqs !! i = Some q -> well_formed_request i q) ->
  rtc (cstep handle) (serve <$> reqs, running_world c) (ts, w) ->
  Acc (flip (cstep handle)) (ts, w)
  /\ ((exists next, cstep handle (ts, w) next)
      \/ holder c.(state).(lock) w.(log) = None /\ Forall2 completed reqs ts).
Proof.
  intros Hrun Hq Hsteps. split; [apply pool_terminates|].
  pose proof (callers_safe ts w Hrun Hq Hsteps) as Hsafe.
  destruct (pool_progress _ _ _ _ _ _ _ Hsafe) as [Hf|]; [|right|by left].
  { intros i a w' (_ & Hi & Hh) Ho. by eapply Hh, owns_holder. }
  destruct Hsafe as (Hi & Hown & Hs). rewrite Forall_lookup in Hf. apply csteps_length in Hsteps. cbn in Hsteps.
  rewrite length_fmap in Hsteps.
  assert (Hdone : forall i th, ts !! i = Some th -> holder c.(state).(lock) w.(log) <> Some i
     /\ exists q, reqs !! i = Some q /\ completed q th).
  { intros i th Hth. specialize (Hs i th Hth). specialize (Hf i th Hth). destruct th as [a| | | |e]; cbn in *; try done.
    - destruct (Hs w Hi) as ((q & Hq' & Ha) & _ & Hh); [done|]. split; [done|]. exists q. split; [done|].
      destruct q; cbn in *; [by exists a..|left; congruence].
    - destruct Hs as [[-> [n Hn]] Ho]. split.
      + intros Hh. eapply Ho; [done|done|]. exists c.(state).(lock). destruct Hi as (_ & _ & -> & _). rewrite Hh.
        apply lookup_singleton_eq.
      + exists (Receiver n). split; [done|by right]. }
  split.
  - destruct (holder c.(state).(lock) w.(log)) as [j|] eqn:Ej; [|done]. exfalso.
    destruct (lookup_lt_is_Some_2 ts j) as [th Hth].
    { eapply (Hown c.(state).(lock)). destruct Hi as (_ & _ & -> & _). rewrite Ej. apply lookup_singleton_eq. }
    by destruct (Hdone j th Hth) as [[] _].
  - apply Forall2_same_length_lookup_2; [done|]. intros i q th Hq' Hth.
    destruct (Hdone i th Hth) as (_ & q' & ? & ?). by simplify_eq.
Qed.

End Callers.
