(* ===== verification/UdpShutdown.v ===== *)
(** * UDP server: stopping it while its task runs

    [uni_net_udp_server_stop] in one task and the server task itself, from the end
    of its set-up to [vTaskDelete], interleaved step by step.  The task hands over
    by its last store, [task = nullptr]: until then the socket, the mutex and
    the context are alive, afterwards they belong to the caller of stop. *)

From stdpp Require Import relations.
From S2P Require Import Prelude Env Prog UdpServer Threads Interleaving UdpThreads UdpHarmless UdpConcurrent.
#[local] Open Scope thread_scope.

Section Shutdown.
Context `{Platform} `{UniCommon}.
Context (handle : nat -> ptr) (L s T : ptr).
Context (HL : L <> NULL) (Hs : _socket_valid s = true) (HT : T <> NULL).

(** The two threads. *)
Definition task_id : nat := 0.
Definition stop_id : nat := 1.
Definition shutdown_threads (fuel1 fuel2 : nat) : list (thread outcome) :=
  [task_run_thread fuel1 ;; Done Ended; let! b := stop_thread fuel2 in Done (Bool b)].

Abbreviation held w := (holder L w.(log)).
Abbreviation task_of w := w.(shared).(state).(task).

Definition alive (w : world) : Prop :=
  w.(shared).(state).(lock) = L /\ w.(shared).(state).(socket) = s
  /\ w.(mutexes) = {[ L := held w ]} /\ exists p, w.(sockets) = {[ s := p ]}.

Definition shut_inv (w : world) : Prop :=
  (task_of w = T -> alive w) /\ (w.(mutexes) = {[ L := held w ]} \/ w.(mutexes) = ∅).

(** The task relies on its handle staying until it clears it itself; the caller of
    stop relies on the objects staying alive and, once the handle is cleared, on
    nothing changing any more. *)
Definition shut_rely (i : nat) (w w' : world) : Prop :=
  (held w = Some i <-> held w' = Some i)
  /\ (i = task_id -> task_of w = T -> task_of w' = T)
  /\ (i = stop_id -> (alive w -> alive w')
      /\ (task_of w = NULL ->
          w'.(shared) = w.(shared) /\ w'.(mutexes) = w.(mutexes) /\ w'.(sockets) = w.(sockets))).

#[global] Instance shut_rely_preorder i : PreOrder (shut_rely i).
Proof.
  split; [by intros w; split_and!|]. intros w1 w2 w3 (Ha & Hb & Hc) (Hd & He & Hf). split_and!.
  - by rewrite Ha.
  - auto.
  - intros Hi. destruct (Hc Hi) as [Hc1 Hc2], (Hf Hi) as [Hf1 Hf2]. split; [auto|].
    intros Hn. destruct (Hc2 Hn) as (E1 & E2 & E3). destruct Hf2 as (? & ? & ?); [by rewrite E1|].
    split_and!; congruence.
Qed.

Definition shut_fuel (i : nat) (e : stop) : Prop := e = OutOfFuel.
Abbreviation safe := (safe handle shut_inv shut_rely shut_fuel).

Lemma shut_owns i w : shut_inv w -> owns i w -> held w = Some i.
Proof.
  intros [_ [Hm|Hm]] [l Hl]; rewrite Hm in Hl.
  - by apply lookup_singleton_Some in Hl as [_ Hl].
  - by rewrite lookup_empty in Hl.
Qed.

(** ** The critical sections *)

(** Both threads take and give the mutex while they know the objects to be alive. *)
Record knows_alive (i : nat) (K : world -> Prop) : Prop := {
  ka_stable w w' : K w -> shut_rely i w w' -> shut_inv w' -> K w';
  ka_alive w : K w -> shut_inv w -> alive w;
  ka_step w w' : K w -> w'.(shared) = w.(shared) -> alive w' -> K w';
  (** a step of the mutex is invisible to the other thread *)
  ka_guarantees w w' : K w -> alive w -> alive w' -> w'.(shared) = w.(shared) ->
    (held w = Some i \/ held w = None) -> (held w' = Some i \/ held w' = None) -> guarantees shut_rely i w w';
}.

Lemma shut_take i K {A} (Q : A -> world -> Prop) f w :
  knows_alive i K -> K w -> held w <> Some i ->
  (forall w', shut_inv w' -> K w' -> held w' = Some i -> safe i Q (f tt) w') ->
  safe i Q (tbind _lock_thread f) w.
Proof.
  intros HK Hk Hh Hf. cbn. intros w1 Hi1 Hr1. assert (Hk1 : K w1) by by eapply ka_stable.
  destruct (ka_alive _ _ HK w1 Hk1 Hi1) as (-> & _).
  rewrite (proj2 (Z.eqb_neq _ _) HL). cbn. intros w2 Hi2 Hr2. assert (Hk2 : K w2) by by eapply ka_stable.
  destruct (ka_alive _ _ HK w2 Hk2 Hi2) as (-> & _). intros w3 Hi3 Hr3. assert (Hk3 : K w3) by by eapply ka_stable.
  destruct (ka_alive _ _ HK w3 Hk3 Hi3) as (HL3 & Hs3 & Hm & Hsk).
  assert (Hno : held w3 <> Some i).
  { intros E3. by apply Hh, (proj1 Hr1), (proj1 Hr2), (proj1 Hr3). }
  split.
  - destruct (held w3) as [j|] eqn:Ej.
    + right. exists L, j. split_and!; [done|by rewrite Hm; apply lookup_singleton_eq|].
      intros Ho. apply shut_owns in Ho; [|done]. congruence.
    + left. exists tt. eexists. cbn. split; [|done]. rewrite Hm. apply lookup_singleton_eq.
  - intros [] w4 [Hl ->]. rewrite Hm in Hl. apply lookup_singleton_Some in Hl as [_ Hl].
    set (w' := logged i (xSemaphoreTake L) tt (w3 <| mutexes ::= <[L := Some i]> |>)).
    assert (Hh' : held w' = Some i) by (cbn; rewrite holder_snoc; cbn; by rewrite Z.eqb_refl).
    assert (Ha' : alive w').
    { split_and!; [done|done| |done]. rewrite Hh'. cbn. by rewrite Hm, insert_singleton_eq. }
    split_and!; [by split; [|left; apply Ha']| |].
    + eapply ka_guarantees; [done|done|by apply HK|done|done|by right|by left].
    + apply (Hf w'); [by split; [|left; apply Ha']|by eapply ka_step|done].
Qed.

Lemma shut_give i K {A} (Q : A -> world -> Prop) f w :
  knows_alive i K -> K w -> held w = Some i ->
  (forall w', shut_inv w' -> K w' -> held w' <> Some i -> safe i Q (f tt) w') ->
  safe i Q (tbind _unlock_thread f) w.
Proof.
  intros HK Hk Hh Hf. cbn. intros w1 Hi1 Hr1. assert (Hk1 : K w1) by by eapply ka_stable.
  destruct (ka_alive _ _ HK w1 Hk1 Hi1) as (-> & _).
  rewrite (proj2 (Z.eqb_neq _ _) HL). cbn. intros w2 Hi2 Hr2. assert (Hk2 : K w2) by by eapply ka_stable.
  destruct (ka_alive _ _ HK w2 Hk2 Hi2) as (-> & _). intros w3 Hi3 Hr3. assert (Hk3 : K w3) by by eapply ka_stable.
  destruct (ka_alive _ _ HK w3 Hk3 Hi3) as (HL3 & Hs3 & Hm & Hsk).
  apply (proj1 Hr1), (proj1 Hr2), (proj1 Hr3) in Hh.
  assert (Hl : w3.(mutexes) !! L = Some (Some i)) by (rewrite Hm, Hh; apply lookup_singleton_eq).
  split; [left; by exists tt; eexists|]. intros [] w4 [_ ->].
  set (w' := logged i (xSemaphoreGive L) tt (w3 <| mutexes ::= <[L := None]> |>)).
  assert (Hh' : held w' = None) by (cbn; rewrite holder_snoc; cbn; by rewrite Z.eqb_refl).
  assert (Ha' : alive w').
  { split_and!; [done|done| |done]. rewrite Hh'. cbn. by rewrite Hm, insert_singleton_eq. }
  split_and!; [by split; [|left; apply Ha']| |].
  - eapply ka_guarantees; [done|done|by apply HK|done|done|by left|by right].
  - apply (Hf w'); [by split; [|left; apply Ha']|by eapply ka_step|by rewrite Hh'].
Qed.

(** ** Calls that change nothing *)

Lemma shut_held i c r (w : world) : inert s c -> held (logged i c r w) = held w.
Proof. intros Hc. apply held_call; by intros ? ->. Qed.

Lemma shut_alive i c r w : inert s c -> alive w -> alive (logged i c r w).
Proof. intros Hc (? & ? & Hm & ?). split_and!; [done|done|by rewrite shut_held|done]. Qed.

Lemma shut_call i c r w :
  inert s c -> shut_inv w ->
  shut_inv (logged i c r w) /\ guarantees shut_rely i w (logged i c r w).
Proof.
  intros Hc [Ha Hm]. split.
  - split; [by intros Ht; apply shut_alive, Ha|by rewrite shut_held].
  - intros j Hj. split_and!; [by rewrite shut_held|done|]. intros _. split; [by apply shut_alive|done].
Qed.

Lemma safe_shut_call i {A} (Q : A -> world -> Prop) c k w :
  inert s c -> (forall w', shut_inv w' -> shut_rely i w w' -> is_Some (w'.(sockets) !! s) \/ c = vTaskDelete) ->
  (forall r w', shut_inv w' -> shut_rely i w w' -> answer handle i w' c r w' ->
     shut_inv (logged i c r w') -> safe i Q (k r) (logged i c r w')) ->
  safe i Q (Call c k) w.
Proof.
  intros Hc Hsk Hk w' Hi Hr. split.
  - left. destruct (Hsk w' Hi Hr) as [Hx| ->]; [by eapply inert_ready|]. by exists tt, w'.
  - intros r w2 Ha. pose proof (inert_answer _ _ _ _ _ _ _ Hc Ha) as ->.
    destruct (shut_call i c r w' Hc Hi). split_and!; [done|done|]. by apply Hk.
Qed.

Lemma alive_socket w : alive w -> is_Some (w.(sockets) !! s).
Proof. intros (_ & _ & _ & p & ->). exists p. apply lookup_singleton_eq. Qed.

(** ** The server task *)

Lemma task_knows_alive : knows_alive task_id (fun w => task_of w = T).
Proof.
  split.
  - intros w w' Ht (_ & Hr & _) _. by apply Hr.
  - intros w Ht [Ha _]. by apply Ha.
  - by intros w w' Ht -> _.
  - intros w w' Ht Ha Ha' Hsh Hh Hh' j Hj. split_and!.
    + split; intros Hx; exfalso; destruct Hh as [Hh|Hh], Hh' as [Hh'|Hh']; congruence.
    + done.
    + intros _. split; [done|]. congruence.
Qed.

Definition task_idle (w : world) : Prop := task_of w = T /\ held w <> Some task_id.

Lemma task_idle_stable w w' : task_idle w -> shut_rely task_id w w' -> shut_inv w' -> task_idle w'.
Proof. intros [Ht Hh] (Hr1 & Hr2 & _) _. split; [by apply Hr2|by rewrite <- Hr1]. Qed.

Lemma task_idle_store w f :
  shut_inv w -> task_idle w -> counters_only f ->
  let w' := w <| shared ::= f |> in shut_inv w' /\ guarantees shut_rely task_id w w' /\ task_idle w'.
Proof.
  intros [Ha Hm] [Ht Hh] Hf. cbn zeta. destruct (Hf w.(shared)) as (a & b & Hc).
  assert (Ht' : task_of (w <| shared ::= f |>) = T) by (cbn; by rewrite Hc).
  assert (Ha' : alive (w <| shared ::= f |>)).
  { destruct (Ha Ht) as (? & ? & ? & ?). split_and!; cbn; rewrite ?Hc; done. }
  split_and!; [by split| |by split]. intros j Hj. split_and!; [done|done|]. intros _. split; [done|]. congruence.
Qed.

Lemma task_idle_call w c r :
  shut_inv w -> task_idle w -> inert s c -> needs_mutex s c = false ->
  let w' := logged task_id c r w in shut_inv w' /\ guarantees shut_rely task_id w w' /\ task_idle w'.
Proof.
  intros Hi [Ht Hh] Hc _. cbn zeta. destruct (shut_call task_id c r w Hc Hi).
  split_and!; [done|done|]. split; [done|]. by rewrite shut_held.
Qed.

Lemma task_tolerates : tolerates s shut_inv shut_rely task_id task_idle.
Proof.
  split; [apply task_idle_stable| | |apply task_idle_store|apply task_idle_call].
  - intros w Hi Hk. by apply alive_socket, Hi, Hk.
  - intros w Hi Hk Ho. by apply (proj2 Hk), shut_owns.
Qed.

Lemma task_idle_section {A} (Q : A -> world -> Prop) (f : ptr -> thread A) w :
  shut_inv w -> task_idle w -> (forall w', shut_inv w' -> task_idle w' -> safe task_id Q (f s) w') ->
  safe task_id Q (_lock_thread ;; Load (fun c => _unlock_thread ;; f c.(state).(socket))) w.
Proof.
  intros Hi [Ht Hh] Hf. eapply shut_take; [apply task_knows_alive|done|done|].
  intros w1 Hi1 Ht1 Hh1 w2 Hi2 Hr2. assert (Ht2 : task_of w2 = T) by by apply Hr2.
  destruct (proj1 Hi2 Ht2) as (_ & -> & _). eapply shut_give; [apply task_knows_alive|done|by apply (proj1 Hr2)|].
  intros w3 Hi3 Ht3 Hh3. by apply Hf.
Qed.

(** The last store of the task hands the objects over. *)
Lemma safe_hand_over w :
  shut_inv w -> task_idle w ->
  safe task_id (fun _ w' => held w' <> Some task_id)
    (store_state (fun st => st <| task := NULL |>) ;; calls vTaskDelete) w.
Proof.
  intros Hi Hk. cbn [tbind store_state store calls]. intros w1 Hi1 Hr1.
  destruct (task_idle_stable _ _ Hk Hr1 Hi1) as [Ht1 Hh1]. destruct (proj1 Hi1 Ht1) as (? & ? & Hm & ?).
  split_and!.
  - split; [by cbn; intros ?; destruct HT|by left].
  - intros j Hj. split_and!; [done|done|]. intros _. split; [intros _; by split_and!|]. congruence.
  - apply safe_shut_call; [done|by right|]. intros r w2 Hi2 Hr2 _ _ w3 _ Hr3.
    rewrite <- (proj1 Hr3), shut_held by done. by rewrite <- (proj1 Hr2).
Qed.

Lemma safe_task fuel w :
  shut_inv w -> task_idle w ->
  safe task_id (fun a w' => a = Ended /\ held w' <> Some task_id) (task_run_thread fuel ;; Done Ended) w.
Proof.
  intros Hi Hk. apply safe_tbind; [apply _|done|].
  apply (safe_mono _ _ _ _ _ (fun _ w' => held w' <> Some task_id)).
  { intros _ w' _ Hh w2 _ Hr. split; [done|by rewrite <- (proj1 Hr)]. }
  unfold task_run_thread.
  apply (safe_harmless_bind s _ _ _ _ _ _ task_tolerates eq_refl (fun _ => True)); [done..|].
  intros stop w1 Hi1 Hk1 _. cbn [tbind load].
  intros w2 Hi2 Hr2. pose proof (task_idle_stable _ _ Hk1 Hr2 Hi2) as Hk2.
  apply (safe_harmless_bind s _ _ _ _ _ _ task_tolerates eq_refl (fun _ => True));
    [done|done|case_match; [apply harmless_idle|done]|].
  intros _ w3 Hi3 Hk3 _. apply (safe_receive_loop s _ _ _ _ _ _ task_tolerates eq_refl); try done.
  - apply @task_idle_section.
  - apply safe_hand_over.
Qed.

(** ** The caller of stop *)

Definition stop_done (b : bool) (w : world) : Prop :=
  b = true /\ w.(shared) = zero_server /\ w.(mutexes) = ∅ /\ w.(sockets) = ∅ /\ held w <> Some stop_id.

(** Until the task is gone. *)
Lemma stop_knows_alive : knows_alive stop_id alive.
Proof.
  split; [|done|done|].
  - intros w w' Ha (_ & _ & Hr) _. by apply Hr.
  - intros w w' _ Ha Ha' Hsh Hh Hh' j Hj. split_and!.
    + split; intros Hx; exfalso; destruct Hh as [Hh|Hh], Hh' as [Hh'|Hh']; congruence.
    + intros _. by rewrite Hsh.
    + done.
Qed.

(** When it is gone, the caller is on its own. *)
Lemma frozen_same w w' :
  task_of w = NULL -> shut_rely stop_id w w' ->
  w'.(shared) = w.(shared) /\ w'.(mutexes) = w.(mutexes) /\ w'.(sockets) = w.(sockets).
Proof. intros Ht (_ & _ & Hr). by apply Hr. Qed.

Lemma gone_knows_alive : knows_alive stop_id (fun w => alive w /\ task_of w = NULL).
Proof.
  split.
  - intros w w' [Ha Ht] Hr _. split; [by apply Hr|]. destruct (frozen_same w w' Ht Hr) as (-> & _). done.
  - by intros w [Ha _] _.
  - intros w w' [_ Ht] -> Ha. done.
  - intros w w' [_ Ht] _ _ _ Hh Hh' j Hj. split_and!; [|intros _ Ht'; destruct HT; congruence|done].
    split; intros Hx; exfalso; destruct Hh as [Hh|Hh], Hh' as [Hh'|Hh']; congruence.
Qed.

(** The world as the caller knows it then, with or without the mutex. *)
Definition frozen (c : udp_server) (m : gmap Z (option nat)) (k : gmap Z (Z * Z)) (h : bool) (w : world) : Prop :=
  w.(shared) = c /\ w.(mutexes) = m /\ w.(sockets) = k
  /\ (if h then held w = Some stop_id else held w <> Some stop_id).

Lemma frozen_stable c m k h w w' :
  c.(state).(task) = NULL -> frozen c m k h w -> shut_rely stop_id w w' -> frozen c m k h w'.
Proof.
  intros Ht (<- & <- & <- & Hh) Hr. destruct (frozen_same w w' Ht Hr) as (? & ? & ?).
  split_and!; [done..|]. destruct h; [by apply (proj1 Hr)|by rewrite <- (proj1 Hr)].
Qed.

(** A step after which the task is still gone and the mutex as before. *)
Lemma frozen_step c m k h w c' m' k' w' :
  c.(state).(task) = NULL -> c'.(state).(task) = NULL -> (m' = m \/ m' = ∅) ->
  shut_inv w -> frozen c m k h w -> held w' = held w ->
  w'.(shared) = c' -> w'.(mutexes) = m' -> w'.(sockets) = k' ->
  shut_inv w' /\ guarantees shut_rely stop_id w w' /\ frozen c' m' k' h w'.
Proof.
  intros Ht Ht' Hm' [_ Hm] (E1 & E2 & E3 & Hh) Eh E1' E2' E3'. split_and!.
  - split; [rewrite E1'; intros; destruct HT; congruence|]. rewrite Eh, E2'. destruct Hm' as [-> | ->]; [|by right].
    by rewrite <- E2.
  - intros j Hj. split_and!; [by rewrite Eh|rewrite E1; intros; destruct HT; congruence|done].
  - split_and!; [done..|]. by rewrite Eh.
Qed.

Lemma frozen_store {A} (Q : A -> world -> Prop) f th c m k h w :
  c.(state).(task) = NULL -> (f c).(state).(task) = NULL -> frozen c m k h w ->
  (forall w', shut_inv w' -> frozen (f c) m k h w' -> safe stop_id Q th w') ->
  safe stop_id Q (Store f th) w.
Proof.
  intros Ht Ht' Hf Hth w1 Hi1 Hr1. pose proof (frozen_stable _ _ _ _ _ _ Ht Hf Hr1) as Hf1.
  destruct (frozen_step c m k h w1 (f c) m k (w1 <| shared ::= f |>)) as (? & ? & ?);
    [done|done|by left|done|done|done|by cbn; rewrite (proj1 Hf1)|apply Hf1|apply Hf1|].
  split_and!; [done|done|by apply Hth].
Qed.

Lemma frozen_close {A} (Q : A -> world -> Prop) th c m p h w :
  c.(state).(task) = NULL -> frozen c m {[ s := p ]} h w ->
  (forall r w', shut_inv w' -> frozen c m ∅ h w' -> safe stop_id Q (th r) w') ->
  safe stop_id Q (Call (FreeRTOS_closesocket s) th) w.
Proof.
  intros Ht Hf Hth w1 Hi1 Hr1. pose proof (frozen_stable _ _ _ _ _ _ Ht Hf Hr1) as Hf1.
  destruct Hf1 as (E1 & E2 & E3 & Hh).
  assert (Hl : w1.(sockets) !! s = Some p) by (rewrite E3; apply lookup_singleton_eq).
  split; [left; by exists 0; eexists; split|]. intros r w2 [_ ->].
  destruct (frozen_step c m {[ s := p ]} h w1 c m ∅
              (logged stop_id (FreeRTOS_closesocket s) r (w1 <| sockets ::= delete s |> <| peers ::= delete s |>))) as (? & ? & ?); try done; auto.
  - by rewrite held_call.
  - cbn. rewrite E3. apply delete_singleton_eq.
Qed.

Lemma frozen_delete {A} (Q : A -> world -> Prop) th c k h w :
  c.(state).(task) = NULL -> frozen c {[ L := None ]} k h w ->
  (forall w', shut_inv w' -> frozen c ∅ k h w' -> safe stop_id Q (th tt) w') ->
  safe stop_id Q (Call (vSemaphoreDelete L) th) w.
Proof.
  intros Ht Hf Hth w1 Hi1 Hr1. pose proof (frozen_stable _ _ _ _ _ _ Ht Hf Hr1) as Hf1.
  destruct Hf1 as (E1 & E2 & E3 & Hh).
  assert (Hl : w1.(mutexes) !! L = Some None) by (rewrite E2; apply lookup_singleton_eq).
  split; [left; by exists tt; eexists; split|]. intros [] w2 [_ ->].
  destruct (frozen_step c {[ L := None ]} k h w1 c ∅ k
              (logged stop_id (vSemaphoreDelete L) tt (w1 <| mutexes ::= delete L |>))) as (? & ? & ?); try done; auto.
  - by rewrite held_call.
  - cbn. rewrite E2. apply delete_singleton_eq.
Qed.

Lemma frozen_give {A} (Q : A -> world -> Prop) th c k w :
  c.(state).(task) = NULL -> frozen c {[ L := Some stop_id ]} k true w ->
  (forall w', shut_inv w' -> frozen c {[ L := None ]} k false w' -> safe stop_id Q (th tt) w') ->
  safe stop_id Q (Call (xSemaphoreGive L) th) w.
Proof.
  intros Ht Hf Hth w1 Hi1 Hr1. pose proof (frozen_stable _ _ _ _ _ _ Ht Hf Hr1) as Hf1.
  destruct Hf1 as (E1 & E2 & E3 & Hh).
  assert (Hl : w1.(mutexes) !! L = Some (Some stop_id)) by (rewrite E2; apply lookup_singleton_eq).
  split; [left; by exists tt; eexists; split|]. intros [] w2 [_ ->].
  set (w' := logged stop_id (xSemaphoreGive L) tt (w1 <| mutexes ::= <[L := None]> |>)).
  assert (Hh' : held w' = None) by (cbn; rewrite holder_snoc; cbn; by rewrite Z.eqb_refl).
  assert (Hm' : w'.(mutexes) = {[ L := None ]}) by (cbn; by rewrite E2, insert_singleton_eq).
  assert (Hi' : shut_inv w').
  { split; [intros Ht'; destruct HT; cbn in Ht'; congruence|]. left. by rewrite Hm', Hh'. }
  split_and!; [done| |].
  - intros j Hj. split_and!; [|rewrite E1; intros; destruct HT; congruence|done].
    split; intros Hx; exfalso; [|change (held w' = Some j) in Hx]; congruence.
  - apply (Hth w'); [done|]. split_and!; [done..|]. by rewrite Hh'.
Qed.

(** A load of the caller sees the context it knows. *)
Ltac frozen_load Ht Hf :=
  let w := fresh "w" in let Hi := fresh "Hi" in let Hr := fresh "Hr" in let Hf' := fresh "Hf" in
  intros w Hi Hr; pose proof (frozen_stable _ _ _ _ _ _ Ht Hf Hr) as Hf'; clear Hf; rename Hf' into Hf;
  rewrite (proj1 Hf); clear Hi Hr.

(** The second part of stop: close, delete, clear. *)
Lemma safe_stop_close w :
  shut_inv w -> alive w /\ task_of w = NULL -> held w <> Some stop_id ->
  safe stop_id stop_done
    (_lock_thread ;;
     let! c := load in
     (if _socket_valid c.(state).(socket) then let! c := load in close_socket_thread c.(state).(socket)
      else Done tt) ;;
     _unlock_thread ;;
     let! c := load in
     (if negb (c.(state).(lock) =? NULL) then let! c := load in calls (vSemaphoreDelete c.(state).(lock))
      else Done tt) ;;
     store (fun _ => zero_server) ;;
     Done true) w.
Proof.
  intros Hi Hk Hh. eapply shut_take; [apply gone_knows_alive|done|done|]. clear w Hi Hk Hh.
  intros w Hi [(Elk & Esk & Em & p & Ep) Ht] Hh. rewrite Hh in Em.
  assert (Hf : frozen w.(shared) {[ L := Some stop_id ]} {[ s := p ]} true w) by by split_and!.
  revert Hf Ht Elk Esk. generalize w.(shared). clear Em Ep. intros c Hf Ht Elk Esk.
  pose proof (proj2 (Z.eqb_neq L NULL) HL) as ELN.
  cbn [tbind load]. frozen_load Ht Hf. rewrite Esk, Hs. cbn [tbind load]. frozen_load Ht Hf. rewrite Esk.
  cbn [tbind close_socket_thread calls store_state store].
  eapply frozen_close; [done|done|]. clear w0 w1 Hf. intros r w1 Hi1 Hf.
  eapply frozen_store; [done| |done|]; [done|]. clear w1 Hi1 Hf. intros w1 Hi1 Hf.
  set (c1 := c <| state ::= _ |>) in Hf.
  assert (Ht1 : c1.(state).(task) = NULL) by done. assert (Elk1 : c1.(state).(lock) = L) by done. clearbody c1.
  cbn [tbind _unlock_thread load]. frozen_load Ht1 Hf. rewrite Elk1, ELN.
  cbn [negb tbind load calls]. frozen_load Ht1 Hf. rewrite Elk1.
  eapply frozen_give; [done|done|]. clear w0 w2 Hf. intros w2 Hi2 Hf.
  cbn [tbind load]. frozen_load Ht1 Hf. rewrite Elk1, ELN. cbn [negb tbind load calls]. frozen_load Ht1 Hf. rewrite Elk1.
  eapply frozen_delete; [done|done|]. clear w0 w3 Hf. intros w3 Hi3 Hf. cbn [tbind store].
  eapply frozen_store; [done|done|done|]. clear Hf. intros w4 Hi4 Hf w5 Hi5 Hr5.
  destruct (frozen_stable zero_server ∅ ∅ false w4 w5) as (? & ? & ? & ?); [done..|]. by split_and!.
Qed.

(** The wait for the task. *)
Lemma safe_wait_task fuel {A} (Q : A -> world -> Prop) (th : thread A) w :
  shut_inv w -> alive w -> held w <> Some stop_id ->
  (forall w', shut_inv w' -> alive w' /\ task_of w' = NULL -> held w' <> Some stop_id -> safe stop_id Q th w') ->
  safe stop_id Q (wait_task_thread fuel ;; th) w.
Proof.
  intros Hi Ha Hh Hth. revert w Hi Ha Hh. induction fuel as [|fuel IH]; intros w Hi Ha Hh; cbn [wait_task_thread].
  - split; [done|]. intros w' Hi' Hr Ho. apply shut_owns in Ho; [|done]. by apply Hh, (proj1 Hr).
  - assert (Hstep : forall c r w', inert s c -> shut_rely stop_id w w' ->
       alive (logged stop_id c r w') /\ held (logged stop_id c r w') <> Some stop_id).
    { intros c r w' Hc Hr. split; [by apply shut_alive, Hr|]. rewrite shut_held by done. by rewrite <- (proj1 Hr). }
    cbn [tbind calls]. apply safe_shut_call; [done|intros w' _ Hr'; left; by apply alive_socket, Hr'|].
    intros r w1 Hi1 Hr1 [[= <-] _] Hi1'. destruct (Hstep read_server_task (task_of w1) w1) as [Ha1 Hh1]; [done..|].
    destruct (Z.eqb_spec (task_of w1) NULL) as [E|E]; cbn [negb].
    + by apply Hth.
    + cbn [tbind calls]. apply safe_shut_call; [done|intros w' _ Hr'; left; by apply alive_socket, Hr'|].
      intros [] w2 Hi2 Hr2 _ Hi2'. apply IH; [done|by apply shut_alive, Hr2|].
      rewrite shut_held by done. by rewrite <- (proj1 Hr2).
Qed.

(** Setting an option of a live socket under the mutex. *)
Lemma safe_stop_option {A} (Q : A -> world -> Prop) o k w :
  alive w -> held w = Some stop_id ->
  (forall w', shut_inv w' -> alive w' -> held w' = Some stop_id -> safe stop_id Q (k 0) w') ->
  safe stop_id Q (Call (FreeRTOS_setsockopt s o) k) w.
Proof.
  intros Ha Hh Hk w1 Hi1 Hr1. apply (proj1 Hr1) in Hh.
  assert (Ha1 : alive w1) by by apply Hr1. destruct Ha1 as (El & Es & Em & p & Ep).
  assert (Hl : w1.(sockets) !! s = Some p) by (rewrite Ep; apply lookup_singleton_eq).
  split; [left; by exists 0; eexists; exists p|]. intros r w2 (p' & _ & -> & ->).
  set (w' := logged stop_id (FreeRTOS_setsockopt s o) 0 (w1 <| sockets ::= <[s := set_option o p']> |>)).
  assert (Hh' : held w' = held w1) by (unfold w'; by rewrite held_call).
  assert (Ha' : alive w').
  { split_and!; [done|done|by rewrite Hh'|]. eexists. cbn. by rewrite Ep, insert_singleton_eq. }
  assert (Hi' : shut_inv w') by by split; [|left; apply Ha'].
  split_and!; [done|by intros j Hj; split_and!; [rewrite Hh'| |]|]. apply (Hk w'); [done|done|by rewrite Hh'].
Qed.

(** The first part of stop. *)
Lemma safe_stop fuel w :
  shut_inv w -> alive w -> held w <> Some stop_id ->
  safe stop_id stop_done (stop_thread fuel) w.
Proof.
  intros Hi Ha Hh. unfold stop_thread. cbn [tbind store_state store]. intros w1 Hi1 Hr1.
  assert (Ha1 : alive w1) by by apply Hr1. rewrite (proj1 Hr1) in Hh.
  set (w1' := w1 <| shared ::= _ |>). assert (Ha1' : alive w1') by done.
  split_and!; [by split; [|apply Hi1]|by intros j Hj; split_and!|].
  eapply shut_take; [apply stop_knows_alive|done|done|]. clear w1 w1' Ha1 Ha1' Hi1 Hr1 Hh. intros w1 Hi1 Ha1 Hh1.
  cbn [tbind load]. intros w2 Hi2 Hr2. assert (Ha2 : alive w2) by by apply Hr2.
  destruct Ha2 as (_ & -> & _). rewrite Hs. cbn [tbind load]. intros w3 Hi3 Hr3.
  assert (Ha3 : alive w3) by by apply Hr3, Hr2. destruct (Ha3) as (_ & -> & _). cbn [tbind calls].
  apply safe_stop_option; [done|by apply (proj1 Hr3), (proj1 Hr2)|]. intros w5 Hi5 Ha5 Hh5.
  eapply shut_give; [apply stop_knows_alive|done|done|]. intros w6 Hi6 Ha6 Hh6.
  apply safe_wait_task; [done..|]. apply safe_stop_close.
Qed.

End Shutdown.

Section Stop.
Context `{Platform} `{UniCommon} (handle : nat -> ptr) (c : udp_server).

(** C8: Stopping a running server, in every interleaving with its task: no thread ever
    makes a call on a socket or a mutex that is gone or gives a mutex it does not
    hold; the two cannot deadlock and every schedule is finite; and from the moment
    stop has returned true the socket is closed, the mutex deleted and the context
    zero, whatever the task still does. *)
Theorem udp_server_stop_clean fuel1 fuel2 ts w :
  is_running c -> c.(state).(task) <> NULL ->
  rtc (cstep handle) (shutdown_threads fuel1 fuel2, running_world c) (ts, w) ->
  (forall i e k, ts !! i = Some (Call e k) -> ready handle i w e \/ waits i w e)
  /\ (forall i e, ts !! i = Some (Halt e) -> e = OutOfFuel)
  /\ (Forall finished ts \/ exists next, cstep handle (ts, w) next)
  /\ Acc (flip (cstep handle)) (ts, w)
  /\ (forall a, ts !! stop_id = Some (Done a) ->
      a = Bool true /\ w.(shared) = zero_server /\ w.(mutexes) = ∅ /\ w.(sockets) = ∅).
Proof.
  intros (Hinit & HL & Hs) HT Hsteps. set (L := c.(state).(lock)) in *. set (s := c.(state).(socket)) in *.
  set (T := c.(state).(task)) in *.
  set (Q := fun i a w' => shut_inv L s T w' /\ holder L w'.(log) <> Some i
             /\ (i = stop_id -> a = Bool true /\ w'.(shared) = zero_server /\ w'.(mutexes) = ∅ /\ w'.(sockets) = ∅)).
  assert (Hsafe : pool_safe handle (shut_inv L s T) (shut_rely L s T) shut_fuel Q ts w).
  { eapply pool_safe_steps; [apply _| |done].
    assert (Ha : alive L s (running_world c)) by (split_and!; [done|done|done|by eexists]).
    assert (Hi : shut_inv L s T (running_world c)) by by split; [|left; apply Ha].
    split_and!; [done| |].
    - intros l j Hl. cbn in Hl. by apply lookup_singleton_Some in Hl as [_ Hl].
    - intros [|[|i]] th; [intros [= <-]..|done].
      + eapply safe_mono; [|by apply safe_task]. intros a w' Hi' [-> Hh]. by split_and!.
      + change (safe handle (shut_inv L s T) (shut_rely L s T) shut_fuel 1 (Q 1%nat)
                  (let! b := stop_thread fuel2 in Done (Bool b)) (running_world c)).
        apply safe_tbind; [apply _|done|]. eapply safe_mono; [|by apply safe_stop].
        cbn. intros b w1 Hi1 Hd w2 Hi2 Hr. destruct Hd as (-> & E1 & E2 & E3 & Hh).
        destruct (frozen_same L s T w1 w2) as (? & ? & ?); [by rewrite E1|done|].
        split_and!; [done|by rewrite <- (proj1 Hr)|]. intros _. split_and!; congruence. }
  destruct (Hsafe) as (Hi & _ & Hth). split_and!.
  - intros i e k Hk. specialize (Hth i _ Hk). by apply Hth.
  - intros i e Hk. specialize (Hth i _ Hk). by apply Hth.
  - apply (pool_progress _ _ _ _ _ _ _ Hsafe). intros i a w' (Hi' & Hh & _) Ho. by eapply Hh, shut_owns.
  - apply pool_terminates.
  - intros a Ha. specialize (Hth stop_id _ Ha). by apply Hth.
Qed.
End Stop.
