(* ===== verification/UdpRaces.v ===== *)
(** * UDP server: what the mutex does not protect

    Executed schedules ([Schedules]) in which [uni_net_udp_server_recvfrom], which
    sets the timeout under the mutex but waits, counts and restores outside of one
    critical section, loses the effect of another call, and in which
    [uni_net_udp_server_stop] meets a task that is still setting itself up. *)

From stdpp Require Import relations.
From S2P Require Import Prelude Env Prog Instance CString UdpServer Threads Interleaving Schedules UdpThreads UdpConcurrent UdpShutdown.

(** ** A polled server on the concrete platform *)

Module Polled.
Import Demo.

(** Mutex 7, socket 9, task 3, no callback. *)
Definition ctx (rx tx : Z) : udp_server :=
  mk_udp_server (mk_udp_server_config 0 53 rx tx NULL NULL 2 256)
    (mk_udp_server_state true 9 7 3 false 0 0 16).

(** Every receive delivers one byte. *)
Definition net (c : call) : resp c :=
  match c return resp c with
  | FreeRTOS_recvfrom _ _ => (1, [NUL], mk_sockaddr FREERTOS_AF_INET 53 1, 8)
  | c => zero_resp c
  end.

Definition receive : request := Receive_from [NUL] 1 5.

(** [uni_net_udp_server_recvfrom] reads the configured timeout before it waits and
    restores it afterwards: a [uni_net_udp_server_set_timeouts] of another task during
    the wait is acknowledged and stored in the configuration, but its receive
    timeout is gone from the socket when both have returned. *)
Theorem recvfrom_undoes_set_timeouts rx0 tx0 rx1 tx1 :
  exists w, rtc (cstep (fun _ => 1)) (serve <$> [receive; Set_timeouts rx1 tx1], running_world (ctx rx0 tx0))
              ([Done (Int 1); Done (Bool true)], w)
    /\ holder 7 w.(log) = None
    /\ ticks_of w.(shared) = (pdMS_TO_TICKS rx1, pdMS_TO_TICKS tx1)
    /\ w.(sockets) !! 9 = Some (pdMS_TO_TICKS rx0, pdMS_TO_TICKS tx1).
Proof.
  set (order := replicate 11 0%nat ++ replicate 12 1%nat ++ replicate 10 0%nat).
  eexists. split.
  - apply (sched_sound _ net order). vm_compute. reflexivity.
  - done.
Qed.

(** The counters are not protected at all: two tasks that each receive a datagram
    may be counted as one. *)
Theorem recvfrom_loses_count rx tx :
  exists w, rtc (cstep (fun _ => 1)) (serve <$> [receive; receive], running_world (ctx rx tx))
              ([Done (Int 1); Done (Int 1)], w)
    /\ holder 7 w.(log) = None /\ w.(shared).(state).(rx_packets_total) = 1.
Proof.
  set (order := replicate 11 0%nat ++ replicate 11 1%nat ++ replicate 2 0%nat ++ replicate 10 1%nat ++ replicate 8 0%nat).
  eexists. split.
  - apply (sched_sound _ net order). vm_compute. reflexivity.
  - done.
Qed.
End Polled.

(** ** A server that is stopped while it starts *)

Module Starting.
Import Demo.
#[local] Open Scope thread_scope.

(** The context as [uni_net_udp_server_start] leaves it, with task 3. *)
Definition ctx : udp_server :=
  mk_udp_server (mk_udp_server_config 0 53 1000 1000 NULL NULL 2 256)
    (mk_udp_server_state false NULL NULL 3 false 0 0 0).

Definition threads : list (thread outcome) :=
  [task_thread 1 ;; Done Ended; let! b := stop_thread 1 in Done (Bool b)].

Definition starting_world : world := mk_world ctx ∅ ∅ ∅ [].

(** The network is up; the mutex is 7, the socket 9 and its bind fails. *)
Definition net (c : call) : resp c :=
  match c return resp c with
  | FreeRTOS_IsNetworkUp => 1
  | xSemaphoreCreateMutex => 7
  | FreeRTOS_socket _ _ _ => 9
  | FreeRTOS_bind _ _ => -1
  | c => zero_resp c
  end.

(** A schedule that ends with stop as a test says. *)
Lemma schedule order (test : thread outcome -> bool) (m : gmap Z (option nat)) :
  sched_tests (fun _ => 1) net order (threads, starting_world)
    (fun ts w => match ts !! stop_id with Some th => test th && bool_decide (w.(mutexes) = m) | None => false end) = true ->
  exists ts w th, rtc (cstep (fun _ => 1)) (threads, starting_world) (ts, w)
    /\ ts !! stop_id = Some th /\ test th = true /\ w.(mutexes) = m.
Proof.
  intros (ts & w & Hr & Ht)%sched_tests_sound. destruct (ts !! stop_id) as [th|] eqn:Eth; [|done].
  apply andb_true_iff in Ht as [Ht Hm%bool_decide_eq_true]. by exists ts, w, th.
Qed.

(** [_lock] tests the handle of the mutex and then reads it again: if the set-up of
    the task fails in between and deletes the mutex, stop takes a NULL handle. *)
Theorem stop_takes_null_mutex :
  exists ts w th, rtc (cstep (fun _ => 1)) (threads, starting_world) (ts, w)
    /\ ts !! stop_id = Some th /\ about_to_take NULL th = true /\ w.(mutexes) = ∅.
Proof.
  apply (schedule (replicate 4 0%nat ++ replicate 2 1%nat ++ replicate 19 0%nat ++ replicate 1 1%nat)).
  vm_compute. reflexivity.
Qed.

(** [_unlock] tests the handle on its own: if the task creates the mutex between
    the two, stop gives a mutex that it never took. *)
Theorem stop_gives_untaken_mutex :
  exists ts w th, rtc (cstep (fun _ => 1)) (threads, starting_world) (ts, w)
    /\ ts !! stop_id = Some th /\ about_to_give 7 th = true /\ w.(mutexes) = {[ 7 := None ]}.
Proof.
  apply (schedule (replicate 2 0%nat ++ replicate 3 1%nat ++ replicate 2 0%nat ++ replicate 2 1%nat)).
  vm_compute. reflexivity.
Qed.
End Starting.
