(* ===== verification/UdpExamples.v ===== *)
(** * UDP: concrete runs

    The theorems about the UDP client and server at concrete inputs. *)

From stdpp Require Import relations.
From S2P Require Import Prelude Env Prog Trace Instance CString UdpClient UdpClientSpec UdpServer UdpServerSpec UdpLiveness UdpServerApi.
From S2P Require Import Threads Interleaving Schedules UdpThreads UdpHarmless UdpConcurrent UdpShutdown UdpRaces UdpTypes.
Import Demo.

Lemma good_any t c : any_answer t c (good_env t c).
Proof. done. Qed.

Lemma good_udp t c : udp_ok t c (good_env t c).
Proof. destruct c; cbn; try done. intros Hn. case_match; cbn; lia. Qed.

(** An initialised client with socket 5 and mutex 9, connected to a peer. *)
Definition client : udp_client :=
  mk_udp_client (mk_udp_client_config 100 200)
    (mk_udp_client_state true 5 true true (mk_sockaddr 2 (htons 53) 1) 9).

Lemma client_is_ok : client_ok client.
Proof. by split_and!. Qed.

Definition some_ops : list udp_op :=
  [Op_send (Some (B "abc")) 3; Op_recvfrom (Some (B "____")) 4 None; Op_set_timeouts 5 6;
   Op_sendto (Some (B "de")) 2 (Some (mk_endpoint 1 2))].

Lemma udp_client_ops_guarded_witness : exists o t',
  run good_env (exec_all some_ops (Some client)) [] = (inl (tt, o), t') /\ op_post client [] o t'.
Proof.
  destruct (wp_run udp_ok good_env (exec_all some_ops (Some client)) _ [] good_udp
    (udp_client_ops_guarded some_ops client [] ltac:(by repeat constructor) client_is_ok)) as ([[] o] & t' & Hr & HQ).
  by exists o, t'.
Defined.

Lemma udp_client_send_result_witness : exists r o t',
  run good_env (uni_net_udp_client_send (Some (B "abc")) 3 (Some client)) [] = (inl (r, o), t')
  /\ (r = 3 \/ r <= 0) /\ r = 3.
Proof.
  destruct (wp_run any_answer good_env (uni_net_udp_client_send (Some (B "abc")) 3 (Some client)) _ [] good_any
    (udp_client_send_result (Some (B "abc")) 3 (Some client) [] ltac:(cbn; rewrite ?length_B; cbn; lia))) as ([r o] & t' & Hr & HQ).
  exists r, o, t'. split_and!; [done|exact HQ|]. by injection Hr as <- _ _.
Defined.

Lemma udp_endpoint_network_order_witness : exists e,
  uni_net_udp_endpoint_init_quick (Some (mk_endpoint 0 0)) 192 168 1 2 8080 = Some e
  /\ e.(ep_port) = 36895 /\ htons e.(ep_port) = 8080.
Proof.
  destruct (udp_endpoint_network_order (mk_endpoint 0 0) 192 168 1 2 8080) as (e & He & _ & _ & Hp & Hh);
    [lia..|]. exists e. split_and!; [done|by rewrite Hp|done].
Defined.

(** A server that calls back. *)
Definition server_config : udp_server_config := mk_udp_server_config 0 (htons 53) 100 200 77 78 2 256.


(** A running server with socket 5, mutex 9 and the task 7. *)
Definition server : udp_server :=
  mk_udp_server server_config (mk_udp_server_state true 5 9 7 false 10 0 16).

Lemma udp_burst_bounded_witness : exists c' t' got,
  run good_env (burst_loop (S (Z.to_nat UNI_NET_UDP_SERVER_RX_BURST_BUDGET)) 5
       (replicate (Z.to_nat UNI_NET_UDP_SERVER_RX_BATCH_DEPTH) zero_item) UNI_NET_UDP_SERVER_RX_BURST_BUDGET true server) []
    = (inl (tt, c'), t')
  /\ (List.length got <= 32)%nat /\ datagrams t' = got
  /\ c'.(UdpServer.state).(rx_packets_total) = u64 (10 + Z.of_nat (List.length got)).
Proof.
  destruct (wp_run any_answer good_env _ _ [] good_any
    (udp_burst_bounded 5 server [] ltac:(done) ltac:(cbn; lia))) as ([[] c'] & t' & Hr & got & Hl & Hd & Hp).
  exists c', t', got. split; [exact Hr|]. split; [exact Hl|]. split; [exact Hd|exact Hp].
Defined.

(** A synchronous receive on a server without a callback. *)
Definition sync_server : udp_server :=
  mk_udp_server (server_config <| on_receive := NULL |>) (mk_udp_server_state true 5 9 NULL false 10 0 16).

Lemma udp_server_recvfrom_restores_witness : exists r b out c' t',
  run good_env (uni_net_udp_server_recvfrom (Some (B "____")) 4 None 30 (Some sync_server)) []
    = (inl ((r, b, out), Some c'), t')
  /\ (forall p, held p t' = 0) /\ rcvtimeo 5 t' = Some 100.
Proof.
  destruct (wp_run udp_ok good_env _ _ [] good_udp
    (udp_server_recvfrom_restores (B "____") 4 None 30 sync_server [] ltac:(cbn; rewrite ?length_B; cbn; lia) ltac:(lia) ltac:(done) ltac:(lia)))
    as ([[[r b] out] o] & t' & Hr & c' & -> & _ & Hh & Hif).
  exists r, b, out, c', t'. split; [done|]. split; [exact Hh|]. cbn in Hif. by destruct Hif.
Defined.

(** ** The end of the server, and a send *)

Lemma reads_length f t : (forall e, f e <= 1) -> tsum f t <= len t.
Proof.
  intros Hf. induction t as [|e t IH]; rewrite ?tsum_nil, ?tsum_cons; [done|]. specialize (Hf e). cbn. lia.
Qed.

Lemma good_stops t c : stops_by 300 t c (good_env t c).
Proof.
  destruct c; cbn; try done. intros Hk. apply bool_decide_eq_true.
  enough (stop_reads t <= len t) by lia. apply reads_length. intros [k r]. unfold stop_event. cbn. by case_match.
Qed.


Lemma udp_server_sendto_exact_witness : exists r o t',
  run good_env (uni_net_udp_server_sendto (Some (B "abc")) 2 (Some (mk_endpoint 1 2)) (Some server)) [] = (inl (r, o), t')
  /\ r = 2 /\ exists self rv, t' = sendto_calls server (B "ab") (mk_endpoint 1 2) self rv.
Proof.
  destruct (wp_run any_answer good_env
    (uni_net_udp_server_sendto (Some (B "abc")) 2 (Some (mk_endpoint 1 2)) (Some server)) _ [] good_any
    (udp_server_sendto_exact (B "abc") 2 (mk_endpoint 1 2) server []
       ltac:(rewrite length_B; cbn; lia) ltac:(lia))) as ([r o] & t' & Hr & _ & _ & _ & self & rv & HQ).
  exists r, o, t'. split; [exact Hr|]. split; [by injection Hr as <- _ _|]. by exists self, rv.
Defined.

(** ** Interleavings *)

(** A task that sets the timeouts and one that sends: the second waits for the
    mutex of the first in the middle of its call. *)
Definition two_callers : list request := [Set_timeouts 5 6; Send_to (B "abc") 2 (mk_endpoint 1 2)].
Definition two_order : list nat :=
  replicate 4 1%nat ++ replicate 4 0%nat ++ replicate 2 1%nat ++ replicate 8 0%nat ++ replicate 6 1%nat.

Lemma two_callers_formed i q :
  two_callers !! i = Some q -> well_formed_request (fun _ => 1) (Polled.ctx 100 200) i q.
Proof.
  destruct i as [|[|i]]; cbn; intros Hq; simplify_eq; [done|]. cbn. rewrite length_B. cbn. lia.
Qed.

Lemma two_callers_run : exists w,
  rtc (cstep (fun _ => 1)) (serve <$> two_callers, running_world (Polled.ctx 100 200)) ([Done (Bool true); Done (Int 0)], w)
  /\ holder 7 w.(log) = None /\ w.(shared).(config).(rx_timeout_ms) = 5.
Proof.
  eexists. split; [apply (sched_sound _ zero_resp two_order); vm_compute; reflexivity|done].
Qed.


Lemma udp_server_callers_finish_witness : exists w,
  Acc (flip (cstep (fun _ => 1))) ([Done (Bool true); Done (Int 0)], w) /\ holder 7 w.(log) = None.
Proof.
  destruct two_callers_run as (w & Hr & Hh & Hc). exists w.
  destruct (udp_server_callers_finish (fun _ => 1) (Polled.ctx 100 200) two_callers _ w
    ltac:(by split_and!) two_callers_formed Hr) as [Ha _].
  split; [exact Ha|exact Hh].
Defined.

(** Stop waits once for the task, which then sees the request and ends. *)
Definition stop_order : list nat :=
  replicate 12 1%nat ++ replicate 6 0%nat ++ replicate 15 1%nat.

Lemma udp_server_stop_clean_witness : exists w,
  rtc (cstep (fun _ => 1)) (shutdown_threads 2 2, running_world (Polled.ctx 100 200)) ([Done Ended; Done (Bool true)], w)
  /\ w.(shared) = zero_server /\ w.(mutexes) = ∅ /\ w.(sockets) = ∅.
Proof.
  eexists. split; [apply (sched_sound _ zero_resp stop_order); vm_compute; reflexivity|].
  refine (proj2 (proj2 (proj2 (proj2 (proj2 (udp_server_stop_clean (fun _ => 1) (Polled.ctx 100 200) 2 2
    [Done Ended; Done (Bool true)] _ ltac:(by split_and!) ltac:(done) _)))) (Bool true) eq_refl)).
  apply (sched_sound _ zero_resp stop_order). vm_compute. reflexivity.
Defined.

(** ** Types *)

(** Start, a run of the task, a change of the timeouts, a datagram and stop. *)
Definition server_life : list server_op :=
  [Call_start (Some (mk_udp_server_config 16777343 53 100 200 0 0 1 256)); Run_task 3;
   Call_set_timeouts 5 (2 ^ 32 - 1); Call_sendto (Some (B "abc")) 2 (Some (mk_endpoint 1 65535)); Call_stop 3].

