(* ===== verification/FtpClient.v ===== *)
(** * FTP client

    [uni_net_ftp_client.h] and [uni_net_ftp_client.c], function by function.

    The client task and the application share the context.  What the application
    asks for is an [ftp_request]; requests take effect while the task waits in
    [FreeRTOS_select] ([ftp_requests]) and inside the callback, where the answer of
    [ftp_callback] lists what the callback asked for. *)

From S2P Require Import Prelude Env Prog CString.
#[local] Open Scope prog_scope.

Definition UNI_NET_FTP_CLIENT_DEFAULT_PORT := 21.
Definition UNI_NET_FTP_CLIENT_WAIT_MS := 100.

(** [uni_net_ftp_client_callback_type_e] *)
Definition UNI_NET_FTP_CLIENT_CALLBACK_DISCONNECT := 0.
Definition UNI_NET_FTP_CLIENT_CALLBACK_RECV := 1.
Definition UNI_NET_FTP_CLIENT_CALLBACK_RECV_FINISHED := 2.
Definition UNI_NET_FTP_CLIENT_CALLBACK_RECV_FAILED := 3.

(** [uni_net_ftp_client_disconnect_reason_e] *)
Definition UNI_NET_FTP_CLIENT_DISCONNECT_REASON_UNKNOWN := 0.
Definition UNI_NET_FTP_CLIENT_DISCONNECT_REASON_RESPONSE_ERR := 1.
Definition UNI_NET_FTP_CLIENT_DISCONNECT_REASON_WRONG_DATA := 2.
Definition UNI_NET_FTP_CLIENT_DISCONNECT_REASON_WRONG_CMD := 3.
Definition UNI_NET_FTP_CLIENT_DISCONNECT_REASON_MEMORY_ALLOC := 4.
Definition UNI_NET_FTP_CLIENT_DISCONNECT_REASON_NO_BYTES := 5.
Definition UNI_NET_FTP_CLIENT_DISCONNECT_REASON_TERMINATION := 6.
Definition UNI_NET_FTP_CLIENT_DISCONNECT_REASON_CONNECT := 7.
Definition UNI_NET_FTP_CLIENT_DISCONNECT_REASON_NETWORK := 8.
Definition UNI_NET_FTP_CLIENT_DISCONNECT_REASON_SOCKET := 9.

(** [uni_net_ftp_client_task_type_e] *)
Definition UNI_NET_FTP_CLIENT_TASK_TYPE_STARTUP := 0.
Definition UNI_NET_FTP_CLIENT_TASK_TYPE_IDLE := 1.
Definition UNI_NET_FTP_CLIENT_TASK_TYPE_RETR := 2.
Definition UNI_NET_FTP_CLIENT_TASK_TYPE_LIST := 3.
Definition UNI_NET_FTP_CLIENT_TASK_TYPE_TERMINATION := 4.

(** [uni_net_ftp_client_task_state_e]; two of its members share a value. *)
Definition UNI_NET_FTP_CLIENT_TASK_STATE_NOT_STARTED := 0.
Definition UNI_NET_FTP_CLIENT_TASK_STATE_SWITCH_TO_PASV := 2.
Definition UNI_NET_FTP_CLIENT_TASK_STATE_STARTED := 3.
Definition UNI_NET_FTP_CLIENT_TASK_STATE_REQUESTED := 4.
Definition UNI_NET_FTP_CLIENT_TASK_STATE_IN_PROGRESS := 4.
Definition UNI_NET_FTP_CLIENT_TASK_STATE_FINISHED := 5.
Definition UNI_NET_FTP_CLIENT_TASK_STATE_FAILED := 6.

(** [sizeof(ctx->state.task.name)] *)
Definition sizeof_name : nat := 32.

(** ** State *)

(** [uni_net_ftp_client_config_t] *)
Record ftp_config : Set := mk_ftp_config {
  server_addr : Z;
  server_port : Z;
  timeout_rx : Z;
  timeout_tx : Z;
  auth_user : option bytes;
  auth_password : option bytes;
}.
#[global] Instance eta_ftp_config : Eta ftp_config := fun x =>
  mk_ftp_config x.(server_addr) x.(server_port) x.(timeout_rx) x.(timeout_tx)
    x.(auth_user) x.(auth_password).

(** [uni_net_ftp_client_state_t] *)
Record ftp_state : Set := mk_ftp_state {
  thread : ptr;
  socket_set : ptr;
  socket_cmd : ptr;
  socket_data : ptr;
  task : ftp_task;
  callback : ptr;
  cookie : ptr;
}.
#[global] Instance eta_ftp_state : Eta ftp_state := fun x =>
  mk_ftp_state x.(thread) x.(socket_set) x.(socket_cmd) x.(socket_data) x.(task)
    x.(callback) x.(cookie).

(** [uni_net_ftp_client_context_t] *)
Record ftp_client : Set := mk_ftp_client {
  config : ftp_config;
  state : ftp_state;
}.
#[global] Instance eta_ftp_client : Eta ftp_client := fun x => mk_ftp_client x.(config) x.(state).

(** ** Public functions that make no call *)

Definition upd_task (f : ftp_task -> ftp_task) (c : ftp_client) : ftp_client :=
  c <| state ::= fun st => st <| task ::= f |> |>.

(** [uni_net_ftp_client_is_connected] *)
Definition uni_net_ftp_client_is_connected (o : option ftp_client) : bool :=
  match o with
  | Some c => negb (c.(state).(socket_cmd) =? NULL) || negb (c.(state).(thread) =? NULL)
  | None => false
  end.

(** [uni_net_ftp_client_is_idle] *)
Definition uni_net_ftp_client_is_idle (o : option ftp_client) : bool :=
  uni_net_ftp_client_is_connected o
  && match o with
     | Some c => c.(state).(task).(task_type) =? UNI_NET_FTP_CLIENT_TASK_TYPE_IDLE
     | None => false
     end.

(** [uni_net_ftp_client_get_current_addr] *)
Definition uni_net_ftp_client_get_current_addr (o : option ftp_client) : Z :=
  let result := 2 ^ 32 - 1 in
  if uni_net_ftp_client_is_connected o then
    match o with Some c => c.(config).(server_addr) | None => result end
  else result.

(** [uni_net_ftp_client_get_task]; the pointer is the address of the member, so
    there is no task to look at behind a NULL context. *)
Definition uni_net_ftp_client_get_task (o : option ftp_client) : option ftp_task :=
  (fun c => c.(state).(task)) <$> o.

(** [uni_net_ftp_client_disconnect] *)
Definition uni_net_ftp_client_disconnect (o : option ftp_client) : bool * option ftp_client :=
  let result := false in
  match o with
  | Some c => (result, Some (upd_task (fun t => t <| task_type := UNI_NET_FTP_CLIENT_TASK_TYPE_TERMINATION |>) c))
  | None => (result, None)
  end.

(** [uni_net_ftp_client_set_callback] *)
Definition uni_net_ftp_client_set_callback (o : option ftp_client) (cb ck : ptr) : bool * option ftp_client :=
  match o with
  | Some c => (true, Some (c <| state ::= fun st => st <| callback := cb |> <| cookie := ck |> |>))
  | None => (false, None)
  end.

(** [ctx->state.task.name[0] = '\0'] *)
Definition clear_name (name : bytes) : bytes := <[0%nat := NUL]> name.

(** [uni_net_ftp_client_download]; the second component is [None] when [strncpy]
    does not fit. *)
Definition uni_net_ftp_client_download (o : option ftp_client) (filename : bytes) (ck : ptr) (size : Z)
  : bool * option (option ftp_client) :=
  if uni_net_ftp_client_is_idle o then
    match o with
    | None => (false, None)
    | Some c =>
        (true,
         name ← strncpy c.(state).(task).(task_name) filename (sizeof_name - 1);
         Some (Some (upd_task (fun t => t
           <| task_type := UNI_NET_FTP_CLIENT_TASK_TYPE_RETR |>
           <| task_state := UNI_NET_FTP_CLIENT_TASK_STATE_NOT_STARTED |>
           <| progress := 0 |>
           <| progress_total := u32 size |>
           <| cookie_file := ck |>
           <| task_name := name |>) c)))
    end
  else (false, Some o).

(** [uni_net_ftp_client_list] *)
Definition uni_net_ftp_client_list (o : option ftp_client) : bool * option ftp_client :=
  if uni_net_ftp_client_is_idle o then
    (true, (fun c => upd_task (fun t => t
       <| task_type := UNI_NET_FTP_CLIENT_TASK_TYPE_LIST |>
       <| task_state := UNI_NET_FTP_CLIENT_TASK_STATE_NOT_STARTED |>
       <| progress := 0 |>
       <| progress_total := 0 |>
       <| task_name := clear_name t.(task_name) |>) c) <$> o)
  else (false, o).

(** One request of the application. *)
Definition request (r : ftp_request) (o : option ftp_client) : option (option ftp_client) :=
  match r with
  | Ftp_download filename ck size => (uni_net_ftp_client_download o filename ck size).2
  | Ftp_list => Some (uni_net_ftp_client_list o).2
  | Ftp_disconnect => Some (uni_net_ftp_client_disconnect o).2
  | Ftp_set_callback cb ck => Some (uni_net_ftp_client_set_callback o cb ck).2
  end.

Fixpoint requests (rs : list ftp_request) : M ftp_client unit :=
  match rs with
  | [] => ret tt
  | r :: rs' =>
      let! c := get in
      let! o := deref (request r (Some c)) in
      let! c' := deref o in
      put c' ;;
      requests rs'
  end.

Section FtpClient.
Context `{Platform} `{UniCommon}.

(** ** Helpers *)

Definition upd_state (f : ftp_state -> ftp_state) : M ftp_client unit :=
  modify (fun c => c <| state ::= f |>).
Definition set_type (ty : Z) : M ftp_client unit :=
  modify (upd_task (fun t => t <| task_type := ty |>)).
Definition set_state (st : Z) : M ftp_client unit :=
  modify (upd_task (fun t => t <| task_state := st |>)).

(** [if (ctx->state.callback) ctx->state.callback(ctx->state.cookie, &ctx->state.task, ...)] *)
Definition call_callback (ty : Z) (data : option bytes) (size : Z) : M ftp_client unit :=
  let! c := get in
  if negb (c.(state).(callback) =? NULL) then
    let! rs := do_call (ftp_callback c.(state).(callback) c.(state).(cookie) c.(state).(task) ty data size) in
    requests rs
  else ret tt.
#[global] Arguments call_callback ty data size c : simpl never.

(** [_uni_net_ftp_client_startup_cmds] *)
Definition _uni_net_ftp_client_startup_cmds : list bytes :=
  [B "OPTS UTF8 ON" ++ [CR; LF]; B "TYPE I" ++ [CR; LF]; B "PWD" ++ [CR; LF]].

Definition _uni_net_ftp_client_startup_cmds_cnt : Z := len _uni_net_ftp_client_startup_cmds.

(** [_uni_net_ftp_client_send_cmd] *)
Definition _uni_net_ftp_client_send_cmd (cmd : option bytes) : M ftp_client bool :=
  match cmd with
  | Some s =>
      let! c := get in
      let! r := do_call (FreeRTOS_send c.(state).(socket_cmd) s) in
      ret (r =? i32 (len s))
  | None => ret false
  end.

(** [_uni_net_ftp_client_switch_to_passive] *)
Definition _uni_net_ftp_client_switch_to_passive : M ftp_client bool :=
  _uni_net_ftp_client_send_cmd (Some (B "PASV" ++ [CR; LF])).

(** [_uni_net_ftp_client_list_files] *)
Definition _uni_net_ftp_client_list_files : M ftp_client bool :=
  _uni_net_ftp_client_send_cmd (Some (B "LIST" ++ [CR; LF])).

(** [char data[64] = {}; snprintf(data, sizeof(data), "VERB %s\r\n", arg)]: the
    string in [data] afterwards. *)
Definition format_cmd (verb : bytes) (arg : bytes) : bytes :=
  (uni_hal_io_stdio_snprintf 64 [F_lit verb; F_s arg; F_lit [CR; LF]]).1.

(** [_uni_net_ftp_client_retr_file] *)
Definition _uni_net_ftp_client_retr_file (file : bytes) : M ftp_client bool :=
  _uni_net_ftp_client_send_cmd (Some (format_cmd (B "RETR ") file)).

(** [_uni_net_ftp_client_send_login] *)
Definition _uni_net_ftp_client_send_login : M ftp_client bool :=
  let! c := get in
  let! user := deref c.(config).(auth_user) in
  _uni_net_ftp_client_send_cmd (Some (format_cmd (B "USER ") user)).

(** [_uni_net_ftp_client_send_password] *)
Definition _uni_net_ftp_client_send_password : M ftp_client bool :=
  let! c := get in
  let! password := deref c.(config).(auth_password) in
  _uni_net_ftp_client_send_cmd (Some (format_cmd (B "PASS ") password)).

(** [if (ctx->state.socket_data != NULL) { FreeRTOS_closesocket(...); ... = NULL; }] *)
Definition close_data : M ftp_client unit :=
  let! c := get in
  if negb (c.(state).(socket_data) =? NULL) then
    do_call (FreeRTOS_closesocket c.(state).(socket_data)) ;;
    upd_state (fun st => st <| socket_data := NULL |>)
  else ret tt.

(** [_uni_net_ftp_client_set_to_idle] *)
Definition _uni_net_ftp_client_set_to_idle : M ftp_client unit :=
  close_data ;;
  modify (upd_task (fun t => t
    <| task_type := UNI_NET_FTP_CLIENT_TASK_TYPE_IDLE |>
    <| task_state := UNI_NET_FTP_CLIENT_TASK_STATE_FINISHED |>
    <| cookie_file := NULL |>
    <| progress := 0 |>
    <| progress_total := 0 |>
    <| task_name := clear_name t.(task_name) |>)).

(** ** Connection *)

(** The [Socket_t *] that [_uni_net_ftp_client_connect_socket] is given. *)
Inductive socket_field : Set := Cmd | Data.

Definition set_socket (f : socket_field) (s : ptr) : M ftp_client unit :=
  upd_state (fun st => match f with
                       | Cmd => st <| socket_cmd := s |>
                       | Data => st <| socket_data := s |>
                       end).

Definition ftp_window : WinProperties :=
  mk_WinProperties (4 * ipconfigTCP_MSS) 2 (20 * ipconfigTCP_MSS) 10.

(** [_uni_net_ftp_client_connect_socket] *)
Definition _uni_net_ftp_client_connect_socket (f : socket_field) (port : Z) : M ftp_client bool :=
  let! c := get in
  (if c.(state).(socket_set) =? NULL then
     let! set := do_call FreeRTOS_CreateSocketSet in
     upd_state (fun st => st <| socket_set := set |>)
   else ret tt) ;;
  let! s := do_call (FreeRTOS_socket FREERTOS_AF_INET FREERTOS_SOCK_STREAM FREERTOS_IPPROTO_TCP) in
  set_socket f s ;;
  if negb (s =? NULL) then
    let! c := get in
    when (negb (port =? c.(config).(server_port)))
      (let! _ := do_call (FreeRTOS_setsockopt s (FREERTOS_SO_WIN_PROPERTIES ftp_window)) in ret tt) ;;
    let addr := mk_sockaddr FREERTOS_AF_INET (uni_common_bytes_swap16 port) c.(config).(server_addr) in
    when (0 <? c.(config).(timeout_rx))
      (let! _ := do_call (FreeRTOS_setsockopt s (FREERTOS_SO_RCVTIMEO (pdMS_TO_TICKS c.(config).(timeout_rx)))) in ret tt) ;;
    when (0 <? c.(config).(timeout_tx))
      (let! _ := do_call (FreeRTOS_setsockopt s (FREERTOS_SO_SNDTIMEO (pdMS_TO_TICKS c.(config).(timeout_tx)))) in ret tt) ;;
    let! connect_result := do_call (FreeRTOS_connect s addr) in
    if connect_result =? 0 then
      let! c := get in
      do_call (FreeRTOS_FD_SET s c.(state).(socket_set) eSELECT_READ) ;;
      ret true
    else ret false
  else ret false.

(** [if (ctx->state.socket_cmd != NULL) { FreeRTOS_closesocket(...); ... = NULL; }] *)
Definition close_cmd : M ftp_client unit :=
  let! c := get in
  if negb (c.(state).(socket_cmd) =? NULL) then
    do_call (FreeRTOS_closesocket c.(state).(socket_cmd)) ;;
    upd_state (fun st => st <| socket_cmd := NULL |>)
  else ret tt.

(** [_uni_net_ftp_client_disconnect] *)
Definition _uni_net_ftp_client_disconnect (call_cb : bool) (reason : Z) : M ftp_client unit :=
  close_data ;;
  close_cmd ;;
  let! c := get in
  (if negb (c.(state).(socket_set) =? NULL) then
     do_call (FreeRTOS_DeleteSocketSet c.(state).(socket_set)) ;;
     upd_state (fun st => st <| socket_set := NULL |>)
   else ret tt) ;;
  when call_cb (call_callback UNI_NET_FTP_CLIENT_CALLBACK_DISCONNECT None reason) ;;
  set_type UNI_NET_FTP_CLIENT_TASK_TYPE_TERMINATION.

(** ** Handlers *)

(** [_uni_net_ftp_client_handler_150] *)
Definition _uni_net_ftp_client_handler_150 (str : option bytes) : M ftp_client unit :=
  match str with
  | Some s =>
      match strchr s "("%char with
      | Some s' => modify (upd_task (fun t => t <| progress_total := u32 (strtol (drop 1 s')).1 |>))
      | None => modify (upd_task (fun t => t <| progress_total := 1 |>))
      end
  | None => _uni_net_ftp_client_set_to_idle
  end.

(** [_uni_net_ftp_client_handler_20x] *)
Definition _uni_net_ftp_client_handler_20x (str : option bytes) : M ftp_client unit :=
  set_state UNI_NET_FTP_CLIENT_TASK_STATE_FINISHED.

(** [_uni_net_ftp_client_handler_220] *)
Definition _uni_net_ftp_client_handler_220 (str : option bytes) : M ftp_client unit :=
  let! c := get in
  when (c.(state).(task).(task_type) =? UNI_NET_FTP_CLIENT_TASK_TYPE_STARTUP)
    (modify (upd_task (fun t => t
       <| task_state := UNI_NET_FTP_CLIENT_TASK_STATE_NOT_STARTED |>
       <| progress := 0 |>))).

(** [_uni_net_ftp_client_handler_226] *)
Definition _uni_net_ftp_client_handler_226 (str : option bytes) : M ftp_client unit := ret tt.

(** The loop of [_uni_net_ftp_client_handler_227] over [int data[6]]: [None] when
    [parse_ok] becomes false. *)
Fixpoint parse_passive (i : nat) (p : bytes) : option (list Z) :=
  match i with
  | O => Some []
  | S i' =>
      let '(v, endp) := strtol p in
      if bool_decide (length endp = length p) then None
      else
        p' ← (if decide (0 < i')%nat then
                match endp with
                | c :: p' => if beqb c ","%char then Some p' else None
                | [] => None
                end
              else Some endp);
        cons (i32 v) <$> parse_passive i' p'
  end.

(** [uint16_t port = (data[4] << 8) + data[5]] on [int]s; [None] for a shift or a
    sum that is not defined. *)
Definition passive_port (d4 d5 : Z) : option Z :=
  if (0 <=? d4) && (d4 * 2 ^ 8 <? 2 ^ 31) && (d4 * 2 ^ 8 + d5 <? 2 ^ 31)
  then Some (u16 (d4 * 2 ^ 8 + d5)) else None.

(** [_uni_net_ftp_client_handler_227] *)
Definition _uni_net_ftp_client_handler_227 (str : option bytes) : M ftp_client unit :=
  let! result :=
    match str with
    | Some s =>
        let! result :=
          match strchr s "("%char with
          | Some s' =>
              match parse_passive 6 (drop 1 s') with
              | Some [_; _; _; _; d4; d5] =>
                  match passive_port d4 d5 with
                  | Some port => _uni_net_ftp_client_connect_socket Data port
                  | None => halt Overflow
                  end
              | _ => ret false
              end
          | None => ret false
          end in
        set_state UNI_NET_FTP_CLIENT_TASK_STATE_STARTED ;;
        ret result
    | None => ret false
    end in
  when (negb result) (set_type UNI_NET_FTP_CLIENT_TASK_TYPE_TERMINATION).

(** [_uni_net_ftp_client_handler_230] *)
Definition _uni_net_ftp_client_handler_230 (str : option bytes) : M ftp_client unit :=
  set_state UNI_NET_FTP_CLIENT_TASK_STATE_FINISHED.

(** [_uni_net_ftp_client_handler_257] *)
Definition _uni_net_ftp_client_handler_257 (str : option bytes) : M ftp_client unit :=
  set_state UNI_NET_FTP_CLIENT_TASK_STATE_FINISHED.

(** [_uni_net_ftp_client_handler_331] *)
Definition _uni_net_ftp_client_handler_331 (str : option bytes) : M ftp_client unit :=
  let! _ := _uni_net_ftp_client_send_password in ret tt.

(** [_uni_net_ftp_client_handler_error] *)
Definition _uni_net_ftp_client_handler_error (str : option bytes) : M ftp_client unit :=
  _uni_net_ftp_client_disconnect true UNI_NET_FTP_CLIENT_DISCONNECT_REASON_RESPONSE_ERR.

(** [_uni_net_ftp_client_handler_530] *)
Definition _uni_net_ftp_client_handler_530 (str : option bytes) : M ftp_client unit :=
  let! _ := _uni_net_ftp_client_send_login in ret tt.

(** [_uni_net_ftp_client_handler_550] *)
Definition _uni_net_ftp_client_handler_550 (str : option bytes) : M ftp_client unit :=
  set_state UNI_NET_FTP_CLIENT_TASK_STATE_FAILED.

(** ** Replies on the command connection *)

(** [uni_net_ftp_code_e] *)
Definition UNI_NET_FTP_CODE_150_OPENING_DATA_CONN := 150.
Definition UNI_NET_FTP_CODE_200_OK := 200.
Definition UNI_NET_FTP_CODE_202_NO_MEANING := 202.
Definition UNI_NET_FTP_CODE_220_SERVICE_READY := 220.
Definition UNI_NET_FTP_CODE_226_TRANSFER_COMPLETE := 226.
Definition UNI_NET_FTP_CODE_227_ENTERING_PASSIVE_MODE := 227.
Definition UNI_NET_FTP_CODE_230_LOGIN_OK := 230.
Definition UNI_NET_FTP_CODE_257_PATHNAME := 257.
Definition UNI_NET_FTP_CODE_331_PASSWORD_REQUIRED := 331.
Definition UNI_NET_FTP_CODE_421_SERVICE_NOT_AVAILABLE := 421.
Definition UNI_NET_FTP_CODE_425_FAILED_TO_OPEN_CONN := 425.
Definition UNI_NET_FTP_CODE_426_ERROR_WRITING_NETWORK_STREAM := 426.
Definition UNI_NET_FTP_CODE_451_SOCKET_ERROR := 451.
Definition UNI_NET_FTP_CODE_500_SERVICE_ERROR := 500.
Definition UNI_NET_FTP_CODE_501_NEED_PARAMETER := 501.
Definition UNI_NET_FTP_CODE_530_NOT_LOGGED_IN := 530.
Definition UNI_NET_FTP_CODE_550_FILE_UNAVAILABLE := 550.

(** A handler gets the text of a reply behind its code. *)
Definition uni_net_ftp_client_cmd_handler_t : Type := option bytes -> M ftp_client unit.

(** The code and the handler of a row. *)
Definition uni_net_ftp_client_cmd_map_t : Type := Z * uni_net_ftp_client_cmd_handler_t.

(** [_uni_net_ftp_client_cmd_map] *)
Definition _uni_net_ftp_client_cmd_map : list uni_net_ftp_client_cmd_map_t :=
  [ (UNI_NET_FTP_CODE_150_OPENING_DATA_CONN, _uni_net_ftp_client_handler_150);
    (UNI_NET_FTP_CODE_200_OK, _uni_net_ftp_client_handler_20x);
    (UNI_NET_FTP_CODE_202_NO_MEANING, _uni_net_ftp_client_handler_20x);
    (UNI_NET_FTP_CODE_220_SERVICE_READY, _uni_net_ftp_client_handler_220);
    (UNI_NET_FTP_CODE_226_TRANSFER_COMPLETE, _uni_net_ftp_client_handler_226);
    (UNI_NET_FTP_CODE_227_ENTERING_PASSIVE_MODE, _uni_net_ftp_client_handler_227);
    (UNI_NET_FTP_CODE_230_LOGIN_OK, _uni_net_ftp_client_handler_230);
    (UNI_NET_FTP_CODE_257_PATHNAME, _uni_net_ftp_client_handler_257);
    (UNI_NET_FTP_CODE_331_PASSWORD_REQUIRED, _uni_net_ftp_client_handler_331);
    (UNI_NET_FTP_CODE_421_SERVICE_NOT_AVAILABLE, _uni_net_ftp_client_handler_error);
    (UNI_NET_FTP_CODE_425_FAILED_TO_OPEN_CONN, _uni_net_ftp_client_handler_error);
    (UNI_NET_FTP_CODE_426_ERROR_WRITING_NETWORK_STREAM, _uni_net_ftp_client_handler_error);
    (UNI_NET_FTP_CODE_451_SOCKET_ERROR, _uni_net_ftp_client_handler_error);
    (UNI_NET_FTP_CODE_500_SERVICE_ERROR, _uni_net_ftp_client_handler_error);
    (UNI_NET_FTP_CODE_501_NEED_PARAMETER, _uni_net_ftp_client_handler_error);
    (UNI_NET_FTP_CODE_530_NOT_LOGGED_IN, _uni_net_ftp_client_handler_530);
    (UNI_NET_FTP_CODE_550_FILE_UNAVAILABLE, _uni_net_ftp_client_handler_550) ].

Fixpoint find_handler (map : list uni_net_ftp_client_cmd_map_t) (code : Z) : option uni_net_ftp_client_cmd_handler_t :=
  match map with
  | [] => None
  | (k, h) :: map' => if k =? code then Some h else find_handler map' code
  end.

(** [_uni_net_ftp_client_work_cmd_single] on the string [buf] *)
Definition _uni_net_ftp_client_work_cmd_single (buf : bytes) : M ftp_client unit :=
  if (len buf <? 4)
     || match buf !! 3%nat with Some c => negb (beqb c SP) && negb (beqb c "-"%char) | None => true end
  then
    do_call (uni_hal_io_stdio_printf
      [F_lit (B "_uni_net_ftp_client_work_cmd() -> unknown data: "); F_s buf; F_lit [CR; LF]]) ;;
    _uni_net_ftp_client_disconnect true UNI_NET_FTP_CLIENT_DISCONNECT_REASON_WRONG_DATA
  else
    let code := atoi (take 3 buf) in
    let payload := drop 4 buf in
    match find_handler _uni_net_ftp_client_cmd_map code with
    | Some handler => handler (Some payload)
    | None =>
        do_call (uni_hal_io_stdio_printf
          [F_lit (B "_uni_net_ftp_client_work_cmd() -> unknown cmd: "); F_d code; F_lit [CR; LF]]) ;;
        _uni_net_ftp_client_disconnect true UNI_NET_FTP_CLIENT_DISCONNECT_REASON_WRONG_CMD
    end.

(** The loop over the lines of the string [line]. *)
Fixpoint lines_loop (fuel : nat) (line : bytes) : M ftp_client unit :=
  match fuel with
  | O => halt OutOfFuel
  | S fuel' =>
      let '(cur, next_line) := match split_crlf line with
                               | Some (a, b) => (a, Some b)
                               | None => (line, None)
                               end in
      when (negb (bool_decide (cur = []))) (_uni_net_ftp_client_work_cmd_single cur) ;;
      let! c := get in
      if c.(state).(task).(task_type) =? UNI_NET_FTP_CLIENT_TASK_TYPE_TERMINATION then ret tt
      else match next_line with
           | Some l => lines_loop fuel' l
           | None => ret tt
           end
  end.

(** [_uni_net_ftp_client_work_cmd] *)
Definition _uni_net_ftp_client_work_cmd : M ftp_client unit :=
  let! c := get in
  let! byte_count := do_call (FreeRTOS_recvcount c.(state).(socket_cmd)) in
  if 0 <? byte_count then
    let! buf := do_call (pvPortCalloc (size_t (byte_count + 1)) 1) in
    if buf =? NULL then
      _uni_net_ftp_client_disconnect true UNI_NET_FTP_CLIENT_DISCONNECT_REASON_MEMORY_ALLOC
    else
      let! '(byte_rcv, data) := do_call (FreeRTOS_recv c.(state).(socket_cmd) byte_count) in
      (if 0 <? byte_rcv then
         let! mem := deref (write_at (replicate (Z.to_nat (byte_count + 1)) NUL) 0 data) in
         let! line := deref (cstr mem) in
         lines_loop (S (length line)) line
       else ret tt) ;;
      do_call (vPortFree buf) ;;
      when (byte_rcv <=? 0)
        (_uni_net_ftp_client_disconnect true UNI_NET_FTP_CLIENT_DISCONNECT_REASON_NO_BYTES)
  else ret tt.

(** ** The data connection *)

(** The body of the loop of [_uni_net_ftp_client_work_data]: the value of [cnt]. *)
Definition data_chunk : M ftp_client Z :=
  let! c := get in
  let! '(cnt, (buf, bs)) := do_call (FreeRTOS_recv_zero_copy c.(state).(socket_data) ipconfigTCP_MSS
                                       (Z.lor FREERTOS_ZERO_COPY FREERTOS_MSG_DONTWAIT)) in
  let cnt := i32 cnt in
  when ((0 <? cnt) && negb (buf =? NULL))
    (when (c.(state).(task).(task_state) =? UNI_NET_FTP_CLIENT_TASK_STATE_STARTED)
       (set_state UNI_NET_FTP_CLIENT_TASK_STATE_IN_PROGRESS) ;;
     call_callback UNI_NET_FTP_CLIENT_CALLBACK_RECV (Some (take (Z.to_nat cnt) bs)) cnt ;;
     modify (upd_task (fun t => t <| progress := u32 (t.(progress) + cnt) |>)) ;;
     let! c := get in
     do_call (FreeRTOS_ReleaseTCPPayloadBuffer c.(state).(socket_data) buf cnt)) ;;
  ret cnt.

(** [do { ... } while (cnt > 0 && progress < progress_total)] *)
Fixpoint data_loop (fuel : nat) : M ftp_client unit :=
  match fuel with
  | O => halt OutOfFuel
  | S fuel' =>
      let! cnt := data_chunk in
      let! c := get in
      if (0 <? cnt) && (c.(state).(task).(progress) <? c.(state).(task).(progress_total))
      then data_loop fuel' else ret tt
  end.

(** [_uni_net_ftp_client_work_data] *)
Definition _uni_net_ftp_client_work_data (fuel : nat) : M ftp_client unit :=
  let! c := get in
  let ty := c.(state).(task).(task_type) in
  if (ty =? UNI_NET_FTP_CLIENT_TASK_TYPE_LIST) || (ty =? UNI_NET_FTP_CLIENT_TASK_TYPE_RETR)
  then data_loop fuel else ret tt.

(** ** The task's state machine *)

(** [_uni_net_ftp_client_work_state_startup] *)
Definition _uni_net_ftp_client_work_state_startup : M ftp_client unit :=
  let! c := get in
  when (c.(state).(task).(task_state) =? UNI_NET_FTP_CLIENT_TASK_STATE_FINISHED)
    (modify (upd_task (fun t => t
       <| progress := u32 (t.(progress) + 1) |>
       <| task_state := UNI_NET_FTP_CLIENT_TASK_STATE_NOT_STARTED |>))) ;;
  let! c := get in
  when (_uni_net_ftp_client_startup_cmds_cnt <=? c.(state).(task).(progress))
    (modify (upd_task (fun t => t
       <| task_type := UNI_NET_FTP_CLIENT_TASK_TYPE_IDLE |>
       <| task_state := UNI_NET_FTP_CLIENT_TASK_STATE_FINISHED |>))) ;;
  let! c := get in
  when (c.(state).(task).(task_state) =? UNI_NET_FTP_CLIENT_TASK_STATE_NOT_STARTED)
    (set_state UNI_NET_FTP_CLIENT_TASK_STATE_IN_PROGRESS ;;
     let! cmd := deref (_uni_net_ftp_client_startup_cmds !! Z.to_nat c.(state).(task).(progress)) in
     let! _ := _uni_net_ftp_client_send_cmd (Some cmd) in ret tt).

(** [_uni_net_ftp_client_work_state_data] *)
Definition _uni_net_ftp_client_work_state_data : M ftp_client unit :=
  let! c := get in
  let t := c.(state).(task) in
  if t.(task_state) =? UNI_NET_FTP_CLIENT_TASK_STATE_NOT_STARTED then
    set_state UNI_NET_FTP_CLIENT_TASK_STATE_SWITCH_TO_PASV ;;
    let! _ := _uni_net_ftp_client_switch_to_passive in ret tt
  else if t.(task_state) =? UNI_NET_FTP_CLIENT_TASK_STATE_STARTED then
    if t.(task_type) =? UNI_NET_FTP_CLIENT_TASK_TYPE_RETR then
      set_state UNI_NET_FTP_CLIENT_TASK_STATE_REQUESTED ;;
      let! file := deref (cstr t.(task_name)) in
      let! _ := _uni_net_ftp_client_retr_file file in ret tt
    else if t.(task_type) =? UNI_NET_FTP_CLIENT_TASK_TYPE_LIST then
      set_state UNI_NET_FTP_CLIENT_TASK_STATE_REQUESTED ;;
      let! _ := _uni_net_ftp_client_list_files in ret tt
    else _uni_net_ftp_client_set_to_idle
  else if t.(task_state) =? UNI_NET_FTP_CLIENT_TASK_STATE_IN_PROGRESS then
    when (t.(progress_total) <=? t.(progress))
      (call_callback UNI_NET_FTP_CLIENT_CALLBACK_RECV_FINISHED None 0 ;;
       _uni_net_ftp_client_set_to_idle)
  else if t.(task_state) =? UNI_NET_FTP_CLIENT_TASK_STATE_FAILED then
    call_callback UNI_NET_FTP_CLIENT_CALLBACK_RECV_FAILED None 0 ;;
    _uni_net_ftp_client_set_to_idle
  else ret tt.

(** [_uni_net_ftp_client_work_state] *)
Definition _uni_net_ftp_client_work_state : M ftp_client unit :=
  let! c := get in
  let ty := c.(state).(task).(task_type) in
  if ty =? UNI_NET_FTP_CLIENT_TASK_TYPE_STARTUP then _uni_net_ftp_client_work_state_startup
  else if (ty =? UNI_NET_FTP_CLIENT_TASK_TYPE_RETR) || (ty =? UNI_NET_FTP_CLIENT_TASK_TYPE_LIST)
  then _uni_net_ftp_client_work_state_data
  else ret tt.

(** ** The task *)

(** One iteration of the loop of [_uni_net_ftp_client_thread]: the reason of a
    [break], or [None].  The application gets its turn while the task waits. *)
Definition thread_turn (fuel : nat) : M ftp_client (option Z) :=
  let! c := get in
  let! connected :=
    if c.(state).(socket_cmd) =? NULL
    then _uni_net_ftp_client_connect_socket Cmd c.(config).(server_port)
    else ret true in
  if negb connected then ret (Some UNI_NET_FTP_CLIENT_DISCONNECT_REASON_CONNECT)
  else
    let! c := get in
    let! select_result := do_call (FreeRTOS_select c.(state).(socket_set) (pdMS_TO_TICKS UNI_NET_FTP_CLIENT_WAIT_MS)) in
    let! rs := do_call ftp_requests in
    requests rs ;;
    let! c := get in
    let! brk :=
      if negb (select_result =? 0) then
        let! isset := do_call (FreeRTOS_FD_ISSET c.(state).(socket_cmd) c.(state).(socket_set)) in
        when (negb (isset =? 0)) _uni_net_ftp_client_work_cmd ;;
        let! c := get in
        when (negb (c.(state).(socket_data) =? NULL))
          (let! isset := do_call (FreeRTOS_FD_ISSET c.(state).(socket_data) c.(state).(socket_set)) in
           when (negb (isset =? 0)) (_uni_net_ftp_client_work_data fuel)) ;;
        ret None
      else
        let! up := do_call FreeRTOS_IsNetworkUp in
        if up =? 0 then ret (Some UNI_NET_FTP_CLIENT_DISCONNECT_REASON_NETWORK)
        else
          let! conn := do_call (FreeRTOS_issocketconnected c.(state).(socket_cmd)) in
          if negb (conn =? pdTRUE) then ret (Some UNI_NET_FTP_CLIENT_DISCONNECT_REASON_SOCKET)
          else ret None in
    match brk with
    | Some reason => ret (Some reason)
    | None => _uni_net_ftp_client_work_state ;; ret None
    end.

(** The [while] loop: the value of [disconnect_reason] at its end. *)
Fixpoint thread_loop (fuel n : nat) : M ftp_client Z :=
  let! c := get in
  if c.(state).(task).(task_type) =? UNI_NET_FTP_CLIENT_TASK_TYPE_TERMINATION
  then ret UNI_NET_FTP_CLIENT_DISCONNECT_REASON_TERMINATION
  else
    match n with
    | O => halt OutOfFuel
    | S n' =>
        let! brk := thread_turn fuel in
        match brk with
        | Some reason => ret reason
        | None => thread_loop fuel n'
        end
    end.

(** [_uni_net_ftp_client_thread] *)
Definition _uni_net_ftp_client_thread (fuel n : nat) : M ftp_client unit :=
  _uni_net_ftp_client_disconnect false UNI_NET_FTP_CLIENT_DISCONNECT_REASON_UNKNOWN ;;
  modify (upd_task (fun t => t
    <| task_type := UNI_NET_FTP_CLIENT_TASK_TYPE_STARTUP |>
    <| task_state := UNI_NET_FTP_CLIENT_TASK_STATE_IN_PROGRESS |>
    <| progress := 0 |>)) ;;
  let! disconnect_reason := thread_loop fuel n in
  _uni_net_ftp_client_disconnect true disconnect_reason ;;
  upd_state (fun st => st <| thread := NULL |>) ;;
  do_call vTaskDelete.

(** [uni_net_ftp_client_connect] *)
Definition uni_net_ftp_client_connect (addr port : Z) : M (option ftp_client) bool :=
  with_ctx false
    (when (negb (addr =? 0)) (modify (fun c => c <| config ::= fun g => g <| server_addr := addr |> |>)) ;;
     when (negb (port =? 0)) (modify (fun c => c <| config ::= fun g => g <| server_port := port |> |>)) ;;
     let! '(rc, h) := do_call (xTaskCreate "UNI_NET_FTP_CLIENT" (configMINIMAL_STACK_SIZE * 4) 1) in
     when (rc =? pdTRUE) (upd_state (fun st => st <| thread := h |>)) ;;
     ret (rc =? pdTRUE)).

End FtpClient.
