(* ===== verification/FtpTask.v ===== *)
(** * The FTP client task as a state machine

    [task_step] is the abstract machine of [ctx->state.task]: one rule for each
    reply, each request of the application and each action of the task.  Every
    function of the client is shown to move the task along this machine, to keep
    the context well formed and to do nothing undefined; the theorems about the
    whole task follow. *)

From S2P Require Import Prelude Env Prog Trace CString FtpClient.
#[local] Open Scope prog_scope.

(** ** The abstract machine *)

Definition idle_task (t : ftp_task) : ftp_task := t
  <| task_type := UNI_NET_FTP_CLIENT_TASK_TYPE_IDLE |>
  <| task_state := UNI_NET_FTP_CLIENT_TASK_STATE_FINISHED |>
  <| cookie_file := NULL |> <| progress := 0 |> <| progress_total := 0 |>
  <| task_name := clear_name t.(task_name) |>.

Definition transferring (t : ftp_task) : Prop :=
  t.(task_type) = UNI_NET_FTP_CLIENT_TASK_TYPE_RETR \/ t.(task_type) = UNI_NET_FTP_CLIENT_TASK_TYPE_LIST.

(** A client that is transferring, or was told to stop in the middle of it. *)
Definition busy (t : ftp_task) : Prop :=
  transferring t \/ t.(task_type) = UNI_NET_FTP_CLIENT_TASK_TYPE_TERMINATION.

Inductive task_step : ftp_task -> ftp_task -> Prop :=
| step_terminate t :
    task_step t (t <| task_type := UNI_NET_FTP_CLIENT_TASK_TYPE_TERMINATION |>)
| step_reply_state t st :
    st ∈ [UNI_NET_FTP_CLIENT_TASK_STATE_FINISHED; UNI_NET_FTP_CLIENT_TASK_STATE_STARTED;
          UNI_NET_FTP_CLIENT_TASK_STATE_FAILED] ->
    task_step t (t <| task_state := st |>)
| step_service_ready t :
    t.(task_type) = UNI_NET_FTP_CLIENT_TASK_TYPE_STARTUP ->
    task_step t (t <| task_state := UNI_NET_FTP_CLIENT_TASK_STATE_NOT_STARTED |> <| progress := 0 |>)
| step_size t n :
    0 <= n < 2 ^ 32 -> task_step t (t <| progress_total := n |>)
| step_first_command t :
    t.(task_type) = UNI_NET_FTP_CLIENT_TASK_TYPE_STARTUP ->
    t.(task_state) = UNI_NET_FTP_CLIENT_TASK_STATE_NOT_STARTED ->
    task_step t (t <| task_state := UNI_NET_FTP_CLIENT_TASK_STATE_IN_PROGRESS |>)
| step_next_command t :
    t.(task_type) = UNI_NET_FTP_CLIENT_TASK_TYPE_STARTUP ->
    t.(task_state) = UNI_NET_FTP_CLIENT_TASK_STATE_FINISHED ->
    t.(progress) + 1 < _uni_net_ftp_client_startup_cmds_cnt ->
    task_step t (t <| task_state := UNI_NET_FTP_CLIENT_TASK_STATE_IN_PROGRESS |>
                   <| progress := t.(progress) + 1 |>)
| step_started t :
    t.(task_type) = UNI_NET_FTP_CLIENT_TASK_TYPE_STARTUP ->
    t.(task_state) = UNI_NET_FTP_CLIENT_TASK_STATE_FINISHED ->
    t.(progress) + 1 = _uni_net_ftp_client_startup_cmds_cnt ->
    task_step t (t <| task_type := UNI_NET_FTP_CLIENT_TASK_TYPE_IDLE |>
                   <| progress := _uni_net_ftp_client_startup_cmds_cnt |>)
| step_request t ty ck total name :
    t.(task_type) = UNI_NET_FTP_CLIENT_TASK_TYPE_IDLE ->
    ty = UNI_NET_FTP_CLIENT_TASK_TYPE_RETR \/ ty = UNI_NET_FTP_CLIENT_TASK_TYPE_LIST ->
    0 <= total < 2 ^ 32 ->
    task_step t (mk_ftp_task ty UNI_NET_FTP_CLIENT_TASK_STATE_NOT_STARTED ck 0 total name)
| step_passive t :
    transferring t -> t.(task_state) = UNI_NET_FTP_CLIENT_TASK_STATE_NOT_STARTED ->
    task_step t (t <| task_state := UNI_NET_FTP_CLIENT_TASK_STATE_SWITCH_TO_PASV |>)
| step_requested t :
    transferring t -> t.(task_state) = UNI_NET_FTP_CLIENT_TASK_STATE_STARTED ->
    task_step t (t <| task_state := UNI_NET_FTP_CLIENT_TASK_STATE_REQUESTED |>)
| step_first_data t :
    busy t -> t.(task_state) = UNI_NET_FTP_CLIENT_TASK_STATE_STARTED ->
    task_step t (t <| task_state := UNI_NET_FTP_CLIENT_TASK_STATE_IN_PROGRESS |>)
| step_chunk t n :
    0 < n -> busy t ->
    task_step t (t <| progress := u32 (t.(progress) + n) |>)
| step_finished t :
    transferring t -> t.(task_state) = UNI_NET_FTP_CLIENT_TASK_STATE_IN_PROGRESS ->
    t.(progress_total) <= t.(progress) -> task_step t (idle_task t)
| step_failed t :
    transferring t -> t.(task_state) = UNI_NET_FTP_CLIENT_TASK_STATE_FAILED ->
    task_step t (idle_task t).

(** What holds of the task at any time; the startup commands are indexed by
    [progress]. *)
Definition task_inv (t : ftp_task) : Prop :=
  (t.(task_type) = UNI_NET_FTP_CLIENT_TASK_TYPE_STARTUP ->
     t.(progress) < _uni_net_ftp_client_startup_cmds_cnt)
  /\ 0 <= t.(progress) < 2 ^ 32 /\ 0 <= t.(progress_total) < 2 ^ 32.

Lemma task_step_inv t t' : task_step t t' -> task_inv t -> task_inv t'.
Proof.
  unfold task_inv. change _uni_net_ftp_client_startup_cmds_cnt with 3.
  intros Hs (Hi & Hp & Ht). destruct Hs as
    [t|t st Hst|t Hty|t n Hn|t Hty Hst|t Hty Hst Hc|t Hty Hst Hc|t ty ck total name Hty [-> | ->] Hn
    |t Htr Hst|t Htr Hst|t Htr Hst|t n Hn Htr|t Htr Hst Hc|t Htr Hst]; cbn;
    try (split_and!; first [done|lia|by auto]).
  pose proof (u32_range (progress t + n)). split_and!; try lia.
  intros Hty. unfold busy, transferring in Htr. rewrite Hty in Htr. by destruct Htr as [[|]|].
Qed.

Lemma task_steps_inv t t' : rtc task_step t t' -> task_inv t -> task_inv t'.
Proof. induction 1; eauto using task_step_inv. Qed.

(** A client that is told to terminate does not take up work again. *)
Lemma task_terminated t t' :
  rtc task_step t t' -> t.(task_type) = UNI_NET_FTP_CLIENT_TASK_TYPE_TERMINATION ->
  t'.(task_type) = UNI_NET_FTP_CLIENT_TASK_TYPE_TERMINATION.
Proof.
  induction 1 as [|t t1 t2 Hs _ IH]; [done|]. intros Hty. apply IH. unfold transferring in *.
  destruct Hs; cbn; unfold transferring in *;
    first [done|match goal with H : _ |- _ => rewrite Hty in H; by intuition done end].
Qed.

(** ** Well-formed contexts *)

Definition name_ok (n : bytes) : Prop := length n = sizeof_name /\ n !! 31%nat = Some NUL.

Definition ctx_ok (c : ftp_client) : Prop :=
  name_ok c.(state).(task).(task_name)
  /\ is_Some c.(config).(auth_user) /\ is_Some c.(config).(auth_password)
  /\ task_inv c.(state).(task).

(** What the stack promises: no more bytes than there is room for, a count in the
    range of [BaseType_t], and a buffer behind a positive count. *)
Definition ftp_ok : contract := fun t c =>
  match c return resp c -> Prop with
  | FreeRTOS_recv _ n => fun r => 0 <= n -> len r.2 <= n
  | FreeRTOS_recv_zero_copy _ n _ => fun r =>
      (0 <= n -> - 2 ^ 31 <= r.1 <= n) /\ (0 < r.1 -> r.2.1 <> NULL /\ len r.2.2 = r.1)
  | _ => fun _ => True
  end.

Definition moves (c c' : ftp_client) : Prop :=
  c'.(config) = c.(config) /\ rtc task_step c.(state).(task) c'.(state).(task) /\ ctx_ok c'.

Lemma moves_trans c1 c2 c3 : moves c1 c2 -> moves c2 c3 -> moves c1 c3.
Proof. intros (? & ? & ?) (? & ? & ?). split_and!; [congruence|by etrans|done]. Qed.

Lemma moves_refl c : ctx_ok c -> moves c c.
Proof. intros Hok. split_and!; [done|apply rtc_refl|done]. Qed.

(** [m] started at [c] does nothing undefined but for a signed overflow. *)
Definition safe_at {A} (c : ftp_client) (m : M ftp_client A) : Prop :=
  forall t, ctx_ok c -> wp_gen (fun e => e <> UB) ftp_ok (m c) (fun '(_, c') _ => moves c c') t.

Lemma safe_bind {A B} c (m : M ftp_client A) (f : A -> M ftp_client B) :
  safe_at c m -> (forall a c', moves c c' -> safe_at c' (f a)) -> safe_at c (bindM m f).
Proof.
  intros Hm Hf t Hok. eapply wp_seq; [by apply Hm|]. intros [a c'] t' Hmv. cbn.
  eapply wp_mono; [apply Hf; [done|apply Hmv]|]. intros [b c''] t'' Hmv'. by eapply moves_trans.
Qed.

Lemma safe_get {B} c (f : ftp_client -> M ftp_client B) : safe_at c (f c) -> safe_at c (bindM get f).
Proof. done. Qed.

Lemma safe_ret {A} c (a : A) : safe_at c (ret a).
Proof. intros t Hok. by apply moves_refl. Qed.

Lemma safe_call c (k : call) : safe_at c (do_call k).
Proof. intros t Hok r _. by apply moves_refl. Qed.

Lemma safe_when c b m : (b = true -> safe_at c m) -> safe_at c (when b m).
Proof. destruct b; [auto|]. intros _. apply safe_ret. Qed.

Lemma safe_if {A} c (b : bool) (m1 m2 : M ftp_client A) :
  (b = true -> safe_at c m1) -> (b = false -> safe_at c m2) -> safe_at c (if b then m1 else m2).
Proof. destruct b; auto. Qed.

Lemma safe_deref {A} c (o : option A) : is_Some o -> safe_at c (deref o).
Proof. intros [a ->] t Hok. by apply moves_refl. Qed.

Lemma safe_modify c f :
  (ctx_ok c -> moves c (f c)) -> safe_at c (modify f).
Proof. intros Hf t Hok. by apply Hf. Qed.

Lemma safe_deref_bind {A B} c (o : option A) (f : A -> M ftp_client B) :
  is_Some o -> (forall a, o = Some a -> safe_at c (f a)) -> safe_at c (bindM (deref o) f).
Proof. intros [a ->] Hf t Hok. cbn. by apply Hf. Qed.

(** A change of the task that is a step of the machine and keeps a good name. *)
Lemma moves_task c c' :
  task_step c.(state).(task) c'.(state).(task) ->
  (name_ok c.(state).(task).(task_name) -> name_ok c'.(state).(task).(task_name)) ->
  c'.(config) = c.(config) -> ctx_ok c -> moves c c'.
Proof.
  intros Hs Hn Hc (? & ? & ? & Hi). split_and!; [done|by apply rtc_once|].
  unfold ctx_ok. rewrite Hc. split_and!; auto. by eapply task_step_inv.
Qed.

(** A change of the state that leaves the task. *)
Lemma moves_state c c' :
  c'.(config) = c.(config) -> c'.(state).(task) = c.(state).(task) -> ctx_ok c -> moves c c'.
Proof.
  intros Hc Ht Hok. unfold moves, ctx_ok. rewrite Hc, Ht. split; [done|].
  split; [apply rtc_refl|exact Hok].
Qed.

Lemma clear_name_ok n : name_ok n -> name_ok (clear_name n).
Proof. intros [Hl Hn]. unfold clear_name. split; [by rewrite length_insert|]. by rewrite list_lookup_insert_ne. Qed.

Lemma name_ok_cstr n : name_ok n -> is_Some (cstr n).
Proof. intros [_ Hn]. apply cstr_is_Some. by eapply list_elem_of_lookup_2. Qed.

Lemma strncpy_name n s : name_ok n -> exists n', strncpy n s (sizeof_name - 1) = Some n' /\ name_ok n'.
Proof.
  intros [Hl Hn]. unfold strncpy, write_at. unfold sizeof_name in *. rewrite length_app, length_replicate, length_take.
  rewrite decide_True by lia. eexists. split; [done|]. split.
  - rewrite !length_app, length_replicate, length_drop, !length_take. unfold sizeof_name. lia.
  - rewrite app_nil_l. rewrite lookup_app_r; rewrite length_app, length_replicate, length_take; [|lia].
    rewrite lookup_drop. rewrite <- Hn. f_equal. lia.
Qed.

Create HintDb ftp.
#[export] Hint Resolve clear_name_ok : ftp.

(** ** Requests of the application *)

(** What a request leaves alone. *)
Definition same_handles (c c' : ftp_client) : Prop :=
  c'.(config) = c.(config) /\ c'.(state).(thread) = c.(state).(thread)
  /\ c'.(state).(socket_set) = c.(state).(socket_set) /\ c'.(state).(socket_cmd) = c.(state).(socket_cmd)
  /\ c'.(state).(socket_data) = c.(state).(socket_data).

#[export] Instance same_handles_preorder : PreOrder same_handles.
Proof. unfold same_handles. split; [intros ?; by split_and!|]. intros ??? (?&?&?&?&?) (?&?&?&?&?). split_and!; congruence. Qed.

Lemma request_ok r c : ctx_ok c -> exists c', request r (Some c) = Some (Some c') /\ moves c c' /\ same_handles c c'.
Proof.
  intros Hok. destruct r as [filename ck size| | |cb ck]; cbn.
  - unfold uni_net_ftp_client_download. case_match eqn:Hidle; [|by exists c; split_and!; [done|apply moves_refl|..]].
    destruct (strncpy_name c.(state).(task).(task_name) filename) as (n' & -> & Hn'); [apply Hok|]. cbn.
    eexists. split_and!; [done| |by split_and!..].
    apply andb_true_iff in Hidle as [_ Hty%Z.eqb_eq]. apply moves_task; cbn; [|done..].
    apply step_request; [done|by left|apply u32_range].
  - unfold uni_net_ftp_client_list. case_match eqn:Hidle; cbn; [|by exists c; split_and!; [done|apply moves_refl|..]].
    eexists. split_and!; [done| |by split_and!..].
    apply andb_true_iff in Hidle as [_ Hty%Z.eqb_eq]. apply moves_task; cbn; [|apply clear_name_ok|done..].
    apply step_request; [done|by right|lia].
  - eexists. split_and!; [done| |by split_and!..]. apply moves_task; [apply step_terminate|done..].
  - eexists. split_and!; [done| |by split_and!..]. by apply moves_state.
Qed.

Lemma requests_ok rs c t E ok : ctx_ok c ->
  wp_gen E ok (requests rs c) (fun '(_, c') t' => t' = t /\ moves c c' /\ same_handles c c') t.
Proof.
  revert c. induction rs as [|r rs IH]; intros c Hok; cbn; [split; [done|split; [by apply moves_refl|done]]|].
  destruct (request_ok r c Hok) as (c1 & -> & Hm & Hh). cbn.
  eapply wp_mono; [apply IH; apply Hm|]. intros [[] c2] t' (-> & Hm' & Hh').
  split_and!; [done|by eapply moves_trans|..]; by etrans.
Qed.

(** While the client is busy, a request can only tell it to terminate. *)
Definition told_to_terminate (c c' : ftp_client) : Prop :=
  same_handles c c'
  /\ (c'.(state).(task) = c.(state).(task)
      \/ c'.(state).(task) = c.(state).(task) <| task_type := UNI_NET_FTP_CLIENT_TASK_TYPE_TERMINATION |>).

Lemma request_busy r c :
  c.(state).(task).(task_type) <> UNI_NET_FTP_CLIENT_TASK_TYPE_IDLE ->
  exists c', request r (Some c) = Some (Some c') /\ told_to_terminate c c'.
Proof.
  intros Hty. assert (Hidle : uni_net_ftp_client_is_idle (Some c) = false).
  { unfold uni_net_ftp_client_is_idle. rewrite (proj2 (Z.eqb_neq _ _)) by done. apply andb_false_r. }
  unfold told_to_terminate. destruct r as [filename ck size| | |cb ck]; cbn.
  - unfold uni_net_ftp_client_download. rewrite Hidle. exists c. split_and!; [done|done|by left].
  - unfold uni_net_ftp_client_list. rewrite Hidle. exists c. split_and!; [done|done|by left].
  - eexists. split_and!; [done|by split_and!|by right].
  - eexists. split_and!; [done|by split_and!|by left].
Qed.

Lemma requests_busy rs c t E ok :
  c.(state).(task).(task_type) <> UNI_NET_FTP_CLIENT_TASK_TYPE_IDLE ->
  wp_gen E ok (requests rs c) (fun '(_, c') t' => t' = t /\ told_to_terminate c c') t.
Proof.
  revert c. induction rs as [|r rs IH]; intros c Hty; cbn; [split; [done|]; split; [done|by left]|].
  destruct (request_busy r c Hty) as (c1 & -> & Hh & Ht). cbn.
  eapply wp_mono; [apply IH|intros [[] c2] t' (-> & Hh' & Ht')]; [by destruct Ht as [-> | ->]|].
  split; [done|]. split; [by etrans|].
  destruct Ht as [Ht|Ht], Ht' as [Ht'|Ht']; rewrite Ht', Ht; cbn; auto.
Qed.

(** ** Functions of the client *)

(** A program that makes calls only and leaves the context. *)
Ltac safe_step :=
  lazymatch goal with
  | |- safe_at _ (ret _) => apply safe_ret
  | |- safe_at _ (do_call _) => apply safe_call
  | |- safe_at _ (bindM get _) => apply safe_get
  | |- safe_at _ (bindM _ _) => apply safe_bind; [|intros ? ? ?]
  | |- safe_at _ (when _ _) => apply safe_when; intros ?
  | |- safe_at _ (if _ then _ else _) => apply safe_if; intros ?
  end.
Ltac safe := repeat safe_step; auto with ftp.

Section Safe.
Context `{Platform} `{UniCommon}.

Lemma safe_requests rs c : safe_at c (requests rs).
Proof. intros t Hok. eapply wp_mono; [by apply requests_ok|]. intros [[] c'] t' (_ & Hm & _). done. Qed.
#[local] Hint Resolve safe_requests : ftp.

Lemma safe_callback c ty d n : safe_at c (call_callback ty d n).
Proof. unfold call_callback. safe. Qed.
#[local] Hint Resolve safe_callback : ftp.

Lemma safe_upd_state c f : (f c.(state)).(task) = c.(state).(task) -> safe_at c (upd_state f).
Proof. intros Hf. apply safe_modify. by apply moves_state. Qed.

Lemma safe_send c cmd : safe_at c (_uni_net_ftp_client_send_cmd cmd).
Proof. unfold _uni_net_ftp_client_send_cmd. destruct cmd; safe. Qed.
#[local] Hint Resolve safe_send : ftp.

Lemma safe_login c : safe_at c _uni_net_ftp_client_send_login.
Proof.
  intros t Hok. unfold _uni_net_ftp_client_send_login. apply safe_get; [|done].
  apply safe_deref_bind; [apply Hok|]. intros user _. apply safe_send.
Qed.

Lemma safe_password c : safe_at c _uni_net_ftp_client_send_password.
Proof.
  intros t Hok. unfold _uni_net_ftp_client_send_password. apply safe_get; [|done].
  apply safe_deref_bind; [apply Hok|]. intros password _. apply safe_send.
Qed.

Lemma safe_close_data c : safe_at c close_data.
Proof. unfold close_data. safe. by apply safe_upd_state. Qed.
#[local] Hint Resolve safe_close_data : ftp.

Lemma safe_set_type c : safe_at c (set_type UNI_NET_FTP_CLIENT_TASK_TYPE_TERMINATION).
Proof. apply safe_modify. apply moves_task; [apply step_terminate|done..]. Qed.
#[local] Hint Resolve safe_set_type : ftp.

Lemma safe_set_state c st :
  st ∈ [UNI_NET_FTP_CLIENT_TASK_STATE_FINISHED; UNI_NET_FTP_CLIENT_TASK_STATE_STARTED;
        UNI_NET_FTP_CLIENT_TASK_STATE_FAILED] -> safe_at c (set_state st).
Proof. intros Hst. apply safe_modify. apply moves_task; [by apply step_reply_state|done..]. Qed.

Lemma safe_close_cmd c : safe_at c close_cmd.
Proof. unfold close_cmd. safe. by apply safe_upd_state. Qed.
#[local] Hint Resolve safe_close_cmd : ftp.

Lemma safe_disconnect c b reason : safe_at c (_uni_net_ftp_client_disconnect b reason).
Proof. unfold _uni_net_ftp_client_disconnect. safe; by apply safe_upd_state. Qed.
#[local] Hint Resolve safe_disconnect : ftp.

Lemma safe_connect c f port : safe_at c (_uni_net_ftp_client_connect_socket f port).
Proof.
  unfold _uni_net_ftp_client_connect_socket. safe; [by apply safe_upd_state|].
  apply safe_upd_state. by destruct f.
Qed.
#[local] Hint Resolve safe_connect : ftp.

(** Every reply is handled. *)
Lemma safe_handler k h c s :
  find_handler _uni_net_ftp_client_cmd_map k = Some h -> safe_at c (h (Some s)).
Proof.
  unfold _uni_net_ftp_client_cmd_map. cbn [find_handler].
  repeat (case_match; [intros [= <-]|]); [..|done].
  - unfold _uni_net_ftp_client_handler_150. case_match; apply safe_modify;
      (apply moves_task; [apply step_size; first [apply u32_range|lia]|done..]).
  - apply safe_set_state. set_solver.
  - apply safe_set_state. set_solver.
  - unfold _uni_net_ftp_client_handler_220. apply safe_get, safe_when. intros Hty%Z.eqb_eq. apply safe_modify.
    by apply moves_task; [apply step_service_ready|..].
  - apply safe_ret.
  - unfold _uni_net_ftp_client_handler_227. safe; [|apply safe_set_state; set_solver].
    repeat case_match; safe. intros t Hok. done.
  - apply safe_set_state. set_solver.
  - apply safe_set_state. set_solver.
  - unfold _uni_net_ftp_client_handler_331. safe. apply safe_password.
  - apply safe_disconnect.
  - apply safe_disconnect.
  - apply safe_disconnect.
  - apply safe_disconnect.
  - apply safe_disconnect.
  - apply safe_disconnect.
  - unfold _uni_net_ftp_client_handler_530. safe. apply safe_login.
  - apply safe_set_state. set_solver.
Qed.

Lemma safe_cmd_single c buf : safe_at c (_uni_net_ftp_client_work_cmd_single buf).
Proof.
  unfold _uni_net_ftp_client_work_cmd_single. apply safe_if; intros _; [safe|].
  destruct (find_handler _ _) eqn:Hh; [by eapply safe_handler|safe].
Qed.
#[local] Hint Resolve safe_cmd_single : ftp.

Lemma safe_lines fuel line c : safe_at c (lines_loop fuel line).
Proof.
  revert line c. induction fuel as [|fuel IH]; intros line c; [by intros t Hok|].
  cbn [lines_loop]. destruct (split_crlf line) as [[a b]|]; safe; case_match; safe.
Qed.
#[local] Hint Resolve safe_lines : ftp.

Lemma safe_work_cmd c : safe_at c _uni_net_ftp_client_work_cmd.
Proof.
  unfold _uni_net_ftp_client_work_cmd. apply safe_get. apply safe_bind; [apply safe_call|].
  intros n c1 _. apply safe_if; intros Hn%Z.ltb_lt || intros _; [|apply safe_ret].
  apply safe_bind; [apply safe_call|]. intros buf c2 _. apply safe_if; intros _; [apply safe_disconnect|].
  intros t Hok [rcv d] Hd. cbn in Hd. specialize (Hd ltac:(lia)). cbn [bind].
  apply safe_bind; [|intros; safe|done]. apply safe_if; intros _; [|safe].
  destruct (write_at_Some (replicate (Z.to_nat (n + 1)) NUL) 0 d) as (mem & Hmem & Hlm & Htk).
  { rewrite length_replicate. lia. }
  apply safe_deref_bind; [by rewrite Hmem|]. intros mem' Hmem'. rewrite Hmem in Hmem'. injection Hmem' as <-.
  apply safe_deref_bind; [|safe]. apply cstr_is_Some.
  apply write_at_inv in Hmem as [_ ->]. rewrite !elem_of_app. right. right.
  apply list_elem_of_lookup. exists (Z.to_nat n - length d)%nat.
  rewrite lookup_drop, lookup_replicate. split; [done|lia].
Qed.
#[local] Hint Resolve safe_work_cmd : ftp.

(** ** Transfers *)

Lemma busy_type t : busy t ->
  t.(task_type) <> UNI_NET_FTP_CLIENT_TASK_TYPE_IDLE /\ t.(task_type) <> UNI_NET_FTP_CLIENT_TASK_TYPE_STARTUP.
Proof. unfold busy, transferring. intros [[-> | ->] | ->]; done. Qed.

Lemma told_busy c c' : told_to_terminate c c' -> busy c.(state).(task) -> busy c'.(state).(task).
Proof. intros (_ & [-> | ->]) Hb; [done|]. by right. Qed.

Lemma told_moves c c' : told_to_terminate c c' -> ctx_ok c -> moves c c'.
Proof.
  intros ((? & _) & [Ht|Ht]) Hok; [by apply moves_state|].
  apply moves_task; rewrite ?Ht; [apply step_terminate|done..].
Qed.

(** The callback while the client is busy. *)
Lemma callback_busy c ty d n t E ok :
  busy c.(state).(task) ->
  wp_gen E ok (call_callback ty d n c) (fun '(_, c') _ => told_to_terminate c c') t.
Proof.
  intros [Hb _]%busy_type. unfold call_callback. cbn. destruct (negb _); cbn.
  - intros rs _. eapply wp_mono; [by apply requests_busy|]. by intros [[] c'] t' [_ ?].
  - split; [done|by left].
Qed.

(** The end of a transfer: the callback, then idle again. *)
Lemma safe_finish c ty d n :
  busy c.(state).(task) -> task_step c.(state).(task) (idle_task c.(state).(task)) ->
  safe_at c (call_callback ty d n ;; _uni_net_ftp_client_set_to_idle).
Proof.
  intros Hb Hs t Hok. eapply wp_seq; [by apply callback_busy|]. intros [[] c1] t1 ((Hc & Hh) & Ht). cbn beta iota.
  assert (Hidle : forall c', c'.(config) = c1.(config) -> c'.(state).(task) = c1.(state).(task) ->
            moves c (upd_task idle_task c')).
  { intros c' Hc' Ht'.
    assert (Hi : task (state (upd_task idle_task c')) = idle_task (task (state c)))
      by (unfold upd_task; cbn; rewrite Ht'; by destruct Ht as [-> | ->]).
    apply moves_task; rewrite ?Hi; cbn; auto using clear_name_ok. congruence. }
  unfold _uni_net_ftp_client_set_to_idle, close_data. cbn. case_match; cbn; [intros _ _|];
    apply Hidle; done.
Qed.

Lemma safe_chunk c : busy c.(state).(task) ->
  forall t, ctx_ok c ->
  wp_gen (fun e => e <> UB) ftp_ok (data_chunk c)
    (fun '(_, c') _ => moves c c' /\ busy c'.(state).(task)) t.
Proof.
  intros Hb t Hok. unfold data_chunk. cbn. intros [cnt [buf bs]] _. cbn. unfold when.
  destruct (_ && _) eqn:Hc; cbn; [|by split; [apply moves_refl|]].
  apply andb_true_iff in Hc as [Hcnt%Z.ltb_lt _].
  assert (exists c1, (if task_state (task (state c)) =? UNI_NET_FTP_CLIENT_TASK_STATE_STARTED
            then set_state UNI_NET_FTP_CLIENT_TASK_STATE_IN_PROGRESS else ret tt) c = Ret (tt, c1)
            /\ moves c c1 /\ busy c1.(state).(task)) as (c1 & -> & Hm1 & Hb1).
  { case_match eqn:Hst; cbn; eexists; (split; [done|]); [|by split; [apply moves_refl|]].
    apply Z.eqb_eq in Hst. split; [|done]. by apply moves_task; [apply step_first_data|..]. }
  apply wp_bind. cbn [bind]. eapply wp_seq; [by apply callback_busy|]. intros [[] c2] t2 Ht. cbn. intros _ _.
  pose proof (told_busy _ _ Ht Hb1) as Hb2. split; [|done].
  eapply moves_trans; [exact Hm1|]. eapply moves_trans; [by apply (told_moves _ _ Ht), Hm1|].
  apply moves_task; [by apply step_chunk|done..|]. apply (told_moves _ _ Ht), Hm1.
Qed.

Lemma safe_data_loop fuel c : busy c.(state).(task) -> safe_at c (data_loop fuel).
Proof.
  revert c. induction fuel as [|fuel IH]; intros c Hb t Hok; [done|]. cbn [data_loop].
  eapply wp_seq; [by apply safe_chunk|]. intros [cnt c1] t1 [Hm Hb1]. cbn beta iota.
  eapply (wp_mono _ _ _ (fun '(_, c') _ => moves c1 c')); [|intros [[] c2] t2 Hm2; by eapply moves_trans].
  apply safe_get; [|apply Hm]. apply safe_if; intros _; [by apply IH|safe].
Qed.

Lemma safe_work_data fuel c : safe_at c (_uni_net_ftp_client_work_data fuel).
Proof.
  unfold _uni_net_ftp_client_work_data. apply safe_get. apply safe_if; intros Hty; [|safe].
  apply safe_data_loop. left. apply orb_true_iff in Hty as [Hty%Z.eqb_eq|Hty%Z.eqb_eq]; [by right|by left].
Qed.
#[local] Hint Resolve safe_work_data : ftp.

(** ** The state machine of the task *)

(** One startup step: the command that is sent, if any, and the new task. *)
Definition startup_next (t : ftp_task) : ftp_task * option bytes :=
  let t1 := if t.(task_state) =? UNI_NET_FTP_CLIENT_TASK_STATE_FINISHED
            then t <| progress := t.(progress) + 1 |> <| task_state := UNI_NET_FTP_CLIENT_TASK_STATE_NOT_STARTED |>
            else t in
  if _uni_net_ftp_client_startup_cmds_cnt <=? t1.(progress)
  then (t1 <| task_type := UNI_NET_FTP_CLIENT_TASK_TYPE_IDLE |>
           <| task_state := UNI_NET_FTP_CLIENT_TASK_STATE_FINISHED |>, None)
  else if t1.(task_state) =? UNI_NET_FTP_CLIENT_TASK_STATE_NOT_STARTED
  then (t1 <| task_state := UNI_NET_FTP_CLIENT_TASK_STATE_IN_PROGRESS |>,
        _uni_net_ftp_client_startup_cmds !! Z.to_nat t1.(progress))
  else (t1, None).

(** [_uni_net_ftp_client_work_state_startup] sends the command of that step. *)
Lemma startup_eq c :
  c.(state).(task).(task_type) = UNI_NET_FTP_CLIENT_TASK_TYPE_STARTUP -> task_inv c.(state).(task) ->
  let '(t', cmd) := startup_next c.(state).(task) in
  let c' := upd_task (fun _ => t') c in
  _uni_net_ftp_client_work_state_startup c =
    match cmd with
    | Some s => bind (_uni_net_ftp_client_send_cmd (Some s) c') (fun '(_, c2) => Ret (tt, c2))
    | None => Ret (tt, c')
    end.
Proof.
  intros Hty (Hi & Hp & _). specialize (Hi Hty). change _uni_net_ftp_client_startup_cmds_cnt with 3 in *.
  unfold startup_next, _uni_net_ftp_client_work_state_startup, when.
  change _uni_net_ftp_client_startup_cmds_cnt with 3.
  destruct c as [cfg [th ss sc sd [ty st ck p tot n] cb co]]. cbn in *.
  destruct (Z.eqb_spec st UNI_NET_FTP_CLIENT_TASK_STATE_FINISHED) as [->|Hst]; cbn.
  - rewrite u32_small by lia. destruct (Z.leb_spec 3 (p + 1)); cbn; [done|].
    assert (p + 1 = 1 \/ p + 1 = 2) as [-> | ->] by lia; done.
  - rewrite (proj2 (Z.leb_gt _ _)) by lia. cbn. destruct (Z.eqb_spec st UNI_NET_FTP_CLIENT_TASK_STATE_NOT_STARTED); cbn; [|done].
    assert (p = 0 \/ p = 1 \/ p = 2) as [-> | [-> | ->]] by lia; done.
Qed.

Lemma startup_next_step t :
  t.(task_type) = UNI_NET_FTP_CLIENT_TASK_TYPE_STARTUP -> task_inv t ->
  rtc task_step t (startup_next t).1 /\ (startup_next t).1.(task_name) = t.(task_name).
Proof.
  intros Hty (Hi & Hp & _). specialize (Hi Hty). unfold startup_next. change _uni_net_ftp_client_startup_cmds_cnt with 3 in *.
  destruct (Z.eqb_spec t.(task_state) UNI_NET_FTP_CLIENT_TASK_STATE_FINISHED) as [Hst|Hst]; cbn.
  - destruct (Z.leb_spec 3 (progress t + 1)); cbn; (split; [|done]).
    + assert (Hp2 : progress t + 1 = 3) by lia. rewrite Hp2. apply rtc_once.
      destruct t as [ty st ck p tot n]; cbn in *; subst. by apply step_started.
    + apply rtc_once. by apply step_next_command.
  - rewrite (proj2 (Z.leb_gt _ _)) by lia. cbn. destruct (Z.eqb_spec t.(task_state) UNI_NET_FTP_CLIENT_TASK_STATE_NOT_STARTED); cbn; (split; [|done]).
    + apply rtc_once. by apply step_first_command.
    + apply rtc_refl.
Qed.

Lemma safe_startup c :
  c.(state).(task).(task_type) = UNI_NET_FTP_CLIENT_TASK_TYPE_STARTUP ->
  safe_at c _uni_net_ftp_client_work_state_startup.
Proof.
  intros Hty t Hok. pose proof Hok as (Hn & Hu & Hpw & Hi). pose proof (startup_eq c Hty Hi) as Heq.
  destruct (startup_next_step _ Hty Hi) as [Hs Hn']. destruct (startup_next _) as [t' cmd]. cbn in Hs, Hn'.
  rewrite Heq. clear Heq. assert (Hm : moves c (upd_task (fun _ => t') c)).
  { split_and!; cbn; [done|done|]. split_and!; cbn; [by rewrite Hn'|done|done|by eapply task_steps_inv]. }
  destruct cmd as [s|]; [|exact Hm]. cbn. intros r _. exact Hm.
Qed.

Lemma safe_task_state c :
  transferring c.(state).(task) -> safe_at c _uni_net_ftp_client_work_state_data.
Proof.
  intros Htr t Hok. unfold _uni_net_ftp_client_work_state_data. apply safe_get; [|done].
  apply safe_if; [intros Hst%Z.eqb_eq|intros _].
  { safe; [|apply safe_send]. apply safe_modify. by apply moves_task; [apply step_passive|..]. }
  apply safe_if; [intros Hst%Z.eqb_eq|intros _].
  - assert (Hreq : safe_at c (set_state UNI_NET_FTP_CLIENT_TASK_STATE_REQUESTED)).
    { apply safe_modify. by apply moves_task; [apply step_requested|..]. }
    apply safe_if; [intros _|intros Hne%Z.eqb_neq]; [|apply safe_if; [intros _|intros Hne'%Z.eqb_neq]].
    + apply safe_bind; [done|]. intros [] c1 Hm. apply safe_deref_bind; [by apply name_ok_cstr, Hok|].
      intros file _. safe. apply safe_send.
    + apply safe_bind; [done|]. intros [] c1 Hm. safe. apply safe_send.
    + by destruct Htr.
  - apply safe_if; [intros Hst%Z.eqb_eq|intros _].
    + apply safe_when. intros Hp%Z.leb_le. apply safe_finish; [by left|by apply step_finished].
    + apply safe_if; [intros Hst%Z.eqb_eq|intros _; safe]. apply safe_finish; [by left|by apply step_failed].
Qed.

Lemma safe_work_state c : safe_at c _uni_net_ftp_client_work_state.
Proof.
  unfold _uni_net_ftp_client_work_state. apply safe_get.
  apply safe_if; [intros Hty%Z.eqb_eq; by apply safe_startup|intros _].
  apply safe_if; [intros Hty|intros _; safe]. apply safe_task_state.
  apply orb_true_iff in Hty as [Hty%Z.eqb_eq|Hty%Z.eqb_eq]; [by left|by right].
Qed.
#[local] Hint Resolve safe_work_state : ftp.

(** ** The task *)

Lemma safe_turn fuel c : safe_at c (thread_turn fuel).
Proof. unfold thread_turn. safe. case_match; safe. Qed.
#[local] Hint Resolve safe_turn : ftp.

Lemma safe_thread_loop fuel n c : safe_at c (thread_loop fuel n).
Proof.
  revert c. induction n as [|n IH]; intros c; cbn [thread_loop]; safe; [by intros t Hok|].
  case_match; safe.
Qed.

End Safe.
