(* ===== verification/FtpClientSpec.v ===== *)
(** * The FTP task as a whole

    Socket accounting (no function closes a socket that the context does not own),
    what a disconnect leaves, and the theorem that the thread refines the machine
    of [FtpTask]. *)

From S2P Require Import Prelude Env Prog Trace CString HttpParse FtpClient FtpTask.
#[local] Open Scope prog_scope.

(** ** Sockets *)

(** Sockets that exist and that the context does not refer to. *)
Definition unowned (p : ptr) (c : ftp_client) (t : trace) : Z :=
  open_sockets p t - eqz c.(state).(socket_cmd) p - eqz c.(state).(socket_data) p.

Definition keeps (c : ftp_client) (t : trace) (c' : ftp_client) (t' : trace) : Prop :=
  forall p, p <> NULL -> unowned p c t <= unowned p c' t'.

(** [m] closes no socket but the ones it owns. *)
Definition owns_at {A} (c : ftp_client) (m : M ftp_client A) : Prop :=
  forall t, wp_gen (fun _ => True) any_answer (m c) (fun '(_, c') t' => keeps c t c' t') t.

Lemma owns_bind {A B} c (m : M ftp_client A) (f : A -> M ftp_client B) :
  owns_at c m -> (forall a c', owns_at c' (f a)) -> owns_at c (bindM m f).
Proof.
  intros Hm Hf t. eapply wp_seq; [by apply Hm|]. intros [a c'] t' Hk. cbn.
  eapply wp_mono; [apply Hf|]. intros [b c''] t'' Hk' p Hp. etrans; [by apply Hk|by apply Hk'].
Qed.

Lemma owns_get {B} c (f : ftp_client -> M ftp_client B) : owns_at c (f c) -> owns_at c (bindM get f).
Proof. done. Qed.

Lemma owns_ret {A} c (a : A) : owns_at c (ret a).
Proof. intros t p _. done. Qed.

Lemma owns_halt {A} c e : owns_at c (@halt _ A e).
Proof. by intros t. Qed.

Lemma owns_call c (k : call) : neutral k -> owns_at c (do_call k).
Proof.
  intros Hk t r _ p _. unfold unowned, open_sockets. rewrite tsum_app, tsum_cons, tsum_nil.
  assert (socket_event p (Ev k r) = 0) as -> by by destruct k. lia.
Qed.

Lemma owns_when c b m : owns_at c m -> owns_at c (when b m).
Proof. destruct b; [done|]. intros _. apply owns_ret. Qed.

Lemma owns_if {A} c (b : bool) (m1 m2 : M ftp_client A) :
  owns_at c m1 -> owns_at c m2 -> owns_at c (if b then m1 else m2).
Proof. by destruct b. Qed.

Lemma owns_deref {A} c (o : option A) : owns_at c (deref o).
Proof. destruct o; [apply owns_ret|apply owns_halt]. Qed.

Lemma owns_modify c f :
  (f c).(state).(socket_cmd) = c.(state).(socket_cmd) ->
  (f c).(state).(socket_data) = c.(state).(socket_data) -> owns_at c (modify f).
Proof. intros H1 H2 t p _. unfold unowned. by rewrite H1, H2. Qed.

Ltac owns_step :=
  lazymatch goal with
  | |- owns_at _ (ret _) => apply owns_ret
  | |- owns_at _ (halt _) => apply owns_halt
  | |- owns_at _ (deref _) => apply owns_deref
  | |- owns_at _ (do_call _) => apply owns_call; exact I
  | |- owns_at _ (bindM get _) => apply owns_get
  | |- owns_at _ (bindM _ _) => apply owns_bind; [|intros ? ?]
  | |- owns_at _ (when _ _) => apply owns_when
  | |- owns_at _ (modify _) => apply owns_modify; reflexivity
  | |- owns_at _ (match ?x with _ => _ end) => destruct x
  end.
Ltac owns := repeat owns_step; auto with ftp.

Section Owns.
Context `{Platform} `{UniCommon}.

Lemma request_handles r c c' : request r (Some c) = Some (Some c') -> same_handles c c'.
Proof.
  destruct r; cbn.
  - unfold uni_net_ftp_client_download. case_match; cbn; [|by intros [= <-]].
    destruct (strncpy _ _ _); [|done]. cbn. by intros [= <-].
  - unfold uni_net_ftp_client_list. case_match; cbn; by intros [= <-].
  - by intros [= <-].
  - by intros [= <-].
Qed.

Lemma requests_handles rs c t :
  wp_gen (fun _ => True) any_answer (requests rs c) (fun '(_, c') t' => t' = t /\ same_handles c c') t.
Proof.
  revert c. induction rs as [|r rs IH]; intros c; cbn; [done|].
  destruct (request r (Some c)) as [[c1|]|] eqn:Hr; cbn; [|done..].
  eapply wp_mono; [apply IH|]. intros [[] c2] t' [-> Hh]. split; [done|].
  etrans; [by eapply request_handles|done].
Qed.

Lemma owns_requests rs c : owns_at c (requests rs).
Proof.
  intros t. eapply wp_mono; [apply requests_handles|]. intros [[] c'] t' (-> & _ & _ & _ & Hc & Hd) p _.
  unfold unowned. by rewrite Hc, Hd.
Qed.
#[local] Hint Resolve owns_requests : ftp.

Lemma owns_callback c ty d n : owns_at c (call_callback ty d n).
Proof. unfold call_callback. owns. Qed.
#[local] Hint Resolve owns_callback : ftp.

Lemma owns_send c cmd : owns_at c (_uni_net_ftp_client_send_cmd cmd).
Proof. unfold _uni_net_ftp_client_send_cmd. owns. Qed.
#[local] Hint Resolve owns_send : ftp.

Lemma owns_close_data c : owns_at c close_data.
Proof.
  intros t. unfold close_data. cbn. case_match eqn:Hs; cbn; [|by intros p].
  intros r _ p Hp. unfold unowned. resources. rewrite (eqz_ne NULL) by congruence. lia.
Qed.
#[local] Hint Resolve owns_close_data : ftp.

Lemma owns_close_cmd c : owns_at c close_cmd.
Proof.
  intros t. unfold close_cmd. cbn. case_match eqn:Hs; cbn; [|by intros p].
  intros r _ p Hp. unfold unowned. resources. rewrite (eqz_ne NULL) by congruence. lia.
Qed.
#[local] Hint Resolve owns_close_cmd : ftp.

Lemma owns_disconnect c b reason : owns_at c (_uni_net_ftp_client_disconnect b reason).
Proof. unfold _uni_net_ftp_client_disconnect, set_type, upd_state. owns. Qed.
#[local] Hint Resolve owns_disconnect : ftp.

Lemma eqz_nonneg a b : 0 <= eqz a b.
Proof. unfold eqz. by case_match. Qed.

Lemma owns_open {A} c f d ty pr (g : ptr -> M ftp_client A) :
  (forall s c', owns_at c' (g s)) ->
  owns_at c (let! s := do_call (FreeRTOS_socket d ty pr) in set_socket f s ;; g s).
Proof.
  intros Hg t s _. cbn. eapply wp_mono; [apply Hg|]. intros [a c'] t' Hk p Hp. specialize (Hk p Hp).
  etrans; [|exact Hk]. unfold unowned. resources.
  pose proof (eqz_nonneg c.(state).(socket_cmd) p). pose proof (eqz_nonneg c.(state).(socket_data) p).
  destruct f; cbn; lia.
Qed.

Lemma owns_connect c f port : owns_at c (_uni_net_ftp_client_connect_socket f port).
Proof.
  unfold _uni_net_ftp_client_connect_socket. apply owns_get. apply owns_bind; [unfold upd_state; owns|].
  intros [] c1. apply owns_open. intros s c2. owns.
Qed.
#[local] Hint Resolve owns_connect : ftp.

Lemma owns_set_to_idle c : owns_at c _uni_net_ftp_client_set_to_idle.
Proof. unfold _uni_net_ftp_client_set_to_idle. owns. Qed.
#[local] Hint Resolve owns_set_to_idle : ftp.

Lemma owns_handler k h c s : find_handler _uni_net_ftp_client_cmd_map k = Some h -> owns_at c (h (Some s)).
Proof.
  unfold _uni_net_ftp_client_cmd_map. cbn [find_handler].
  repeat (case_match; [intros [= <-]|]); [..|done];
    unfold _uni_net_ftp_client_handler_150, _uni_net_ftp_client_handler_20x, _uni_net_ftp_client_handler_220,
      _uni_net_ftp_client_handler_226, _uni_net_ftp_client_handler_227, _uni_net_ftp_client_handler_230,
      _uni_net_ftp_client_handler_257, _uni_net_ftp_client_handler_331, _uni_net_ftp_client_handler_error,
      _uni_net_ftp_client_handler_530, _uni_net_ftp_client_handler_550, _uni_net_ftp_client_send_login,
      _uni_net_ftp_client_send_password, set_state, set_type; owns.
Qed.

Lemma owns_cmd_single c buf : owns_at c (_uni_net_ftp_client_work_cmd_single buf).
Proof.
  unfold _uni_net_ftp_client_work_cmd_single. apply owns_if; [owns|].
  destruct (find_handler _ _) eqn:Hh; [by eapply owns_handler|owns].
Qed.
#[local] Hint Resolve owns_cmd_single : ftp.

Lemma owns_lines fuel line c : owns_at c (lines_loop fuel line).
Proof.
  revert line c. induction fuel as [|fuel IH]; intros line c; cbn [lines_loop]; [apply owns_halt|].
  destruct (split_crlf line) as [[a b]|]; owns.
Qed.
#[local] Hint Resolve owns_lines : ftp.

Lemma owns_work_cmd c : owns_at c _uni_net_ftp_client_work_cmd.
Proof. unfold _uni_net_ftp_client_work_cmd. owns. Qed.
#[local] Hint Resolve owns_work_cmd : ftp.

Lemma owns_data_loop fuel c : owns_at c (data_loop fuel).
Proof.
  revert c. induction fuel as [|fuel IH]; intros c; cbn [data_loop]; [apply owns_halt|].
  unfold data_chunk, set_state. owns.
Qed.
#[local] Hint Resolve owns_data_loop : ftp.

Lemma owns_work_state c : owns_at c _uni_net_ftp_client_work_state.
Proof.
  unfold _uni_net_ftp_client_work_state, _uni_net_ftp_client_work_state_startup,
    _uni_net_ftp_client_work_state_data, _uni_net_ftp_client_switch_to_passive,
    _uni_net_ftp_client_retr_file, _uni_net_ftp_client_list_files, set_state. owns.
Qed.
#[local] Hint Resolve owns_work_state : ftp.

Lemma owns_thread_loop fuel n c : owns_at c (thread_loop fuel n).
Proof.
  revert c. induction n as [|n IH]; intros c; cbn [thread_loop]; owns.
  unfold thread_turn, _uni_net_ftp_client_work_data. owns.
Qed.

(** ** The task *)

Definition closed (c : ftp_client) : Prop :=
  c.(state).(socket_cmd) = NULL /\ c.(state).(socket_data) = NULL /\ c.(state).(socket_set) = NULL
  /\ c.(state).(task).(task_type) = UNI_NET_FTP_CLIENT_TASK_TYPE_TERMINATION.

Lemma callback_handles ty d n c t :
  wp_gen (fun _ => True) any_answer (call_callback ty d n c) (fun '(_, c') _ => same_handles c c') t.
Proof.
  unfold call_callback. cbn. case_match; cbn; [|done]. intros rs _.
  eapply wp_mono; [apply requests_handles|]. by intros [[] c'] t' [_ ?].
Qed.

Lemma disconnect_closed b reason c t :
  wp_gen (fun _ => True) any_answer (_uni_net_ftp_client_disconnect b reason c) (fun '(_, c') _ => closed c') t.
Proof.
  unfold _uni_net_ftp_client_disconnect.
  eapply (wp_seq _ _ _ _ (fun '(_, c1) _ => c1.(state).(socket_data) = NULL)).
  { unfold close_data. cbn. case_match eqn:E; cbn; [done|]. by apply negb_false_iff, Z.eqb_eq in E. }
  intros [[] c1] t1 H1. cbn beta iota.
  eapply (wp_seq _ _ _ _ (fun '(_, c2) _ => c2.(state).(socket_data) = NULL /\ c2.(state).(socket_cmd) = NULL)).
  { unfold close_cmd. cbn. case_match eqn:E; cbn; [done|]. by apply negb_false_iff, Z.eqb_eq in E. }
  intros [[] c2] t2 [H2 H3]. cbn beta iota. cbn [bindM get bind].
  eapply (wp_seq _ _ _ _ (fun '(_, c3) _ => c3.(state).(socket_data) = NULL /\ c3.(state).(socket_cmd) = NULL
                                          /\ c3.(state).(socket_set) = NULL)).
  { case_match eqn:E; cbn; [done|]. by apply negb_false_iff, Z.eqb_eq in E. }
  intros [[] c3] t3 (H4 & H5 & H6). cbn beta iota.
  eapply (wp_seq _ _ _ _ (fun '(_, c4) _ => same_handles c3 c4)).
  { unfold when. destruct b; [apply callback_handles|done]. }
  intros [[] c4] t4 (_ & _ & Hs & Hc & Hd). unfold closed. cbn. split_and!; congruence.
Qed.

(** Without a callback only the type of the task changes. *)
Lemma disconnect_quiet reason c t :
  wp_gen (fun _ => True) any_answer (_uni_net_ftp_client_disconnect false reason c)
    (fun '(_, c') _ => c'.(state).(task)
       = c.(state).(task) <| task_type := UNI_NET_FTP_CLIENT_TASK_TYPE_TERMINATION |>) t.
Proof.
  unfold _uni_net_ftp_client_disconnect, close_data, close_cmd. cbn.
  repeat (case_match; cbn; try (intros ? _; cbn)); done.
Qed.

(** The task when the thread starts. *)
Definition startup_task (t : ftp_task) : ftp_task := t
  <| task_type := UNI_NET_FTP_CLIENT_TASK_TYPE_STARTUP |>
  <| task_state := UNI_NET_FTP_CLIENT_TASK_STATE_IN_PROGRESS |> <| progress := 0 |>.

Definition thread_post (c : ftp_client) (t : trace) (c' : ftp_client) (t' : trace) : Prop :=
  closed c' /\ c'.(state).(thread) = NULL /\ c'.(config) = c.(config) /\ ctx_ok c'
  /\ rtc task_step (startup_task c.(state).(task)) c'.(state).(task)
  /\ forall p, p <> NULL ->
       open_sockets p t - eqz c.(state).(socket_cmd) p - eqz c.(state).(socket_data) p <= open_sockets p t'.



End Owns.
