(* ===== verification/FtpReplies.v ===== *)
(** * Replies of the FTP server

    The lines of the command connection and the address of a 227 reply. *)

From S2P Require Import Prelude Env Prog Trace CString Decimal FtpClient FtpTask.
#[local] Open Scope prog_scope.

(** ** Lines *)

Definition eoln (l : bytes) : bytes := l ++ [CR; LF].

(** What the client does with a list of lines, one after the other. *)
Fixpoint process `{Platform} `{UniCommon} (ls : list bytes) : M ftp_client unit :=
  match ls with
  | [] => ret tt
  | l :: ls' =>
      when (negb (bool_decide (l = []))) (_uni_net_ftp_client_work_cmd_single l) ;;
      let! c := get in
      if c.(state).(task).(task_type) =? UNI_NET_FTP_CLIENT_TASK_TYPE_TERMINATION then ret tt else process ls'
  end.

Lemma split_crlf_line l rest : CR ∉ l -> split_crlf (l ++ CR :: LF :: rest) = Some (l, rest).
Proof.
  induction l as [|c l IH]; [done|]. rewrite not_elem_of_cons. intros [Hc Hl]. specialize (IH Hl).
  cbn. destruct (l ++ CR :: LF :: rest) as [|d r] eqn:E; [by destruct l|].
  rewrite (beqb_neq c CR) by congruence. cbn [andb]. by rewrite IH.
Qed.

Lemma split_crlf_none l : CR ∉ l -> split_crlf l = None.
Proof.
  induction l as [|c l IH]; [done|]. rewrite not_elem_of_cons. intros [Hc Hl]. specialize (IH Hl).
  cbn. destruct l as [|d r]; [done|]. rewrite (beqb_neq c CR) by congruence. cbn [andb]. by rewrite IH.
Qed.

Section Replies.
Context `{PlatformOk} `{UniCommonSpec}.

Lemma lines_loop_process env fuel ls last c t :
  Forall (fun l => CR ∉ l) ls -> CR ∉ last -> (length ls < fuel)%nat ->
  run env (lines_loop fuel (concat (map eoln ls) ++ last) c) t = run env (process (ls ++ [last]) c) t.
Proof.
  intros Hls Hlast. revert fuel c t. induction Hls as [|l ls Hl _ IH]; intros fuel c t Hf;
    (destruct fuel as [|fuel]; [cbn in Hf; lia|]); cbn [lines_loop process concat map app].
  - rewrite split_crlf_none by done. cbn. rewrite !run_bind. do 2 case_match; done.
  - unfold eoln at 1. rewrite <- !app_assoc. cbn [app]. rewrite split_crlf_line by done.
    cbn -[process lines_loop]. rewrite !run_bind. destruct (run env _ t) as [[[[] c1]|e] t1]; [|done].
    case_match; [done|]. apply IH. cbn in Hf. lia.
Qed.

(** C17: However many replies come in one piece, each is handled once and in order, an
    empty line is skipped and a reply that ends the session ends the loop: the
    loop over the buffer is [process] on its lines.  Its fuel is enough. *)
Theorem reply_lines_in_order env ls last c t :
  Forall (fun l => CR ∉ l) ls -> CR ∉ last ->
  let s := concat (map eoln ls) ++ last in
  run env (lines_loop (S (length s)) s c) t = run env (process (ls ++ [last]) c) t.
Proof.
  intros Hls Hlast s. apply lines_loop_process; [done|done|]. unfold s. rewrite length_app.
  enough (length ls <= length (concat (map eoln ls)))%nat by lia.
  clear. induction ls as [|l ls IH]; cbn; [done|]. unfold eoln at 1. rewrite !length_app. cbn. lia.
Qed.

(** ** Passive mode *)

Fixpoint commas (ns : list Z) : bytes :=
  match ns with
  | [] => []
  | n :: ns' => dec n ++ match ns' with [] => [] | _ => ","%char :: commas ns' end
  end.

Lemma parse_passive_commas ns tail :
  ns <> [] -> Forall (fun n => 0 <= n < 2 ^ 31) ns -> no_digit tail ->
  parse_passive (length ns) (commas ns ++ tail) = Some ns.
Proof.
  intros Hne Hns Ht. induction Hns as [|n ns Hn Hns IH]; [done|].
  cbn [length commas parse_passive]. rewrite <- app_assoc.
  rewrite strtol_dec; [|lia|by destruct ns]. cbn [fst snd].
  assert (Hlen : (0 < length (dec n))%nat) by (pose proof (dec_nonempty n); destruct (dec n); [done|cbn; lia]).
  rewrite bool_decide_eq_false_2 by (rewrite (length_app (dec n)); lia).
  rewrite i32_small by lia. destruct ns as [|m ns].
  - done.
  - rewrite decide_True by (cbn; lia). cbn [app mbind option_bind]. rewrite beqb_refl. cbn [mbind option_bind].
    rewrite IH by done. done.
Qed.

(** A 227 reply: [text] before the parenthesis, the four octets of the address
    and the two of the port. *)
Definition passive_reply (text : bytes) (a b c d p1 p2 : Z) (tail : bytes) : bytes :=
  B "227 " ++ text ++ "("%char :: commas [a; b; c; d; p1; p2] ++ ")"%char :: tail.

Lemma strchr_app s c rest : c ∉ s -> strchr (s ++ c :: rest) c = Some (c :: rest).
Proof.
  induction s as [|x s IH]; cbn; [by rewrite beqb_refl|]. rewrite not_elem_of_cons. intros [Hx Hs].
  rewrite beqb_neq by congruence. by apply IH.
Qed.

(** The connections that were attempted: the socket, the address, the result. *)
Definition attempt_event (e : event) : list (ptr * sockaddr * Z) :=
  match e with
  | Ev c r =>
      match c return resp c -> list (ptr * sockaddr * Z) with
      | FreeRTOS_connect s a => fun r => [(s, a, r)]
      | _ => fun _ => []
      end r
  end.
Definition attempts (t : trace) : list (ptr * sockaddr * Z) := flat_map attempt_event t.

#[global] Arguments attempts t : simpl never.

Lemma attempts_snoc t e : attempts (t ++ [e]) = attempts t ++ attempt_event e.
Proof. unfold attempts. rewrite flat_map_app. cbn. by rewrite app_nil_r. Qed.

(** What [_uni_net_ftp_client_connect_socket] does to the data socket. *)
Definition data_connected (c : ftp_client) (port : Z) (t : trace) (ok : bool) (c' : ftp_client) (t' : trace) : Prop :=
  exists rc, let s := c'.(state).(socket_data) in
    let addr := mk_sockaddr FREERTOS_AF_INET (uni_common_bytes_swap16 port) c.(config).(server_addr) in
    attempts t' = attempts t ++ (if s =? NULL then [] else [(s, addr, rc)])
    /\ ok = negb (s =? NULL) && (rc =? 0)
    /\ c'.(state).(task) = c.(state).(task) /\ c'.(config) = c.(config)
    /\ c'.(state).(socket_cmd) = c.(state).(socket_cmd).

Lemma setopt_step (b : bool) s o (c : ftp_client) t :
  wp any_answer (when b (let! _ := do_call (FreeRTOS_setsockopt s o) in ret tt) c)
    (fun '(_, c') t' => c' = c /\ attempts t' = attempts t) t.
Proof. unfold when. destruct b; cbn; [|done]. intros r _. by rewrite attempts_snoc, app_nil_r. Qed.

Lemma connect_data_spec c port t :
  wp any_answer (_uni_net_ftp_client_connect_socket Data port c)
    (fun '(ok, c') t' => data_connected c port t ok c' t') t.
Proof.
  unfold _uni_net_ftp_client_connect_socket. cbn.
  eapply (wp_seq _ _ _ _ (fun '(_, c1) t1 => attempts t1 = attempts t /\ c1.(config) = c.(config)
            /\ c1.(state).(task) = c.(state).(task) /\ c1.(state).(socket_cmd) = c.(state).(socket_cmd))).
  { case_match; cbn; [|done]. intros r _. by rewrite attempts_snoc, app_nil_r. }
  intros [[] c1] t1 (Ht1 & Hc1 & Hk1 & Hs1). cbn. intros s _. unfold data_connected. destruct (Z.eqb_spec s NULL) as [->|Hs]; cbn.
  { exists 0. rewrite attempts_snoc, Ht1. cbn. by rewrite app_nil_r. }
  rewrite <- Hc1.
  do 3 (eapply wp_seq; [apply setopt_step|]; intros [[] ?] ? [-> ?]; cbn beta iota).
  cbn. intros rc _. destruct (Z.eqb_spec rc 0) as [->|Hrc]; cbn; [intros [] _; exists 0|exists rc]; cbn;
    rewrite (proj2 (Z.eqb_neq s NULL)) by done; rewrite !attempts_snoc in *; cbn in *;
    rewrite ?app_nil_r in *; cbn; (split_and!; [congruence|try done..|]); try congruence; symmetry; by apply Z.eqb_neq.
Qed.

Lemma single_227 rest :
  _uni_net_ftp_client_work_cmd_single (B "227 " ++ rest) = _uni_net_ftp_client_handler_227 (Some rest).
Proof.
  unfold _uni_net_ftp_client_work_cmd_single. rewrite length_app, length_B.
  rewrite (proj2 (Z.ltb_ge _ _)) by (cbn; lia). cbn [B orb].
  replace (atoi (take 3 (B "227 " ++ rest))) with 227; [done|].
  change (take 3 (B "227 " ++ rest)) with (B "227"). unfold atoi, strtol.
  destruct long_bits_ok as [-> | ->]; reflexivity.
Qed.

(** The handler of a well-formed reply. *)
Lemma passive_reply_eq text a b c d p1 p2 tail :
  "("%char ∉ text -> Forall (fun n => 0 <= n < 256) [a; b; c; d; p1; p2] ->
  _uni_net_ftp_client_work_cmd_single (passive_reply text a b c d p1 p2 tail)
  = (let! result :=
       (let! result := _uni_net_ftp_client_connect_socket Data (p1 * 256 + p2) in
        set_state UNI_NET_FTP_CLIENT_TASK_STATE_STARTED ;; ret result) in
     when (negb result) (set_type UNI_NET_FTP_CLIENT_TASK_TYPE_TERMINATION)).
Proof.
  intros Htext Hall.
  assert (Hport : passive_port p1 p2 = Some (p1 * 256 + p2)).
  { rewrite !Forall_cons in Hall. destruct Hall as (_ & _ & _ & _ & H5 & H6 & _). unfold passive_port.
    rewrite (proj2 (Z.leb_le _ _)), (proj2 (Z.ltb_lt _ _)), (proj2 (Z.ltb_lt _ _)) by lia. cbn [andb].
    rewrite u16_small by lia. done. }
  unfold passive_reply. rewrite single_227. unfold _uni_net_ftp_client_handler_227.
  rewrite strchr_app by done. rewrite skipn_cons, drop_0.
  assert (Hp : parse_passive 6 (commas [a; b; c; d; p1; p2] ++ ")"%char :: tail) = Some [a; b; c; d; p1; p2]).
  { apply (parse_passive_commas [a; b; c; d; p1; p2]); [done|eapply Forall_impl; [exact Hall|cbn; lia]|done]. }
  by rewrite Hp, Hport.
Qed.

(** C22: A 227 reply is understood: the client connects to the port that the two last
    numbers spell, at the address of the server it is configured for; the task
    goes on if the connection is there and ends otherwise. *)
Theorem passive_reply_connects (cl : ftp_client) text a b c d p1 p2 tail t :
  "("%char ∉ text ->
  Forall (fun n => 0 <= n < 256) [a; b; c; d; p1; p2] ->
  wp any_answer (_uni_net_ftp_client_work_cmd_single (passive_reply text a b c d p1 p2 tail) cl)
    (fun '(_, cl') t' => exists rc, let s := cl'.(state).(socket_data) in
       attempts t' = attempts t ++ (if s =? NULL then [] else
         [(s, mk_sockaddr FREERTOS_AF_INET (p2 * 256 + p1) cl.(config).(server_addr), rc)])
       /\ cl'.(state).(task) =
            (if negb (s =? NULL) && (rc =? 0)
             then cl.(state).(task) <| task_state := UNI_NET_FTP_CLIENT_TASK_STATE_STARTED |>
             else cl.(state).(task) <| task_state := UNI_NET_FTP_CLIENT_TASK_STATE_STARTED |>
                                    <| task_type := UNI_NET_FTP_CLIENT_TASK_TYPE_TERMINATION |>)) t.
Proof.
  intros Htext Hall. rewrite passive_reply_eq by done. apply wp_bind, wp_bind.
  eapply wp_mono; [apply connect_data_spec|]. intros [ok c1] t1 (rc & Ha & Hok & Ht & Hc & Hs). cbn.
  rewrite !Forall_cons in Hall. destruct Hall as (_ & _ & _ & _ & H5 & H6 & _).
  rewrite swap16_spec in Ha by lia.
  replace ((p1 * 256 + p2) mod 2 ^ 8 * 2 ^ 8 + (p1 * 256 + p2) / 2 ^ 8) with (p2 * 256 + p1) in Ha.
  2: { change (2 ^ 8) with 256. rewrite (Z.add_comm (p1 * 256) p2), Z.mod_add, Z.div_add, Z.mod_small, Z.div_small by lia. lia. }
  unfold when. destruct ok; cbn; exists rc; cbn; rewrite <- Ht; rewrite <- Hok; done.
Qed.

(** Numbers that are no octets can overflow the [int] that holds the port. *)
Lemma passive_port_overflow d4 d5 :
  0 <= d4 < 2 ^ 31 -> 0 <= d5 < 2 ^ 31 -> (passive_port d4 d5 = None <-> 2 ^ 31 <= d4 * 2 ^ 8 + d5).
Proof.
  intros H4 H5. unfold passive_port.
  destruct (Z.leb_spec 0 d4), (Z.ltb_spec (d4 * 2 ^ 8) (2 ^ 31)), (Z.ltb_spec (d4 * 2 ^ 8 + d5) (2 ^ 31)); cbn;
    (split; [try done; lia|try done; lia]).
Qed.

End Replies.
