(* ===== verification/FtpDialogue.v ===== *)
(** * The startup dialogue of the FTP client

    A reference for what the client says to the replies of a server, and the
    proof that the turns of the task say exactly this. *)

From S2P Require Import Prelude Env Prog Trace CString Decimal FtpClient FtpTask FtpReplies.
#[local] Open Scope prog_scope.

(** ** The reference *)

Inductive reply_kind : Set :=
| Ready       (* 220 *)
| Done        (* 200, 202, 230, 257 *)
| Need_login  (* 530 *)
| Need_password (* 331 *).

Definition kind_of (code : Z) : option reply_kind :=
  if code =? 220 then Some Ready
  else if bool_decide (code ∈ [200; 202; 230; 257]) then Some Done
  else if code =? 530 then Some Need_login
  else if code =? 331 then Some Need_password
  else None.

(** A reply as the server writes it. *)
Definition reply (code : Z) (sep : byte) (text : bytes) : bytes := dec code ++ sep :: text.

(** The answer to a reply while command [p] of the startup is under way: what is
    said, and the command that is then under way; three means that the client is
    idle. *)
Definition answer `{UniCommon} (user password : bytes) (p : nat) (k : reply_kind) : bytes * nat :=
  match k with
  | Ready => (default [] (_uni_net_ftp_client_startup_cmds !! 0%nat), 0%nat)
  | Done => (default [] (_uni_net_ftp_client_startup_cmds !! S p), S p)
  | Need_login => (format_cmd (B "USER ") user, p)
  | Need_password => (format_cmd (B "PASS ") password, p)
  end.

Fixpoint answers `{UniCommon} (user password : bytes) (p : nat) (ks : list reply_kind) : bytes * nat :=
  match ks with
  | [] => ([], p)
  | k :: ks' =>
      if (p <? 3)%nat then
        let '(said, p') := answer user password p k in
        let '(rest, q) := answers user password p' ks' in
        (said ++ rest, q)
      else ([], p)
  end.

(** ** Turns of the task *)

Fixpoint thread_turns `{Platform} `{UniCommon} (fuel n : nat) : M ftp_client unit :=
  match n with
  | O => ret tt
  | S n' =>
      let! brk := thread_turn fuel in
      match brk with
      | Some _ => ret tt
      | None => thread_turns fuel n'
      end
  end.

(** The server says the lines [ls], one for each turn after the trace [t0]; the
    stack accepts what is sent and the application is quiet. *)
Definition says (sock : ptr) (ls : list bytes) (t0 : trace) : contract := fun t c =>
  let next := ls !! (recvs sock t - recvs sock t0)%nat in
  match c return resp c -> Prop with
  | FreeRTOS_select _ _ => fun r => r <> 0
  | ftp_requests => fun rs => rs = []
  | FreeRTOS_FD_ISSET s _ => fun r => s = sock -> r <> 0
  | FreeRTOS_recvcount s => fun r => s = sock -> forall l, next = Some l -> r = len (eoln l)
  | pvPortCalloc _ _ => fun r => r <> NULL
  | FreeRTOS_recv s n => fun r => s = sock -> forall l, next = Some l -> len (eoln l) <= n -> r = (len (eoln l), eoln l)
  | FreeRTOS_send s d => fun r => s = sock -> r = len d
  | _ => fun _ => True
  end.

Definition line_ok (l : bytes) : Prop := (CR ∉ l) /\ (NUL ∉ l) /\ l <> [].

Section Dialogue.
Context `{PlatformOk} `{UniCommonSpec}.

(** Connected, without a data connection. *)
Definition talking (sock : ptr) (c : ftp_client) : Prop :=
  c.(state).(socket_cmd) = sock /\ sock <> NULL /\ c.(state).(socket_data) = NULL
  /\ c.(state).(task).(task_type) <> UNI_NET_FTP_CLIENT_TASK_TYPE_TERMINATION.

Lemma eoln_buffer l n : line_ok l -> n = len (eoln l) ->
  exists mem, write_at (replicate (Z.to_nat (n + 1)) NUL) 0 (eoln l) = Some mem /\ cstr mem = Some (eoln l).
Proof.
  intros (Hcr & Hnul & _) ->. unfold write_at. rewrite length_replicate, decide_True by lia.
  eexists. split; [done|]. cbn [take app].
  rewrite drop_replicate. replace (Z.to_nat (len (eoln l) + 1) - (0 + length (eoln l)))%nat with 1%nat by lia.
  apply cstr_app. unfold eoln. rewrite elem_of_app, !elem_of_cons. unfold NUL, CR, LF in *.
  intros [?|[?|[?|?%elem_of_nil]]]; done.
Qed.

(** Memory for the line is there, and the line is read as a whole. *)
Definition line_comes (ok : contract) (sock : ptr) (l : bytes) (t : trace) : Prop :=
  forall n b, ok t (pvPortCalloc n 1) b ->
    b <> NULL /\ forall m r, len (eoln l) <= m ->
      ok (t ++ [Ev (pvPortCalloc n 1) b]) (FreeRTOS_recv sock m) r -> r = (len (eoln l), eoln l).

(** The command connection has nothing, or one line: it is handled and its buffer is
    freed. *)
Lemma work_cmd_wp ok sock c t Q :
  c.(state).(socket_cmd) = sock -> c.(state).(task).(task_type) <> UNI_NET_FTP_CLIENT_TASK_TYPE_TERMINATION ->
  (forall n, ok t (FreeRTOS_recvcount sock) n ->
     let t1 := t ++ [Ev (FreeRTOS_recvcount sock) n] in
     (n <= 0 /\ Q (tt, c) t1)
     \/ (exists l, line_ok l /\ n = len (eoln l) /\ line_comes ok sock l t1
         /\ forall sz b, wp ok (_uni_net_ftp_client_work_cmd_single l c)
              (fun '(_, c1) t3 => c1.(state).(task).(task_type) <> UNI_NET_FTP_CLIENT_TASK_TYPE_TERMINATION
                 /\ Q (tt, c1) (t3 ++ [Ev (vPortFree b) tt]))
              ((t1 ++ [Ev (pvPortCalloc sz 1) b]) ++ [Ev (FreeRTOS_recv sock n) (n, eoln l)]))) ->
  wp ok (_uni_net_ftp_client_work_cmd c) Q t.
Proof.
  intros Hsock Hty Hcase. unfold _uni_net_ftp_client_work_cmd.
  cbn [bindM get bind do_call wp_gen]. rewrite Hsock. intros n Hn.
  destruct (Hcase n Hn) as [[Hle HQ]|(l & Hl & En & Hcomes & Hsingle)].
  { by rewrite (proj2 (Z.ltb_ge 0 n)). }
  assert (Hpos : 0 < len (eoln l)) by (unfold eoln; rewrite length_app; cbn; lia).
  rewrite (proj2 (Z.ltb_lt 0 n)) by lia. cbn [bindM bind do_call wp_gen].
  intros buf Hbuf. destruct (Hcomes _ _ Hbuf) as [Hnn Hrcv]. rewrite (proj2 (Z.eqb_neq buf NULL)) by done.
  cbn [bindM bind do_call wp_gen]. intros [rcv d] Hok. specialize (Hrcv n _ ltac:(lia) Hok). injection Hrcv as -> ->.
  cbn [bind]. destruct (eoln_buffer l n Hl En) as (mem & Hmem & Hc). rewrite (proj2 (Z.ltb_lt 0 (len (eoln l)))) by lia.
  cbn [bindM deref bind]. rewrite Hmem. cbn [bind]. rewrite Hc. cbn [bind].
  rewrite (proj2 (Z.leb_gt (len (eoln l)) 0)) by lia.
  cbn [lines_loop]. unfold eoln at 1 2. rewrite split_crlf_line by apply Hl.
  rewrite bool_decide_eq_false_2 by apply Hl. cbn [negb]. unfold when at 1.
  apply wp_bind. cbn [bindM]. rewrite <- En. eapply wp_seq; [apply Hsingle|].
  intros [[] c1] t2 [Hty1 HQ]. cbn [get bind].
  rewrite (proj2 (Z.eqb_neq _ _)) by exact Hty1.
  destruct (length (eoln l)) as [|m] eqn:Hlen; [lia|]. cbn [lines_loop split_crlf].
  rewrite bool_decide_eq_true_2 by done. unfold when. cbn [negb bindM ret get bind].
  rewrite (proj2 (Z.eqb_neq _ _)) by exact Hty1. cbn. by intros [] _.
Qed.

(** The buffer with one line of the dialogue. *)
Lemma work_cmd_line sock ls t0 l c t (R : ftp_client -> trace -> Prop) :
  talking sock c -> line_ok l -> ls !! (recvs sock t - recvs sock t0)%nat = Some l ->
  (forall t1, sent_on sock t1 = sent_on sock t -> recvs sock t1 = S (recvs sock t) ->
     wp (says sock ls t0) (_uni_net_ftp_client_work_cmd_single l c) (fun '(_, c1) t2 => R c1 t2) t1) ->
  (forall c1 t2, R c1 t2 -> talking sock c1) ->
  wp (says sock ls t0) (_uni_net_ftp_client_work_cmd c)
    (fun '(_, c1) t3 => exists t2 b, R c1 t2 /\ t3 = t2 ++ [Ev (vPortFree b) tt]) t.
Proof.
  intros (Hsock & Hnn & Hdata & Hty) Hl Hnext Hsingle HR. apply work_cmd_wp with (sock := sock); [done|done|].
  intros n Hn. cbn in Hn. specialize (Hn eq_refl l Hnext). right. exists l. split; [done|]. split; [done|]. split.
  - intros m b Hb. split; [exact Hb|]. intros k r Hk Hr. cbn [says] in Hr. rewrite !recvs_snoc in Hr. cbn in Hr.
    rewrite !Nat.add_0_r in Hr. by apply Hr.
  - intros sz b. eapply wp_mono; [apply Hsingle|].
    + rewrite !sent_on_snoc. cbn. by rewrite !app_nil_r.
    + rewrite !recvs_snoc. cbn. rewrite Z.eqb_refl. lia.
    + intros [[] c1] t2 Hc1. split; [by apply (HR _ _ Hc1)|]. by exists t2, b.
Qed.

(** One turn: the line is handled, and then the state machine of the task runs. *)
Lemma reply_turn fuel sock ls t0 l c t (R : ftp_client -> trace -> Prop) Q :
  talking sock c -> line_ok l -> ls !! (recvs sock t - recvs sock t0)%nat = Some l ->
  (forall t1, sent_on sock t1 = sent_on sock t -> recvs sock t1 = S (recvs sock t) ->
     wp (says sock ls t0) (_uni_net_ftp_client_work_cmd_single l c) (fun '(_, c1) t2 => R c1 t2) t1) ->
  (forall c1 t2, R c1 t2 -> talking sock c1) ->
  (forall c1 t2 b, R c1 t2 ->
     wp (says sock ls t0) (_uni_net_ftp_client_work_state c1) (fun '(_, c2) t3 => Q (None, c2) t3)
       (t2 ++ [Ev (vPortFree b) tt])) ->
  wp (says sock ls t0) (thread_turn fuel c) Q t.
Proof.
  intros Htalk Hl Hnext Hsingle HR Hstate. pose proof Htalk as (Hsock & Hnn & _).
  unfold thread_turn. cbn [bindM get bind].
  rewrite (proj2 (Z.eqb_neq c.(state).(socket_cmd) NULL)) by congruence. cbn [bindM get bind ret negb do_call wp_gen].
  intros sel Hsel. cbn [bind wp_gen]. intros rs Hrs. cbn in Hrs. subst rs. cbn [requests bindM get bind ret].
  rewrite (proj2 (Z.eqb_neq sel 0)) by exact Hsel. cbn [negb bindM bind do_call wp_gen].
  intros isset Hisset. cbn in Hisset. rewrite (proj2 (Z.eqb_neq isset 0)) by auto. cbn [negb bind]. unfold when at 1.
  apply wp_bind. eapply wp_seq.
  { apply (work_cmd_line sock ls t0 l c _ R); [done|done|by rewrite !recvs_snoc, !Nat.add_0_r| |done].
    intros t1 Hs Hr. apply Hsingle; [rewrite Hs, !sent_on_snoc; cbn; by rewrite !app_nil_r|].
    rewrite Hr, !recvs_snoc. cbn. lia. }
  intros [[] c1] t3 (t2 & b & Hc1 & ->). destruct (HR _ _ Hc1) as (_ & _ & Hd1 & _).
  cbn [bindM get bind]. rewrite Hd1. unfold when. cbn [Z.eqb NULL negb ret bind bindM].
  eapply wp_seq; [by apply Hstate|]. intros [[] c2] t4 HQ. exact HQ.
Qed.

(** ** Replies by code *)

Definition sep_ok (sep : byte) : Prop := sep = SP \/ sep = "-"%char.

Lemma single_reply code sep text h :
  0 <= code < 2 ^ 31 -> length (dec code) = 3%nat -> sep_ok sep ->
  find_handler _uni_net_ftp_client_cmd_map code = Some h ->
  _uni_net_ftp_client_work_cmd_single (reply code sep text) = h (Some text).
Proof.
  intros Hc Hl Hsep Hh. unfold _uni_net_ftp_client_work_cmd_single, reply.
  rewrite length_app, Hl, (proj2 (Z.ltb_ge _ _)) by (cbn; lia).
  rewrite lookup_app_r by lia. rewrite Hl. cbn [Nat.sub lookup list_lookup].
  assert (Hs : negb (beqb sep SP) && negb (beqb sep "-"%char) = false)
    by (destruct Hsep as [-> | ->]; rewrite beqb_refl; [done|apply andb_false_r]).
  rewrite Hs. cbn [orb]. rewrite <- Hl at 1. rewrite take_app_length.
  assert (Hd : drop 4 (dec code ++ sep :: text) = text)
    by (rewrite drop_app_ge, Hl by lia; done).
  rewrite Hd. unfold atoi. pose proof (strtol_dec code [] Hc I) as Ha. rewrite app_nil_r in Ha. rewrite Ha.
  cbn [fst]. rewrite i32_small by lia. by rewrite Hh.
Qed.

(** While command [p] of the startup is under way. *)
Definition starting (sock : ptr) (user password : bytes) (p : nat) (c : ftp_client) : Prop :=
  talking sock c /\ c.(config).(auth_user) = Some user /\ c.(config).(auth_password) = Some password
  /\ c.(state).(task).(task_type) = UNI_NET_FTP_CLIENT_TASK_TYPE_STARTUP
  /\ c.(state).(task).(task_state) = UNI_NET_FTP_CLIENT_TASK_STATE_IN_PROGRESS
  /\ c.(state).(task).(progress) = Z.of_nat p /\ (p < 3)%nat
  /\ 0 <= c.(state).(task).(progress_total) < 2 ^ 32.

(** Afterwards: the next command is under way, or the client is idle. *)
Definition started (sock : ptr) (user password : bytes) (p : nat) (c : ftp_client) : Prop :=
  if (p <? 3)%nat then starting sock user password p c
  else p = 3%nat /\ uni_net_ftp_client_is_idle (Some c) = true.

(** What the reply does to the client before the state machine runs. *)
Definition handled (c : ftp_client) (k : reply_kind) (c1 : ftp_client) : Prop :=
  c1 = match k with
       | Ready => upd_task (fun t => t <| task_state := UNI_NET_FTP_CLIENT_TASK_STATE_NOT_STARTED |> <| progress := 0 |>) c
       | Done => upd_task (fun t => t <| task_state := UNI_NET_FTP_CLIENT_TASK_STATE_FINISHED |>) c
       | Need_login | Need_password => c
       end.

Definition said_at_once (user password : bytes) (k : reply_kind) : bytes :=
  match k with
  | Need_login => format_cmd (B "USER ") user
  | Need_password => format_cmd (B "PASS ") password
  | _ => []
  end.

Lemma send_cmd_says sock ls t0 cmd c t : c.(state).(socket_cmd) = sock ->
  wp (says sock ls t0) (_uni_net_ftp_client_send_cmd (Some cmd) c)
    (fun '(_, c') t' => c' = c /\ sent_on sock t' = sent_on sock t ++ cmd /\ recvs sock t' = recvs sock t) t.
Proof.
  intros Hs. cbn. rewrite Hs. intros r Hr. specialize (Hr eq_refl). rewrite Hr. split; [done|].
  rewrite sent_on_send, recvs_snoc. cbn. rewrite Nat2Z.id, firstn_all. lia || (split; [done|lia]).
Qed.

Lemma kind_handled sock ls t0 user password p code k sep text c t :
  starting sock user password p c -> kind_of code = Some k -> sep_ok sep ->
  wp (says sock ls t0) (_uni_net_ftp_client_work_cmd_single (reply code sep text) c)
    (fun '(_, c1) t1 => handled c k c1 /\ sent_on sock t1 = sent_on sock t ++ said_at_once user password k
       /\ recvs sock t1 = recvs sock t) t.
Proof.
  intros ((Hsock & _) & Hu & Hp & Hty & _) Hk Hsep. unfold kind_of in Hk.
  destruct (Z.eqb_spec code 220) as [->|_].
  { injection Hk as <-. erewrite single_reply; [|lia|done|done|done].
    unfold _uni_net_ftp_client_handler_220. cbn [bindM get bind]. rewrite Hty. cbn. by rewrite app_nil_r. }
  case_bool_decide as Hdone.
  { injection Hk as <-. rewrite !elem_of_cons in Hdone.
    destruct Hdone as [-> | [-> | [-> | [-> | Hn%elem_of_nil]]]]; [..|done];
      (erewrite single_reply; [|lia|done|done|done]; cbn; by rewrite app_nil_r). }
  destruct (Z.eqb_spec code 530) as [->|_].
  { injection Hk as <-. erewrite single_reply; [|lia|done|done|done].
    unfold _uni_net_ftp_client_handler_530, _uni_net_ftp_client_send_login. cbn [bindM get bind deref]. rewrite Hu.
    cbn [bind]. eapply wp_seq; [by apply send_cmd_says|]. intros [b c1] t1 (-> & Hs & Hr). done. }
  destruct (Z.eqb_spec code 331) as [->|_]; [|done].
  injection Hk as <-. erewrite single_reply; [|lia|done|done|done].
  unfold _uni_net_ftp_client_handler_331, _uni_net_ftp_client_send_password. cbn [bindM get bind deref]. rewrite Hp.
  cbn [bind]. eapply wp_seq; [by apply send_cmd_says|]. intros [b c1] t1 (-> & Hs & Hr). done.
Qed.

Definition said_later (p : nat) (k : reply_kind) : bytes :=
  match k with
  | Ready => default [] (_uni_net_ftp_client_startup_cmds !! 0%nat)
  | Done => default [] (_uni_net_ftp_client_startup_cmds !! S p)
  | Need_login | Need_password => []
  end.

Lemma answer_said user password p k :
  (answer user password p k).1 = said_at_once user password k ++ said_later p k.
Proof. destruct k; cbn; by rewrite ?app_nil_r. Qed.

(** The state machine then says the rest. *)
Lemma startup_next_answer sock user password p k c c1 :
  starting sock user password p c -> handled c k c1 ->
  default [] (startup_next c1.(state).(task)).2 = said_later p k
  /\ started sock user password (answer user password p k).2 (upd_task (fun _ => (startup_next c1.(state).(task)).1) c1).
Proof.
  intros (Ht & Hu & Hp & Hty & Hst & Hpr & Hlt & Htot) Hh. unfold handled in Hh. subst c1. destruct Ht as (Hsock & Hnn & Hdata & _).
  destruct c as [cfg [th ss so sd [ty st ck pr tot n] cb co]]. cbn in Hsock, Hdata, Hu, Hp, Hty, Hst, Hpr, Htot. subst.
  assert (Hidle : forall x y, negb (sock =? NULL) || x = true -> y = true -> (negb (sock =? NULL) || x) && y = true)
    by (intros x y -> ->; done).
  assert (p = 0 \/ p = 1 \/ p = 2)%nat as [-> | [-> | ->]] by lia; destruct k;
    (split; [reflexivity|]); unfold started, starting, talking; cbn [answer snd Nat.ltb Nat.leb];
    first [ split_and!; first [reflexivity|done|exact (proj1 Htot)|exact (proj2 Htot)|lia]
          | split; [done|]; apply Hidle; [|done]; by rewrite (proj2 (Z.eqb_neq sock NULL)) ].
Qed.

Lemma state_answers sock ls t0 user password p k c c1 t :
  starting sock user password p c -> handled c k c1 ->
  wp (says sock ls t0) (_uni_net_ftp_client_work_state c1)
    (fun '(_, c2) t2 => sent_on sock t2 = sent_on sock t ++ said_later p k
       /\ recvs sock t2 = recvs sock t /\ started sock user password (answer user password p k).2 c2) t.
Proof.
  intros Hc Hh. destruct (startup_next_answer _ _ _ _ _ _ _ Hc Hh) as [Hsaid Hst].
  destruct Hc as ((Hsock & _) & _ & _ & Hty & _ & Hpr & Hlt & Htot).
  assert (Hc1 : c1.(state).(task).(task_type) = UNI_NET_FTP_CLIENT_TASK_TYPE_STARTUP
                /\ task_inv c1.(state).(task) /\ c1.(state).(socket_cmd) = sock).
  { rewrite Hh. unfold task_inv. change _uni_net_ftp_client_startup_cmds_cnt with 3.
    destruct k; cbn; rewrite ?Hpr; split_and!; try done; lia. }
  destruct Hc1 as (Hty1 & Hinv & Hsock1). pose proof (startup_eq c1 Hty1 Hinv) as Heq.
  unfold _uni_net_ftp_client_work_state. cbn [bindM get bind]. rewrite Hty1.
  change (UNI_NET_FTP_CLIENT_TASK_TYPE_STARTUP =? UNI_NET_FTP_CLIENT_TASK_TYPE_STARTUP) with true. cbn iota.
  destruct (startup_next _) as [t' [cmd|]]; cbn in Hsaid, Hst; rewrite Heq, <- Hsaid.
  - eapply wp_seq; [by apply send_cmd_says|]. intros [b c2] t2 (-> & Hs & Hn). done.
  - cbn. by rewrite app_nil_r.
Qed.

(** The replies of a server: code, separator and text. *)
Definition reply_ok (r : Z * byte * bytes) (k : reply_kind) : Prop :=
  kind_of r.1.1 = Some k /\ sep_ok r.1.2 /\ (CR ∉ r.2) /\ (NUL ∉ r.2).

Definition reply_line (r : Z * byte * bytes) : bytes := reply r.1.1 r.1.2 r.2.

Lemma dec_plain z x : isdigit x = false -> x ∉ dec z.
Proof.
  intros Hx Hin. pose proof (dec_digits z) as Hd. rewrite Forall_forall in Hd.
  specialize (Hd x Hin). congruence.
Qed.

Lemma reply_line_ok r k : reply_ok r k -> line_ok (reply_line r).
Proof.
  intros (_ & Hsep & Hcr & Hnul). unfold reply_line, reply.
  split_and!; [..|intros Hn%app_eq_nil; by destruct Hn];
    rewrite elem_of_app, elem_of_cons; (intros [Hd|[Hs|Ht]]; [by apply dec_plain in Hd| |done]);
    by destruct Hsep as [Hsep|Hsep]; rewrite Hsep in Hs.
Qed.

Lemma dialogue_turn fuel sock ls t0 user password p r k c t :
  starting sock user password p c -> reply_ok r k ->
  ls !! (recvs sock t - recvs sock t0)%nat = Some (reply_line r) ->
  wp (says sock ls t0) (thread_turn fuel c)
    (fun '(brk, c') t' => brk = None
       /\ sent_on sock t' = sent_on sock t ++ (answer user password p k).1
       /\ recvs sock t' = S (recvs sock t) /\ started sock user password (answer user password p k).2 c') t.
Proof.
  intros Hc Hr Hnext.
  apply (reply_turn fuel sock ls t0 (reply_line r) c t (fun c1 t2 => handled c k c1
    /\ sent_on sock t2 = sent_on sock t ++ said_at_once user password k /\ recvs sock t2 = S (recvs sock t)));
    [apply Hc|by eapply reply_line_ok|done|..].
  - intros t1 Hs Hn. eapply wp_mono; [eapply kind_handled; [exact Hc|apply Hr|apply Hr]|].
    intros [[] c1] t2 (Hh & Hs2 & Hn2). split_and!; [done|congruence|congruence].
  - intros c1 t2 (-> & _). destruct Hc as (Hc & _). by destruct k.
  - intros c1 t2 b (Hh & Hs & Hn). eapply wp_mono; [by eapply state_answers|].
    intros [[] c2] t3 (Hs3 & Hn3 & Hst). split_and!; [done|..|done].
    + rewrite Hs3, answer_said, sent_on_snoc, Hs. cbn. by rewrite app_nil_r, <- app_assoc.
    + rewrite Hn3, recvs_snoc, Hn. cbn. lia.
Qed.

(** No reply comes after the startup is over. *)
Fixpoint in_startup (p : nat) (ks : list reply_kind) : Prop :=
  match ks with
  | [] => True
  | k :: ks' => (p < 3)%nat /\ in_startup (answer [] [] p k).2 ks'
  end.

Lemma answer_next user password p k : (answer user password p k).2 = (answer [] [] p k).2.
Proof. by destruct k. Qed.

Lemma dialogue_turns fuel sock ls t0 user password rs ks p c t :
  Forall2 reply_ok rs ks -> started sock user password p c -> in_startup p ks ->
  (recvs sock t0 <= recvs sock t)%nat ->
  (forall i r, rs !! i = Some r -> ls !! (recvs sock t - recvs sock t0 + i)%nat = Some (reply_line r)) ->
  wp (says sock ls t0) (thread_turns fuel (length rs) c)
    (fun '(_, c') t' => sent_on sock t' = sent_on sock t ++ (answers user password p ks).1
       /\ started sock user password (answers user password p ks).2 c') t.
Proof.
  intros Hall. revert p c t. induction Hall as [|r k rs ks Hr _ IH]; intros p c t Hst Hin Hle Hls.
  { cbn. by rewrite app_nil_r. }
  destruct Hin as [Hp Hin]. unfold started in Hst. rewrite (proj2 (Nat.ltb_lt p 3)) in Hst by done.
  cbn [length thread_turns bindM]. eapply wp_seq; [eapply dialogue_turn; [done|done|]|].
  { rewrite <- (Hls 0%nat r eq_refl). f_equal. lia. }
  intros [brk c1] t1 (-> & Hs1 & Hn1 & Hst1). cbn beta iota.
  cbn [answers]. rewrite (proj2 (Nat.ltb_lt p 3)) by done. rewrite <- (answer_next user password) in Hin.
  destruct (answer user password p k) as [said p'] eqn:Ha. cbn [fst snd] in Hs1, Hst1, Hin.
  eapply wp_mono; [apply (IH p'); [done|done|lia|]|].
  { intros i r' Hi. rewrite <- (Hls (S i) r' Hi). f_equal. lia. }
  intros [[] c2] t2 (Hs2 & Hst2). destruct (answers user password p' ks) as [rest q]. cbn in *.
  split; [|done]. by rewrite Hs2, Hs1, <- app_assoc.
Qed.


End Dialogue.
