(* ===== verification/FtpTransfer.v ===== *)
(** * Transfers of the FTP client

    What the data connection delivers reaches the callback; how a transfer
    begins, ends and fails; and what goes wrong. *)

From S2P Require Import Prelude Env Prog Trace CString FtpClient FtpTask FtpClientSpec FtpReplies FtpDialogue.
#[local] Open Scope prog_scope.

(** ** Observations *)

(** Buffers taken from the data connection, with their contents. *)
Definition taken_event (e : event) : list (ptr * bytes) :=
  match e with
  | Ev c r =>
      match c return resp c -> list (ptr * bytes) with
      | FreeRTOS_recv_zero_copy _ _ _ => fun r => if 0 <? r.1 then [r.2] else []
      | _ => fun _ => []
      end r
  end.
Definition taken (t : trace) : list (ptr * bytes) := flat_map taken_event t.

(** What the callback was called with: type, data and size. *)
Definition told_event (e : event) : list (Z * option bytes * Z) :=
  match e.(ev_call) with
  | ftp_callback _ _ _ ty d n => [(ty, d, n)]
  | _ => []
  end.
Definition told (t : trace) : list (Z * option bytes * Z) := flat_map told_event t.

(** Buffers given back, with the count that was given back. *)
Definition released_event (e : event) : list (ptr * Z) :=
  match e.(ev_call) with
  | FreeRTOS_ReleaseTCPPayloadBuffer _ b n => [(b, n)]
  | _ => []
  end.
Definition released (t : trace) : list (ptr * Z) := flat_map released_event t.

#[global] Arguments taken t : simpl never.
#[global] Arguments told t : simpl never.
#[global] Arguments released t : simpl never.

Lemma taken_snoc t e : taken (t ++ [e]) = taken t ++ taken_event e.
Proof. unfold taken. rewrite flat_map_app. cbn. by rewrite app_nil_r. Qed.
Lemma told_snoc t e : told (t ++ [e]) = told t ++ told_event e.
Proof. unfold told. rewrite flat_map_app. cbn. by rewrite app_nil_r. Qed.
Lemma released_snoc t e : released (t ++ [e]) = released t ++ released_event e.
Proof. unfold released. rewrite flat_map_app. cbn. by rewrite app_nil_r. Qed.

Create Rewrite HintDb ftp_trace.
#[export] Hint Rewrite taken_snoc told_snoc released_snoc app_nil_r @app_assoc : ftp_trace.

(** The chunks [got] went through: taken, told and given back, in order. *)
Definition went_through (got : list (ptr * bytes)) (t t' : trace) : Prop :=
  taken t' = taken t ++ got
  /\ told t' = told t ++ map (fun p => (UNI_NET_FTP_CLIENT_CALLBACK_RECV, Some p.2, len p.2)) got
  /\ released t' = released t ++ map (fun p => (p.1, len p.2)) got.

Lemma went_through_app g1 g2 t1 t2 t3 :
  went_through g1 t1 t2 -> went_through g2 t2 t3 -> went_through (g1 ++ g2) t1 t3.
Proof.
  intros (H1 & H2 & H3) (H4 & H5 & H6). unfold went_through. rewrite H4, H5, H6, H1, H2, H3, !map_app, !app_assoc.
  done.
Qed.

Definition volume (got : list (ptr * bytes)) : Z := len (concat (map snd got)).

Lemma volume_cons x got : volume (x :: got) = len x.2 + volume got.
Proof. unfold volume. cbn. rewrite length_app. lia. Qed.

(** The application keeps its callback during a transfer. *)
Definition steady : contract := fun t c r =>
  ftp_ok t c r
  /\ match c return resp c -> Prop with
     | ftp_callback _ _ _ _ _ _ => fun rs => Forall (fun q => match q with Ftp_set_callback _ _ => False | _ => True end) rs
     | _ => fun _ => True
     end r.

(** The client after [n] more bytes; it may have been told to terminate. *)
Definition progressed (n : Z) (c c' : ftp_client) : Prop :=
  same_handles c c' /\ c'.(state).(callback) = c.(state).(callback)
  /\ c'.(state).(task).(progress) = u32 (c.(state).(task).(progress) + n)
  /\ c'.(state).(task).(progress_total) = c.(state).(task).(progress_total)
  /\ busy c'.(state).(task).

Section Transfer.
Context `{PlatformOk} `{UniCommonSpec}.

Lemma requests_steady rs c t E ok :
  c.(state).(task).(task_type) <> UNI_NET_FTP_CLIENT_TASK_TYPE_IDLE ->
  Forall (fun q => match q with Ftp_set_callback _ _ => False | _ => True end) rs ->
  wp_gen E ok (requests rs c)
    (fun '(_, c') t' => t' = t /\ told_to_terminate c c' /\ c'.(state).(callback) = c.(state).(callback)) t.
Proof.
  intros Hty Hrs. revert c Hty. induction Hrs as [|q rs Hq _ IH]; intros c Hty; cbn.
  { split; [done|]. split; [|done]. split; [done|by left]. }
  destruct (request_busy q c Hty) as (c1 & Hr & Hh & Ht).
  assert (Hcb : c1.(state).(callback) = c.(state).(callback)).
  { assert (Hidle : uni_net_ftp_client_is_idle (Some c) = false).
    { unfold uni_net_ftp_client_is_idle. rewrite (proj2 (Z.eqb_neq _ _)) by done. apply andb_false_r. }
    destruct q; cbn in Hr; [|..|done].
    - unfold uni_net_ftp_client_download in Hr. rewrite Hidle in Hr. by simplify_eq/=.
    - unfold uni_net_ftp_client_list in Hr. rewrite Hidle in Hr. by simplify_eq/=.
    - by simplify_eq/=. }
  rewrite Hr. cbn. eapply wp_mono; [apply IH; by destruct Ht as [-> | ->]|].
  intros [[] c2] t' (-> & (Hh' & Ht') & Hcb'). split; [done|]. split; [|congruence]. split; [by etrans|].
  destruct Ht as [Ht|Ht], Ht' as [Ht'|Ht']; rewrite Ht', Ht; cbn; auto.
Qed.

Lemma steady_MSS n : n <= ipconfigTCP_MSS -> - 2 ^ 31 <= n -> i32 n = n.
Proof. intros. pose proof MSS_max. apply i32_small. lia. Qed.

(** The callback during a transfer. *)
Lemma callback_steady c d n t :
  busy c.(state).(task) -> c.(state).(callback) <> NULL ->
  wp steady (call_callback UNI_NET_FTP_CLIENT_CALLBACK_RECV d n c)
    (fun '(_, c') t' => taken t' = taken t /\ released t' = released t
       /\ told t' = told t ++ [(UNI_NET_FTP_CLIENT_CALLBACK_RECV, d, n)]
       /\ told_to_terminate c c' /\ c'.(state).(callback) = c.(state).(callback)) t.
Proof.
  intros [Hty _]%busy_type Hcb. unfold call_callback. cbn.
  rewrite (proj2 (Z.eqb_neq _ _)) by done. cbn. intros rs [_ Hrs].
  eapply wp_mono; [by apply requests_steady|]. intros [[] c'] t' (-> & Ht & Hc).
  rewrite taken_snoc, released_snoc, told_snoc. cbn. rewrite !app_nil_r. done.
Qed.

Lemma progressed_zero c : task_inv c.(state).(task) -> busy c.(state).(task) -> progressed 0 c c.
Proof.
  intros (_ & Hp & _) Hb. split; [done|]. split; [done|]. split; [|done].
  rewrite Z.add_0_r, u32_small by done. done.
Qed.

(** One pass of the loop. *)
Lemma chunk_spec c t :
  busy c.(state).(task) -> c.(state).(callback) <> NULL -> task_inv c.(state).(task) ->
  wp steady (data_chunk c) (fun '(cnt, c') t' => exists got,
      went_through got t t' /\ volume got = Z.max 0 cnt /\ cnt <= ipconfigTCP_MSS
      /\ progressed (Z.max 0 cnt) c c' /\ (length got <= 1)%nat) t.
Proof.
  intros Hb Hcb Hinv. unfold data_chunk. cbn [bindM get bind do_call wp_gen].
  intros [cnt [buf bs]] [[Hcnt Hbuf] _]. cbn in Hcnt, Hbuf.
  specialize (Hcnt ltac:(pose proof MSS_min; lia)). cbn [bind]. rewrite steady_MSS by lia.
  destruct (Z.ltb_spec 0 cnt) as [Hpos|Hneg]; cbn [andb].
  2: { cbn. exists []. rewrite Z.max_l by done. split; [|split_and!; [done|lia|by apply progressed_zero|cbn; lia]].
       unfold went_through. rewrite taken_snoc, told_snoc, released_snoc. cbn.
       rewrite (proj2 (Z.ltb_ge 0 cnt)) by done. by rewrite !app_nil_r. }
  destruct (Hbuf Hpos) as [Hnn Hlen]. rewrite (proj2 (Z.eqb_neq buf NULL)) by done. cbn [negb]. unfold when at 1.
  assert (Htake : take (Z.to_nat cnt) bs = bs) by (rewrite <- Hlen, Nat2Z.id; apply firstn_all).
  rewrite Htake.
  assert (exists c1, when (task_state (task (state c)) =? UNI_NET_FTP_CLIENT_TASK_STATE_STARTED)
            (set_state UNI_NET_FTP_CLIENT_TASK_STATE_IN_PROGRESS) c = Ret (tt, c1)
            /\ same_handles c c1 /\ callback (state c1) = callback (state c) /\ busy (task (state c1))
            /\ progress (task (state c1)) = progress (task (state c))
            /\ progress_total (task (state c1)) = progress_total (task (state c)))
    as (c1 & Hc1 & Hh1 & Hcb1 & Hb1 & Hp1 & Ht1).
  { unfold when. case_match; eexists; (split; [done|]); done. }
  apply wp_bind. cbn [bindM]. rewrite Hc1. cbn [bind].
  eapply wp_seq; [apply callback_steady; [done|congruence]|].
  intros [[] c2] t2 (Htk & Hrel & Htold & Htt & Hcb2). cbn. intros [] _.
  exists [(buf, bs)]. rewrite Z.max_r by lia. split; [|split; [|split; [|split; [|cbn; lia]]]].
  - unfold went_through. rewrite taken_snoc, told_snoc, released_snoc, Htk, Hrel, Htold.
    rewrite taken_snoc, told_snoc, released_snoc. cbn. rewrite (proj2 (Z.ltb_lt 0 cnt)), Hlen, !app_nil_r by done. done.
  - rewrite volume_cons. unfold volume. cbn. lia.
  - lia.
  - destruct Htt as [Hh2 Ht2]. split; [etrans; [exact Hh1|by etrans]|]. split; [cbn; congruence|]. cbn.
    rewrite <- Hp1, <- Ht1. pose proof (told_busy c1 c2 (conj Hh2 Ht2) Hb1) as Hb2.
    split_and!; [by destruct Ht2 as [-> | ->]..|exact Hb2].
Qed.

(** ** The loop *)

Lemma progressed_trans n1 n2 c1 c2 c3 :
  0 <= n1 -> progressed n1 c1 c2 -> progressed n2 c2 c3 -> progressed (n1 + n2) c1 c3.
Proof.
  intros Hn (Hh & Hcb & Hp & Ht & _) (Hh' & Hcb' & Hp' & Ht' & Hb'). split; [by etrans|].
  split; [congruence|]. rewrite Hp', Hp. unfold u32. rewrite Z.add_mod_idemp_l by lia.
  split_and!; [f_equal; lia|congruence|done].
Qed.

(** The loop ends and everything it took went through: each buffer was shown to
    the callback once and in order and then given back, and [progress] counts the
    bytes.  It stops when the stack has nothing more or the total is reached. *)
Lemma data_loop_spec fuel c t :
  busy c.(state).(task) -> c.(state).(callback) <> NULL -> task_inv c.(state).(task) ->
  c.(state).(task).(progress_total) + ipconfigTCP_MSS < 2 ^ 32 ->
  c.(state).(task).(progress) <= c.(state).(task).(progress_total) ->
  c.(state).(task).(progress_total) - c.(state).(task).(progress) < Z.of_nat fuel ->
  wp steady (data_loop fuel c) (fun '(_, c') t' => exists got,
      went_through got t t' /\ progressed (volume got) c c') t.
Proof.
  revert c t. induction fuel as [|fuel IH]; intros c t Hb Hcb Hinv Hroom Hle Hf; [lia|].
  cbn [data_loop bindM]. eapply wp_seq; [by apply chunk_spec|].
  intros [cnt c1] t1 (g1 & Hg1 & Hv1 & Hm1 & Hp1 & _). cbn beta iota. cbn [bindM get bind].
  rewrite <- Hv1 in Hp1. pose proof Hp1 as (_ & Hcb1 & Hpr1 & Htot1 & Hb1).
  destruct ((0 <? cnt) && _) eqn:Hgo; [|cbn; by exists g1].
  apply andb_true_iff in Hgo as [Hpos%Z.ltb_lt Hlt%Z.ltb_lt].
  pose proof Hinv as (_ & Hpr & Htt). rewrite u32_small in Hpr1 by lia.
  assert (Hinv1 : task_inv c1.(state).(task)).
  { split; [intros Hty; by apply busy_type in Hb1 as [_ ?]|]. lia. }
  eapply wp_mono; [apply IH; [done|congruence|done|lia..]|].
  intros [[] c2] t2 (g2 & Hg2 & Hp2). exists (g1 ++ g2). split; [by eapply went_through_app|].
  replace (volume (g1 ++ g2)) with (volume g1 + volume g2).
  { eapply progressed_trans; [unfold volume; lia|done|done]. }
  unfold volume. rewrite map_app, concat_app, length_app. lia.
Qed.

(** C14: Nothing of a transfer is lost or shown twice: as long as the application
    keeps its callback, the data that is taken from the stack in one call reaches
    it in order, each buffer is given back with its length, [progress] counts the
    bytes, and the loop ends. *)
Theorem ftp_data_accounts fuel (c : ftp_client) t :
  transferring c.(state).(task) -> c.(state).(callback) <> NULL -> task_inv c.(state).(task) ->
  c.(state).(task).(progress) <= c.(state).(task).(progress_total) ->
  c.(state).(task).(progress_total) + ipconfigTCP_MSS < 2 ^ 32 ->
  c.(state).(task).(progress_total) - c.(state).(task).(progress) < Z.of_nat fuel ->
  wp steady (_uni_net_ftp_client_work_data fuel c) (fun '(_, c') t' => exists got,
      went_through got t t' /\ progressed (volume got) c c') t.
Proof.
  intros Htr Hcb Hinv Hle Hroom Hf. unfold _uni_net_ftp_client_work_data. cbn [bindM get bind].
  replace (_ || _) with true by by destruct Htr as [-> | ->].
  apply data_loop_spec; [by left|done..].
Qed.

(** ** Requests *)

(** The task of a download. *)
Definition download_task (name : bytes) (ck : ptr) (size : Z) (t : ftp_task) : ftp_task := t
  <| task_type := UNI_NET_FTP_CLIENT_TASK_TYPE_RETR |>
  <| task_state := UNI_NET_FTP_CLIENT_TASK_STATE_NOT_STARTED |>
  <| progress := 0 |>
  <| progress_total := u32 size |>
  <| cookie_file := ck |>
  <| task_name := name |>.

Lemma download_starts (c : ftp_client) filename ck size :
  ctx_ok c -> (NUL ∉ filename) -> uni_net_ftp_client_is_idle (Some c) = true ->
  exists name, uni_net_ftp_client_download (Some c) filename ck size
               = (true, Some (Some (upd_task (download_task name ck size) c)))
    /\ cstr name = Some (take 31 filename).
Proof.
  intros ([Hlen Hlast] & _) Hnul Hidle. unfold uni_net_ftp_client_download, strncpy. rewrite Hidle.
  change (sizeof_name - 1)%nat with 31%nat in *. unfold sizeof_name in Hlen.
  remember (take 31 filename ++ replicate (31 - length (take 31 filename)) NUL) as d eqn:Hd.
  assert (Hld : length d = 31%nat) by (rewrite Hd, length_app, length_replicate, length_take; lia).
  destruct (write_at_Some (task_name (task (state c))) 0 d) as (name & Hw & _ & _); [lia|].
  rewrite Hw. exists name. split; [done|].
  apply write_at_inv in Hw as [_ ->]. rewrite Hld. cbn [take app Nat.add].
  assert (Hdrop : drop 31 (task_name (task (state c))) = [NUL]).
  { rewrite (drop_S _ NUL 31 Hlast). f_equal. apply drop_ge. lia. }
  rewrite Hdrop, Hd, <- app_assoc.
  assert (Hfree : NUL ∉ take 31 filename) by (intros (i & Hi & _)%elem_of_take; apply Hnul; by eapply list_elem_of_lookup_2).
  destruct (31 - length (take 31 filename))%nat as [|k]; cbn [replicate app]; by apply cstr_app.
Qed.

(** A download starts from an idle client only, with the first 31 characters of
    the name as a terminated string; otherwise nothing changes. *)
Theorem download_request (c : ftp_client) filename ck size :
  ctx_ok c -> (NUL ∉ filename) ->
  if uni_net_ftp_client_is_idle (Some c)
  then exists c', uni_net_ftp_client_download (Some c) filename ck size = (true, Some (Some c'))
       /\ cstr c'.(state).(task).(task_name) = Some (take 31 filename) /\ ctx_ok c'
       /\ c'.(state).(task).(task_type) = UNI_NET_FTP_CLIENT_TASK_TYPE_RETR
       /\ c'.(state).(task).(task_state) = UNI_NET_FTP_CLIENT_TASK_STATE_NOT_STARTED
       /\ c'.(state).(task).(progress) = 0 /\ c'.(state).(task).(progress_total) = u32 size
  else uni_net_ftp_client_download (Some c) filename ck size = (false, Some (Some c)).
Proof.
  intros Hok Hnul. destruct (uni_net_ftp_client_is_idle (Some c)) eqn:Hidle.
  - destruct (download_starts c filename ck size Hok Hnul Hidle) as (name & Hd & Hn).
    destruct (request_ok (Ftp_download filename ck size) c Hok) as (c' & Hr & Hm & _). cbn in Hr. rewrite Hd in Hr.
    injection Hr as <-. eexists. split; [done|]. split; [done|]. split; [apply Hm|done].
  - unfold uni_net_ftp_client_download. by rewrite Hidle.
Qed.

(** ** Commands *)

Lemma format_cmd_eq verb arg : format_cmd verb arg = take 63 (verb ++ arg ++ [CR; LF]).
Proof.
  unfold format_cmd. rewrite snprintf_spec by lia. cbn [fst]. autorewrite with render. by rewrite app_nil_r.
Qed.

Lemma cstr_length l s : cstr l = Some s -> (length s < length l)%nat.
Proof.
  revert s. induction l as [|c l IH]; cbn; [done|]. intros s. case_match; [intros [= <-]; cbn; lia|].
  destruct (cstr l) as [s'|]; [|done]. intros [= <-]. cbn. specialize (IH s' eq_refl). lia.
Qed.

(** C33: A command with an argument fits its buffer of 64 bytes if the argument has at
    most 56 characters; a longer one goes out without its line feed, so that the
    server waits for the rest.  The name of a file always fits. *)
Theorem command_lines verb arg :
  length verb = 5%nat -> (LF ∉ verb) -> (LF ∉ arg) ->
  ((length arg <= 56)%nat -> format_cmd verb arg = verb ++ arg ++ [CR; LF])
  /\ ((57 <= length arg)%nat -> LF ∉ format_cmd verb arg)
  /\ (forall c, ctx_ok c -> cstr c.(state).(task).(task_name) = Some arg ->
        format_cmd verb arg = verb ++ arg ++ [CR; LF]).
Proof.
  intros Hv Hlv Hla. rewrite format_cmd_eq.
  assert (Hshort : (length arg <= 56)%nat -> take 63 (verb ++ arg ++ [CR; LF]) = verb ++ arg ++ [CR; LF]).
  { intros Hl. apply take_ge. rewrite !length_app, Hv. cbn. lia. }
  split_and!; [done| |].
  - intros Hl. replace (verb ++ arg ++ [CR; LF]) with ((verb ++ arg ++ [CR]) ++ [LF])
      by by rewrite <- !app_assoc.
    rewrite take_app_le by (rewrite !length_app, Hv; cbn; lia).
    intros (i & Hi & _)%elem_of_take. apply list_elem_of_lookup_2 in Hi.
    rewrite !elem_of_app, elem_of_cons, elem_of_nil in Hi. by destruct Hi as [?|[?|[?|?]]].
  - intros c ((Hln & _) & _) Hs. apply Hshort. apply cstr_length in Hs. unfold sizeof_name in Hln. lia.
Qed.

(** ** Ends of a transfer *)

Definition quiet : contract := fun t c =>
  match c return resp c -> Prop with ftp_callback _ _ _ _ _ _ => fun rs => rs = [] | _ => fun _ => True end.

(** C38: A listing can be over before it began: once LIST is sent, the task takes an
    empty total for a complete transfer.  If nothing has come in by the next turn
    (a server that needs more than the select timeout), the callback hears that
    the data is complete and the data connection is closed. *)
Theorem list_ends_before_data (c : ftp_client) t :
  c.(state).(task).(task_type) = UNI_NET_FTP_CLIENT_TASK_TYPE_LIST ->
  c.(state).(task).(task_state) = UNI_NET_FTP_CLIENT_TASK_STATE_REQUESTED ->
  c.(state).(task).(progress) = 0 -> c.(state).(task).(progress_total) = 0 ->
  c.(state).(callback) <> NULL ->
  wp quiet (_uni_net_ftp_client_work_state c)
    (fun '(_, c') t' => told t' = told t ++ [(UNI_NET_FTP_CLIENT_CALLBACK_RECV_FINISHED, None, 0)]
       /\ taken t' = taken t /\ c'.(state).(socket_data) = NULL
       /\ c'.(state).(task) = idle_task c.(state).(task)) t.
Proof.
  destruct c as [cfg [th ss so sd [ty st ck pr tot n] cb co]]. cbn. intros -> -> -> -> Hcb.
  unfold _uni_net_ftp_client_work_state, _uni_net_ftp_client_work_state_data, when. cbn.
  unfold call_callback. cbn. rewrite (proj2 (Z.eqb_neq cb NULL)) by done. cbn. intros rs Hrs. cbn in Hrs. subst rs. cbn.
  unfold close_data. cbn. destruct (Z.eqb_spec sd NULL) as [->|Hsd]; cbn; [|intros r _];
    rewrite !told_snoc, !taken_snoc; cbn; rewrite ?app_nil_r; done.
Qed.

Lemma strchr_none s c : c ∉ s -> strchr s c = None.
Proof.
  induction s as [|x s IH]; cbn; [done|]. rewrite not_elem_of_cons. intros [Hx Hs].
  rewrite beqb_neq by congruence. by apply IH.
Qed.

(** A 150 reply without a size sets the total to one byte: whatever size was
    asked for, the transfer ends with the first segment. *)
Theorem no_size_ends_after_one_segment fuel text (c : ftp_client) t :
  ("("%char ∉ text) -> transferring c.(state).(task) -> c.(state).(callback) <> NULL ->
  c.(state).(task).(progress) = 0 ->
  wp steady (bindM (_uni_net_ftp_client_handler_150 (Some text)) (fun _ => _uni_net_ftp_client_work_data (S (S fuel))) c)
    (fun '(_, c') t' => c'.(state).(task).(progress_total) = 1
       /\ exists got, (length got <= 1)%nat /\ went_through got t t') t.
Proof.
  intros Htext Htr Hcb Hp. cbn [bindM]. unfold _uni_net_ftp_client_handler_150. rewrite strchr_none by done. cbn [modify bind].
  match goal with |- context [_uni_net_ftp_client_work_data _ ?x] => remember x as c1 eqn:Hc1 end.
  assert (Hf : transferring (task (state c1)) /\ callback (state c1) <> NULL
               /\ progress (task (state c1)) = 0 /\ progress_total (task (state c1)) = 1) by (by subst c1).
  destruct Hf as (Htr1 & Hcb1 & Hp1 & Htot1).
  assert (Hinv : task_inv (task (state c1))).
  { split; [|lia]. intros Hty. unfold transferring in Htr1. rewrite Hty in Htr1. by destruct Htr1. }
  unfold _uni_net_ftp_client_work_data. cbn [bindM get bind].
  replace (_ || _) with true by by destruct Htr1 as [-> | ->].
  cbn [data_loop bindM]. eapply wp_seq; [apply chunk_spec; [by left|done|done]|].
  intros [cnt c2] t2 (got & Hg & Hv & Hm & (_ & _ & Hp2 & Ht2 & _) & Hl). cbn beta iota. cbn [bindM get bind].
  pose proof MSS_max. rewrite Hp1, u32_small in Hp2 by lia.
  destruct (Z.ltb_spec 0 cnt), (Z.ltb_spec (progress (task (state c2))) (progress_total (task (state c2)))); cbn [andb];
    [lia|cbn; split; [congruence|by exists got]..].
Qed.

(** ** Defects *)

(** An application that asks for a disconnect in each callback. *)
Definition asks_to_disconnect : contract := fun t c =>
  match c return resp c -> Prop with ftp_callback _ _ _ _ _ _ => fun rs => rs = [Ftp_disconnect] | _ => fun _ => True end.

(** C39: What the callback asks for at the end of a transfer is lost: a request to
    disconnect is overwritten when the task returns to idle. *)
Theorem disconnect_lost_in_callback (c : ftp_client) t :
  transferring c.(state).(task) -> c.(state).(task).(task_state) = UNI_NET_FTP_CLIENT_TASK_STATE_IN_PROGRESS ->
  c.(state).(task).(progress_total) <= c.(state).(task).(progress) -> c.(state).(callback) <> NULL ->
  wp asks_to_disconnect (_uni_net_ftp_client_work_state c)
    (fun '(_, c') t' => told t' = told t ++ [(UNI_NET_FTP_CLIENT_CALLBACK_RECV_FINISHED, None, 0)]
       /\ c'.(state).(task).(task_type) = UNI_NET_FTP_CLIENT_TASK_TYPE_IDLE) t.
Proof.
  intros Htr Hst Hp Hcb. unfold _uni_net_ftp_client_work_state. cbn [bindM get bind].
  replace (task_type (task (state c)) =? UNI_NET_FTP_CLIENT_TASK_TYPE_STARTUP) with false by by destruct Htr as [-> | ->].
  replace (_ || _) with true by by destruct Htr as [-> | ->].
  unfold _uni_net_ftp_client_work_state_data, when. cbn [bindM get bind]. rewrite Hst. cbn.
  rewrite (proj2 (Z.leb_le _ _)) by done. unfold call_callback. cbn.
  rewrite (proj2 (Z.eqb_neq _ NULL)) by done. cbn. intros rs Hrs. cbn in Hrs. subst rs. cbn.
  unfold close_data. cbn. case_match; cbn; [intros r _|]; rewrite !told_snoc; cbn; by rewrite ?app_nil_r.
Qed.

Lemma disconnect_told reason c t : c.(state).(callback) <> NULL ->
  wp quiet (_uni_net_ftp_client_disconnect true reason c)
    (fun '(_, c') t' => closed c' /\ c'.(state).(callback) = c.(state).(callback)
       /\ told t' = told t ++ [(UNI_NET_FTP_CLIENT_CALLBACK_DISCONNECT, None, reason)]) t.
Proof.
  intros Hcb. unfold _uni_net_ftp_client_disconnect, close_data, close_cmd, when, call_callback, closed. cbn.
  destruct (Z.eqb_spec (socket_data (state c)) NULL) as [E1|E1]; cbn; [|intros ? _]; cbn;
    (destruct (Z.eqb_spec (socket_cmd (state c)) NULL) as [E2|E2]; cbn; [|intros ? _]); cbn;
    (destruct (Z.eqb_spec (socket_set (state c)) NULL) as [E3|E3]; cbn; [|intros ? _]); cbn;
    rewrite (proj2 (Z.eqb_neq _ NULL)) by done; cbn; intros rs Hrs; cbn in Hrs; subst rs; cbn;
    rewrite !told_snoc; cbn; rewrite ?app_nil_r; by split_and!.
Qed.

(** A socket that is created is not [s0]. *)
Definition fresh (s0 : ptr) : contract := fun t c =>
  match c return resp c -> Prop with FreeRTOS_socket _ _ _ => fun s => s <> s0 | _ => fun _ => True end.

Lemma setopt_fresh (b : bool) s o s0 (c : ftp_client) t :
  wp (fresh s0) (when b (let! _ := do_call (FreeRTOS_setsockopt s o) in ret tt) c)
    (fun '(_, c') t' => c' = c /\ open_sockets s0 t' = open_sockets s0 t) t.
Proof. unfold when. destruct b; cbn; [|done]. intros r _. split; [done|]. resources. Qed.

Lemma connect_fresh s0 c port t : c.(state).(socket_cmd) <> s0 ->
  wp (fresh s0) (_uni_net_ftp_client_connect_socket Data port c)
    (fun '(_, c') t' => socket_data (state c') <> s0 /\ socket_cmd (state c') <> s0
       /\ open_sockets s0 t' = open_sockets s0 t) t.
Proof.
  intros Hcmd. unfold _uni_net_ftp_client_connect_socket. cbn.
  eapply (wp_seq _ _ _ _ (fun '(_, c1) t1 => socket_cmd (state c1) <> s0 /\ open_sockets s0 t1 = open_sockets s0 t)).
  { case_match; cbn; [|done]. intros r _. split; [done|]. resources. }
  intros [[] c1] t1 (Hc1 & Ht1). cbn. intros s Hs. cbn in Hs.
  assert (Ht2 : forall e, open_sockets s0 (t1 ++ [Ev (FreeRTOS_socket FREERTOS_AF_INET FREERTOS_SOCK_STREAM FREERTOS_IPPROTO_TCP) s] ++ e)
                = open_sockets s0 (t1 ++ e)) by (intros e; resources; rewrite eqz_ne by done; lia).
  specialize (Ht2 []). rewrite !app_nil_r in Ht2.
  destruct (Z.eqb_spec s NULL) as [->|Hn]; cbn; [split_and!; [done|done|congruence]|].
  do 3 (eapply wp_seq; [apply setopt_fresh|]; intros [[] ?] ? [-> ?]; cbn beta iota).
  cbn. intros rc _. destruct (Z.eqb_spec rc 0) as [->|Hrc]; cbn; [intros [] _|]; (split_and!; [done|done|]);
    rewrite <- Ht1; resources.
Qed.

(** A reply that reports an error is reported twice: by its handler and, with
    another reason, when the task ends. *)
Theorem error_reported_twice code text reason (c : ftp_client) t :
  code ∈ [421; 425; 426; 451; 500; 501] -> c.(state).(callback) <> NULL ->
  wp quiet (bindM (_uni_net_ftp_client_work_cmd_single (dec code ++ SP :: text))
                  (fun _ => _uni_net_ftp_client_disconnect true reason) c)
    (fun '(_, c') t' => closed c'
       /\ told t' = told t ++ [(UNI_NET_FTP_CLIENT_CALLBACK_DISCONNECT, None, UNI_NET_FTP_CLIENT_DISCONNECT_REASON_RESPONSE_ERR);
                               (UNI_NET_FTP_CLIENT_CALLBACK_DISCONNECT, None, reason)]) t.
Proof.
  intros Hcode Hcb. cbn [bindM].
  eapply (wp_seq _ _ _ _ (fun '(_, c1) t1 => callback (state c1) <> NULL
     /\ told t1 = told t ++ [(UNI_NET_FTP_CLIENT_CALLBACK_DISCONNECT, None, UNI_NET_FTP_CLIENT_DISCONNECT_REASON_RESPONSE_ERR)])).
  - assert (Hs : _uni_net_ftp_client_work_cmd_single (reply code SP text)
                 = _uni_net_ftp_client_disconnect true UNI_NET_FTP_CLIENT_DISCONNECT_REASON_RESPONSE_ERR).
    { rewrite !elem_of_cons, elem_of_nil in Hcode. destruct Hcode as [-> | [-> | [-> | [-> | [-> | [-> | []]]]]]];
        (erewrite single_reply; [|lia|done|by left|done]; done). }
    unfold reply in Hs. rewrite Hs. eapply wp_mono; [by apply disconnect_told|].
    intros [[] c1] t1 (_ & Hc1 & Ht). split; [congruence|done].
  - intros [[] c1] t1 [Hc1 Ht1]. eapply wp_mono; [by apply disconnect_told|].
    intros [[] c2] t2 (Hcl & _ & Ht2). split; [done|]. by rewrite Ht2, Ht1, <- app_assoc.
Qed.

(** C40: A second 227 reply while a data connection is open replaces its handle: the
    first socket is never closed again. *)
Theorem passive_twice_leaks (cl : ftp_client) s0 text a b c d p1 p2 tail reason t :
  "("%char ∉ text -> Forall (fun n => 0 <= n < 256) [a; b; c; d; p1; p2] ->
  cl.(state).(socket_data) = s0 -> s0 <> NULL -> cl.(state).(socket_cmd) <> s0 ->
  wp (fresh s0)
    (bindM (_uni_net_ftp_client_work_cmd_single (passive_reply text a b c d p1 p2 tail))
           (fun _ => _uni_net_ftp_client_disconnect false reason) cl)
    (fun '(_, c') t' => closed c' /\ open_sockets s0 t' = open_sockets s0 t) t.
Proof.
  intros Htext Hall Hd Hnn Hcmd. cbn [bindM]. rewrite passive_reply_eq by done.
  eapply (wp_seq _ _ _ _ (fun '(_, c1) t1 => socket_data (state c1) <> s0 /\ socket_cmd (state c1) <> s0
                            /\ open_sockets s0 t1 = open_sockets s0 t)).
  - apply wp_bind, wp_bind. eapply wp_mono; [by apply connect_fresh|].
    intros [ok c1] t1 (H3 & H4 & H5). cbn. unfold when. destruct ok; done.
  - intros [[] c1] t1 (H3 & H4 & H5). cbn beta iota. unfold _uni_net_ftp_client_disconnect, close_data, close_cmd, closed.
    cbn. destruct (Z.eqb_spec (socket_data (state c1)) NULL) as [E1|E1]; cbn; [|intros ? _]; cbn;
      (destruct (Z.eqb_spec (socket_cmd (state c1)) NULL) as [E2|E2]; cbn; [|intros ? _]); cbn;
      (destruct (Z.eqb_spec (socket_set (state c1)) NULL) as [E3|E3]; cbn; [|intros ? _]); cbn;
      (split; [done|]); rewrite <- H5; resources; rewrite ?(eqz_ne _ s0) by done; lia.
Qed.

End Transfer.
