(* ===== verification/FtpDownload.v ===== *)
(** * A whole download

    From the request of the application to the report that the file is there: the
    client asks for a passive connection, opens it where the server says, asks for
    the file, takes the data as it comes, and becomes idle again.  [file_server] is
    the server and the network during that time: replies come when they are due,
    the data comes in pieces of any size.  The turns of the task go through three
    stages, [passive_asked], [transfer_going] and [download_done]. *)

From S2P Require Import Prelude Env Prog Trace CString Decimal FtpClient FtpTask FtpClientSpec FtpReplies FtpDialogue FtpTransfer.
#[local] Open Scope prog_scope.

(** ** The server *)

(** The bytes that have come over data connections. *)
Definition arrived (t : trace) : bytes := concat (map snd (taken t)).

(** No data was asked for since the last wait. *)
Definition fresh_event (b : bool) (e : event) : bool :=
  match e.(ev_call) with
  | FreeRTOS_select _ _ => true
  | FreeRTOS_recv_zero_copy _ _ _ => false
  | _ => b
  end.
Definition fresh_turn (t : trace) : bool := foldl fresh_event false t.

Definition PASV : bytes := B "PASV" ++ [CR; LF].
Definition RETR (name : bytes) : bytes := B "RETR " ++ name ++ [CR; LF].

Record offer : Set := mk_offer {
  of_sock : ptr;                (* the command connection *)
  of_data : ptr;                (* the socket of the data connection *)
  of_name : bytes;              (* the file *)
  of_file : bytes;              (* its contents *)
  of_passive : bytes;           (* the reply to PASV *)
  of_replies : list bytes;      (* the replies that follow RETR *)
}.

(** The next line of the server, which answers what it was sent after [t0]. *)
Definition due_line (o : offer) (t0 t : trace) : option bytes :=
  let sock := o.(of_sock) in
  match (recvs sock t - recvs sock t0)%nat with
  | O => if bool_decide (sent_on sock t = sent_on sock t0 ++ PASV) then Some o.(of_passive) else None
  | S k => if bool_decide (sent_on sock t = sent_on sock t0 ++ PASV ++ RETR o.(of_name)) then o.(of_replies) !! k else None
  end.

(** What it has still to send, once it was asked for the file. *)
Definition to_come (o : offer) (t0 t : trace) : bytes :=
  if bool_decide (sent_on o.(of_sock) t = sent_on o.(of_sock) t0 ++ PASV ++ RETR o.(of_name))
  then drop (length (arrived t) - length (arrived t0)) o.(of_file) else [].

(** The server and the stack.  The answer to PASV comes in the next turn, the other
    replies come some time; of the data at least one byte comes in each turn.
    Sockets can be had and connected, what is sent is taken, and the application
    makes no request. *)
Definition file_server (o : offer) (t0 : trace) : contract := fun t c =>
  match c return resp c -> Prop with
  | FreeRTOS_select _ _ => fun r => r <> 0
  | FreeRTOS_FD_ISSET _ _ => fun r => r <> 0
  | ftp_requests => fun rs => rs = []
  | ftp_callback _ _ _ _ _ _ => fun rs => rs = []
  | FreeRTOS_socket _ _ _ => fun r => r = o.(of_data)
  | FreeRTOS_connect _ _ => fun r => r = 0
  | pvPortCalloc _ _ => fun r => r <> NULL
  | FreeRTOS_recvcount s => fun r => s = o.(of_sock) ->
      match due_line o t0 t with
      | Some l => r = len (eoln l) \/ (r <= 0 /\ recvs s t <> recvs s t0)
      | None => r <= 0
      end
  | FreeRTOS_recv s n => fun r => s = o.(of_sock) ->
      forall l, due_line o t0 t = Some l -> len (eoln l) <= n -> r = (len (eoln l), eoln l)
  | FreeRTOS_send s d => fun r => s = o.(of_sock) -> r = len d
  | FreeRTOS_recv_zero_copy s n _ => fun r => s = o.(of_data) -> 0 < n ->
      let rest := to_come o t0 t in
      (r.1 <= 0 /\ (- 2 ^ 31 <= r.1) /\ (fresh_turn t = true -> rest = []))
      \/ (0 < r.1 <= n /\ r.2.1 <> NULL /\ len r.2.2 = r.1 /\ r.2.2 `prefix_of` rest)
  | _ => fun _ => True
  end.

(** A line that may follow RETR: the data connection is open, with the size of the
    file in parentheses, or the transfer is complete. *)
Inductive transfer_line (size : Z) : bytes -> Prop :=
| line_150 sep before after :
    sep_ok sep -> ("("%char ∉ before) -> no_digit after ->
    line_ok (reply 150 sep (before ++ "("%char :: dec size ++ after)) ->
    transfer_line size (reply 150 sep (before ++ "("%char :: dec size ++ after))
| line_226 sep text :
    sep_ok sep -> line_ok (reply 226 sep text) -> transfer_line size (reply 226 sep text).

(** What is observed of a trace: what was said on the command connection and how
    often it was read, the data that came, went to the callback and was given
    back, and the connections that were made. *)
Definition seen (sock : ptr) (t : trace) :=
  (sent_on sock t, recvs sock t, taken t, told t, released t, attempts t).

Lemma seen_snoc sock t e :
  seen sock (t ++ [e]) =
    (sent_on sock t ++ sent_event sock e, (recvs sock t + recv_event sock e)%nat, taken t ++ taken_event e,
     told t ++ told_event e, released t ++ released_event e, attempts t ++ attempt_event e).
Proof. unfold seen. by rewrite sent_on_snoc, recvs_snoc, taken_snoc, told_snoc, released_snoc, attempts_snoc. Qed.

(** A call that is not observed. *)
Lemma seen_quiet sock t e :
  sent_event sock e = [] -> recv_event sock e = 0%nat -> taken_event e = [] -> told_event e = [] ->
  released_event e = [] -> attempt_event e = [] -> seen sock (t ++ [e]) = seen sock t.
Proof. intros E1 E2 E3 E4 E5 E6. rewrite seen_snoc, E1, E2, E3, E4, E5, E6, !app_nil_r, Nat.add_0_r. done. Qed.

Ltac seen_quiet := repeat (rewrite seen_quiet by done).

Lemma due_line_seen o t0 t t' : seen o.(of_sock) t' = seen o.(of_sock) t -> due_line o t0 t' = due_line o t0 t.
Proof. unfold due_line, seen. by intros [= -> -> _ _ _ _]. Qed.

Lemma to_come_seen o t0 t t' : seen o.(of_sock) t' = seen o.(of_sock) t -> to_come o t0 t' = to_come o t0 t.
Proof. unfold to_come, seen, arrived. by intros [= -> _ -> _ _ _]. Qed.

Section Download.
Context `{PlatformOk} `{UniCommonSpec}.

(** ** One turn

    With a server that is there and an application that is quiet. *)

Lemma turn_wp fuel o t0 c t (R1 R2 : ftp_client -> trace -> Prop) Q :
  c.(state).(socket_cmd) = o.(of_sock) -> o.(of_sock) <> NULL ->
  (forall t1, seen o.(of_sock) t1 = seen o.(of_sock) t -> fresh_turn t1 = true ->
     wp (file_server o t0) (_uni_net_ftp_client_work_cmd c) (fun '(_, c1) t2 => R1 c1 t2) t1) ->
  (forall c1 t2, R1 c1 t2 ->
     if c1.(state).(socket_data) =? NULL then R2 c1 t2
     else forall r, wp (file_server o t0) (_uni_net_ftp_client_work_data fuel c1) (fun '(_, c2) t3 => R2 c2 t3)
            (t2 ++ [Ev (FreeRTOS_FD_ISSET c1.(state).(socket_data) c1.(state).(socket_set)) r])) ->
  (forall c2 t3, R2 c2 t3 -> wp (file_server o t0) (_uni_net_ftp_client_work_state c2) (fun '(_, c3) t4 => Q (None, c3) t4) t3) ->
  wp (file_server o t0) (thread_turn fuel c) Q t.
Proof.
  intros Hsock Hnn Hcmd Hdata Hstate. unfold thread_turn. cbn [bindM get bind].
  rewrite (proj2 (Z.eqb_neq c.(state).(socket_cmd) NULL)) by congruence. cbn [bindM get bind ret negb do_call wp_gen].
  intros sel Hsel. cbn [bind wp_gen]. intros rs Hrs. cbn in Hrs. subst rs. cbn [requests bindM get bind ret].
  rewrite (proj2 (Z.eqb_neq sel 0)) by exact Hsel. cbn [negb bindM bind do_call wp_gen].
  intros isset Hisset. cbn in Hisset. rewrite (proj2 (Z.eqb_neq isset 0)) by done. cbn [negb bind]. unfold when at 1.
  apply wp_bind. eapply wp_seq.
  { apply Hcmd.
    - by seen_quiet.
    - unfold fresh_turn. by rewrite !foldl_snoc. }
  intros [[] c1] t2 Hc1. specialize (Hdata _ _ Hc1). cbn [bindM get bind].
  eapply (wp_seq _ _ _ _ (fun '(_, c2) t3 => R2 c2 t3)).
  { unfold when at 1. destruct (Z.eqb_spec c1.(state).(socket_data) NULL) as [|]; [done|]. cbn [negb bindM bind do_call wp_gen].
    intros r Hr. cbn in Hr. rewrite (proj2 (Z.eqb_neq r 0)) by done. unfold when. apply Hdata. }
  intros [[] c2] t3 Hc2. cbn [bindM ret bind wp_gen]. eapply wp_seq; [by apply Hstate|]. by intros [[] c3] t4 HQ.
Qed.

(** ** The stages *)

Context (o : offer) (t0 : trace) (cb addr p1 p2 : Z).
Abbreviation sock := o.(of_sock).
Abbreviation ok := (file_server o t0).
Abbreviation size := (len o.(of_file)).

Context (Hsock : sock <> NULL) (Hdata : o.(of_data) <> NULL) (Hcb : cb <> NULL).
Context (Hsize : 0 < size < 2 ^ 31) (Hname : (length o.(of_name) <= 31)%nat).
Context (Hpassive : exists text a b c d tail, o.(of_passive) = passive_reply text a b c d p1 p2 tail
  /\ ("("%char ∉ text) /\ Forall (fun n => 0 <= n < 256) [a; b; c; d; p1; p2] /\ line_ok o.(of_passive)).
Context (Hreplies : Forall (transfer_line size) o.(of_replies)).

(** A download under way, in state [st] with [pr] bytes and data socket [sd]. *)
Record fetching (st pr sd : Z) (c : ftp_client) : Prop := {
  ld_cmd : c.(state).(socket_cmd) = sock;
  ld_data : c.(state).(socket_data) = sd;
  ld_cb : c.(state).(callback) = cb;
  ld_addr : c.(config).(server_addr) = addr;
  ld_type : c.(state).(task).(task_type) = UNI_NET_FTP_CLIENT_TASK_TYPE_RETR;
  ld_state : c.(state).(task).(task_state) = st;
  ld_progress : c.(state).(task).(progress) = pr;
  ld_total : c.(state).(task).(progress_total) = size;
  ld_name : cstr c.(state).(task).(task_name) = Some o.(of_name);
}.

(** The pieces as the callback gets them. *)
Definition pieces (got : list (ptr * bytes)) : list (Z * option bytes * Z) :=
  map (fun p => (UNI_NET_FTP_CLIENT_CALLBACK_RECV, Some p.2, len p.2)) got.

(** What is observed: [said] after [n] lines, the pieces [got], and [fin] at the end. *)
Definition observed (said : bytes) (n : nat) (got : list (ptr * bytes)) (fin : list (Z * option bytes * Z))
    (conn : list (ptr * sockaddr * Z)) (t : trace) : Prop :=
  seen sock t = (sent_on sock t0 ++ said, (recvs sock t0 + n)%nat, taken t0 ++ got, told t0 ++ pieces got ++ fin,
                 released t0 ++ map (fun p => (p.1, len p.2)) got, attempts t0 ++ conn).

Definition connected : list (ptr * sockaddr * Z) :=
  [(o.(of_data), mk_sockaddr FREERTOS_AF_INET (p2 * 256 + p1) addr, 0)].

Definition contents (got : list (ptr * bytes)) : bytes := concat (map snd got).

Definition passive_asked (c : ftp_client) (t : trace) : Prop :=
  fetching UNI_NET_FTP_CLIENT_TASK_STATE_SWITCH_TO_PASV 0 NULL c /\ observed PASV 0 [] [] [] t.

(** After RETR, with the pieces [got]. *)
Definition fetched (n : nat) (got : list (ptr * bytes)) (c : ftp_client) (t : trace) : Prop :=
  fetching UNI_NET_FTP_CLIENT_TASK_STATE_REQUESTED (len (contents got)) o.(of_data) c
  /\ observed (PASV ++ RETR o.(of_name)) n got [] connected t
  /\ contents got `prefix_of` o.(of_file).

Definition transfer_going (got : list (ptr * bytes)) (c : ftp_client) (t : trace) : Prop :=
  exists n, fetched (S n) got c t.

Definition download_done (c : ftp_client) (t : trace) : Prop :=
  c.(state).(socket_cmd) = sock /\ c.(state).(socket_data) = NULL /\ c.(state).(callback) = cb
  /\ c.(state).(task).(task_type) = UNI_NET_FTP_CLIENT_TASK_TYPE_IDLE
  /\ exists n got, observed (PASV ++ RETR o.(of_name)) (S n) got [(UNI_NET_FTP_CLIENT_CALLBACK_RECV_FINISHED, None, 0)] connected t
     /\ contents got = o.(of_file).

Lemma observed_seen said n got fin conn t t' :
  observed said n got fin conn t -> seen sock t' = seen sock t -> observed said n got fin conn t'.
Proof. unfold observed. by intros -> ->. Qed.

(** What the server has for the client then. *)
Lemma due_line_observed said n got fin conn t :
  observed said n got fin conn t ->
  due_line o t0 t = match n with
                     | O => if bool_decide (said = PASV) then Some o.(of_passive) else None
                     | S k => if bool_decide (said = PASV ++ RETR o.(of_name)) then o.(of_replies) !! k else None
                     end.
Proof.
  unfold observed, seen, due_line. intros [= -> -> _ _ _ _]. rewrite Nat.add_comm, Nat.add_sub.
  destruct n; repeat case_bool_decide; try done; simplify_list_eq; done.
Qed.

Lemma to_come_observed said n got fin conn t :
  observed said n got fin conn t ->
  to_come o t0 t = if bool_decide (said = PASV ++ RETR o.(of_name)) then drop (length (contents got)) o.(of_file) else [].
Proof.
  unfold observed, seen, to_come, arrived, contents. intros [= -> _ -> _ _ _].
  rewrite map_app, concat_app, length_app, Nat.add_comm, Nat.add_sub.
  repeat case_bool_decide; try done; simplify_list_eq; done.
Qed.

(** Nothing was observed, and it is the same wait. *)
Definition unseen (t t' : trace) : Prop := seen sock t' = seen sock t /\ fresh_turn t' = fresh_turn t.

Lemma unseen_trans t1 t2 t3 : unseen t1 t2 -> unseen t2 t3 -> unseen t1 t3.
Proof. unfold unseen. intros [-> ->] [-> ->]. done. Qed.

(** Before the data of a turn is asked for. *)
Definition early (said : bytes) (n : nat) (got : list (ptr * bytes)) (fin : list (Z * option bytes * Z))
    (conn : list (ptr * sockaddr * Z)) (t : trace) : Prop :=
  observed said n got fin conn t /\ fresh_turn t = true.

Lemma early_unseen said n got fin conn t t' :
  early said n got fin conn t -> unseen t t' -> early said n got fin conn t'.
Proof. intros [Ho Hf] [Hs Hf']. split; [by eapply observed_seen|congruence]. Qed.

Lemma fresh_snoc t e : fresh_turn (t ++ [e]) = fresh_event (fresh_turn t) e.
Proof. unfold fresh_turn. by rewrite foldl_snoc. Qed.

(** ** The command connection *)

Lemma observed_line said n got fin conn t k r :
  observed said n got fin conn t -> observed said (S n) got fin conn (t ++ [Ev (FreeRTOS_recv sock k) r]).
Proof.
  unfold observed. rewrite seen_snoc. unfold seen. intros [= -> -> -> -> -> ->]. cbn. rewrite Z.eqb_refl, !app_nil_r.
  by replace (recvs sock t0 + n + 1)%nat with (recvs sock t0 + S n)%nat by lia.
Qed.

Lemma observed_send said n got fin conn t cmd :
  observed said n got fin conn t -> observed (said ++ cmd) n got fin conn (t ++ [Ev (FreeRTOS_send sock cmd) (len cmd)]).
Proof.
  unfold observed. rewrite seen_snoc. unfold seen. intros [= -> -> -> -> -> ->]. cbn.
  rewrite Z.eqb_refl, Nat2Z.id, firstn_all, !app_nil_r, !Nat.add_0_r, <- app_assoc. done.
Qed.

Lemma command_wp said n got fin conn c t Q :
  c.(state).(socket_cmd) = sock -> c.(state).(task).(task_type) <> UNI_NET_FTP_CLIENT_TASK_TYPE_TERMINATION ->
  early said n got fin conn t ->
  (n <> 0%nat \/ said <> PASV -> forall t1, early said n got fin conn t1 -> Q (tt, c) t1) ->
  (forall l, due_line o t0 t = Some l -> line_ok l
     /\ forall t1, early said (S n) got fin conn t1 ->
          wp ok (_uni_net_ftp_client_work_cmd_single l c)
            (fun '(_, c1) t2 => c1.(state).(task).(task_type) <> UNI_NET_FTP_CLIENT_TASK_TYPE_TERMINATION
               /\ forall b, Q (tt, c1) (t2 ++ [Ev (vPortFree b) tt])) t1) ->
  wp ok (_uni_net_ftp_client_work_cmd c) Q t.
Proof.
  intros Hs Hty Ho Hnone Hline. apply work_cmd_wp with (sock := sock); [done|done|].
  assert (Hq : forall r, early said n got fin conn (t ++ [Ev (FreeRTOS_recvcount sock) r])).
  { intros r. eapply early_unseen; [done|]. split; [by seen_quiet|by rewrite fresh_snoc]. }
  assert (Hn : recvs sock t = (recvs sock t0 + n)%nat) by (destruct Ho as [Ho _]; by injection Ho).
  pose proof (due_line_observed _ _ _ _ _ _ (proj1 Ho)) as Hdue.
  intros r Hr. specialize (Hr eq_refl). cbn zeta. destruct (due_line o t0 t) as [l|] eqn:Hl.
  - destruct Hr as [-> | [Hr Hne]]; [right|left; split; [done|apply Hnone; [left; lia|done]]].
    destruct (Hline l eq_refl) as [Hok Hsingle]. exists l. split; [done|]. split; [done|]. split.
    + intros m b Hb. split; [exact Hb|]. intros k r Hk Hr. cbn in Hr. apply (Hr eq_refl l); [|done].
      rewrite <- Hl. apply due_line_seen. by seen_quiet.
    + intros sz b. eapply wp_mono; [apply Hsingle|by intros [[] c1] t2 [? HQ]].
      split; [|rewrite !fresh_snoc; apply Ho]. apply observed_line. eapply observed_seen; [apply Ho|]. by seen_quiet.
  - left. split; [done|]. apply Hnone; [|done]. destruct n; [right|by left]. intros ->.
    by rewrite bool_decide_eq_true_2 in Hdue.
Qed.

(** ** The passive connection *)

Lemma unseen_setopt (b : bool) s op (c : ftp_client) t :
  wp ok (when b (let! _ := do_call (FreeRTOS_setsockopt s op) in ret tt) c)
    (fun '(_, c') t' => c' = c /\ unseen t t') t.
Proof. unfold when. destruct b; cbn; [|done]. intros r _. split; [done|]. split; [by seen_quiet|by rewrite fresh_snoc]. Qed.

Lemma port_bytes : 0 <= p1 < 256 -> 0 <= p2 < 256 -> uni_common_bytes_swap16 (p1 * 256 + p2) = p2 * 256 + p1.
Proof.
  intros. rewrite swap16_spec by lia. change (2 ^ 8) with 256.
  rewrite (Z.add_comm (p1 * 256) p2), Z.mod_add, Z.div_add, Z.mod_small, Z.div_small by lia. lia.
Qed.

Lemma observed_connect said n got fin t a :
  observed said n got fin [] t -> a = mk_sockaddr FREERTOS_AF_INET (p2 * 256 + p1) addr ->
  observed said n got fin connected (t ++ [Ev (FreeRTOS_connect o.(of_data) a) 0]).
Proof.
  unfold observed. rewrite seen_snoc. unfold seen. intros [= -> -> -> -> -> ->] ->. cbn.
  by rewrite !app_nil_r, !Nat.add_0_r.
Qed.

Lemma connect_fetching st c t :
  fetching st 0 NULL c -> early PASV 1 [] [] [] t -> 0 <= p1 < 256 -> 0 <= p2 < 256 ->
  wp ok (_uni_net_ftp_client_connect_socket Data (p1 * 256 + p2) c)
    (fun '(b, c1) t1 => b = true /\ fetching st 0 o.(of_data) c1 /\ early PASV 1 [] [] connected t1) t.
Proof.
  intros Hc Ht Hp1 Hp2. unfold _uni_net_ftp_client_connect_socket. cbn [bindM get bind].
  eapply (wp_seq _ _ _ _ (fun '(_, c1) t1 => fetching st 0 NULL c1 /\ unseen t t1)).
  { case_match; cbn; [|done]. intros set _. split; [by destruct Hc|]. split; [by seen_quiet|by rewrite fresh_snoc]. }
  intros [[] c1] t1 [Hc1 Ht1]. cbn [bindM bind do_call wp_gen]. intros s Hs. cbn in Hs. subst s.
  rewrite (proj2 (Z.eqb_neq o.(of_data) NULL)) by done. cbn [negb bindM bind set_socket upd_state modify get].
  assert (Ht2 : unseen t (t1 ++ [Ev (FreeRTOS_socket FREERTOS_AF_INET FREERTOS_SOCK_STREAM FREERTOS_IPPROTO_TCP) o.(of_data)])).
  { eapply unseen_trans; [done|]. split; [by seen_quiet|by rewrite fresh_snoc]. }
  do 3 (eapply wp_seq; [apply unseen_setopt|]; intros [[] ?] ?t [-> Ht3]; cbn beta iota;
        eapply unseen_trans in Ht3; [|exact Ht2]; clear Ht2; rename Ht3 into Ht2).
  pose proof (early_unseen _ _ _ _ _ _ _ Ht Ht2) as [Ho Hf].
  cbn -[seen]. intros rc Hrc. rewrite Hrc. cbn -[seen]. intros [] _.
  split; [done|]. split; [by destruct Hc1|]. split; [|by rewrite !fresh_snoc].
  match goal with |- observed _ _ _ _ _ ((?t ++ [Ev (FreeRTOS_connect _ ?a) ?r]) ++ _) =>
    apply (observed_seen _ _ _ _ _ (t ++ [Ev (FreeRTOS_connect o.(of_data) a) 0])) end.
  - apply observed_connect; [done|]. by rewrite port_bytes, (ld_addr _ _ _ _ Hc1).
  - by seen_quiet.
Qed.

(** ** The request *)

Lemma send_observed cmd said n got fin conn c t :
  c.(state).(socket_cmd) = sock -> observed said n got fin conn t ->
  wp ok (_uni_net_ftp_client_send_cmd (Some cmd) c) (fun '(_, c') t' => c' = c /\ observed (said ++ cmd) n got fin conn t') t.
Proof. intros Hs Ho. cbn. rewrite Hs. intros r Hr. rewrite (Hr eq_refl). split; [done|]. by apply observed_send. Qed.

Lemma state_retr st pr sd c : fetching st pr sd c -> _uni_net_ftp_client_work_state c = _uni_net_ftp_client_work_state_data c.
Proof. intros Hc. unfold _uni_net_ftp_client_work_state. cbn [bindM get bind]. by rewrite (ld_type _ _ _ _ Hc). Qed.

Lemma data_retr fuel st pr sd c : fetching st pr sd c -> _uni_net_ftp_client_work_data fuel c = data_loop fuel c.
Proof. intros Hc. unfold _uni_net_ftp_client_work_data. cbn [bindM get bind]. by rewrite (ld_type _ _ _ _ Hc). Qed.

Lemma fetching_running st pr sd c : fetching st pr sd c -> c.(state).(task).(task_type) <> UNI_NET_FTP_CLIENT_TASK_TYPE_TERMINATION.
Proof. intros Hc. by rewrite (ld_type _ _ _ _ Hc). Qed.

(** The first turn: the client asks for a passive connection. *)
Lemma turn_asks fuel c t :
  fetching UNI_NET_FTP_CLIENT_TASK_STATE_NOT_STARTED 0 NULL c -> observed [] 0 [] [] [] t ->
  wp ok (thread_turn fuel c) (fun '(brk, c') t' => brk = None /\ passive_asked c' t') t.
Proof.
  intros Hc Ho.
  apply (turn_wp _ _ _ _ _ (fun c1 t1 => c1 = c /\ observed [] 0 [] [] [] t1) (fun c1 t1 => c1 = c /\ observed [] 0 [] [] [] t1));
    [apply Hc|done|..].
  - intros t1 Hs Hf. assert (He : early [] 0 [] [] [] t1) by (split; [by eapply observed_seen|done]).
    eapply command_wp; [apply Hc|by eapply fetching_running|done|..].
    + intros _ t2 [Ho2 _]. done.
    + intros l. by rewrite (due_line_observed _ _ _ _ _ _ (proj1 He)).
  - intros c1 t1 [-> Ho1]. by rewrite (ld_data _ _ _ _ Hc).
  - intros c2 t2 [-> Ho2]. rewrite (state_retr _ _ _ _ Hc). unfold _uni_net_ftp_client_work_state_data.
    cbn [bindM get bind]. rewrite (ld_state _ _ _ _ Hc). cbn [Z.eqb UNI_NET_FTP_CLIENT_TASK_STATE_NOT_STARTED].
    cbn [bindM bind set_state modify]. unfold _uni_net_ftp_client_switch_to_passive.
    eapply wp_seq; [apply send_observed; [|done]|].
    + apply Hc.
    + intros [sent c3] t3 [-> Ho3]. split; [done|]. split; [by destruct Hc|done].
Qed.

(** ** The data *)

Lemma contents_app got got' : contents (got ++ got') = contents got ++ contents got'.
Proof. unfold contents. by rewrite map_app, concat_app. Qed.

(** A piece is taken, shown and given back. *)
Lemma observed_piece said n got conn t s m fl cnt buf bs f ck tk cnt' rs s' :
  0 < cnt -> cnt = len bs -> cnt' = len bs ->
  observed said n got [] conn t ->
  observed said n (got ++ [(buf, bs)]) [] conn
    (((t ++ [Ev (FreeRTOS_recv_zero_copy s m fl) (cnt, (buf, bs))])
        ++ [Ev (ftp_callback f ck tk UNI_NET_FTP_CLIENT_CALLBACK_RECV (Some bs) cnt) rs])
       ++ [Ev (FreeRTOS_ReleaseTCPPayloadBuffer s' buf cnt') tt]).
Proof.
  intros Hpos -> -> Ho. unfold observed in *. rewrite seen_snoc, sent_on_snoc, recvs_snoc, taken_snoc, told_snoc, released_snoc,
    attempts_snoc, sent_on_snoc, recvs_snoc, taken_snoc, told_snoc, released_snoc, attempts_snoc.
  unfold seen in Ho. injection Ho as -> -> -> -> -> ->. cbn.
  rewrite (proj2 (Z.ltb_lt 0 (len bs))) by done. unfold pieces. rewrite !map_app, !app_nil_r, !Nat.add_0_r, <- !app_assoc. done.
Qed.

(** What one call finds: nothing, or a piece of what is to come. *)
Definition piece_taken (st : Z) (c : ftp_client) said n got (t : trace) (cnt : Z) (c' : ftp_client) (t' : trace) : Prop :=
  (cnt <= 0 /\ c' = c /\ observed said n got [] connected t' /\ (fresh_turn t = true -> to_come o t0 t = []))
  \/ (0 < cnt /\ exists buf bs, bs <> [] /\ bs `prefix_of` to_come o t0 t
      /\ observed said n (got ++ [(buf, bs)]) [] connected t'
      /\ fetching st (len (contents (got ++ [(buf, bs)]))) o.(of_data) c').

Lemma chunk_fetching st c said n got t :
  fetching st (len (contents got)) o.(of_data) c -> observed said n got [] connected t ->
  (st = UNI_NET_FTP_CLIENT_TASK_STATE_STARTED -> to_come o t0 t = []) ->
  len (contents got) + len (to_come o t0 t) <= size ->
  wp ok (data_chunk c) (fun '(cnt, c') t' => piece_taken st c said n got t cnt c' t') t.
Proof.
  intros Hc Ho Hst Hroom. unfold data_chunk. cbn [bindM get bind do_call wp_gen]. rewrite (ld_data _ _ _ _ Hc).
  intros [cnt [buf bs]] Hr. specialize (Hr eq_refl ltac:(pose proof MSS_min; lia)). cbn [fst snd] in Hr. cbn [bind].
  pose proof MSS_max. rewrite (i32_small cnt) by lia.
  destruct Hr as [(Hneg & _ & Hrest)|(Hpos & Hbuf & Hlen & Hpre)].
  { rewrite (proj2 (Z.ltb_ge 0 cnt)) by done. cbn. left. split; [done|]. split; [done|]. split; [|done].
    eapply observed_seen; [done|]. apply seen_quiet; try done. cbn. by rewrite (proj2 (Z.ltb_ge 0 cnt)). }
  assert (Hle : (length bs <= length (to_come o t0 t))%nat) by by apply prefix_length.
  assert (Hne : st <> UNI_NET_FTP_CLIENT_TASK_STATE_STARTED).
  { intros E. rewrite (Hst E) in Hle. cbn in Hle. lia. }
  rewrite (proj2 (Z.ltb_lt 0 cnt)), (proj2 (Z.eqb_neq buf NULL)) by (done || lia). cbn [negb andb]. unfold when at 1.
  rewrite (ld_state _ _ _ _ Hc), (proj2 (Z.eqb_neq st _)) by done. unfold when.
  apply wp_bind. cbn [bindM ret bind]. unfold call_callback. cbn [bindM get bind].
  rewrite (ld_cb _ _ _ _ Hc), (proj2 (Z.eqb_neq cb NULL)) by done. cbn [negb bindM bind do_call wp_gen].
  intros rs Hrs. cbn in Hrs. subst rs. cbn -[observed data_chunk]. intros [] _.
  right. split; [lia|]. exists buf, bs. split; [by destruct bs; [cbn in Hlen; lia|]|]. split; [done|]. split.
  - rewrite <- Hlen, Nat2Z.id, firstn_all. apply observed_piece; [lia|done|done|done].
  - destruct Hc. constructor; cbn; try done. rewrite ld_progress0, contents_app, length_app. cbn. rewrite app_nil_r.
    rewrite u32_small; lia.
Qed.

Lemma to_come_fetched n got c t : fetched n got c t -> contents got ++ to_come o t0 t = o.(of_file).
Proof.
  intros (_ & Ho & Hp). rewrite (to_come_observed _ _ _ _ _ _ Ho), bool_decide_eq_true_2 by done.
  destruct Hp as [k ->]. by rewrite drop_app_length.
Qed.

Lemma loop_fetching fuel n got c t :
  fetched n got c t -> size - len (contents got) < Z.of_nat fuel ->
  wp ok (data_loop fuel c) (fun '(_, c') t' => exists got', fetched n got' c' t'
    /\ (length (contents got) <= length (contents got'))%nat
    /\ (fresh_turn t = true -> contents got <> o.(of_file) -> (length (contents got) < length (contents got'))%nat)) t.
Proof.
  revert got c t. induction fuel as [|fuel IH]; intros got c t Hg Hf.
  all: pose proof (to_come_fetched _ _ _ _ Hg) as Hrest; destruct Hg as (Hc & Ho & Hp).
  { apply prefix_length in Hp. lia. }
  cbn [data_loop bindM]. eapply wp_seq; [apply chunk_fetching; [done|done|done|rewrite <- Hrest, length_app; lia]|].
  intros [cnt c1] t1 [(Hcnt & -> & Ho1 & Hdry)|(Hcnt & buf & bs & Hne & Hpre & Ho1 & Hc1)]; cbn beta iota; cbn [bindM get bind].
  { rewrite (proj2 (Z.ltb_ge 0 cnt)) by done. cbn. exists got. split; [done|]. split; [lia|].
    intros Hfr Hn. rewrite (Hdry Hfr), app_nil_r in Hrest. done. }
  assert (Hlen : (length (contents got) < length (contents (got ++ [(buf, bs)])))%nat).
  { rewrite contents_app, length_app. destruct bs; [done|]. cbn. lia. }
  assert (Hg1 : fetched n (got ++ [(buf, bs)]) c1 t1).
  { split; [done|]. split; [done|]. rewrite contents_app, <- Hrest. apply prefix_app. cbn. by rewrite app_nil_r. }
  case_match; [|cbn; exists (got ++ [(buf, bs)]); split; [done|]; lia].
  eapply wp_mono; [apply IH; [exact Hg1|lia]|]. intros [[] c2] t2 (got2 & Hg2 & Hle & _). exists got2. split; [done|]. lia.
Qed.

(** The second: it connects where the server says and asks for the file. *)
Lemma turn_connects fuel c t :
  (0 < fuel)%nat -> passive_asked c t ->
  wp ok (thread_turn fuel c) (fun '(brk, c') t' => brk = None /\ transfer_going [] c' t') t.
Proof.
  intros Hfuel [Hc Ho].
  pose (R := fun c1 t1 => fetching UNI_NET_FTP_CLIENT_TASK_STATE_STARTED 0 o.(of_data) c1 /\ observed PASV 1 [] [] connected t1).
  apply (turn_wp _ _ _ _ _ R R); [apply Hc|done|..].
  - intros t1 Hs Hf. assert (He : early PASV 0 [] [] [] t1) by (split; [by eapply observed_seen|done]).
    eapply command_wp; [apply Hc|by eapply fetching_running|done|by intros []|].
    intros l. rewrite (due_line_observed _ _ _ _ _ _ (proj1 He)), bool_decide_eq_true_2 by done. intros [= <-].
    destruct Hpassive as (text & a & b & cc & d & tail & Hp & Htext & Hall & Hline). split; [done|].
    intros t2 He2. rewrite Hp, passive_reply_eq by done. apply wp_bind, wp_bind.
    rewrite !Forall_cons in Hall. destruct Hall as (_ & _ & _ & _ & Hp1 & Hp2 & _).
    eapply wp_mono; [by apply connect_fetching|]. intros [rc c1] t3 (-> & Hc1 & He3). cbn. unfold when. cbn.
    split; [by eapply fetching_running|]. intros buf. split; [by destruct Hc1|].
    eapply observed_seen; [apply He3|by seen_quiet].
  - intros c1 t1 [Hc1 Ho1]. rewrite (ld_data _ _ _ _ Hc1), (proj2 (Z.eqb_neq o.(of_data) NULL)) by done.
    intros r. rewrite (data_retr _ _ _ _ _ Hc1).
    assert (Ho2 : observed PASV 1 [] [] connected (t1 ++ [Ev (FreeRTOS_FD_ISSET o.(of_data) c1.(state).(socket_set)) r]))
      by (eapply observed_seen; [done|by seen_quiet]).
    assert (Hdry : to_come o t0 (t1 ++ [Ev (FreeRTOS_FD_ISSET o.(of_data) c1.(state).(socket_set)) r]) = []).
    { rewrite (to_come_observed _ _ _ _ _ _ Ho2). by rewrite bool_decide_eq_false_2. }
    destruct fuel as [|fuel]; [lia|]. cbn [data_loop bindM].
    eapply wp_seq; [apply (chunk_fetching UNI_NET_FTP_CLIENT_TASK_STATE_STARTED c1 PASV 1 []); [done|done|done|rewrite Hdry; cbn; lia]|].
    intros [cnt c2] t2 [(Hcnt & -> & Ho3 & _)|(_ & buf & bs & Hne & Hpre & _)]; cbn beta iota.
    + cbn [bindM get bind]. by rewrite (proj2 (Z.ltb_ge 0 cnt)).
    + rewrite Hdry in Hpre. by apply prefix_nil_inv in Hpre.
  - intros c2 t2 [Hc2 Ho2]. rewrite (state_retr _ _ _ _ Hc2). unfold _uni_net_ftp_client_work_state_data.
    cbn [bindM get bind]. rewrite (ld_state _ _ _ _ Hc2), (ld_type _ _ _ _ Hc2).
    cbn [Z.eqb Pos.eqb UNI_NET_FTP_CLIENT_TASK_STATE_NOT_STARTED UNI_NET_FTP_CLIENT_TASK_STATE_STARTED UNI_NET_FTP_CLIENT_TASK_TYPE_RETR].
    rewrite (ld_name _ _ _ _ Hc2). cbn [bindM bind deref set_state modify].
    unfold _uni_net_ftp_client_retr_file. rewrite format_cmd_eq, take_ge.
    2: { rewrite !length_app, length_B. cbn. lia. }
    eapply wp_seq; [apply send_observed; [|done]|].
    + apply Hc2.
    + intros [sent c3] t3 [-> Ho3]. split; [done|]. exists 0%nat. split; [by destruct Hc2|]. split; [done|apply prefix_nil].
Qed.

(** A reply to RETR makes no difference: the total was right before. *)
Lemma transfer_line_handled l c : transfer_line size l ->
  line_ok l /\ exists c1, _uni_net_ftp_client_work_cmd_single l c = Ret (tt, c1)
    /\ (c1 = c \/ c1 = upd_task (fun t => t <| progress_total := size |>) c).
Proof.
  intros [sep before after Hsep Hb Ha Hl|sep text Hsep Hl]; (split; [done|]).
  - erewrite single_reply; [|lia|done|done|done]. unfold _uni_net_ftp_client_handler_150.
    rewrite strchr_app by done. rewrite skipn_cons, drop_0, strtol_dec by (lia || done). cbn [fst].
    rewrite u32_small by lia. eexists. split; [done|by right].
  - erewrite single_reply; [|lia|done|done|done]. eexists. split; [done|by left].
Qed.

Lemma due_reply n got fin conn t l :
  observed (PASV ++ RETR o.(of_name)) (S n) got fin conn t -> due_line o t0 t = Some l -> transfer_line size l.
Proof.
  intros Ho. rewrite (due_line_observed _ _ _ _ _ _ Ho), bool_decide_eq_true_2 by done. intros Hl.
  by eapply Forall_lookup_1.
Qed.

(** The command connection after RETR. *)
Lemma replies_wp n got fin (P : ftp_client -> Prop) c t :
  c.(state).(socket_cmd) = sock -> c.(state).(task).(task_type) <> UNI_NET_FTP_CLIENT_TASK_TYPE_TERMINATION ->
  early (PASV ++ RETR o.(of_name)) (S n) got fin connected t ->
  P c -> P (upd_task (fun t => t <| progress_total := size |>) c) ->
  wp ok (_uni_net_ftp_client_work_cmd c)
    (fun '(_, c1) t1 => P c1 /\ exists n', early (PASV ++ RETR o.(of_name)) (S n') got fin connected t1) t.
Proof.
  intros Hs Hty He HP HP'. eapply command_wp; [done|done|done|by eauto|].
  intros l Hl. pose proof (due_reply _ _ _ _ _ _ (proj1 He) Hl) as Hline.
  destruct (transfer_line_handled l c Hline) as (Hok & c1 & -> & Hc1). split; [done|].
  intros t1 He1. cbn. split; [by destruct Hc1 as [-> | ->]|]. intros b. split; [by destruct Hc1 as [-> | ->]|].
  exists (S n). eapply early_unseen; [done|]. split; [by seen_quiet|by rewrite fresh_snoc].
Qed.

(** The task after the data of a turn: the transfer goes on, or is reported and
    over. *)
Definition onwards (got : list (ptr * bytes)) (c : ftp_client) (t : trace) : Prop :=
  download_done c t
  \/ exists got', transfer_going got' c t /\ contents got' <> o.(of_file)
     /\ (length (contents got) < length (contents got'))%nat.

Lemma observed_finished said n got conn t f ck tk rs :
  observed said n got [] conn t ->
  observed said n got [(UNI_NET_FTP_CLIENT_CALLBACK_RECV_FINISHED, None, 0)] conn
    (t ++ [Ev (ftp_callback f ck tk UNI_NET_FTP_CLIENT_CALLBACK_RECV_FINISHED None 0) rs]).
Proof.
  unfold observed. rewrite seen_snoc. unfold seen. intros [= -> -> -> -> -> ->]. cbn.
  by rewrite !app_nil_r, !Nat.add_0_r, <- app_assoc.
Qed.

Lemma state_fetched n got got' c t :
  fetched (S n) got' c t -> (length (contents got) < length (contents got'))%nat ->
  wp ok (_uni_net_ftp_client_work_state c) (fun '(_, c') t' => onwards got c' t') t.
Proof.
  intros Hg Hlt. pose proof (to_come_fetched _ _ _ _ Hg) as Hrest. pose proof Hg as (Hc & Ho & _).
  rewrite (state_retr _ _ _ _ Hc). unfold _uni_net_ftp_client_work_state_data. cbn [bindM get bind].
  rewrite (ld_state _ _ _ _ Hc), (ld_progress _ _ _ _ Hc), (ld_total _ _ _ _ Hc).
  change (wp ok (when (size <=? len (contents got'))
    (call_callback UNI_NET_FTP_CLIENT_CALLBACK_RECV_FINISHED None 0 ;; _uni_net_ftp_client_set_to_idle) c)
    (fun '(_, c') t' => onwards got c' t') t).
  unfold when. destruct (Z.leb_spec size (len (contents got'))) as [Hle|Hgt].
  2: { cbn. right. exists got'. split; [by exists n|]. split; [intros E; rewrite E in Hgt; lia|done]. }
  assert (Hall : contents got' = o.(of_file)).
  { rewrite <- Hrest in Hle |- *. rewrite length_app in Hle. destruct (to_come o t0 t); [by rewrite app_nil_r|cbn in Hle; lia]. }
  unfold call_callback. cbn [bindM get bind]. rewrite (ld_cb _ _ _ _ Hc), (proj2 (Z.eqb_neq cb NULL)) by done.
  cbn [negb bindM bind do_call wp_gen]. intros rs Hrs. cbn in Hrs. subst rs. cbn [requests bind ret].
  unfold _uni_net_ftp_client_set_to_idle, close_data. cbn [bindM get bind].
  rewrite (ld_data _ _ _ _ Hc), (proj2 (Z.eqb_neq o.(of_data) NULL)) by done. cbn -[observed]. intros r _.
  left. split; [apply Hc|]. split; [done|]. split; [apply Hc|]. split; [done|]. exists n, got'. split; [|done].
  eapply observed_seen; [by apply observed_finished|]. by seen_quiet.
Qed.

(** A turn with data. *)
Lemma turn_transfers fuel got c t :
  size < Z.of_nat fuel -> transfer_going got c t -> contents got <> o.(of_file) ->
  wp ok (thread_turn fuel c) (fun '(brk, c') t' => brk = None /\ onwards got c' t') t.
Proof.
  intros Hfuel [n (Hc & Ho & Hp)] Hne.
  apply (turn_wp _ _ _ _ _ (fun c1 t1 => (exists n, fetched (S n) got c1 t1) /\ fresh_turn t1 = true)
           (fun c2 t2 => exists n got', fetched (S n) got' c2 t2 /\ (length (contents got) < length (contents got'))%nat));
    [apply Hc|done|..].
  - intros t1 Hs Hf. eapply wp_mono.
    { eapply replies_wp with (got := got) (P := fetching UNI_NET_FTP_CLIENT_TASK_STATE_REQUESTED (len (contents got)) o.(of_data));
        [apply Hc|by eapply fetching_running|split; [by eapply observed_seen|done]|done|by destruct Hc]. }
    intros [[] c1] t2 (Hc1 & n' & Ho1 & Hf1). split; [by exists n'|done].
  - intros c1 t2 [[n' (Hc1 & Ho1 & _)] Hf1]. rewrite (ld_data _ _ _ _ Hc1), (proj2 (Z.eqb_neq o.(of_data) NULL)) by done.
    intros r. rewrite (data_retr _ _ _ _ _ Hc1). eapply wp_mono.
    { apply (loop_fetching _ (S n') got); [|lia]. split; [done|]. split; [|done]. eapply observed_seen; [done|by seen_quiet]. }
    intros [[] c2] t3 (got' & Hg & _ & Hlt). exists n', got'. split; [done|]. apply Hlt; [by rewrite fresh_snoc|done].
  - intros c2 t3 (n' & got' & Hg & Hlt). eapply wp_mono; [by eapply state_fetched|]. by intros [[] c3] t4.
Qed.

(** The turns after the end. *)
Lemma turn_idle fuel c t :
  download_done c t -> wp ok (thread_turn fuel c) (fun '(brk, c') t' => brk = None /\ download_done c' t') t.
Proof.
  intros (Hcmd & Hd & Hcb' & Hty & n & got & Ho & Hall).
  apply (turn_wp _ _ _ _ _ download_done download_done); [done|done|..].
  - intros t1 Hs Hf. eapply wp_mono.
    { eapply replies_wp with (P := fun c => c.(state).(socket_cmd) = sock /\ c.(state).(socket_data) = NULL
        /\ c.(state).(callback) = cb /\ c.(state).(task).(task_type) = UNI_NET_FTP_CLIENT_TASK_TYPE_IDLE);
        [done|by rewrite Hty|split; [by eapply observed_seen|done]|done|done]. }
    intros [[] c1] t2 ((Hcmd1 & Hd1 & Hcb1 & Hty1) & n' & Ho1 & _). split_and!; [done..|]. by exists n', got.
  - intros c1 t2 Hdone. by rewrite (proj1 (proj2 Hdone)).
  - intros c2 t3 Hdone. unfold _uni_net_ftp_client_work_state. cbn [bindM get bind].
    pose proof Hdone as (_ & _ & _ & Hty2 & _). by rewrite Hty2.
Qed.

Lemma idle_turns fuel n c t :
  download_done c t -> wp ok (thread_turns fuel n c) (fun '(_, c') t' => download_done c' t') t.
Proof.
  revert c t. induction n as [|n IH]; intros c t Hd; [done|]. cbn [thread_turns bindM].
  eapply wp_seq; [by apply turn_idle|]. intros [brk c1] t1 [-> Hd1]. by apply IH.
Qed.

(** Each turn brings at least a byte. *)
Lemma transfer_turns fuel n got c t :
  size < Z.of_nat fuel -> transfer_going got c t -> contents got <> o.(of_file) ->
  (length o.(of_file) <= n + length (contents got))%nat ->
  wp ok (thread_turns fuel n c) (fun '(_, c') t' => download_done c' t') t.
Proof.
  intros Hfuel. revert got c t. induction n as [|n IH]; intros got c t Hg Hne Hn.
  { destruct Hg as [m (_ & _ & [k Hk])]. rewrite Hk, length_app in Hn. destruct k; [|cbn in Hn; lia].
    by rewrite app_nil_r in Hk. }
  cbn [thread_turns bindM]. eapply wp_seq; [by eapply turn_transfers|].
  intros [brk c1] t1 [-> [Hd|(got' & Hg' & Hne' & Hlt)]]; [by apply idle_turns|]. eapply IH; [done|done|lia].
Qed.

Lemma download_turns fuel n c t :
  size < Z.of_nat fuel -> (2 + length o.(of_file) <= n)%nat ->
  fetching UNI_NET_FTP_CLIENT_TASK_STATE_NOT_STARTED 0 NULL c -> observed [] 0 [] [] [] t ->
  wp ok (thread_turns fuel n c) (fun '(_, c') t' => download_done c' t') t.
Proof.
  intros Hfuel Hn Hc Ho. destruct n as [|[|n]]; [lia|lia|]. cbn [thread_turns bindM].
  eapply wp_seq; [by apply turn_asks|]. intros [brk c1] t1 [-> Ha]. cbn [thread_turns bindM].
  eapply wp_seq; [apply turn_connects; [lia|done]|]. intros [brk c2] t2 [-> Hg].
  eapply transfer_turns; [done|done|..|cbn; lia]. destruct o.(of_file); [cbn in Hsize; lia|done].
Qed.

End Download.

(** ** The download *)

(** The offer is one the client understands: a file that is not empty and whose
    size is an [int], a name that fits, and replies as a server writes them. *)
Record offer_ok (o : offer) (p1 p2 : Z) : Prop := {
  oo_sock : o.(of_sock) <> NULL;
  oo_data : o.(of_data) <> NULL;
  oo_size : 0 < len o.(of_file) < 2 ^ 31;
  oo_name : (length o.(of_name) <= 31)%nat;
  oo_nul : NUL ∉ o.(of_name);
  oo_passive : exists text a b c d tail, o.(of_passive) = passive_reply text a b c d p1 p2 tail
    /\ ("("%char ∉ text) /\ Forall (fun n => 0 <= n < 256) [a; b; c; d; p1; p2] /\ line_ok o.(of_passive);
  oo_replies : Forall (transfer_line (len o.(of_file))) o.(of_replies);
}.

(** What happened between [t] and [t']. *)
Definition downloaded (o : offer) (addr p1 p2 : Z) (t t' : trace) : Prop :=
  sent_on o.(of_sock) t' = sent_on o.(of_sock) t ++ PASV ++ RETR o.(of_name)
  /\ attempts t' = attempts t ++ [(o.(of_data), mk_sockaddr FREERTOS_AF_INET (p2 * 256 + p1) addr, 0)]
  /\ exists got, concat (map snd got) = o.(of_file)
     /\ taken t' = taken t ++ got
     /\ told t' = told t ++ map (fun p => (UNI_NET_FTP_CLIENT_CALLBACK_RECV, Some p.2, len p.2)) got
                         ++ [(UNI_NET_FTP_CLIENT_CALLBACK_RECV_FINISHED, None, 0)]
     /\ released t' = released t ++ map (fun p => (p.1, len p.2)) got.

