(* ===== verification/FtpLiveness.v ===== *)
(** * FTP client: a disconnect comes through

    A request to disconnect that reaches the task while it waits ends the session
    in the same turn: nothing that comes in at that moment can keep the task
    going, and none of its loops runs on. *)

From S2P Require Import Prelude Env Prog Trace CString FtpClient FtpTask FtpClientSpec.
#[local] Open Scope prog_scope.

(** The application asks for a disconnect, among other things, at each wait. *)
Definition asks : contract := fun t c r =>
  ftp_ok t c r
  /\ match c return resp c -> Prop with ftp_requests => fun rs => Ftp_disconnect ∈ rs | _ => fun _ => True end r.

Definition terminated (c : ftp_client) : Prop :=
  c.(state).(task).(task_type) = UNI_NET_FTP_CLIENT_TASK_TYPE_TERMINATION.

Lemma moves_terminated c c' : moves c c' -> terminated c -> terminated c'.
Proof. intros (_ & Hs & _). by apply task_terminated. Qed.

(** A disconnect among the requests is not overruled by the ones after it. *)
Lemma requests_terminate rs c t E ok : ctx_ok c -> Ftp_disconnect ∈ rs ->
  wp_gen E ok (requests rs c) (fun '(_, c') t' => moves c c' /\ terminated c') t.
Proof.
  revert c. induction rs as [|r rs IH]; intros c Hok Hin; [by apply elem_of_nil in Hin|]. cbn.
  destruct (request_ok r c Hok) as (c1 & Hr & Hm & _). rewrite Hr. cbn. apply elem_of_cons in Hin as [<-|Hin].
  - eapply wp_mono; [apply requests_ok, Hm|]. intros [[] c2] t' (_ & Hm2 & _). split; [by eapply moves_trans|].
    eapply moves_terminated; [done|]. by injection Hr as <-.
  - eapply wp_mono; [apply IH; [apply Hm|done]|]. intros [[] c2] t' [Hm2 ?]. split; [by eapply moves_trans|done].
Qed.

(** ** Functions that come to an end *)

Definition halts_at {A} (m : M ftp_client A) : Prop := forall c, halts (fun _ => True) (m c).

Lemma halts_at_bind {A B} (m : M ftp_client A) (f : A -> M ftp_client B) :
  halts_at m -> (forall a, halts_at (f a)) -> halts_at (bindM m f).
Proof. intros Hm Hf c. apply (halts_bind (fun _ => True)); [apply Hm|]. intros [a c'] _. apply Hf. Qed.

Ltac halts_at_step :=
  lazymatch goal with
  | |- halts_at (ret _) => by intros ?
  | |- halts_at get => by intros ?
  | |- halts_at (modify _) => by intros ?
  | |- halts_at (do_call _) => by intros ? ?
  | |- halts_at (halt Overflow) => by intros ?
  | |- halts_at (deref ?o) => by intros ?; destruct o
  | |- halts_at (bindM _ _) => apply halts_at_bind; [|intros ?]
  | |- halts_at (when ?b _) => destruct b; [|by intros ?]; cbn [when]; unfold when
  | |- halts_at (match ?x with _ => _ end) => destruct x
  end.
Ltac halts_at := repeat halts_at_step; auto with ftp.

Section Halts.
Context `{Platform} `{UniCommon}.

Lemma halts_requests rs : halts_at (requests rs).
Proof. induction rs as [|r rs IH]; cbn [requests]; unfold put; halts_at. by intros c. Qed.
#[local] Hint Resolve halts_requests : ftp.

Lemma halts_callback ty d n : halts_at (call_callback ty d n).
Proof. unfold call_callback. halts_at. Qed.
#[local] Hint Resolve halts_callback : ftp.

Lemma halts_send cmd : halts_at (_uni_net_ftp_client_send_cmd cmd).
Proof. unfold _uni_net_ftp_client_send_cmd. halts_at. Qed.
#[local] Hint Resolve halts_send : ftp.

Lemma halts_close_data : halts_at close_data.
Proof. unfold close_data, upd_state. halts_at. Qed.
#[local] Hint Resolve halts_close_data : ftp.

Lemma halts_disconnect b reason : halts_at (_uni_net_ftp_client_disconnect b reason).
Proof. unfold _uni_net_ftp_client_disconnect, close_cmd, set_type, upd_state. halts_at. Qed.
#[local] Hint Resolve halts_disconnect : ftp.

Lemma halts_connect f port : halts_at (_uni_net_ftp_client_connect_socket f port).
Proof. unfold _uni_net_ftp_client_connect_socket, set_socket, upd_state. halts_at. Qed.
#[local] Hint Resolve halts_connect : ftp.

Lemma halts_handler k h s : find_handler _uni_net_ftp_client_cmd_map k = Some h -> halts_at (h (Some s)).
Proof.
  unfold _uni_net_ftp_client_cmd_map. cbn [find_handler].
  repeat (case_match; [intros [= <-]|]); [..|done];
    unfold _uni_net_ftp_client_handler_150, _uni_net_ftp_client_handler_20x, _uni_net_ftp_client_handler_220,
      _uni_net_ftp_client_handler_226, _uni_net_ftp_client_handler_227, _uni_net_ftp_client_handler_230,
      _uni_net_ftp_client_handler_257, _uni_net_ftp_client_handler_331, _uni_net_ftp_client_handler_error,
      _uni_net_ftp_client_handler_530, _uni_net_ftp_client_handler_550, _uni_net_ftp_client_send_login,
      _uni_net_ftp_client_send_password, set_state, set_type; halts_at.
Qed.

Lemma halts_cmd_single buf : halts_at (_uni_net_ftp_client_work_cmd_single buf).
Proof.
  unfold _uni_net_ftp_client_work_cmd_single.
  destruct (find_handler _ _) eqn:Hh; [pose proof (halts_handler _ _ (drop 4 buf) Hh)|]; case_match; halts_at.
Qed.
#[local] Hint Resolve halts_cmd_single : ftp.

Lemma split_crlf_length l a b : split_crlf l = Some (a, b) -> (length b < length l)%nat.
Proof.
  revert a b. induction l as [|x l IH]; intros a b; [done|]. cbn [split_crlf].
  destruct l as [|y l]; [done|]. case_match; [intros [= <- <-]; cbn; lia|].
  destruct (split_crlf (y :: l)) as [[a' b']|]; [|done]. intros [= <- <-]. specialize (IH _ _ eq_refl). cbn in *. lia.
Qed.

(** The fuel of the loop over the lines is enough. *)
Lemma halts_lines fuel line : (length line < fuel)%nat -> halts_at (lines_loop fuel line).
Proof.
  revert line. induction fuel as [|fuel IH]; intros line Hl; [lia|]. cbn [lines_loop].
  destruct (split_crlf line) as [[a b]|] eqn:E; halts_at. apply IH. apply split_crlf_length in E. lia.
Qed.

Lemma halts_work_cmd : halts_at _uni_net_ftp_client_work_cmd.
Proof. unfold _uni_net_ftp_client_work_cmd. halts_at. apply halts_lines. lia. Qed.

(** ** The turn *)

(** A safe function that halts, as seen by the rest of the turn. *)
Lemma safe_halts {A} (m : M ftp_client A) (c : ftp_client) t :
  ctx_ok c -> safe_at c m -> halts_at m ->
  wp_gen (fun e => e = Overflow) asks (m c) (fun '(_, c') _ => moves c c') t.
Proof.
  intros Hok Hs Hh. eapply wp_weaken; [eapply wp_mono; [apply wp_both; [by apply Hs|apply (halts_wp any_answer), Hh]|]|..].
  - by intros [a c'] t' [Hm _].
  - by intros [] [? ?].
  - by intros t' k r [? _].
Qed.

Lemma work_terminated fuel c : terminated c ->
  _uni_net_ftp_client_work_data fuel c = Ret (tt, c) /\ _uni_net_ftp_client_work_state c = Ret (tt, c).
Proof.
  intros Hc. unfold _uni_net_ftp_client_work_data, _uni_net_ftp_client_work_state. cbn. unfold terminated in Hc.
  by rewrite Hc.
Qed.
(** What a turn comes to: a reason to leave, or a task that is terminated. *)
Definition leaves (c : ftp_client) (brk : option Z) (c' : ftp_client) : Prop :=
  moves c c' /\ match brk with
                | Some reason => reason ∈ [UNI_NET_FTP_CLIENT_DISCONNECT_REASON_CONNECT;
                    UNI_NET_FTP_CLIENT_DISCONNECT_REASON_NETWORK; UNI_NET_FTP_CLIENT_DISCONNECT_REASON_SOCKET]
                | None => terminated c'
                end.

Lemma turn_leaves fuel (c : ftp_client) t :
  ctx_ok c ->
  wp_gen (fun e => e = Overflow) asks (thread_turn fuel c) (fun '(brk, c') _ => leaves c brk c') t.
Proof.
  intros Hok. unfold thread_turn. cbn [bindM get bind].
  eapply (wp_seq _ _ _ _ (fun '(_, c1) _ => moves c c1)).
  { case_match; [|by apply moves_refl]. apply safe_halts; [done|apply safe_connect|apply halts_connect]. }
  intros [conn c1] t1 Hm1. destruct conn; cbn [negb]; [|split; [done|set_solver]].
  cbn [bindM get bind do_call]. intros sel _. cbn [bindM get bind do_call]. intros rs [_ Hrs].
  eapply wp_seq; [apply requests_terminate; [apply Hm1|exact Hrs]|]. intros [[] c2] t2 [Hm2 Hc2].
  assert (Hm : moves c c2) by by eapply moves_trans. cbn [bindM get bind do_call].
  destruct (sel =? 0); cbn [negb].
  { cbn. intros up _. case_match; cbn; [split; [done|set_solver]|]. intros co _. case_match; cbn; [split; [done|set_solver]|].
    pose proof Hc2 as Hty. unfold terminated in Hty. rewrite Hty. by split. }
  cbn [bindM get bind do_call]. intros isset _. apply wp_bind.
  eapply (wp_seq _ _ _ _ (fun '(_, c3) _ => moves c2 c3)).
  { unfold when. case_match; [|apply moves_refl, Hm2]. apply safe_halts; [apply Hm2|apply safe_work_cmd|apply halts_work_cmd]. }
  intros [[] c3] t3 Hm3. pose proof (moves_terminated _ _ Hm3 Hc2) as Hc3. cbn [bindM get bind].
  assert (Hend : leaves c None c3) by (split; [by eapply moves_trans|done]).
  destruct (work_terminated fuel c3 Hc3) as [Hd Hs]. unfold when.
  case_match; cbn [bindM get bind do_call wp_gen]; [intros set _; case_match; cbn [bindM get bind do_call wp_gen]|];
    rewrite ?Hd; cbn [bindM ret get bind do_call wp_gen]; rewrite Hs; exact Hend.
Qed.

Lemma loop_leaves fuel n (c : ftp_client) t :
  ctx_ok c ->
  wp_gen (fun e => e = Overflow) asks (thread_loop fuel (S n) c)
    (fun '(reason, c') _ => ctx_ok c'
       /\ reason ∈ [UNI_NET_FTP_CLIENT_DISCONNECT_REASON_TERMINATION; UNI_NET_FTP_CLIENT_DISCONNECT_REASON_CONNECT;
                    UNI_NET_FTP_CLIENT_DISCONNECT_REASON_NETWORK; UNI_NET_FTP_CLIENT_DISCONNECT_REASON_SOCKET]) t.
Proof.
  intros Hok. cbn [thread_loop bindM get bind]. case_match; [split; [done|set_solver]|].
  eapply wp_seq; [by apply turn_leaves|]. intros [[reason|] c1] t1 [Hm Hl]; cbn beta iota.
  - split; [apply Hm|]. apply elem_of_cons. by right.
  - unfold terminated in Hl. destruct n; cbn [thread_loop bindM get bind]; rewrite Hl; (split; [apply Hm|apply elem_of_cons; by left]).
Qed.

(** C19: One turn is enough to end the session after a request to disconnect, whatever
    the server sends and the callback does in that turn: the loop of the task is
    left (with the reason of the request, or because the connection is gone) and
    the disconnect that follows closes every handle.  Only the overflow of a 227
    reply is left open. *)
Theorem ftp_disconnect_ends fuel n (c : ftp_client) t :
  ctx_ok c ->
  wp_gen (fun e => e = Overflow) asks
    (bindM (thread_loop fuel (S n)) (fun reason => _uni_net_ftp_client_disconnect true reason ;; ret reason) c)
    (fun '(reason, c') _ => closed c'
       /\ reason ∈ [UNI_NET_FTP_CLIENT_DISCONNECT_REASON_TERMINATION; UNI_NET_FTP_CLIENT_DISCONNECT_REASON_CONNECT;
                    UNI_NET_FTP_CLIENT_DISCONNECT_REASON_NETWORK; UNI_NET_FTP_CLIENT_DISCONNECT_REASON_SOCKET]) t.
Proof.
  intros Hok. cbn [bindM].
  eapply (wp_seq _ _ _ _ (fun '(reason, c') _ => ctx_ok c' /\ reason ∈ _)); [by apply loop_leaves|].
  intros [reason c1] t1 [Hok1 Hr]. cbn beta iota. eapply wp_seq.
  { apply wp_and_always; [apply safe_halts; [done|apply safe_disconnect|apply halts_disconnect]|apply disconnect_closed]. }
  intros [[] c2] t2 [_ Hc]. by split.
Qed.

End Halts.
