(* ===== verification/FtpExamples.v ===== *)
(** * FTP: concrete runs

    A whole session with a scripted server, and the theorems about the FTP client
    at concrete inputs. *)

From S2P Require Import Prelude Env Prog Trace Instance CString Decimal FtpClient FtpTask FtpClientSpec FtpReplies FtpDialogue FtpTransfer FtpDownload FtpLiveness.
Import Demo.

(** ** A server *)

Definition script : list bytes :=
  [reply 220 SP (B "ready"); reply 200 SP (B "utf8"); reply 200 SP (B "binary"); reply 257 SP (B "/");
   passive_reply (B "Entering Passive Mode ") 10 0 0 1 4 1 []; reply 150 SP (B "opening (10 bytes)")].

Definition sends_event (e : event) : nat :=
  match e.(ev_call) with FreeRTOS_send 5 _ => 1%nat | _ => 0%nat end.
Definition sends (t : trace) : nat := sum_list_with sends_event t.

Definition sockets_event (e : event) : nat :=
  match e.(ev_call) with FreeRTOS_socket _ _ _ => 1%nat | _ => 0%nat end.
Definition sockets (t : trace) : nat := sum_list_with sockets_event t.

(** The next line of the script; the server greets, and then answers each command once. *)
Definition next_line (t : trace) : bytes :=
  if (recvs 5 t <=? sends t)%nat then default [] (eoln <$> script !! recvs 5 t) else [].

(** The application asks for a file when the client is ready, and disconnects
    after the transfer; the data comes in two segments. *)
Definition session : environment := fun t c =>
  match c return resp c with
  | FreeRTOS_socket _ _ _ => 5 + Z.of_nat (sockets t)
  | FreeRTOS_FD_ISSET s _ =>
      if s =? 5 then (if bool_decide (next_line t = []) then 0 else 1) else (if (sends t <? 5)%nat then 0 else 1)
  | FreeRTOS_recvcount _ => len (next_line t)
  | FreeRTOS_recv _ n => let d := take (Z.to_nat n) (next_line t) in (len d, d)
  | ftp_requests =>
      if (recvs 5 t =? 4)%nat then [Ftp_download (B "data.bin") 33 10]
      else if (recvs 5 t =? 6)%nat then [Ftp_disconnect] else []
  | FreeRTOS_recv_zero_copy _ n _ =>
      let d := match length (taken t) with O => B "hello" | S O => B "world" | _ => [] end in
      let d := take (Z.to_nat n) d in (len d, (200 + len (taken t), d))
  | c => good_env t c
  end.

Lemma session_ok t c : ftp_ok t c (session t c).
Proof.
  destruct c; cbn; try done.
  - rewrite length_take. lia.
  - rewrite length_take. split; [lia|]. intros _. split; [|done]. unfold NULL. lia.
Qed.

Definition account : ftp_config := mk_ftp_config 1 21 100 100 (Some (B "me")) (Some (B "secret")).

(** A context at address 0 of which only the callback was set. *)
Definition blank : ftp_client :=
  mk_ftp_client account
    (mk_ftp_state 7 NULL NULL NULL (mk_ftp_task 0 0 NULL 0 0 (replicate 32 NUL)) 60 61).

Lemma blank_ok : ctx_ok blank.
Proof. split_and!; try done; by eexists. Qed.


(** The same session with an application that has had enough. *)
Definition departing : environment := fun t c =>
  match c return resp c with
  | ftp_requests => [Ftp_list; Ftp_disconnect; Ftp_download (B "x") 1 2]
  | c => session t c
  end.

Lemma departing_asks t c : asks t c (departing t c).
Proof.
  split; [destruct c; first [done|apply (session_ok t)]|]. destruct c; cbn; try done. set_solver.
Qed.

Lemma ftp_disconnect_ends_witness : exists reason c' t',
  run departing (bindM (thread_loop 20 1) (fun reason => bindM (_uni_net_ftp_client_disconnect true reason) (fun _ => ret reason)) blank) []
    = (inl (reason, c'), t')
  /\ closed c' /\ reason = UNI_NET_FTP_CLIENT_DISCONNECT_REASON_TERMINATION.
Proof.
  pose proof (wp_gen_run _ asks departing _ _ [] departing_asks (ftp_disconnect_ends 20 0 blank [] blank_ok)) as HQ.
  destruct (run departing _ []) as [[[reason c']|e] t'] eqn:Hr.
  - destruct HQ as [Hc _]. exists reason, c', t'. split; [done|]. split; [done|].
    apply (f_equal (fun x => match x.1 with inl (r, _) => r | inr _ => -1 end)) in Hr. vm_compute in Hr. by subst.
  - exfalso. apply (f_equal (fun x => match x.1 with inl _ => true | inr _ => false end)) in Hr.
    vm_compute in Hr. done.
Defined.

(** ** Replies *)

Definition talker : ftp_client :=
  mk_ftp_client account
    (mk_ftp_state 7 4 5 NULL (mk_ftp_task 0 4 NULL 0 0 (replicate 32 NUL)) 60 61).

Lemma reply_lines_in_order_witness :
  run session (lines_loop 25 (concat (map eoln [B "220-hello"; []; B "220 ready"])) talker) []
  = run session (process [B "220-hello"; []; B "220 ready"; []] talker) [].
Proof.
  rewrite <- (app_nil_r (concat _)).
  apply (reply_lines_in_order session [B "220-hello"; []; B "220 ready"] [] talker []);
    [|apply not_elem_of_nil]. repeat constructor; by apply (bool_decide_unpack _).
Defined.

Lemma passive_reply_connects_witness : exists cl' t',
  run good_env (_uni_net_ftp_client_work_cmd_single (passive_reply (B "ok ") 10 0 0 1 4 1 []) talker) [] = (inl (tt, cl'), t')
  /\ attempts t' = [(5, mk_sockaddr 2 (1 * 256 + 4) 1, 0)] /\ cl'.(state).(socket_data) = 5.
Proof.
  destruct (wp_run any_answer good_env _ _ [] (fun _ _ => I)
    (passive_reply_connects talker (B "ok ") 10 0 0 1 4 1 [] []
       ltac:(by apply (bool_decide_unpack _)) ltac:(repeat constructor; lia))) as ([[] cl'] & t' & Hr & rc & Ha & Ht).
  exists cl', t'. split; [exact Hr|].
  assert (Hd : cl'.(state).(socket_data) = 5 /\ attempts t' = [(5, mk_sockaddr 2 (1 * 256 + 4) 1, 0)]).
  { injection Hr as <- <-. split; vm_compute; reflexivity. }
  split; apply Hd.
Defined.

(** A server that asks for the account first. *)
Definition dialogue : list (Z * byte * bytes) :=
  [(220, SP, B "ready"); (530, SP, B "login"); (331, SP, B "password"); (230, SP, B "welcome");
   (200, SP, B "binary"); (257, "-"%char, B "/")].
Definition kinds : list reply_kind := [Ready; Need_login; Need_password; Done; Done; Done].

Definition dialogue_env : environment := fun t c =>
  match c return resp c with
  | FreeRTOS_recvcount _ => len (default [] (eoln <$> (reply_line <$> dialogue) !! recvs 5 t))
  | FreeRTOS_recv _ _ => let d := default [] (eoln <$> (reply_line <$> dialogue) !! recvs 5 t) in (len d, d)
  | c => good_env t c
  end.

Lemma dialogue_env_ok t c : says 5 (reply_line <$> dialogue) [] t c (dialogue_env t c).
Proof.
  destruct c; cbn -[dialogue reply_line]; try done.
  - intros -> l. rewrite Nat.sub_0_r. intros Hl _. by rewrite Hl.
  - intros -> l. rewrite Nat.sub_0_r. intros Hl. by rewrite Hl.
Qed.


(** ** Transfers *)

Definition loading (ty st total : Z) : ftp_client :=
  mk_ftp_client account
    (mk_ftp_state 7 4 5 6 (mk_ftp_task ty st 33 0 total (B "data.bin" ++ replicate 24 NUL)) 60 61).

Lemma session_steady t c : steady t c (session t c).
Proof. split; [apply session_ok|]. by destruct c. Qed.

Lemma ftp_data_accounts_witness : exists c' t' got,
  run session (_uni_net_ftp_client_work_data 20 (loading 2 4 10)) [] = (inl (tt, c'), t')
  /\ went_through got [] t' /\ c'.(state).(task).(progress) = u32 (0 + volume got)
  /\ got = [(200, B "hello"); (201, B "world")].
Proof.
  destruct (wp_run steady session _ _ [] session_steady
    (ftp_data_accounts 20 (loading 2 4 10) [] ltac:(by left) ltac:(done) ltac:(by split_and!)
       ltac:(cbn; lia) ltac:(cbn; lia) ltac:(cbn; lia))) as ([[] c'] & t' & Hr & got & Hg & _ & _ & Hp & _).
  exists c', t', got. split; [exact Hr|]. split; [exact Hg|]. split; [exact Hp|].
  destruct Hg as (Ht & _). change (taken [] ++ got) with got in Ht. rewrite <- Ht.
  injection Hr as _ <-. vm_compute. reflexivity.
Defined.

Definition ready : ftp_client :=
  mk_ftp_client account (mk_ftp_state 7 4 5 NULL (mk_ftp_task 1 5 NULL 0 0 (replicate 32 NUL)) 60 61).

Lemma download_request_witness : exists c',
  uni_net_ftp_client_download (Some ready) (B "a name that is longer than thirty-one") 33 10 = (true, Some (Some c'))
  /\ cstr c'.(state).(task).(task_name) = Some (B "a name that is longer than thir").
Proof.
  destruct (download_request ready (B "a name that is longer than thirty-one") 33 10) as (c' & Hd & Hn & _).
  - split_and!; try done; by eexists.
  - by apply (bool_decide_unpack _).
  - exists c'. split; [exact Hd|exact Hn].
Defined.

Lemma command_lines_witness :
  format_cmd (B "USER ") (B "me") = B "USER " ++ B "me" ++ [CR; LF]
  /\ LF ∉ format_cmd (B "PASS ") (replicate 57 "p"%char).
Proof.
  split.
  - apply (command_lines (B "USER ") (B "me")); [done|by apply (bool_decide_unpack _)..|rewrite length_B; cbn; lia].
  - apply (command_lines (B "PASS ") (replicate 57 "p"%char)); [done|by apply (bool_decide_unpack _)..|].
    rewrite length_replicate. lia.
Defined.

Lemma good_quiet t c : quiet t c (good_env t c).
Proof. by destruct c. Qed.

Lemma list_ends_before_data_witness : exists c' t',
  run good_env (_uni_net_ftp_client_work_state (loading 3 4 0)) [] = (inl (tt, c'), t')
  /\ told t' = [(2, None, 0)] /\ taken t' = [].
Proof.
  destruct (wp_run quiet good_env _ _ [] good_quiet
    (list_ends_before_data (loading 3 4 0) [] eq_refl eq_refl eq_refl eq_refl ltac:(done))) as ([[] c'] & t' & Hr & Ht & Hk & _).
  exists c', t'. split; [exact Hr|]. split; [exact Ht|exact Hk].
Defined.

Lemma no_size_ends_after_one_segment_witness : exists c' t' got,
  run session (bindM (_uni_net_ftp_client_handler_150 (Some (B "opening"))) (fun _ => _uni_net_ftp_client_work_data 9)
                 (loading 2 4 10)) [] = (inl (tt, c'), t')
  /\ (length got <= 1)%nat /\ told t' = map (fun p : ptr * bytes => (1, Some p.2, len p.2)) got.
Proof.
  destruct (wp_run steady session _ _ [] session_steady
    (no_size_ends_after_one_segment 7 (B "opening") (loading 2 4 10) [] ltac:(by apply (bool_decide_unpack _))
       ltac:(by left) ltac:(done) eq_refl)) as ([[] c'] & t' & Hr & _ & got & Hl & _ & Ht & _).
  exists c', t', got. split; [exact Hr|]. split; [exact Hl|exact Ht].
Defined.

(** A callback that disconnects whenever it is called. *)
Definition leaving : environment := fun t c =>
  match c return resp c with
  | ftp_callback _ _ _ _ _ _ => [Ftp_disconnect]
  | c => good_env t c
  end.

Lemma leaving_ok t c : asks_to_disconnect t c (leaving t c).
Proof. by destruct c. Qed.

Lemma disconnect_lost_in_callback_witness : exists c' t',
  run leaving (_uni_net_ftp_client_work_state (loading 2 4 0)) [] = (inl (tt, c'), t')
  /\ told t' = [(2, None, 0)] /\ c'.(state).(task).(task_type) = 1.
Proof.
  destruct (wp_run asks_to_disconnect leaving _ _ [] leaving_ok
    (disconnect_lost_in_callback (loading 2 4 0) [] ltac:(by left) eq_refl ltac:(cbn; lia) ltac:(done)))
    as ([[] c'] & t' & Hr & Ht & Hk).
  exists c', t'. split; [exact Hr|]. split; [exact Ht|exact Hk].
Defined.

Lemma error_reported_twice_witness : exists c' t',
  run good_env (bindM (_uni_net_ftp_client_work_cmd_single (dec 421 ++ SP :: B "bye"))
                  (fun _ => _uni_net_ftp_client_disconnect true 6) talker) [] = (inl (tt, c'), t')
  /\ told t' = [(0, None, 1); (0, None, 6)].
Proof.
  destruct (wp_run quiet good_env _ _ [] good_quiet
    (error_reported_twice 421 (B "bye") 6 talker [] ltac:(by apply (bool_decide_unpack _)) ltac:(done)))
    as ([[] c'] & t' & Hr & _ & Ht).
  exists c', t'. split; [exact Hr|exact Ht].
Defined.

Lemma good_fresh t c : fresh 6 t c (good_env t c).
Proof. by destruct c. Qed.

(** Socket 6 was open and still is. *)
Definition before : trace := [Ev (FreeRTOS_socket 2 1 6) 6].

Lemma passive_twice_leaks_witness : exists c' t',
  run good_env (bindM (_uni_net_ftp_client_work_cmd_single (passive_reply (B "ok ") 10 0 0 1 4 1 []))
                  (fun _ => _uni_net_ftp_client_disconnect false 0) ((loading 2 4 10) <| state ::= fun st => st <| socket_cmd := 3 |> |>)) before
    = (inl (tt, c'), t')
  /\ closed c' /\ open_sockets 6 t' = 1.
Proof.
  destruct (wp_run (fresh 6) good_env _ _ before good_fresh
    (passive_twice_leaks ((loading 2 4 10) <| state ::= fun st => st <| socket_cmd := 3 |> |>) 6 (B "ok ") 10 0 0 1 4 1 [] 0 before
       ltac:(by apply (bool_decide_unpack _)) ltac:(repeat constructor; lia) eq_refl ltac:(done) ltac:(done)))
    as ([[] c'] & t' & Hr & Hc & Ho).
  exists c', t'. split; [exact Hr|]. split; [exact Hc|exact Ho].
Defined.

(** ** A whole download *)

Definition gift : offer :=
  mk_offer 5 6 (B "data.bin") (B "helloworld") (passive_reply (B "Entering Passive Mode ") 10 0 0 1 4 1 [])
    [reply 150 SP (B "opening (10 bytes)"); reply 226 SP (B "complete")].

(** The lines come at once, the data in pieces of four bytes. *)
Definition giver : environment := fun t c =>
  match c return resp c with
  | FreeRTOS_socket _ _ _ => 6
  | FreeRTOS_recvcount _ => len (default [] (eoln <$> due_line gift [] t))
  | FreeRTOS_recv _ _ => let d := default [] (eoln <$> due_line gift [] t) in (len d, d)
  | FreeRTOS_recv_zero_copy _ n _ =>
      let d := take (Z.to_nat (Z.min n 4)) (to_come gift [] t) in (len d, (200 + len (taken t), d))
  | c => good_env t c
  end.

Lemma giver_ok t c : file_server gift [] t c (giver t c).
Proof.
  destruct c; cbn -[due_line to_come gift]; try done.
  - intros _ l Hl _. by rewrite Hl.
  - intros _ Hn. destruct (to_come gift [] t) as [|x rest] eqn:Hc.
    + left. rewrite take_nil. split_and!; [done|done|done].
    + right. split_and!; [rewrite length_take; cbn; lia..|unfold NULL; lia|done|apply prefix_take].
  - intros _. destruct (due_line gift [] t) as [l|] eqn:Hl; [by left|done].
Qed.

Lemma gift_ok : offer_ok gift 4 1.
Proof.
  constructor; try done; cbn [gift of_name of_file of_passive of_replies].
  - rewrite length_B. cbn. lia.
  - by apply (bool_decide_unpack _).
  - exists (B "Entering Passive Mode "), 10, 0, 0, 1, []. split_and!; [done|by apply (bool_decide_unpack _)|repeat constructor; lia|..];
      by apply (bool_decide_unpack _).
  - apply Forall_cons. split; [|apply Forall_singleton].
    + apply (line_150 10 SP (B "opening ") (B " bytes)")); [by left|by apply (bool_decide_unpack _)|done|].
      split_and!; by apply (bool_decide_unpack _).
    + apply line_226; [by left|]. split_and!; by apply (bool_decide_unpack _).
Qed.

